(* ===== verification/_CoqProject ===== *)
-Q . S2P
Prelude.v
Sort.v
GoStrings.v
Sha256.v
NetIP.v
GoErr.v
Prog.v
ApiTypes.v
K8sTypes.v
Schema.v
ApplyConf.v
ApplyParts.v
ApplyObjects.v
ApplyJson.v
Env.v
NetbirdUtil.v
Reconcile.v
Mirror.v
NetworkMirror.v
ServiceAddr.v
DNSMirror.v
Rps.v
Gateway.v
GatewayCtl.v
LoadBalancer.v
RpCluster.v
GroupCtl.v
SetupKeyCtl.v
Router.v
ClusterProxyCtl.v
Webhook.v
Config.v
Bounds.v
Identity.v
Ownership.v
Mock.v
DeepCopy.v
DeepCopyApi.v
Converge.v
Lifecycle.v
Settle.v
Convergence.v
KeySettle.v
Exposure.v
Operator.v
Mapping.v
Writes.v
System.v
