(* ===== verification/Prelude.v ===== *)
(** * netbird-operator: verification development (root file)

    The NetBird operator reconciles custom resources of the group
    [netbird.io/v1alpha1], Kubernetes Services, and Gateway API objects with
    objects of the NetBird Management API.  This library is a shallow embedding
    of its Go code: each handler, helper and builder under [src/] is a
    definition with the name of the Go function, and the theorems are about
    those definitions.

    ** The program and its parts

    [cmd/main.go] parses flags, and registers the controllers a configuration
    enables with the manager; each controller declares what it watches and then
    runs one [Reconcile] per event, concurrently with all the others.

    - [Operator.v]: [main], [setupControllers] and every [SetupWithManager];
      [reconcile_of] dispatches to the reconciles below.  [Config.v]: logger
      options, group lists, version text ([internal/logging],
      [internal/version]).
    - [ApiTypes.v]: [api/v1alpha1]; [DeepCopy.v], [DeepCopyApi.v]: its
      generated deep copies, over a memory of Go values.  [K8sTypes.v]: the fields of Kubernetes and
      Gateway API objects the code reads.
    - [ApplyConf.v] (what the controllers call), [ApplyParts.v],
      [ApplyObjects.v] (a module per kind with its own methods): the builders
      of [pkg/applyconfigurations] and [ForKind]; [Schema.v]: the schema of its parser; [ApplyJson.v]: the JSON
      of a builder, and that these tables fit together.
    - [NetbirdUtil.v]: [internal/netbirdutil] (list caches, lookups, group
      resolution, conflicts).  [Reconcile.v]: [reconcile.go], [events.go],
      [internal/k8sutil].
    - [Mirror.v]: [mirror.go], the generic reconciler of the kinds that mirror
      one NetBird object.  A kind is a [mirror] record; [NetworkMirror.v]
      ([network_mirror.go], [networkresource_mirror.go]), [DNSMirror.v]
      ([dnszone_mirror.go], [dnsrecord_mirror.go]) and [Rps.v]
      ([reverseproxyservice_mirror.go]) each give one and prove its
      [MirrorBehaviour], which is all the generic theorems assume.
    - [GroupCtl.v], [SetupKeyCtl.v], [Router.v], [ClusterProxyCtl.v],
      [RpCluster.v]: the controllers with a reconcile of their own
      ([group_], [setupkey_], [networkrouter_], [clusterproxy_],
      [reverseproxycluster_controller.go]).
    - [Gateway.v] and [GatewayCtl.v]: [gateway_controller.go], the pure
      translation and the three reconcilers; [ServiceAddr.v] and
      [LoadBalancer.v]: [serviceaddr.go] and [loadbalancer_controller.go].
      They write custom resources only, which the controllers above then bring
      to NetBird.
    - [Webhook.v]: [internal/webhook/v1/pod_webhook.go].
    - [Mock.v]: [internal/netbirdmock/netbirdmock.go], the in-memory API.
    - [Converge.v], [Lifecycle.v], [Settle.v], [Convergence.v],
      [KeySettle.v], [Exposure.v], [Mapping.v], [Writes.v]: the parts together -
      mirrors and groups against the mock, their deletion, the same for
      reverse-proxy services and routers, the seven controllers in one theorem
      each, setup keys, what the applied children of a Service, a Gateway or a
      route become, which watch event reaches which reconcile, what each
      controller writes in the cluster.
    - [GoStrings.v], [Sha256.v], [NetIP.v], [Sort.v], [GoErr.v]: what the code
      uses of Go's standard library, executable; [Prelude.v] (this file): the
      generic lemmas and automation.

    ** How effects are modelled

    A reconciler is a [prog] ([Prog.v]): a finite tree whose nodes are the
    calls of [Env.v] (Kubernetes client, NetBird client, clock, caches, event
    recorder) and which continues on every response.  Nothing is assumed of the
    environment: [runs p t a] holds of every trace of calls and responses, so
    a theorem over [runs] covers failures, stale reads, and whatever other
    clients do between two calls.  [wp] is the predicate transformer the proofs
    use, [exec] runs a program against a concrete handler and gives the
    witnesses.  Program logics over the same tree, each with a class its
    components instantiate, give the theorems about all controllers at once:

    - [Ownership.v] ([Recorder], [Tracked]): which ids a program may use;
      [System.v] runs programs against each other in an interleaving
      transition system and proves its invariant;
    - [Identity.v] ([Specified], [Keeping]): what the written object keeps of
      the one that was read; [Writes.v] ([footprint]): which kinds a program
      patches, applies and deletes;
    - [Bounds.v] ([Counted]): how many calls a run makes, [within] for loops
      over what it has read;
    - [Converge.v] ([Core], [Converging]) and [Lifecycle.v] ([Releasing]): a
      run answered by the mock and by a cluster that holds the resource and
      what it refers to; [Settle.v] gives the instances for services and shows
      that a NetworkRouter acts as a mirror ([router_acts], [router_mirror]);
      [Convergence.v] discharges the classes for each controller, so that its
      two theorems assume only what the cluster holds.

    Interfaces with laws stand for libraries: [K8sLib]/[K8sLibLaws]
    (finalizers, conditions, the scheme), [ErrorClass]/[ErrorClassLaws]
    (classification of client errors), [SortSlice] ([sort.Slice]).  Each has a
    concrete instance, at which the witnesses run.  Names and constants of
    third-party packages are arguments of the definitions that use them.

    Choices: a Go pointer is [option], and a custom resource a value that a
    reconciler changes without changing the cached one, which is what its deep
    copy has to provide ([API_DeepCopy]); an error is a value of [GoErr.v] with
    its wrap chain; a map is a [gmap]; durations are nanoseconds in [Z];
    contexts and log lines are left out; whether an event recorder is set is a
    boolean; [SerialPatcher.Patch] is the call [KPatch] with the flag of the
    observed generation; a list cache is read and written back by two calls,
    so another reconcile may change it in between, which is more behaviour
    than the mutex allows.

    Recursion: programs are finite trees, so every reconcile is total; loops
    are structural, over a list of the resource or the two address families.
    Fuel occurs in [GoStrings.v] (trimming: the length of the string, one
    byte is dropped per step) and [NetIP.v] (an IPv6 address has eight groups;
    the round trip theorems show the bound never cuts a parse short).
    Machine integers keep their width where the code can overflow: SHA-256
    words and the [int8] of a zap level.

    ** What the theorems show

    - The operator as a whole: in every interleaving an id recorded by a
      custom resource was handed out for that resource, so none updates or
      deletes an object made for another ([reconcilers_exclusive]); a reconcile
      changes nothing of its resource but finalizer and status, and beside it
      applies and deletes children of fixed kinds only
      ([reconcilers_keep_spec]); it makes a number of calls its resource
      determines ([reconcilers_terminate]); every child a controller applies is
      of a kind it watches, with one exception ([children_watched]).
    - Mirrors: finalizer before the first NetBird write, finalizer released
      only after the delete, Ready only after a successful upsert, dependencies
      requeued; zones and records adopted, a shared zone deleted with its last
      user; a resource converges against the mock and leaves nothing behind when
      it is deleted, and the mock keeps its own contract
      ([reconcilers_converge], [reconcilers_leave_nothing], [mock_contract]) -
      for the mirrors, groups and routers.  A SetupKey never settles there (the
      mock reports no key state, so every reconcile replaces the key), but it
      leaves one key, and none once it is deleted ([keys_never_pile_up],
      [keys_all_deleted]).  What goes wrong when the status is not stored:
      [lost_status_duplicates].
    - Own controllers: what each branch writes, what a status says of NetBird,
      tokens, keys and registrations recorded and released, and where the code
      does less than it says ([Router_empty_group], [repoints_declared_domain]).
    - Gateway and LoadBalancer: which routes and hostnames are admitted, the
      translation of rules to backends against a reference definition, failing
      closed on an error, what a reconcile has done when it returns, cause by
      cause ([HTTPRoute_converges], [LoadBalancer_converges]), what the children
      are once their mirrors ran ([LoadBalancer_exposes], [HTTPRoute_exposes];
      for a Gateway, all that its cluster does, [Gateway_exposes]), and that the
      handlers of a watch enqueue exactly the objects that refer to the one that
      changed, with the reads no watch covers ([handlers_complete]).
    - Pure code: addresses and record keys round trip, names are bounded and
      valid, verbosity options, requests rendered; the apply configurations
      agree with their schema ([ForKind_agrees], [Parser_well_formed]) and name
      the objects they are extracted from ([Extract_names_object]); no deep copy
      shares memory with its original ([API_DeepCopy]).

    ** Not modelled

    - The library under the apply configurations (extraction by field manager,
      merging by a schema): parameters, or only the types it is given.
    - Metrics, leader election, probes and the logger constructor
      ([internal/controller/log.go]): values handed to the manager's library.
    - HTTP, JSON and locks of the mock: a handler is one step on decoded
      values; map order and random identifiers are arguments.
    - The strategic merge of the webhook's override and the Kubernetes
      libraries' own code: parameters.
    - Charts, manifests, examples and tests.
    - Against the mock: ReverseProxyCluster and ClusterProxy, whose convergence
      depends on pods the operator only declares, and on clusters and custom
      domains that NetBird enrols and validates itself.  [Gateway_exposes] and
      the theorems of [RpCluster.v] hold for every answer instead. *)

From stdpp Require Import base list strings pretty.
From Stdlib Require Import ZArith Lia.

(** ** Go results: a value or an error

    A Go function that returns [(T, error)] is a function that returns
    [result E T].  The code never uses the value next to a non-nil error. *)
Inductive result (E A : Type) : Type :=
| Ok (a : A)
| Err (e : E).
Arguments Ok {E A} a.
Arguments Err {E A} e.

Definition is_ok {E A} (r : result E A) : bool :=
  match r with Ok _ => true | Err _ => false end.

(** The error half of a result, [None] standing for Go's [nil]. *)
Definition err_of {E A} (r : result E A) : option E :=
  match r with Ok _ => None | Err e => Some e end.

(** ** Lists *)

(** Go's [slices.IndexFunc] followed by an index: the first match. *)
Fixpoint find_first {A} (f : A -> bool) (l : list A) : option A :=
  match l with
  | [] => None
  | x :: l' => if f x then Some x else find_first f l'
  end.

(** The [seen] idiom of the Go code ([if !seen[x] { seen[x] = true; out =
    append(out, x) }]): first occurrences, in order. *)
Fixpoint dedup_seen {A} `{EqDecision A} (seen : list A) (l : list A) : list A :=
  match l with
  | [] => []
  | x :: l' =>
      if decide (x ∈ seen) then dedup_seen seen l'
      else x :: dedup_seen (x :: seen) l'
  end.
Abbreviation dedup := (dedup_seen []).

Section find_first.
Context {A : Type}.
Implicit Types (f : A -> bool) (l : list A).

Lemma find_first_Some f l x :
  find_first f l = Some x -> x ∈ l /\ f x = true.
Proof.
  induction l as [|y l IH]; cbn; [done|].
  destruct (f y) eqn:Hy; intros H.
  - simplify_eq. split; [left|done].
  - destruct (IH H). split; [by right|done].
Qed.

Lemma find_first_split f l x :
  find_first f l = Some x -> exists l1 l2, l = l1 ++ x :: l2 /\ f x = true /\ forall y, y ∈ l1 -> f y = false.
Proof.
  induction l as [|y l IH]; cbn; [done|]. destruct (f y) eqn:Hy.
  - intros [= ->]. exists [], l. split; [done|split; [done|]]. by intros ? ?%not_elem_of_nil.
  - intros (l1 & l2 & -> & Hx & Hno)%IH. exists (y :: l1), l2. split; [done|split; [done|]].
    intros z [->|Hz]%elem_of_cons; [done|by apply Hno].
Qed.

Lemma find_first_None f l :
  find_first f l = None <-> forall x, x ∈ l -> f x = false.
Proof.
  induction l as [|y l IH]; cbn.
  - split; [intros _ x Hx; by apply not_elem_of_nil in Hx|done].
  - destruct (f y) eqn:Hy.
    + split; [done|]. intros H. specialize (H y). rewrite H in Hy; [done|left].
    + rewrite IH. split.
      * intros H x Hx. apply elem_of_cons in Hx as [->|Hx]; auto.
      * intros H x Hx. apply H. by right.
Qed.

Lemma find_first_is_Some f l x :
  x ∈ l -> f x = true -> is_Some (find_first f l).
Proof.
  intros Hx Hf. destruct (find_first f l) eqn:E; [eauto|].
  rewrite find_first_None in E. rewrite E in Hf; done.
Qed.
End find_first.

Section dedup.
Context {A : Type} `{EqDecision A}.
Implicit Types (seen l : list A).

Lemma elem_of_dedup_seen seen l x :
  x ∈ dedup_seen seen l <-> x ∈ l /\ x ∉ seen.
Proof.
  revert seen. induction l as [|y l IH]; intros seen; cbn.
  - split; [intros H; by apply not_elem_of_nil in H|intros [H _]; done].
  - case_decide as Hy; rewrite ?elem_of_cons, !IH, ?not_elem_of_cons.
    + split; [intros []; auto|]. intros [[->|?] ?]; [done|auto].
    + split.
      * intros [->|[? []]]; auto.
      * intros [[->|?] ?]; [auto|]. destruct (decide (x = y)) as [->|]; auto.
Qed.

Lemma NoDup_dedup_seen seen l : NoDup (dedup_seen seen l).
Proof.
  revert seen. induction l as [|y l IH]; intros seen; cbn; [constructor|].
  case_decide; [done|]. constructor; [|done].
  rewrite elem_of_dedup_seen. intros [_ H']. apply H'. left.
Qed.

Lemma elem_of_dedup l x : x ∈ dedup l <-> x ∈ l.
Proof.
  rewrite elem_of_dedup_seen. split; [by intros []|].
  intros ?. split; [done|apply not_elem_of_nil].
Qed.

Lemma dedup_nil_inv l : dedup l = [] -> l = [].
Proof. by destruct l. Qed.
End dedup.

Lemma existsb_elem {A} (f : A -> bool) (l : list A) :
  existsb f l = true <-> exists x, x ∈ l /\ f x = true.
Proof.
  rewrite existsb_exists. split; intros (x & Hx & ?); exists x;
    [rewrite list_elem_of_In|rewrite <- list_elem_of_In]; auto.
Qed.

Lemma existsb_elem_false {A} (f : A -> bool) (l : list A) :
  existsb f l = false <-> forall x, x ∈ l -> f x = false.
Proof.
  rewrite <- not_true_iff_false, existsb_elem. split.
  - intros H x Hx. destruct (f x) eqn:E; [|done]. exfalso. eauto.
  - intros H (x & Hx & Hf). rewrite H in Hf; done.
Qed.

Lemma NoDup_map_inj {A B} (f : A -> B) (l : list A) x y :
  NoDup (map f l) -> x ∈ l -> y ∈ l -> f x = f y -> x = y.
Proof.
  intros Hn. induction l as [|z l IH]; intros Hx Hy Hf; [by apply not_elem_of_nil in Hx|].
  cbn in Hn. apply NoDup_cons in Hn as [Hz Hn].
  assert (forall w, w ∈ l -> f w <> f z) as Hne.
  { intros w Hw He. apply Hz. rewrite <- He. apply list_elem_of_In, in_map. by apply list_elem_of_In. }
  apply elem_of_cons in Hx as [->|Hx], Hy as [->|Hy]; auto.
  - by destruct (Hne y Hy).
  - by destruct (Hne x Hx).
Qed.

(** ** Automation

    [go_hints] collects the lemmas that close the common side conditions of
    the component files: membership in filtered and deduplicated lists, and
    the shape of successful results. *)
Create HintDb go_hints.
#[export] Hint Resolve NoDup_dedup_seen : go_hints.
Create Rewrite HintDb go_rew.
#[export] Hint Rewrite @elem_of_dedup @existsb_elem @existsb_elem_false : go_rew.

(** Split every [match]/[if] scrutinee of the goal, keeping its equation. *)
Ltac case_scrut :=
  match goal with
  | |- context [match ?x with _ => _ end] =>
      lazymatch x with
      | context [match _ with _ => _ end] => fail
      | _ => destruct x eqn:?
      end
  end.

Ltac case_scrut_in H :=
  match type of H with
  | context [match ?x with _ => _ end] =>
      lazymatch x with
      | context [match _ with _ => _ end] => fail
      | _ => destruct x eqn:?
      end
  end.

(** Turn the boolean tests of the code into propositions. *)
Ltac bool_prop :=
  repeat match goal with
  | H : _ && _ = true |- _ => apply andb_true_iff in H as [? ?]
  | H : _ || _ = false |- _ => apply orb_false_iff in H as [? ?]
  | H : _ && _ = false |- _ => apply andb_false_iff in H as [H|H]
  | H : _ || _ = true |- _ => apply orb_true_iff in H as [H|H]
  | H : negb _ = true |- _ => apply negb_true_iff in H
  | H : negb _ = false |- _ => apply negb_false_iff in H
  | H : bool_decide _ = true |- _ => apply bool_decide_eq_true in H
  | H : bool_decide _ = false |- _ => apply bool_decide_eq_false in H
  | H : String.eqb _ _ = true |- _ => apply String.eqb_eq in H
  | H : String.eqb _ _ = false |- _ => apply String.eqb_neq in H
  end.
