(* ===== verification/Sort.v ===== *)
(** * [sort.Slice]

    The code sorts with [sort.Slice], which promises a permutation that is
    sorted when the comparator is a strict weak order, and nothing about equal
    elements.  The promise is the interface [SortSlice]; the instance is the
    insertion sort Go runs on slices of at most twelve elements. *)

From stdpp Require Import base list sets sorting.
From Stdlib Require Import Lia.
From S2P Require Import Prelude.

(** The comparator's obligations. *)
Record strict_weak {A} (less : A -> A -> bool) : Prop := {
  sw_irrefl : forall x, less x x = false;
  sw_asym : forall x y, less x y = true -> less y x = false;
  sw_trans : forall x y z, less y x = false -> less z y = false -> less z x = false
}.

(** [x] may stand before [y]. *)
Definition may_precede {A} (less : A -> A -> bool) (x y : A) : Prop := less y x = false.

Class SortSlice := sort_slice : forall {A : Type}, (A -> A -> bool) -> list A -> list A.

Class SortSliceLaws `{SortSlice} := {
  sort_slice_perm : forall {A} (less : A -> A -> bool) l, sort_slice less l ≡ₚ l;
  sort_slice_sorted : forall {A} (less : A -> A -> bool) l,
    strict_weak less -> StronglySorted (may_precede less) (sort_slice less l);
  (** only the elements of the slice are compared *)
  sort_slice_ext : forall {A} (less less' : A -> A -> bool) l,
    (forall x y, x ∈ l -> y ∈ l -> less x y = less' x y) ->
    sort_slice less l = sort_slice less' l
}.

(** Move [x] left past the elements it is less than; [rp] is the sorted prefix,
    last element first. *)
Fixpoint insert_left {A} (less : A -> A -> bool) (x : A) (rp : list A) : list A :=
  match rp with
  | [] => [x]
  | p :: rp' => if less x p then p :: insert_left less x rp' else x :: rp
  end.

Fixpoint insertion_loop {A} (less : A -> A -> bool) (rp l : list A) : list A :=
  match l with
  | [] => rp
  | x :: l' => insertion_loop less (insert_left less x rp) l'
  end.

Definition insertionSort {A} (less : A -> A -> bool) (l : list A) : list A :=
  rev (insertion_loop less [] l).

#[export] Instance insertion_sort_slice : SortSlice := @insertionSort.

Lemma insert_left_perm {A} (less : A -> A -> bool) x rp : insert_left less x rp ≡ₚ x :: rp.
Proof.
  induction rp as [|p rp IH]; cbn; [done|].
  destruct (less x p); [|done]. rewrite IH. apply Permutation_swap.
Qed.

Lemma insertion_loop_perm {A} (less : A -> A -> bool) l rp :
  insertion_loop less rp l ≡ₚ rp ++ l.
Proof.
  revert rp. induction l as [|x l IH]; intros rp; cbn; [by rewrite app_nil_r|].
  rewrite IH, insert_left_perm. apply Permutation_middle.
Qed.

(** Reversed, the prefix is sorted. *)
Lemma insert_left_sorted {A} (less : A -> A -> bool) x rp :
  strict_weak less ->
  StronglySorted (fun y z => may_precede less z y) rp ->
  StronglySorted (fun y z => may_precede less z y) (insert_left less x rp).
Proof.
  intros Hsw. unfold may_precede. induction rp as [|p rp IH]; cbn; intros Hs.
  - constructor; constructor.
  - apply StronglySorted_inv in Hs as [Hs Hp]. destruct (less x p) eqn:Hxp.
    + constructor; [auto|]. apply Forall_forall. intros y Hy.
      rewrite insert_left_perm in Hy. apply elem_of_cons in Hy as [->|Hy].
      * by apply (sw_asym _ Hsw).
      * rewrite Forall_forall in Hp. auto.
    + constructor; [by constructor|]. constructor; [done|].
      eapply Forall_impl; [exact Hp|]. intros y Hy. cbn in *.
      eapply (sw_trans _ Hsw); [exact Hy|exact Hxp].
Qed.

Lemma StronglySorted_snoc_iff {A} (R : A -> A -> Prop) l x :
  StronglySorted R (l ++ [x]) <-> StronglySorted R l /\ Forall (fun y => R y x) l.
Proof.
  induction l as [|y l IH]; cbn.
  - split; [intros _; split; constructor|intros _; constructor; constructor].
  - split.
    + intros [Hs Hy]%StronglySorted_inv. apply IH in Hs as [Hs Hl].
      apply Forall_app in Hy as [? Hy]. inversion Hy; subst. split; constructor; done.
    + intros [[Hs Hy]%StronglySorted_inv Hl]. inversion Hl; subst.
      constructor; [by apply IH|]. apply Forall_app. split; [done|]. by constructor.
Qed.

Lemma StronglySorted_rev {A} (R : A -> A -> Prop) l :
  StronglySorted (fun x y => R y x) l -> StronglySorted R (rev l).
Proof.
  induction 1 as [|x l Hs IH Hx]; cbn; [constructor|].
  apply StronglySorted_snoc_iff. split; [done|].
  by apply List.Forall_rev.
Qed.

Lemma insertion_loop_ext {A} (less less' : A -> A -> bool) l rp :
  (forall x y, x ∈ rp ++ l -> y ∈ rp ++ l -> less x y = less' x y) ->
  insertion_loop less rp l = insertion_loop less' rp l.
Proof.
  revert rp. induction l as [|x l IH]; intros rp Hl; cbn; [done|].
  assert (insert_left less x rp = insert_left less' x rp) as Hins.
  { assert (forall p, p ∈ rp -> less x p = less' x p) as Hx by (intros p Hp; apply Hl; set_solver).
    clear -Hx. induction rp as [|p rp IH]; cbn; [done|].
    rewrite <- (Hx p) by left. rewrite IH; [done|]. intros q Hq. apply Hx. by right. }
  rewrite <- Hins. apply IH. intros y z. rewrite insert_left_perm.
  intros Hy Hz. apply Hl; set_solver.
Qed.

#[export] Instance insertion_sort_laws : SortSliceLaws.
Proof.
  constructor; intros A less l; unfold sort_slice, insertion_sort_slice, insertionSort.
  - rewrite <- Permutation_rev. apply insertion_loop_perm.
  - intros Hsw. apply StronglySorted_rev.
    assert (forall rp, StronglySorted (fun x y => may_precede less y x) rp ->
      StronglySorted (fun x y => may_precede less y x) (insertion_loop less rp l)) as H.
    { induction l as [|x l IH]; intros rp Hrp; cbn; [done|].
      apply IH, insert_left_sorted; done. }
    apply H. constructor.
  - intros less' Hl. f_equal. by apply insertion_loop_ext.
Qed.

(** The sort order fixes the sequence of sort keys: two slices with the same
    elements give the same keys in the same order. *)
Lemma sort_slice_keys `{SortSliceLaws} {A K} (less : A -> A -> bool) (key : A -> K) l1 l2 :
  strict_weak less ->
  (forall x y, less x y = false -> less y x = false -> key x = key y) ->
  (forall x x' y y', key x = key x' -> key y = key y' -> less x y = less x' y') ->
  l1 ≡ₚ l2 -> map key (sort_slice less l1) = map key (sort_slice less l2).
Proof.
  intros Hsw Hanti Hkey Hp.
  assert (map key (sort_slice less l1) ≡ₚ map key (sort_slice less l2)) as Hp'
    by (apply Permutation_map; by rewrite !sort_slice_perm).
  set (R := fun a b : K => forall x y, key x = a -> key y = b -> less y x = false).
  assert (forall l, StronglySorted (may_precede less) l -> StronglySorted R (map key l)) as Hm.
  { induction 1 as [|x l Hs IH Hx]; cbn; constructor; [done|].
    rewrite Forall_forall in Hx. apply Forall_forall. intros b.
    rewrite list_elem_of_In, in_map_iff. intros (y & <- & Hy) x' y' Hx' Hy'.
    rewrite (Hkey y' y x' x) by done. apply Hx. by apply list_elem_of_In. }
  assert (forall a b, a ∈ map key (sort_slice less l1) -> b ∈ map key (sort_slice less l1) ->
    R a b -> R b a -> a = b) as HR.
  { intros a b. rewrite !list_elem_of_In, !in_map_iff. intros (x & <- & _) (y & <- & _) H1 H2.
    apply Hanti; [by apply H2|by apply H1]. }
  pose proof (Hm _ (sort_slice_sorted less l1 Hsw)) as S1.
  pose proof (Hm _ (sort_slice_sorted less l2 Hsw)) as S2.
  revert S1 S2 Hp' HR. generalize (map key (sort_slice less l1)) as k1.
  generalize (map key (sort_slice less l2)) as k2. clear.
  intros k2 k1 S1. revert k2. induction S1 as [|a k1 S1 IH Ha]; intros k2 S2 Hp HR.
  - by apply Permutation_nil in Hp.
  - destruct S2 as [|b k2 S2 Hb]; [by apply Permutation_sym, Permutation_nil in Hp|].
    assert (a = b) as <-.
    { rewrite Forall_forall in Ha, Hb.
      assert (b ∈ a :: k1) as Hin by (rewrite Hp; left).
      assert (a ∈ b :: k2) as Hin' by (rewrite <- Hp; left).
      apply elem_of_cons in Hin as [->|Hin]; [done|].
      apply elem_of_cons in Hin' as [->|Hin']; [done|].
      apply HR; [left|by right|by apply Ha|by apply Hb]. }
    f_equal. apply IH; [done|by apply Permutation_cons_inv in Hp|].
    intros x y Hx Hy. apply HR; by right.
Qed.
