(* ===== verification/GoStrings.v ===== *)
(** * Go strings

    The functions of Go's [strings], [strconv] and [fmt] packages the operator
    uses, on [string] as a sequence of bytes (a Go string is one).  [ToLower]
    is exact on the runes whose lower case is ASCII, and so on the question
    whether the result is a given ASCII string; the other definitions are exact
    on every byte string. *)

From stdpp Require Import base list strings pretty.
From Stdlib Require Import Ascii ZArith Lia.
From S2P Require Import Prelude.

Open Scope string_scope.
Open Scope list_scope.
#[global] Arguments String.append _ _ : simpl nomatch.

Module strings.

Definition HasPrefix (s p : string) : bool := String.prefix p s.

Fixpoint HasSuffix (s suf : string) : bool :=
  String.eqb s suf ||
  match s with
  | EmptyString => false
  | String _ s' => HasSuffix s' suf
  end.

(** The tail of [s] after its first [n] bytes ([s[n:]]). *)
Fixpoint drop_bytes (n : nat) (s : string) : string :=
  match n, s with
  | S n', String _ s' => drop_bytes n' s'
  | _, _ => s
  end.

(** The first [n] bytes of [s] ([s[:n]]). *)
Fixpoint take_bytes (n : nat) (s : string) : string :=
  match n, s with
  | S n', String a s' => String a (take_bytes n' s')
  | _, _ => EmptyString
  end.

Definition CutPrefix (s p : string) : string * bool :=
  if HasPrefix s p then (drop_bytes (String.length p) s, true) else (s, false).

Definition TrimPrefix (s p : string) : string :=
  if HasPrefix s p then drop_bytes (String.length p) s else s.

(** [Cut s sep] around the first occurrence of [sep]: before, after, found. *)
Fixpoint Cut_at (s sep : string) : option (string * string) :=
  if HasPrefix s sep then Some (EmptyString, drop_bytes (String.length sep) s)
  else match s with
       | EmptyString => None
       | String a s' =>
           match Cut_at s' sep with
           | Some (b, r) => Some (String a b, r)
           | None => None
           end
       end.

Definition Cut (s sep : string) : string * string * bool :=
  match Cut_at s sep with
  | Some (b, r) => (b, r, true)
  | None => (s, EmptyString, false)
  end.

(** [Split s sep] for a separator of one byte. *)
Fixpoint SplitByte (s : string) (sep : ascii) : list string :=
  match s with
  | EmptyString => [EmptyString]
  | String a s' =>
      if Ascii.eqb a sep then EmptyString :: SplitByte s' sep
      else match SplitByte s' sep with
           | w :: ws => String a w :: ws
           | [] => [String a EmptyString]
           end
  end.

Definition Join (l : list string) (sep : string) : string := String.concat sep l.

(** [ReplaceAll s old new] for an [old] of one byte. *)
Fixpoint ReplaceByte (s : string) (old : ascii) (new : string) : string :=
  match s with
  | EmptyString => EmptyString
  | String a s' =>
      if Ascii.eqb a old then new +:+ ReplaceByte s' old new
      else String a (ReplaceByte s' old new)
  end.

Definition lower_ascii (a : ascii) : ascii :=
  let n := nat_of_ascii a in
  if (65 <=? n)%nat && (n <=? 90)%nat then ascii_of_nat (n + 32) else a.

(** Two runes outside ASCII have a lower case in ASCII: U+0130 and U+212A.
    Every other one keeps its bytes here (its lower case is not ASCII). *)
Fixpoint ToLower (s : string) : string :=
  match s with
  | EmptyString => EmptyString
  | String a s1 =>
      match s1 with
      | String b s2 =>
          if Ascii.eqb a (ascii_of_nat 196) && Ascii.eqb b (ascii_of_nat 176)
          then String "i" (ToLower s2)
          else
            match s2 with
            | String c s3 =>
                if Ascii.eqb a (ascii_of_nat 226) && Ascii.eqb b (ascii_of_nat 132)
                   && Ascii.eqb c (ascii_of_nat 170)
                then String "k" (ToLower s3)
                else String (lower_ascii a) (ToLower s1)
            | EmptyString => String (lower_ascii a) (ToLower s1)
            end
      | EmptyString => String (lower_ascii a) EmptyString
      end
  end.

(** The UTF-8 encodings of the runes [unicode.IsSpace] accepts. *)
Definition bytes (l : list nat) : string :=
  fold_right (fun n s => String (ascii_of_nat n) s) EmptyString l.

Definition space_runes : list string :=
  map bytes
    ([[9]; [10]; [11]; [12]; [13]; [32]; [194; 133]; [194; 160]; [225; 154; 128]]
     ++ map (fun n => [226; 128; n]) (seq 128 11)
     ++ [[226; 128; 168]; [226; 128; 169]; [226; 128; 175]; [226; 129; 159];
         [227; 128; 128]]).

(** Remove leading runes of [runes] ([fuel] bounds the runes removed; a string
    has at most as many runes as bytes). *)
Fixpoint trim_left_fuel (fuel : nat) (runes : list string) (s : string) : string :=
  match fuel with
  | O => s
  | S fuel' =>
      match find_first (fun r => HasPrefix s r) runes with
      | Some r => trim_left_fuel fuel' runes (drop_bytes (String.length r) s)
      | None => s
      end
  end.

Fixpoint trim_right_fuel (fuel : nat) (runes : list string) (s : string) : string :=
  match fuel with
  | O => s
  | S fuel' =>
      match find_first (fun r => HasSuffix s r) runes with
      | Some r =>
          trim_right_fuel fuel' runes
            (take_bytes (String.length s - String.length r) s)
      | None => s
      end
  end.

Definition TrimSpace (s : string) : string :=
  let l := trim_left_fuel (String.length s) space_runes s in
  trim_right_fuel (String.length l) space_runes l.

(** [TrimRight s cutset] for a cutset of single-byte runes. *)
Definition TrimRight (s : string) (cutset : list ascii) : string :=
  trim_right_fuel (String.length s) (map (fun a => String a EmptyString) cutset) s.

(** Go compares strings bytewise. *)
Definition less (s t : string) : bool := String.ltb s t.

End strings.

Module strconv.

(** [strconv.Itoa]. *)
Definition Itoa (z : Z) : string := pretty z.

Definition FormatBool (b : bool) : string := if b then "true" else "false".

Definition digit_of (a : ascii) : option Z :=
  let n := nat_of_ascii a in
  if (48 <=? n)%nat && (n <=? 57)%nat then Some (Z.of_nat n - 48)%Z else None.

Fixpoint digits_acc (s : string) (acc : Z) : option Z :=
  match s with
  | EmptyString => Some acc
  | String a s' =>
      match digit_of a with
      | Some d => digits_acc s' (acc * 10 + d)%Z
      | None => None
      end
  end.

Definition digits (s : string) : option Z :=
  match s with EmptyString => None | _ => digits_acc s 0%Z end.

(** [strconv.Atoi] on a 64-bit platform: an optional sign, at least one
    decimal digit, and a value in the [int] range; [None] is an error. *)
Definition Atoi (s : string) : option Z :=
  let in_range z := (- 2 ^ 63 <=? z)%Z && (z <? 2 ^ 63)%Z in
  let r :=
    match s with
    | String "-"%char s' => option_map Z.opp (digits s')
    | String "+"%char s' => digits s'
    | _ => digits s
    end in
  match r with
  | Some z => if in_range z then Some z else None
  | None => None
  end.

End strconv.

(** [%q] on a string of printable ASCII bytes with no quote or backslash. *)
Definition quote (s : string) : string :=
  String (ascii_of_nat 34) EmptyString +:+ s +:+ String (ascii_of_nat 34) EmptyString.

(** ** Lemmas *)

Section append.
Implicit Types s t u : string.

Lemma append_assoc s t u : (s +:+ t) +:+ u = s +:+ (t +:+ u).
Proof. induction s as [|a s IH]; cbn; [done|by rewrite IH]. Qed.

Lemma append_nil_r s : s +:+ "" = s.
Proof. induction s as [|a s IH]; cbn; [done|by rewrite IH]. Qed.

Lemma length_append s t :
  String.length (s +:+ t) = (String.length s + String.length t)%nat.
Proof. induction s as [|a s IH]; cbn; [done|by rewrite IH]. Qed.

Lemma append_inj_r s t u : s +:+ t = s +:+ u -> t = u.
Proof. induction s as [|a s IH]; cbn; [done|]. intros [=]. auto. Qed.

Lemma append_eq_length s s' t t' :
  String.length s = String.length s' -> s +:+ t = s' +:+ t' -> s = s' /\ t = t'.
Proof.
  revert s'. induction s as [|a s IH]; intros [|b s']; cbn; try done.
  intros [= Hl] [= -> He]. destruct (IH _ Hl He) as [-> ->]. done.
Qed.

Lemma append_eq_length_r s s' t t' :
  String.length t = String.length t' -> s +:+ t = s' +:+ t' -> s = s' /\ t = t'.
Proof.
  intros Hl He. apply append_eq_length; [|done].
  apply (f_equal String.length) in He. rewrite !length_append in He. lia.
Qed.

Lemma append_inj_l s t u : s +:+ u = t +:+ u -> s = t.
Proof. intros H. by apply append_eq_length_r in H as [-> _]. Qed.
End append.

Section affixes.
Import strings.
Implicit Types s t u : string.

Lemma HasPrefix_spec s p :
  HasPrefix s p = true <-> exists r, s = p +:+ r.
Proof.
  unfold HasPrefix. revert s. induction p as [|a p IH]; intros s; cbn.
  - split; [intros _; by exists s|by destruct s].
  - destruct s as [|b s]; cbn; [split; [done|intros [r H]; discriminate H]|].
    destruct (ascii_dec a b) as [->|Hne].
    + rewrite IH. split.
      * intros [r ->]. by exists r.
      * intros [r H]. injection H as ->. by exists r.
    + split; [done|]. intros [r H]. by injection H as <- _.
Qed.

Lemma HasPrefix_append p r : HasPrefix (p +:+ r) p = true.
Proof. apply HasPrefix_spec. eauto. Qed.

Lemma drop_append p r : drop_bytes (String.length p) (p +:+ r) = r.
Proof. induction p as [|a p IH]; cbn; [by destruct r|done]. Qed.

Lemma take_append p r : take_bytes (String.length p) (p +:+ r) = p.
Proof. induction p as [|a p IH]; cbn; [done|by rewrite IH]. Qed.

Lemma take_drop n s : take_bytes n s +:+ drop_bytes n s = s.
Proof.
  revert s. induction n as [|n IH]; intros [|a s]; cbn; [done..|].
  by rewrite IH.
Qed.

Lemma length_take n s : String.length (take_bytes n s) = Nat.min n (String.length s).
Proof.
  revert s. induction n as [|n IH]; intros [|a s]; cbn; [done..|].
  by rewrite IH.
Qed.

Lemma HasSuffix_spec s suf :
  HasSuffix s suf = true <-> exists p, s = p +:+ suf.
Proof.
  induction s as [|a s IH]; cbn [HasSuffix].
  - rewrite orb_false_r, String.eqb_eq. split.
    + intros <-. by exists "".
    + intros [[|a p] H]; [done|discriminate H].
  - rewrite orb_true_iff, String.eqb_eq, IH. split.
    + intros [<-|[p ->]]; [by exists ""|by exists (String a p)].
    + intros [[|b p] H]; [by left|]. injection H as <- ->. right. eauto.
Qed.

Lemma HasSuffix_append p suf : HasSuffix (p +:+ suf) suf = true.
Proof. apply HasSuffix_spec. eauto. Qed.

Lemma HasSuffix_refl s : HasSuffix s s = true.
Proof. apply HasSuffix_spec. by exists "". Qed.

Lemma TrimPrefix_append p r : TrimPrefix (p +:+ r) p = r.
Proof. unfold TrimPrefix. by rewrite HasPrefix_append, drop_append. Qed.

Lemma TrimPrefix_not s p : HasPrefix s p = false -> TrimPrefix s p = s.
Proof. unfold TrimPrefix. by intros ->. Qed.

Lemma Cut_at_Some s sep b r :
  Cut_at s sep = Some (b, r) -> s = b +:+ sep +:+ r.
Proof.
  revert b r. induction s as [|a s IH]; intros b r; cbn [Cut_at].
  - destruct (HasPrefix "" sep) eqn:E; [|done].
    apply HasPrefix_spec in E as [r' Hr]. destruct sep; [|discriminate Hr].
    intros [= <- <-]. done.
  - destruct (HasPrefix _ sep) eqn:E.
    + apply HasPrefix_spec in E as [r' Hr]. rewrite Hr, drop_append.
      intros [= <- <-]. done.
    + destruct (Cut_at s sep) as [[b' r']|]; [|done].
      intros [= <- <-]. cbn. f_equal. by apply IH.
Qed.
End affixes.
#[export] Hint Resolve HasPrefix_append HasSuffix_append
  HasSuffix_refl : go_hints.
#[export] Hint Rewrite append_nil_r length_append drop_append
  TrimPrefix_append : go_rew.

(** ** The string order *)
Section less.

Lemma ascii_compare_eq a b : Ascii.compare a b = Eq <-> a = b.
Proof.
  unfold Ascii.compare. rewrite N.compare_eq_iff. split; [|by intros ->].
  intros Heq. rewrite <- (ascii_N_embedding a), <- (ascii_N_embedding b). by rewrite Heq.
Qed.

Lemma less_spec s t : strings.less s t = true <-> String.compare s t = Lt.
Proof. unfold strings.less, String.ltb. destruct (String.compare s t); done. Qed.

Lemma less_irrefl s : strings.less s s = false.
Proof.
  unfold strings.less, String.ltb. induction s as [|a s IH]; [done|]. cbn.
  by rewrite (proj2 (ascii_compare_eq a a) eq_refl).
Qed.

Lemma less_trans s t u :
  strings.less s t = true -> strings.less t u = true -> strings.less s u = true.
Proof.
  rewrite !less_spec. revert t u. induction s as [|a s IH]; intros [|b t] [|c u]; cbn; try done.
  destruct (Ascii.compare a b) eqn:Hab; try done; destruct (Ascii.compare b c) eqn:Hbc; try done;
    intros Hst Htu;
    repeat match goal with H : Ascii.compare _ _ = Eq |- _ => apply ascii_compare_eq in H; subst end.
  - rewrite (proj2 (ascii_compare_eq c c) eq_refl). eauto.
  - by rewrite Hbc.
  - by rewrite Hab.
  - unfold Ascii.compare in *. apply N.compare_lt_iff in Hab, Hbc.
    by rewrite (proj2 (N.compare_lt_iff _ _) (N.lt_trans _ _ _ Hab Hbc)).
Qed.

Lemma less_asym s t : strings.less s t = true -> strings.less t s = false.
Proof.
  intros Hst. destruct (strings.less t s) eqn:Hts; [|done].
  pose proof (less_trans _ _ _ Hst Hts) as Hss. by rewrite less_irrefl in Hss.
Qed.

(** Two strings neither of which is less are equal. *)
Lemma less_total s t : strings.less s t = false -> strings.less t s = false -> s = t.
Proof.
  unfold strings.less, String.ltb. rewrite (String.compare_antisym s t).
  destruct (String.compare t s) eqn:E; try done. intros _ _. symmetry.
  by apply String.compare_eq_iff.
Qed.

Lemma not_less_trans s t u :
  strings.less t s = false -> strings.less u t = false -> strings.less u s = false.
Proof.
  intros Hst Htu. destruct (strings.less u s) eqn:Hus; [|done].
  destruct (strings.less s t) eqn:E.
  - by rewrite (less_trans _ _ _ Hus E) in Htu.
  - rewrite (less_total _ _ E Hst) in Hus. congruence.
Qed.
End less.

Lemma length_trim_right fuel runes s :
  (String.length (strings.trim_right_fuel fuel runes s) <= String.length s)%nat.
Proof.
  revert s. induction fuel as [|fuel IH]; intros s; cbn; [done|].
  destruct (find_first _ runes) as [r|]; [|done].
  etransitivity; [apply IH|]. rewrite length_take. lia.
Qed.

Lemma length_TrimRight s cutset :
  (String.length (strings.TrimRight s cutset) <= String.length s)%nat.
Proof. apply length_trim_right. Qed.

(** ** Decimal numbers *)
Section decimal.
Local Open Scope Z_scope.

Lemma digit_of_pretty x : (x < 10)%N -> strconv.digit_of (pretty_N_char x) = Some (Z.of_N x).
Proof.
  intros Hx.
  assert (x = 0 \/ x = 1 \/ x = 2 \/ x = 3 \/ x = 4 \/ x = 5 \/ x = 6 \/ x = 7 \/ x = 8 \/ x = 9)%N
    as Hc by lia.
  by repeat destruct Hc as [->|Hc]; [..|subst x].
Qed.

Lemma digits_acc_pretty x s :
  strconv.digits_acc (pretty_N_go x s) 0 = strconv.digits_acc s (Z.of_N x).
Proof.
  revert s. induction (N.lt_wf_0 x) as [x _ IH]; intros s.
  destruct (decide (0 < x)%N) as [Hx|Hx].
  - rewrite pretty_N_go_step, IH by (try apply N.div_lt; lia). cbn.
    rewrite digit_of_pretty by (apply N.mod_lt; lia). f_equal.
    rewrite (N.div_mod x 10) at 3 by lia. lia.
  - assert (x = 0%N) as -> by lia. by rewrite pretty_N_go_0.
Qed.

(** All bytes of the string are decimal digits. *)
Fixpoint all_digits (s : string) : bool :=
  match s with
  | EmptyString => true
  | String a s' => bool_decide (is_Some (strconv.digit_of a)) && all_digits s'
  end.

Lemma all_digits_pretty x s : all_digits s = true -> all_digits (pretty_N_go x s) = true.
Proof.
  revert s. induction (N.lt_wf_0 x) as [x _ IH]; intros s Hs.
  destruct (decide (0 < x)%N) as [Hx|Hx].
  - rewrite pretty_N_go_step by lia. apply IH; [apply N.div_lt; lia|]. cbn. rewrite Hs, andb_true_r.
    rewrite digit_of_pretty by (apply N.mod_lt; lia). by rewrite bool_decide_eq_true.
  - assert (x = 0%N) as -> by lia. by rewrite pretty_N_go_0.
Qed.

Lemma length_pretty x s : (0 < x)%N -> pretty_N_go x s <> ""%string.
Proof.
  intros Hx. assert (forall y r, r <> ""%string -> pretty_N_go y r <> ""%string) as Hr.
  { intros y. induction (N.lt_wf_0 y) as [y _ IH]; intros r Hr.
    destruct (decide (0 < y)%N) as [Hy|Hy].
    - rewrite pretty_N_go_step by lia. apply IH; [apply N.div_lt; lia|done].
    - assert (y = 0%N) as -> by lia. by rewrite pretty_N_go_0. }
  rewrite pretty_N_go_step by lia. by apply Hr.
Qed.

Lemma Itoa_nonneg n : 0 <= n ->
  all_digits (strconv.Itoa n) = true /\ strconv.Itoa n <> ""%string /\ strconv.digits (strconv.Itoa n) = Some n.
Proof.
  intros Hn. unfold strconv.Itoa. destruct n as [|p|p]; [done| |lia].
  change (pretty (Z.pos p)) with (pretty_N_go (N.pos p) "").
  split; [by apply all_digits_pretty|]. split; [by apply length_pretty|].
  unfold strconv.digits. destruct (pretty_N_go (N.pos p) "") eqn:E; [by apply length_pretty in E|].
  rewrite <- E. by rewrite digits_acc_pretty.
Qed.

Lemma Atoi_Itoa n : 0 <= n < 2 ^ 63 -> strconv.Atoi (strconv.Itoa n) = Some n.
Proof.
  intros Hn. destruct (Itoa_nonneg n) as (Hd & Hne & Hs); [lia|]. unfold strconv.Atoi.
  destruct (strconv.Itoa n) as [|a s]; [done|].
  assert (a <> "-"%char /\ a <> "+"%char) as [Ha1 Ha2] by (split; intros ->; done).
  replace (match String a s with
    | String "-"%char s' => option_map Z.opp (strconv.digits s')
    | String "+"%char s' => strconv.digits s'
    | _ => strconv.digits (String a s) end) with (Some n).
  - replace ((- 2 ^ 63 <=? n) && (n <? 2 ^ 63)) with true; [done|]. symmetry. lia.
  - rewrite <- Hs. destruct a as [[] [] [] [] [] [] [] []]; done.
Qed.

Lemma all_digits_app s t : all_digits (s +:+ t) = all_digits s && all_digits t.
Proof. induction s as [|a s IH]; cbn; [done|]. by rewrite IH, andb_assoc. Qed.

Lemma space_runes_no_digits r : r ∈ strings.space_runes -> all_digits r = false.
Proof.
  intros Hr. assert (forallb (fun r => negb (all_digits r)) strings.space_runes = true) as Hall
    by (vm_compute; reflexivity).
  rewrite forallb_forall in Hall. apply list_elem_of_In, Hall, negb_true_iff in Hr. done.
Qed.

(** A string of digits has no space around it, and is its own lower case. *)
Lemma TrimSpace_digits s : all_digits s = true -> strings.TrimSpace s = s.
Proof.
  intros Hs.
  assert (find_first (fun r => strings.HasPrefix s r) strings.space_runes = None) as Hp.
  { apply find_first_None. intros r Hr. destruct (strings.HasPrefix s r) eqn:E; [|done].
    apply HasPrefix_spec in E as [t ->]. rewrite all_digits_app in Hs.
    by rewrite (space_runes_no_digits r Hr) in Hs. }
  assert (find_first (fun r => strings.HasSuffix s r) strings.space_runes = None) as Hq.
  { apply find_first_None. intros r Hr. destruct (strings.HasSuffix s r) eqn:E; [|done].
    apply HasSuffix_spec in E as [t ->]. rewrite all_digits_app, andb_comm in Hs.
    by rewrite (space_runes_no_digits r Hr) in Hs. }
  assert (forall n, strings.trim_left_fuel n strings.space_runes s = s) as Hl
    by (intros []; cbn -[strings.space_runes]; rewrite ?Hp; done).
  assert (forall n, strings.trim_right_fuel n strings.space_runes s = s) as Hr
    by (intros []; cbn -[strings.space_runes]; rewrite ?Hq; done).
  unfold strings.TrimSpace. by rewrite Hl, Hr.
Qed.

Lemma ToLower_digits s : all_digits s = true -> strings.ToLower s = s.
Proof.
  induction s as [|a s IH]; [done|]. cbn [all_digits]. intros [Ha Hs]%andb_true_iff. specialize (IH Hs).
  assert (strings.lower_ascii a = a /\ Ascii.eqb a (ascii_of_nat 196) = false /\
          Ascii.eqb a (ascii_of_nat 226) = false) as (Hl & H1 & H2).
  { destruct a as [[] [] [] [] [] [] [] []]; try (vm_compute in Ha; discriminate Ha); done. }
  destruct s as [|b s]; cbn [strings.ToLower]; [by rewrite Hl|]. rewrite H1. cbn [andb].
  destruct s as [|c s]; rewrite ?H2, Hl; cbn [andb]; f_equal; exact IH.
Qed.
End decimal.

(** ** Separators *)

Fixpoint has_byte (a : ascii) (s : string) : bool :=
  match s with
  | EmptyString => false
  | String b s' => Ascii.eqb b a || has_byte a s'
  end.

(** The text before the first separator is determined. *)
Lemma append_sep_inj a s s' t t' : has_byte a s = false -> has_byte a s' = false ->
  s +:+ String a t = s' +:+ String a t' -> s = s' /\ t = t'.
Proof.
  revert s'. induction s as [|b s IH]; intros [|b' s']; cbn; intros Hs Hs' Heq.
  - by simplify_eq.
  - apply orb_false_iff in Hs' as [Hb _]. injection Heq as <- _. by rewrite Ascii.eqb_refl in Hb.
  - apply orb_false_iff in Hs as [Hb _]. injection Heq as -> _. by rewrite Ascii.eqb_refl in Hb.
  - apply orb_false_iff in Hs as [_ Hs]. apply orb_false_iff in Hs' as [_ Hs']. injection Heq as -> Heq.
    by destruct (IH _ Hs Hs' Heq) as [-> ->].
Qed.
