(* ===== verification/Sha256.v ===== *)
(** * Go [crypto/sha256] and [encoding/hex]

    An executable SHA-256 (FIPS 180-4) on byte strings, with words as [Z]
    reduced modulo [2^32], and the lower-case hexadecimal encoding of its
    digest.  The operator uses the first eight hexadecimal digits of a digest
    as a name suffix. *)

From stdpp Require Import base list strings.
From Stdlib Require Import Ascii ZArith Lia.
From S2P Require Import Prelude GoStrings.

Open Scope Z_scope.

Definition w32 (x : Z) : Z := x mod 2 ^ 32.
Definition rotr (n x : Z) : Z :=
  w32 (Z.lor (Z.shiftr x n) (Z.shiftl x (32 - n))).
Definition not32 (x : Z) : Z := 2 ^ 32 - 1 - x.

Definition sha_ch (x y z : Z) : Z := Z.lxor (Z.land x y) (Z.land (not32 x) z).
Definition sha_maj (x y z : Z) : Z :=
  Z.lxor (Z.lxor (Z.land x y) (Z.land x z)) (Z.land y z).
Definition big_sigma0 (x : Z) : Z := Z.lxor (Z.lxor (rotr 2 x) (rotr 13 x)) (rotr 22 x).
Definition big_sigma1 (x : Z) : Z := Z.lxor (Z.lxor (rotr 6 x) (rotr 11 x)) (rotr 25 x).
Definition small_sigma0 (x : Z) : Z :=
  Z.lxor (Z.lxor (rotr 7 x) (rotr 18 x)) (Z.shiftr x 3).
Definition small_sigma1 (x : Z) : Z :=
  Z.lxor (Z.lxor (rotr 17 x) (rotr 19 x)) (Z.shiftr x 10).

(** The constants are the first 32 bits of the fractional parts of the cube
    and square roots of the first primes. *)
Definition is_prime (n : nat) : bool :=
  (2 <=? n)%nat && forallb (fun d => negb (Nat.eqb (n mod d) 0)) (seq 2 (n - 2)).

Definition primes (count : nat) : list Z :=
  take count (map Z.of_nat (List.filter is_prime (seq 2 320))).

(** The integer cube root of [x] below [2^(bits)], by bisection on the bits. *)
Fixpoint cube_root (bits : nat) (acc x : Z) : Z :=
  match bits with
  | O => acc
  | S b =>
      let next := acc + 2 ^ Z.of_nat b in
      cube_root b (if next * next * next <=? x then next else acc) x
  end.

Definition sha_k : list Z :=
  Eval vm_compute in map (fun p => cube_root 36 0 (p * 2 ^ 96) mod 2 ^ 32) (primes 64).
Definition sha_h : list Z :=
  Eval vm_compute in map (fun p => Z.sqrt (p * 2 ^ 64) mod 2 ^ 32) (primes 8).

Record sha_state := mk_sha { sa : Z; sb : Z; sc : Z; sd : Z; se : Z; sf : Z; sg : Z; sh : Z }.

Definition sha_init : sha_state :=
  match sha_h with
  | [a; b; c; d; e; f; g; h] => mk_sha a b c d e f g h
  | _ => mk_sha 0 0 0 0 0 0 0 0
  end.

Definition string_bytes (s : string) : list Z :=
  map (fun a => Z.of_N (N_of_ascii a)) (String.list_ascii_of_string s).

(** [n] big-endian bytes of [x]. *)
Fixpoint be_bytes (n : nat) (x : Z) : list Z :=
  match n with
  | O => []
  | S n' => be_bytes n' (Z.shiftr x 8) ++ [Z.land x 255]
  end.

Definition sha_pad (m : list Z) : list Z :=
  let len := length m in
  let zeros := ((119 - len mod 64) mod 64)%nat in
  m ++ [128] ++ replicate zeros 0 ++ be_bytes 8 (8 * Z.of_nat len).

(** Words of four big-endian bytes. *)
Fixpoint be_words (l : list Z) : list Z :=
  match l with
  | a :: b :: c :: d :: l' =>
      (Z.shiftl a 24 + Z.shiftl b 16 + Z.shiftl c 8 + d) :: be_words l'
  | _ => []
  end.

(** The message schedule, kept in reverse: [ws] holds W(t-1), W(t-2), ... *)
Fixpoint sha_schedule (n : nat) (ws : list Z) : list Z :=
  match n with
  | O => ws
  | S n' =>
      let w :=
        w32 (small_sigma1 (nth 1 ws 0) + nth 6 ws 0
             + small_sigma0 (nth 14 ws 0) + nth 15 ws 0) in
      sha_schedule n' (w :: ws)
  end.

Definition sha_round (s : sha_state) (kw : Z * Z) : sha_state :=
  let t1 := sh s + big_sigma1 (se s) + sha_ch (se s) (sf s) (sg s) + fst kw + snd kw in
  let t2 := big_sigma0 (sa s) + sha_maj (sa s) (sb s) (sc s) in
  mk_sha (w32 (t1 + t2)) (sa s) (sb s) (sc s) (w32 (sd s + t1)) (se s) (sf s) (sg s).

Definition sha_block (h : sha_state) (block : list Z) : sha_state :=
  let w := rev (sha_schedule 48 (rev block)) in
  let s := fold_left sha_round (combine sha_k w) h in
  mk_sha (w32 (sa h + sa s)) (w32 (sb h + sb s)) (w32 (sc h + sc s)) (w32 (sd h + sd s))
         (w32 (se h + se s)) (w32 (sf h + sf s)) (w32 (sg h + sg s)) (w32 (sh h + sh s)).

Fixpoint sha_blocks (n : nat) (h : sha_state) (ws : list Z) : sha_state :=
  match n with
  | O => h
  | S n' => sha_blocks n' (sha_block h (take 16 ws)) (drop 16 ws)
  end.

(** [sha256.Sum256]: 32 bytes. *)
Definition Sum256 (s : string) : list Z :=
  let ws := be_words (sha_pad (string_bytes s)) in
  let h := sha_blocks (length ws / 16) sha_init ws in
  concat (map (be_bytes 4) [sa h; sb h; sc h; sd h; se h; sf h; sg h; sh h]).

Definition hex_digit (x : Z) : ascii :=
  ascii_of_N (Z.to_N (if x <? 10 then 48 + x else 87 + x)).

(** [hex.EncodeToString]. *)
Fixpoint EncodeToString (l : list Z) : string :=
  match l with
  | [] => EmptyString
  | b :: l' =>
      String (hex_digit (Z.shiftr b 4))
        (String (hex_digit (Z.land b 15)) (EncodeToString l'))
  end.

(** [hex.EncodeToString(sum[:])[:8]] for [sum := sha256.Sum256([]byte(s))]. *)
Definition sum8 (s : string) : string :=
  strings.take_bytes 8 (EncodeToString (Sum256 s)).

(** ** Lemmas *)

Lemma length_be_bytes n x : length (be_bytes n x) = n.
Proof.
  revert x. induction n as [|n IH]; intros x; cbn; [done|].
  rewrite length_app, IH. cbn. lia.
Qed.

Lemma length_Sum256 s : length (Sum256 s) = 32%nat.
Proof. unfold Sum256. cbn [map concat]. rewrite !length_app, !length_be_bytes. done. Qed.

Lemma length_EncodeToString l : String.length (EncodeToString l) = (2 * length l)%nat.
Proof. induction l as [|b l IH]; cbn; [done|rewrite IH; lia]. Qed.

Lemma length_sum8 s : String.length (sum8 s) = 8%nat.
Proof.
  unfold sum8. rewrite length_take, length_EncodeToString, length_Sum256. done.
Qed.

(** The FIPS 180-4 test vector for the one-block message "abc". *)
Example Sum256_abc :
  EncodeToString (Sum256 "abc")
  = "ba7816bf8f01cfea414140de5dae2223b00361a396177a9cb410ff61f20015ad"%string.
Proof. vm_compute. reflexivity. Qed.

(** The two-block test vector. *)
Example Sum256_two_blocks :
  EncodeToString
    (Sum256 "abcdbcdecdefdefgefghfghighijhijkijkljklmklmnlmnomnopnopq"%string)
  = "248d6a61d20638b8e5c026930c3e6039a33ce45964ff2167f6ecedd419db06c1"%string.
Proof. vm_compute. reflexivity. Qed.

Arguments sum8 : simpl never.
Arguments Sum256 : simpl never.
