(* ===== verification/NetIP.v ===== *)
(** * Go [net.ParseIP], [IP.To4] and [IP.String]

    The parser of [net/netip] (dotted decimal without leading zeros; colon
    groups with one [::] and an optional embedded IPv4 tail) and the RFC 5952
    printer, on 16-byte addresses.  A string with a zone ("%") never parses,
    because [net.ParseIP] rejects every address that carries one. *)

From stdpp Require Import base list strings.
From Stdlib Require Import Ascii ZArith Lia.
From S2P Require Import Prelude GoStrings Sha256.

Open Scope Z_scope.

Module net.

(** An [net.IP] of length 16, as bytes. *)
Abbreviation IP := (list Z).

(** [parseIPv4Fields]: [first] is [i == 0], [prev_dot] is [s[i-1] == '.'],
    [fields] holds the finished fields in reverse ([pos] is their number). *)
Fixpoint parseIPv4Fields (s : string) (first prev_dot : bool) (val : Z)
    (digLen : nat) (fields : list Z) : option (list Z) :=
  match s with
  | EmptyString =>
      if (length fields <? 3)%nat then None else Some (rev (val :: fields))
  | String c s' =>
      match strconv.digit_of c with
      | Some d =>
          if Nat.eqb digLen 1 && (val =? 0) then None
          else if 255 <? val * 10 + d then None
          else parseIPv4Fields s' false false (val * 10 + d) (S digLen) fields
      | None =>
          if Ascii.eqb c "." then
            if first || String.eqb s' EmptyString || prev_dot then None
            else if Nat.eqb (length fields) 3 then None
            else parseIPv4Fields s' false true 0 0 (val :: fields)
          else None
      end
  end.

Definition parseIPv4 (s : string) : option (list Z) :=
  parseIPv4Fields s true false 0 0 [].

Definition hex_value (a : ascii) : option Z :=
  let n := Z.of_N (N_of_ascii a) in
  if (48 <=? n) && (n <=? 57) then Some (n - 48)
  else if (97 <=? n) && (n <=? 102) then Some (n - 87)
  else if (65 <=? n) && (n <=? 70) then Some (n - 55)
  else None.

(** One hexadecimal group: its value, its number of digits and the rest;
    [None] on a fifth digit. *)
Fixpoint scan_hex (s : string) (off : nat) (acc : Z) : option (Z * nat * string) :=
  match s with
  | EmptyString => Some (acc, off, s)
  | String c s' =>
      match hex_value c with
      | Some d =>
          if (3 <? off)%nat then None else scan_hex s' (S off) (acc * 16 + d)
      | None => Some (acc, off, s)
      end
  end.

(** Expand the ellipsis, if any, to 16 bytes. *)
Definition expand (ip : list Z) (ellipsis : option nat) : option IP :=
  let i := length ip in
  if (i <? 16)%nat then
    match ellipsis with
    | None => None
    | Some e => Some (take e ip ++ replicate (16 - i) 0 ++ drop e ip)
    end
  else match ellipsis with None => Some ip | Some _ => None end.

(** The group loop ([for i < 16], at most eight rounds of two bytes). *)
Fixpoint parseIPv6_groups (fuel : nat) (s : string) (ip : list Z)
    (ellipsis : option nat) : option IP :=
  match fuel with
  | O => None (* i = 16 with a non-empty rest: trailing garbage *)
  | S fuel' =>
      match scan_hex s 0 0 with
      | None => None
      | Some (acc, off, rest) =>
          let i := length ip in
          if Nat.eqb off 0 then None
          else
            let ip' := ip ++ [Z.shiftr acc 8; Z.land acc 255] in
            match rest with
            | EmptyString => expand ip' ellipsis
            | String "."%char _ =>
                if (match ellipsis with None => negb (Nat.eqb i 12) | Some _ => false end)
                then None
                else if (16 <? i + 4)%nat then None
                else match parseIPv4 s with
                     | Some f => expand (ip ++ f) ellipsis
                     | None => None
                     end
            | String ":"%char EmptyString => None
            | String ":"%char (String ":"%char s2) =>
                match ellipsis with
                | Some _ => None
                | None =>
                    match s2 with
                    | EmptyString => expand ip' (Some (i + 2)%nat)
                    | _ => parseIPv6_groups fuel' s2 ip' (Some (i + 2)%nat)
                    end
                end
            | String ":"%char s1 => parseIPv6_groups fuel' s1 ip' ellipsis
            | _ => None
            end
      end
  end.

Definition parseIPv6 (s : string) : option IP :=
  match s with
  | String ":"%char (String ":"%char EmptyString) => Some (replicate 16 0)
  | String ":"%char (String ":"%char s') => parseIPv6_groups 8 s' [] (Some 0%nat)
  | _ => parseIPv6_groups 8 s [] None
  end.

(** [netip.ParseAddr] dispatches on the first of ".", ":" and "%". *)
Inductive addr_form := Dotted | Colons | NoForm.

Fixpoint addr_form_of (s : string) : addr_form :=
  match s with
  | EmptyString => NoForm
  | String c s' =>
      if Ascii.eqb c "." then Dotted
      else if Ascii.eqb c ":" then Colons
      else if Ascii.eqb c "%" then NoForm
      else addr_form_of s'
  end.

Definition v4_prefix : list Z := replicate 10 0 ++ [255; 255].

(** [net.ParseIP]; [None] is the nil IP. *)
Definition ParseIP (s : string) : option IP :=
  match addr_form_of s with
  | Dotted => option_map (fun f => v4_prefix ++ f) (parseIPv4 s)
  | Colons =>
      if existsb (Ascii.eqb "%") (String.list_ascii_of_string s) then None
      else parseIPv6 s
  | NoForm => None
  end.

(** [IP.To4]: the last four bytes of an IPv4-mapped address. *)
Definition To4 (ip : IP) : option (list Z) :=
  if bool_decide (take 12 ip = v4_prefix) then Some (drop 12 ip) else None.

(** ** Printing *)

Definition dec_digit (x : Z) : string := String (hex_digit x) EmptyString.

(** [appendDecimal] on a byte. *)
Definition dec_byte (x : Z) : string :=
  (if 100 <=? x then dec_digit (x / 100) else EmptyString)
  +:+ (if 10 <=? x then dec_digit (x / 10 mod 10) else EmptyString)
  +:+ dec_digit (x mod 10).

Definition string4 (f : list Z) : string := strings.Join (map dec_byte f) ".".

(** [appendHex] on a 16-bit group. *)
Definition hex_group (x : Z) : string :=
  (if 0x1000 <=? x then dec_digit (x / 4096) else EmptyString)
  +:+ (if 0x100 <=? x then dec_digit (x / 256 mod 16) else EmptyString)
  +:+ (if 0x10 <=? x then dec_digit (x / 16 mod 16) else EmptyString)
  +:+ dec_digit (x mod 16).

(** The 16-bit groups of an address ([v6u16]). *)
Fixpoint groups (ip : list Z) : list Z :=
  match ip with
  | a :: b :: ip' => (a * 256 + b) :: groups ip'
  | _ => []
  end.

(** The length of the zero run at the head. *)
Fixpoint zero_run (gs : list Z) : nat :=
  match gs with
  | g :: gs' => if g =? 0 then S (zero_run gs') else O
  | [] => O
  end.

(** [zeroStart, zeroEnd]: the first longest run of at least two zero groups,
    as start and length ([best] is the run found so far). *)
Fixpoint longest_run (i : nat) (gs : list Z) (best : nat * nat) : nat * nat :=
  match gs with
  | [] => best
  | _ :: gs' =>
      let l := zero_run gs in
      longest_run (S i) gs' (if (2 <=? l)%nat && (snd best <? l)%nat then (i, l) else best)
  end.

Definition join_groups (gs : list Z) : string := strings.Join (map hex_group gs) ":".

(** [appendTo6]: groups joined by ":", the chosen run replaced by "::". *)
Definition string6 (ip : IP) : string :=
  let gs := groups ip in
  match longest_run 0 gs (0%nat, 0%nat) with
  | (_, O) => join_groups gs
  | (st, len) => join_groups (take st gs) +:+ "::" +:+ join_groups (drop (st + len) gs)
  end.

(** [IP.String] on a 16-byte address. *)
Definition IP_String (ip : IP) : string :=
  match To4 ip with
  | Some p4 => string4 p4
  | None => string6 ip
  end.

End net.

Example ParseIP_v4 : net.ParseIP "10.0.0.7" = Some (net.v4_prefix ++ [10; 0; 0; 7]).
Proof. reflexivity. Qed.
Example ParseIP_leading_zero : net.ParseIP "10.0.0.07" = None.
Proof. reflexivity. Qed.
Example ParseIP_v6_forms :
  net.ParseIP "2001:db8::1" = net.ParseIP "2001:0db8:0:0:0:0:0:1".
Proof. reflexivity. Qed.
Example ParseIP_mapped : net.ParseIP "::ffff:1.2.3.4" = net.ParseIP "1.2.3.4".
Proof. reflexivity. Qed.
Example String_canonical :
  option_map net.IP_String (net.ParseIP "2001:0DB8:0:0:1:0:0:1") = Some "2001:db8::1:0:0:1"%string.
Proof. reflexivity. Qed.

(** ** Parsing what was printed *)
Section roundtrip.
Import net.

(** Bytes and 16-bit groups. *)
Definition is_byte (x : Z) : Prop := 0 <= x < 256.
Definition is_IP (ip : list Z) : Prop := length ip = 16%nat /\ Forall is_byte ip.

(** *** Decimal *)

Lemma digit_of_dec d : 0 <= d < 10 -> strconv.digit_of (hex_digit d) = Some d.
Proof.
  intros Hd. assert (d = 0 \/ d = 1 \/ d = 2 \/ d = 3 \/ d = 4 \/ d = 5 \/ d = 6 \/ d = 7 \/ d = 8 \/ d = 9)
    as Hc by lia.
  by repeat destruct Hc as [->|Hc]; [..|subst d].
Qed.

(** One more digit of a field. *)
Lemma fields_digit d s first dot val n fs : 0 <= d < 10 -> val * 10 + d <= 255 ->
  (n = 1%nat -> val <> 0) ->
  parseIPv4Fields (String (hex_digit d) s) first dot val n fs =
  parseIPv4Fields s false false (val * 10 + d) (S n) fs.
Proof.
  intros Hd Hv Hn. cbn [parseIPv4Fields]. rewrite digit_of_dec by done.
  replace (Nat.eqb n 1 && (val =? 0)) with false.
  - destruct (Z.ltb_spec 255 (val * 10 + d)); [lia|done].
  - symmetry. apply andb_false_iff. destruct (Nat.eqb_spec n 1); [right|by left].
    apply Z.eqb_neq. auto.
Qed.

Lemma fields_byte x s first dot fs : is_byte x -> exists n,
  parseIPv4Fields (dec_byte x +:+ s) first dot 0 0 fs = parseIPv4Fields s false false x (S n) fs.
Proof.
  intros Hx. unfold is_byte in Hx. unfold dec_byte, dec_digit.
  pose proof (Z.div_mod x 10) as H1. pose proof (Z.div_mod (x / 10) 10) as H2.
  pose proof (Z.mod_pos_bound x 10) as B1. pose proof (Z.mod_pos_bound (x / 10) 10) as B2.
  rewrite Z.div_div in H2 by lia. change (10 * 10) with 100 in H2.
  destruct (Z.leb_spec 100 x); [|destruct (Z.leb_spec 10 x)].
  - destruct (Z.leb_spec 10 x); [|lia]. exists 2%nat. cbn [String.append]. 
    rewrite !fields_digit by lia. f_equal. lia.
  - exists 1%nat. cbn [String.append]. assert (x / 100 = 0) by (apply Z.div_small; lia).
    rewrite !fields_digit by lia. f_equal. lia.
  - exists 0%nat. cbn [String.append]. assert (x / 10 = 0) by (apply Z.div_small; lia).
    rewrite !fields_digit by lia. f_equal. lia.
Qed.

Lemma dec_byte_nonempty x : exists a s, dec_byte x = String a s.
Proof. unfold dec_byte, dec_digit. destruct (100 <=? x), (10 <=? x); cbn; eauto. Qed.

Lemma fields_dot s x n fs : s <> ""%string -> (length fs < 3)%nat ->
  parseIPv4Fields (String "." s) false false x n fs = parseIPv4Fields s false true 0 0 (x :: fs).
Proof.
  intros Hs Hl. cbn. destruct (String.eqb_spec s ""); [done|]. cbn.
  destruct (Nat.eqb_spec (length fs) 3); [lia|done].
Qed.

Lemma fields_byte_dot x s first dot fs : is_byte x -> s <> ""%string -> (length fs < 3)%nat ->
  parseIPv4Fields (dec_byte x +:+ "." +:+ s) first dot 0 0 fs = parseIPv4Fields s false true 0 0 (x :: fs).
Proof.
  intros Hx Hs Hl. destruct (fields_byte x ("." +:+ s) first dot fs Hx) as [n ->]. by apply fields_dot.
Qed.

Lemma dec_byte_app x s : dec_byte x +:+ s <> ""%string.
Proof. by destruct (dec_byte_nonempty x) as (a & r & ->). Qed.

Lemma parseIPv4_string4 f : length f = 4%nat -> Forall is_byte f -> parseIPv4 (string4 f) = Some f.
Proof.
  destruct f as [|a [|b [|c [|d [|]]]]]; try done. intros _ Hf.
  repeat match goal with H : Forall _ (_ :: _) |- _ => apply Forall_cons in H as [? H] end.
  unfold parseIPv4, string4, strings.Join. cbn [map String.concat].
  rewrite <- (append_nil_r (dec_byte d)).
  rewrite 3!fields_byte_dot by first [done|apply dec_byte_app|cbn; lia].
  by destruct (fields_byte d "" false true [c; b; a]) as [j ->].
Qed.

(** *** Hexadecimal *)

Lemma hex_value_digit d : 0 <= d < 16 -> hex_value (hex_digit d) = Some d.
Proof.
  intros Hd. assert (d = 0 \/ d = 1 \/ d = 2 \/ d = 3 \/ d = 4 \/ d = 5 \/ d = 6 \/ d = 7 \/ d = 8 \/ d = 9
    \/ d = 10 \/ d = 11 \/ d = 12 \/ d = 13 \/ d = 14 \/ d = 15) as Hc by lia.
  by repeat destruct Hc as [->|Hc]; [..|subst d].
Qed.

Lemma scan_digit d s n acc : 0 <= d < 16 -> (n < 4)%nat ->
  scan_hex (String (hex_digit d) s) n acc = scan_hex s (S n) (acc * 16 + d).
Proof.
  intros Hd Hn. cbn [scan_hex]. rewrite hex_value_digit by done. destruct (Nat.ltb_spec 3 n); [lia|done].
Qed.

(** The rest of a group is empty or starts with a colon. *)
Definition group_end (s : string) : Prop := s = ""%string \/ exists r, s = String ":" r.

Lemma scan_end s n acc : group_end s -> scan_hex s n acc = Some (acc, n, s).
Proof. by intros [->|[r ->]]. Qed.

Definition is_group (g : Z) : Prop := 0 <= g < 65536.

Lemma scan_group g s : is_group g -> group_end s -> exists n,
  scan_hex (hex_group g +:+ s) 0 0 = Some (g, S n, s).
Proof.
  intros Hg Hs. unfold is_group in Hg. unfold hex_group, dec_digit.
  pose proof (Z.div_mod g 16) as H1. pose proof (Z.div_mod (g / 16) 16) as H2.
  pose proof (Z.div_mod (g / 256) 16) as H3.
  pose proof (Z.mod_pos_bound g 16). pose proof (Z.mod_pos_bound (g / 16) 16).
  pose proof (Z.mod_pos_bound (g / 256) 16).
  rewrite Z.div_div in H2 by lia. change (16 * 16) with 256 in H2.
  rewrite Z.div_div in H3 by lia. change (256 * 16) with 4096 in H3.
  destruct (Z.leb_spec 4096 g); [|destruct (Z.leb_spec 256 g); [|destruct (Z.leb_spec 16 g)]].
  - do 2 (match goal with |- context [?a <=? g] => destruct (Z.leb_spec a g); [|lia] end).
    exists 3%nat. cbn [String.append]. rewrite !scan_digit, scan_end by (done || lia). do 3 f_equal. lia.
  - destruct (Z.leb_spec 16 g); [|lia]. assert (g / 4096 = 0) by (apply Z.div_small; lia).
    exists 2%nat. cbn [String.append]. rewrite !scan_digit, scan_end by (done || lia). do 3 f_equal. lia.
  - assert (g / 256 = 0) by (apply Z.div_small; lia).
    exists 1%nat. cbn [String.append]. rewrite !scan_digit, scan_end by (done || lia). do 3 f_equal. lia.
  - assert (g / 16 = 0) by (apply Z.div_small; lia).
    exists 0%nat. cbn [String.append]. rewrite !scan_digit, scan_end by (done || lia). do 3 f_equal. lia.
Qed.

(** *** Colon groups *)

Definition group_bytes (gs : list Z) : list Z :=
  concat (map (fun g => [Z.shiftr g 8; Z.land g 255]) gs).

Lemma length_group_bytes gs : length (group_bytes gs) = (2 * length gs)%nat.
Proof. induction gs as [|g gs IH]; cbn; [done|]. unfold group_bytes in IH. rewrite IH. lia. Qed.

Lemma group_bytes_app gs gs' : group_bytes (gs ++ gs') = group_bytes gs ++ group_bytes gs'.
Proof. unfold group_bytes. by rewrite map_app, concat_app. Qed.

Lemma group_bytes_groups ip : Nat.Even (length ip) -> Forall is_byte ip ->
  group_bytes (groups ip) = ip /\ Forall is_group (groups ip) /\ (2 * length (groups ip))%nat = length ip.
Proof.
  remember (length ip) as n eqn:Hn. revert ip Hn. induction (lt_wf n) as [n _ IH].
  intros [|a [|b ip]] -> [m Hm] Hb; cbn in *; [done|lia|].
  apply Forall_cons in Hb as [Ha Hb]. apply Forall_cons in Hb as [Hb Hip]. unfold is_byte in *.
  destruct (IH (length ip) ltac:(lia) ip eq_refl) as (H1 & H2 & H3); [exists (m - 1)%nat; lia|done|].
  split; [|split; [constructor; [unfold is_group; lia|done]|lia]].
  unfold group_bytes in *. cbn. rewrite H1. f_equal; [|f_equal].
  - rewrite Z.shiftr_div_pow2 by lia. change (2 ^ 8) with 256. symmetry. apply Z.div_unique with b; lia.
  - change 255 with (Z.ones 8). rewrite Z.land_ones by lia. change (2 ^ 8) with 256.
    symmetry. apply Z.mod_unique with a; lia.
Qed.

Lemma hex_group_head g : is_group g -> exists d r, 0 <= d < 16 /\ hex_group g = String (hex_digit d) r.
Proof.
  intros Hg. unfold is_group in Hg. unfold hex_group, dec_digit.
  pose proof (Z.mod_pos_bound g 16). pose proof (Z.mod_pos_bound (g / 16) 16).
  pose proof (Z.mod_pos_bound (g / 256) 16).
  destruct (Z.leb_spec 4096 g); [|destruct (Z.leb_spec 256 g); [|destruct (Z.leb_spec 16 g)]];
    cbn [String.append]; do 2 eexists; (split; [|reflexivity]); try lia.
  pose proof (Z.div_lt_upper_bound g 4096 16). pose proof (Z.div_pos g 4096). lia.
Qed.

Lemma join_groups_cons g gs : gs <> [] ->
  join_groups (g :: gs) = hex_group g +:+ ":" +:+ join_groups gs.
Proof. by destruct gs. Qed.

Lemma join_groups_head gs : gs <> [] -> Forall is_group gs ->
  exists d r, 0 <= d < 16 /\ join_groups gs = String (hex_digit d) r.
Proof.
  destruct gs as [|g gs]; [done|]. intros _ [Hg _]%Forall_cons.
  destruct (hex_group_head g Hg) as (d & r & Hd & Hr).
  destruct gs as [|g' gs]; [exists d, r; split; [done|exact Hr]|].
  rewrite join_groups_cons, Hr by done. cbn [String.append]. eauto.
Qed.

(** A group followed by the end, by one more group, or by the ellipsis. *)
Lemma groups_last fuel g ip ell : is_group g ->
  parseIPv6_groups (S fuel) (hex_group g) ip ell = expand (ip ++ group_bytes [g]) ell.
Proof.
  intros Hg. rewrite <- (append_nil_r (hex_group g)). cbn [parseIPv6_groups].
  destruct (scan_group g "" Hg) as [n ->]; [by left|]. done.
Qed.

Lemma groups_more fuel g d r ip ell : is_group g -> 0 <= d < 16 ->
  parseIPv6_groups (S fuel) (hex_group g +:+ ":" +:+ String (hex_digit d) r) ip ell =
  parseIPv6_groups fuel (String (hex_digit d) r) (ip ++ group_bytes [g]) ell.
Proof.
  intros Hg Hd. cbn [parseIPv6_groups].
  destruct (scan_group g (":" +:+ String (hex_digit d) r) Hg) as [n ->]; [right; by eexists|].
  cbn [Nat.eqb String.append].
  assert (d = 0 \/ d = 1 \/ d = 2 \/ d = 3 \/ d = 4 \/ d = 5 \/ d = 6 \/ d = 7 \/ d = 8 \/ d = 9
    \/ d = 10 \/ d = 11 \/ d = 12 \/ d = 13 \/ d = 14 \/ d = 15) as Hc by lia.
  by repeat destruct Hc as [->|Hc]; [..|subst d].
Qed.

Lemma groups_ellipsis fuel g t ip : is_group g ->
  parseIPv6_groups (S fuel) (hex_group g +:+ "::" +:+ t) ip None =
  let e := Some (length ip + 2)%nat in
  match t with
  | EmptyString => expand (ip ++ group_bytes [g]) e
  | _ => parseIPv6_groups fuel t (ip ++ group_bytes [g]) e
  end.
Proof.
  intros Hg. cbn [parseIPv6_groups].
  destruct (scan_group g ("::" +:+ t) Hg) as [n ->]; [right; by eexists|]. by destruct t.
Qed.

Lemma groups_run gs fuel ip ell : gs <> [] -> Forall is_group gs -> (length gs <= fuel)%nat ->
  parseIPv6_groups fuel (join_groups gs) ip ell = expand (ip ++ group_bytes gs) ell.
Proof.
  revert fuel ip. induction gs as [|g gs IH]; intros fuel ip; [done|]. intros _ [Hg Hgs]%Forall_cons Hf.
  destruct fuel as [|fuel]; [cbn in Hf; lia|]. cbn in Hf. destruct gs as [|g' gs].
  - change (join_groups [g]) with (hex_group g). by apply groups_last.
  - rewrite join_groups_cons by done. destruct (join_groups_head (g' :: gs)) as (d & r & Hd & Hr); [done..|].
    rewrite Hr, groups_more, <- Hr, IH by (done || lia). by rewrite <- app_assoc.
Qed.

Lemma groups_run_ellipsis gs t fuel ip : gs <> [] -> Forall is_group gs -> (length gs <= fuel)%nat ->
  parseIPv6_groups fuel (join_groups gs +:+ "::" +:+ t) ip None =
  let e := Some (length ip + 2 * length gs)%nat in
  match t with
  | EmptyString => expand (ip ++ group_bytes gs) e
  | _ => parseIPv6_groups (fuel - length gs) t (ip ++ group_bytes gs) e
  end.
Proof.
  revert fuel ip. induction gs as [|g gs IH]; intros fuel ip; [done|]. intros _ [Hg Hgs]%Forall_cons Hf.
  destruct fuel as [|fuel]; [cbn in Hf; lia|]. cbn in Hf. destruct gs as [|g' gs].
  - change (join_groups [g]) with (hex_group g). rewrite groups_ellipsis by done.
    cbn [length Nat.sub]. by rewrite Nat.sub_0_r.
  - rewrite join_groups_cons by done. destruct (join_groups_head (g' :: gs)) as (d & r & Hd & Hr); [done..|].
    rewrite !append_assoc, Hr. cbn [String.append].
    change (String ":" (String (hex_digit d) (r +:+ String ":" (String ":" t)))) with
      (":" +:+ String (hex_digit d) (r +:+ "::" +:+ t)).
    rewrite groups_more by done.
    change (String (hex_digit d) (r +:+ "::" +:+ t)) with (String (hex_digit d) r +:+ "::" +:+ t).
    rewrite <- Hr, IH by (done || lia). cbn zeta. rewrite <- app_assoc, length_app.
    change (group_bytes [g] ++ group_bytes (g' :: gs)) with (group_bytes (g :: g' :: gs)).
    rewrite length_group_bytes. cbn [length Nat.sub].
    replace (length ip + 2 * 1 + 2 * S (length gs))%nat with (length ip + 2 * S (S (length gs)))%nat by lia.
    done.
Qed.

(** *** The run that is elided *)

Lemma zero_run_spec gs : take (zero_run gs) gs = replicate (zero_run gs) 0 /\ (zero_run gs <= length gs)%nat.
Proof.
  induction gs as [|g gs [IH Hl]]; cbn; [done|]. destruct (Z.eqb_spec g 0) as [->|]; cbn; [|split; [done|lia]].
  split; [by rewrite IH|lia].
Qed.

(** [(st, len)] is a run of zero groups of [gs], empty or of two or more. *)
Definition zero_run_at (gs : list Z) (b : nat * nat) : Prop :=
  snd b = O \/ ((2 <= snd b)%nat /\ (fst b + snd b <= length gs)%nat /\
                take (snd b) (drop (fst b) gs) = replicate (snd b) 0).

Lemma longest_run_spec all i gs best : drop i all = gs -> zero_run_at all best ->
  zero_run_at all (longest_run i gs best).
Proof.
  revert i best. induction gs as [|g gs IH]; intros i best Hd Hb; [done|]. cbn [longest_run].
  apply IH.
  - change gs with (drop 1 (g :: gs)). rewrite <- Hd, drop_drop. f_equal. lia.
  - destruct (Nat.leb_spec 2 (zero_run (g :: gs))) as [H2|]; [|done].
    destruct (Nat.ltb_spec (snd best) (zero_run (g :: gs))); [|done].
    cbn [andb]. right. cbn [fst snd]. rewrite Hd. destruct (zero_run_spec (g :: gs)) as [H3 H4].
    split; [done|split; [|done]]. apply (f_equal length) in Hd. rewrite length_drop in Hd.
    cbn [length] in *. lia.
Qed.

Lemma group_bytes_zero n : group_bytes (replicate n 0) = replicate (2 * n) 0.
Proof.
  induction n as [|n IH]; [done|]. replace (2 * S n)%nat with (S (S (2 * n))) by lia.
  cbn [replicate]. rewrite <- IH. done.
Qed.

(** *** The dispatch of the parser *)

(** No address has a zone or brackets. *)
Definition outside (c : ascii) : bool := Ascii.eqb c "%" || Ascii.eqb c "[" || Ascii.eqb c "]".

(** The form of an address is decided by its first dot, colon or percent. *)
Definition neutral (s : string) : bool :=
  forallb (fun c => negb (Ascii.eqb c "." || Ascii.eqb c ":" || Ascii.eqb c "%" || outside c)) (String.list_ascii_of_string s).

Lemma addr_form_neutral s t : neutral s = true -> addr_form_of (s +:+ t) = addr_form_of t.
Proof.
  unfold neutral. induction s as [|c s IH]; [done|]. cbn. intros [Hc Hs]%andb_true_iff.
  apply negb_true_iff in Hc. apply orb_false_iff in Hc as [Hc _].
  apply orb_false_iff in Hc as [Hc H3]. apply orb_false_iff in Hc as [H1 H2].
  rewrite H1, H2, H3. auto.
Qed.

Lemma neutral_app s t : neutral (s +:+ t) = neutral s && neutral t.
Proof.
  unfold neutral. induction s as [|c s IH]; [done|]. cbn in *. by rewrite IH, andb_assoc.
Qed.

Lemma neutral_digit d : 0 <= d < 16 -> neutral (dec_digit d) = true.
Proof.
  intros Hd. assert (d = 0 \/ d = 1 \/ d = 2 \/ d = 3 \/ d = 4 \/ d = 5 \/ d = 6 \/ d = 7 \/ d = 8 \/ d = 9
    \/ d = 10 \/ d = 11 \/ d = 12 \/ d = 13 \/ d = 14 \/ d = 15) as Hc by lia.
  by repeat destruct Hc as [->|Hc]; [..|subst d].
Qed.

Lemma neutral_dec x : is_byte x -> neutral (dec_byte x) = true.
Proof.
  intros Hx. unfold is_byte in Hx. unfold dec_byte.
  pose proof (Z.mod_pos_bound x 10). pose proof (Z.mod_pos_bound (x / 10) 10).
  rewrite !neutral_app. rewrite (neutral_digit (x mod 10)) by lia. rewrite andb_true_r, andb_true_iff.
  split; [destruct (100 <=? x)|destruct (10 <=? x)]; try done; apply neutral_digit; [|lia].
  pose proof (Z.div_pos x 100). pose proof (Z.div_lt_upper_bound x 100 3). lia.
Qed.

Lemma neutral_hex g : is_group g -> neutral (hex_group g) = true.
Proof.
  intros Hg. unfold is_group in Hg. unfold hex_group.
  pose proof (Z.mod_pos_bound g 16). pose proof (Z.mod_pos_bound (g / 16) 16).
  pose proof (Z.mod_pos_bound (g / 256) 16).
  pose proof (Z.div_lt_upper_bound g 4096 16). pose proof (Z.div_pos g 4096).
  rewrite !neutral_app. rewrite (neutral_digit (g mod 16)) by lia. rewrite andb_true_r, !andb_true_iff.
  repeat split; [destruct (4096 <=? g)|destruct (256 <=? g)|destruct (16 <=? g)];
    try done; apply neutral_digit; lia.
Qed.

Definition no_zone (s : string) : Prop :=
  existsb outside (String.list_ascii_of_string s) = false.

Lemma no_zone_percent s : no_zone s -> existsb (Ascii.eqb "%") (String.list_ascii_of_string s) = false.
Proof.
  unfold no_zone. induction s as [|c s IH]; [done|]. cbn [String.list_ascii_of_string existsb].
  intros [Hc Hs]%orb_false_iff. rewrite IH by done. unfold outside in Hc.
  apply orb_false_iff in Hc as [Hc _]. apply orb_false_iff in Hc as [Hc _]. by rewrite Ascii.eqb_sym, Hc.
Qed.

Lemma no_zone_has s a : no_zone s -> outside a = true -> has_byte a s = false.
Proof.
  unfold no_zone. intros Hs Ha. induction s as [|c s IH]; [done|].
  cbn [String.list_ascii_of_string existsb] in Hs. apply orb_false_iff in Hs as [Hc Hs]. cbn. rewrite IH by done.
  destruct (Ascii.eqb_spec c a) as [->|]; [congruence|done].
Qed.

Lemma no_zone_app s t : no_zone s -> no_zone t -> no_zone (s +:+ t).
Proof.
  unfold no_zone. induction s as [|c s IH]; [done|]. cbn. intros [Hc Hs]%orb_false_iff Ht.
  apply orb_false_iff. auto.
Qed.

Lemma no_zone_neutral s : neutral s = true -> no_zone s.
Proof.
  unfold neutral, no_zone. induction s as [|c s IH]; [done|].
  cbn [String.list_ascii_of_string forallb existsb]. intros [Hc Hs]%andb_true_iff. rewrite IH by done.
  rewrite orb_false_r. apply negb_true_iff in Hc. by apply orb_false_iff in Hc as [_ Hc].
Qed.

Lemma no_zone_groups gs : Forall is_group gs -> no_zone (join_groups gs).
Proof.
  induction gs as [|g gs IH]; [done|]. intros [Hg Hgs]%Forall_cons. destruct gs as [|g' gs].
  - by apply no_zone_neutral, neutral_hex.
  - rewrite join_groups_cons by done. apply no_zone_app; [by apply no_zone_neutral, neutral_hex|].
    apply no_zone_app; [done|auto].
Qed.

(** *** IPv6 *)

Lemma form_colon gs t : gs <> [] -> Forall is_group gs -> (2 <= length gs)%nat \/ (exists r, t = String ":" r) ->
  addr_form_of (join_groups gs +:+ t) = Colons.
Proof.
  destruct gs as [|g [|g' gs]]; [done| |]; intros _ [Hg Hgs]%Forall_cons Hc.
  - destruct Hc as [Hc|[r ->]]; [cbn in Hc; lia|]. change (join_groups [g]) with (hex_group g).
    by rewrite addr_form_neutral by by apply neutral_hex.
  - rewrite join_groups_cons, append_assoc, addr_form_neutral by (done || by apply neutral_hex). done.
Qed.

Lemma parseIPv6_digit d r : 0 <= d < 16 ->
  parseIPv6 (String (hex_digit d) r) = parseIPv6_groups 8 (String (hex_digit d) r) [] None.
Proof.
  intros Hd. assert (d = 0 \/ d = 1 \/ d = 2 \/ d = 3 \/ d = 4 \/ d = 5 \/ d = 6 \/ d = 7 \/ d = 8 \/ d = 9
    \/ d = 10 \/ d = 11 \/ d = 12 \/ d = 13 \/ d = 14 \/ d = 15) as Hc by lia.
  by repeat destruct Hc as [->|Hc]; [..|subst d].
Qed.

(** An address as its eight groups. *)
Lemma IP_groups ip : is_IP ip ->
  group_bytes (groups ip) = ip /\ Forall is_group (groups ip) /\ length (groups ip) = 8%nat.
Proof.
  intros [Hl Hb]. destruct (group_bytes_groups ip) as (H1 & H2 & H3); [rewrite Hl; by exists 8%nat|done|].
  split; [done|split; [done|lia]].
Qed.

(** Groups around an elided run of zeros. *)
Lemma elided gs st len : (st + len <= length gs)%nat -> take len (drop st gs) = replicate len 0 ->
  group_bytes gs = group_bytes (take st gs) ++ replicate (2 * len) 0 ++ group_bytes (drop (st + len) gs).
Proof.
  intros Hl Hz. rewrite <- group_bytes_zero, <- Hz, <- !group_bytes_app. f_equal.
  rewrite <- drop_drop, List.firstn_skipn. by rewrite List.firstn_skipn.
Qed.

Lemma expand_elided gs st len : length gs = 8%nat -> (2 <= len)%nat -> (st + len <= 8)%nat ->
  take len (drop st gs) = replicate len 0 ->
  expand (group_bytes (take st gs) ++ group_bytes (drop (st + len) gs)) (Some (2 * st)%nat) =
  Some (group_bytes gs).
Proof.
  intros Hg Hlen Hst Hz. unfold expand.
  assert (length (group_bytes (take st gs)) = (2 * st)%nat) as H1
    by (rewrite length_group_bytes, length_take_le; lia).
  assert (length (group_bytes (drop (st + len) gs)) = (2 * (8 - (st + len)))%nat) as H2
    by (rewrite length_group_bytes, length_drop; lia).
  rewrite length_app, H1, H2. destruct (Nat.ltb_spec (2 * st + 2 * (8 - (st + len))) 16); [|lia].
  rewrite (elided gs st len) by (done || lia).
  rewrite <- H1, take_app_length, drop_app_length, H1.
  replace (16 - (2 * st + 2 * (8 - (st + len))))%nat with (2 * len)%nat by lia. done.
Qed.

(** The three shapes of a printed address. *)
Lemma string6_shape ip : is_IP ip -> let gs := groups ip in
  string6 ip = join_groups gs \/
  exists st len, (2 <= len)%nat /\ (st + len <= 8)%nat /\ take len (drop st gs) = replicate len 0 /\
    string6 ip = join_groups (take st gs) +:+ "::" +:+ join_groups (drop (st + len) gs).
Proof.
  intros Hip gs. unfold string6. fold gs. destruct (IP_groups ip Hip) as (_ & _ & Hl). fold gs in Hl.
  pose proof (longest_run_spec gs 0 gs (0%nat, 0%nat) eq_refl (or_introl eq_refl)) as Hr.
  destruct (longest_run 0 gs (0%nat, 0%nat)) as [st [|len]]; [by left|right].
  destruct Hr as [Hr|(H2 & Hsum & Hz)]; [done|]. cbn [fst snd] in *.
  exists st, (S len). split; [done|split; [lia|done]].
Qed.

Lemma parseIPv6_join gs t : gs <> [] -> Forall is_group gs ->
  parseIPv6 (join_groups gs +:+ t) = parseIPv6_groups 8 (join_groups gs +:+ t) [] None.
Proof.
  intros Hne Hgs. destruct (join_groups_head gs Hne Hgs) as (d & r & Hd & ->). by apply parseIPv6_digit.
Qed.

Lemma parseIPv6_string6 ip : is_IP ip -> parseIPv6 (string6 ip) = Some ip.
Proof.
  intros Hip. destruct (IP_groups ip Hip) as (Hb & Hg & Hl).
  destruct (string6_shape ip Hip) as [->|(st & len & Hlen & Hst & Hz & ->)].
  - assert (groups ip <> []) as Hne by by destruct (groups ip).
    rewrite <- (append_nil_r (join_groups _)), parseIPv6_join, append_nil_r, groups_run by (done || lia).
    cbn [app]. unfold expand. rewrite Hb, (proj1 Hip). done.
  - pose proof (expand_elided (groups ip) st len Hl Hlen Hst Hz) as He. rewrite Hb in He.
    pose proof (Forall_take _ st _ Hg) as Hg1. pose proof (Forall_drop _ (st + len) _ Hg) as Hg2.
    assert (length (take st (groups ip)) = st) as Hl1 by (rewrite length_take_le; lia).
    assert (length (drop (st + len) (groups ip)) = 8 - (st + len))%nat as Hl2 by (rewrite length_drop; lia).
    destruct (decide (take st (groups ip) = [])) as [E1|Hne].
    + rewrite E1 in *. destruct st; [|cbn in Hl1; lia]. cbn [Nat.add Nat.mul app] in *.
      change (join_groups []) with ""%string.
      destruct (drop len (groups ip)) as [|g2 gs2] eqn:E2.
      * cbn in Hl2. assert (len = 8%nat) as -> by lia. exact He.
      * destruct (join_groups_head (g2 :: gs2)) as (d2 & r2 & Hd2 & Hr2); [done..|].
        cbn [String.append]. rewrite Hr2. cbn [parseIPv6]. rewrite <- Hr2, groups_run by (done || lia). exact He.
    + rewrite parseIPv6_join, groups_run_ellipsis by (done || lia). rewrite Hl1. cbn zeta.
      cbn [app length Nat.add].
      destruct (drop (st + len) (groups ip)) as [|g2 gs2] eqn:E2.
      * rewrite app_nil_r in He. exact He.
      * destruct (join_groups_head (g2 :: gs2)) as (d2 & r2 & Hd2 & Hr2); [done..|].
        rewrite Hr2, <- Hr2, groups_run by (done || lia). exact He.
Qed.

Lemma form_string6 ip : is_IP ip -> addr_form_of (string6 ip) = Colons /\ no_zone (string6 ip).
Proof.
  intros Hip. destruct (IP_groups ip Hip) as (_ & Hg & Hl).
  destruct (string6_shape ip Hip) as [->|(st & len & Hlen & Hst & Hz & ->)].
  - split; [|by apply no_zone_groups]. rewrite <- (append_nil_r (join_groups _)).
    apply form_colon; [by destruct (groups ip)|done|left; lia].
  - pose proof (Forall_take _ st _ Hg) as Hg1. pose proof (Forall_drop _ (st + len) _ Hg) as Hg2. split.
    + destruct (decide (take st (groups ip) = [])) as [->|Hne]; [done|].
      apply form_colon; [done|done|right; by eexists].
    + repeat apply no_zone_app; try done; by apply no_zone_groups.
Qed.

Lemma no_zone_string4 f : Forall is_byte f -> no_zone (string4 f).
Proof.
  unfold string4, strings.Join. induction f as [|x f IH]; [done|]. intros [Hx Hf]%Forall_cons. cbn [map String.concat].
  destruct f as [|y f]; [by apply no_zone_neutral, neutral_dec|]. cbn [map] in *.
  apply no_zone_app; [by apply no_zone_neutral, neutral_dec|apply no_zone_app; [done|by apply IH]].
Qed.

Lemma no_zone_IP_String ip : is_IP ip -> no_zone (IP_String ip).
Proof.
  intros Hip. unfold IP_String, To4. case_bool_decide; [|by apply form_string6].
  apply no_zone_string4, Forall_drop, Hip.
Qed.

Lemma ParseIP_String ip : is_IP ip -> ParseIP (IP_String ip) = Some ip.
Proof.
  intros Hip. unfold IP_String, To4, ParseIP. case_bool_decide as Hm.
  - assert (length (drop 12 ip) = 4%nat) as Hl by (rewrite length_drop, (proj1 Hip); done).
    assert (Forall is_byte (drop 12 ip)) as Hb by apply Forall_drop, (proj2 Hip).
    assert (addr_form_of (string4 (drop 12 ip)) = Dotted) as ->.
    { destruct (drop 12 ip) as [|a [|b rest]] eqn:E; cbn in Hl; try lia.
      apply Forall_cons in Hb as [Ha _]. unfold string4, strings.Join. cbn [map String.concat].
      rewrite addr_form_neutral by by apply neutral_dec. by destruct rest. }
    rewrite parseIPv4_string4 by done. cbn [option_map]. rewrite <- Hm. f_equal. apply List.firstn_skipn.
  - destruct (form_string6 ip Hip) as [-> Hz]. rewrite no_zone_percent by done. by apply parseIPv6_string6.
Qed.

(** *** What the parser returns is an address *)

Lemma digit_of_range c d : strconv.digit_of c = Some d -> 0 <= d < 10.
Proof.
  unfold strconv.digit_of. destruct ((48 <=? nat_of_ascii c)%nat && (nat_of_ascii c <=? 57)%nat) eqn:E; [|done].
  apply andb_true_iff in E as [H1%Nat.leb_le H2%Nat.leb_le]. intros [= <-]. lia.
Qed.

Lemma hex_value_range c d : hex_value c = Some d -> 0 <= d < 16.
Proof. unfold hex_value. intros H. repeat case_scrut_in H; simplify_eq; bool_prop; lia. Qed.

Lemma parseIPv4Fields_bytes s first dot val n fs f :
  parseIPv4Fields s first dot val n fs = Some f -> is_byte val -> Forall is_byte fs -> (length fs <= 3)%nat ->
  length f = 4%nat /\ Forall is_byte f.
Proof.
  revert first dot val n fs. induction s as [|c s IH]; intros first dot val n fs; cbn [parseIPv4Fields].
  - destruct (Nat.ltb_spec (length fs) 3); [done|]. intros [= <-] Hv Hf Hl.
    change (rev (val :: fs)) with (rev fs ++ [val]).
    rewrite length_app, length_rev. split; [cbn; lia|]. apply Forall_app.
    split; [by apply Forall_rev|by constructor].
  - destruct (strconv.digit_of c) as [d|] eqn:Hd.
    + apply digit_of_range in Hd. destruct (_ && _); [done|]. destruct (Z.ltb_spec 255 (val * 10 + d)); [done|].
      intros Hp Hv. apply (IH _ _ _ _ _ Hp). unfold is_byte in *. lia.
    + destruct (Ascii.eqb c "."); [|done]. destruct (_ || _ || _); [done|].
      destruct (Nat.eqb_spec (length fs) 3); [done|]. intros Hp Hv Hf Hl.
      apply (IH _ _ _ _ _ Hp); [by unfold is_byte|by constructor|cbn; lia].
Qed.

Lemma parseIPv4_bytes s f : parseIPv4 s = Some f -> length f = 4%nat /\ Forall is_byte f.
Proof.
  intros H. apply (parseIPv4Fields_bytes _ _ _ _ _ _ _ H); [by unfold is_byte|constructor|cbn; lia].
Qed.

Lemma scan_hex_range s n acc g m r : scan_hex s n acc = Some (g, m, r) -> (n <= 4)%nat ->
  0 <= acc < 16 ^ Z.of_nat n -> 0 <= g < 65536.
Proof.
  revert n acc. induction s as [|c s IH]; intros n acc; cbn [scan_hex].
  - intros [= <- _ _] Hn Ha. pose proof (Z.pow_le_mono_r 16 (Z.of_nat n) 4). lia.
  - destruct (hex_value c) as [d|] eqn:Hd.
    + apply hex_value_range in Hd. destruct (Nat.ltb_spec 3 n); [done|]. intros Hs Hn Ha.
      apply (IH _ _ Hs); [lia|]. rewrite Nat2Z.inj_succ, Z.pow_succ_r by lia. lia.
    + intros [= <- _ _] Hn Ha. pose proof (Z.pow_le_mono_r 16 (Z.of_nat n) 4). lia.
Qed.

Lemma expand_IP ip ell r : expand ip ell = Some r -> Forall is_byte ip -> (length ip <= 16)%nat -> is_IP r.
Proof.
  unfold expand, is_IP. destruct (Nat.ltb_spec (length ip) 16), ell as [e|]; try done; intros [= <-] Hb Hl.
  - rewrite !length_app, length_replicate, List.length_firstn, length_drop. split; [lia|].
    apply Forall_app. split; [by apply Forall_take|]. apply Forall_app.
    split; [apply Forall_replicate; by unfold is_byte|by apply Forall_drop].
  - split; [lia|done].
Qed.

Lemma group_is_bytes g : 0 <= g < 65536 -> Forall is_byte [Z.shiftr g 8; Z.land g 255].
Proof.
  intros Hg. rewrite Z.shiftr_div_pow2 by lia. change 255 with (Z.ones 8). rewrite Z.land_ones by lia.
  change (2 ^ 8) with 256. pose proof (Z.mod_pos_bound g 256). pose proof (Z.div_pos g 256).
  pose proof (Z.div_lt_upper_bound g 256 256). unfold is_byte. repeat constructor; lia.
Qed.

Lemma parseIPv6_groups_IP fuel s ip ell r : parseIPv6_groups fuel s ip ell = Some r ->
  Forall is_byte ip -> (length ip + 2 * fuel = 16)%nat -> is_IP r.
Proof.
  revert s ip ell. induction fuel as [|fuel IH]; intros s ip ell; cbn [parseIPv6_groups]; [done|].
  destruct (scan_hex s 0 0) as [[[g n] rest]|] eqn:Hs; [|done].
  apply scan_hex_range in Hs; [|lia|done]. destruct (Nat.eqb n 0); [done|].
  intros Hp Hb Hl. cbn zeta in Hp.
  assert (Forall is_byte (ip ++ [Z.shiftr g 8; Z.land g 255])) as Hb'
    by (apply Forall_app; split; [done|by apply group_is_bytes]).
  assert (length (ip ++ [Z.shiftr g 8; Z.land g 255]) = S (S (length ip))) as Hl'
    by (rewrite length_app; cbn; lia).
  assert (forall e, expand (ip ++ [Z.shiftr g 8; Z.land g 255]) e = Some r -> is_IP r) as He
    by (intros e H; apply (expand_IP _ _ _ H Hb'); lia).
  assert (forall s' e, parseIPv6_groups fuel s' (ip ++ [Z.shiftr g 8; Z.land g 255]) e = Some r -> is_IP r) as Hg
    by (intros s' e H; apply (IH _ _ _ H Hb'); lia).
  repeat case_scrut_in Hp; try done; eauto.
  all: match goal with H : parseIPv4 _ = Some _ |- _ => apply parseIPv4_bytes in H as [? ?] end.
  all: apply (expand_IP _ _ _ Hp); [by apply Forall_app|rewrite length_app; bool_prop].
  all: match goal with H : (16 <? _)%nat = false |- _ => apply Nat.ltb_ge in H; lia end.
Qed.

Lemma parseIPv6_IP s r : parseIPv6 s = Some r -> is_IP r.
Proof.
  assert (forall s' e, parseIPv6_groups 8 s' [] e = Some r -> is_IP r) as Hg
    by (intros s' e H; by apply (parseIPv6_groups_IP _ _ _ _ _ H)).
  intros Hp. unfold parseIPv6 in Hp. repeat case_scrut_in Hp; eauto.
  simplify_eq. split; [done|]. apply Forall_replicate. by unfold is_byte.
Qed.

Lemma ParseIP_IP s ip : ParseIP s = Some ip -> is_IP ip.
Proof.
  unfold ParseIP. destruct (addr_form_of s); [|destruct (existsb _ _); [done|apply parseIPv6_IP]|done].
  destruct (parseIPv4 s) as [f|] eqn:Hf; [|done]. apply parseIPv4_bytes in Hf as [Hl Hb]. intros [= <-].
  assert (Forall is_byte v4_prefix) as Hp by (unfold v4_prefix, is_byte; repeat constructor; lia).
  change (is_IP (v4_prefix ++ f)). unfold is_IP. split; [rewrite List.length_app, Hl; done|]. by apply Forall_app.
Qed.

(** The text of an address determines it. *)
Lemma IP_String_inj ip ip' : is_IP ip -> is_IP ip' -> IP_String ip = IP_String ip' -> ip = ip'.
Proof.
  intros H H' Heq. apply (f_equal ParseIP) in Heq. rewrite !ParseIP_String in Heq by done. by simplify_eq.
Qed.
End roundtrip.
