(* ===== verification/GoErr.v ===== *)
(** * Error values

    Go errors as values: the package-level sentinels of the operator, errors
    made by [errors.New] and [fmt.Errorf], the [*netbird.APIError] of the REST
    client, and errors of other third-party code (the Kubernetes client).
    [errors.Is] and [errors.As] walk the [%w] chain.  How a client library
    classifies an error ([netbird.IsNotFound], [kerrors.IsNotFound],
    [client.IgnoreNotFound]) is not code of the repository: it is the
    interface [ErrorClass], with its documented behaviour in [ErrorClassLaws]. *)

From stdpp Require Import base list strings.
From Stdlib Require Import ZArith Lia.
From S2P Require Import Prelude GoStrings.

Inductive sentinel :=
| ErrDependencyNotReady      (* controller.errDependencyNotReady *)
| ErrZoneNotFound            (* netbirdutil.ErrZoneNotFound *)
| ErrProxyClusterNotFound.   (* netbirdutil.ErrProxyClusterNotFound *)

#[export] Instance sentinel_eq_dec : EqDecision sentinel.
Proof. solve_decision. Defined.

Inductive error :=
| ErrSentinel (s : sentinel)
| ErrText (msg : string)
| ErrWrap (e : error) (msg : string)       (* fmt.Errorf("%w" + msg, e) *)
| ErrAPI (status : Z) (msg : string)       (* *netbird.APIError *)
| ErrExt (id : Z) (msg : string).          (* an error of another library *)

#[export] Instance error_eq_dec : EqDecision error.
Proof. solve_decision. Defined.

Definition sentinel_text (s : sentinel) : string :=
  match s with
  | ErrDependencyNotReady => "dependency not ready"
  | ErrZoneNotFound => "dns zone not found"
  | ErrProxyClusterNotFound => "reverse-proxy cluster not found"
  end.

(** [errors.Is(err, s)]. *)
Fixpoint errors_Is (e : error) (s : sentinel) : bool :=
  match e with
  | ErrSentinel s' => bool_decide (s' = s)
  | ErrWrap e' _ => errors_Is e' s
  | _ => false
  end.

(** [errors.As(err, &apiErr)]: the status code of the first API error. *)
Fixpoint errors_As_API (e : error) : option Z :=
  match e with
  | ErrAPI status _ => Some status
  | ErrWrap e' _ => errors_As_API e'
  | _ => None
  end.

(** [netbirdutil.IsConflict]: 400, 409 or 412. *)
Definition IsConflict (e : error) : bool :=
  match errors_As_API e with
  | Some status =>
      (status =? 400)%Z || (status =? 409)%Z || (status =? 412)%Z
  | None => false
  end.

(** [fmt.Errorf("%w: ...", errDependencyNotReady, ...)]. *)
Definition dependency_not_ready (msg : string) : error :=
  ErrWrap (ErrSentinel ErrDependencyNotReady) (": " +:+ msg).
Arguments dependency_not_ready : simpl never.

(** The client libraries' classification of errors. *)
Class ErrorClass := {
  netbird_IsNotFound : error -> bool;
  kerrors_IsNotFound : error -> bool;
  (** [client.IgnoreNotFound] on a non-nil error *)
  IgnoreNotFound : error -> option error;
  (** [APIError.Error] *)
  api_error_text : Z -> string -> string
}.

(** What the client libraries document: a [404] of the Management API is
    not-found and no other API error is; [IgnoreNotFound] drops exactly the
    Kubernetes not-found errors; an error of the operator itself is neither. *)
Class ErrorClassLaws `{ErrorClass} := {
  netbird_not_found_api : forall e status,
    errors_As_API e = Some status -> netbird_IsNotFound e = (status =? 404)%Z;
  ignore_not_found_spec : forall e,
    IgnoreNotFound e = if kerrors_IsNotFound e then None else Some e;
  not_found_not_dependency : forall e,
    errors_Is e ErrDependencyNotReady = true ->
    netbird_IsNotFound e = false /\ kerrors_IsNotFound e = false
}.

(** [err.Error()]. *)
Fixpoint Error `{ErrorClass} (e : error) : string :=
  match e with
  | ErrSentinel s => sentinel_text s
  | ErrText msg => msg
  | ErrWrap e' msg => Error e' +:+ msg
  | ErrAPI status msg => api_error_text status msg
  | ErrExt _ msg => msg
  end.

(** A concrete classification, for evaluation: a not-found error of the
    Kubernetes client is [ErrExt 404]. *)
Definition std_is_nb_not_found (e : error) : bool :=
  match errors_As_API e with Some s => (s =? 404)%Z | None => false end.
Definition std_is_k8s_not_found (e : error) : bool :=
  match e with ErrExt id _ => (id =? 404)%Z | _ => false end.

#[export] Instance std_error_class : ErrorClass := {|
  netbird_IsNotFound := std_is_nb_not_found;
  kerrors_IsNotFound := std_is_k8s_not_found;
  IgnoreNotFound e := if std_is_k8s_not_found e then None else Some e;
  api_error_text status msg := msg
|}.

Lemma errors_Is_not_api e s : errors_Is e s = true -> errors_As_API e = None.
Proof. by induction e. Qed.

#[export] Instance std_error_class_laws : ErrorClassLaws.
Proof.
  constructor.
  - intros e status He. cbn. unfold std_is_nb_not_found. by rewrite He.
  - done.
  - intros e He. cbn. unfold std_is_nb_not_found.
    rewrite (errors_Is_not_api _ _ He). by destruct e.
Qed.

Lemma IsConflict_wrap e msg : IsConflict (ErrWrap e msg) = IsConflict e.
Proof. done. Qed.

Lemma dependency_is_dependency msg :
  errors_Is (dependency_not_ready msg) ErrDependencyNotReady = true.
Proof. done. Qed.
#[export] Hint Resolve dependency_is_dependency : go_hints.

(** A conflict is an API error, so it is neither of the operator's sentinels
    nor a 404. *)
Lemma IsConflict_exclusive `{ErrorClassLaws} e :
  IsConflict e = true -> netbird_IsNotFound e = false /\ forall s, errors_Is e s = false.
Proof.
  unfold IsConflict. intros Hc. destruct (errors_As_API e) as [status|] eqn:E; [|done].
  split.
  - rewrite (netbird_not_found_api _ _ E). lia.
  - intros s. destruct (errors_Is e s) eqn:Hs; [|done].
    apply errors_Is_not_api in Hs. congruence.
Qed.
