(* ===== verification/Prog.v ===== *)
(** * Effectful programs

    A reconciler talks to the Kubernetes API server and to the NetBird
    Management API.  It is modelled as a program: a finite tree of calls, each
    continued by every possible response.  The environment is not fixed:
    [runs p t a] relates a program to each trace of calls and responses it can
    produce and the value it then returns, for whatever responses the
    environment gives; [exec] runs a program against a concrete handler.  A
    property stated with [runs] therefore holds whatever the cluster, the API
    and the other controllers do between two calls. *)

From stdpp Require Import base list.
From Stdlib Require Import Lia Eqdep.
From S2P Require Import Prelude.

Section prog.
(** The calls of a program and the type of their responses. *)
Context {call : Type} {resp : call -> Type}.

Inductive prog (A : Type) : Type :=
| Ret (a : A)
| Call (c : call) (k : resp c -> prog A).
Arguments Ret {A} a.
Arguments Call {A} c k.

Fixpoint bind {A B} (p : prog A) (f : A -> prog B) : prog B :=
  match p with
  | Ret a => f a
  | Call c k => Call c (fun r => bind (k r) f)
  end.

Definition perform (c : call) : prog (resp c) := Call c Ret.

(** A trace entry: a call and the response it got. *)
Inductive entry : Type := Entry (c : call) (r : resp c).

Fixpoint runs {A} (p : prog A) (t : list entry) (a : A) : Prop :=
  match p, t with
  | Ret b, [] => b = a
  | Call c k, e :: t' => exists r, e = Entry c r /\ runs (k r) t' a
  | _, _ => False
  end.

(** Weakest precondition over every environment. *)
Fixpoint wp {A} (p : prog A) (Q : list entry -> A -> Prop) : Prop :=
  match p with
  | Ret a => Q [] a
  | Call c k => forall r, wp (k r) (fun t a => Q (Entry c r :: t) a)
  end.

(** Execution against a handler on a world [W]. *)
Fixpoint exec {W A} (h : forall c, W -> resp c * W) (p : prog A) (w : W) : A * W :=
  match p with
  | Ret a => (a, w)
  | Call c k => let '(r, w') := h c w in exec h (k r) w'
  end.

Lemma wp_mono {A} (p : prog A) (Q Q' : list entry -> A -> Prop) :
  wp p Q -> (forall t a, Q t a -> Q' t a) -> wp p Q'.
Proof.
  revert Q Q'. induction p as [a|c k IH]; cbn; intros Q Q' Hp HQ; [auto|].
  intros r. eapply IH; [apply Hp|]. auto.
Qed.

Lemma wp_runs {A} (p : prog A) Q :
  wp p Q <-> forall t a, runs p t a -> Q t a.
Proof.
  revert Q. induction p as [a|c k IH]; intros Q; cbn; split.
  - intros HQ [|e t] b; [by intros <-|done].
  - intros H. by apply H.
  - intros H [|e t] b; [done|]. intros (r & -> & Hr).
    by apply (proj1 (IH r _) (H r)).
  - intros H r. apply IH. intros t a Hr. apply H. eauto.
Qed.

Lemma wp_bind {A B} (p : prog A) (f : A -> prog B) Q :
  wp (bind p f) Q <-> wp p (fun t a => wp (f a) (fun t' b => Q (t ++ t') b)).
Proof.
  revert Q. induction p as [a|c k IH]; intros Q; cbn; [done|].
  split; intros H r; apply (IH r (fun t b => Q (Entry c r :: t) b)), H.
Qed.

Lemma runs_bind {A B} (p : prog A) (f : A -> prog B) t b :
  runs (bind p f) t b <->
  exists t1 a t2, runs p t1 a /\ runs (f a) t2 b /\ t = t1 ++ t2.
Proof.
  split.
  - revert t b. apply wp_runs, wp_bind, wp_runs. intros t1 a H1.
    apply wp_runs. intros t2 b H2. eauto 10.
  - intros (t1 & a & t2 & H1 & H2 & ->). revert t1 H1.
    induction p as [a'|c k IH]; intros [|e t1]; cbn; [by intros ->|done..|].
    intros (r & -> & H1). eauto.
Qed.

Lemma exec_runs {W A} (h : forall c, W -> resp c * W) (p : prog A) w :
  exists t, runs p t (fst (exec h p w)).
Proof.
  revert w. induction p as [a|c k IH]; intros w; cbn.
  - by exists [].
  - destruct (h c w) as [r w'] eqn:E. destruct (IH r w') as [t Ht].
    exists (Entry c r :: t). eauto.
Qed.

Lemma exec_bind {W A B} (h : forall c, W -> resp c * W) (p : prog A) (f : A -> prog B) w :
  exec h (bind p f) w = let '(a, w') := exec h p w in exec h (f a) w'.
Proof.
  revert w. induction p as [a|c k IH]; intros w; cbn; [done|].
  destruct (h c w) as [r w']. apply IH.
Qed.
End prog.

Arguments prog {call} resp A.
Arguments Ret {call resp A} a.
Arguments Call {call resp A} c k.
Arguments entry {call} resp.
Arguments Entry {call resp} c r.

Declare Scope prog_scope.
Delimit Scope prog_scope with prog.
Notation "'let!' x := p 'in' q" := (bind p (fun x => q))
  (at level 10, x name, p at level 200, q at level 200) : prog_scope.
Notation "'let!' ' pat := p 'in' q" := (bind p (fun x => match x with pat => q end))
  (at level 10, pat pattern, p at level 200, q at level 200) : prog_scope.
Notation "'do!' p 'in' q" := (bind p (fun _ => q))
  (at level 10, p at level 200, q at level 200) : prog_scope.

(** A property of every run needs no look at the program. *)
Lemma wp_all {call} {resp : call -> Type} {A} (p : prog resp A) Q :
  (forall t a, runs p t a -> Q t a) -> wp p Q.
Proof. by rewrite wp_runs. Qed.

Lemma wp_elim {call} {resp : call -> Type} {A} (p : prog resp A) Q t a :
  wp p Q -> runs p t a -> Q t a.
Proof. rewrite wp_runs. auto. Qed.

Lemma wp_and {call} {resp : call -> Type} {A} (p : prog resp A) Q Q' :
  wp p Q -> wp p Q' -> wp p (fun t a => Q t a /\ Q' t a).
Proof. rewrite !wp_runs. auto. Qed.

(** ** Which calls a program makes, and what it can return *)
Section calls.
Context {call : Type} {resp : call -> Type}.

Fixpoint calls_in {A} (P : call -> Prop) (p : prog resp A) : Prop :=
  match p with
  | Ret _ => True
  | Call c k => P c /\ forall r, calls_in P (k r)
  end.

Lemma calls_in_bind {A B} P (p : prog resp A) (f : A -> prog resp B) :
  calls_in P p -> (forall a, calls_in P (f a)) -> calls_in P (bind p f).
Proof. intros Hp Hf. induction p as [a|c k IH]; cbn in *; [done|]. naive_solver. Qed.

Lemma calls_in_mono {A} (P P' : call -> Prop) (p : prog resp A) :
  (forall c, P c -> P' c) -> calls_in P p -> calls_in P' p.
Proof. intros HP. induction p; cbn; naive_solver. Qed.

Lemma calls_in_wp {A} P (p : prog resp A) :
  calls_in P p -> wp p (fun t _ => forall c r, Entry c r ∈ t -> P c).
Proof.
  induction p as [a|c k IH]; cbn; [intros _ ? ? ?%not_elem_of_nil; done|].
  intros [Hc Hk] r. eapply wp_mono; [by apply IH|].
  intros t a Ht c' r' [?|?]%elem_of_cons; [by simplify_eq|eauto].
Qed.

(** Only the returned value matters. *)
Lemma wp_bind_post {A B} (p : prog resp A) (f : A -> prog resp B) (Q : B -> Prop) :
  (forall a, wp (f a) (fun _ b => Q b)) -> wp (bind p f) (fun _ b => Q b).
Proof. intros Hf. apply wp_bind, wp_all. intros t a _. eapply wp_mono; eauto. Qed.
End calls.

(** Prove [calls_in] by following the program; [tac] handles callees. *)
Ltac calls_run tac :=
  repeat first
    [ progress cbn
    | match goal with
      | |- True => exact I
      | |- _ /\ _ => split
      | |- forall _, _ => intros ?
      | |- calls_in _ (bind _ _) => apply calls_in_bind
      end
    | tac
    | case_scrut
    | done ].

(** A trace entry determines its response. *)
Lemma Entry_inj {call} {resp : call -> Type} (c : call) (r r' : resp c) :
  Entry c r = Entry c r' -> r = r'.
Proof. intros H. injection H as H. by apply inj_pair2 in H. Qed.

Ltac entry_eq :=
  repeat (simplify_eq;
    repeat match goal with
    | H : Entry ?c _ = Entry ?c _ |- _ => apply Entry_inj in H; cbn in H
    | H : existT ?c _ = existT ?c _ |- _ => apply inj_pair2 in H; cbn in H
    end).

(** The run in which each call gets a given response. *)
Fixpoint follow {call} {resp : call -> Type} {A} (h : forall c, resp c) (p : prog resp A) : list (entry resp) * A :=
  match p with
  | Ret a => ([], a)
  | Call c k => let '(t, a) := follow h (k (h c)) in (Entry c (h c) :: t, a)
  end.

Lemma follow_runs {call} {resp : call -> Type} {A} (h : forall c, resp c) (p : prog resp A) :
  runs p (follow h p).1 (follow h p).2.
Proof.
  induction p as [a|c k IH]; cbn; [done|]. specialize (IH (h c)). destruct (follow h (k (h c))). cbn. eauto.
Qed.
Lemma follow_answers {call} {resp : call -> Type} {A} (h : forall c, resp c) (p : prog resp A) e :
  e ∈ (follow h p).1 -> match e with Entry c r => r = h c end.
Proof.
  revert e. induction p as [a|c k IH]; intros e; cbn; [by intros ?%not_elem_of_nil|].
  specialize (IH (h c)). destruct (follow h (k (h c))). by intros [->|?%IH]%elem_of_cons.
Qed.

(** A concrete run, by evaluation. *)
Ltac run_by_eval := repeat (eexists; split; [reflexivity|]); reflexivity.
