(* ===== verification/ApiTypes.v ===== *)
(** * The [netbird.io/v1alpha1] API types

    The custom resources of [api/v1alpha1], field by field: a Go [*T] is
    [option T], [""] is the empty string of an unset string field, a map is a
    [gmap].  The metadata record keeps the fields of [metav1.ObjectMeta] the
    operator reads or writes. *)

From stdpp Require Import base gmap list strings.
From Stdlib Require Import ZArith.
From S2P Require Import Prelude GoStrings.

Open Scope Z_scope.

(** ** Metadata and conditions (Kubernetes types) *)

Record ObjectMeta := mkMeta {
  meta_Name : string;
  meta_Namespace : string;
  meta_UID : string;
  meta_Labels : gmap string string;
  meta_Annotations : gmap string string;
  meta_Finalizers : list string;
  meta_DeletionTimestamp : option Z;   (* None is the zero timestamp *)
  meta_Generation : Z
}.

Definition with_finalizers (m : ObjectMeta) (f : list string) : ObjectMeta :=
  mkMeta (meta_Name m) (meta_Namespace m) (meta_UID m) (meta_Labels m)
         (meta_Annotations m) f (meta_DeletionTimestamp m) (meta_Generation m).

(** [!obj.GetDeletionTimestamp().IsZero()]. *)
Definition deleting (m : ObjectMeta) : bool :=
  match meta_DeletionTimestamp m with Some _ => true | None => false end.

Inductive ConditionStatus := ConditionTrue | ConditionFalse | ConditionUnknown.

#[export] Instance ConditionStatus_eq_dec : EqDecision ConditionStatus.
Proof. solve_decision. Defined.

Record Condition := mkCondition {
  cond_Type : string;
  cond_Status : ConditionStatus;
  cond_Reason : string;
  cond_Message : string;
  cond_ObservedGeneration : Z
}.

#[export] Instance Condition_eq_dec : EqDecision Condition.
Proof. solve_decision. Defined.

Definition ReadyCondition : string := "Ready".
Definition ReconciledReason : string := "Reconciled".
Definition DependencyReason : string := "Dependency".

(** ** References *)

Record CrossNamespaceReference := mkRef {
  ref_Name : string;
  ref_Namespace : string
}.

#[export] Instance CrossNamespaceReference_eq_dec : EqDecision CrossNamespaceReference.
Proof. solve_decision. Defined.

(** [LocalRef] is a [corev1.LocalObjectReference]: a name. *)
Record GroupReference := mkGroupRef {
  gr_Name : option string;
  gr_ID : option string;
  gr_LocalRef : option string
}.

#[export] Instance GroupReference_eq_dec : EqDecision GroupReference.
Proof. solve_decision. Defined.

(** ** Network *)

Record NetworkSpec := mkNetworkSpec { net_Name : string; net_Description : string }.
Record NetworkStatus := mkNetworkStatus {
  net_ObservedGeneration : Z;
  net_Conditions : list Condition;
  net_NetworkID : string
}.
Record Network := mkNetwork {
  Network_Meta : ObjectMeta;
  Network_Spec : NetworkSpec;
  Network_Status : NetworkStatus
}.

(** ** NetworkResource *)

Record NetworkResourceSpec := mkNetworkResourceSpec {
  nres_NetworkRef : CrossNamespaceReference;
  nres_Name : string;
  nres_Address : string;
  nres_Description : string;
  nres_Groups : list GroupReference;
  nres_Enabled : bool
}.
Record NetworkResourceStatus := mkNetworkResourceStatus {
  nres_ObservedGeneration : Z;
  nres_Conditions : list Condition;
  nres_NetworkID : string;
  nres_ResourceID : string
}.
Record NetworkResource := mkNetworkResource {
  NetworkResource_Meta : ObjectMeta;
  NetworkResource_Spec : NetworkResourceSpec;
  NetworkResource_Status : NetworkResourceStatus
}.

(** ** DNSZone and DNSRecord *)

Record DNSZoneSpec := mkDNSZoneSpec {
  zone_Name : string;
  zone_Domain : string;
  zone_DistributionGroups : list GroupReference;
  zone_EnableSearchDomain : option bool;
  zone_Enabled : bool
}.
Record DNSZoneStatus := mkDNSZoneStatus {
  zone_ObservedGeneration : Z;
  zone_Conditions : list Condition;
  zone_ZoneID : string
}.
Record DNSZone := mkDNSZone {
  DNSZone_Meta : ObjectMeta;
  DNSZone_Spec : DNSZoneSpec;
  DNSZone_Status : DNSZoneStatus
}.

Record DNSRecordSpec := mkDNSRecordSpec {
  rec_ZoneRef : CrossNamespaceReference;
  rec_Name : string;
  rec_Type : string;
  rec_Content : string;
  rec_TTL : Z
}.
Record DNSRecordStatus := mkDNSRecordStatus {
  rec_ObservedGeneration : Z;
  rec_Conditions : list Condition;
  rec_ZoneID : string;
  rec_RecordID : string
}.
Record DNSRecord := mkDNSRecord {
  DNSRecord_Meta : ObjectMeta;
  DNSRecord_Spec : DNSRecordSpec;
  DNSRecord_Status : DNSRecordStatus
}.

(** ** Group and SetupKey *)

Record GroupSpec := mkGroupSpec { group_Name : string }.
Record GroupStatus := mkGroupStatus {
  group_ObservedGeneration : Z;
  group_Conditions : list Condition;
  group_GroupID : string
}.
Record Group := mkGroup {
  Group_Meta : ObjectMeta;
  Group_Spec : GroupSpec;
  Group_Status : GroupStatus
}.

(** A [metav1.Duration] is a number of nanoseconds. *)
Record SetupKeySpec := mkSetupKeySpec {
  sk_Name : string;
  sk_Ephemeral : bool;
  sk_AllowExtraDnsLabels : bool;
  sk_Duration : option Z;
  sk_AutoGroups : list GroupReference
}.
Record SetupKeyStatus := mkSetupKeyStatus {
  sk_ObservedGeneration : Z;
  sk_Conditions : list Condition;
  sk_SetupKeyID : string
}.
Record SetupKey := mkSetupKey {
  SetupKey_Meta : ObjectMeta;
  SetupKey_Spec : SetupKeySpec;
  SetupKey_Status : SetupKeyStatus
}.

Definition SecretName (sk : SetupKey) : string :=
  "setup-key-" +:+ meta_Name (SetupKey_Meta sk).

(** ** NetworkRouter *)

Record RouterDeploy := mkRouterDeploy {
  rd_NodeSelector : gmap string string;
  rd_Image : string;
  rd_LogLevel : string
}.
Record NetworkRouterPeers := mkNetworkRouterPeers {
  peers_Group : option GroupReference;
  peers_Deploy : option RouterDeploy
}.
Record NetworkRouterSpec := mkNetworkRouterSpec {
  router_NetworkRef : CrossNamespaceReference;
  router_Peers : NetworkRouterPeers;
  router_Masquerade : bool;
  router_Metric : Z;
  router_Enabled : bool
}.
Record NetworkRouterStatus := mkNetworkRouterStatus {
  router_ObservedGeneration : Z;
  router_Conditions : list Condition;
  router_NetworkID : string;
  router_RouterID : string;
  router_GroupID : string
}.
Record NetworkRouter := mkNetworkRouter {
  NetworkRouter_Meta : ObjectMeta;
  NetworkRouter_Spec : NetworkRouterSpec;
  NetworkRouter_Status : NetworkRouterStatus
}.

(** ** ClusterProxy *)

Record ClusterProxySpec := mkClusterProxySpec {
  cp_ClusterName : string;
  cp_APIServer : string;
  cp_ServiceAccountName : string;
  cp_Groups : list GroupReference;
  cp_Replicas : option Z
}.
Record ClusterProxyStatus := mkClusterProxyStatus {
  cp_ObservedGeneration : Z;
  cp_Conditions : list Condition
}.
Record ClusterProxy := mkClusterProxy {
  ClusterProxy_Meta : ObjectMeta;
  ClusterProxy_Spec : ClusterProxySpec;
  ClusterProxy_Status : ClusterProxyStatus
}.

(** ** ReverseProxyService *)

(** The string enumerations keep the string of an unknown value, as the Go
    string types do. *)
Definition CrowdsecMode := string.
Definition CrowdsecModeOff : CrowdsecMode := "off".
Definition CrowdsecModeObserve : CrowdsecMode := "observe".
Definition CrowdsecModeEnforce : CrowdsecMode := "enforce".

Definition ReverseProxyMode := string.
Definition ReverseProxyModeHTTP : ReverseProxyMode := "http".
Definition ReverseProxyModeTCP : ReverseProxyMode := "tcp".
Definition ReverseProxyModeTLS : ReverseProxyMode := "tls".
Definition ReverseProxyModeUDP : ReverseProxyMode := "udp".

Record AccessRestrictions := mkAccessRestrictions {
  ar_AllowedCidrs : list string;
  ar_BlockedCidrs : list string;
  ar_AllowedCountries : list string;
  ar_BlockedCountries : list string
}.

Record ReverseProxyBackend := mkReverseProxyBackend {
  rpb_ServiceRef : string;
  rpb_Port : Z;
  rpb_Path : string
}.

Record ReverseProxyServiceSpec := mkReverseProxyServiceSpec {
  rps_Backends : list ReverseProxyBackend;
  rps_Mode : ReverseProxyMode;
  rps_ListenPort : option Z;
  rps_ProxyProtocol : option bool;
  rps_ProxyCluster : string;
  rps_Domain : string;
  rps_Private : option bool;
  rps_AccessGroups : list GroupReference;
  rps_CrowdsecMode : option CrowdsecMode;
  rps_AccessRestrictions : option AccessRestrictions;
  rps_PassHostHeader : option bool;
  rps_RewriteRedirects : option bool
}.
Record ReverseProxyServiceStatus := mkReverseProxyServiceStatus {
  rps_ObservedGeneration : Z;
  rps_Conditions : list Condition;
  rps_ServiceID : string;
  rps_ServiceDomain : string
}.
Record ReverseProxyService := mkReverseProxyService {
  ReverseProxyService_Meta : ObjectMeta;
  ReverseProxyService_Spec : ReverseProxyServiceSpec;
  ReverseProxyService_Status : ReverseProxyServiceStatus
}.

(** ** ReverseProxyCluster and its parameters *)

Record ReverseProxyClusterSpec := mkReverseProxyClusterSpec {
  rpc_ClusterAddress : string;
  rpc_Domain : string;
  rpc_ZoneRef : option CrossNamespaceReference;
  rpc_CertSecretName : string;
  rpc_Groups : list GroupReference;
  rpc_Private : bool;
  rpc_Replicas : option Z;
  rpc_Image : string;
  rpc_LogLevel : string;
  rpc_ServiceAnnotations : gmap string string
}.
Record ReverseProxyClusterStatus := mkReverseProxyClusterStatus {
  rpc_ObservedGeneration : Z;
  rpc_Conditions : list Condition;
  rpc_StatusClusterAddress : string;
  rpc_TokenID : string;
  rpc_DomainID : string;
  rpc_LoadBalancerIP : string;
  rpc_Online : bool;
  rpc_ConnectedProxies : Z
}.
Record ReverseProxyCluster := mkReverseProxyCluster {
  ReverseProxyCluster_Meta : ObjectMeta;
  ReverseProxyCluster_Spec : ReverseProxyClusterSpec;
  ReverseProxyCluster_Status : ReverseProxyClusterStatus
}.

Record ReverseProxyClusterParametersSpec := mkReverseProxyClusterParametersSpec {
  params_Image : string;
  params_Replicas : option Z;
  params_LogLevel : string;
  params_Groups : list GroupReference;
  params_Private : bool;
  params_ServiceAnnotations : gmap string string
}.
Record ReverseProxyClusterParameters := mkReverseProxyClusterParameters {
  ReverseProxyClusterParameters_Meta : ObjectMeta;
  ReverseProxyClusterParameters_Spec : ReverseProxyClusterParametersSpec
}.

(** [GroupVersion.Group] of [groupversion_info.go]. *)
Definition GroupVersion_Group : string := "netbird.io".
