(* ===== verification/K8sTypes.v ===== *)
(** * Kubernetes and Gateway API objects

    The fields of the third-party object types the operator reads
    ([corev1.Service], [gwv1.Gateway], ...) and of the workload objects it
    renders (pod templates).  They are data: the operator's code that reads and
    builds them is in the component files. *)

From stdpp Require Import base gmap list strings.
From Stdlib Require Import ZArith.
From S2P Require Import Prelude GoStrings ApiTypes.

Open Scope Z_scope.

(** ** core/v1 *)

Record ServicePort := mkServicePort { sp_Name : string; sp_Port : Z }.

Definition ServiceTypeLoadBalancer : string := "LoadBalancer".

Record Service := mkService {
  Service_Meta : ObjectMeta;
  svc_Type : string;
  svc_Ports : list ServicePort;
  svc_Ingress : list string           (* status.loadBalancer.ingress[].ip *)
}.

Record Namespace := mkNamespace { Namespace_Meta : ObjectMeta }.

Record Secret := mkSecret {
  Secret_Meta : ObjectMeta;
  secret_Data : gmap string string
}.

Record DaemonSet := mkDaemonSet {
  DaemonSet_Meta : ObjectMeta;
  ds_DesiredNumberScheduled : Z;
  ds_NumberReady : Z
}.

(** ** Gateway API *)

Record GatewayClass := mkGatewayClass {
  GatewayClass_Meta : ObjectMeta;
  gc_ControllerName : string;
  gc_Conditions : list Condition
}.

Record RouteNamespaces := mkRouteNamespaces { rn_From : option string }.
Record AllowedRoutes := mkAllowedRoutes { al_Namespaces : option RouteNamespaces }.
(** [certificateRefs] are secret references; only the name is read. *)
Record ListenerTLS := mkListenerTLS { tls_CertificateRefs : list string }.

Record Listener := mkListener {
  l_Name : string;
  l_Hostname : option string;
  l_Protocol : string;
  l_TLS : option ListenerTLS;
  l_AllowedRoutes : option AllowedRoutes
}.

Definition HTTPSProtocolType : string := "HTTPS".
Definition TLSProtocolType : string := "TLS".
Definition NamespacesFromAll : string := "All".
Definition NamespacesFromSame : string := "Same".

Record ParametersReference := mkParametersReference {
  pref_Group : string;
  pref_Kind : string;
  pref_Name : string
}.
Record GatewayInfrastructure := mkGatewayInfrastructure {
  infra_ParametersRef : option ParametersReference
}.

Record ListenerStatus := mkListenerStatus {
  ls_Name : string;
  ls_AttachedRoutes : Z;
  ls_Conditions : list Condition
}.

Record Gateway := mkGateway {
  Gateway_Meta : ObjectMeta;
  gw_GatewayClassName : string;
  gw_Listeners : list Listener;
  gw_Infrastructure : option GatewayInfrastructure;
  gw_Conditions : list Condition;
  gw_Addresses : list string;
  gw_ListenerStatuses : list ListenerStatus
}.

Record ParentReference := mkParentReference {
  pr_Namespace : option string;
  pr_Name : string;
  pr_SectionName : option string
}.

#[export] Instance ParentReference_eq_dec : EqDecision ParentReference.
Proof. solve_decision. Defined.

Record HTTPPathMatch := mkHTTPPathMatch {
  pm_Type : option string;
  pm_Value : option string
}.
Definition PathMatchPathPrefix : string := "PathPrefix".
Definition PathMatchExact : string := "Exact".

(** The header, method and query-parameter conditions of a match. *)
Record HTTPRouteMatch := mkHTTPRouteMatch {
  m_Path : option HTTPPathMatch;
  m_Headers : list (string * string);
  m_Method : option string;
  m_QueryParams : list (string * string)
}.

(** [Filters] holds the filter types. *)
Record HTTPBackendRef := mkHTTPBackendRef {
  br_Kind : option string;
  br_Namespace : option string;
  br_Name : string;
  br_Port : option Z;
  br_Weight : option Z;
  br_Filters : list string
}.

Record HTTPRouteRule := mkHTTPRouteRule {
  rule_Matches : list HTTPRouteMatch;
  rule_Filters : list string;
  rule_BackendRefs : list HTTPBackendRef
}.

Record RouteParentStatus := mkRouteParentStatus {
  rp_ParentRef : ParentReference;
  rp_ControllerName : string;
  rp_Conditions : list Condition
}.

Record HTTPRoute := mkHTTPRoute {
  HTTPRoute_Meta : ObjectMeta;
  route_ParentRefs : list ParentReference;
  route_Hostnames : list string;
  route_Rules : list HTTPRouteRule;
  route_Parents : list RouteParentStatus
}.

(** ** Workload objects the operator renders *)

Inductive EnvSource :=
| EnvValue (v : string)
| EnvSecret (secret key : string)
| EnvField (path : string).

Record EnvVar := mkEnv { env_Name : string; env_From : EnvSource }.

Inductive ProbeAction :=
| HTTPGet (path : string) (port : Z)
| Exec (command : list string).

Record Probe := mkProbe {
  probe_Action : ProbeAction;
  probe_FailureThreshold : option Z;
  probe_PeriodSeconds : option Z
}.

Inductive VolumeSource := EmptyDir | SecretVolume (name : string).
Record Volume := mkVolume { vol_Name : string; vol_Source : VolumeSource }.
Record VolumeMount := mkVolumeMount {
  vm_Name : string; vm_MountPath : string; vm_ReadOnly : option bool
}.

Record SecurityContext := mkSecurityContext {
  sc_AllowPrivilegeEscalation : option bool;
  sc_Privileged : option bool;
  sc_ReadOnlyRootFilesystem : option bool;
  sc_RunAsNonRoot : option bool;
  sc_Add : list string;
  sc_Drop : list string
}.

Record Container := mkContainer {
  c_Name : string;
  c_Image : string;
  c_Args : list string;
  c_Ports : list (string * Z);
  c_Env : list EnvVar;
  c_StartupProbe : option Probe;
  c_ReadinessProbe : option Probe;
  c_LivenessProbe : option Probe;
  c_VolumeMounts : list VolumeMount;
  c_SecurityContext : option SecurityContext;
  c_Requests : list (string * string);
  c_RestartPolicy : option string
}.

Record TopologySpread := mkTopologySpread {
  ts_MaxSkew : Z;
  ts_TopologyKey : string;
  ts_WhenUnsatisfiable : string;
  ts_Selector : gmap string string
}.

Record PodSpec := mkPodSpec {
  pod_HostNetwork : option bool;
  pod_DNSPolicy : option string;
  pod_DNSOptions : list (string * string);
  pod_ServiceAccountName : option string;
  pod_TopologySpread : list TopologySpread;
  pod_NodeSelector : gmap string string;
  pod_Containers : list Container;
  pod_Volumes : list Volume
}.

Record WorkloadSpec := mkWorkloadSpec {
  wl_Replicas : option Z;
  wl_Selector : gmap string string;
  wl_TemplateLabels : gmap string string;
  wl_PodSpec : PodSpec
}.

Record ServiceSpecAC := mkServiceSpecAC {
  ss_Type : string;
  ss_IPFamilyPolicy : string;
  ss_Selector : gmap string string;
  ss_Ports : list (string * Z * Z)    (* name, port, targetPort *)
}.

(** ** SidecarProfile ([api/v1alpha1/sidecarprofile_types.go]) *)

Record LabelSelector := mkLabelSelector {
  sel_MatchLabels : gmap string string;
  sel_MatchExpressions : list (string * string * list string)
}.

Definition InjectionMode := string.
Definition InjectionModeSidecar : InjectionMode := "Sidecar".
Definition InjectionModeContainer : InjectionMode := "Container".

Record ContainerOverride := mkContainerOverride {
  co_Image : string;
  co_Env : list EnvVar;
  co_SecurityContext : option SecurityContext;
  co_StartupProbe : option Probe;
  co_LivenessProbe : option Probe;
  co_ReadinessProbe : option Probe
}.

Record SidecarProfileSpec := mkSidecarProfileSpec {
  sp_SetupKeyRef : string;
  sp_PodSelector : option LabelSelector;
  sp_InjectionMode : InjectionMode;
  sp_ExtraDNSLabels : list string;
  sp_ContainerOverride : option ContainerOverride
}.
Record SidecarProfileStatus := mkSidecarProfileStatus {
  sp_ObservedGeneration : Z;
  sp_Conditions : list Condition
}.
Record SidecarProfile := mkSidecarProfile {
  SidecarProfile_Meta : ObjectMeta;
  SidecarProfile_Spec : SidecarProfileSpec;
  SidecarProfile_Status : SidecarProfileStatus
}.
