(* ===== verification/Schema.v ===== *)
(** * The schema of the apply configurations

    [pkg/applyconfigurations/internal/internal.go]: the schema that the parser
    of the generated package holds, one definition per type of the YAML text,
    under the constructors of [structured-merge-diff]'s schema language.  The
    library that merges objects by it is not modelled: [agrees] is what the
    operator's code needs of it, that a value has the shape its type gives it.

    [well_formed] is what makes such a text a schema, [Parser_well_formed] that
    this one is. *)

From stdpp Require Import base list strings.
From Stdlib Require Import ZArith.
From S2P Require Import Prelude.

Open Scope Z_scope.

(** ** Values and types *)

(** Decoded JSON. *)
Inductive value :=
| VNull
| VBool (b : bool)
| VInt (z : Z)
| VString (s : string)
| VList (vs : list value)
| VMap (kvs : list (string * value)).

Inductive scalar := SString | SNumeric | SBoolean | SUntyped.

(** How two field managers share a list or a map: as one value, item by item
    (under these keys, of an item that is a map), or field by field. *)
Inductive relationship := Atomic | Associative (keys : list string) | Separable.

(** A type is a name or written in place; an [atom] says which scalar, list
    and map values it has. *)
Inductive type_ref :=
| Named (name : string)
| Inlined (a : atom)
with atom :=
| mkAtom (a_scalar : option scalar) (a_list : option list_type) (a_map : option map_type)
with list_type :=
| mkList (l_elementType : type_ref) (l_relationship : relationship)
with map_type :=
| mkMap (m_fields : list struct_field) (m_elementType : option type_ref) (m_relationship : option relationship)
with struct_field :=
| mkField (f_name : string) (f_type : type_ref) (f_default : option value).

Definition a_scalar (a : atom) := let '(mkAtom s _ _) := a in s.
Definition a_list (a : atom) := let '(mkAtom _ l _) := a in l.
Definition a_map (a : atom) := let '(mkAtom _ _ m) := a in m.
Definition l_elementType (l : list_type) := let '(mkList t _) := l in t.
Definition l_relationship (l : list_type) := let '(mkList _ r) := l in r.
Definition m_fields (m : map_type) := let '(mkMap fs _ _) := m in fs.
Definition m_elementType (m : map_type) := let '(mkMap _ t _) := m in t.
Definition f_name (f : struct_field) := let '(mkField n _ _) := f in n.
Definition f_type (f : struct_field) := let '(mkField _ t _) := f in t.
Definition f_default (f : struct_field) := let '(mkField _ _ d) := f in d.

Definition schema := list (string * atom).

Definition Type_ (S : schema) (name : string) : option atom :=
  snd <$> find_first (fun '(n, _) => String.eqb n name) S.

Definition resolve (S : schema) (t : type_ref) : option atom :=
  match t with Named n => Type_ S n | Inlined a => Some a end.

Definition field_type (m : map_type) (k : string) : option type_ref :=
  match find_first (fun f => String.eqb (f_name f) k) (m_fields m) with
  | Some f => Some (f_type f)
  | None => m_elementType m
  end.

(** ** Agreement of a value with a type *)

Definition scalar_agrees (a : atom) (s : scalar) : bool :=
  match a_scalar a, s with
  | Some SUntyped, _ | Some SString, SString | Some SNumeric, SNumeric | Some SBoolean, SBoolean => true
  | _, _ => false
  end.

(** A value has the shape of its type: no field the type does not have, and
    every scalar, item and member of the type it gives.  (That the items of an
    associative list differ in their keys is a matter of the object, and not
    of its type.) *)
Fixpoint agrees (S : schema) (v : value) (t : type_ref) {struct v} : bool :=
  match resolve S t with
  | None => false
  | Some a =>
      match v with
      | VNull => true
      | VBool _ => scalar_agrees a SBoolean
      | VInt _ => scalar_agrees a SNumeric
      | VString _ => scalar_agrees a SString
      | VList vs =>
          match a_list a with
          | Some l => forallb (fun v => agrees S v (l_elementType l)) vs
          | None => false
          end
      | VMap kvs =>
          match a_map a with
          | Some m => forallb (fun '(k, v) =>
              match field_type m k with Some t => agrees S v t | None => false end) kvs
          | None => false
          end
      end
  end.

(** ** Well-formed schemas *)

(** The atoms written in place within an atom, and itself. *)
Fixpoint atoms_in (a : atom) : list atom :=
  match a with
  | mkAtom _ l m =>
      a :: (match l with Some l => atoms_in_list l | None => [] end)
        ++ (match m with Some m => atoms_in_map m | None => [] end)
  end
with atoms_in_type (t : type_ref) : list atom :=
  match t with Named _ => [] | Inlined a => atoms_in a end
with atoms_in_list (l : list_type) : list atom :=
  match l with mkList t _ => atoms_in_type t end
with atoms_in_map (m : map_type) : list atom :=
  match m with
  | mkMap fs t _ => flat_map atoms_in_field fs ++ match t with Some t => atoms_in_type t | None => [] end
  end
with atoms_in_field (f : struct_field) : list atom :=
  match f with mkField _ t _ => atoms_in_type t end.

Definition fields_of (a : atom) : list struct_field :=
  match a_map a with Some m => m_fields m | None => [] end.

(** The types an atom refers to, not counting those of the atoms in it. *)
Definition types_of (a : atom) : list type_ref :=
  (match a_list a with Some l => [l_elementType l] | None => [] end)
  ++ map f_type (fields_of a)
  ++ (match a_map a with Some m => option_list (m_elementType m) | None => [] end).

Definition keys_of (l : list_type) : list string :=
  match l_relationship l with Associative keys => keys | _ => [] end.

Definition has_field (S : schema) (t : type_ref) (k : string) : bool :=
  match resolve S t with
  | Some a => existsb (fun f => String.eqb (f_name f) k) (fields_of a)
  | None => false
  end.

Definition all_atoms (S : schema) : list atom := flat_map (fun '(_, a) => atoms_in a) S.

(** A name has one type; a type that is referred to is there; the keys of an
    associative list are fields of its items; a default agrees with the type
    of its field. *)
Record well_formed (S : schema) : Prop := {
  wf_names : NoDup S.*1;
  wf_closed : forall a, a ∈ all_atoms S -> forall t, t ∈ types_of a -> is_Some (resolve S t);
  wf_fields : forall a, a ∈ all_atoms S -> NoDup (map f_name (fields_of a));
  wf_keys : forall a l, a ∈ all_atoms S -> a_list a = Some l ->
    forall k, k ∈ keys_of l -> has_field S (l_elementType l) k = true;
  wf_defaults : forall a f v, a ∈ all_atoms S -> f ∈ fields_of a -> f_default f = Some v ->
    agrees S v (f_type f) = true
}.

Definition well_formedb (S : schema) : bool :=
  bool_decide (NoDup S.*1)
  && forallb (fun a =>
       forallb (fun t => match resolve S t with Some _ => true | None => false end) (types_of a)
       && bool_decide (NoDup (map f_name (fields_of a)))
       && (match a_list a with
           | Some l => forallb (has_field S (l_elementType l)) (keys_of l)
           | None => true
           end)
       && forallb (fun f => match f_default f with Some v => agrees S v (f_type f) | None => true end) (fields_of a))
     (all_atoms S).

(** ** The types *)

Definition api (n : string) : string := "com.github.netbirdio.kubernetes-operator.api.v1alpha1." +:+ n.
Definition core (n : string) : string := "io.k8s.api.core.v1." +:+ n.
Definition meta (n : string) : string := "io.k8s.apimachinery.pkg.apis.meta.v1." +:+ n.

Definition scalar_only (s : scalar) : atom := mkAtom (Some s) None None.
Definition scalar_ (s : scalar) : type_ref := Inlined (scalar_only s).
Definition list_of (t : type_ref) (r : relationship) : type_ref := Inlined (mkAtom None (Some (mkList t r)) None).
Definition map_of (t : type_ref) : atom := mkAtom None None (Some (mkMap [] (Some t) None)).
Definition struct_ (fs : list struct_field) : atom := mkAtom None None (Some (mkMap fs None None)).
Definition atomic_struct (fs : list struct_field) : atom := mkAtom None None (Some (mkMap fs None (Some Atomic))).
Definition field (n : string) (t : type_ref) : struct_field := mkField n t None.
Notation "f |= d" := (mkField (f_name f) (f_type f) (Some d)) (at level 60).

Definition ty_AccessRestrictions : atom := struct_ [
  field "allowedCidrs" (list_of (scalar_ SString) Atomic);
  field "allowedCountries" (list_of (scalar_ SString) Atomic);
  field "blockedCidrs" (list_of (scalar_ SString) Atomic);
  field "blockedCountries" (list_of (scalar_ SString) Atomic)].
Definition ty_ClusterProxy : atom := struct_ [
  field "apiVersion" (scalar_ SString);
  field "kind" (scalar_ SString);
  field "metadata" (Named (meta "ObjectMeta"));
  field "spec" (Named (api "ClusterProxySpec"));
  field "status" (Named (api "ClusterProxyStatus")) |= (VMap [("observedGeneration", (VInt (-1)))])].
Definition ty_ClusterProxySpec : atom := struct_ [
  field "apiServer" (scalar_ SString) |= (VString "https://kubernetes.default.svc.cluster.local");
  field "clusterName" (scalar_ SString);
  field "groups" (list_of (Named (api "GroupReference")) Atomic);
  field "replicas" (scalar_ SNumeric) |= (VInt 3);
  field "serviceAccountName" (scalar_ SString)].
Definition ty_ClusterProxyStatus : atom := struct_ [
  field "conditions" (list_of (Named (meta "Condition")) (Associative ["type"]));
  field "observedGeneration" (scalar_ SNumeric)].
Definition ty_ContainerOverride : atom := struct_ [
  field "env" (list_of (Named (core "EnvVar")) Atomic);
  field "image" (scalar_ SString);
  field "livenessProbe" (Named (core "Probe"));
  field "readinessProbe" (Named (core "Probe"));
  field "securityContext" (Named (core "SecurityContext"));
  field "startupProbe" (Named (core "Probe"))].
Definition ty_CrossNamespaceReference : atom := struct_ [
  field "name" (scalar_ SString);
  field "namespace" (scalar_ SString)].
Definition ty_CrowdsecMode : atom := scalar_only SString.
Definition ty_DNSRecord : atom := struct_ [
  field "apiVersion" (scalar_ SString);
  field "kind" (scalar_ SString);
  field "metadata" (Named (meta "ObjectMeta"));
  field "spec" (Named (api "DNSRecordSpec"));
  field "status" (Named (api "DNSRecordStatus")) |= (VMap [("observedGeneration", (VInt (-1)))])].
Definition ty_DNSRecordSpec : atom := struct_ [
  field "content" (scalar_ SString);
  field "name" (scalar_ SString);
  field "ttl" (scalar_ SNumeric) |= (VInt 300);
  field "type" (scalar_ SString);
  field "zoneRef" (Named (api "CrossNamespaceReference"))].
Definition ty_DNSRecordStatus : atom := struct_ [
  field "conditions" (list_of (Named (meta "Condition")) (Associative ["type"]));
  field "observedGeneration" (scalar_ SNumeric);
  field "recordID" (scalar_ SString);
  field "zoneID" (scalar_ SString)].
Definition ty_DNSZone : atom := struct_ [
  field "apiVersion" (scalar_ SString);
  field "kind" (scalar_ SString);
  field "metadata" (Named (meta "ObjectMeta"));
  field "spec" (Named (api "DNSZoneSpec"));
  field "status" (Named (api "DNSZoneStatus")) |= (VMap [("observedGeneration", (VInt (-1)))])].
Definition ty_DNSZoneSpec : atom := struct_ [
  field "distributionGroups" (list_of (Named (api "GroupReference")) Atomic);
  field "domain" (scalar_ SString);
  field "enableSearchDomain" (scalar_ SBoolean);
  field "enabled" (scalar_ SBoolean) |= (VBool true);
  field "name" (scalar_ SString)].
Definition ty_DNSZoneStatus : atom := struct_ [
  field "conditions" (list_of (Named (meta "Condition")) (Associative ["type"]));
  field "observedGeneration" (scalar_ SNumeric);
  field "zoneID" (scalar_ SString)].
Definition ty_Group : atom := struct_ [
  field "apiVersion" (scalar_ SString);
  field "kind" (scalar_ SString);
  field "metadata" (Named (meta "ObjectMeta"));
  field "spec" (Named (api "GroupSpec"));
  field "status" (Named (api "GroupStatus")) |= (VMap [("observedGeneration", (VInt (-1)))])].
Definition ty_GroupReference : atom := struct_ [
  field "id" (scalar_ SString);
  field "localRef" (Named (core "LocalObjectReference"));
  field "name" (scalar_ SString)].
Definition ty_GroupSpec : atom := struct_ [
  field "name" (scalar_ SString)].
Definition ty_GroupStatus : atom := struct_ [
  field "conditions" (list_of (Named (meta "Condition")) (Associative ["type"]));
  field "groupID" (scalar_ SString);
  field "observedGeneration" (scalar_ SNumeric)].
Definition ty_InjectionMode : atom := scalar_only SString.
Definition ty_Network : atom := struct_ [
  field "apiVersion" (scalar_ SString);
  field "kind" (scalar_ SString);
  field "metadata" (Named (meta "ObjectMeta"));
  field "spec" (Named (api "NetworkSpec"));
  field "status" (Named (api "NetworkStatus")) |= (VMap [("observedGeneration", (VInt (-1)))])].
Definition ty_NetworkResource : atom := struct_ [
  field "apiVersion" (scalar_ SString);
  field "kind" (scalar_ SString);
  field "metadata" (Named (meta "ObjectMeta"));
  field "spec" (Named (api "NetworkResourceSpec"));
  field "status" (Named (api "NetworkResourceStatus")) |= (VMap [("observedGeneration", (VInt (-1)))])].
Definition ty_NetworkResourceSpec : atom := struct_ [
  field "address" (scalar_ SString);
  field "description" (scalar_ SString);
  field "enabled" (scalar_ SBoolean) |= (VBool true);
  field "groups" (list_of (Named (api "GroupReference")) Atomic);
  field "name" (scalar_ SString);
  field "networkRef" (Named (api "CrossNamespaceReference"))].
Definition ty_NetworkResourceStatus : atom := struct_ [
  field "conditions" (list_of (Named (meta "Condition")) (Associative ["type"]));
  field "networkID" (scalar_ SString);
  field "observedGeneration" (scalar_ SNumeric);
  field "resourceID" (scalar_ SString)].
Definition ty_NetworkRouter : atom := struct_ [
  field "apiVersion" (scalar_ SString);
  field "kind" (scalar_ SString);
  field "metadata" (Named (meta "ObjectMeta"));
  field "spec" (Named (api "NetworkRouterSpec"));
  field "status" (Named (api "NetworkRouterStatus")) |= (VMap [("observedGeneration", (VInt (-1)))])].
Definition ty_NetworkRouterPeers : atom := struct_ [
  field "deploy" (Named (api "RouterDeploy"));
  field "group" (Named (api "GroupReference"))].
Definition ty_NetworkRouterSpec : atom := struct_ [
  field "enabled" (scalar_ SBoolean) |= (VBool true);
  field "masquerade" (scalar_ SBoolean) |= (VBool true);
  field "metric" (scalar_ SNumeric) |= (VInt 9999);
  field "networkRef" (Named (api "CrossNamespaceReference"));
  field "peers" (Named (api "NetworkRouterPeers"))].
Definition ty_NetworkRouterStatus : atom := struct_ [
  field "conditions" (list_of (Named (meta "Condition")) (Associative ["type"]));
  field "groupID" (scalar_ SString);
  field "networkID" (scalar_ SString);
  field "observedGeneration" (scalar_ SNumeric);
  field "routerID" (scalar_ SString)].
Definition ty_NetworkSpec : atom := struct_ [
  field "description" (scalar_ SString);
  field "name" (scalar_ SString)].
Definition ty_NetworkStatus : atom := struct_ [
  field "conditions" (list_of (Named (meta "Condition")) (Associative ["type"]));
  field "networkID" (scalar_ SString);
  field "observedGeneration" (scalar_ SNumeric)].
Definition ty_ReverseProxyBackend : atom := struct_ [
  field "path" (scalar_ SString);
  field "port" (scalar_ SNumeric);
  field "serviceRef" (Named (core "LocalObjectReference"))].
Definition ty_ReverseProxyCluster : atom := struct_ [
  field "apiVersion" (scalar_ SString);
  field "kind" (scalar_ SString);
  field "metadata" (Named (meta "ObjectMeta"));
  field "spec" (Named (api "ReverseProxyClusterSpec"));
  field "status" (Named (api "ReverseProxyClusterStatus")) |= (VMap [("observedGeneration", (VInt (-1)))])].
Definition ty_ReverseProxyClusterSpec : atom := struct_ [
  field "certSecretName" (scalar_ SString);
  field "clusterAddress" (scalar_ SString);
  field "domain" (scalar_ SString);
  field "groups" (list_of (Named (api "GroupReference")) Atomic);
  field "image" (scalar_ SString);
  field "logLevel" (scalar_ SString);
  field "private" (scalar_ SBoolean);
  field "replicas" (scalar_ SNumeric) |= (VInt 1);
  field "serviceAnnotations" (Inlined (map_of (scalar_ SString)));
  field "zoneRef" (Named (api "CrossNamespaceReference"))].
Definition ty_ReverseProxyClusterStatus : atom := struct_ [
  field "clusterAddress" (scalar_ SString);
  field "conditions" (list_of (Named (meta "Condition")) (Associative ["type"]));
  field "connectedProxies" (scalar_ SNumeric);
  field "domainID" (scalar_ SString);
  field "loadBalancerIP" (scalar_ SString);
  field "observedGeneration" (scalar_ SNumeric);
  field "online" (scalar_ SBoolean);
  field "tokenID" (scalar_ SString)].
Definition ty_ReverseProxyMode : atom := scalar_only SString.
Definition ty_ReverseProxyService : atom := struct_ [
  field "apiVersion" (scalar_ SString);
  field "kind" (scalar_ SString);
  field "metadata" (Named (meta "ObjectMeta"));
  field "spec" (Named (api "ReverseProxyServiceSpec"));
  field "status" (Named (api "ReverseProxyServiceStatus")) |= (VMap [("observedGeneration", (VInt (-1)))])].
Definition ty_ReverseProxyServiceSpec : atom := struct_ [
  field "accessGroups" (list_of (Named (api "GroupReference")) Atomic);
  field "accessRestrictions" (Named (api "AccessRestrictions"));
  field "backends" (list_of (Named (api "ReverseProxyBackend")) Atomic);
  field "crowdsecMode" (Named (api "CrowdsecMode"));
  field "domain" (scalar_ SString);
  field "listenPort" (scalar_ SNumeric);
  field "mode" (Named (api "ReverseProxyMode")) |= (VString "http");
  field "passHostHeader" (scalar_ SBoolean);
  field "private" (scalar_ SBoolean);
  field "proxyCluster" (scalar_ SString);
  field "proxyProtocol" (scalar_ SBoolean);
  field "rewriteRedirects" (scalar_ SBoolean)].
Definition ty_ReverseProxyServiceStatus : atom := struct_ [
  field "conditions" (list_of (Named (meta "Condition")) (Associative ["type"]));
  field "observedGeneration" (scalar_ SNumeric);
  field "serviceDomain" (scalar_ SString);
  field "serviceID" (scalar_ SString)].
Definition ty_RouterDeploy : atom := struct_ [
  field "image" (scalar_ SString);
  field "logLevel" (scalar_ SString);
  field "nodeSelector" (Inlined (map_of (scalar_ SString)))].
Definition ty_SetupKey : atom := struct_ [
  field "apiVersion" (scalar_ SString);
  field "kind" (scalar_ SString);
  field "metadata" (Named (meta "ObjectMeta"));
  field "spec" (Named (api "SetupKeySpec"));
  field "status" (Named (api "SetupKeyStatus")) |= (VMap [("observedGeneration", (VInt (-1)))])].
Definition ty_SetupKeySpec : atom := struct_ [
  field "allowExtraDnsLabels" (scalar_ SBoolean) |= (VBool false);
  field "autoGroups" (list_of (Named (api "GroupReference")) Atomic);
  field "duration" (Named (meta "Duration"));
  field "ephemeral" (scalar_ SBoolean);
  field "name" (scalar_ SString)].
Definition ty_SetupKeyStatus : atom := struct_ [
  field "conditions" (list_of (Named (meta "Condition")) (Associative ["type"]));
  field "observedGeneration" (scalar_ SNumeric);
  field "setupKeyID" (scalar_ SString)].
Definition ty_SidecarProfile : atom := struct_ [
  field "apiVersion" (scalar_ SString);
  field "kind" (scalar_ SString);
  field "metadata" (Named (meta "ObjectMeta"));
  field "spec" (Named (api "SidecarProfileSpec"));
  field "status" (Named (api "SidecarProfileStatus")) |= (VMap [])].
Definition ty_SidecarProfileSpec : atom := struct_ [
  field "containerOverride" (Named (api "ContainerOverride"));
  field "extraDNSLabels" (list_of (scalar_ SString) Atomic);
  field "injectionMode" (Named (api "InjectionMode")) |= (VString "Sidecar");
  field "podSelector" (Named (meta "LabelSelector"));
  field "setupKeyRef" (Named (core "LocalObjectReference"))].
Definition ty_SidecarProfileStatus : atom := struct_ [
  field "conditions" (list_of (Named (meta "Condition")) (Associative ["type"]));
  field "observedGeneration" (scalar_ SNumeric)].
Definition core_AppArmorProfile : atom := struct_ [
  field "localhostProfile" (scalar_ SString);
  field "type" (Named (core "AppArmorProfileType"))].
Definition core_AppArmorProfileType : atom := scalar_only SString.
Definition core_Capabilities : atom := struct_ [
  field "add" (list_of (Named (core "Capability")) Atomic);
  field "drop" (list_of (Named (core "Capability")) Atomic)].
Definition core_Capability : atom := scalar_only SString.
Definition core_ConfigMapKeySelector : atom := atomic_struct [
  field "key" (scalar_ SString);
  field "name" (scalar_ SString) |= (VString "");
  field "optional" (scalar_ SBoolean)].
Definition core_EnvVar : atom := struct_ [
  field "name" (scalar_ SString);
  field "value" (scalar_ SString);
  field "valueFrom" (Named (core "EnvVarSource"))].
Definition core_EnvVarSource : atom := struct_ [
  field "configMapKeyRef" (Named (core "ConfigMapKeySelector"));
  field "fieldRef" (Named (core "ObjectFieldSelector"));
  field "fileKeyRef" (Named (core "FileKeySelector"));
  field "resourceFieldRef" (Named (core "ResourceFieldSelector"));
  field "secretKeyRef" (Named (core "SecretKeySelector"))].
Definition core_ExecAction : atom := struct_ [
  field "command" (list_of (scalar_ SString) Atomic)].
Definition core_FileKeySelector : atom := atomic_struct [
  field "key" (scalar_ SString);
  field "optional" (scalar_ SBoolean) |= (VBool false);
  field "path" (scalar_ SString);
  field "volumeName" (scalar_ SString)].
Definition core_GRPCAction : atom := struct_ [
  field "mode" (Named (core "GRPCProbeMode"));
  field "port" (scalar_ SNumeric);
  field "service" (scalar_ SString) |= (VString "")].
Definition core_GRPCProbeMode : atom := scalar_only SString.
Definition core_HTTPGetAction : atom := struct_ [
  field "host" (scalar_ SString);
  field "httpHeaders" (list_of (Named (core "HTTPHeader")) Atomic);
  field "path" (scalar_ SString);
  field "port" (Named "io.k8s.apimachinery.pkg.util.intstr.IntOrString");
  field "protocol" (Named (core "HTTPProtocol"));
  field "scheme" (Named (core "URIScheme"))].
Definition core_HTTPHeader : atom := struct_ [
  field "name" (scalar_ SString);
  field "value" (scalar_ SString)].
Definition core_HTTPProtocol : atom := scalar_only SString.
Definition core_LocalObjectReference : atom := atomic_struct [
  field "name" (scalar_ SString) |= (VString "")].
Definition core_ObjectFieldSelector : atom := atomic_struct [
  field "apiVersion" (scalar_ SString);
  field "fieldPath" (scalar_ SString)].
Definition core_Probe : atom := struct_ [
  field "exec" (Named (core "ExecAction"));
  field "failureThreshold" (scalar_ SNumeric);
  field "grpc" (Named (core "GRPCAction"));
  field "httpGet" (Named (core "HTTPGetAction"));
  field "initialDelaySeconds" (scalar_ SNumeric);
  field "periodSeconds" (scalar_ SNumeric);
  field "successThreshold" (scalar_ SNumeric);
  field "tcpSocket" (Named (core "TCPSocketAction"));
  field "terminationGracePeriodSeconds" (scalar_ SNumeric);
  field "timeoutSeconds" (scalar_ SNumeric)].
Definition core_ProcMountType : atom := scalar_only SString.
Definition core_ResourceFieldSelector : atom := atomic_struct [
  field "containerName" (scalar_ SString);
  field "divisor" (Named "io.k8s.apimachinery.pkg.api.resource.Quantity");
  field "resource" (scalar_ SString)].
Definition core_SELinuxOptions : atom := struct_ [
  field "level" (scalar_ SString);
  field "role" (scalar_ SString);
  field "type" (scalar_ SString);
  field "user" (scalar_ SString)].
Definition core_SeccompProfile : atom := struct_ [
  field "localhostProfile" (scalar_ SString);
  field "type" (Named (core "SeccompProfileType"))].
Definition core_SeccompProfileType : atom := scalar_only SString.
Definition core_SecretKeySelector : atom := atomic_struct [
  field "key" (scalar_ SString);
  field "name" (scalar_ SString) |= (VString "");
  field "optional" (scalar_ SBoolean)].
Definition core_SecurityContext : atom := struct_ [
  field "allowPrivilegeEscalation" (scalar_ SBoolean);
  field "appArmorProfile" (Named (core "AppArmorProfile"));
  field "capabilities" (Named (core "Capabilities"));
  field "privileged" (scalar_ SBoolean);
  field "procMount" (Named (core "ProcMountType"));
  field "readOnlyRootFilesystem" (scalar_ SBoolean);
  field "runAsGroup" (scalar_ SNumeric);
  field "runAsNonRoot" (scalar_ SBoolean);
  field "runAsUser" (scalar_ SNumeric);
  field "seLinuxOptions" (Named (core "SELinuxOptions"));
  field "seccompProfile" (Named (core "SeccompProfile"));
  field "windowsOptions" (Named (core "WindowsSecurityContextOptions"))].
Definition core_TCPSocketAction : atom := struct_ [
  field "host" (scalar_ SString);
  field "port" (Named "io.k8s.apimachinery.pkg.util.intstr.IntOrString")].
Definition core_URIScheme : atom := scalar_only SString.
Definition core_WindowsSecurityContextOptions : atom := struct_ [
  field "gmsaCredentialSpec" (scalar_ SString);
  field "gmsaCredentialSpecName" (scalar_ SString);
  field "hostProcess" (scalar_ SBoolean);
  field "runAsUserName" (scalar_ SString)].
Definition ty_Quantity : atom := mkAtom (Some SUntyped) (Some (mkList (Named "__untyped_atomic_") Atomic))
  (Some (mkMap [] (Some (Named "__untyped_deduced_")) (Some Separable))).
Definition meta_Condition : atom := struct_ [
  field "lastTransitionTime" (Named (meta "Time"));
  field "message" (scalar_ SString);
  field "observedGeneration" (scalar_ SNumeric);
  field "reason" (scalar_ SString);
  field "status" (Named (meta "ConditionStatus"));
  field "type" (scalar_ SString)].
Definition meta_ConditionStatus : atom := scalar_only SString.
Definition meta_Duration : atom := scalar_only SString.
Definition meta_FieldsV1 : atom := map_of (Inlined (mkAtom (Some SUntyped) (Some (mkList (Named "__untyped_atomic_") Atomic))
  (Some (mkMap [] (Some (Named "__untyped_deduced_")) (Some Separable))))).
Definition meta_LabelSelector : atom := atomic_struct [
  field "matchExpressions" (list_of (Named (meta "LabelSelectorRequirement")) Atomic);
  field "matchLabels" (Inlined (map_of (scalar_ SString)))].
Definition meta_LabelSelectorOperator : atom := scalar_only SString.
Definition meta_LabelSelectorRequirement : atom := struct_ [
  field "key" (scalar_ SString);
  field "operator" (Named (meta "LabelSelectorOperator"));
  field "values" (list_of (scalar_ SString) Atomic)].
Definition meta_ManagedFieldsEntry : atom := struct_ [
  field "apiVersion" (scalar_ SString);
  field "fieldsType" (scalar_ SString);
  field "fieldsV1" (Named (meta "FieldsV1"));
  field "manager" (scalar_ SString);
  field "operation" (Named (meta "ManagedFieldsOperationType"));
  field "subresource" (scalar_ SString);
  field "time" (Named (meta "Time"))].
Definition meta_ManagedFieldsOperationType : atom := scalar_only SString.
Definition meta_ObjectMeta : atom := struct_ [
  field "annotations" (Inlined (map_of (scalar_ SString)));
  field "creationTimestamp" (Named (meta "Time"));
  field "deletionGracePeriodSeconds" (scalar_ SNumeric);
  field "deletionTimestamp" (Named (meta "Time"));
  field "finalizers" (list_of (scalar_ SString) (Associative []));
  field "generateName" (scalar_ SString);
  field "generation" (scalar_ SNumeric);
  field "labels" (Inlined (map_of (scalar_ SString)));
  field "managedFields" (list_of (Named (meta "ManagedFieldsEntry")) Atomic);
  field "name" (scalar_ SString);
  field "namespace" (scalar_ SString);
  field "ownerReferences" (list_of (Named (meta "OwnerReference")) (Associative ["uid"]));
  field "resourceVersion" (scalar_ SString);
  field "selfLink" (scalar_ SString);
  field "uid" (Named "io.k8s.apimachinery.pkg.types.UID")].
Definition meta_OwnerReference : atom := atomic_struct [
  field "apiVersion" (scalar_ SString);
  field "blockOwnerDeletion" (scalar_ SBoolean);
  field "controller" (scalar_ SBoolean);
  field "kind" (scalar_ SString);
  field "name" (scalar_ SString);
  field "uid" (Named "io.k8s.apimachinery.pkg.types.UID")].
Definition meta_Time : atom := scalar_only SUntyped.
Definition ty_UID : atom := scalar_only SString.
Definition ty_IntOrString : atom := mkAtom (Some SUntyped) (Some (mkList (Named "__untyped_atomic_") Atomic))
  (Some (mkMap [] (Some (Named "__untyped_deduced_")) (Some Separable))).
Definition ty_untyped_atomic : atom := mkAtom (Some SUntyped) (Some (mkList (Named "__untyped_atomic_") Atomic))
  (Some (mkMap [] (Some (Named "__untyped_atomic_")) (Some Atomic))).
Definition ty_untyped_deduced : atom := mkAtom (Some SUntyped) (Some (mkList (Named "__untyped_atomic_") Atomic))
  (Some (mkMap [] (Some (Named "__untyped_deduced_")) (Some Separable))).

(** [schemaYAML]. *)
Definition schemaYAML : schema := [
  (api "AccessRestrictions", ty_AccessRestrictions);
  (api "ClusterProxy", ty_ClusterProxy);
  (api "ClusterProxySpec", ty_ClusterProxySpec);
  (api "ClusterProxyStatus", ty_ClusterProxyStatus);
  (api "ContainerOverride", ty_ContainerOverride);
  (api "CrossNamespaceReference", ty_CrossNamespaceReference);
  (api "CrowdsecMode", ty_CrowdsecMode);
  (api "DNSRecord", ty_DNSRecord);
  (api "DNSRecordSpec", ty_DNSRecordSpec);
  (api "DNSRecordStatus", ty_DNSRecordStatus);
  (api "DNSZone", ty_DNSZone);
  (api "DNSZoneSpec", ty_DNSZoneSpec);
  (api "DNSZoneStatus", ty_DNSZoneStatus);
  (api "Group", ty_Group);
  (api "GroupReference", ty_GroupReference);
  (api "GroupSpec", ty_GroupSpec);
  (api "GroupStatus", ty_GroupStatus);
  (api "InjectionMode", ty_InjectionMode);
  (api "Network", ty_Network);
  (api "NetworkResource", ty_NetworkResource);
  (api "NetworkResourceSpec", ty_NetworkResourceSpec);
  (api "NetworkResourceStatus", ty_NetworkResourceStatus);
  (api "NetworkRouter", ty_NetworkRouter);
  (api "NetworkRouterPeers", ty_NetworkRouterPeers);
  (api "NetworkRouterSpec", ty_NetworkRouterSpec);
  (api "NetworkRouterStatus", ty_NetworkRouterStatus);
  (api "NetworkSpec", ty_NetworkSpec);
  (api "NetworkStatus", ty_NetworkStatus);
  (api "ReverseProxyBackend", ty_ReverseProxyBackend);
  (api "ReverseProxyCluster", ty_ReverseProxyCluster);
  (api "ReverseProxyClusterSpec", ty_ReverseProxyClusterSpec);
  (api "ReverseProxyClusterStatus", ty_ReverseProxyClusterStatus);
  (api "ReverseProxyMode", ty_ReverseProxyMode);
  (api "ReverseProxyService", ty_ReverseProxyService);
  (api "ReverseProxyServiceSpec", ty_ReverseProxyServiceSpec);
  (api "ReverseProxyServiceStatus", ty_ReverseProxyServiceStatus);
  (api "RouterDeploy", ty_RouterDeploy);
  (api "SetupKey", ty_SetupKey);
  (api "SetupKeySpec", ty_SetupKeySpec);
  (api "SetupKeyStatus", ty_SetupKeyStatus);
  (api "SidecarProfile", ty_SidecarProfile);
  (api "SidecarProfileSpec", ty_SidecarProfileSpec);
  (api "SidecarProfileStatus", ty_SidecarProfileStatus);
  (core "AppArmorProfile", core_AppArmorProfile);
  (core "AppArmorProfileType", core_AppArmorProfileType);
  (core "Capabilities", core_Capabilities);
  (core "Capability", core_Capability);
  (core "ConfigMapKeySelector", core_ConfigMapKeySelector);
  (core "EnvVar", core_EnvVar);
  (core "EnvVarSource", core_EnvVarSource);
  (core "ExecAction", core_ExecAction);
  (core "FileKeySelector", core_FileKeySelector);
  (core "GRPCAction", core_GRPCAction);
  (core "GRPCProbeMode", core_GRPCProbeMode);
  (core "HTTPGetAction", core_HTTPGetAction);
  (core "HTTPHeader", core_HTTPHeader);
  (core "HTTPProtocol", core_HTTPProtocol);
  (core "LocalObjectReference", core_LocalObjectReference);
  (core "ObjectFieldSelector", core_ObjectFieldSelector);
  (core "Probe", core_Probe);
  (core "ProcMountType", core_ProcMountType);
  (core "ResourceFieldSelector", core_ResourceFieldSelector);
  (core "SELinuxOptions", core_SELinuxOptions);
  (core "SeccompProfile", core_SeccompProfile);
  (core "SeccompProfileType", core_SeccompProfileType);
  (core "SecretKeySelector", core_SecretKeySelector);
  (core "SecurityContext", core_SecurityContext);
  (core "TCPSocketAction", core_TCPSocketAction);
  (core "URIScheme", core_URIScheme);
  (core "WindowsSecurityContextOptions", core_WindowsSecurityContextOptions);
  ("io.k8s.apimachinery.pkg.api.resource.Quantity", ty_Quantity);
  (meta "Condition", meta_Condition);
  (meta "ConditionStatus", meta_ConditionStatus);
  (meta "Duration", meta_Duration);
  (meta "FieldsV1", meta_FieldsV1);
  (meta "LabelSelector", meta_LabelSelector);
  (meta "LabelSelectorOperator", meta_LabelSelectorOperator);
  (meta "LabelSelectorRequirement", meta_LabelSelectorRequirement);
  (meta "ManagedFieldsEntry", meta_ManagedFieldsEntry);
  (meta "ManagedFieldsOperationType", meta_ManagedFieldsOperationType);
  (meta "ObjectMeta", meta_ObjectMeta);
  (meta "OwnerReference", meta_OwnerReference);
  (meta "Time", meta_Time);
  ("io.k8s.apimachinery.pkg.types.UID", ty_UID);
  ("io.k8s.apimachinery.pkg.util.intstr.IntOrString", ty_IntOrString);
  ("__untyped_atomic_", ty_untyped_atomic);
  ("__untyped_deduced_", ty_untyped_deduced)
].

(** [Parser().Type(name)]: the types are parsed from the text once. *)
Definition Parser_Type : string -> option atom := Type_ schemaYAML.

(** ** What is shown *)

Lemma forallb_elem {A} (f : A -> bool) l : forallb f l = true <-> forall x, x ∈ l -> f x = true.
Proof. rewrite forallb_forall. by setoid_rewrite list_elem_of_In. Qed.

Lemma well_formedb_sound S : well_formedb S = true -> well_formed S.
Proof.
  unfold well_formedb. rewrite andb_true_iff, bool_decide_eq_true, forallb_elem. intros [Hn Ha].
  assert (forall a, a ∈ all_atoms S -> _) as H by (intros a Hin; specialize (Ha a Hin);
    rewrite !andb_true_iff, bool_decide_eq_true, !forallb_elem in Ha; exact Ha).
  constructor; [done|..].
  - intros a Hin t Ht. destruct (H a Hin) as [[[Hc _] _] _]. specialize (Hc t Ht). by destruct (resolve S t).
  - intros a Hin. by destruct (H a Hin) as [[[_ ?] _] _].
  - intros a l Hin Hl k Hk. destruct (H a Hin) as [[_ Hkeys] _]. rewrite Hl, forallb_elem in Hkeys. by apply Hkeys.
  - intros a f v Hin Hf Hv. destruct (H a Hin) as [_ Hd]. specialize (Hd f Hf). by rewrite Hv in Hd.
Qed.

Lemma schema_checked : well_formedb schemaYAML = true.
Proof. vm_compute. reflexivity. Qed.

(** The schema is one: a name has one type, every type referred to is
    defined, a type's fields differ, the keys of an associative list are
    fields of its items, and a default agrees with the type of its field. *)
Theorem Parser_well_formed : well_formed schemaYAML.
Proof. apply well_formedb_sound, schema_checked. Qed.
