(* ===== verification/ApplyConf.v ===== *)
(** * Apply configurations

    The builders of [pkg/applyconfigurations/api/v1alpha1]: a spec is a record
    of optional fields, a [With] function sets one of them (list fields are
    appended to, map fields merged into), and the object constructors carry
    the metadata.  A value of [applyconf] is the argument of a server-side
    apply. *)

From stdpp Require Import base gmap list strings.
From Stdlib Require Import ZArith.
From S2P Require Import Prelude GoStrings ApiTypes K8sTypes.

Open Scope Z_scope.

Declare Scope go_scope.
Delimit Scope go_scope with go.
(** Method chaining: [b |> WithX v] is [b.WithX(v)]. *)
Notation "b |> f" := (f b) (at level 58, left associativity, only parsing) : go_scope.

Module ACCrossNamespaceReference.

Record t := mk {
  Name : option string;
  Namespace : option string
}.

Definition new : t := mk None None.

Definition WithName (value : string) (b : t) : t :=
  mk (Some value) (Namespace b).
Definition WithNamespace (value : string) (b : t) : t :=
  mk (Name b) (Some value).

End ACCrossNamespaceReference.

Module ACGroupReference.

Record t := mk {
  Name : option string;
  ID : option string;
  LocalRef : option string
}.

Definition new : t := mk None None None.

Definition WithName (value : string) (b : t) : t :=
  mk (Some value) (ID b) (LocalRef b).
Definition WithID (value : string) (b : t) : t :=
  mk (Name b) (Some value) (LocalRef b).
Definition WithLocalRef (value : string) (b : t) : t :=
  mk (Name b) (ID b) (Some value).

End ACGroupReference.

Module ACAccessRestrictions.

Record t := mk {
  AllowedCidrs : list string;
  BlockedCidrs : list string;
  AllowedCountries : list string;
  BlockedCountries : list string
}.

Definition new : t := mk [] [] [] [].

Definition WithAllowedCidrs (values : list string) (b : t) : t :=
  mk (AllowedCidrs b ++ values) (BlockedCidrs b) (AllowedCountries b) (BlockedCountries b).
Definition WithBlockedCidrs (values : list string) (b : t) : t :=
  mk (AllowedCidrs b) (BlockedCidrs b ++ values) (AllowedCountries b) (BlockedCountries b).
Definition WithAllowedCountries (values : list string) (b : t) : t :=
  mk (AllowedCidrs b) (BlockedCidrs b) (AllowedCountries b ++ values) (BlockedCountries b).
Definition WithBlockedCountries (values : list string) (b : t) : t :=
  mk (AllowedCidrs b) (BlockedCidrs b) (AllowedCountries b) (BlockedCountries b ++ values).

End ACAccessRestrictions.

Module ACReverseProxyBackend.

Record t := mk {
  ServiceRef : option string;
  Port : option Z;
  Path : option string
}.

Definition new : t := mk None None None.

Definition WithServiceRef (value : string) (b : t) : t :=
  mk (Some value) (Port b) (Path b).
Definition WithPort (value : Z) (b : t) : t :=
  mk (ServiceRef b) (Some value) (Path b).
Definition WithPath (value : string) (b : t) : t :=
  mk (ServiceRef b) (Port b) (Some value).

End ACReverseProxyBackend.

Module ACDNSRecordSpec.

Record t := mk {
  ZoneRef : option ACCrossNamespaceReference.t;
  Name : option string;
  Type_ : option string;
  Content : option string;
  TTL : option Z
}.

Definition new : t := mk None None None None None.

Definition WithZoneRef (value : ACCrossNamespaceReference.t) (b : t) : t :=
  mk (Some value) (Name b) (Type_ b) (Content b) (TTL b).
Definition WithName (value : string) (b : t) : t :=
  mk (ZoneRef b) (Some value) (Type_ b) (Content b) (TTL b).
Definition WithType (value : string) (b : t) : t :=
  mk (ZoneRef b) (Name b) (Some value) (Content b) (TTL b).
Definition WithContent (value : string) (b : t) : t :=
  mk (ZoneRef b) (Name b) (Type_ b) (Some value) (TTL b).
Definition WithTTL (value : Z) (b : t) : t :=
  mk (ZoneRef b) (Name b) (Type_ b) (Content b) (Some value).

End ACDNSRecordSpec.

Module ACDNSZoneSpec.

Record t := mk {
  Name : option string;
  Domain : option string;
  DistributionGroups : list ACGroupReference.t;
  EnableSearchDomain : option bool;
  Enabled : option bool
}.

Definition new : t := mk None None [] None None.

Definition WithName (value : string) (b : t) : t :=
  mk (Some value) (Domain b) (DistributionGroups b) (EnableSearchDomain b) (Enabled b).
Definition WithDomain (value : string) (b : t) : t :=
  mk (Name b) (Some value) (DistributionGroups b) (EnableSearchDomain b) (Enabled b).
Definition WithDistributionGroups (values : list ACGroupReference.t) (b : t) : t :=
  mk (Name b) (Domain b) (DistributionGroups b ++ values) (EnableSearchDomain b) (Enabled b).
Definition WithEnableSearchDomain (value : bool) (b : t) : t :=
  mk (Name b) (Domain b) (DistributionGroups b) (Some value) (Enabled b).
Definition WithEnabled (value : bool) (b : t) : t :=
  mk (Name b) (Domain b) (DistributionGroups b) (EnableSearchDomain b) (Some value).

End ACDNSZoneSpec.

Module ACGroupSpec.

Record t := mk {
  Name : option string
}.

Definition new : t := mk None.

Definition WithName (value : string) (b : t) : t :=
  mk (Some value).

End ACGroupSpec.

Module ACNetworkResourceSpec.

Record t := mk {
  NetworkRef : option ACCrossNamespaceReference.t;
  Name : option string;
  Address : option string;
  Description : option string;
  Groups : list ACGroupReference.t;
  Enabled : option bool
}.

Definition new : t := mk None None None None [] None.

Definition WithNetworkRef (value : ACCrossNamespaceReference.t) (b : t) : t :=
  mk (Some value) (Name b) (Address b) (Description b) (Groups b) (Enabled b).
Definition WithName (value : string) (b : t) : t :=
  mk (NetworkRef b) (Some value) (Address b) (Description b) (Groups b) (Enabled b).
Definition WithAddress (value : string) (b : t) : t :=
  mk (NetworkRef b) (Name b) (Some value) (Description b) (Groups b) (Enabled b).
Definition WithDescription (value : string) (b : t) : t :=
  mk (NetworkRef b) (Name b) (Address b) (Some value) (Groups b) (Enabled b).
Definition WithGroups (values : list ACGroupReference.t) (b : t) : t :=
  mk (NetworkRef b) (Name b) (Address b) (Description b) (Groups b ++ values) (Enabled b).
Definition WithEnabled (value : bool) (b : t) : t :=
  mk (NetworkRef b) (Name b) (Address b) (Description b) (Groups b) (Some value).

End ACNetworkResourceSpec.

Module ACSetupKeySpec.

Record t := mk {
  Name : option string;
  Ephemeral : option bool;
  AllowExtraDnsLabels : option bool;
  Duration : option Z;
  AutoGroups : list ACGroupReference.t
}.

Definition new : t := mk None None None None [].

Definition WithName (value : string) (b : t) : t :=
  mk (Some value) (Ephemeral b) (AllowExtraDnsLabels b) (Duration b) (AutoGroups b).
Definition WithEphemeral (value : bool) (b : t) : t :=
  mk (Name b) (Some value) (AllowExtraDnsLabels b) (Duration b) (AutoGroups b).
Definition WithAllowExtraDnsLabels (value : bool) (b : t) : t :=
  mk (Name b) (Ephemeral b) (Some value) (Duration b) (AutoGroups b).
Definition WithDuration (value : Z) (b : t) : t :=
  mk (Name b) (Ephemeral b) (AllowExtraDnsLabels b) (Some value) (AutoGroups b).
Definition WithAutoGroups (values : list ACGroupReference.t) (b : t) : t :=
  mk (Name b) (Ephemeral b) (AllowExtraDnsLabels b) (Duration b) (AutoGroups b ++ values).

End ACSetupKeySpec.

Module ACReverseProxyServiceSpec.

Record t := mk {
  Backends : list ACReverseProxyBackend.t;
  Mode : option ReverseProxyMode;
  ListenPort : option Z;
  ProxyProtocol : option bool;
  ProxyCluster : option string;
  Domain : option string;
  Private : option bool;
  AccessGroups : list ACGroupReference.t;
  CrowdsecMode : option CrowdsecMode;
  AccessRestrictions : option ACAccessRestrictions.t;
  PassHostHeader : option bool;
  RewriteRedirects : option bool
}.

Definition new : t := mk [] None None None None None None [] None None None None.

Definition WithBackends (values : list ACReverseProxyBackend.t) (b : t) : t :=
  mk (Backends b ++ values) (Mode b) (ListenPort b) (ProxyProtocol b) (ProxyCluster b) (Domain b) (Private b) (AccessGroups b) (CrowdsecMode b) (AccessRestrictions b) (PassHostHeader b) (RewriteRedirects b).
Definition WithMode (value : ApiTypes.ReverseProxyMode) (b : t) : t :=
  mk (Backends b) (Some value) (ListenPort b) (ProxyProtocol b) (ProxyCluster b) (Domain b) (Private b) (AccessGroups b) (CrowdsecMode b) (AccessRestrictions b) (PassHostHeader b) (RewriteRedirects b).
Definition WithListenPort (value : Z) (b : t) : t :=
  mk (Backends b) (Mode b) (Some value) (ProxyProtocol b) (ProxyCluster b) (Domain b) (Private b) (AccessGroups b) (CrowdsecMode b) (AccessRestrictions b) (PassHostHeader b) (RewriteRedirects b).
Definition WithProxyProtocol (value : bool) (b : t) : t :=
  mk (Backends b) (Mode b) (ListenPort b) (Some value) (ProxyCluster b) (Domain b) (Private b) (AccessGroups b) (CrowdsecMode b) (AccessRestrictions b) (PassHostHeader b) (RewriteRedirects b).
Definition WithProxyCluster (value : string) (b : t) : t :=
  mk (Backends b) (Mode b) (ListenPort b) (ProxyProtocol b) (Some value) (Domain b) (Private b) (AccessGroups b) (CrowdsecMode b) (AccessRestrictions b) (PassHostHeader b) (RewriteRedirects b).
Definition WithDomain (value : string) (b : t) : t :=
  mk (Backends b) (Mode b) (ListenPort b) (ProxyProtocol b) (ProxyCluster b) (Some value) (Private b) (AccessGroups b) (CrowdsecMode b) (AccessRestrictions b) (PassHostHeader b) (RewriteRedirects b).
Definition WithPrivate (value : bool) (b : t) : t :=
  mk (Backends b) (Mode b) (ListenPort b) (ProxyProtocol b) (ProxyCluster b) (Domain b) (Some value) (AccessGroups b) (CrowdsecMode b) (AccessRestrictions b) (PassHostHeader b) (RewriteRedirects b).
Definition WithAccessGroups (values : list ACGroupReference.t) (b : t) : t :=
  mk (Backends b) (Mode b) (ListenPort b) (ProxyProtocol b) (ProxyCluster b) (Domain b) (Private b) (AccessGroups b ++ values) (CrowdsecMode b) (AccessRestrictions b) (PassHostHeader b) (RewriteRedirects b).
Definition WithCrowdsecMode (value : ApiTypes.CrowdsecMode) (b : t) : t :=
  mk (Backends b) (Mode b) (ListenPort b) (ProxyProtocol b) (ProxyCluster b) (Domain b) (Private b) (AccessGroups b) (Some value) (AccessRestrictions b) (PassHostHeader b) (RewriteRedirects b).
Definition WithAccessRestrictions (value : ACAccessRestrictions.t) (b : t) : t :=
  mk (Backends b) (Mode b) (ListenPort b) (ProxyProtocol b) (ProxyCluster b) (Domain b) (Private b) (AccessGroups b) (CrowdsecMode b) (Some value) (PassHostHeader b) (RewriteRedirects b).
Definition WithPassHostHeader (value : bool) (b : t) : t :=
  mk (Backends b) (Mode b) (ListenPort b) (ProxyProtocol b) (ProxyCluster b) (Domain b) (Private b) (AccessGroups b) (CrowdsecMode b) (AccessRestrictions b) (Some value) (RewriteRedirects b).
Definition WithRewriteRedirects (value : bool) (b : t) : t :=
  mk (Backends b) (Mode b) (ListenPort b) (ProxyProtocol b) (ProxyCluster b) (Domain b) (Private b) (AccessGroups b) (CrowdsecMode b) (AccessRestrictions b) (PassHostHeader b) (Some value).

End ACReverseProxyServiceSpec.

Module ACReverseProxyClusterSpec.

Record t := mk {
  ClusterAddress : option string;
  Domain : option string;
  ZoneRef : option ACCrossNamespaceReference.t;
  CertSecretName : option string;
  Groups : list ACGroupReference.t;
  Private : option bool;
  Replicas : option Z;
  Image : option string;
  LogLevel : option string;
  ServiceAnnotations : gmap string string
}.

Definition new : t := mk None None None None [] None None None None ∅.

Definition WithClusterAddress (value : string) (b : t) : t :=
  mk (Some value) (Domain b) (ZoneRef b) (CertSecretName b) (Groups b) (Private b) (Replicas b) (Image b) (LogLevel b) (ServiceAnnotations b).
Definition WithDomain (value : string) (b : t) : t :=
  mk (ClusterAddress b) (Some value) (ZoneRef b) (CertSecretName b) (Groups b) (Private b) (Replicas b) (Image b) (LogLevel b) (ServiceAnnotations b).
Definition WithZoneRef (value : ACCrossNamespaceReference.t) (b : t) : t :=
  mk (ClusterAddress b) (Domain b) (Some value) (CertSecretName b) (Groups b) (Private b) (Replicas b) (Image b) (LogLevel b) (ServiceAnnotations b).
Definition WithCertSecretName (value : string) (b : t) : t :=
  mk (ClusterAddress b) (Domain b) (ZoneRef b) (Some value) (Groups b) (Private b) (Replicas b) (Image b) (LogLevel b) (ServiceAnnotations b).
Definition WithGroups (values : list ACGroupReference.t) (b : t) : t :=
  mk (ClusterAddress b) (Domain b) (ZoneRef b) (CertSecretName b) (Groups b ++ values) (Private b) (Replicas b) (Image b) (LogLevel b) (ServiceAnnotations b).
Definition WithPrivate (value : bool) (b : t) : t :=
  mk (ClusterAddress b) (Domain b) (ZoneRef b) (CertSecretName b) (Groups b) (Some value) (Replicas b) (Image b) (LogLevel b) (ServiceAnnotations b).
Definition WithReplicas (value : Z) (b : t) : t :=
  mk (ClusterAddress b) (Domain b) (ZoneRef b) (CertSecretName b) (Groups b) (Private b) (Some value) (Image b) (LogLevel b) (ServiceAnnotations b).
Definition WithImage (value : string) (b : t) : t :=
  mk (ClusterAddress b) (Domain b) (ZoneRef b) (CertSecretName b) (Groups b) (Private b) (Replicas b) (Some value) (LogLevel b) (ServiceAnnotations b).
Definition WithLogLevel (value : string) (b : t) : t :=
  mk (ClusterAddress b) (Domain b) (ZoneRef b) (CertSecretName b) (Groups b) (Private b) (Replicas b) (Image b) (Some value) (ServiceAnnotations b).
Definition WithServiceAnnotations (entries : gmap string string) (b : t) : t :=
  mk (ClusterAddress b) (Domain b) (ZoneRef b) (CertSecretName b) (Groups b) (Private b) (Replicas b) (Image b) (LogLevel b) (entries ∪ ServiceAnnotations b).

End ACReverseProxyClusterSpec.
(** ** Object metadata *)

Record OwnerReference := mkOwnerReference {
  owner_APIVersion : string;
  owner_Kind : string;
  owner_Name : string;
  owner_UID : string;
  owner_Controller : bool;
  owner_BlockOwnerDeletion : bool
}.

Record ACMeta := mkACMeta {
  acm_Name : string;
  acm_Namespace : string;
  acm_Labels : gmap string string;
  acm_Annotations : gmap string string;
  acm_OwnerReferences : list OwnerReference
}.

(** The constructor of an object of any kind: name and namespace. *)
Definition ObjectAC (name namespace : string) : ACMeta :=
  mkACMeta name namespace ∅ ∅ [].

Definition WithLabels (entries : gmap string string) (b : ACMeta) : ACMeta :=
  mkACMeta (acm_Name b) (acm_Namespace b) (entries ∪ acm_Labels b)
           (acm_Annotations b) (acm_OwnerReferences b).

Definition WithAnnotations (entries : gmap string string) (b : ACMeta) : ACMeta :=
  mkACMeta (acm_Name b) (acm_Namespace b) (acm_Labels b)
           (entries ∪ acm_Annotations b) (acm_OwnerReferences b).

Definition WithOwnerReferences (values : list OwnerReference) (b : ACMeta) : ACMeta :=
  mkACMeta (acm_Name b) (acm_Namespace b) (acm_Labels b) (acm_Annotations b)
           (acm_OwnerReferences b ++ values).

(** The arguments of [client.Apply] in the operator. *)
Inductive applyconf :=
| ApplyNetworkResource (m : ACMeta) (spec : ACNetworkResourceSpec.t)
| ApplyDNSRecord (m : ACMeta) (spec : ACDNSRecordSpec.t)
| ApplyDNSZone (m : ACMeta) (spec : ACDNSZoneSpec.t)
| ApplyGroup (m : ACMeta) (spec : ACGroupSpec.t)
| ApplySetupKey (m : ACMeta) (spec : ACSetupKeySpec.t)
| ApplyReverseProxyService (m : ACMeta) (spec : ACReverseProxyServiceSpec.t)
| ApplyReverseProxyCluster (m : ACMeta) (spec : ACReverseProxyClusterSpec.t)
| ApplySecret (m : ACMeta) (stringData : gmap string string)
| ApplyService (m : ACMeta) (spec : ServiceSpecAC)
| ApplyDeployment (m : ACMeta) (spec : WorkloadSpec)
| ApplyDaemonSet (m : ACMeta) (spec : WorkloadSpec)
| ApplyGatewayClass (name controllerName description : string).
