(* ===== verification/ApplyParts.v ===== *)
(** * Apply configurations the operator does not build itself

    The other specs, parts of specs, and statuses of
    [pkg/applyconfigurations/api/v1alpha1], in the form of [ApplyConf.v].  A
    field whose type belongs to a Kubernetes library holds such a value by its
    JSON, which agrees with the type the schema gives it ([external]). *)

From stdpp Require Import base gmap list strings.
From Stdlib Require Import ZArith.
From S2P Require Import Prelude ApiTypes K8sTypes Schema ApplyConf.

Open Scope Z_scope.

(** A value of a library's type. *)
Record external (n : string) := mkExternal {
  ext_json : value;
  ext_agrees : agrees schemaYAML ext_json (Named n) = true
}.
Arguments mkExternal {n} _ _.
Arguments ext_json {n} _.
Arguments ext_agrees {n} _.

Definition EnvVarJSON := external (core "EnvVar").
Definition SecurityContextJSON := external (core "SecurityContext").
Definition ProbeJSON := external (core "Probe").
Definition ConditionAC := external (meta "Condition").
Definition LabelSelectorAC := external (meta "LabelSelector").

Module ACClusterProxySpec.

Record t := mk {
  ClusterName : option string;
  APIServer : option string;
  ServiceAccountName : option string;
  Groups : list ACGroupReference.t;
  Replicas : option Z
}.

Definition new : t := mk None None None [] None.

Definition WithClusterName (value : string) (b : t) : t :=
  mk (Some value) (APIServer b) (ServiceAccountName b) (Groups b) (Replicas b).
Definition WithAPIServer (value : string) (b : t) : t :=
  mk (ClusterName b) (Some value) (ServiceAccountName b) (Groups b) (Replicas b).
Definition WithServiceAccountName (value : string) (b : t) : t :=
  mk (ClusterName b) (APIServer b) (Some value) (Groups b) (Replicas b).
Definition WithGroups (values : list ACGroupReference.t) (b : t) : t :=
  mk (ClusterName b) (APIServer b) (ServiceAccountName b) (Groups b ++ values) (Replicas b).
Definition WithReplicas (value : Z) (b : t) : t :=
  mk (ClusterName b) (APIServer b) (ServiceAccountName b) (Groups b) (Some value).

End ACClusterProxySpec.

Module ACClusterProxyStatus.

Record t := mk {
  ObservedGeneration : option Z;
  Conditions : list ConditionAC
}.

Definition new : t := mk None [].

Definition WithObservedGeneration (value : Z) (b : t) : t :=
  mk (Some value) (Conditions b).
Definition WithConditions (values : list ConditionAC) (b : t) : t :=
  mk (ObservedGeneration b) (Conditions b ++ values).

End ACClusterProxyStatus.

Module ACContainerOverride.

Record t := mk {
  Image : option string;
  Env : list EnvVarJSON;
  SecurityContext : option SecurityContextJSON;
  StartupProbe : option ProbeJSON;
  LivenessProbe : option ProbeJSON;
  ReadinessProbe : option ProbeJSON
}.

Definition new : t := mk None [] None None None None.

Definition WithImage (value : string) (b : t) : t :=
  mk (Some value) (Env b) (SecurityContext b) (StartupProbe b) (LivenessProbe b) (ReadinessProbe b).
Definition WithEnv (values : list EnvVarJSON) (b : t) : t :=
  mk (Image b) (Env b ++ values) (SecurityContext b) (StartupProbe b) (LivenessProbe b) (ReadinessProbe b).
Definition WithSecurityContext (value : SecurityContextJSON) (b : t) : t :=
  mk (Image b) (Env b) (Some value) (StartupProbe b) (LivenessProbe b) (ReadinessProbe b).
Definition WithStartupProbe (value : ProbeJSON) (b : t) : t :=
  mk (Image b) (Env b) (SecurityContext b) (Some value) (LivenessProbe b) (ReadinessProbe b).
Definition WithLivenessProbe (value : ProbeJSON) (b : t) : t :=
  mk (Image b) (Env b) (SecurityContext b) (StartupProbe b) (Some value) (ReadinessProbe b).
Definition WithReadinessProbe (value : ProbeJSON) (b : t) : t :=
  mk (Image b) (Env b) (SecurityContext b) (StartupProbe b) (LivenessProbe b) (Some value).

End ACContainerOverride.

Module ACDNSRecordStatus.

Record t := mk {
  ObservedGeneration : option Z;
  Conditions : list ConditionAC;
  ZoneID : option string;
  RecordID : option string
}.

Definition new : t := mk None [] None None.

Definition WithObservedGeneration (value : Z) (b : t) : t :=
  mk (Some value) (Conditions b) (ZoneID b) (RecordID b).
Definition WithConditions (values : list ConditionAC) (b : t) : t :=
  mk (ObservedGeneration b) (Conditions b ++ values) (ZoneID b) (RecordID b).
Definition WithZoneID (value : string) (b : t) : t :=
  mk (ObservedGeneration b) (Conditions b) (Some value) (RecordID b).
Definition WithRecordID (value : string) (b : t) : t :=
  mk (ObservedGeneration b) (Conditions b) (ZoneID b) (Some value).

End ACDNSRecordStatus.

Module ACDNSZoneStatus.

Record t := mk {
  ObservedGeneration : option Z;
  Conditions : list ConditionAC;
  ZoneID : option string
}.

Definition new : t := mk None [] None.

Definition WithObservedGeneration (value : Z) (b : t) : t :=
  mk (Some value) (Conditions b) (ZoneID b).
Definition WithConditions (values : list ConditionAC) (b : t) : t :=
  mk (ObservedGeneration b) (Conditions b ++ values) (ZoneID b).
Definition WithZoneID (value : string) (b : t) : t :=
  mk (ObservedGeneration b) (Conditions b) (Some value).

End ACDNSZoneStatus.

Module ACGroupStatus.

Record t := mk {
  ObservedGeneration : option Z;
  Conditions : list ConditionAC;
  GroupID : option string
}.

Definition new : t := mk None [] None.

Definition WithObservedGeneration (value : Z) (b : t) : t :=
  mk (Some value) (Conditions b) (GroupID b).
Definition WithConditions (values : list ConditionAC) (b : t) : t :=
  mk (ObservedGeneration b) (Conditions b ++ values) (GroupID b).
Definition WithGroupID (value : string) (b : t) : t :=
  mk (ObservedGeneration b) (Conditions b) (Some value).

End ACGroupStatus.

Module ACNetworkResourceStatus.

Record t := mk {
  ObservedGeneration : option Z;
  Conditions : list ConditionAC;
  NetworkID : option string;
  ResourceID : option string
}.

Definition new : t := mk None [] None None.

Definition WithObservedGeneration (value : Z) (b : t) : t :=
  mk (Some value) (Conditions b) (NetworkID b) (ResourceID b).
Definition WithConditions (values : list ConditionAC) (b : t) : t :=
  mk (ObservedGeneration b) (Conditions b ++ values) (NetworkID b) (ResourceID b).
Definition WithNetworkID (value : string) (b : t) : t :=
  mk (ObservedGeneration b) (Conditions b) (Some value) (ResourceID b).
Definition WithResourceID (value : string) (b : t) : t :=
  mk (ObservedGeneration b) (Conditions b) (NetworkID b) (Some value).

End ACNetworkResourceStatus.

Module ACRouterDeploy.

Record t := mk {
  NodeSelector : gmap string string;
  Image : option string;
  LogLevel : option string
}.

Definition new : t := mk ∅ None None.

Definition WithNodeSelector (entries : gmap string string) (b : t) : t :=
  mk (entries ∪ NodeSelector b) (Image b) (LogLevel b).
Definition WithImage (value : string) (b : t) : t :=
  mk (NodeSelector b) (Some value) (LogLevel b).
Definition WithLogLevel (value : string) (b : t) : t :=
  mk (NodeSelector b) (Image b) (Some value).

End ACRouterDeploy.

Module ACNetworkRouterPeers.

Record t := mk {
  Group : option ACGroupReference.t;
  Deploy : option ACRouterDeploy.t
}.

Definition new : t := mk None None.

Definition WithGroup (value : ACGroupReference.t) (b : t) : t :=
  mk (Some value) (Deploy b).
Definition WithDeploy (value : ACRouterDeploy.t) (b : t) : t :=
  mk (Group b) (Some value).

End ACNetworkRouterPeers.

Module ACNetworkRouterSpec.

Record t := mk {
  NetworkRef : option ACCrossNamespaceReference.t;
  Peers : option ACNetworkRouterPeers.t;
  Masquerade : option bool;
  Metric : option Z;
  Enabled : option bool
}.

Definition new : t := mk None None None None None.

Definition WithNetworkRef (value : ACCrossNamespaceReference.t) (b : t) : t :=
  mk (Some value) (Peers b) (Masquerade b) (Metric b) (Enabled b).
Definition WithPeers (value : ACNetworkRouterPeers.t) (b : t) : t :=
  mk (NetworkRef b) (Some value) (Masquerade b) (Metric b) (Enabled b).
Definition WithMasquerade (value : bool) (b : t) : t :=
  mk (NetworkRef b) (Peers b) (Some value) (Metric b) (Enabled b).
Definition WithMetric (value : Z) (b : t) : t :=
  mk (NetworkRef b) (Peers b) (Masquerade b) (Some value) (Enabled b).
Definition WithEnabled (value : bool) (b : t) : t :=
  mk (NetworkRef b) (Peers b) (Masquerade b) (Metric b) (Some value).

End ACNetworkRouterSpec.

Module ACNetworkRouterStatus.

Record t := mk {
  ObservedGeneration : option Z;
  Conditions : list ConditionAC;
  NetworkID : option string;
  RouterID : option string;
  GroupID : option string
}.

Definition new : t := mk None [] None None None.

Definition WithObservedGeneration (value : Z) (b : t) : t :=
  mk (Some value) (Conditions b) (NetworkID b) (RouterID b) (GroupID b).
Definition WithConditions (values : list ConditionAC) (b : t) : t :=
  mk (ObservedGeneration b) (Conditions b ++ values) (NetworkID b) (RouterID b) (GroupID b).
Definition WithNetworkID (value : string) (b : t) : t :=
  mk (ObservedGeneration b) (Conditions b) (Some value) (RouterID b) (GroupID b).
Definition WithRouterID (value : string) (b : t) : t :=
  mk (ObservedGeneration b) (Conditions b) (NetworkID b) (Some value) (GroupID b).
Definition WithGroupID (value : string) (b : t) : t :=
  mk (ObservedGeneration b) (Conditions b) (NetworkID b) (RouterID b) (Some value).

End ACNetworkRouterStatus.

Module ACNetworkSpec.

Record t := mk {
  Name : option string;
  Description : option string
}.

Definition new : t := mk None None.

Definition WithName (value : string) (b : t) : t :=
  mk (Some value) (Description b).
Definition WithDescription (value : string) (b : t) : t :=
  mk (Name b) (Some value).

End ACNetworkSpec.

Module ACNetworkStatus.

Record t := mk {
  ObservedGeneration : option Z;
  Conditions : list ConditionAC;
  NetworkID : option string
}.

Definition new : t := mk None [] None.

Definition WithObservedGeneration (value : Z) (b : t) : t :=
  mk (Some value) (Conditions b) (NetworkID b).
Definition WithConditions (values : list ConditionAC) (b : t) : t :=
  mk (ObservedGeneration b) (Conditions b ++ values) (NetworkID b).
Definition WithNetworkID (value : string) (b : t) : t :=
  mk (ObservedGeneration b) (Conditions b) (Some value).

End ACNetworkStatus.

Module ACReverseProxyClusterParametersSpec.

Record t := mk {
  Image : option string;
  Replicas : option Z;
  Groups : list ACGroupReference.t;
  Private : option bool;
  ServiceAnnotations : gmap string string
}.

Definition new : t := mk None None [] None ∅.

Definition WithImage (value : string) (b : t) : t :=
  mk (Some value) (Replicas b) (Groups b) (Private b) (ServiceAnnotations b).
Definition WithReplicas (value : Z) (b : t) : t :=
  mk (Image b) (Some value) (Groups b) (Private b) (ServiceAnnotations b).
Definition WithGroups (values : list ACGroupReference.t) (b : t) : t :=
  mk (Image b) (Replicas b) (Groups b ++ values) (Private b) (ServiceAnnotations b).
Definition WithPrivate (value : bool) (b : t) : t :=
  mk (Image b) (Replicas b) (Groups b) (Some value) (ServiceAnnotations b).
Definition WithServiceAnnotations (entries : gmap string string) (b : t) : t :=
  mk (Image b) (Replicas b) (Groups b) (Private b) (entries ∪ ServiceAnnotations b).

End ACReverseProxyClusterParametersSpec.

Module ACReverseProxyClusterStatus.

Record t := mk {
  ObservedGeneration : option Z;
  Conditions : list ConditionAC;
  ClusterAddress : option string;
  TokenID : option string;
  DomainID : option string;
  LoadBalancerIP : option string;
  Online : option bool;
  ConnectedProxies : option Z
}.

Definition new : t := mk None [] None None None None None None.

Definition WithObservedGeneration (value : Z) (b : t) : t :=
  mk (Some value) (Conditions b) (ClusterAddress b) (TokenID b) (DomainID b) (LoadBalancerIP b) (Online b) (ConnectedProxies b).
Definition WithConditions (values : list ConditionAC) (b : t) : t :=
  mk (ObservedGeneration b) (Conditions b ++ values) (ClusterAddress b) (TokenID b) (DomainID b) (LoadBalancerIP b) (Online b) (ConnectedProxies b).
Definition WithClusterAddress (value : string) (b : t) : t :=
  mk (ObservedGeneration b) (Conditions b) (Some value) (TokenID b) (DomainID b) (LoadBalancerIP b) (Online b) (ConnectedProxies b).
Definition WithTokenID (value : string) (b : t) : t :=
  mk (ObservedGeneration b) (Conditions b) (ClusterAddress b) (Some value) (DomainID b) (LoadBalancerIP b) (Online b) (ConnectedProxies b).
Definition WithDomainID (value : string) (b : t) : t :=
  mk (ObservedGeneration b) (Conditions b) (ClusterAddress b) (TokenID b) (Some value) (LoadBalancerIP b) (Online b) (ConnectedProxies b).
Definition WithLoadBalancerIP (value : string) (b : t) : t :=
  mk (ObservedGeneration b) (Conditions b) (ClusterAddress b) (TokenID b) (DomainID b) (Some value) (Online b) (ConnectedProxies b).
Definition WithOnline (value : bool) (b : t) : t :=
  mk (ObservedGeneration b) (Conditions b) (ClusterAddress b) (TokenID b) (DomainID b) (LoadBalancerIP b) (Some value) (ConnectedProxies b).
Definition WithConnectedProxies (value : Z) (b : t) : t :=
  mk (ObservedGeneration b) (Conditions b) (ClusterAddress b) (TokenID b) (DomainID b) (LoadBalancerIP b) (Online b) (Some value).

End ACReverseProxyClusterStatus.

Module ACReverseProxyServiceStatus.

Record t := mk {
  ObservedGeneration : option Z;
  Conditions : list ConditionAC;
  ServiceID : option string;
  ServiceDomain : option string
}.

Definition new : t := mk None [] None None.

Definition WithObservedGeneration (value : Z) (b : t) : t :=
  mk (Some value) (Conditions b) (ServiceID b) (ServiceDomain b).
Definition WithConditions (values : list ConditionAC) (b : t) : t :=
  mk (ObservedGeneration b) (Conditions b ++ values) (ServiceID b) (ServiceDomain b).
Definition WithServiceID (value : string) (b : t) : t :=
  mk (ObservedGeneration b) (Conditions b) (Some value) (ServiceDomain b).
Definition WithServiceDomain (value : string) (b : t) : t :=
  mk (ObservedGeneration b) (Conditions b) (ServiceID b) (Some value).

End ACReverseProxyServiceStatus.

Module ACSetupKeyStatus.

Record t := mk {
  ObservedGeneration : option Z;
  Conditions : list ConditionAC;
  SetupKeyID : option string
}.

Definition new : t := mk None [] None.

Definition WithObservedGeneration (value : Z) (b : t) : t :=
  mk (Some value) (Conditions b) (SetupKeyID b).
Definition WithConditions (values : list ConditionAC) (b : t) : t :=
  mk (ObservedGeneration b) (Conditions b ++ values) (SetupKeyID b).
Definition WithSetupKeyID (value : string) (b : t) : t :=
  mk (ObservedGeneration b) (Conditions b) (Some value).

End ACSetupKeyStatus.

Module ACSidecarProfileSpec.

Record t := mk {
  SetupKeyRef : option string;
  PodSelector : option LabelSelectorAC;
  InjectionMode : option InjectionMode;
  ExtraDNSLabels : list string;
  ContainerOverride : option ACContainerOverride.t
}.

Definition new : t := mk None None None [] None.

Definition WithSetupKeyRef (value : string) (b : t) : t :=
  mk (Some value) (PodSelector b) (InjectionMode b) (ExtraDNSLabels b) (ContainerOverride b).
Definition WithPodSelector (value : LabelSelectorAC) (b : t) : t :=
  mk (SetupKeyRef b) (Some value) (InjectionMode b) (ExtraDNSLabels b) (ContainerOverride b).
Definition WithInjectionMode (value : K8sTypes.InjectionMode) (b : t) : t :=
  mk (SetupKeyRef b) (PodSelector b) (Some value) (ExtraDNSLabels b) (ContainerOverride b).
Definition WithExtraDNSLabels (values : list string) (b : t) : t :=
  mk (SetupKeyRef b) (PodSelector b) (InjectionMode b) (ExtraDNSLabels b ++ values) (ContainerOverride b).
Definition WithContainerOverride (value : ACContainerOverride.t) (b : t) : t :=
  mk (SetupKeyRef b) (PodSelector b) (InjectionMode b) (ExtraDNSLabels b) (Some value).

End ACSidecarProfileSpec.

Module ACSidecarProfileStatus.

Record t := mk {
  ObservedGeneration : option Z;
  Conditions : list ConditionAC
}.

Definition new : t := mk None [].

Definition WithObservedGeneration (value : Z) (b : t) : t :=
  mk (Some value) (Conditions b).
Definition WithConditions (values : list ConditionAC) (b : t) : t :=
  mk (ObservedGeneration b) (Conditions b ++ values).

End ACSidecarProfileStatus.
