(* ===== verification/ApplyObjects.v ===== *)
(** * Objects of the apply configurations

    The top-level types of [pkg/applyconfigurations/api/v1alpha1]: their
    constructors and the [Extract] functions, and [ForKind] of
    [pkg/applyconfigurations/utils.go].  The methods of an object are the same
    text for each kind: the text is [AC], over the spec and the status, and the
    methods of a kind are its instances, in the kind's module;
    a [With] method that finds no metadata makes one first.  Extraction by
    field manager is the Kubernetes library's ([FieldExtraction]). *)

From stdpp Require Import base gmap list strings.
From Stdlib Require Import ZArith.
From S2P Require Import Prelude ApiTypes K8sTypes Schema ApplyConf ApplyParts.

Open Scope Z_scope.

Module AC.

Record TypeMeta := mkTypeMeta { Kind : option string; APIVersion : option string }.

Record ObjectMeta := mkObjectMeta {
  Name : option string;
  GenerateName : option string;
  Namespace : option string;
  UID : option string;
  ResourceVersion : option string;
  Generation : option Z;
  CreationTimestamp : option Z;
  DeletionTimestamp : option Z;
  DeletionGracePeriodSeconds : option Z;
  Labels : gmap string string;
  Annotations : gmap string string;
  OwnerReferences : list OwnerReference;
  Finalizers : list string
}.

(** [&v1.ObjectMetaApplyConfiguration{}]. *)
Definition no_meta : ObjectMeta := mkObjectMeta None None None None None None None None None ∅ ∅ [] [].

Section builder.
Context {Sp St : Type}.

(** An object of a kind with these specs and statuses. *)
Record object := mkObject {
  type_meta : TypeMeta;
  object_meta : option ObjectMeta;
  Spec : option Sp;
  Status : option St
}.

Definition empty : object := mkObject (mkTypeMeta None None) None None None.

Definition WithKind (value : string) (b : object) : object :=
  mkObject (mkTypeMeta (Some value) (APIVersion (type_meta b))) (object_meta b) (Spec b) (Status b).
Definition WithAPIVersion (value : string) (b : object) : object :=
  mkObject (mkTypeMeta (Kind (type_meta b)) (Some value)) (object_meta b) (Spec b) (Status b).

Definition metadata (b : object) : ObjectMeta := default no_meta (object_meta b).
Definition set_metadata (m : ObjectMeta) (b : object) : object :=
  mkObject (type_meta b) (Some m) (Spec b) (Status b).
Definition ensureObjectMetaApplyConfigurationExists (b : object) : object := set_metadata (metadata b) b.

Definition WithName (value : string) (b : object) : object :=
  let b := ensureObjectMetaApplyConfigurationExists b in
  let m := metadata b in
  set_metadata (mkObjectMeta (Some value) (GenerateName m) (Namespace m) (UID m) (ResourceVersion m) (Generation
    m) (CreationTimestamp m) (DeletionTimestamp m) (DeletionGracePeriodSeconds m) (Labels m)
    (Annotations m) (OwnerReferences m) (Finalizers m)) b.

Definition WithGenerateName (value : string) (b : object) : object :=
  let b := ensureObjectMetaApplyConfigurationExists b in
  let m := metadata b in
  set_metadata (mkObjectMeta (Name m) (Some value) (Namespace m) (UID m) (ResourceVersion m) (Generation m)
    (CreationTimestamp m) (DeletionTimestamp m) (DeletionGracePeriodSeconds m) (Labels m)
    (Annotations m) (OwnerReferences m) (Finalizers m)) b.

Definition WithNamespace (value : string) (b : object) : object :=
  let b := ensureObjectMetaApplyConfigurationExists b in
  let m := metadata b in
  set_metadata (mkObjectMeta (Name m) (GenerateName m) (Some value) (UID m) (ResourceVersion m) (Generation m)
    (CreationTimestamp m) (DeletionTimestamp m) (DeletionGracePeriodSeconds m) (Labels m)
    (Annotations m) (OwnerReferences m) (Finalizers m)) b.

Definition WithUID (value : string) (b : object) : object :=
  let b := ensureObjectMetaApplyConfigurationExists b in
  let m := metadata b in
  set_metadata (mkObjectMeta (Name m) (GenerateName m) (Namespace m) (Some value) (ResourceVersion m)
    (Generation m) (CreationTimestamp m) (DeletionTimestamp m) (DeletionGracePeriodSeconds m)
    (Labels m) (Annotations m) (OwnerReferences m) (Finalizers m)) b.

Definition WithResourceVersion (value : string) (b : object) : object :=
  let b := ensureObjectMetaApplyConfigurationExists b in
  let m := metadata b in
  set_metadata (mkObjectMeta (Name m) (GenerateName m) (Namespace m) (UID m) (Some value) (Generation m)
    (CreationTimestamp m) (DeletionTimestamp m) (DeletionGracePeriodSeconds m) (Labels m)
    (Annotations m) (OwnerReferences m) (Finalizers m)) b.

Definition WithGeneration (value : Z) (b : object) : object :=
  let b := ensureObjectMetaApplyConfigurationExists b in
  let m := metadata b in
  set_metadata (mkObjectMeta (Name m) (GenerateName m) (Namespace m) (UID m) (ResourceVersion m) (Some value)
    (CreationTimestamp m) (DeletionTimestamp m) (DeletionGracePeriodSeconds m) (Labels m)
    (Annotations m) (OwnerReferences m) (Finalizers m)) b.

Definition WithCreationTimestamp (value : Z) (b : object) : object :=
  let b := ensureObjectMetaApplyConfigurationExists b in
  let m := metadata b in
  set_metadata (mkObjectMeta (Name m) (GenerateName m) (Namespace m) (UID m) (ResourceVersion m) (Generation m)
    (Some value) (DeletionTimestamp m) (DeletionGracePeriodSeconds m) (Labels m) (Annotations m)
    (OwnerReferences m) (Finalizers m)) b.

Definition WithDeletionTimestamp (value : Z) (b : object) : object :=
  let b := ensureObjectMetaApplyConfigurationExists b in
  let m := metadata b in
  set_metadata (mkObjectMeta (Name m) (GenerateName m) (Namespace m) (UID m) (ResourceVersion m) (Generation m)
    (CreationTimestamp m) (Some value) (DeletionGracePeriodSeconds m) (Labels m) (Annotations m)
    (OwnerReferences m) (Finalizers m)) b.

Definition WithDeletionGracePeriodSeconds (value : Z) (b : object) : object :=
  let b := ensureObjectMetaApplyConfigurationExists b in
  let m := metadata b in
  set_metadata (mkObjectMeta (Name m) (GenerateName m) (Namespace m) (UID m) (ResourceVersion m) (Generation m)
    (CreationTimestamp m) (DeletionTimestamp m) (Some value) (Labels m) (Annotations m)
    (OwnerReferences m) (Finalizers m)) b.

Definition WithLabels (entries : gmap string string) (b : object) : object :=
  let b := ensureObjectMetaApplyConfigurationExists b in
  let m := metadata b in
  set_metadata (mkObjectMeta (Name m) (GenerateName m) (Namespace m) (UID m) (ResourceVersion m) (Generation m)
    (CreationTimestamp m) (DeletionTimestamp m) (DeletionGracePeriodSeconds m) (entries ∪ Labels m)
    (Annotations m) (OwnerReferences m) (Finalizers m)) b.

Definition WithAnnotations (entries : gmap string string) (b : object) : object :=
  let b := ensureObjectMetaApplyConfigurationExists b in
  let m := metadata b in
  set_metadata (mkObjectMeta (Name m) (GenerateName m) (Namespace m) (UID m) (ResourceVersion m) (Generation m)
    (CreationTimestamp m) (DeletionTimestamp m) (DeletionGracePeriodSeconds m) (Labels m) (entries ∪
    Annotations m) (OwnerReferences m) (Finalizers m)) b.

Definition WithOwnerReferences (values : list OwnerReference) (b : object) : object :=
  let b := ensureObjectMetaApplyConfigurationExists b in
  let m := metadata b in
  set_metadata (mkObjectMeta (Name m) (GenerateName m) (Namespace m) (UID m) (ResourceVersion m) (Generation m)
    (CreationTimestamp m) (DeletionTimestamp m) (DeletionGracePeriodSeconds m) (Labels m)
    (Annotations m) (OwnerReferences m ++ values) (Finalizers m)) b.

Definition WithFinalizers (values : list string) (b : object) : object :=
  let b := ensureObjectMetaApplyConfigurationExists b in
  let m := metadata b in
  set_metadata (mkObjectMeta (Name m) (GenerateName m) (Namespace m) (UID m) (ResourceVersion m) (Generation m)
    (CreationTimestamp m) (DeletionTimestamp m) (DeletionGracePeriodSeconds m) (Labels m)
    (Annotations m) (OwnerReferences m) (Finalizers m ++ values)) b.

Definition WithSpec (value : Sp) (b : object) : object :=
  mkObject (type_meta b) (object_meta b) (Some value) (Status b).
Definition WithStatus (value : St) (b : object) : object :=
  mkObject (type_meta b) (object_meta b) (Spec b) (Some value).

Definition GetKind (b : object) : option string := Kind (type_meta b).
Definition GetAPIVersion (b : object) : option string := APIVersion (type_meta b).
(** The getters of the metadata make sure there is one. *)
Definition GetName (b : object) : object * option string :=
  let b := ensureObjectMetaApplyConfigurationExists b in (b, Name (metadata b)).
Definition GetNamespace (b : object) : object * option string :=
  let b := ensureObjectMetaApplyConfigurationExists b in (b, Namespace (metadata b)).
End builder.
Arguments object : clear implicits.

End AC.

(** [managedfields.ExtractInto]: fills an apply configuration with the fields
    of an object that a field manager owns. *)
Class FieldExtraction :=
  ExtractInto : forall {O A : Type}, O -> option atom -> string -> A -> string -> result string A.

Module ACClusterProxy.

Definition t : Type := AC.object ACClusterProxySpec.t ACClusterProxyStatus.t.

Definition WithKind (value : string) (b : t) : t := AC.WithKind value b.
Definition WithAPIVersion (value : string) (b : t) : t := AC.WithAPIVersion value b.
Definition WithName (value : string) (b : t) : t := AC.WithName value b.
Definition WithGenerateName (value : string) (b : t) : t := AC.WithGenerateName value b.
Definition WithNamespace (value : string) (b : t) : t := AC.WithNamespace value b.
Definition WithUID (value : string) (b : t) : t := AC.WithUID value b.
Definition WithResourceVersion (value : string) (b : t) : t := AC.WithResourceVersion value b.
Definition WithGeneration (value : Z) (b : t) : t := AC.WithGeneration value b.
Definition WithCreationTimestamp (value : Z) (b : t) : t := AC.WithCreationTimestamp value b.
Definition WithDeletionTimestamp (value : Z) (b : t) : t := AC.WithDeletionTimestamp value b.
Definition WithDeletionGracePeriodSeconds (value : Z) (b : t) : t := AC.WithDeletionGracePeriodSeconds value b.
Definition WithLabels (entries : gmap string string) (b : t) : t := AC.WithLabels entries b.
Definition WithAnnotations (entries : gmap string string) (b : t) : t := AC.WithAnnotations entries b.
Definition WithOwnerReferences (values : list OwnerReference) (b : t) : t := AC.WithOwnerReferences values b.
Definition WithFinalizers (values : list string) (b : t) : t := AC.WithFinalizers values b.
Definition ensureObjectMetaApplyConfigurationExists (b : t) : t := AC.ensureObjectMetaApplyConfigurationExists b.
Definition WithSpec (value : ACClusterProxySpec.t) (b : t) : t := AC.WithSpec value b.
Definition WithStatus (value : ACClusterProxyStatus.t) (b : t) : t := AC.WithStatus value b.
Definition GetKind (b : t) : option string := AC.GetKind b.
Definition GetAPIVersion (b : t) : option string := AC.GetAPIVersion b.
Definition GetName (b : t) : t * option string := AC.GetName b.
Definition GetNamespace (b : t) : t * option string := AC.GetNamespace b.

Definition new (name namespace : string) : t :=
  (AC.empty |> WithName name |> WithNamespace namespace
    |> WithKind "ClusterProxy" |> WithAPIVersion "netbird.io/v1alpha1")%go.

Section extract.
Context `{FieldExtraction}.

Definition ExtractClusterProxyFrom (clusterProxy : ApiTypes.ClusterProxy)
    (fieldManager subresource : string) : result string t :=
  match ExtractInto clusterProxy (Parser_Type (api "ClusterProxy"))
          fieldManager (AC.empty : t) subresource with
  | Err err => Err err
  | Ok b =>
      Ok (b |> WithName (meta_Name (ClusterProxy_Meta clusterProxy))
            |> WithNamespace (meta_Namespace (ClusterProxy_Meta clusterProxy))
            |> WithKind "ClusterProxy" |> WithAPIVersion "netbird.io/v1alpha1")%go
  end.
Definition ExtractClusterProxy (clusterProxy : ApiTypes.ClusterProxy)
    (fieldManager : string) : result string t :=
  ExtractClusterProxyFrom clusterProxy fieldManager "".
Definition ExtractClusterProxyStatus (clusterProxy : ApiTypes.ClusterProxy)
    (fieldManager : string) : result string t :=
  ExtractClusterProxyFrom clusterProxy fieldManager "status".
End extract.

End ACClusterProxy.

Module ACDNSRecord.

Definition t : Type := AC.object ACDNSRecordSpec.t ACDNSRecordStatus.t.

Definition WithKind (value : string) (b : t) : t := AC.WithKind value b.
Definition WithAPIVersion (value : string) (b : t) : t := AC.WithAPIVersion value b.
Definition WithName (value : string) (b : t) : t := AC.WithName value b.
Definition WithGenerateName (value : string) (b : t) : t := AC.WithGenerateName value b.
Definition WithNamespace (value : string) (b : t) : t := AC.WithNamespace value b.
Definition WithUID (value : string) (b : t) : t := AC.WithUID value b.
Definition WithResourceVersion (value : string) (b : t) : t := AC.WithResourceVersion value b.
Definition WithGeneration (value : Z) (b : t) : t := AC.WithGeneration value b.
Definition WithCreationTimestamp (value : Z) (b : t) : t := AC.WithCreationTimestamp value b.
Definition WithDeletionTimestamp (value : Z) (b : t) : t := AC.WithDeletionTimestamp value b.
Definition WithDeletionGracePeriodSeconds (value : Z) (b : t) : t := AC.WithDeletionGracePeriodSeconds value b.
Definition WithLabels (entries : gmap string string) (b : t) : t := AC.WithLabels entries b.
Definition WithAnnotations (entries : gmap string string) (b : t) : t := AC.WithAnnotations entries b.
Definition WithOwnerReferences (values : list OwnerReference) (b : t) : t := AC.WithOwnerReferences values b.
Definition WithFinalizers (values : list string) (b : t) : t := AC.WithFinalizers values b.
Definition ensureObjectMetaApplyConfigurationExists (b : t) : t := AC.ensureObjectMetaApplyConfigurationExists b.
Definition WithSpec (value : ACDNSRecordSpec.t) (b : t) : t := AC.WithSpec value b.
Definition WithStatus (value : ACDNSRecordStatus.t) (b : t) : t := AC.WithStatus value b.
Definition GetKind (b : t) : option string := AC.GetKind b.
Definition GetAPIVersion (b : t) : option string := AC.GetAPIVersion b.
Definition GetName (b : t) : t * option string := AC.GetName b.
Definition GetNamespace (b : t) : t * option string := AC.GetNamespace b.

Definition new (name namespace : string) : t :=
  (AC.empty |> WithName name |> WithNamespace namespace
    |> WithKind "DNSRecord" |> WithAPIVersion "netbird.io/v1alpha1")%go.

Section extract.
Context `{FieldExtraction}.

Definition ExtractDNSRecordFrom (dNSRecord : ApiTypes.DNSRecord)
    (fieldManager subresource : string) : result string t :=
  match ExtractInto dNSRecord (Parser_Type (api "DNSRecord"))
          fieldManager (AC.empty : t) subresource with
  | Err err => Err err
  | Ok b =>
      Ok (b |> WithName (meta_Name (DNSRecord_Meta dNSRecord))
            |> WithNamespace (meta_Namespace (DNSRecord_Meta dNSRecord))
            |> WithKind "DNSRecord" |> WithAPIVersion "netbird.io/v1alpha1")%go
  end.
Definition ExtractDNSRecord (dNSRecord : ApiTypes.DNSRecord)
    (fieldManager : string) : result string t :=
  ExtractDNSRecordFrom dNSRecord fieldManager "".
Definition ExtractDNSRecordStatus (dNSRecord : ApiTypes.DNSRecord)
    (fieldManager : string) : result string t :=
  ExtractDNSRecordFrom dNSRecord fieldManager "status".
End extract.

End ACDNSRecord.

Module ACDNSZone.

Definition t : Type := AC.object ACDNSZoneSpec.t ACDNSZoneStatus.t.

Definition WithKind (value : string) (b : t) : t := AC.WithKind value b.
Definition WithAPIVersion (value : string) (b : t) : t := AC.WithAPIVersion value b.
Definition WithName (value : string) (b : t) : t := AC.WithName value b.
Definition WithGenerateName (value : string) (b : t) : t := AC.WithGenerateName value b.
Definition WithNamespace (value : string) (b : t) : t := AC.WithNamespace value b.
Definition WithUID (value : string) (b : t) : t := AC.WithUID value b.
Definition WithResourceVersion (value : string) (b : t) : t := AC.WithResourceVersion value b.
Definition WithGeneration (value : Z) (b : t) : t := AC.WithGeneration value b.
Definition WithCreationTimestamp (value : Z) (b : t) : t := AC.WithCreationTimestamp value b.
Definition WithDeletionTimestamp (value : Z) (b : t) : t := AC.WithDeletionTimestamp value b.
Definition WithDeletionGracePeriodSeconds (value : Z) (b : t) : t := AC.WithDeletionGracePeriodSeconds value b.
Definition WithLabels (entries : gmap string string) (b : t) : t := AC.WithLabels entries b.
Definition WithAnnotations (entries : gmap string string) (b : t) : t := AC.WithAnnotations entries b.
Definition WithOwnerReferences (values : list OwnerReference) (b : t) : t := AC.WithOwnerReferences values b.
Definition WithFinalizers (values : list string) (b : t) : t := AC.WithFinalizers values b.
Definition ensureObjectMetaApplyConfigurationExists (b : t) : t := AC.ensureObjectMetaApplyConfigurationExists b.
Definition WithSpec (value : ACDNSZoneSpec.t) (b : t) : t := AC.WithSpec value b.
Definition WithStatus (value : ACDNSZoneStatus.t) (b : t) : t := AC.WithStatus value b.
Definition GetKind (b : t) : option string := AC.GetKind b.
Definition GetAPIVersion (b : t) : option string := AC.GetAPIVersion b.
Definition GetName (b : t) : t * option string := AC.GetName b.
Definition GetNamespace (b : t) : t * option string := AC.GetNamespace b.

Definition new (name namespace : string) : t :=
  (AC.empty |> WithName name |> WithNamespace namespace
    |> WithKind "DNSZone" |> WithAPIVersion "netbird.io/v1alpha1")%go.

Section extract.
Context `{FieldExtraction}.

Definition ExtractDNSZoneFrom (dNSZone : ApiTypes.DNSZone)
    (fieldManager subresource : string) : result string t :=
  match ExtractInto dNSZone (Parser_Type (api "DNSZone"))
          fieldManager (AC.empty : t) subresource with
  | Err err => Err err
  | Ok b =>
      Ok (b |> WithName (meta_Name (DNSZone_Meta dNSZone))
            |> WithNamespace (meta_Namespace (DNSZone_Meta dNSZone))
            |> WithKind "DNSZone" |> WithAPIVersion "netbird.io/v1alpha1")%go
  end.
Definition ExtractDNSZone (dNSZone : ApiTypes.DNSZone)
    (fieldManager : string) : result string t :=
  ExtractDNSZoneFrom dNSZone fieldManager "".
Definition ExtractDNSZoneStatus (dNSZone : ApiTypes.DNSZone)
    (fieldManager : string) : result string t :=
  ExtractDNSZoneFrom dNSZone fieldManager "status".
End extract.

End ACDNSZone.

Module ACGroup.

Definition t : Type := AC.object ACGroupSpec.t ACGroupStatus.t.

Definition WithKind (value : string) (b : t) : t := AC.WithKind value b.
Definition WithAPIVersion (value : string) (b : t) : t := AC.WithAPIVersion value b.
Definition WithName (value : string) (b : t) : t := AC.WithName value b.
Definition WithGenerateName (value : string) (b : t) : t := AC.WithGenerateName value b.
Definition WithNamespace (value : string) (b : t) : t := AC.WithNamespace value b.
Definition WithUID (value : string) (b : t) : t := AC.WithUID value b.
Definition WithResourceVersion (value : string) (b : t) : t := AC.WithResourceVersion value b.
Definition WithGeneration (value : Z) (b : t) : t := AC.WithGeneration value b.
Definition WithCreationTimestamp (value : Z) (b : t) : t := AC.WithCreationTimestamp value b.
Definition WithDeletionTimestamp (value : Z) (b : t) : t := AC.WithDeletionTimestamp value b.
Definition WithDeletionGracePeriodSeconds (value : Z) (b : t) : t := AC.WithDeletionGracePeriodSeconds value b.
Definition WithLabels (entries : gmap string string) (b : t) : t := AC.WithLabels entries b.
Definition WithAnnotations (entries : gmap string string) (b : t) : t := AC.WithAnnotations entries b.
Definition WithOwnerReferences (values : list OwnerReference) (b : t) : t := AC.WithOwnerReferences values b.
Definition WithFinalizers (values : list string) (b : t) : t := AC.WithFinalizers values b.
Definition ensureObjectMetaApplyConfigurationExists (b : t) : t := AC.ensureObjectMetaApplyConfigurationExists b.
Definition WithSpec (value : ACGroupSpec.t) (b : t) : t := AC.WithSpec value b.
Definition WithStatus (value : ACGroupStatus.t) (b : t) : t := AC.WithStatus value b.
Definition GetKind (b : t) : option string := AC.GetKind b.
Definition GetAPIVersion (b : t) : option string := AC.GetAPIVersion b.
Definition GetName (b : t) : t * option string := AC.GetName b.
Definition GetNamespace (b : t) : t * option string := AC.GetNamespace b.

Definition new (name namespace : string) : t :=
  (AC.empty |> WithName name |> WithNamespace namespace
    |> WithKind "Group" |> WithAPIVersion "netbird.io/v1alpha1")%go.

Section extract.
Context `{FieldExtraction}.

Definition ExtractGroupFrom (group : ApiTypes.Group)
    (fieldManager subresource : string) : result string t :=
  match ExtractInto group (Parser_Type (api "Group"))
          fieldManager (AC.empty : t) subresource with
  | Err err => Err err
  | Ok b =>
      Ok (b |> WithName (meta_Name (Group_Meta group))
            |> WithNamespace (meta_Namespace (Group_Meta group))
            |> WithKind "Group" |> WithAPIVersion "netbird.io/v1alpha1")%go
  end.
Definition ExtractGroup (group : ApiTypes.Group)
    (fieldManager : string) : result string t :=
  ExtractGroupFrom group fieldManager "".
Definition ExtractGroupStatus (group : ApiTypes.Group)
    (fieldManager : string) : result string t :=
  ExtractGroupFrom group fieldManager "status".
End extract.

End ACGroup.

Module ACNetwork.

Definition t : Type := AC.object ACNetworkSpec.t ACNetworkStatus.t.

Definition WithKind (value : string) (b : t) : t := AC.WithKind value b.
Definition WithAPIVersion (value : string) (b : t) : t := AC.WithAPIVersion value b.
Definition WithName (value : string) (b : t) : t := AC.WithName value b.
Definition WithGenerateName (value : string) (b : t) : t := AC.WithGenerateName value b.
Definition WithNamespace (value : string) (b : t) : t := AC.WithNamespace value b.
Definition WithUID (value : string) (b : t) : t := AC.WithUID value b.
Definition WithResourceVersion (value : string) (b : t) : t := AC.WithResourceVersion value b.
Definition WithGeneration (value : Z) (b : t) : t := AC.WithGeneration value b.
Definition WithCreationTimestamp (value : Z) (b : t) : t := AC.WithCreationTimestamp value b.
Definition WithDeletionTimestamp (value : Z) (b : t) : t := AC.WithDeletionTimestamp value b.
Definition WithDeletionGracePeriodSeconds (value : Z) (b : t) : t := AC.WithDeletionGracePeriodSeconds value b.
Definition WithLabels (entries : gmap string string) (b : t) : t := AC.WithLabels entries b.
Definition WithAnnotations (entries : gmap string string) (b : t) : t := AC.WithAnnotations entries b.
Definition WithOwnerReferences (values : list OwnerReference) (b : t) : t := AC.WithOwnerReferences values b.
Definition WithFinalizers (values : list string) (b : t) : t := AC.WithFinalizers values b.
Definition ensureObjectMetaApplyConfigurationExists (b : t) : t := AC.ensureObjectMetaApplyConfigurationExists b.
Definition WithSpec (value : ACNetworkSpec.t) (b : t) : t := AC.WithSpec value b.
Definition WithStatus (value : ACNetworkStatus.t) (b : t) : t := AC.WithStatus value b.
Definition GetKind (b : t) : option string := AC.GetKind b.
Definition GetAPIVersion (b : t) : option string := AC.GetAPIVersion b.
Definition GetName (b : t) : t * option string := AC.GetName b.
Definition GetNamespace (b : t) : t * option string := AC.GetNamespace b.

Definition new (name namespace : string) : t :=
  (AC.empty |> WithName name |> WithNamespace namespace
    |> WithKind "Network" |> WithAPIVersion "netbird.io/v1alpha1")%go.

Section extract.
Context `{FieldExtraction}.

Definition ExtractNetworkFrom (network : ApiTypes.Network)
    (fieldManager subresource : string) : result string t :=
  match ExtractInto network (Parser_Type (api "Network"))
          fieldManager (AC.empty : t) subresource with
  | Err err => Err err
  | Ok b =>
      Ok (b |> WithName (meta_Name (Network_Meta network))
            |> WithNamespace (meta_Namespace (Network_Meta network))
            |> WithKind "Network" |> WithAPIVersion "netbird.io/v1alpha1")%go
  end.
Definition ExtractNetwork (network : ApiTypes.Network)
    (fieldManager : string) : result string t :=
  ExtractNetworkFrom network fieldManager "".
Definition ExtractNetworkStatus (network : ApiTypes.Network)
    (fieldManager : string) : result string t :=
  ExtractNetworkFrom network fieldManager "status".
End extract.

End ACNetwork.

Module ACNetworkResource.

Definition t : Type := AC.object ACNetworkResourceSpec.t ACNetworkResourceStatus.t.

Definition WithKind (value : string) (b : t) : t := AC.WithKind value b.
Definition WithAPIVersion (value : string) (b : t) : t := AC.WithAPIVersion value b.
Definition WithName (value : string) (b : t) : t := AC.WithName value b.
Definition WithGenerateName (value : string) (b : t) : t := AC.WithGenerateName value b.
Definition WithNamespace (value : string) (b : t) : t := AC.WithNamespace value b.
Definition WithUID (value : string) (b : t) : t := AC.WithUID value b.
Definition WithResourceVersion (value : string) (b : t) : t := AC.WithResourceVersion value b.
Definition WithGeneration (value : Z) (b : t) : t := AC.WithGeneration value b.
Definition WithCreationTimestamp (value : Z) (b : t) : t := AC.WithCreationTimestamp value b.
Definition WithDeletionTimestamp (value : Z) (b : t) : t := AC.WithDeletionTimestamp value b.
Definition WithDeletionGracePeriodSeconds (value : Z) (b : t) : t := AC.WithDeletionGracePeriodSeconds value b.
Definition WithLabels (entries : gmap string string) (b : t) : t := AC.WithLabels entries b.
Definition WithAnnotations (entries : gmap string string) (b : t) : t := AC.WithAnnotations entries b.
Definition WithOwnerReferences (values : list OwnerReference) (b : t) : t := AC.WithOwnerReferences values b.
Definition WithFinalizers (values : list string) (b : t) : t := AC.WithFinalizers values b.
Definition ensureObjectMetaApplyConfigurationExists (b : t) : t := AC.ensureObjectMetaApplyConfigurationExists b.
Definition WithSpec (value : ACNetworkResourceSpec.t) (b : t) : t := AC.WithSpec value b.
Definition WithStatus (value : ACNetworkResourceStatus.t) (b : t) : t := AC.WithStatus value b.
Definition GetKind (b : t) : option string := AC.GetKind b.
Definition GetAPIVersion (b : t) : option string := AC.GetAPIVersion b.
Definition GetName (b : t) : t * option string := AC.GetName b.
Definition GetNamespace (b : t) : t * option string := AC.GetNamespace b.

Definition new (name namespace : string) : t :=
  (AC.empty |> WithName name |> WithNamespace namespace
    |> WithKind "NetworkResource" |> WithAPIVersion "netbird.io/v1alpha1")%go.

Section extract.
Context `{FieldExtraction}.

Definition ExtractNetworkResourceFrom (networkResource : ApiTypes.NetworkResource)
    (fieldManager subresource : string) : result string t :=
  match ExtractInto networkResource (Parser_Type (api "NetworkResource"))
          fieldManager (AC.empty : t) subresource with
  | Err err => Err err
  | Ok b =>
      Ok (b |> WithName (meta_Name (NetworkResource_Meta networkResource))
            |> WithNamespace (meta_Namespace (NetworkResource_Meta networkResource))
            |> WithKind "NetworkResource" |> WithAPIVersion "netbird.io/v1alpha1")%go
  end.
Definition ExtractNetworkResource (networkResource : ApiTypes.NetworkResource)
    (fieldManager : string) : result string t :=
  ExtractNetworkResourceFrom networkResource fieldManager "".
Definition ExtractNetworkResourceStatus (networkResource : ApiTypes.NetworkResource)
    (fieldManager : string) : result string t :=
  ExtractNetworkResourceFrom networkResource fieldManager "status".
End extract.

End ACNetworkResource.

Module ACNetworkRouter.

Definition t : Type := AC.object ACNetworkRouterSpec.t ACNetworkRouterStatus.t.

Definition WithKind (value : string) (b : t) : t := AC.WithKind value b.
Definition WithAPIVersion (value : string) (b : t) : t := AC.WithAPIVersion value b.
Definition WithName (value : string) (b : t) : t := AC.WithName value b.
Definition WithGenerateName (value : string) (b : t) : t := AC.WithGenerateName value b.
Definition WithNamespace (value : string) (b : t) : t := AC.WithNamespace value b.
Definition WithUID (value : string) (b : t) : t := AC.WithUID value b.
Definition WithResourceVersion (value : string) (b : t) : t := AC.WithResourceVersion value b.
Definition WithGeneration (value : Z) (b : t) : t := AC.WithGeneration value b.
Definition WithCreationTimestamp (value : Z) (b : t) : t := AC.WithCreationTimestamp value b.
Definition WithDeletionTimestamp (value : Z) (b : t) : t := AC.WithDeletionTimestamp value b.
Definition WithDeletionGracePeriodSeconds (value : Z) (b : t) : t := AC.WithDeletionGracePeriodSeconds value b.
Definition WithLabels (entries : gmap string string) (b : t) : t := AC.WithLabels entries b.
Definition WithAnnotations (entries : gmap string string) (b : t) : t := AC.WithAnnotations entries b.
Definition WithOwnerReferences (values : list OwnerReference) (b : t) : t := AC.WithOwnerReferences values b.
Definition WithFinalizers (values : list string) (b : t) : t := AC.WithFinalizers values b.
Definition ensureObjectMetaApplyConfigurationExists (b : t) : t := AC.ensureObjectMetaApplyConfigurationExists b.
Definition WithSpec (value : ACNetworkRouterSpec.t) (b : t) : t := AC.WithSpec value b.
Definition WithStatus (value : ACNetworkRouterStatus.t) (b : t) : t := AC.WithStatus value b.
Definition GetKind (b : t) : option string := AC.GetKind b.
Definition GetAPIVersion (b : t) : option string := AC.GetAPIVersion b.
Definition GetName (b : t) : t * option string := AC.GetName b.
Definition GetNamespace (b : t) : t * option string := AC.GetNamespace b.

Definition new (name namespace : string) : t :=
  (AC.empty |> WithName name |> WithNamespace namespace
    |> WithKind "NetworkRouter" |> WithAPIVersion "netbird.io/v1alpha1")%go.

Section extract.
Context `{FieldExtraction}.

Definition ExtractNetworkRouterFrom (networkRouter : ApiTypes.NetworkRouter)
    (fieldManager subresource : string) : result string t :=
  match ExtractInto networkRouter (Parser_Type (api "NetworkRouter"))
          fieldManager (AC.empty : t) subresource with
  | Err err => Err err
  | Ok b =>
      Ok (b |> WithName (meta_Name (NetworkRouter_Meta networkRouter))
            |> WithNamespace (meta_Namespace (NetworkRouter_Meta networkRouter))
            |> WithKind "NetworkRouter" |> WithAPIVersion "netbird.io/v1alpha1")%go
  end.
Definition ExtractNetworkRouter (networkRouter : ApiTypes.NetworkRouter)
    (fieldManager : string) : result string t :=
  ExtractNetworkRouterFrom networkRouter fieldManager "".
Definition ExtractNetworkRouterStatus (networkRouter : ApiTypes.NetworkRouter)
    (fieldManager : string) : result string t :=
  ExtractNetworkRouterFrom networkRouter fieldManager "status".
End extract.

End ACNetworkRouter.

Module ACReverseProxyCluster.

Definition t : Type := AC.object ACReverseProxyClusterSpec.t ACReverseProxyClusterStatus.t.

Definition WithKind (value : string) (b : t) : t := AC.WithKind value b.
Definition WithAPIVersion (value : string) (b : t) : t := AC.WithAPIVersion value b.
Definition WithName (value : string) (b : t) : t := AC.WithName value b.
Definition WithGenerateName (value : string) (b : t) : t := AC.WithGenerateName value b.
Definition WithNamespace (value : string) (b : t) : t := AC.WithNamespace value b.
Definition WithUID (value : string) (b : t) : t := AC.WithUID value b.
Definition WithResourceVersion (value : string) (b : t) : t := AC.WithResourceVersion value b.
Definition WithGeneration (value : Z) (b : t) : t := AC.WithGeneration value b.
Definition WithCreationTimestamp (value : Z) (b : t) : t := AC.WithCreationTimestamp value b.
Definition WithDeletionTimestamp (value : Z) (b : t) : t := AC.WithDeletionTimestamp value b.
Definition WithDeletionGracePeriodSeconds (value : Z) (b : t) : t := AC.WithDeletionGracePeriodSeconds value b.
Definition WithLabels (entries : gmap string string) (b : t) : t := AC.WithLabels entries b.
Definition WithAnnotations (entries : gmap string string) (b : t) : t := AC.WithAnnotations entries b.
Definition WithOwnerReferences (values : list OwnerReference) (b : t) : t := AC.WithOwnerReferences values b.
Definition WithFinalizers (values : list string) (b : t) : t := AC.WithFinalizers values b.
Definition ensureObjectMetaApplyConfigurationExists (b : t) : t := AC.ensureObjectMetaApplyConfigurationExists b.
Definition WithSpec (value : ACReverseProxyClusterSpec.t) (b : t) : t := AC.WithSpec value b.
Definition WithStatus (value : ACReverseProxyClusterStatus.t) (b : t) : t := AC.WithStatus value b.
Definition GetKind (b : t) : option string := AC.GetKind b.
Definition GetAPIVersion (b : t) : option string := AC.GetAPIVersion b.
Definition GetName (b : t) : t * option string := AC.GetName b.
Definition GetNamespace (b : t) : t * option string := AC.GetNamespace b.

Definition new (name namespace : string) : t :=
  (AC.empty |> WithName name |> WithNamespace namespace
    |> WithKind "ReverseProxyCluster" |> WithAPIVersion "netbird.io/v1alpha1")%go.

Section extract.
Context `{FieldExtraction}.

Definition ExtractReverseProxyClusterFrom (reverseProxyCluster : ApiTypes.ReverseProxyCluster)
    (fieldManager subresource : string) : result string t :=
  match ExtractInto reverseProxyCluster (Parser_Type (api "ReverseProxyCluster"))
          fieldManager (AC.empty : t) subresource with
  | Err err => Err err
  | Ok b =>
      Ok (b |> WithName (meta_Name (ReverseProxyCluster_Meta reverseProxyCluster))
            |> WithNamespace (meta_Namespace (ReverseProxyCluster_Meta reverseProxyCluster))
            |> WithKind "ReverseProxyCluster" |> WithAPIVersion "netbird.io/v1alpha1")%go
  end.
Definition ExtractReverseProxyCluster (reverseProxyCluster : ApiTypes.ReverseProxyCluster)
    (fieldManager : string) : result string t :=
  ExtractReverseProxyClusterFrom reverseProxyCluster fieldManager "".
Definition ExtractReverseProxyClusterStatus (reverseProxyCluster : ApiTypes.ReverseProxyCluster)
    (fieldManager : string) : result string t :=
  ExtractReverseProxyClusterFrom reverseProxyCluster fieldManager "status".
End extract.

End ACReverseProxyCluster.

Module ACReverseProxyClusterParameters.

Definition t : Type := AC.object ACReverseProxyClusterParametersSpec.t Empty_set.

Definition WithKind (value : string) (b : t) : t := AC.WithKind value b.
Definition WithAPIVersion (value : string) (b : t) : t := AC.WithAPIVersion value b.
Definition WithName (value : string) (b : t) : t := AC.WithName value b.
Definition WithGenerateName (value : string) (b : t) : t := AC.WithGenerateName value b.
Definition WithNamespace (value : string) (b : t) : t := AC.WithNamespace value b.
Definition WithUID (value : string) (b : t) : t := AC.WithUID value b.
Definition WithResourceVersion (value : string) (b : t) : t := AC.WithResourceVersion value b.
Definition WithGeneration (value : Z) (b : t) : t := AC.WithGeneration value b.
Definition WithCreationTimestamp (value : Z) (b : t) : t := AC.WithCreationTimestamp value b.
Definition WithDeletionTimestamp (value : Z) (b : t) : t := AC.WithDeletionTimestamp value b.
Definition WithDeletionGracePeriodSeconds (value : Z) (b : t) : t := AC.WithDeletionGracePeriodSeconds value b.
Definition WithLabels (entries : gmap string string) (b : t) : t := AC.WithLabels entries b.
Definition WithAnnotations (entries : gmap string string) (b : t) : t := AC.WithAnnotations entries b.
Definition WithOwnerReferences (values : list OwnerReference) (b : t) : t := AC.WithOwnerReferences values b.
Definition WithFinalizers (values : list string) (b : t) : t := AC.WithFinalizers values b.
Definition ensureObjectMetaApplyConfigurationExists (b : t) : t := AC.ensureObjectMetaApplyConfigurationExists b.
Definition WithSpec (value : ACReverseProxyClusterParametersSpec.t) (b : t) : t := AC.WithSpec value b.
Definition GetKind (b : t) : option string := AC.GetKind b.
Definition GetAPIVersion (b : t) : option string := AC.GetAPIVersion b.
Definition GetName (b : t) : t * option string := AC.GetName b.
Definition GetNamespace (b : t) : t * option string := AC.GetNamespace b.

Definition new (name namespace : string) : t :=
  (AC.empty |> WithName name |> WithNamespace namespace
    |> WithKind "ReverseProxyClusterParameters" |> WithAPIVersion "netbird.io/v1alpha1")%go.

End ACReverseProxyClusterParameters.

Module ACReverseProxyService.

Definition t : Type := AC.object ACReverseProxyServiceSpec.t ACReverseProxyServiceStatus.t.

Definition WithKind (value : string) (b : t) : t := AC.WithKind value b.
Definition WithAPIVersion (value : string) (b : t) : t := AC.WithAPIVersion value b.
Definition WithName (value : string) (b : t) : t := AC.WithName value b.
Definition WithGenerateName (value : string) (b : t) : t := AC.WithGenerateName value b.
Definition WithNamespace (value : string) (b : t) : t := AC.WithNamespace value b.
Definition WithUID (value : string) (b : t) : t := AC.WithUID value b.
Definition WithResourceVersion (value : string) (b : t) : t := AC.WithResourceVersion value b.
Definition WithGeneration (value : Z) (b : t) : t := AC.WithGeneration value b.
Definition WithCreationTimestamp (value : Z) (b : t) : t := AC.WithCreationTimestamp value b.
Definition WithDeletionTimestamp (value : Z) (b : t) : t := AC.WithDeletionTimestamp value b.
Definition WithDeletionGracePeriodSeconds (value : Z) (b : t) : t := AC.WithDeletionGracePeriodSeconds value b.
Definition WithLabels (entries : gmap string string) (b : t) : t := AC.WithLabels entries b.
Definition WithAnnotations (entries : gmap string string) (b : t) : t := AC.WithAnnotations entries b.
Definition WithOwnerReferences (values : list OwnerReference) (b : t) : t := AC.WithOwnerReferences values b.
Definition WithFinalizers (values : list string) (b : t) : t := AC.WithFinalizers values b.
Definition ensureObjectMetaApplyConfigurationExists (b : t) : t := AC.ensureObjectMetaApplyConfigurationExists b.
Definition WithSpec (value : ACReverseProxyServiceSpec.t) (b : t) : t := AC.WithSpec value b.
Definition WithStatus (value : ACReverseProxyServiceStatus.t) (b : t) : t := AC.WithStatus value b.
Definition GetKind (b : t) : option string := AC.GetKind b.
Definition GetAPIVersion (b : t) : option string := AC.GetAPIVersion b.
Definition GetName (b : t) : t * option string := AC.GetName b.
Definition GetNamespace (b : t) : t * option string := AC.GetNamespace b.

Definition new (name namespace : string) : t :=
  (AC.empty |> WithName name |> WithNamespace namespace
    |> WithKind "ReverseProxyService" |> WithAPIVersion "netbird.io/v1alpha1")%go.

Section extract.
Context `{FieldExtraction}.

Definition ExtractReverseProxyServiceFrom (reverseProxyService : ApiTypes.ReverseProxyService)
    (fieldManager subresource : string) : result string t :=
  match ExtractInto reverseProxyService (Parser_Type (api "ReverseProxyService"))
          fieldManager (AC.empty : t) subresource with
  | Err err => Err err
  | Ok b =>
      Ok (b |> WithName (meta_Name (ReverseProxyService_Meta reverseProxyService))
            |> WithNamespace (meta_Namespace (ReverseProxyService_Meta reverseProxyService))
            |> WithKind "ReverseProxyService" |> WithAPIVersion "netbird.io/v1alpha1")%go
  end.
Definition ExtractReverseProxyService (reverseProxyService : ApiTypes.ReverseProxyService)
    (fieldManager : string) : result string t :=
  ExtractReverseProxyServiceFrom reverseProxyService fieldManager "".
Definition ExtractReverseProxyServiceStatus (reverseProxyService : ApiTypes.ReverseProxyService)
    (fieldManager : string) : result string t :=
  ExtractReverseProxyServiceFrom reverseProxyService fieldManager "status".
End extract.

End ACReverseProxyService.

Module ACSetupKey.

Definition t : Type := AC.object ACSetupKeySpec.t ACSetupKeyStatus.t.

Definition WithKind (value : string) (b : t) : t := AC.WithKind value b.
Definition WithAPIVersion (value : string) (b : t) : t := AC.WithAPIVersion value b.
Definition WithName (value : string) (b : t) : t := AC.WithName value b.
Definition WithGenerateName (value : string) (b : t) : t := AC.WithGenerateName value b.
Definition WithNamespace (value : string) (b : t) : t := AC.WithNamespace value b.
Definition WithUID (value : string) (b : t) : t := AC.WithUID value b.
Definition WithResourceVersion (value : string) (b : t) : t := AC.WithResourceVersion value b.
Definition WithGeneration (value : Z) (b : t) : t := AC.WithGeneration value b.
Definition WithCreationTimestamp (value : Z) (b : t) : t := AC.WithCreationTimestamp value b.
Definition WithDeletionTimestamp (value : Z) (b : t) : t := AC.WithDeletionTimestamp value b.
Definition WithDeletionGracePeriodSeconds (value : Z) (b : t) : t := AC.WithDeletionGracePeriodSeconds value b.
Definition WithLabels (entries : gmap string string) (b : t) : t := AC.WithLabels entries b.
Definition WithAnnotations (entries : gmap string string) (b : t) : t := AC.WithAnnotations entries b.
Definition WithOwnerReferences (values : list OwnerReference) (b : t) : t := AC.WithOwnerReferences values b.
Definition WithFinalizers (values : list string) (b : t) : t := AC.WithFinalizers values b.
Definition ensureObjectMetaApplyConfigurationExists (b : t) : t := AC.ensureObjectMetaApplyConfigurationExists b.
Definition WithSpec (value : ACSetupKeySpec.t) (b : t) : t := AC.WithSpec value b.
Definition WithStatus (value : ACSetupKeyStatus.t) (b : t) : t := AC.WithStatus value b.
Definition GetKind (b : t) : option string := AC.GetKind b.
Definition GetAPIVersion (b : t) : option string := AC.GetAPIVersion b.
Definition GetName (b : t) : t * option string := AC.GetName b.
Definition GetNamespace (b : t) : t * option string := AC.GetNamespace b.

Definition new (name namespace : string) : t :=
  (AC.empty |> WithName name |> WithNamespace namespace
    |> WithKind "SetupKey" |> WithAPIVersion "netbird.io/v1alpha1")%go.

Section extract.
Context `{FieldExtraction}.

Definition ExtractSetupKeyFrom (setupKey : ApiTypes.SetupKey)
    (fieldManager subresource : string) : result string t :=
  match ExtractInto setupKey (Parser_Type (api "SetupKey"))
          fieldManager (AC.empty : t) subresource with
  | Err err => Err err
  | Ok b =>
      Ok (b |> WithName (meta_Name (SetupKey_Meta setupKey))
            |> WithNamespace (meta_Namespace (SetupKey_Meta setupKey))
            |> WithKind "SetupKey" |> WithAPIVersion "netbird.io/v1alpha1")%go
  end.
Definition ExtractSetupKey (setupKey : ApiTypes.SetupKey)
    (fieldManager : string) : result string t :=
  ExtractSetupKeyFrom setupKey fieldManager "".
Definition ExtractSetupKeyStatus (setupKey : ApiTypes.SetupKey)
    (fieldManager : string) : result string t :=
  ExtractSetupKeyFrom setupKey fieldManager "status".
End extract.

End ACSetupKey.

Module ACSidecarProfile.

Definition t : Type := AC.object ACSidecarProfileSpec.t ACSidecarProfileStatus.t.

Definition WithKind (value : string) (b : t) : t := AC.WithKind value b.
Definition WithAPIVersion (value : string) (b : t) : t := AC.WithAPIVersion value b.
Definition WithName (value : string) (b : t) : t := AC.WithName value b.
Definition WithGenerateName (value : string) (b : t) : t := AC.WithGenerateName value b.
Definition WithNamespace (value : string) (b : t) : t := AC.WithNamespace value b.
Definition WithUID (value : string) (b : t) : t := AC.WithUID value b.
Definition WithResourceVersion (value : string) (b : t) : t := AC.WithResourceVersion value b.
Definition WithGeneration (value : Z) (b : t) : t := AC.WithGeneration value b.
Definition WithCreationTimestamp (value : Z) (b : t) : t := AC.WithCreationTimestamp value b.
Definition WithDeletionTimestamp (value : Z) (b : t) : t := AC.WithDeletionTimestamp value b.
Definition WithDeletionGracePeriodSeconds (value : Z) (b : t) : t := AC.WithDeletionGracePeriodSeconds value b.
Definition WithLabels (entries : gmap string string) (b : t) : t := AC.WithLabels entries b.
Definition WithAnnotations (entries : gmap string string) (b : t) : t := AC.WithAnnotations entries b.
Definition WithOwnerReferences (values : list OwnerReference) (b : t) : t := AC.WithOwnerReferences values b.
Definition WithFinalizers (values : list string) (b : t) : t := AC.WithFinalizers values b.
Definition ensureObjectMetaApplyConfigurationExists (b : t) : t := AC.ensureObjectMetaApplyConfigurationExists b.
Definition WithSpec (value : ACSidecarProfileSpec.t) (b : t) : t := AC.WithSpec value b.
Definition WithStatus (value : ACSidecarProfileStatus.t) (b : t) : t := AC.WithStatus value b.
Definition GetKind (b : t) : option string := AC.GetKind b.
Definition GetAPIVersion (b : t) : option string := AC.GetAPIVersion b.
Definition GetName (b : t) : t * option string := AC.GetName b.
Definition GetNamespace (b : t) : t * option string := AC.GetNamespace b.

Definition new (name namespace : string) : t :=
  (AC.empty |> WithName name |> WithNamespace namespace
    |> WithKind "SidecarProfile" |> WithAPIVersion "netbird.io/v1alpha1")%go.

Section extract.
Context `{FieldExtraction}.

Definition ExtractSidecarProfileFrom (sidecarProfile : K8sTypes.SidecarProfile)
    (fieldManager subresource : string) : result string t :=
  match ExtractInto sidecarProfile (Parser_Type (api "SidecarProfile"))
          fieldManager (AC.empty : t) subresource with
  | Err err => Err err
  | Ok b =>
      Ok (b |> WithName (meta_Name (SidecarProfile_Meta sidecarProfile))
            |> WithNamespace (meta_Namespace (SidecarProfile_Meta sidecarProfile))
            |> WithKind "SidecarProfile" |> WithAPIVersion "netbird.io/v1alpha1")%go
  end.
Definition ExtractSidecarProfile (sidecarProfile : K8sTypes.SidecarProfile)
    (fieldManager : string) : result string t :=
  ExtractSidecarProfileFrom sidecarProfile fieldManager "".
Definition ExtractSidecarProfileStatus (sidecarProfile : K8sTypes.SidecarProfile)
    (fieldManager : string) : result string t :=
  ExtractSidecarProfileFrom sidecarProfile fieldManager "status".
End extract.

End ACSidecarProfile.

(** ** Every type of the package *)

Inductive any_ac :=
| AnyAccessRestrictions (b : ACAccessRestrictions.t)
| AnyClusterProxy (b : ACClusterProxy.t)
| AnyClusterProxySpec (b : ACClusterProxySpec.t)
| AnyClusterProxyStatus (b : ACClusterProxyStatus.t)
| AnyContainerOverride (b : ACContainerOverride.t)
| AnyCrossNamespaceReference (b : ACCrossNamespaceReference.t)
| AnyDNSRecord (b : ACDNSRecord.t)
| AnyDNSRecordSpec (b : ACDNSRecordSpec.t)
| AnyDNSRecordStatus (b : ACDNSRecordStatus.t)
| AnyDNSZone (b : ACDNSZone.t)
| AnyDNSZoneSpec (b : ACDNSZoneSpec.t)
| AnyDNSZoneStatus (b : ACDNSZoneStatus.t)
| AnyGroup (b : ACGroup.t)
| AnyGroupReference (b : ACGroupReference.t)
| AnyGroupSpec (b : ACGroupSpec.t)
| AnyGroupStatus (b : ACGroupStatus.t)
| AnyNetwork (b : ACNetwork.t)
| AnyNetworkResource (b : ACNetworkResource.t)
| AnyNetworkResourceSpec (b : ACNetworkResourceSpec.t)
| AnyNetworkResourceStatus (b : ACNetworkResourceStatus.t)
| AnyNetworkRouter (b : ACNetworkRouter.t)
| AnyNetworkRouterPeers (b : ACNetworkRouterPeers.t)
| AnyNetworkRouterSpec (b : ACNetworkRouterSpec.t)
| AnyNetworkRouterStatus (b : ACNetworkRouterStatus.t)
| AnyNetworkSpec (b : ACNetworkSpec.t)
| AnyNetworkStatus (b : ACNetworkStatus.t)
| AnyReverseProxyBackend (b : ACReverseProxyBackend.t)
| AnyReverseProxyCluster (b : ACReverseProxyCluster.t)
| AnyReverseProxyClusterParameters (b : ACReverseProxyClusterParameters.t)
| AnyReverseProxyClusterParametersSpec (b : ACReverseProxyClusterParametersSpec.t)
| AnyReverseProxyClusterSpec (b : ACReverseProxyClusterSpec.t)
| AnyReverseProxyClusterStatus (b : ACReverseProxyClusterStatus.t)
| AnyReverseProxyService (b : ACReverseProxyService.t)
| AnyReverseProxyServiceSpec (b : ACReverseProxyServiceSpec.t)
| AnyReverseProxyServiceStatus (b : ACReverseProxyServiceStatus.t)
| AnyRouterDeploy (b : ACRouterDeploy.t)
| AnySetupKey (b : ACSetupKey.t)
| AnySetupKeySpec (b : ACSetupKeySpec.t)
| AnySetupKeyStatus (b : ACSetupKeyStatus.t)
| AnySidecarProfile (b : ACSidecarProfile.t)
| AnySidecarProfileSpec (b : ACSidecarProfileSpec.t)
| AnySidecarProfileStatus (b : ACSidecarProfileStatus.t).

Record GroupVersionKind := mkGVK { Group : string; Version : string; Kind : string }.

#[export] Instance GroupVersionKind_eq_dec : EqDecision GroupVersionKind.
Proof. solve_decision. Defined.

(** [v1alpha1.SchemeGroupVersion.WithKind]. *)
Definition v1alpha1 (kind : string) : GroupVersionKind := mkGVK "netbird.io" "v1alpha1" kind.

(** Go's [switch] over values: the first equal case. *)
Fixpoint switch {A} (kind : GroupVersionKind) (cases : list (GroupVersionKind * A)) : option A :=
  match cases with
  | [] => None
  | (k, a) :: cases => if decide (kind = k) then Some a else switch kind cases
  end.

Definition ForKind (kind : GroupVersionKind) : option any_ac :=
  switch kind [
    (v1alpha1 "AccessRestrictions", AnyAccessRestrictions ACAccessRestrictions.new);
    (v1alpha1 "ClusterProxy", AnyClusterProxy AC.empty);
    (v1alpha1 "ClusterProxySpec", AnyClusterProxySpec ACClusterProxySpec.new);
    (v1alpha1 "ClusterProxyStatus", AnyClusterProxyStatus ACClusterProxyStatus.new);
    (v1alpha1 "ContainerOverride", AnyContainerOverride ACContainerOverride.new);
    (v1alpha1 "CrossNamespaceReference", AnyCrossNamespaceReference ACCrossNamespaceReference.new);
    (v1alpha1 "DNSRecord", AnyDNSRecord AC.empty);
    (v1alpha1 "DNSRecordSpec", AnyDNSRecordSpec ACDNSRecordSpec.new);
    (v1alpha1 "DNSRecordStatus", AnyDNSRecordStatus ACDNSRecordStatus.new);
    (v1alpha1 "DNSZone", AnyDNSZone AC.empty);
    (v1alpha1 "DNSZoneSpec", AnyDNSZoneSpec ACDNSZoneSpec.new);
    (v1alpha1 "DNSZoneStatus", AnyDNSZoneStatus ACDNSZoneStatus.new);
    (v1alpha1 "Group", AnyGroup AC.empty);
    (v1alpha1 "GroupReference", AnyGroupReference ACGroupReference.new);
    (v1alpha1 "GroupSpec", AnyGroupSpec ACGroupSpec.new);
    (v1alpha1 "GroupStatus", AnyGroupStatus ACGroupStatus.new);
    (v1alpha1 "Network", AnyNetwork AC.empty);
    (v1alpha1 "NetworkResource", AnyNetworkResource AC.empty);
    (v1alpha1 "NetworkResourceSpec", AnyNetworkResourceSpec ACNetworkResourceSpec.new);
    (v1alpha1 "NetworkResourceStatus", AnyNetworkResourceStatus ACNetworkResourceStatus.new);
    (v1alpha1 "NetworkRouter", AnyNetworkRouter AC.empty);
    (v1alpha1 "NetworkRouterPeers", AnyNetworkRouterPeers ACNetworkRouterPeers.new);
    (v1alpha1 "NetworkRouterSpec", AnyNetworkRouterSpec ACNetworkRouterSpec.new);
    (v1alpha1 "NetworkRouterStatus", AnyNetworkRouterStatus ACNetworkRouterStatus.new);
    (v1alpha1 "NetworkSpec", AnyNetworkSpec ACNetworkSpec.new);
    (v1alpha1 "NetworkStatus", AnyNetworkStatus ACNetworkStatus.new);
    (v1alpha1 "ReverseProxyBackend", AnyReverseProxyBackend ACReverseProxyBackend.new);
    (v1alpha1 "ReverseProxyCluster", AnyReverseProxyCluster AC.empty);
    (v1alpha1 "ReverseProxyClusterSpec", AnyReverseProxyClusterSpec ACReverseProxyClusterSpec.new);
    (v1alpha1 "ReverseProxyClusterStatus", AnyReverseProxyClusterStatus ACReverseProxyClusterStatus.new);
    (v1alpha1 "ReverseProxyService", AnyReverseProxyService AC.empty);
    (v1alpha1 "ReverseProxyServiceSpec", AnyReverseProxyServiceSpec ACReverseProxyServiceSpec.new);
    (v1alpha1 "ReverseProxyServiceStatus", AnyReverseProxyServiceStatus ACReverseProxyServiceStatus.new);
    (v1alpha1 "RouterDeploy", AnyRouterDeploy ACRouterDeploy.new);
    (v1alpha1 "SetupKey", AnySetupKey AC.empty);
    (v1alpha1 "SetupKeySpec", AnySetupKeySpec ACSetupKeySpec.new);
    (v1alpha1 "SetupKeyStatus", AnySetupKeyStatus ACSetupKeyStatus.new);
    (v1alpha1 "SidecarProfile", AnySidecarProfile AC.empty);
    (v1alpha1 "SidecarProfileSpec", AnySidecarProfileSpec ACSidecarProfileSpec.new);
    (v1alpha1 "SidecarProfileStatus", AnySidecarProfileStatus ACSidecarProfileStatus.new)].
