(* ===== verification/ApplyJson.v ===== *)
(** * The JSON of an apply configuration, and its schema

    What [encoding/json] makes of the builders by their tags ([members], one
    instance per struct): a pointer, slice or map that is empty is left out, an
    embedded struct without a name is inlined.  The text of durations and the
    JSON of the Kubernetes library's metadata are parameters.

    Three tables of the generated package have to fit together: the structs,
    the schema of [Schema.v] and [ForKind].  [ForKind_agrees] says they do, for
    every value, and which two structs the other tables do not know. *)

From stdpp Require Import base gmap list strings.
From Stdlib Require Import ZArith.
From S2P Require Import Prelude ApiTypes K8sTypes Schema ApplyConf ApplyParts ApplyObjects.

Open Scope Z_scope.

(** ** Encoding *)

Class Encodes (A : Type) := {
  type_name : string;
  members : A -> list (string * option value)
}.

(** [omitempty]. *)
Definition omit_empty (ms : list (string * option value)) : list (string * value) :=
  omap (fun '(k, ov) => v ← ov; Some (k, v)) ms.
Definition json {A} `{Encodes A} (b : A) : value := VMap (omit_empty (members b)).

Definition jstring (o : option string) : option value := VString <$> o.
Definition jbool (o : option bool) : option value := VBool <$> o.
Definition jint (o : option Z) : option value := VInt <$> o.
Definition non_empty (vs : list value) : option value := match vs with [] => None | _ => Some (VList vs) end.
Definition jstrings (l : list string) : option value := non_empty (map VString l).
Definition jmap (m : gmap string string) : option value :=
  match map_to_list m with [] => None | kvs => Some (VMap (map (fun '(k, v) => (k, VString v)) kvs)) end.
Definition jptr {A} `{Encodes A} (o : option A) : option value := json <$> o.
Definition jlist {A} `{Encodes A} (l : list A) : option value := non_empty (map json l).
Definition jext {n} (o : option (external n)) : option value := ext_json <$> o.
Definition jexts {n} (l : list (external n)) : option value := non_empty (map ext_json l).
(** A [LocalObjectReference], whose name is left out when it is empty. *)
Definition jref (o : option string) : option value :=
  (fun n => VMap (omit_empty [("name", if String.eqb n "" then None else Some (VString n))])) <$> o.

Class JSONTexts := {
  Duration_text : Z -> string;
  ObjectMeta_json : AC.ObjectMeta -> external (meta "ObjectMeta")
}.

Section instances.
Context `{JSONTexts}.

Definition jduration (o : option Z) : option value := (fun d => VString (Duration_text d)) <$> o.

(** The embedded type and object metadata. *)
Definition object_members {Sp St} (b : AC.object Sp St) : list (string * option value) :=
  [("kind", jstring (AC.GetKind b)); ("apiVersion", jstring (AC.GetAPIVersion b));
   ("metadata", jext (ObjectMeta_json <$> AC.object_meta b))].

#[export] Instance AccessRestrictions_json : Encodes ACAccessRestrictions.t := {
  type_name := "AccessRestrictions";
  members b := [
    ("allowedCidrs", jstrings (ACAccessRestrictions.AllowedCidrs b));
    ("blockedCidrs", jstrings (ACAccessRestrictions.BlockedCidrs b));
    ("allowedCountries", jstrings (ACAccessRestrictions.AllowedCountries b));
    ("blockedCountries", jstrings (ACAccessRestrictions.BlockedCountries b))]
}.
#[export] Instance GroupReference_json : Encodes ACGroupReference.t := {
  type_name := "GroupReference";
  members b := [
    ("name", jstring (ACGroupReference.Name b));
    ("id", jstring (ACGroupReference.ID b));
    ("localRef", jref (ACGroupReference.LocalRef b))]
}.
#[export] Instance ClusterProxySpec_json : Encodes ACClusterProxySpec.t := {
  type_name := "ClusterProxySpec";
  members b := [
    ("clusterName", jstring (ACClusterProxySpec.ClusterName b));
    ("apiServer", jstring (ACClusterProxySpec.APIServer b));
    ("serviceAccountName", jstring (ACClusterProxySpec.ServiceAccountName b));
    ("groups", jlist (ACClusterProxySpec.Groups b));
    ("replicas", jint (ACClusterProxySpec.Replicas b))]
}.
#[export] Instance ClusterProxyStatus_json : Encodes ACClusterProxyStatus.t := {
  type_name := "ClusterProxyStatus";
  members b := [
    ("observedGeneration", jint (ACClusterProxyStatus.ObservedGeneration b));
    ("conditions", jexts (ACClusterProxyStatus.Conditions b))]
}.
#[export] Instance ContainerOverride_json : Encodes ACContainerOverride.t := {
  type_name := "ContainerOverride";
  members b := [
    ("image", jstring (ACContainerOverride.Image b));
    ("env", jexts (ACContainerOverride.Env b));
    ("securityContext", jext (ACContainerOverride.SecurityContext b));
    ("startupProbe", jext (ACContainerOverride.StartupProbe b));
    ("livenessProbe", jext (ACContainerOverride.LivenessProbe b));
    ("readinessProbe", jext (ACContainerOverride.ReadinessProbe b))]
}.
#[export] Instance CrossNamespaceReference_json : Encodes ACCrossNamespaceReference.t := {
  type_name := "CrossNamespaceReference";
  members b := [
    ("name", jstring (ACCrossNamespaceReference.Name b));
    ("namespace", jstring (ACCrossNamespaceReference.Namespace b))]
}.
#[export] Instance DNSRecordSpec_json : Encodes ACDNSRecordSpec.t := {
  type_name := "DNSRecordSpec";
  members b := [
    ("zoneRef", jptr (ACDNSRecordSpec.ZoneRef b));
    ("name", jstring (ACDNSRecordSpec.Name b));
    ("type", jstring (ACDNSRecordSpec.Type_ b));
    ("content", jstring (ACDNSRecordSpec.Content b));
    ("ttl", jint (ACDNSRecordSpec.TTL b))]
}.
#[export] Instance DNSRecordStatus_json : Encodes ACDNSRecordStatus.t := {
  type_name := "DNSRecordStatus";
  members b := [
    ("observedGeneration", jint (ACDNSRecordStatus.ObservedGeneration b));
    ("conditions", jexts (ACDNSRecordStatus.Conditions b));
    ("zoneID", jstring (ACDNSRecordStatus.ZoneID b));
    ("recordID", jstring (ACDNSRecordStatus.RecordID b))]
}.
#[export] Instance DNSZoneSpec_json : Encodes ACDNSZoneSpec.t := {
  type_name := "DNSZoneSpec";
  members b := [
    ("name", jstring (ACDNSZoneSpec.Name b));
    ("domain", jstring (ACDNSZoneSpec.Domain b));
    ("distributionGroups", jlist (ACDNSZoneSpec.DistributionGroups b));
    ("enableSearchDomain", jbool (ACDNSZoneSpec.EnableSearchDomain b));
    ("enabled", jbool (ACDNSZoneSpec.Enabled b))]
}.
#[export] Instance DNSZoneStatus_json : Encodes ACDNSZoneStatus.t := {
  type_name := "DNSZoneStatus";
  members b := [
    ("observedGeneration", jint (ACDNSZoneStatus.ObservedGeneration b));
    ("conditions", jexts (ACDNSZoneStatus.Conditions b));
    ("zoneID", jstring (ACDNSZoneStatus.ZoneID b))]
}.
#[export] Instance GroupSpec_json : Encodes ACGroupSpec.t := {
  type_name := "GroupSpec";
  members b := [
    ("name", jstring (ACGroupSpec.Name b))]
}.
#[export] Instance GroupStatus_json : Encodes ACGroupStatus.t := {
  type_name := "GroupStatus";
  members b := [
    ("observedGeneration", jint (ACGroupStatus.ObservedGeneration b));
    ("conditions", jexts (ACGroupStatus.Conditions b));
    ("groupID", jstring (ACGroupStatus.GroupID b))]
}.
#[export] Instance NetworkResourceSpec_json : Encodes ACNetworkResourceSpec.t := {
  type_name := "NetworkResourceSpec";
  members b := [
    ("networkRef", jptr (ACNetworkResourceSpec.NetworkRef b));
    ("name", jstring (ACNetworkResourceSpec.Name b));
    ("address", jstring (ACNetworkResourceSpec.Address b));
    ("description", jstring (ACNetworkResourceSpec.Description b));
    ("groups", jlist (ACNetworkResourceSpec.Groups b));
    ("enabled", jbool (ACNetworkResourceSpec.Enabled b))]
}.
#[export] Instance NetworkResourceStatus_json : Encodes ACNetworkResourceStatus.t := {
  type_name := "NetworkResourceStatus";
  members b := [
    ("observedGeneration", jint (ACNetworkResourceStatus.ObservedGeneration b));
    ("conditions", jexts (ACNetworkResourceStatus.Conditions b));
    ("networkID", jstring (ACNetworkResourceStatus.NetworkID b));
    ("resourceID", jstring (ACNetworkResourceStatus.ResourceID b))]
}.
#[export] Instance RouterDeploy_json : Encodes ACRouterDeploy.t := {
  type_name := "RouterDeploy";
  members b := [
    ("nodeSelector", jmap (ACRouterDeploy.NodeSelector b));
    ("image", jstring (ACRouterDeploy.Image b));
    ("logLevel", jstring (ACRouterDeploy.LogLevel b))]
}.
#[export] Instance NetworkRouterPeers_json : Encodes ACNetworkRouterPeers.t := {
  type_name := "NetworkRouterPeers";
  members b := [
    ("group", jptr (ACNetworkRouterPeers.Group b));
    ("deploy", jptr (ACNetworkRouterPeers.Deploy b))]
}.
#[export] Instance NetworkRouterSpec_json : Encodes ACNetworkRouterSpec.t := {
  type_name := "NetworkRouterSpec";
  members b := [
    ("networkRef", jptr (ACNetworkRouterSpec.NetworkRef b));
    ("peers", jptr (ACNetworkRouterSpec.Peers b));
    ("masquerade", jbool (ACNetworkRouterSpec.Masquerade b));
    ("metric", jint (ACNetworkRouterSpec.Metric b));
    ("enabled", jbool (ACNetworkRouterSpec.Enabled b))]
}.
#[export] Instance NetworkRouterStatus_json : Encodes ACNetworkRouterStatus.t := {
  type_name := "NetworkRouterStatus";
  members b := [
    ("observedGeneration", jint (ACNetworkRouterStatus.ObservedGeneration b));
    ("conditions", jexts (ACNetworkRouterStatus.Conditions b));
    ("networkID", jstring (ACNetworkRouterStatus.NetworkID b));
    ("routerID", jstring (ACNetworkRouterStatus.RouterID b));
    ("groupID", jstring (ACNetworkRouterStatus.GroupID b))]
}.
#[export] Instance NetworkSpec_json : Encodes ACNetworkSpec.t := {
  type_name := "NetworkSpec";
  members b := [
    ("name", jstring (ACNetworkSpec.Name b));
    ("description", jstring (ACNetworkSpec.Description b))]
}.
#[export] Instance NetworkStatus_json : Encodes ACNetworkStatus.t := {
  type_name := "NetworkStatus";
  members b := [
    ("observedGeneration", jint (ACNetworkStatus.ObservedGeneration b));
    ("conditions", jexts (ACNetworkStatus.Conditions b));
    ("networkID", jstring (ACNetworkStatus.NetworkID b))]
}.
#[export] Instance ReverseProxyBackend_json : Encodes ACReverseProxyBackend.t := {
  type_name := "ReverseProxyBackend";
  members b := [
    ("serviceRef", jref (ACReverseProxyBackend.ServiceRef b));
    ("port", jint (ACReverseProxyBackend.Port b));
    ("path", jstring (ACReverseProxyBackend.Path b))]
}.
#[export] Instance ReverseProxyClusterParametersSpec_json : Encodes ACReverseProxyClusterParametersSpec.t := {
  type_name := "ReverseProxyClusterParametersSpec";
  members b := [
    ("image", jstring (ACReverseProxyClusterParametersSpec.Image b));
    ("replicas", jint (ACReverseProxyClusterParametersSpec.Replicas b));
    ("groups", jlist (ACReverseProxyClusterParametersSpec.Groups b));
    ("private", jbool (ACReverseProxyClusterParametersSpec.Private b));
    ("serviceAnnotations", jmap (ACReverseProxyClusterParametersSpec.ServiceAnnotations b))]
}.
#[export] Instance ReverseProxyClusterSpec_json : Encodes ACReverseProxyClusterSpec.t := {
  type_name := "ReverseProxyClusterSpec";
  members b := [
    ("clusterAddress", jstring (ACReverseProxyClusterSpec.ClusterAddress b));
    ("domain", jstring (ACReverseProxyClusterSpec.Domain b));
    ("zoneRef", jptr (ACReverseProxyClusterSpec.ZoneRef b));
    ("certSecretName", jstring (ACReverseProxyClusterSpec.CertSecretName b));
    ("groups", jlist (ACReverseProxyClusterSpec.Groups b));
    ("private", jbool (ACReverseProxyClusterSpec.Private b));
    ("replicas", jint (ACReverseProxyClusterSpec.Replicas b));
    ("image", jstring (ACReverseProxyClusterSpec.Image b));
    ("logLevel", jstring (ACReverseProxyClusterSpec.LogLevel b));
    ("serviceAnnotations", jmap (ACReverseProxyClusterSpec.ServiceAnnotations b))]
}.
#[export] Instance ReverseProxyClusterStatus_json : Encodes ACReverseProxyClusterStatus.t := {
  type_name := "ReverseProxyClusterStatus";
  members b := [
    ("observedGeneration", jint (ACReverseProxyClusterStatus.ObservedGeneration b));
    ("conditions", jexts (ACReverseProxyClusterStatus.Conditions b));
    ("clusterAddress", jstring (ACReverseProxyClusterStatus.ClusterAddress b));
    ("tokenID", jstring (ACReverseProxyClusterStatus.TokenID b));
    ("domainID", jstring (ACReverseProxyClusterStatus.DomainID b));
    ("loadBalancerIP", jstring (ACReverseProxyClusterStatus.LoadBalancerIP b));
    ("online", jbool (ACReverseProxyClusterStatus.Online b));
    ("connectedProxies", jint (ACReverseProxyClusterStatus.ConnectedProxies b))]
}.
#[export] Instance ReverseProxyServiceSpec_json : Encodes ACReverseProxyServiceSpec.t := {
  type_name := "ReverseProxyServiceSpec";
  members b := [
    ("backends", jlist (ACReverseProxyServiceSpec.Backends b));
    ("mode", jstring (ACReverseProxyServiceSpec.Mode b));
    ("listenPort", jint (ACReverseProxyServiceSpec.ListenPort b));
    ("proxyProtocol", jbool (ACReverseProxyServiceSpec.ProxyProtocol b));
    ("proxyCluster", jstring (ACReverseProxyServiceSpec.ProxyCluster b));
    ("domain", jstring (ACReverseProxyServiceSpec.Domain b));
    ("private", jbool (ACReverseProxyServiceSpec.Private b));
    ("accessGroups", jlist (ACReverseProxyServiceSpec.AccessGroups b));
    ("crowdsecMode", jstring (ACReverseProxyServiceSpec.CrowdsecMode b));
    ("accessRestrictions", jptr (ACReverseProxyServiceSpec.AccessRestrictions b));
    ("passHostHeader", jbool (ACReverseProxyServiceSpec.PassHostHeader b));
    ("rewriteRedirects", jbool (ACReverseProxyServiceSpec.RewriteRedirects b))]
}.
#[export] Instance ReverseProxyServiceStatus_json : Encodes ACReverseProxyServiceStatus.t := {
  type_name := "ReverseProxyServiceStatus";
  members b := [
    ("observedGeneration", jint (ACReverseProxyServiceStatus.ObservedGeneration b));
    ("conditions", jexts (ACReverseProxyServiceStatus.Conditions b));
    ("serviceID", jstring (ACReverseProxyServiceStatus.ServiceID b));
    ("serviceDomain", jstring (ACReverseProxyServiceStatus.ServiceDomain b))]
}.
#[export] Instance SetupKeySpec_json : Encodes ACSetupKeySpec.t := {
  type_name := "SetupKeySpec";
  members b := [
    ("name", jstring (ACSetupKeySpec.Name b));
    ("ephemeral", jbool (ACSetupKeySpec.Ephemeral b));
    ("allowExtraDnsLabels", jbool (ACSetupKeySpec.AllowExtraDnsLabels b));
    ("duration", jduration (ACSetupKeySpec.Duration b));
    ("autoGroups", jlist (ACSetupKeySpec.AutoGroups b))]
}.
#[export] Instance SetupKeyStatus_json : Encodes ACSetupKeyStatus.t := {
  type_name := "SetupKeyStatus";
  members b := [
    ("observedGeneration", jint (ACSetupKeyStatus.ObservedGeneration b));
    ("conditions", jexts (ACSetupKeyStatus.Conditions b));
    ("setupKeyID", jstring (ACSetupKeyStatus.SetupKeyID b))]
}.
#[export] Instance SidecarProfileSpec_json : Encodes ACSidecarProfileSpec.t := {
  type_name := "SidecarProfileSpec";
  members b := [
    ("setupKeyRef", jref (ACSidecarProfileSpec.SetupKeyRef b));
    ("podSelector", jext (ACSidecarProfileSpec.PodSelector b));
    ("injectionMode", jstring (ACSidecarProfileSpec.InjectionMode b));
    ("extraDNSLabels", jstrings (ACSidecarProfileSpec.ExtraDNSLabels b));
    ("containerOverride", jptr (ACSidecarProfileSpec.ContainerOverride b))]
}.
#[export] Instance SidecarProfileStatus_json : Encodes ACSidecarProfileStatus.t := {
  type_name := "SidecarProfileStatus";
  members b := [
    ("observedGeneration", jint (ACSidecarProfileStatus.ObservedGeneration b));
    ("conditions", jexts (ACSidecarProfileStatus.Conditions b))]
}.

#[export] Instance ClusterProxy_json : Encodes ACClusterProxy.t := {
  type_name := "ClusterProxy";
  members b := object_members b ++ [("spec", jptr (AC.Spec b)); ("status", jptr (AC.Status b))]
}.
#[export] Instance DNSRecord_json : Encodes ACDNSRecord.t := {
  type_name := "DNSRecord";
  members b := object_members b ++ [("spec", jptr (AC.Spec b)); ("status", jptr (AC.Status b))]
}.
#[export] Instance DNSZone_json : Encodes ACDNSZone.t := {
  type_name := "DNSZone";
  members b := object_members b ++ [("spec", jptr (AC.Spec b)); ("status", jptr (AC.Status b))]
}.
#[export] Instance Group_json : Encodes ACGroup.t := {
  type_name := "Group";
  members b := object_members b ++ [("spec", jptr (AC.Spec b)); ("status", jptr (AC.Status b))]
}.
#[export] Instance Network_json : Encodes ACNetwork.t := {
  type_name := "Network";
  members b := object_members b ++ [("spec", jptr (AC.Spec b)); ("status", jptr (AC.Status b))]
}.
#[export] Instance NetworkResource_json : Encodes ACNetworkResource.t := {
  type_name := "NetworkResource";
  members b := object_members b ++ [("spec", jptr (AC.Spec b)); ("status", jptr (AC.Status b))]
}.
#[export] Instance NetworkRouter_json : Encodes ACNetworkRouter.t := {
  type_name := "NetworkRouter";
  members b := object_members b ++ [("spec", jptr (AC.Spec b)); ("status", jptr (AC.Status b))]
}.
#[export] Instance ReverseProxyCluster_json : Encodes ACReverseProxyCluster.t := {
  type_name := "ReverseProxyCluster";
  members b := object_members b ++ [("spec", jptr (AC.Spec b)); ("status", jptr (AC.Status b))]
}.
#[export] Instance ReverseProxyClusterParameters_json : Encodes ACReverseProxyClusterParameters.t := {
  type_name := "ReverseProxyClusterParameters";
  members b := object_members b ++ [("spec", jptr (AC.Spec b))]
}.
#[export] Instance ReverseProxyService_json : Encodes ACReverseProxyService.t := {
  type_name := "ReverseProxyService";
  members b := object_members b ++ [("spec", jptr (AC.Spec b)); ("status", jptr (AC.Status b))]
}.
#[export] Instance SetupKey_json : Encodes ACSetupKey.t := {
  type_name := "SetupKey";
  members b := object_members b ++ [("spec", jptr (AC.Spec b)); ("status", jptr (AC.Status b))]
}.
#[export] Instance SidecarProfile_json : Encodes ACSidecarProfile.t := {
  type_name := "SidecarProfile";
  members b := object_members b ++ [("spec", jptr (AC.Spec b)); ("status", jptr (AC.Status b))]
}.

(** The JSON of a value of any type, and the name of the type. *)
Definition any_type (b : any_ac) : string :=
  match b with
  | AnyAccessRestrictions _ => type_name (A := ACAccessRestrictions.t)
  | AnyClusterProxy _ => type_name (A := ACClusterProxy.t)
  | AnyClusterProxySpec _ => type_name (A := ACClusterProxySpec.t)
  | AnyClusterProxyStatus _ => type_name (A := ACClusterProxyStatus.t)
  | AnyContainerOverride _ => type_name (A := ACContainerOverride.t)
  | AnyCrossNamespaceReference _ => type_name (A := ACCrossNamespaceReference.t)
  | AnyDNSRecord _ => type_name (A := ACDNSRecord.t)
  | AnyDNSRecordSpec _ => type_name (A := ACDNSRecordSpec.t)
  | AnyDNSRecordStatus _ => type_name (A := ACDNSRecordStatus.t)
  | AnyDNSZone _ => type_name (A := ACDNSZone.t)
  | AnyDNSZoneSpec _ => type_name (A := ACDNSZoneSpec.t)
  | AnyDNSZoneStatus _ => type_name (A := ACDNSZoneStatus.t)
  | AnyGroup _ => type_name (A := ACGroup.t)
  | AnyGroupReference _ => type_name (A := ACGroupReference.t)
  | AnyGroupSpec _ => type_name (A := ACGroupSpec.t)
  | AnyGroupStatus _ => type_name (A := ACGroupStatus.t)
  | AnyNetwork _ => type_name (A := ACNetwork.t)
  | AnyNetworkResource _ => type_name (A := ACNetworkResource.t)
  | AnyNetworkResourceSpec _ => type_name (A := ACNetworkResourceSpec.t)
  | AnyNetworkResourceStatus _ => type_name (A := ACNetworkResourceStatus.t)
  | AnyNetworkRouter _ => type_name (A := ACNetworkRouter.t)
  | AnyNetworkRouterPeers _ => type_name (A := ACNetworkRouterPeers.t)
  | AnyNetworkRouterSpec _ => type_name (A := ACNetworkRouterSpec.t)
  | AnyNetworkRouterStatus _ => type_name (A := ACNetworkRouterStatus.t)
  | AnyNetworkSpec _ => type_name (A := ACNetworkSpec.t)
  | AnyNetworkStatus _ => type_name (A := ACNetworkStatus.t)
  | AnyReverseProxyBackend _ => type_name (A := ACReverseProxyBackend.t)
  | AnyReverseProxyCluster _ => type_name (A := ACReverseProxyCluster.t)
  | AnyReverseProxyClusterParameters _ => type_name (A := ACReverseProxyClusterParameters.t)
  | AnyReverseProxyClusterParametersSpec _ => type_name (A := ACReverseProxyClusterParametersSpec.t)
  | AnyReverseProxyClusterSpec _ => type_name (A := ACReverseProxyClusterSpec.t)
  | AnyReverseProxyClusterStatus _ => type_name (A := ACReverseProxyClusterStatus.t)
  | AnyReverseProxyService _ => type_name (A := ACReverseProxyService.t)
  | AnyReverseProxyServiceSpec _ => type_name (A := ACReverseProxyServiceSpec.t)
  | AnyReverseProxyServiceStatus _ => type_name (A := ACReverseProxyServiceStatus.t)
  | AnyRouterDeploy _ => type_name (A := ACRouterDeploy.t)
  | AnySetupKey _ => type_name (A := ACSetupKey.t)
  | AnySetupKeySpec _ => type_name (A := ACSetupKeySpec.t)
  | AnySetupKeyStatus _ => type_name (A := ACSetupKeyStatus.t)
  | AnySidecarProfile _ => type_name (A := ACSidecarProfile.t)
  | AnySidecarProfileSpec _ => type_name (A := ACSidecarProfileSpec.t)
  | AnySidecarProfileStatus _ => type_name (A := ACSidecarProfileStatus.t)
  end.
Definition any_members (b : any_ac) : list (string * option value) :=
  match b with
  | AnyAccessRestrictions b => members b
  | AnyClusterProxy b => members b
  | AnyClusterProxySpec b => members b
  | AnyClusterProxyStatus b => members b
  | AnyContainerOverride b => members b
  | AnyCrossNamespaceReference b => members b
  | AnyDNSRecord b => members b
  | AnyDNSRecordSpec b => members b
  | AnyDNSRecordStatus b => members b
  | AnyDNSZone b => members b
  | AnyDNSZoneSpec b => members b
  | AnyDNSZoneStatus b => members b
  | AnyGroup b => members b
  | AnyGroupReference b => members b
  | AnyGroupSpec b => members b
  | AnyGroupStatus b => members b
  | AnyNetwork b => members b
  | AnyNetworkResource b => members b
  | AnyNetworkResourceSpec b => members b
  | AnyNetworkResourceStatus b => members b
  | AnyNetworkRouter b => members b
  | AnyNetworkRouterPeers b => members b
  | AnyNetworkRouterSpec b => members b
  | AnyNetworkRouterStatus b => members b
  | AnyNetworkSpec b => members b
  | AnyNetworkStatus b => members b
  | AnyReverseProxyBackend b => members b
  | AnyReverseProxyCluster b => members b
  | AnyReverseProxyClusterParameters b => members b
  | AnyReverseProxyClusterParametersSpec b => members b
  | AnyReverseProxyClusterSpec b => members b
  | AnyReverseProxyClusterStatus b => members b
  | AnyReverseProxyService b => members b
  | AnyReverseProxyServiceSpec b => members b
  | AnyReverseProxyServiceStatus b => members b
  | AnyRouterDeploy b => members b
  | AnySetupKey b => members b
  | AnySetupKeySpec b => members b
  | AnySetupKeyStatus b => members b
  | AnySidecarProfile b => members b
  | AnySidecarProfileSpec b => members b
  | AnySidecarProfileStatus b => members b
  end.

(** ** Agreement with the schema *)

Definition opt_agrees (ov : option value) (t : type_ref) : Prop :=
  forall v, ov = Some v -> agrees schemaYAML v t = true.

(** Every value has the shape of the schema's type of that name, and can have
    every member of it. *)
Class Agreeing (A : Type) `{Encodes A} : Prop := {
  json_agrees : forall b : A, agrees schemaYAML (json b) (Named (api type_name)) = true;
  members_complete : forall b : A, exists a,
    Parser_Type (api type_name) = Some a /\ (members b).*1 ≡ₚ map f_name (fields_of a)
}.

Lemma struct_agrees t a m ms :
  resolve schemaYAML t = Some a -> a_map a = Some m ->
  Forall (fun kv => exists t, field_type m kv.1 = Some t /\ opt_agrees kv.2 t) ms ->
  agrees schemaYAML (VMap (omit_empty ms)) t = true.
Proof.
  intros Ht Hm Hms. cbn [agrees]. rewrite Ht, Hm, forallb_elem. intros [k v] Hkv.
  apply list_elem_of_omap in Hkv as ([k' ov] & Hin & Hov). destruct ov as [v'|]; [|done].
  cbn in Hov. simplify_eq. rewrite Forall_forall in Hms. destruct (Hms _ Hin) as (t' & Hf & Ha).
  cbn in Hf, Ha. rewrite Hf. by apply Ha.
Qed.

Lemma list_agrees t e r vs :
  resolve schemaYAML t = Some (mkAtom None (Some (mkList e r)) None) ->
  (forall v, v ∈ vs -> agrees schemaYAML v e = true) -> opt_agrees (non_empty vs) t.
Proof.
  intros Ht Hvs v Hv. destruct vs; [done|]. injection Hv as <-. cbn [agrees]. rewrite Ht. cbn [a_list].
  rewrite forallb_elem. exact Hvs.
Qed.

Lemma scalar_opt_agrees {A} (f : A -> value) (o : option A) t :
  (forall x, agrees schemaYAML (f x) t = true) -> opt_agrees (f <$> o) t.
Proof. intros Hf v Hv. destruct o; [|done]. injection Hv as <-. apply Hf. Qed.

Lemma agrees_jstring o t : resolve schemaYAML t = Some (scalar_only SString) -> opt_agrees (jstring o) t.
Proof. intros Ht. apply scalar_opt_agrees. intros x. cbn [agrees]. by rewrite Ht. Qed.
Lemma agrees_jduration o t : resolve schemaYAML t = Some (scalar_only SString) -> opt_agrees (jduration o) t.
Proof. intros Ht. apply scalar_opt_agrees. intros x. cbn [agrees]. by rewrite Ht. Qed.
Lemma agrees_jbool o t : resolve schemaYAML t = Some (scalar_only SBoolean) -> opt_agrees (jbool o) t.
Proof. intros Ht. apply scalar_opt_agrees. intros x. cbn [agrees]. by rewrite Ht. Qed.
Lemma agrees_jint o t : resolve schemaYAML t = Some (scalar_only SNumeric) -> opt_agrees (jint o) t.
Proof. intros Ht. apply scalar_opt_agrees. intros x. cbn [agrees]. by rewrite Ht. Qed.
Lemma agrees_jstrings l r : opt_agrees (jstrings l) (list_of (scalar_ SString) r).
Proof. eapply list_agrees; [done|]. by intros v (s & -> & _)%list_elem_of_fmap. Qed.
Lemma agrees_jmap m : opt_agrees (jmap m) (Inlined (map_of (scalar_ SString))).
Proof.
  assert (forall kvs : list (string * string),
    agrees schemaYAML (VMap ((fun '(k, v) => (k, VString v)) <$> kvs)) (Inlined (map_of (scalar_ SString))) = true) as Hm.
  { intros kvs. cbn [agrees resolve a_map map_of]. apply forallb_elem.
    by intros [k x] ([k' x'] & [= -> ->] & _)%list_elem_of_fmap. }
  intros v. unfold jmap. destruct (map_to_list m) as [|kv kvs]; [done|]. intros [= <-]. apply (Hm (kv :: kvs)).
Qed.
Lemma agrees_jptr {A} `{Agreeing A} (o : option A) : opt_agrees (jptr o) (Named (api type_name)).
Proof. apply scalar_opt_agrees, json_agrees. Qed.
Lemma agrees_jlist {A} `{Agreeing A} (l : list A) r : opt_agrees (jlist l) (list_of (Named (api type_name)) r).
Proof. eapply list_agrees; [done|]. intros v (b & -> & _)%list_elem_of_fmap. apply json_agrees. Qed.
Lemma agrees_jext {n} (o : option (external n)) : opt_agrees (jext o) (Named n).
Proof. apply scalar_opt_agrees. intros e. apply ext_agrees. Qed.
Lemma agrees_jexts {n} (l : list (external n)) r : opt_agrees (jexts l) (list_of (Named n) r).
Proof. eapply list_agrees; [done|]. intros v (e & -> & _)%list_elem_of_fmap. apply ext_agrees. Qed.
Lemma agrees_jref o : opt_agrees (jref o) (Named (core "LocalObjectReference")).
Proof. apply scalar_opt_agrees. intros n. cbn -[Type_ schemaYAML]. by destruct (n =? "")%string. Qed.

Ltac member :=
  eexists; split; [reflexivity|];
  first [ apply agrees_jext | apply agrees_jexts | apply agrees_jref | apply agrees_jmap | apply agrees_jstrings
        | apply agrees_jstring; reflexivity | apply agrees_jbool; reflexivity | apply agrees_jint; reflexivity
        | apply agrees_jduration; reflexivity | refine (agrees_jptr _) | refine (agrees_jlist _ _) ].
Ltac agreeing :=
  constructor; intros b;
  [ eapply struct_agrees; [reflexivity|reflexivity|];
    repeat (apply Forall_cons_2; [member|]); apply Forall_nil; exact I
  | eexists; split; [reflexivity|cbn; solve_Permutation] ].

#[export] Instance AccessRestrictions_agreeing : Agreeing ACAccessRestrictions.t.
Proof. agreeing. Qed.
#[export] Instance GroupReference_agreeing : Agreeing ACGroupReference.t.
Proof. agreeing. Qed.
#[export] Instance ClusterProxySpec_agreeing : Agreeing ACClusterProxySpec.t.
Proof. agreeing. Qed.
#[export] Instance ClusterProxyStatus_agreeing : Agreeing ACClusterProxyStatus.t.
Proof. agreeing. Qed.
#[export] Instance ContainerOverride_agreeing : Agreeing ACContainerOverride.t.
Proof. agreeing. Qed.
#[export] Instance CrossNamespaceReference_agreeing : Agreeing ACCrossNamespaceReference.t.
Proof. agreeing. Qed.
#[export] Instance DNSRecordSpec_agreeing : Agreeing ACDNSRecordSpec.t.
Proof. agreeing. Qed.
#[export] Instance DNSRecordStatus_agreeing : Agreeing ACDNSRecordStatus.t.
Proof. agreeing. Qed.
#[export] Instance DNSZoneSpec_agreeing : Agreeing ACDNSZoneSpec.t.
Proof. agreeing. Qed.
#[export] Instance DNSZoneStatus_agreeing : Agreeing ACDNSZoneStatus.t.
Proof. agreeing. Qed.
#[export] Instance GroupSpec_agreeing : Agreeing ACGroupSpec.t.
Proof. agreeing. Qed.
#[export] Instance GroupStatus_agreeing : Agreeing ACGroupStatus.t.
Proof. agreeing. Qed.
#[export] Instance NetworkResourceSpec_agreeing : Agreeing ACNetworkResourceSpec.t.
Proof. agreeing. Qed.
#[export] Instance NetworkResourceStatus_agreeing : Agreeing ACNetworkResourceStatus.t.
Proof. agreeing. Qed.
#[export] Instance RouterDeploy_agreeing : Agreeing ACRouterDeploy.t.
Proof. agreeing. Qed.
#[export] Instance NetworkRouterPeers_agreeing : Agreeing ACNetworkRouterPeers.t.
Proof. agreeing. Qed.
#[export] Instance NetworkRouterSpec_agreeing : Agreeing ACNetworkRouterSpec.t.
Proof. agreeing. Qed.
#[export] Instance NetworkRouterStatus_agreeing : Agreeing ACNetworkRouterStatus.t.
Proof. agreeing. Qed.
#[export] Instance NetworkSpec_agreeing : Agreeing ACNetworkSpec.t.
Proof. agreeing. Qed.
#[export] Instance NetworkStatus_agreeing : Agreeing ACNetworkStatus.t.
Proof. agreeing. Qed.
#[export] Instance ReverseProxyBackend_agreeing : Agreeing ACReverseProxyBackend.t.
Proof. agreeing. Qed.
#[export] Instance ReverseProxyClusterSpec_agreeing : Agreeing ACReverseProxyClusterSpec.t.
Proof. agreeing. Qed.
#[export] Instance ReverseProxyClusterStatus_agreeing : Agreeing ACReverseProxyClusterStatus.t.
Proof. agreeing. Qed.
#[export] Instance ReverseProxyServiceSpec_agreeing : Agreeing ACReverseProxyServiceSpec.t.
Proof. agreeing. Qed.
#[export] Instance ReverseProxyServiceStatus_agreeing : Agreeing ACReverseProxyServiceStatus.t.
Proof. agreeing. Qed.
#[export] Instance SetupKeySpec_agreeing : Agreeing ACSetupKeySpec.t.
Proof. agreeing. Qed.
#[export] Instance SetupKeyStatus_agreeing : Agreeing ACSetupKeyStatus.t.
Proof. agreeing. Qed.
#[export] Instance SidecarProfileSpec_agreeing : Agreeing ACSidecarProfileSpec.t.
Proof. agreeing. Qed.
#[export] Instance SidecarProfileStatus_agreeing : Agreeing ACSidecarProfileStatus.t.
Proof. agreeing. Qed.
#[export] Instance ClusterProxy_agreeing : Agreeing ACClusterProxy.t.
Proof. agreeing. Qed.
#[export] Instance DNSRecord_agreeing : Agreeing ACDNSRecord.t.
Proof. agreeing. Qed.
#[export] Instance DNSZone_agreeing : Agreeing ACDNSZone.t.
Proof. agreeing. Qed.
#[export] Instance Group_agreeing : Agreeing ACGroup.t.
Proof. agreeing. Qed.
#[export] Instance Network_agreeing : Agreeing ACNetwork.t.
Proof. agreeing. Qed.
#[export] Instance NetworkResource_agreeing : Agreeing ACNetworkResource.t.
Proof. agreeing. Qed.
#[export] Instance NetworkRouter_agreeing : Agreeing ACNetworkRouter.t.
Proof. agreeing. Qed.
#[export] Instance ReverseProxyCluster_agreeing : Agreeing ACReverseProxyCluster.t.
Proof. agreeing. Qed.
#[export] Instance ReverseProxyService_agreeing : Agreeing ACReverseProxyService.t.
Proof. agreeing. Qed.
#[export] Instance SetupKey_agreeing : Agreeing ACSetupKey.t.
Proof. agreeing. Qed.
#[export] Instance SidecarProfile_agreeing : Agreeing ACSidecarProfile.t.
Proof. agreeing. Qed.
End instances.

(** ** The package as a whole *)

Section package.
Context `{JSONTexts}.

(** [ForKind] of a value's own type: the empty value of that type, whose
    members are those of the schema's type of that name. *)
Definition known (b : any_ac) : Prop :=
  (exists z, ForKind (v1alpha1 (any_type b)) = Some z /\ any_type z = any_type b) /\
  agrees schemaYAML (VMap (omit_empty (any_members b))) (Named (api (any_type b))) = true /\
  exists a, Parser_Type (api (any_type b)) = Some a /\ (any_members b).*1 ≡ₚ map f_name (fields_of a).

Definition unknown (b : any_ac) : Prop :=
  ForKind (v1alpha1 (any_type b)) = None /\ Parser_Type (api (any_type b)) = None.

Definition stale : list string := ["ReverseProxyClusterParameters"; "ReverseProxyClusterParametersSpec"].

(** C38: the generated tables fit together: whatever has been set in it, a
    value of one of the package's types encodes to JSON that agrees with the
    schema's type of its name and covers that type's fields, and [ForKind]
    answers that very type - but for the parameters of a Gateway, which
    neither [ForKind] nor the schema knows. *)
Theorem ForKind_agrees b :
  if bool_decide (any_type b ∈ stale) then unknown b else known b.
Proof.
  assert (forall A (E : Encodes A) (G : Agreeing A) (x : A),
    agrees schemaYAML (VMap (omit_empty (members x))) (Named (api type_name)) = true /\
    exists a, Parser_Type (api type_name) = Some a /\ (members x).*1 ≡ₚ map f_name (fields_of a)) as Hag.
  { intros A E G x. split; [apply json_agrees|apply members_complete]. }
  destruct b; match goal with |- context [bool_decide ?P] =>
      let v := eval vm_compute in (bool_decide P) in change (bool_decide P) with v end; cbv iota;
    first [by split | split; [eexists; split; vm_compute; reflexivity|refine (Hag _ _ _ _)]].
Qed.
End package.

(** ** Names of objects *)

Section objects.
Context {Sp St : Type}.
Implicit Types b : AC.object Sp St.

Definition identified (kind name namespace : string) b : Prop :=
  AC.GetKind b = Some kind /\ AC.GetAPIVersion b = Some "netbird.io/v1alpha1" /\
  (AC.GetName b).2 = Some name /\ (AC.GetNamespace b).2 = Some namespace.

(** [b'] is [b] but for its kind, version, name and namespace. *)
Definition same_otherwise b b' : Prop :=
  AC.Spec b' = AC.Spec b /\ AC.Status b' = AC.Status b /\
  forall name namespace, AC.metadata (b' |> AC.WithName name |> AC.WithNamespace namespace)%go =
    AC.metadata (b |> AC.WithName name |> AC.WithNamespace namespace)%go.

(** What the [Extract] functions of a kind do with the extraction the library
    offers: they ask for the fields of the schema's type of that kind, and name
    the result after the object it was taken from. *)
Definition extracts `{FieldExtraction} {O} (kind : string) (object_meta : O -> ObjectMeta)
    (extract : O -> string -> string -> result string (AC.object Sp St)) : Prop :=
  (exists a, Parser_Type (api kind) = Some a) /\
  forall o manager subresource,
    match ExtractInto o (Parser_Type (api kind)) manager (@AC.empty Sp St) subresource with
    | Err e => extract o manager subresource = Err e
    | Ok b => exists b', extract o manager subresource = Ok b' /\
        identified kind (meta_Name (object_meta o)) (meta_Namespace (object_meta o)) b' /\ same_otherwise b b'
    end.

Lemma extracts_intro `{FieldExtraction} {O} kind (object_meta : O -> ObjectMeta) extract :
  (exists a, Parser_Type (api kind) = Some a) ->
  (forall o manager subresource, extract o manager subresource =
    match ExtractInto o (Parser_Type (api kind)) manager (@AC.empty Sp St) subresource with
    | Err e => Err e
    | Ok b => Ok (b |> AC.WithName (meta_Name (object_meta o)) |> AC.WithNamespace (meta_Namespace (object_meta o))
                    |> AC.WithKind kind |> AC.WithAPIVersion "netbird.io/v1alpha1")%go
    end) ->
  extracts kind object_meta extract.
Proof.
  intros Ht He. split; [done|]. intros o manager subresource. rewrite He.
  destruct (ExtractInto _ _ _ _ _) as [b|e]; [|done]. eexists; split; [done|]. by repeat split.
Qed.

(** The object whose apply a value of [applyconf] stands for. *)
Definition object_of (m : ACMeta) (spec : Sp) (empty : AC.object Sp St) : AC.object Sp St :=
  (empty |> AC.WithName (acm_Name m) |> AC.WithNamespace (acm_Namespace m)
    |> AC.WithLabels (acm_Labels m) |> AC.WithAnnotations (acm_Annotations m)
    |> AC.WithOwnerReferences (acm_OwnerReferences m) |> AC.WithSpec spec)%go.

(** Building the metadata and then the object is building the object. *)
Lemma object_of_chain m spec name namespace labels annotations owners :
  let e := (@AC.empty Sp St |> AC.WithName name |> AC.WithNamespace namespace)%go in
  object_of (ObjectAC name namespace) spec AC.empty = (e |> AC.WithSpec spec)%go /\
  object_of (m |> WithLabels labels)%go spec AC.empty = (object_of m spec AC.empty |> AC.WithLabels labels)%go /\
  object_of (m |> WithAnnotations annotations)%go spec AC.empty =
    (object_of m spec AC.empty |> AC.WithAnnotations annotations)%go /\
  object_of (m |> WithOwnerReferences owners)%go spec AC.empty =
    (object_of m spec AC.empty |> AC.WithOwnerReferences owners)%go.
Proof.
  repeat split; unfold object_of, AC.WithLabels, AC.WithAnnotations; cbn;
    by rewrite ?(right_id_L ∅ (∪)).
Qed.
End objects.

(** The constructors name the object they make, of the kind [ForKind] knows. *)
Lemma new_identifies name namespace :
  identified "ClusterProxy" name namespace (ACClusterProxy.new name namespace) /\
  identified "DNSRecord" name namespace (ACDNSRecord.new name namespace) /\
  identified "DNSZone" name namespace (ACDNSZone.new name namespace) /\
  identified "Group" name namespace (ACGroup.new name namespace) /\
  identified "Network" name namespace (ACNetwork.new name namespace) /\
  identified "NetworkResource" name namespace (ACNetworkResource.new name namespace) /\
  identified "NetworkRouter" name namespace (ACNetworkRouter.new name namespace) /\
  identified "ReverseProxyCluster" name namespace (ACReverseProxyCluster.new name namespace) /\
  identified "ReverseProxyClusterParameters" name namespace (ACReverseProxyClusterParameters.new name namespace) /\
  identified "ReverseProxyService" name namespace (ACReverseProxyService.new name namespace) /\
  identified "SetupKey" name namespace (ACSetupKey.new name namespace) /\
  identified "SidecarProfile" name namespace (ACSidecarProfile.new name namespace).
Proof. by repeat split. Qed.

(** Extract, modify, apply: for every kind, an extraction that succeeds
    yields what the library extracted for the schema's type of that kind, under
    the kind, version, name and namespace of the object it was taken from, so
    that applying it goes to that object; one that fails yields its error. *)
Theorem Extract_names_object `{FieldExtraction} :
  extracts "ClusterProxy" ClusterProxy_Meta ACClusterProxy.ExtractClusterProxyFrom /\
  extracts "DNSRecord" DNSRecord_Meta ACDNSRecord.ExtractDNSRecordFrom /\
  extracts "DNSZone" DNSZone_Meta ACDNSZone.ExtractDNSZoneFrom /\
  extracts "Group" Group_Meta ACGroup.ExtractGroupFrom /\
  extracts "Network" Network_Meta ACNetwork.ExtractNetworkFrom /\
  extracts "NetworkResource" NetworkResource_Meta ACNetworkResource.ExtractNetworkResourceFrom /\
  extracts "NetworkRouter" NetworkRouter_Meta ACNetworkRouter.ExtractNetworkRouterFrom /\
  extracts "ReverseProxyCluster" ReverseProxyCluster_Meta ACReverseProxyCluster.ExtractReverseProxyClusterFrom /\
  extracts "ReverseProxyService" ReverseProxyService_Meta ACReverseProxyService.ExtractReverseProxyServiceFrom /\
  extracts "SetupKey" SetupKey_Meta ACSetupKey.ExtractSetupKeyFrom /\
  extracts "SidecarProfile" SidecarProfile_Meta ACSidecarProfile.ExtractSidecarProfileFrom.
Proof.
  repeat split_and; (apply extracts_intro; [eexists; vm_compute; reflexivity|by intros]).
Qed.
