(* ===== verification/Env.v ===== *)
(** * The environment of the operator

    The calls a reconciler makes: Kubernetes reads and writes through the
    controller-runtime client, NetBird Management API requests, the clock, the
    process-wide list caches and the event recorder, each with the type of its
    response.  None of these is code of the repository, so a program continues
    on every response.  The pure helper functions of the Kubernetes libraries
    (finalizers, status conditions, the scheme) are the interface [K8sLib],
    with what they document in [K8sLibLaws]. *)

From stdpp Require Import base gmap list strings.
From Stdlib Require Import ZArith.
From S2P Require Import Prelude GoStrings GoErr Prog ApiTypes K8sTypes ApplyConf.

Open Scope Z_scope.

(** ** Kubernetes kinds *)

Inductive kind :=
| KNetwork | KNetworkResource | KDNSZone | KDNSRecord | KGroup | KSetupKey
| KNetworkRouter | KClusterProxy | KReverseProxyService | KReverseProxyCluster
| KReverseProxyClusterParameters | KSidecarProfile
| KService | KNamespace | KSecret | KDaemonSet
| KGatewayClass | KGateway | KHTTPRoute.

#[export] Instance kind_eq_dec : EqDecision kind.
Proof. solve_decision. Defined.

Definition obj (k : kind) : Type :=
  match k with
  | KNetwork => Network
  | KNetworkResource => NetworkResource
  | KDNSZone => DNSZone
  | KDNSRecord => DNSRecord
  | KGroup => Group
  | KSetupKey => SetupKey
  | KNetworkRouter => NetworkRouter
  | KClusterProxy => ClusterProxy
  | KReverseProxyService => ReverseProxyService
  | KReverseProxyCluster => ReverseProxyCluster
  | KReverseProxyClusterParameters => ReverseProxyClusterParameters
  | KSidecarProfile => SidecarProfile
  | KService => Service
  | KNamespace => Namespace
  | KSecret => Secret
  | KDaemonSet => DaemonSet
  | KGatewayClass => GatewayClass
  | KGateway => Gateway
  | KHTTPRoute => HTTPRoute
  end.

(** ** NetBird API objects ([shared/management/http/api]) *)

Module api.

(** A peer as a group lists it, and a resource of a group; the operator reads
    the id of the first and passes the second on. *)
Record PeerMinimum := mkPeerMinimum { p_Id : string; p_Name : string }.
Record Resource := mkResource { res_Id : string; res_Type : string }.

Record GroupRequest := mkGroupRequest {
  grq_Name : string;
  grq_Peers : option (list string);
  grq_Resources : option (list Resource)
}.
Record Group := mkGroup {
  g_Id : string; g_Name : string; g_Peers : list PeerMinimum; g_Resources : list Resource
}.

Record CreateSetupKeyRequest := mkCreateSetupKeyRequest {
  csk_AllowExtraDnsLabels : bool;
  csk_AutoGroups : list string;
  csk_Ephemeral : bool;
  csk_ExpiresIn : Z;
  csk_Name : string;
  csk_Type : string;
  csk_UsageLimit : Z
}.
Record SetupKeyRequest := mkSetupKeyRequest { skr_AutoGroups : list string }.
Record SetupKey := mkSetupKey {
  k_Id : string; k_Key : string; k_State : string; k_AutoGroups : list string
}.

Record NetworkRequest := mkNetworkRequest {
  nrq_Name : string; nrq_Description : option string
}.
Record Network := mkNetwork {
  n_Id : string; n_Name : string; n_Description : option string
}.

Record NetworkResourceRequest := mkNetworkResourceRequest {
  rrq_Address : string;
  rrq_Description : option string;
  rrq_Enabled : bool;
  rrq_Groups : list string;
  rrq_Name : string
}.
Record NetworkResource := mkNetworkResource {
  r_Id : string; r_Address : string; r_Description : option string; r_Enabled : bool;
  r_Type : string
}.

Record NetworkRouterRequest := mkNetworkRouterRequest {
  rtq_Enabled : bool;
  rtq_Masquerade : bool;
  rtq_Metric : Z;
  rtq_PeerGroups : option (list string)
}.
Record NetworkRouter := mkNetworkRouter {
  rt_Id : string; rt_Enabled : bool; rt_Masquerade : bool; rt_Metric : Z;
  rt_PeerGroups : option (list string)
}.

Record ZoneRequest := mkZoneRequest {
  zrq_DistributionGroups : list string;
  zrq_Domain : string;
  zrq_EnableSearchDomain : bool;
  zrq_Enabled : option bool;
  zrq_Name : string
}.
Record Zone := mkZone {
  z_Id : string; z_Name : string; z_Domain : string;
  z_DistributionGroups : list string; z_EnableSearchDomain : bool; z_Enabled : bool
}.

Record DNSRecordRequest := mkDNSRecordRequest {
  drq_Content : string; drq_Name : string; drq_Ttl : Z; drq_Type : string
}.
Record DNSRecord := mkDNSRecord {
  d_Id : string; d_Name : string; d_Ttl : Z; d_Type : string; d_Content : string
}.

(** The API's enumerations, of which only the constants the operator names
    matter. *)
Inductive ServiceRequestMode :=
| ServiceRequestModeHttp | ServiceRequestModeTcp | ServiceRequestModeTls
| ServiceRequestModeUdp.
Inductive ServiceTargetProtocol :=
| ServiceTargetProtocolHttp | ServiceTargetProtocolTcp | ServiceTargetProtocolUdp.
Inductive ServiceTargetTargetType := ServiceTargetTargetTypeHost | ServiceTargetTargetTypeCluster.

#[global] Instance ServiceRequestMode_eq_dec : EqDecision ServiceRequestMode.
Proof. solve_decision. Defined.
#[global] Instance ServiceTargetTargetType_eq_dec : EqDecision ServiceTargetTargetType.
Proof. solve_decision. Defined.

Record ServiceTargetOptions := mkServiceTargetOptions {
  o_DirectUpstream : option bool; o_ProxyProtocol : option bool
}.
Record ServiceTarget := mkServiceTarget {
  t_Enabled : bool;
  t_Host : option string;
  t_Port : Z;
  t_Protocol : ServiceTargetProtocol;
  t_TargetType : ServiceTargetTargetType;
  t_TargetId : string;
  t_Path : option string;
  t_Options : option ServiceTargetOptions
}.
Record AccessRestrictions := mkAccessRestrictions {
  a_CrowdsecMode : option string;
  a_AllowedCidrs : option (list string);
  a_BlockedCidrs : option (list string);
  a_AllowedCountries : option (list string);
  a_BlockedCountries : option (list string)
}.
Record ServiceRequest := mkServiceRequest {
  s_Domain : string;
  s_Enabled : bool;
  s_Mode : option ServiceRequestMode;
  s_Name : string;
  s_Targets : option (list ServiceTarget);
  s_PassHostHeader : option bool;
  s_RewriteRedirects : option bool;
  s_Private : option bool;
  s_AccessGroups : option (list string);
  s_ListenPort : option Z;
  s_AccessRestrictions : option AccessRestrictions
}.
Record Service := mkService { sv_Id : string; sv_Request : ServiceRequest }.

Record ProxyTokenRequest := mkProxyTokenRequest { ptq_Name : string }.
Record ProxyTokenCreated := mkProxyTokenCreated {
  pt_Id : string; pt_Name : string; pt_PlainToken : string
}.

Record ReverseProxyDomainRequest := mkReverseProxyDomainRequest {
  dmq_Domain : string; dmq_TargetCluster : string
}.
Record ReverseProxyDomain := mkReverseProxyDomain {
  dm_Id : string; dm_Domain : string; dm_TargetCluster : option string; dm_Validated : bool
}.

Record ProxyCluster := mkProxyCluster {
  pc_Id : string; pc_Address : string; pc_Online : bool; pc_ConnectedProxies : Z
}.

End api.

(** The REST collections of the client; [CResources], [CRouters] and
    [CRecords] are nested in a network or zone. *)
Inductive coll :=
| CGroups | CSetupKeys | CNetworks | CResources (network : string)
| CRouters (network : string) | CZones | CRecords (zone : string)
| CServices | CTokens | CDomains | CClusters.

#[export] Instance coll_eq_dec : EqDecision coll.
Proof. solve_decision. Defined.

Definition item (c : coll) : Type :=
  match c with
  | CGroups => api.Group
  | CSetupKeys => api.SetupKey
  | CNetworks => api.Network
  | CResources _ => api.NetworkResource
  | CRouters _ => api.NetworkRouter
  | CZones => api.Zone
  | CRecords _ => api.DNSRecord
  | CServices => api.Service
  | CTokens => api.ProxyTokenCreated
  | CDomains => api.ReverseProxyDomain
  | CClusters => api.ProxyCluster
  end.

Definition create_req (c : coll) : Type :=
  match c with
  | CGroups => api.GroupRequest
  | CSetupKeys => api.CreateSetupKeyRequest
  | CNetworks => api.NetworkRequest
  | CResources _ => api.NetworkResourceRequest
  | CRouters _ => api.NetworkRouterRequest
  | CZones => api.ZoneRequest
  | CRecords _ => api.DNSRecordRequest
  | CServices => api.ServiceRequest
  | CTokens => api.ProxyTokenRequest
  | CDomains => api.ReverseProxyDomainRequest
  | CClusters => Empty_set
  end.

Definition update_req (c : coll) : Type :=
  match c with
  | CSetupKeys => api.SetupKeyRequest
  | CTokens | CDomains => Empty_set
  | _ => create_req c
  end.

(** ** The list caches of [netbirdutil/cache.go] (state only) *)

Record listCache (T : Type) := mkListCache {
  lc_items : list T;
  lc_ok : bool;
  lc_expires : Z
}.
Arguments mkListCache {T}.
Arguments lc_items {T}.
Arguments lc_ok {T}.
Arguments lc_expires {T}.

(** [apiCaches]: one cache per list. *)
Inductive cache_id := ClusterCache | ZoneCache.

Definition cache_item (c : cache_id) : Type :=
  match c with
  | ClusterCache => api.ProxyCluster
  | ZoneCache => api.Zone
  end.

(** ** Calls and responses *)

Inductive event_type := EventWarning | EventNormal.

Inductive call : Type :=
| KGet (k : kind) (ns name : string)
| KList (k : kind) (ns : option string) (labels : option (string * string))
| KApply (ac : applyconf)
| KDelete (k : kind) (ns name : string)
| KPatch (k : kind) (o : obj k) (observedGeneration : bool)
| KStatusUpdate (k : kind) (o : obj k)
| NBGet (c : coll) (id : string)
| NBList (c : coll)
| NBCreate (c : coll) (r : create_req c)
| NBUpdate (c : coll) (id : string) (r : update_req c)
| NBDelete (c : coll) (id : string)
| NBGroupByName (name : string)
| NBValidateDomain (id : string)
| Now
| CacheRead (c : cache_id)
| CacheWrite (c : cache_id) (v : listCache (cache_item c))
| RecordEvent (t : event_type) (reason message : string).

Definition resp (c : call) : Type :=
  match c with
  | KGet k _ _ => result error (obj k)
  | KList k _ _ => result error (list (obj k))
  | KApply _ | KDelete _ _ _ | KPatch _ _ _ | KStatusUpdate _ _ => option error
  | NBGet c _ => result error (item c)
  | NBList c => result error (list (item c))
  | NBCreate c _ => result error (item c)
  | NBUpdate c _ _ => result error (item c)
  | NBDelete _ _ => option error
  | NBGroupByName _ => result error api.Group
  | NBValidateDomain _ => option error
  | Now => Z
  | CacheRead c => listCache (cache_item c)
  | CacheWrite _ _ => unit
  | RecordEvent _ _ _ => unit
  end.

(** An operator program. *)
Abbreviation M := (prog resp).
Abbreviation event := (entry resp).
Abbreviation history := (list (entry resp)).

Definition ask (c : call) : M (resp c) := perform c.

(** Empty servers that accept every write in the cluster; the answer of the
    calls a concrete run is not about. *)
Definition no_answer (c : call) : resp c :=
  match c with
  | KGet _ _ _ => Err (ErrExt 404 "not found")
  | KList _ _ _ => Ok []
  | KApply _ | KDelete _ _ _ | KPatch _ _ _ | KStatusUpdate _ _ | NBDelete _ _ | NBValidateDomain _ => None
  | NBGet _ _ => Err (ErrAPI 404 "Not Found")
  | NBList _ => Err (ErrAPI 404 "Not Found")
  | NBCreate _ _ => Err (ErrAPI 404 "Not Found")
  | NBUpdate _ _ _ => Err (ErrAPI 404 "Not Found")
  | NBGroupByName _ => Err (ErrAPI 404 "Not Found")
  | Now => 0
  | CacheRead _ => mkListCache [] false 0
  | CacheWrite _ _ | RecordEvent _ _ _ => tt
  end.

(** [if err != nil { return nil, err }] for a callee that returns a value. *)
Definition bind_result {A B} (p : M (result error A)) (f : A -> M (result error B)) :
    M (result error B) :=
  bind p (fun r => match r with Ok a => f a | Err e => Ret (Err e) end).

(** ... and for one that returns only an error. *)
Definition then_result {B} (p : M (option error)) (q : M (result error B)) :
    M (result error B) :=
  bind p (fun r => match r with None => q | Some e => Ret (Err e) end).

Notation "'let?' x := p 'in' q" := (bind_result p (fun x => q))
  (at level 10, x name, p at level 200, q at level 200) : prog_scope.
Notation "'do?' p 'in' q" := (then_result p q)
  (at level 10, p at level 200, q at level 200) : prog_scope.

(** ** Reconcile results *)

(** [ctrl.Result]: the requeue delay in seconds, if any. *)
Record ctrlResult := mkResult { RequeueAfter : option Z }.
Definition no_requeue : ctrlResult := mkResult None.
Definition requeue_after (d : Z) : ctrlResult := mkResult (Some d).

#[export] Instance ctrlResult_eq_dec : EqDecision ctrlResult.
Proof. solve_decision. Defined.

(** What [Reconcile] returns: [(ctrl.Result, error)]. *)
Abbreviation outcome := (ctrlResult * option error)%type.

Definition fail_with (e : error) : outcome := (no_requeue, Some e).

(** [if err != nil { return ctrl.Result{}, err }]. *)
Definition bind_outcome {A} (p : M (result error A)) (f : A -> M outcome) : M outcome :=
  bind p (fun r => match r with Ok a => f a | Err e => Ret (fail_with e) end).

Definition then_outcome (p : M (option error)) (q : M outcome) : M outcome :=
  bind p (fun r => match r with None => q | Some e => Ret (fail_with e) end).

Notation "'let^' x := p 'in' q" := (bind_outcome p (fun x => q))
  (at level 10, x name, p at level 200, q at level 200) : prog_scope.
Notation "'do^' p 'in' q" := (then_outcome p q)
  (at level 10, p at level 200, q at level 200) : prog_scope.

(** ** Third-party helper functions *)

Class K8sLib := {
  (** [controllerutil.AddFinalizer] / [RemoveFinalizer] on the finalizer list *)
  AddFinalizer : list string -> string -> list string;
  RemoveFinalizer : list string -> string -> list string;
  (** [meta.SetStatusCondition] / [IsStatusConditionTrue] *)
  SetStatusCondition : list Condition -> Condition -> list Condition;
  IsStatusConditionTrue : list Condition -> string -> bool;
  (** [conditions.MarkTrue] / [MarkFalse]: generation, type, reason, message *)
  MarkTrue : list Condition -> Z -> string -> string -> string -> list Condition;
  MarkFalse : list Condition -> Z -> string -> string -> string -> list Condition;
  (** [apiutil.GVKForObject]: apiVersion and kind from the scheme *)
  GVKForObject : kind -> result error (string * string);
  (** [PodSelector.Size() == 0] and [LabelSelectorAsSelector] + [Matches] *)
  selector_is_empty : LabelSelector -> bool;
  selector_matches : LabelSelector -> gmap string string -> result error bool
}.

Definition condition_of (cs : list Condition) (ty : string) : option Condition :=
  find_first (fun c => String.eqb (cond_Type c) ty) cs.

Definition condition_is (cs : list Condition) (ty : string) (st : ConditionStatus)
    (reason message : string) : Prop :=
  exists c, condition_of cs ty = Some c /\ cond_Status c = st
    /\ cond_Reason c = reason /\ cond_Message c = message.

Class K8sLibLaws `{K8sLib} := {
  add_finalizer_elem : forall l f, f ∈ AddFinalizer l f;
  add_finalizer_other : forall l f g, g <> f -> g ∈ AddFinalizer l f <-> g ∈ l;
  remove_finalizer_elem : forall l f, f ∉ RemoveFinalizer l f;
  remove_finalizer_other : forall l f g, g <> f -> g ∈ RemoveFinalizer l f <-> g ∈ l;
  set_condition_same : forall cs c,
    condition_is (SetStatusCondition cs c) (cond_Type c) (cond_Status c)
                 (cond_Reason c) (cond_Message c);
  set_condition_other : forall cs c ty, ty <> cond_Type c ->
    condition_of (SetStatusCondition cs c) ty = condition_of cs ty;
  is_condition_true_spec : forall cs ty,
    IsStatusConditionTrue cs ty = true <->
    exists c, condition_of cs ty = Some c /\ cond_Status c = ConditionTrue;
  mark_true_same : forall cs g ty reason msg,
    condition_is (MarkTrue cs g ty reason msg) ty ConditionTrue reason msg;
  mark_false_same : forall cs g ty reason msg,
    condition_is (MarkFalse cs g ty reason msg) ty ConditionFalse reason msg;
  mark_true_other : forall cs g ty reason msg ty', ty' <> ty ->
    condition_of (MarkTrue cs g ty reason msg) ty' = condition_of cs ty';
  mark_false_other : forall cs g ty reason msg ty', ty' <> ty ->
    condition_of (MarkFalse cs g ty reason msg) ty' = condition_of cs ty'
}.

Lemma set_condition_status `{K8sLibLaws} cs c :
  exists c', condition_of (SetStatusCondition cs c) (cond_Type c) = Some c' /\
    cond_Status c' = cond_Status c.
Proof. destruct (set_condition_same cs c) as (c' & ? & ? & _). eauto. Qed.

(** ** A concrete library, for evaluation *)

Definition std_set_condition (cs : list Condition) (c : Condition) : list Condition :=
  c :: filter (fun c' => cond_Type c' <> cond_Type c) cs.

#[export] Instance std_k8s_lib : K8sLib := {|
  AddFinalizer l f := if decide (f ∈ l) then l else l ++ [f];
  RemoveFinalizer l f := filter (fun g => g <> f) l;
  SetStatusCondition := std_set_condition;
  IsStatusConditionTrue cs ty :=
    match condition_of cs ty with
    | Some c => bool_decide (cond_Status c = ConditionTrue)
    | None => false
    end;
  MarkTrue cs g ty reason msg := std_set_condition cs (mkCondition ty ConditionTrue reason msg g);
  MarkFalse cs g ty reason msg := std_set_condition cs (mkCondition ty ConditionFalse reason msg g);
  GVKForObject k := Ok ("netbird.io/v1alpha1"%string, "Object"%string);
  selector_is_empty s :=
    bool_decide (sel_MatchLabels s = ∅) && bool_decide (sel_MatchExpressions s = []);
  selector_matches s l := Ok (bool_decide (sel_MatchLabels s ⊆ l))
|}.

Lemma std_set_condition_other cs c ty :
  ty <> cond_Type c -> condition_of (std_set_condition cs c) ty = condition_of cs ty.
Proof.
  intros Hne. unfold condition_of, std_set_condition. cbn.
  destruct (String.eqb_spec (cond_Type c) ty) as [Heq|_]; [congruence|].
  induction cs as [|c' cs IH]; [done|]. rewrite filter_cons. cbn.
  case_decide as Hd; cbn; rewrite IH; [done|].
  destruct (String.eqb_spec (cond_Type c') ty); congruence.
Qed.

Lemma std_set_condition_same cs c :
  condition_of (std_set_condition cs c) (cond_Type c) = Some c.
Proof. unfold condition_of, std_set_condition. cbn. by rewrite String.eqb_refl. Qed.

#[export] Instance std_k8s_lib_laws : K8sLibLaws.
Proof.
  constructor; cbn; intros; unfold condition_is.
  - case_decide; set_solver.
  - case_decide; set_solver.
  - rewrite list_elem_of_filter. naive_solver.
  - rewrite list_elem_of_filter. naive_solver.
  - exists c. split; [apply std_set_condition_same|done].
  - by apply std_set_condition_other.
  - destruct (condition_of cs ty); rewrite ?bool_decide_eq_true; naive_solver.
  - eexists. split; [apply (std_set_condition_same cs (mkCondition _ _ _ _ _))|done].
  - eexists. split; [apply (std_set_condition_same cs (mkCondition _ _ _ _ _))|done].
  - by apply (std_set_condition_other cs (mkCondition _ _ _ _ _)).
  - by apply (std_set_condition_other cs (mkCondition _ _ _ _ _)).
Qed.
