(* ===== verification/NetbirdUtil.v ===== *)
(** * [internal/netbirdutil]

    The list caches ([cache.go]), zone and proxy-cluster lookup by name
    ([zone.go], [cluster.go]) and group resolution ([group.go]).  The caches are
    process-wide and shared by every reconciler: a program reads a cache and
    writes it back through [CacheRead] and [CacheWrite], so another reconciler
    may have changed it in between. *)

From stdpp Require Import base gmap list strings.
From Stdlib Require Import ZArith Lia.
From S2P Require Import Prelude GoStrings GoErr Prog ApiTypes K8sTypes ApplyConf Env.

Open Scope Z_scope.
Open Scope prog_scope.

(** [time.Second] in nanoseconds. *)
Definition Second : Z := 1000000000.

Definition listCacheTTL : Z := 30 * Second.

Section listCache.
Context {T : Type}.
Implicit Types (c : listCache T) (now : Z) (fetch : M (result error (list T))).

Definition fetchLocked now fetch c : M (listCache T * result error (list T)) :=
  let! r := fetch in
  match r with
  | Err e => Ret (c, Err e)
  | Ok items => Ret (mkListCache items true (now + listCacheTTL), Ok items)
  end.

Definition list_ now fetch c : M (listCache T * result error (list T)) :=
  if lc_ok c && (now <? lc_expires c) then Ret (c, Ok (lc_items c))
  else fetchLocked now fetch c.

Definition refresh now fetch c : M (listCache T * result error (list T)) :=
  fetchLocked now fetch c.

(** The first match, refetching once on a miss; [Ok None] is not-found. *)
Definition lookup now fetch (match_ : T -> bool) c :
    M (listCache T * result error (option T)) :=
  let! '(c1, r1) := list_ now fetch c in
  match r1 with
  | Err e => Ret (c1, Err e)
  | Ok items =>
      match find_first match_ items with
      | Some x => Ret (c1, Ok (Some x))
      | None =>
          let! '(c2, r2) := refresh now fetch c1 in
          match r2 with
          | Err e => Ret (c2, Err e)
          | Ok items2 => Ret (c2, Ok (find_first match_ items2))
          end
      end
  end.
End listCache.

Definition zone_not_found (name : string) : error :=
  ErrWrap (ErrSentinel ErrZoneNotFound) (": " +:+ name).

Definition GetDNSZoneByName (name : string) : M (result error api.Zone) :=
  let! now := ask Now in
  let! cache := ask (CacheRead ZoneCache) in
  let! '(cache', r) :=
    lookup now (ask (NBList CZones)) (fun z => String.eqb (api.z_Name z) name) cache in
  do! ask (CacheWrite ZoneCache cache') in
  Ret (match r with
       | Err e => Err e
       | Ok None => Err (zone_not_found name)
       | Ok (Some z) => Ok z
       end).

Definition cluster_not_found (address : string) : error :=
  ErrWrap (ErrSentinel ErrProxyClusterNotFound) (": " +:+ address).

Definition GetProxyClusterByAddress (address : string) : M (result error api.ProxyCluster) :=
  let! now := ask Now in
  let! cache := ask (CacheRead ClusterCache) in
  let! '(cache', r) :=
    lookup now (ask (NBList CClusters))
      (fun c => String.eqb (api.pc_Address c) address) cache in
  do! ask (CacheWrite ClusterCache cache') in
  Ret (match r with
       | Err e => Err e
       | Ok None => Err (cluster_not_found address)
       | Ok (Some c) => Ok c
       end).

(** The body of the loop of [GetGroupIDs]: the ids one reference adds. *)
Definition group_ids_of (ref : GroupReference) (namespace : string) :
    M (result error (list string)) :=
  match gr_Name ref, gr_ID ref, gr_LocalRef ref with
  | Some name, _, _ =>
      let? g := ask (NBGroupByName name) in Ret (Ok [api.g_Id g])
  | None, Some id, _ =>
      let? g := ask (NBGet CGroups id) in Ret (Ok [api.g_Id g])
  | None, None, Some name =>
      let? g := ask (KGet KGroup namespace name) in
      if String.eqb (group_GroupID (Group_Status g)) "" then
        Ret (Err (ErrText ("group " +:+ meta_Name (Group_Meta g)
                           +:+ " in groups list is not ready")))
      else Ret (Ok [group_GroupID (Group_Status g)])
  | None, None, None => Ret (Ok [])
  end.

Fixpoint GetGroupIDs (refs : list GroupReference) (namespace : string) :
    M (result error (list string)) :=
  match refs with
  | [] => Ret (Ok [])
  | ref :: refs' =>
      let? ids := group_ids_of ref namespace in
      let? rest := GetGroupIDs refs' namespace in
      Ret (Ok (ids ++ rest))
  end.

(** ** Symbolic execution *)

(** Run a program symbolically: introduce each response and split on it. *)
Ltac wp_run :=
  repeat first
    [ progress cbn
    | match goal with
      | |- forall _, _ => intros ?
      | |- context [err_of ?r] => is_var r; destruct r
      end
    | case_scrut ].

(** Membership in an explicit list. *)
Ltac in_trace :=
  solve [repeat first
    [ apply list_elem_of_here
    | apply list_elem_of_further
    | apply elem_of_app; right ]].

Ltac find_prop :=
  repeat match goal with
  | H : find_first _ _ = Some _ |- _ => apply find_first_Some in H as [? ?]; cbn in *
  | H : find_first _ _ = None |- _ => rewrite find_first_None in H
  end.

Lemma wp_bind_result {A B} (p : M (result error A)) (f : A -> M (result error B)) Q :
  wp (bind_result p f) Q <->
  wp p (fun t r => match r with
                   | Ok a => wp (f a) (fun t' b => Q (t ++ t') b)
                   | Err e => Q t (Err e)
                   end).
Proof.
  unfold bind_result. rewrite wp_bind. split; intros H; eapply wp_mono; try exact H;
    intros t [a|e]; cbn; rewrite ?app_nil_r; done.
Qed.

Lemma wp_then_result {B} (p : M (option error)) (q : M (result error B)) Q :
  wp (then_result p q) Q <->
  wp p (fun t r => match r with
                   | None => wp q (fun t' b => Q (t ++ t') b)
                   | Some e => Q t (Err e)
                   end).
Proof.
  unfold then_result. rewrite wp_bind. split; intros H; eapply wp_mono; try exact H;
    intros t [e|]; cbn; rewrite ?app_nil_r; done.
Qed.

Lemma wp_bind_outcome {A} (p : M (result error A)) (f : A -> M outcome) Q :
  wp (bind_outcome p f) Q <->
  wp p (fun t r => match r with
                   | Ok a => wp (f a) (fun t' b => Q (t ++ t') b)
                   | Err e => Q t (fail_with e)
                   end).
Proof.
  unfold bind_outcome. rewrite wp_bind. split; intros H; eapply wp_mono; try exact H;
    intros t [a|e]; cbn; rewrite ?app_nil_r; done.
Qed.

Lemma wp_then_outcome (p : M (option error)) (q : M outcome) Q :
  wp (then_outcome p q) Q <->
  wp p (fun t r => match r with
                   | None => wp q (fun t' b => Q (t ++ t') b)
                   | Some e => Q t (fail_with e)
                   end).
Proof.
  unfold then_outcome. rewrite wp_bind. split; intros H; eapply wp_mono; try exact H;
    intros t [e|]; cbn; rewrite ?app_nil_r; done.
Qed.
#[export] Hint Rewrite @wp_bind @wp_bind_result @wp_then_result @wp_bind_outcome
  wp_then_outcome : go_rew.

(** ** Properties *)

(** The lists of zones a run may look a zone up in: one that it fetched, or
    the cached one while that was fresh. *)
Definition zones_seen (zs : list api.Zone) (t : history) : Prop :=
  Entry (NBList CZones) (Ok zs) ∈ t \/
  exists now cache, Entry Now now ∈ t /\ Entry (CacheRead ZoneCache) cache ∈ t /\
    lc_ok cache = true /\ now < lc_expires cache /\ lc_items cache = zs.

(** [zone] is the first of its name in one of these lists. *)
Definition zone_found (name : string) (zone : api.Zone) (t : history) : Prop :=
  exists zs l1 l2, zones_seen zs t /\ zs = l1 ++ zone :: l2 /\ api.z_Name zone = name /\
    forall z, z ∈ l1 -> api.z_Name z <> name.

Lemma zone_found_mono name zone t t' : t ⊆ t' -> zone_found name zone t -> zone_found name zone t'.
Proof.
  intros Ht (zs & l1 & l2 & Hs & ?). exists zs, l1, l2. split; [|done].
  destruct Hs as [?|(now & c & ? & ? & ?)]; [left; auto|right; exists now, c; auto].
Qed.

(** The verdict "no such zone" rests on a list fetched by this very call (or is
    NetBird's own error, were it to wrap the sentinel), and a zone that is
    returned is the first of the requested name in a list of this call. *)
Lemma GetDNSZoneByName_spec name :
  wp (GetDNSZoneByName name) (fun t r =>
    match r with
    | Ok z => zone_found name z t
    | Err e =>
        (exists zs, Entry (NBList CZones) (Ok zs) ∈ t /\ e = zone_not_found name /\
                    forall z, z ∈ zs -> api.z_Name z <> name)
        \/ Entry (NBList CZones) (Err e) ∈ t
    end).
Proof.
  unfold GetDNSZoneByName, lookup, refresh, list_, fetchLocked.
  wp_run; bool_prop; try done; subst;
    try (match goal with H : find_first _ _ = Some _ |- _ => apply find_first_split in H as (l1 & l2 & Hz & Hl & Hno) end;
      apply String.eqb_eq in Hl; eexists _, l1, l2; split;
      [|split; [exact Hz|split; [done|intros z' Hin; apply String.eqb_neq; by apply Hno]]];
      first [left; in_trace|right; eexists _, _; split; [in_trace|split; [in_trace|split; [done|split; [by apply Z.ltb_lt|reflexivity]]]]]).
  all: find_prop; first
    [ right; in_trace
    | left; eexists; split; [in_trace|];
      split; [done|intros z Hz; apply String.eqb_neq; eauto] ].
Qed.

Lemma GetProxyClusterByAddress_spec address :
  wp (GetProxyClusterByAddress address) (fun t r =>
    match r with
    | Ok c => api.pc_Address c = address
    | Err e =>
        (exists cs, Entry (NBList CClusters) (Ok cs) ∈ t /\ e = cluster_not_found address /\
                    forall c, c ∈ cs -> api.pc_Address c <> address)
        \/ Entry (NBList CClusters) (Err e) ∈ t
    end).
Proof.
  unfold GetProxyClusterByAddress, lookup, refresh, list_, fetchLocked.
  wp_run; find_prop; bool_prop; try done; subst.
  all: first
    [ right; in_trace
    | left; eexists; split; [in_trace|];
      split; [done|intros z Hz; apply String.eqb_neq; eauto] ].
Qed.

(** Reads only: what the lookups of this file do. *)
Definition is_read (c : call) : Prop :=
  match c with
  | KGet _ _ _ | KList _ _ _ | NBGet _ _ | NBList _ | NBGroupByName _ | Now
  | CacheRead _ | CacheWrite _ _ => True
  | _ => False
  end.

Lemma calls_in_bind_result {A B} P (p : M (result error A)) (f : A -> M (result error B)) :
  calls_in P p -> (forall a, calls_in P (f a)) -> calls_in P (bind_result p f).
Proof. intros Hp Hf. apply calls_in_bind; [done|]. by intros []. Qed.

Lemma GetGroupIDs_reads refs ns : calls_in is_read (GetGroupIDs refs ns).
Proof.
  induction refs as [|[[name|] [id|] [r|]] refs IH]; cbn; [done|..];
    calls_run ltac:(first [apply calls_in_bind_result|apply IH]).
Qed.

Lemma GetDNSZoneByName_reads name : calls_in is_read (GetDNSZoneByName name).
Proof. unfold GetDNSZoneByName, lookup, refresh, list_, fetchLocked. calls_run fail. Qed.

Lemma GetProxyClusterByAddress_reads a : calls_in is_read (GetProxyClusterByAddress a).
Proof. unfold GetProxyClusterByAddress, lookup, refresh, list_, fetchLocked. calls_run fail. Qed.
#[export] Hint Resolve GetGroupIDs_reads GetDNSZoneByName_reads
  GetProxyClusterByAddress_reads : go_hints.

(** No response of the trace is an error that wraps a sentinel of the
    operator: the client libraries do not know them. *)
Definition nb_error (e : event) : option error :=
  match e with
  | Entry (NBGet _ _) (Err e) => Some e
  | Entry (NBList _) (Err e) => Some e
  | Entry (NBCreate _ _) (Err e) => Some e
  | Entry (NBUpdate _ _ _) (Err e) => Some e
  | Entry (NBGroupByName _) (Err e) => Some e
  | _ => None
  end.

Definition foreign_errors (t : history) : Prop :=
  forall e err s, e ∈ t -> nb_error e = Some err -> errors_Is err s = false.

(** Keep the lookups folded in symbolic execution: their contracts are above. *)
Arguments GetDNSZoneByName : simpl never.
Arguments GetProxyClusterByAddress : simpl never.
