(* ===== verification/Reconcile.v ===== *)
(** * Shared pieces of the reconcilers

    [internal/controller/reconcile.go] (requeue intervals, the
    shared-ownership scan), [events.go] (event recording), [internal/k8sutil]
    (finalizer names, owner references), and the interface [MirrorObject] a
    custom resource with status conditions implements
    ([GetConditions]/[SetConditions] of [api/v1alpha1]). *)

From stdpp Require Import base gmap list strings.
From Stdlib Require Import ZArith Lia Eqdep.
From S2P Require Import Prelude GoStrings GoErr Prog ApiTypes K8sTypes ApplyConf Env NetbirdUtil.

Open Scope Z_scope.
Open Scope prog_scope.

Definition Minute : Z := 60 * Second.
Definition resyncInterval : Z := 15 * Minute.
Definition dependencyRetry : Z := 10 * Second.
Definition cleanupRetry : Z := Minute.

(** [anotherLiveMatches]: some object other than [self], not being deleted,
    satisfies [match_]. *)
Fixpoint anotherLiveMatches {T} (meta : T -> ObjectMeta) (self : ObjectMeta)
    (items : list T) (match_ : T -> bool) : bool :=
  match items with
  | [] => false
  | other :: rest =>
      if String.eqb (meta_UID (meta other)) (meta_UID self) || deleting (meta other)
      then anotherLiveMatches meta self rest match_
      else if match_ other then true
      else anotherLiveMatches meta self rest match_
  end.

Lemma anotherLiveMatches_spec {T} (meta : T -> ObjectMeta) self items (match_ : T -> bool) :
  anotherLiveMatches meta self items match_ = true <->
  exists other, other ∈ items /\ meta_UID (meta other) <> meta_UID self
    /\ deleting (meta other) = false /\ match_ other = true.
Proof.
  induction items as [|o items IH]; cbn.
  - split; [done|]. intros (o & Ho & _). by apply not_elem_of_nil in Ho.
  - destruct (String.eqb_spec (meta_UID (meta o)) (meta_UID self)) as [He|Hne]; cbn.
    + rewrite IH. split; intros (x & Hx & Hu & ?).
      * exists x. split; [by right|done].
      * apply elem_of_cons in Hx as [->|Hx]; [done|]. eauto.
    + destruct (deleting (meta o)) eqn:Hd; [|destruct (match_ o) eqn:Hm].
      * rewrite IH. split; intros (x & Hx & Hu & Hd' & ?).
        -- exists x. split; [by right|done].
        -- apply elem_of_cons in Hx as [->|Hx]; [congruence|]. eauto.
      * split; [|done]. intros _. exists o. split; [left|done].
      * rewrite IH. split; intros (x & Hx & Hu & Hd' & ?).
        -- exists x. split; [by right|done].
        -- apply elem_of_cons in Hx as [->|Hx]; [congruence|]. eauto.
Qed.

Lemma anotherLiveMatches_false {T} (meta : T -> ObjectMeta) self items (match_ : T -> bool) :
  anotherLiveMatches meta self items match_ = false <->
  forall other, other ∈ items -> meta_UID (meta other) <> meta_UID self ->
    deleting (meta other) = false -> match_ other = false.
Proof.
  rewrite <- not_true_iff_false, anotherLiveMatches_spec. split.
  - intros H o Ho Hu Hd. destruct (match_ o) eqn:E; [|done]. exfalso. eauto 10.
  - intros H (o & Ho & Hu & Hd & Hm). rewrite H in Hm; done.
Qed.

(** [recordEvent] / [recordNormalEvent]: nothing without a recorder. *)
Definition reasonDependencyNotReady : string := "DependencyNotReady".
Definition reasonInUse : string := "InUse".
Definition reasonAdvertised : string := "Advertised".

Definition recordEventType (rec : bool) (t : event_type) (reason message : string) : M unit :=
  if rec then ask (RecordEvent t reason message) else Ret tt.
Definition recordEvent (rec : bool) (reason message : string) : M unit :=
  recordEventType rec EventWarning reason message.
Definition recordNormalEvent (rec : bool) (reason message : string) : M unit :=
  recordEventType rec EventNormal reason message.

(** [k8sutil]. *)
Definition NetbirdFinalizer : string := "finalizers.netbird.io".
Definition Finalizer (kind : string) : string := NetbirdFinalizer +:+ "/" +:+ kind.
Arguments Finalizer : simpl never.

Definition ControllerReference `{K8sLib} (k : kind) (owner : ObjectMeta) :
    result error OwnerReference :=
  match GVKForObject k with
  | Err e => Err e
  | Ok (apiVersion, kind) =>
      Ok (mkOwnerReference apiVersion kind (meta_Name owner) (meta_UID owner) true true)
  end.

(** A custom resource kind with metadata and status conditions. *)
Class MirrorObject (k : kind) := {
  GetMeta : obj k -> ObjectMeta;
  SetMeta : obj k -> ObjectMeta -> obj k;
  GetConditions : obj k -> list Condition;
  SetConditions : obj k -> list Condition -> obj k
}.

Class MirrorObjectLaws (k : kind) `{MirrorObject k} := {
  get_set_meta : forall o m, GetMeta (SetMeta o m) = m;
  get_set_conditions : forall o c, GetConditions (SetConditions o c) = c;
  meta_set_conditions : forall o c, GetMeta (SetConditions o c) = GetMeta o;
  conditions_set_meta : forall o m, GetConditions (SetMeta o m) = GetConditions o
}.

#[export] Instance Network_mirror : MirrorObject KNetwork := {|
  GetMeta := (Network_Meta : obj KNetwork -> ObjectMeta);
  SetMeta n m := mkNetwork m (Network_Spec n) (Network_Status n);
  GetConditions n := net_Conditions (Network_Status n);
  SetConditions n c :=
    mkNetwork (Network_Meta n) (Network_Spec n)
      (mkNetworkStatus (net_ObservedGeneration (Network_Status n)) c
         (net_NetworkID (Network_Status n)))
|}.
#[export] Instance NetworkResource_mirror : MirrorObject KNetworkResource := {|
  GetMeta := (NetworkResource_Meta : obj KNetworkResource -> ObjectMeta);
  SetMeta n m := mkNetworkResource m (NetworkResource_Spec n) (NetworkResource_Status n);
  GetConditions n := nres_Conditions (NetworkResource_Status n);
  SetConditions n c :=
    mkNetworkResource (NetworkResource_Meta n) (NetworkResource_Spec n)
      (mkNetworkResourceStatus (nres_ObservedGeneration (NetworkResource_Status n)) c
         (nres_NetworkID (NetworkResource_Status n))
         (nres_ResourceID (NetworkResource_Status n)))
|}.
#[export] Instance DNSZone_mirror : MirrorObject KDNSZone := {|
  GetMeta := (DNSZone_Meta : obj KDNSZone -> ObjectMeta);
  SetMeta z m := mkDNSZone m (DNSZone_Spec z) (DNSZone_Status z);
  GetConditions z := zone_Conditions (DNSZone_Status z);
  SetConditions z c :=
    mkDNSZone (DNSZone_Meta z) (DNSZone_Spec z)
      (mkDNSZoneStatus (zone_ObservedGeneration (DNSZone_Status z)) c
         (zone_ZoneID (DNSZone_Status z)))
|}.
#[export] Instance DNSRecord_mirror : MirrorObject KDNSRecord := {|
  GetMeta := (DNSRecord_Meta : obj KDNSRecord -> ObjectMeta);
  SetMeta r m := mkDNSRecord m (DNSRecord_Spec r) (DNSRecord_Status r);
  GetConditions r := rec_Conditions (DNSRecord_Status r);
  SetConditions r c :=
    mkDNSRecord (DNSRecord_Meta r) (DNSRecord_Spec r)
      (mkDNSRecordStatus (rec_ObservedGeneration (DNSRecord_Status r)) c
         (rec_ZoneID (DNSRecord_Status r)) (rec_RecordID (DNSRecord_Status r)))
|}.
#[export] Instance Group_mirror : MirrorObject KGroup := {|
  GetMeta := (Group_Meta : obj KGroup -> ObjectMeta);
  SetMeta g m := mkGroup m (Group_Spec g) (Group_Status g);
  GetConditions g := group_Conditions (Group_Status g);
  SetConditions g c :=
    mkGroup (Group_Meta g) (Group_Spec g)
      (mkGroupStatus (group_ObservedGeneration (Group_Status g)) c
         (group_GroupID (Group_Status g)))
|}.
#[export] Instance SetupKey_mirror : MirrorObject KSetupKey := {|
  GetMeta := (SetupKey_Meta : obj KSetupKey -> ObjectMeta);
  SetMeta k m := mkSetupKey m (SetupKey_Spec k) (SetupKey_Status k);
  GetConditions k := sk_Conditions (SetupKey_Status k);
  SetConditions k c :=
    mkSetupKey (SetupKey_Meta k) (SetupKey_Spec k)
      (mkSetupKeyStatus (sk_ObservedGeneration (SetupKey_Status k)) c
         (sk_SetupKeyID (SetupKey_Status k)))
|}.
#[export] Instance NetworkRouter_mirror : MirrorObject KNetworkRouter := {|
  GetMeta := (NetworkRouter_Meta : obj KNetworkRouter -> ObjectMeta);
  SetMeta r m := mkNetworkRouter m (NetworkRouter_Spec r) (NetworkRouter_Status r);
  GetConditions r := router_Conditions (NetworkRouter_Status r);
  SetConditions r c :=
    mkNetworkRouter (NetworkRouter_Meta r) (NetworkRouter_Spec r)
      (mkNetworkRouterStatus (router_ObservedGeneration (NetworkRouter_Status r)) c
         (router_NetworkID (NetworkRouter_Status r))
         (router_RouterID (NetworkRouter_Status r))
         (router_GroupID (NetworkRouter_Status r)))
|}.
#[export] Instance ClusterProxy_mirror : MirrorObject KClusterProxy := {|
  GetMeta := (ClusterProxy_Meta : obj KClusterProxy -> ObjectMeta);
  SetMeta p m := mkClusterProxy m (ClusterProxy_Spec p) (ClusterProxy_Status p);
  GetConditions p := cp_Conditions (ClusterProxy_Status p);
  SetConditions p c :=
    mkClusterProxy (ClusterProxy_Meta p) (ClusterProxy_Spec p)
      (mkClusterProxyStatus (cp_ObservedGeneration (ClusterProxy_Status p)) c)
|}.
#[export] Instance ReverseProxyService_mirror : MirrorObject KReverseProxyService := {|
  GetMeta := (ReverseProxyService_Meta : obj KReverseProxyService -> ObjectMeta);
  SetMeta s m :=
    mkReverseProxyService m (ReverseProxyService_Spec s) (ReverseProxyService_Status s);
  GetConditions s := rps_Conditions (ReverseProxyService_Status s);
  SetConditions s c :=
    mkReverseProxyService (ReverseProxyService_Meta s) (ReverseProxyService_Spec s)
      (mkReverseProxyServiceStatus (rps_ObservedGeneration (ReverseProxyService_Status s)) c
         (rps_ServiceID (ReverseProxyService_Status s))
         (rps_ServiceDomain (ReverseProxyService_Status s)))
|}.
#[export] Instance ReverseProxyCluster_mirror : MirrorObject KReverseProxyCluster := {|
  GetMeta := (ReverseProxyCluster_Meta : obj KReverseProxyCluster -> ObjectMeta);
  SetMeta s m :=
    mkReverseProxyCluster m (ReverseProxyCluster_Spec s) (ReverseProxyCluster_Status s);
  GetConditions s := rpc_Conditions (ReverseProxyCluster_Status s);
  SetConditions s c :=
    let st := ReverseProxyCluster_Status s in
    mkReverseProxyCluster (ReverseProxyCluster_Meta s) (ReverseProxyCluster_Spec s)
      (mkReverseProxyClusterStatus (rpc_ObservedGeneration st) c
         (rpc_StatusClusterAddress st) (rpc_TokenID st) (rpc_DomainID st)
         (rpc_LoadBalancerIP st) (rpc_Online st) (rpc_ConnectedProxies st))
|}.

#[export] Instance Network_laws : MirrorObjectLaws KNetwork.
Proof. by constructor. Qed.
#[export] Instance NetworkResource_laws : MirrorObjectLaws KNetworkResource.
Proof. by constructor. Qed.
#[export] Instance DNSZone_laws : MirrorObjectLaws KDNSZone.
Proof. by constructor. Qed.
#[export] Instance DNSRecord_laws : MirrorObjectLaws KDNSRecord.
Proof. by constructor. Qed.
#[export] Instance Group_laws : MirrorObjectLaws KGroup.
Proof. by constructor. Qed.
#[export] Instance SetupKey_laws : MirrorObjectLaws KSetupKey.
Proof. by constructor. Qed.
#[export] Instance NetworkRouter_laws : MirrorObjectLaws KNetworkRouter.
Proof. by constructor. Qed.
#[export] Instance ClusterProxy_laws : MirrorObjectLaws KClusterProxy.
Proof. by constructor. Qed.
#[export] Instance ReverseProxyService_laws : MirrorObjectLaws KReverseProxyService.
Proof. by constructor. Qed.
#[export] Instance ReverseProxyCluster_laws : MirrorObjectLaws KReverseProxyCluster.
Proof. by constructor. Qed.

(** The object transformations every reconciler uses. *)
Section marks.
Context {k : kind} `{MirrorObject k} `{K8sLib}.

Definition add_finalizer (o : obj k) (f : string) : obj k :=
  SetMeta o (with_finalizers (GetMeta o) (AddFinalizer (meta_Finalizers (GetMeta o)) f)).
Definition remove_finalizer (o : obj k) (f : string) : obj k :=
  SetMeta o (with_finalizers (GetMeta o) (RemoveFinalizer (meta_Finalizers (GetMeta o)) f)).
Definition mark_ready (o : obj k) : obj k :=
  SetConditions o (MarkTrue (GetConditions o) (meta_Generation (GetMeta o))
                     ReadyCondition ReconciledReason "").
Definition mark_not_ready (o : obj k) (msg : string) : obj k :=
  SetConditions o (MarkFalse (GetConditions o) (meta_Generation (GetMeta o))
                     ReadyCondition DependencyReason msg).
(** [sp.Patch(ctx, obj)], and with [WithStatusObservedGeneration]. *)
Definition patch (o : obj k) : M (option error) := ask (KPatch k o false).
Definition patch_observed (o : obj k) : M (option error) := ask (KPatch k o true).

Definition has_finalizer (o : obj k) (f : string) : Prop := f ∈ meta_Finalizers (GetMeta o).
Definition is_ready (o : obj k) : Prop :=
  exists c, condition_of (GetConditions o) ReadyCondition = Some c /\ cond_Status c = ConditionTrue.

Lemma add_finalizer_has `{!MirrorObjectLaws k} `{!K8sLibLaws} o f :
  has_finalizer (add_finalizer o f) f.
Proof. unfold has_finalizer, add_finalizer. rewrite get_set_meta. apply add_finalizer_elem. Qed.

Lemma remove_finalizer_has `{!MirrorObjectLaws k} `{!K8sLibLaws} o f :
  ~ has_finalizer (remove_finalizer o f) f.
Proof.
  unfold has_finalizer, remove_finalizer. rewrite get_set_meta. apply remove_finalizer_elem.
Qed.

Lemma mark_ready_ready `{!MirrorObjectLaws k} `{!K8sLibLaws} o : is_ready (mark_ready o).
Proof.
  unfold is_ready, mark_ready. rewrite get_set_conditions.
  destruct (mark_true_same (GetConditions o) (meta_Generation (GetMeta o)) ReadyCondition
              ReconciledReason "") as (c & ? & ? & _). eauto.
Qed.

Lemma mark_not_ready_not `{!MirrorObjectLaws k} `{!K8sLibLaws} o msg :
  condition_is (GetConditions (mark_not_ready o msg)) ReadyCondition ConditionFalse
    DependencyReason msg.
Proof. unfold mark_not_ready. rewrite get_set_conditions. apply mark_false_same. Qed.
End marks.
#[export] Hint Resolve add_finalizer_has mark_ready_ready mark_not_ready_not : go_hints.

(** ** Traces *)

(** A request that changes state in NetBird. *)
Definition is_nb_write (c : call) : bool :=
  match c with
  | NBCreate _ _ | NBUpdate _ _ _ | NBDelete _ _ => true
  | _ => false
  end.

Definition entry_call (e : event) : call := match e with Entry c _ => c end.

(** Every entry of the trace that satisfies [P] comes after one that satisfies
    [Q]. *)
Definition preceded (t : history) (P Q : event -> Prop) : Prop :=
  forall t1 e t2, t = t1 ++ e :: t2 -> P e -> exists e', e' ∈ t1 /\ Q e'.

Lemma preceded_cons_not (e : event) t P Q :
  ~ P e -> preceded t P Q -> preceded (e :: t) P Q.
Proof.
  intros HP H t1 e1 t2 Ht He. destruct t1 as [|x t1]; cbn in Ht; simplify_eq; [done|].
  destruct (H _ _ _ eq_refl He) as (e' & He' & HQ). exists e'. split; [by right|done].
Qed.

Lemma preceded_cons_yes (e : event) t (P Q : event -> Prop) :
  ~ P e -> Q e -> preceded (e :: t) P Q.
Proof.
  intros HP HQ t1 e1 t2 Ht He. destruct t1 as [|x t1]; cbn in Ht; simplify_eq; [done|].
  exists x. split; [left|done].
Qed.

Lemma preceded_nil P Q : preceded [] P Q.
Proof. intros t1 e t2 H. by destruct t1. Qed.

Lemma preceded_none t P Q : (forall e, e ∈ t -> ~ P e) -> preceded t P Q.
Proof. intros H t1 e t2 -> HP. exfalso. eapply H; [|done]. set_solver. Qed.
#[export] Hint Resolve preceded_nil preceded_cons_yes preceded_cons_not : go_hints.

(** ** Group references and pruning, shared by several controllers *)

(** [groupRefACs]: ID wins over Name, Name over LocalRef. *)
Definition groupRefAC (g : GroupReference) : ACGroupReference.t :=
  let ref := ACGroupReference.new in
  match gr_ID g, gr_Name g, gr_LocalRef g with
  | Some id, _, _ => ACGroupReference.WithID id ref
  | None, Some name, _ => ACGroupReference.WithName name ref
  | None, None, Some local => ACGroupReference.WithLocalRef local ref
  | None, None, None => ref
  end.
Definition groupRefACs (groups : list GroupReference) : list ACGroupReference.t :=
  map groupRefAC groups.

(** [groupReferences]: references by name. *)
Definition groupReferences (names : list string) : list ACGroupReference.t :=
  map (fun n => ACGroupReference.WithName n ACGroupReference.new) names.

(** The loop of the [prune] methods: delete every listed object whose name is
    not desired; a not-found answer counts as deleted. *)
Fixpoint delete_undesired `{ErrorClass} (k : kind) (meta : obj k -> ObjectMeta)
    (desired : list string) (items : list (obj k)) : M (option error) :=
  match items with
  | [] => Ret None
  | it :: items' =>
      if bool_decide (meta_Name (meta it) ∈ desired)
      then delete_undesired k meta desired items'
      else
        let! err := ask (KDelete k (meta_Namespace (meta it)) (meta_Name (meta it))) in
        match err with
        | None => delete_undesired k meta desired items'
        | Some e =>
            if kerrors_IsNotFound e then delete_undesired k meta desired items'
            else Ret (Some e)
        end
  end.

(** A call was answered with success or not-found. *)
Definition deleted (t : history) `{ErrorClass} (k : kind) (m : ObjectMeta) : Prop :=
  exists r, Entry (KDelete k (meta_Namespace m) (meta_Name m)) r ∈ t /\
    match r with None => True | Some e => kerrors_IsNotFound e = true end.

Lemma delete_undesired_spec `{ErrorClass} k meta desired items :
  wp (delete_undesired k meta desired items) (fun t r =>
    (forall e, e ∈ t -> exists it, it ∈ items /\ meta_Name (meta it) ∉ desired /\
       entry_call e = KDelete k (meta_Namespace (meta it)) (meta_Name (meta it))) /\
    (r = None -> forall it, it ∈ items -> meta_Name (meta it) ∉ desired -> deleted t k (meta it))).
Proof.
  induction items as [|it items IH]; cbn [delete_undesired].
  - cbn. split; [by intros e ?%not_elem_of_nil|]. by intros _ it ?%not_elem_of_nil.
  - case_bool_decide as Hd.
    + eapply wp_mono; [exact IH|]. intros t r [Hin Hall]. split.
      * intros e He. destruct (Hin e He) as (x & Hx & ?). exists x. split; [by right|done].
      * intros Hr x [->|Hx]%elem_of_cons Hn; [done|auto].
    + cbn. intros err. cbn in err.
      assert (match err with None => True | Some e => kerrors_IsNotFound e = true end ->
        wp (delete_undesired k meta desired items) (fun t r =>
          (forall e, e ∈ Entry (KDelete k (meta_Namespace (meta it)) (meta_Name (meta it))) err :: t ->
             exists x, x ∈ it :: items /\ meta_Name (meta x) ∉ desired /\
               entry_call e = KDelete k (meta_Namespace (meta x)) (meta_Name (meta x))) /\
          (r = None -> forall x, x ∈ it :: items -> meta_Name (meta x) ∉ desired ->
             deleted (Entry (KDelete k (meta_Namespace (meta it)) (meta_Name (meta it))) err :: t)
               k (meta x)))) as Hgo.
      { intros Herr. eapply wp_mono; [exact IH|]. intros t r [Hin Hall]. split.
        - intros e [->|He]%elem_of_cons; [exists it; split; [left|done]|].
          destruct (Hin e He) as (x & Hx & ?). exists x. split; [by right|done].
        - intros Hr x [->|Hx]%elem_of_cons Hn; [exists err; split; [left|done]|].
          destruct (Hall Hr x Hx Hn) as (r' & Hr' & ?). exists r'. split; [by right|done]. }
      destruct err as [e|]; [destruct (kerrors_IsNotFound e) eqn:He|]; [by apply Hgo| |by apply Hgo].
      cbn. split; [|done]. intros e' [->|?%not_elem_of_nil]%elem_of_cons; [|done].
      exists it. split; [left|done].
Qed.

Lemma deleted_mono `{ErrorClass} t t' k m : (forall e, e ∈ t -> e ∈ t') -> deleted t k m -> deleted t' k m.
Proof. intros Ht (r & Hr & ?). exists r. auto. Qed.

(** Entries that apply an object. *)
Definition applies (e : event) : Prop := match entry_call e with KApply _ => True | _ => False end.

(** A call that deletes. *)
Definition removes (e : event) : Prop := match entry_call e with KDelete _ _ _ => True | _ => False end.

(** No call of an explicit trace applies anything. *)
Ltac no_applies :=
  let e := fresh "e" in let He := fresh "He" in
  intros e He; repeat apply elem_of_cons in He as [->|He];
  first [by apply not_elem_of_nil in He | by intros []].

(** Deletions do not apply. *)
Lemma deletions_no_apply k (meta : obj k -> ObjectMeta) (desired : list string)
    (items : list (obj k)) (t : history) :
  (forall e, e ∈ t -> exists it, it ∈ items /\ meta_Name (meta it) ∉ desired /\
     entry_call e = KDelete k (meta_Namespace (meta it)) (meta_Name (meta it))) ->
  forall e, e ∈ t -> ~ applies e.
Proof.
  intros Hin e He Ha. destruct (Hin e He) as (it & _ & _ & Hc). unfold applies in Ha.
  by rewrite Hc in Ha.
Qed.

(** ** Deletions in NetBird *)

(** [if err := ...; err != nil && !netbird.IsNotFound(err) { return err }]. *)
Definition delete_tolerant `{ErrorClass} (c : coll) (id : string) : M (option error) :=
  let! err := ask (NBDelete c id) in
  Ret (match err with
       | None => None
       | Some e => if netbird_IsNotFound e then None else Some e
       end).

(** Some call of the trace deleted the object, or found it gone. *)
Definition nb_deleted `{ErrorClass} (c : coll) (id : string) (t : history) : Prop :=
  exists r, Entry (NBDelete c id) r ∈ t /\
    match r with None => True | Some e => netbird_IsNotFound e = true end.

Lemma nb_deleted_mono `{ErrorClass} c id t t' :
  (forall e, e ∈ t -> e ∈ t') -> nb_deleted c id t -> nb_deleted c id t'.
Proof. intros Ht (r & ? & ?). exists r. auto. Qed.

Lemma delete_tolerant_spec `{ErrorClass} c id :
  wp (delete_tolerant c id) (fun t r => exists x, t = [Entry (NBDelete c id) x] /\
    (r = None -> nb_deleted c id t)).
Proof.
  unfold delete_tolerant. cbn. intros [e|]; cbn.
  - exists (Some e). split; [done|]. destruct (netbird_IsNotFound e) eqn:E; [|done].
    intros _. exists (Some e). split; [left|done].
  - exists None. split; [done|]. intros _. exists None. split; [left|done].
Qed.
Arguments delete_tolerant : simpl never.

(** ** Patches in a trace *)
Lemma patch_inj k (o o' : obj k) b b' x x' :
  Entry (resp := resp) (KPatch k o b) x = Entry (KPatch k o' b') x' -> o = o' /\ b = b'.
Proof.
  intros Heq. apply (f_equal entry_call) in Heq. cbn in Heq. injection Heq as Ho Hb.
  by apply inj_pair2 in Ho.
Qed.

(** Split the membership of a patch in a trace. *)
Ltac patch_cases Hnp :=
  let o := fresh "o" in let b := fresh "b" in let x := fresh "x" in let Hin := fresh "Hin" in
  intros o b x Hin;
  repeat match type of Hin with
  | _ ∈ _ ++ _ => apply elem_of_app in Hin as [Hin|Hin]; [exfalso; by apply (Hnp _ Hin)|]
  | _ ∈ _ :: _ => apply elem_of_cons in Hin as [Hin|Hin];
      [first [discriminate Hin | apply patch_inj in Hin as [-> ->]]|]
  | _ ∈ [] => by apply not_elem_of_nil in Hin
  end.

(** Find out which entry of an explicit trace a given entry is. *)
Ltac entry_cases :=
  repeat match goal with
  | H : Entry _ _ ∈ [] |- _ => by apply not_elem_of_nil in H
  | H : Entry _ _ ∈ _ :: _ |- _ => apply elem_of_cons in H as [H|H]; [try discriminate H|]
  | H : Entry (KPatch _ _ _) _ = Entry (KPatch _ _ _) _ |- _ =>
      apply patch_inj in H as [H ?]; simplify_eq
  | H : Entry ?c _ = Entry ?c _ |- _ => apply Entry_inj in H; simplify_eq
  end.
