(* ===== verification/Mirror.v ===== *)
(** * The generic mirror reconciler

    [internal/controller/mirror.go]: one reconciler drives every CRD that
    mirrors a NetBird object.  The per-kind behaviour is the record [mirror];
    [MirrorBehaviour] is what the reconciler relies on (an upsert or a delete
    never patches the custom resource itself), and each kind's file discharges
    it. *)

From stdpp Require Import base gmap list strings.
From Stdlib Require Import ZArith Lia.
From S2P Require Import Prelude GoStrings GoErr Prog ApiTypes K8sTypes ApplyConf Env NetbirdUtil Reconcile.

Open Scope Z_scope.
Open Scope prog_scope.

(** The Go [apply] mutates the object it is given, also on the way to an
    error: it returns the object next to the error. *)
Record mirror (k : kind) := mkMirror {
  m_kind : string;
  m_finalizer : string;
  m_apply : obj k -> M (obj k * option error);
  m_del : obj k -> M (option error);
  m_inUseMsg : string
}.
Arguments mkMirror {k}.
Arguments m_kind {k}.
Arguments m_finalizer {k}.
Arguments m_apply {k}.
Arguments m_del {k}.
Arguments m_inUseMsg {k}.

Section mirror.
Context `{ErrorClass} `{K8sLib} {k : kind} `{MirrorObject k}.

Definition in_use_message (m : mirror k) : string :=
  if String.eqb (m_inUseMsg m) "" then
    "NetBird " +:+ m_kind m +:+ " still in use; retrying deletion"
  else m_inUseMsg m.

Definition reconcileDelete (m : mirror k) (rec : bool) (o : obj k) : M outcome :=
  let! err := m_del m o in
  let finish :=
    let o' := remove_finalizer o (Finalizer (m_finalizer m)) in
    do^ patch o' in
    Ret (no_requeue, None) in
  match err with
  | None => finish
  | Some e =>
      if netbird_IsNotFound e then finish
      else if IsConflict e then
        do! recordEvent rec reasonInUse (in_use_message m) in
        Ret (requeue_after cleanupRetry, None)
      else Ret (fail_with e)
  end.

Definition Reconcile (m : mirror k) (rec : bool) (ns name : string) : M outcome :=
  let! got := ask (KGet k ns name) in
  match got with
  | Err e => Ret (no_requeue, IgnoreNotFound e)
  | Ok o =>
      if deleting (GetMeta o) then reconcileDelete m rec o
      else
        let o1 := add_finalizer o (Finalizer (m_finalizer m)) in
        do^ patch o1 in
        let! '(o2, err) := m_apply m o1 in
        match err with
        | Some e =>
            if errors_Is e ErrDependencyNotReady then
              do^ patch (mark_not_ready o2 (Error e)) in
              Ret (requeue_after dependencyRetry, None)
            else Ret (fail_with e)
        | None =>
            do^ patch_observed (mark_ready o2) in
            Ret (requeue_after resyncInterval, None)
        end
  end.
End mirror.

(** [""] when the recorded object is gone, so that the caller recreates it. *)
Definition verifyNetbirdID `{ErrorClass} (id : string) (get : string -> M (option error)) :
    M (result error string) :=
  if String.eqb id "" then Ret (Ok ""%string)
  else
    let! err := get id in
    Ret (match err with
         | None => Ok id
         | Some e => if netbird_IsNotFound e then Ok ""%string else Err e
         end).

(** The closures the callers pass to [verifyNetbirdID]. *)
Definition get_err (c : coll) (id : string) : M (option error) :=
  let! r := ask (NBGet c id) in Ret (err_of r).

Definition ref_text (ref : CrossNamespaceReference) : string :=
  ref_Namespace ref +:+ "/" +:+ ref_Name ref.

Definition resolveNetworkID `{ErrorClass} (ref : CrossNamespaceReference) :
    M (result error string) :=
  let! got := ask (KGet KNetwork (ref_Namespace ref) (ref_Name ref)) in
  Ret (match got with
       | Err e =>
           if kerrors_IsNotFound e
           then Err (dependency_not_ready ("Network " +:+ ref_text ref +:+ " not found"))
           else Err e
       | Ok n =>
           if String.eqb (net_NetworkID (Network_Status n)) ""
           then Err (dependency_not_ready
                       ("Network " +:+ ref_text ref +:+ " has no network id yet"))
           else Ok (net_NetworkID (Network_Status n))
       end).

Definition resolveZoneID `{ErrorClass} (ref : CrossNamespaceReference) :
    M (result error string) :=
  let! got := ask (KGet KDNSZone (ref_Namespace ref) (ref_Name ref)) in
  Ret (match got with
       | Err e =>
           if kerrors_IsNotFound e
           then Err (dependency_not_ready ("DNSZone " +:+ ref_text ref +:+ " not found"))
           else Err e
       | Ok z =>
           if String.eqb (zone_ZoneID (DNSZone_Status z)) ""
           then Err (dependency_not_ready
                       ("DNSZone " +:+ ref_text ref +:+ " has no zone id yet"))
           else Ok (zone_ZoneID (DNSZone_Status z))
       end).

(** ** What the reconciler guarantees *)

(** Calls that touch the custom resource of kind [k]. *)
Definition patches (k : kind) (e : event) : Prop :=
  match e with Entry (KPatch k' _ _) _ => k' = k | _ => False end.

Definition nb_write (e : event) : Prop := is_nb_write (entry_call e) = true.

(** The object was persisted with the finalizer. *)
Definition persisted_with {k} `{MirrorObject k} (f : string) (e : event) : Prop :=
  exists o, e = Entry (KPatch k o false) None /\ has_finalizer o f.

(** The object was read while being deleted. *)
Definition read_deleting (k : kind) `{MirrorObject k} (ns name : string) (e : event) : Prop :=
  exists o : obj k, e = Entry (KGet k ns name) (Ok o) /\ deleting (GetMeta o) = true.

Definition not_patch (k : kind) (c : call) : Prop :=
  match c with KPatch k' _ _ => k' <> k | _ => True end.

Lemma calls_no_patch {A} k (p : M A) :
  calls_in (not_patch k) p -> wp p (fun t _ => forall e, e ∈ t -> ~ patches k e).
Proof.
  intros Hp. eapply wp_mono; [by apply calls_in_wp|].
  intros t a Ht [c r] Hin Hc. apply Ht in Hin. by destruct c.
Qed.

Lemma read_not_patch k c : is_read c -> not_patch k c.
Proof. by destruct c. Qed.

Lemma GetGroupIDs_not_patch k refs ns : calls_in (not_patch k) (GetGroupIDs refs ns).
Proof. eapply calls_in_mono; [apply read_not_patch|auto with go_hints]. Qed.

Lemma GetDNSZoneByName_not_patch k n : calls_in (not_patch k) (GetDNSZoneByName n).
Proof. eapply calls_in_mono; [apply read_not_patch|auto with go_hints]. Qed.

Lemma GetProxyClusterByAddress_not_patch k a :
  calls_in (not_patch k) (GetProxyClusterByAddress a).
Proof. eapply calls_in_mono; [apply read_not_patch|auto with go_hints]. Qed.
#[export] Hint Resolve GetGroupIDs_not_patch GetDNSZoneByName_not_patch
  GetProxyClusterByAddress_not_patch : go_hints.

(** Discharge the clauses of [MirrorBehaviour]. *)
Ltac behaviour_calls := apply calls_no_patch; calls_run
  ltac:(first [apply calls_in_bind_result | solve [auto with go_hints]]).
Ltac behaviour_meta :=
  repeat first
    [ progress cbn
    | match goal with
      | |- forall _, _ => intros ?
      | |- wp (bind _ _) _ => apply wp_bind_post
      end
    | case_scrut
    | done ].

(** The object a kind hands to and gets from the reconciler is only patched by
    the reconciler, and its metadata is left alone. *)
Class MirrorBehaviour {k} `{MirrorObject k} (m : mirror k) := {
  apply_no_patch : forall o, wp (m_apply m o) (fun t _ => forall e, e ∈ t -> ~ patches k e);
  apply_keeps_meta : forall o, wp (m_apply m o) (fun _ r => GetMeta r.1 = GetMeta o);
  del_no_patch : forall o, wp (m_del m o) (fun t _ => forall e, e ∈ t -> ~ patches k e)
}.

Section mirror_props.
Context `{ErrorClassLaws} `{K8sLibLaws} {k : kind} `{MirrorObjectLaws k}.
Implicit Types (m : mirror k) (o : obj k) (t : history) (out : outcome).

(** Inversion of a run, by the way it ended: the object could not be read,
    was being deleted, could not be finalized, or was applied. *)
Lemma Reconcile_inv m rec ns name t out :
  runs (Reconcile m rec ns name) t out ->
  (exists e, t = [Entry (KGet k ns name) (Err e)] /\ out = (no_requeue, IgnoreNotFound e)) \/
  (exists o t', t = Entry (KGet k ns name) (Ok o) :: t' /\ deleting (GetMeta o) = true /\
     runs (reconcileDelete m rec o) t' out) \/
  (exists o o1 e, o1 = add_finalizer o (Finalizer (m_finalizer m)) /\
     t = [Entry (KGet k ns name) (Ok o); Entry (KPatch k o1 false) (Some e)] /\
     out = fail_with e) \/
  (exists o o1 ta o2 err tl, o1 = add_finalizer o (Finalizer (m_finalizer m)) /\
     deleting (GetMeta o) = false /\
     runs (m_apply m o1) ta (o2, err) /\
     t = Entry (KGet k ns name) (Ok o) :: Entry (KPatch k o1 false) None :: ta ++ tl /\
     match err with
     | Some e =>
         if errors_Is e ErrDependencyNotReady then
           exists perr, tl = [Entry (KPatch k (mark_not_ready o2 (Error e)) false) perr] /\
             out = match perr with
                   | None => (requeue_after dependencyRetry, None)
                   | Some pe => fail_with pe
                   end
         else tl = [] /\ out = fail_with e
     | None =>
         exists perr, tl = [Entry (KPatch k (mark_ready o2) true) perr] /\
           out = match perr with
                 | None => (requeue_after resyncInterval, None)
                 | Some pe => fail_with pe
                 end
     end).
Proof.
  revert t out. apply wp_runs. cbn. intros [o|e]; cbn; [|left; eauto].
  destruct (deleting (GetMeta o)) eqn:Hd.
  - apply wp_all. intros t out Hr. right; left. eauto.
  - cbn. intros [e|]; cbn; [right; right; left; eauto 10|].
    apply wp_bind, wp_all. intros ta [o2 err] Ha. cbn.
    destruct err as [e|]; [destruct (errors_Is e ErrDependencyNotReady) eqn:He|].
    + cbn. intros [pe|]; cbn; right; right; right;
        eexists o, _, ta, o2, (Some e), _; rewrite He; repeat split; eauto.
    + cbn. right; right; right. eexists o, _, ta, o2, (Some e), [].
      rewrite He. repeat split; eauto.
    + cbn. intros [pe|]; cbn; right; right; right;
        eexists o, _, ta, o2, None, _; repeat split; eauto.
Qed.

Lemma reconcileDelete_inv m rec o t out :
  runs (reconcileDelete m rec o) t out ->
  exists td derr tl, runs (m_del m o) td derr /\ t = td ++ tl /\
  ( ((derr = None \/ exists e, derr = Some e /\ netbird_IsNotFound e = true) /\
     exists perr,
       tl = [Entry (KPatch k (remove_finalizer o (Finalizer (m_finalizer m))) false) perr] /\
       out = match perr with None => (no_requeue, None) | Some pe => fail_with pe end)
  \/ (exists e, derr = Some e /\ netbird_IsNotFound e = false /\
       if IsConflict e then
         tl = (if rec
               then [Entry (RecordEvent EventWarning reasonInUse (in_use_message m)) tt]
               else []) /\
         out = (requeue_after cleanupRetry, None)
       else tl = [] /\ out = fail_with e)).
Proof.
  revert t out. apply wp_runs, wp_bind, wp_all. intros td derr Hd.
  destruct derr as [e|]; [destruct (netbird_IsNotFound e) eqn:Hn;
                          [|destruct (IsConflict e) eqn:Hc]|].
  - cbn. intros [pe|]; cbn; exists td, (Some e); eexists;
      (split; [done|split; [done|]]); left; (split; [eauto|]); eexists; done.
  - destruct rec; cbn; [intros []|]; exists td, (Some e); eexists; rewrite ?Hc;
      (split; [done|split; [done|]]); right; exists e; rewrite Hc; eauto.
  - cbn. exists td, (Some e); eexists. (split; [done|split; [done|]]).
    right; exists e; rewrite Hc; eauto.
  - cbn. intros [pe|]; cbn; exists td, None; eexists;
      (split; [done|split; [done|]]); left; (split; [eauto|]); eexists; done.
Qed.
Lemma nb_write_patch (o : obj k) b r : ~ nb_write (Entry (KPatch k o b) r).
Proof. done. Qed.

(** C2: no NetBird object is created, changed or deleted before the custom
    resource carries the finalizer (or was read while being deleted), so a
    NetBird object the operator made can always be cleaned up. *)
Theorem Reconcile_finalizer_first m rec ns name t out :
  runs (Reconcile m rec ns name) t out ->
  preceded t nb_write (fun e =>
    persisted_with (k := k) (Finalizer (m_finalizer m)) e \/ read_deleting k ns name e).
Proof.
  intros [(e & -> & ->)|[(o & t' & -> & Hd & _)|[(o & o1 & e & -> & -> & _)|
    (o & o1 & ta & o2 & err & tl & -> & Hd & _ & -> & _)]]]%Reconcile_inv.
  - apply preceded_cons_not; [done|auto with go_hints].
  - apply preceded_cons_yes; [done|]. right. by exists o.
  - apply preceded_cons_not, preceded_cons_not; [done..|auto with go_hints].
  - apply preceded_cons_not, preceded_cons_yes; [done..|]. left.
    eexists. split; [done|]. apply add_finalizer_has.
Qed.

(** C3: the resource is only reported (status patched with its observed
    generation) after the upsert of this very reconcile returned no error,
    and it then carries Ready=True. *)
Theorem Reconcile_ready m `{!MirrorBehaviour m} rec ns name t out o r :
  runs (Reconcile m rec ns name) t out ->
  Entry (KPatch k o true) r ∈ t ->
  is_ready o /\ exists o0 ta o2 t1 t2,
    Entry (KGet k ns name) (Ok o0) ∈ t1 /\
    runs (m_apply m (add_finalizer o0 (Finalizer (m_finalizer m)))) ta (o2, None) /\
    o = mark_ready o2 /\ t = t1 ++ ta ++ t2.
Proof.
  intros [(e & -> & ->)|[(o0 & t' & -> & Hd & Hr)|[(o0 & o1 & e & -> & -> & _)|
    (o0 & o1 & ta & o2 & err & tl & -> & Hd & Ha & -> & Htl)]]]%Reconcile_inv Hin.
  - set_solver.
  - exfalso. apply reconcileDelete_inv in Hr as (td & derr & tl & Hdel & -> & Htl).
    apply elem_of_cons in Hin as [?|[Hin|Hin]%elem_of_app]; [done|..].
    + by apply (wp_elim _ _ _ _ (del_no_patch o0) Hdel) in Hin.
    + destruct Htl as [(_ & perr & -> & _)|(e & _ & _ & Htl)].
      * apply list_elem_of_singleton in Hin. simplify_eq.
      * destruct (IsConflict e), rec; destruct Htl as [-> _]; set_solver.
  - set_solver.
  - rewrite !elem_of_cons, elem_of_app in Hin.
    destruct Hin as [?|[?|[Hin|Hin]]]; [done| |
      by apply (wp_elim _ _ _ _ (apply_no_patch _) Ha) in Hin|].
    { simplify_eq. }
    destruct err as [e|].
    + destruct (errors_Is e _); [destruct Htl as (? & -> & _)|destruct Htl as [-> _]];
        [|set_solver].
      apply list_elem_of_singleton in Hin. simplify_eq.
    + destruct Htl as (perr & -> & _). apply list_elem_of_singleton in Hin. simplify_eq.
      split; [apply mark_ready_ready|].
      exists o0, ta, o2, [Entry (KGet k ns name) (Ok o0);
        Entry (KPatch k (add_finalizer o0 (Finalizer (m_finalizer m))) false) None].
      eexists. repeat split; [left|done].
Qed.

Lemma apply_result_finalizer m `{!MirrorBehaviour m} o ta o2 err :
  runs (m_apply m (add_finalizer o (Finalizer (m_finalizer m)))) ta (o2, err) ->
  has_finalizer o2 (Finalizer (m_finalizer m)).
Proof.
  intros Ha. pose proof (wp_elim _ _ _ _ (apply_keeps_meta _) Ha) as Hm. cbn in Hm.
  unfold has_finalizer. rewrite Hm. apply add_finalizer_has.
Qed.

(** C4: the finalizer is only ever taken off an object that is being
    deleted, and only after this reconcile's delete returned no error or
    not-found; while NetBird reports the object in use (a conflict) nothing
    is patched and the delete is retried. *)
Theorem Reconcile_finalizer_released m `{!MirrorBehaviour m} rec ns name t out o b r :
  runs (Reconcile m rec ns name) t out ->
  Entry (KPatch k o b) r ∈ t ->
  ~ has_finalizer o (Finalizer (m_finalizer m)) ->
  exists o0 td derr,
    deleting (GetMeta o0) = true /\
    o = remove_finalizer o0 (Finalizer (m_finalizer m)) /\
    runs (m_del m o0) td derr /\
    t = Entry (KGet k ns name) (Ok o0) :: td ++ [Entry (KPatch k o b) r] /\
    match derr with None => True | Some e => netbird_IsNotFound e = true end.
Proof.
  intros [(e & -> & ->)|[(o0 & t' & -> & Hd & Hr)|[(o0 & o1 & e & -> & -> & _)|
    (o0 & o1 & ta & o2 & err & tl & -> & Hd & Ha & -> & Htl)]]]%Reconcile_inv Hin Hno.
  - set_solver.
  - apply reconcileDelete_inv in Hr as (td & derr & tl & Hdel & -> & Htl).
    apply elem_of_cons in Hin as [?|[Hin|Hin]%elem_of_app]; [done|..].
    + by apply (wp_elim _ _ _ _ (del_no_patch o0) Hdel) in Hin.
    + destruct Htl as [(Hderr & perr & -> & _)|(e & _ & _ & Htl)].
      * apply list_elem_of_singleton in Hin. rewrite <- Hin.
        exists o0, td, derr. split; [done|]. split; [by simplify_eq|].
        split; [done|]. split; [done|]. by destruct Hderr as [->|(e & -> & ?)].
      * destruct (IsConflict e), rec; destruct Htl as [-> _]; set_solver.
  - rewrite elem_of_cons, list_elem_of_singleton in Hin.
    destruct Hin as [?|?]; [done|]. simplify_eq. by destruct (Hno (add_finalizer_has _ _)).
  - destruct Hno. pose proof (apply_result_finalizer _ _ _ _ _ Ha) as Hf.
    rewrite !elem_of_cons, elem_of_app in Hin.
    destruct Hin as [?|[?|[Hin|Hin]]]; [done| |
      by apply (wp_elim _ _ _ _ (apply_no_patch _) Ha) in Hin|].
    { simplify_eq. apply add_finalizer_has. }
    assert (o = mark_ready o2 \/ exists msg, o = mark_not_ready o2 msg) as Ho.
    { destruct err as [e|]; [destruct (errors_Is e _)|];
        [destruct Htl as (? & -> & _)|destruct Htl as [-> _]|destruct Htl as (? & -> & _)];
        rewrite ?list_elem_of_singleton in Hin; [|set_solver|]; simplify_eq; eauto. }
    unfold has_finalizer in *. destruct Ho as [->|(msg & ->)]; unfold mark_ready, mark_not_ready;
      by rewrite meta_set_conditions.
Qed.

(** C5: no object is dropped: unless the object no longer exists, or it was
    being deleted and its finalizer has just been removed, a reconcile
    returns an error or asks to be run again - after [resyncInterval] when
    the upsert succeeded, after [dependencyRetry] when it waits for a
    dependency, after [cleanupRetry] when NetBird still uses the object. *)
Theorem Reconcile_requeues m rec ns name t out :
  runs (Reconcile m rec ns name) t out ->
  match out with
  | (_, Some _) => True
  | (mkResult (Some d), None) =>
      (d = resyncInterval /\ exists o0 ta o2, runs (m_apply m o0) ta (o2, None) /\ ta `sublist_of` t)
      \/ (d = dependencyRetry /\ exists o0 ta o2 e, runs (m_apply m o0) ta (o2, Some e) /\
            ta `sublist_of` t /\ errors_Is e ErrDependencyNotReady = true /\
            last t = Some (Entry (KPatch k (mark_not_ready o2 (Error e)) false) None))
      \/ (d = cleanupRetry /\ exists o0 td e, runs (m_del m o0) td (Some e) /\
            td `sublist_of` t /\ IsConflict e = true)
  | (mkResult None, None) =>
      (exists e, t = [Entry (KGet k ns name) (Err e)] /\ kerrors_IsNotFound e = true)
      \/ (exists o0, Entry (KGet k ns name) (Ok o0) ∈ t /\ deleting (GetMeta o0) = true /\
            last t = Some (Entry (KPatch k (remove_finalizer o0 (Finalizer (m_finalizer m))) false) None))
  end.
Proof.
  intros [(e & -> & ->)|[(o0 & t' & -> & Hd & Hr)|[(o0 & o1 & e & -> & -> & ->)|
    (o0 & o1 & ta & o2 & err & tl & -> & Hd & Ha & -> & Htl)]]]%Reconcile_inv.
  - rewrite ignore_not_found_spec. cbn. destruct (kerrors_IsNotFound e) eqn:?; eauto.
  - apply reconcileDelete_inv in Hr as (td & derr & tl & Hdel & -> & Htl).
    destruct Htl as [(Hderr & [pe|] & -> & ->)|(e & -> & _ & Htl)]; [done|..].
    + right. exists o0. split; [left|]. split; [done|]. by rewrite app_comm_cons, last_snoc.
    + destruct (IsConflict e) eqn:Hc; destruct Htl as [_ ->]; [|done].
      right; right. split; [done|]. exists o0, td, e. split; [done|]. split; [|done].
      apply sublist_cons, sublist_inserts_r. done.
  - done.
  - assert (ta `sublist_of` Entry (KGet k ns name) (Ok o0) ::
             Entry (KPatch k (add_finalizer o0 (Finalizer (m_finalizer m))) false) None :: ta ++ tl)
      by (apply sublist_cons, sublist_cons, sublist_inserts_r; done).
    destruct err as [e|]; [destruct (errors_Is e _) eqn:He|].
    + destruct Htl as ([pe|] & -> & ->); [done|]. right; left. split; [done|].
      eexists _, ta, o2, e. repeat split; [done..|]. by rewrite !app_comm_cons, last_snoc.
    + by destruct Htl as [_ ->].
    + destruct Htl as ([pe|] & -> & ->); [done|]. left. split; [done|]. eauto.
Qed.
End mirror_props.

(** ** Upserts

    What the [apply] of a kind promises about one collection: an object is
    only created when none is recorded or the recorded one was just found
    missing, an update addresses the recorded object after finding it, both
    carry the request built from the spec, nothing else is written, and on
    success the id NetBird answered with is the one recorded. *)
Definition upsert_spec `{ErrorClass} (c : coll) (recorded : string) (creq : create_req c)
    (ureq : update_req c) (id_of : item c -> string) (t : history) (id' : string)
    (err : option error) : Prop :=
  (forall e, e ∈ t -> nb_write e ->
     (exists r, e = Entry (NBCreate c creq) r /\
        (recorded = "" \/ exists g, Entry (NBGet c recorded) (Err g) ∈ t /\
                                 netbird_IsNotFound g = true)) \/
     (exists r x, e = Entry (NBUpdate c recorded ureq) r /\
        recorded <> "" /\ Entry (NBGet c recorded) (Ok x) ∈ t)) /\
  (err = None -> exists x, id_of x = id' /\
     (Entry (NBCreate c creq) (Ok x) ∈ t \/ Entry (NBUpdate c recorded ureq) (Ok x) ∈ t)).

(** A program that only reads satisfies the first clause for any collection. *)
Lemma read_not_write c r : is_read c -> ~ nb_write (Entry c r).
Proof. by destruct c. Qed.

Lemma reads_no_writes {A} (p : M A) :
  calls_in is_read p -> wp p (fun t _ => forall e, e ∈ t -> ~ nb_write e).
Proof.
  intros Hp. eapply wp_mono; [by apply calls_in_wp|].
  intros t a Ht [c r] Hin. apply Ht in Hin. by apply read_not_write.
Qed.

(** Take a goal about the explicit trace of a straight-line run apart. *)
Ltac trace_cases :=
  repeat match goal with
  | |- _ /\ _ => split
  | |- ~ _ => intros ?
  | |- forall _, _ => intros ?
  | H : _ ∈ _ :: _ |- _ => apply elem_of_cons in H as [->|H]
  | H : _ ∈ [] |- _ => by apply not_elem_of_nil in H
  | H : _ ∈ _ ++ _ |- _ => apply elem_of_app in H as [H|H]
  | H : ?e ∈ ?t, H' : nb_write ?e, H'' : forall e, e ∈ ?t -> ~ nb_write e |- _ =>
      destruct (H'' e H H')
  | H : nb_write _ |- _ => first [discriminate H|clear H]
  | H : Some _ = None |- _ => discriminate H
  end.

(** Find the clause and the witnesses for the trace at hand. *)
Ltac upsert_finish :=
  solve
    [ left; eexists; split; [reflexivity|];
      first [left; done | right; eexists; split; [in_trace|done]]
    | right; do 2 eexists; split; [reflexivity|]; split; [done|in_trace]
    | eexists; split; [reflexivity|]; first [left; in_trace|right; in_trace] ].
