(* ===== verification/NetworkMirror.v ===== *)
(** * Network and NetworkResource

    [network_mirror.go] and [networkresource_mirror.go]: the upsert of a
    NetBird network, and of a resource inside the network a [NetworkResource]
    refers to. *)

From stdpp Require Import base gmap list strings.
From Stdlib Require Import ZArith Lia.
From S2P Require Import Prelude GoStrings GoErr Prog ApiTypes K8sTypes ApplyConf Env NetbirdUtil Reconcile Mirror.

Open Scope Z_scope.
Open Scope prog_scope.

(** Assignments to the status. *)
Definition set_net_id (n : Network) (id : string) : Network :=
  let st := Network_Status n in
  mkNetwork (Network_Meta n) (Network_Spec n)
    (mkNetworkStatus (net_ObservedGeneration st) (net_Conditions st) id).

Definition set_nres_ids (n : NetworkResource) (network resource : string) : NetworkResource :=
  let st := NetworkResource_Status n in
  mkNetworkResource (NetworkResource_Meta n) (NetworkResource_Spec n)
    (mkNetworkResourceStatus (nres_ObservedGeneration st) (nres_Conditions st) network resource).

(** [if s != "" { req.Description = &s }]. *)
Definition if_set (s : string) : option string := if String.eqb s "" then None else Some s.

Section network.
Context `{ErrorClass} `{K8sLib}.

Definition network_request (n : Network) : api.NetworkRequest :=
  api.mkNetworkRequest (net_Name (Network_Spec n)) (if_set (net_Description (Network_Spec n))).

Definition applyNetwork (net : Network) : M (Network * option error) :=
  let req := network_request net in
  let! verified := verifyNetbirdID (net_NetworkID (Network_Status net)) (get_err CNetworks) in
  match verified with
  | Err e => Ret (net, Some e)
  | Ok networkID =>
      let net := set_net_id net networkID in
      if negb (String.eqb networkID "") then
        let! r := ask (NBUpdate CNetworks networkID req) in
        Ret (match r with
             | Err e => (net, Some e)
             | Ok resp => (set_net_id net (api.n_Id resp), None)
             end)
      else
        let! r := ask (NBCreate CNetworks req) in
        Ret (match r with
             | Err e => (net, Some e)
             | Ok resp => (set_net_id net (api.n_Id resp), None)
             end)
  end.

Definition deleteNetwork (net : Network) : M (option error) :=
  if String.eqb (net_NetworkID (Network_Status net)) "" then Ret None
  else ask (NBDelete CNetworks (net_NetworkID (Network_Status net))).

Definition NewNetworkReconciler : mirror KNetwork :=
  mkMirror (k := KNetwork) "Network" "network" applyNetwork deleteNetwork "".

Definition nres_request (nr : NetworkResource) (groupIDs : list string) :
    api.NetworkResourceRequest :=
  let spec := NetworkResource_Spec nr in
  api.mkNetworkResourceRequest (nres_Address spec) (if_set (nres_Description spec))
    (nres_Enabled spec) groupIDs (nres_Name spec).

(** The status after the network id is known. *)
Definition rehome_resource (nr : NetworkResource) (networkID : string) : NetworkResource :=
  let st := NetworkResource_Status nr in
  set_nres_ids nr networkID
    (if negb (String.eqb (nres_NetworkID st) "") && negb (String.eqb (nres_NetworkID st) networkID)
     then "" else nres_ResourceID st).

Definition applyNetworkResource (nr : NetworkResource) : M (NetworkResource * option error) :=
  let! resolved := resolveNetworkID (nres_NetworkRef (NetworkResource_Spec nr)) in
  match resolved with
  | Err e => Ret (nr, Some e)
  | Ok networkID =>
      let nr := rehome_resource nr networkID in
      let! groups := GetGroupIDs (nres_Groups (NetworkResource_Spec nr))
                       (meta_Namespace (NetworkResource_Meta nr)) in
      match groups with
      | Err e => Ret (nr, Some e)
      | Ok groupIDs =>
          let req := nres_request nr groupIDs in
          let! verified := verifyNetbirdID (nres_ResourceID (NetworkResource_Status nr))
                             (get_err (CResources networkID)) in
          match verified with
          | Err e => Ret (set_nres_ids nr networkID "", Some e)
          | Ok resourceID =>
              let nr := set_nres_ids nr networkID resourceID in
              if negb (String.eqb resourceID "") then
                let! r := ask (NBUpdate (CResources networkID) resourceID req) in
                Ret (match r with
                     | Err e => (nr, Some e)
                     | Ok resp => (set_nres_ids nr networkID (api.r_Id resp), None)
                     end)
              else
                let! r := ask (NBCreate (CResources networkID) req) in
                Ret (match r with
                     | Err e => (nr, Some e)
                     | Ok resp => (set_nres_ids nr networkID (api.r_Id resp), None)
                     end)
          end
      end
  end.

Definition deleteNetworkResource (nr : NetworkResource) : M (option error) :=
  let st := NetworkResource_Status nr in
  if String.eqb (nres_ResourceID st) "" || String.eqb (nres_NetworkID st) "" then Ret None
  else ask (NBDelete (CResources (nres_NetworkID st)) (nres_ResourceID st)).

Definition NewNetworkResourceReconciler : mirror KNetworkResource :=
  mkMirror (k := KNetworkResource) "NetworkResource" "networkresource" applyNetworkResource deleteNetworkResource
    "NetBird resource still in use (referenced by a proxy or policy); retrying deletion".
End network.

#[export] Instance Network_behaviour `{ErrorClass} : MirrorBehaviour NewNetworkReconciler.
Proof.
  constructor; intros net; cbn [m_apply m_del NewNetworkReconciler]; unfold applyNetwork, deleteNetwork, verifyNetbirdID, get_err;
    [behaviour_calls|behaviour_meta|behaviour_calls].
Qed.

#[export] Instance NetworkResource_behaviour `{ErrorClass} :
  MirrorBehaviour NewNetworkResourceReconciler.
Proof.
  constructor; intros nr; cbn [m_apply m_del NewNetworkResourceReconciler]; unfold applyNetworkResource, deleteNetworkResource,
    resolveNetworkID, verifyNetbirdID, get_err;
    [behaviour_calls|behaviour_meta|behaviour_calls].
Qed.

(** The stale-parent test, as a proposition. *)
Lemma stale_parent (old new id : string) :
  (if negb (String.eqb old "") && negb (String.eqb old new) then ""%string else id) =
  (if bool_decide (old = ""%string \/ old = new) then id else ""%string).
Proof.
  destruct (String.eqb_spec old ""), (String.eqb_spec old new); cbn;
    case_bool_decide; naive_solver.
Qed.

Section upserts.
Context `{ErrorClass}.

(** The upsert of a Network creates a NetBird network only when none is
    recorded or the recorded one was just found missing, otherwise updates
    the recorded one, sends the spec, writes nothing else, and records the
    id NetBird answered with. *)
Theorem applyNetwork_upsert net :
  wp (applyNetwork net) (fun t r =>
    upsert_spec CNetworks (net_NetworkID (Network_Status net)) (network_request net)
      (network_request net) api.n_Id t (net_NetworkID (Network_Status r.1)) r.2).
Proof.
  unfold applyNetwork, verifyNetbirdID, get_err, upsert_spec.
  wp_run; bool_prop; subst; trace_cases; upsert_finish.
Qed.

(** C9: a NetworkResource is only written inside the network its reference
    resolves to, with the group ids its references resolve to; a resource
    recorded under another network id is not looked up or updated but
    created anew, and otherwise the upsert contract of its collection
    holds. *)
Theorem applyNetworkResource_upsert nr :
  wp (applyNetworkResource nr) (fun t r =>
    let spec := NetworkResource_Spec nr in
    let st := NetworkResource_Status nr in
    (forall e, e ∈ t -> ~ nb_write e) /\ r.2 <> None \/
    exists n tg groupIDs,
      let networkID := net_NetworkID (Network_Status n) in
      networkID <> "" /\
      Entry (KGet KNetwork (ref_Namespace (nres_NetworkRef spec))
               (ref_Name (nres_NetworkRef spec))) (Ok n) ∈ t /\
      runs (GetGroupIDs (nres_Groups spec) (meta_Namespace (NetworkResource_Meta nr)))
        tg (Ok groupIDs) /\ tg `sublist_of` t /\
      nres_NetworkID (NetworkResource_Status r.1) = networkID /\
      upsert_spec (CResources networkID)
        (if bool_decide (nres_NetworkID st = "" \/ nres_NetworkID st = networkID)
         then nres_ResourceID st else "")
        (nres_request nr groupIDs) (nres_request nr groupIDs) api.r_Id t
        (nres_ResourceID (NetworkResource_Status r.1)) r.2).
Proof.
  unfold applyNetworkResource, resolveNetworkID, rehome_resource. cbn.
  intros [n|e]; [|cbn; case_scrut; cbn; left; trace_cases; done].
  destruct (String.eqb_spec (net_NetworkID (Network_Status n)) "") as [|Hid];
    [cbn; left; trace_cases; done|].
  apply wp_bind. eapply wp_mono;
    [apply wp_and; [apply reads_no_writes; auto with go_hints|by apply wp_all]|].
  intros tg [ids|e] [Hnw Hruns]; cbn; [|left; trace_cases; done].
  rewrite stale_parent. set (recorded := if bool_decide _ then _ else _).
  unfold verifyNetbirdID, get_err. wp_run; bool_prop; subst; right;
    exists n, tg, ids; (split; [done|]); (split; [in_trace|]); (split; [done|]);
    (split; [by apply sublist_cons, sublist_inserts_r|]); (split; [done|]).
  all: unfold upsert_spec; trace_cases; upsert_finish.
Qed.
End upserts.

(** ** The reconciler of a Network, on concrete runs *)
Module MirrorRuns.
Definition meta0 (fin : list string) (del : option Z) : ObjectMeta :=
    mkMeta "net" "default" "uid-1" ∅ ∅ fin del 1.
Definition net0 : Network :=
    mkNetwork (meta0 [] None) (mkNetworkSpec "corp" "") (mkNetworkStatus 0 [] "").
Definition net_del : Network :=
    mkNetwork (meta0 [Finalizer "network"] (Some 5)) (mkNetworkSpec "corp" "")
      (mkNetworkStatus 1 [] "n-1").
Definition fin0 := add_finalizer (k := KNetwork) net0 (Finalizer "network").
Definition applied := mark_ready (k := KNetwork) (set_net_id fin0 "n-1").

  (** Created on the first reconcile, and marked ready. *)
Definition t_create : history :=
    [Entry (KGet KNetwork "default" "net") (Ok net0);
     Entry (KPatch KNetwork fin0 false) None;
     Entry (NBCreate CNetworks (api.mkNetworkRequest "corp" None))
       (Ok (api.mkNetwork "n-1" "corp" None));
     Entry (KPatch KNetwork applied true) None].

  (** Deleted, after NetBird confirms. *)
Definition t_delete : history :=
    [Entry (KGet KNetwork "default" "net") (Ok net_del);
     Entry (NBDelete CNetworks "n-1") None;
     Entry (KPatch KNetwork (remove_finalizer (k := KNetwork) net_del (Finalizer "network")) false)
       None].

Lemma Reconcile_finalizer_first_witness :
    runs (Reconcile NewNetworkReconciler true "default" "net") t_create
      (requeue_after resyncInterval, None) /\
    preceded t_create nb_write (fun e =>
      persisted_with (k := KNetwork) (Finalizer "network") e
      \/ read_deleting KNetwork "default" "net" e).
Proof.
    assert (runs (Reconcile NewNetworkReconciler true "default" "net") t_create
              (requeue_after resyncInterval, None)) as Hr by run_by_eval.
    split; [exact Hr|].
    exact (Reconcile_finalizer_first NewNetworkReconciler true "default" "net" _ _ Hr).
Defined.

Lemma Reconcile_ready_witness :
    Entry (KPatch KNetwork applied true) None ∈ t_create /\
    is_ready (k := KNetwork) applied.
Proof.
    assert (runs (Reconcile NewNetworkReconciler true "default" "net") t_create
              (requeue_after resyncInterval, None)) as Hr by run_by_eval.
    assert (Entry (KPatch KNetwork applied true) None ∈ t_create) as Hin
      by (do 3 right; left).
    split; [exact Hin|].
    exact (proj1 (Reconcile_ready NewNetworkReconciler true "default" "net" _ _ _ _ Hr Hin)).
Defined.

Lemma Reconcile_finalizer_released_witness :
  exists o0 td derr,
    deleting (Network_Meta o0) = true /\
    remove_finalizer (k := KNetwork) net_del (Finalizer "network") =
      remove_finalizer (k := KNetwork) o0 (Finalizer "network") /\
    runs (deleteNetwork o0) td derr /\
    t_delete = Entry (KGet KNetwork "default" "net") (Ok o0) :: td ++
      [Entry (KPatch KNetwork
        (remove_finalizer (k := KNetwork) net_del (Finalizer "network")) false) None] /\
    match derr with None => True | Some e => netbird_IsNotFound e = true end.
Proof.
  assert (runs (Reconcile NewNetworkReconciler true "default" "net") t_delete
            (no_requeue, None)) as Hr by run_by_eval.
  apply (Reconcile_finalizer_released NewNetworkReconciler true "default" "net" _ _
           (remove_finalizer (k := KNetwork) net_del (Finalizer "network")) false None Hr).
  - do 2 right; left.
  - apply remove_finalizer_has.
Defined.

Lemma Reconcile_requeues_witness :
    runs (Reconcile NewNetworkReconciler true "default" "net") t_delete (no_requeue, None) /\
    ((exists e, t_delete = [Entry (KGet KNetwork "default" "net") (Err e)] /\
        kerrors_IsNotFound e = true) \/
     (exists o0, Entry (KGet KNetwork "default" "net") (Ok o0) ∈ t_delete /\
        deleting (GetMeta o0) = true /\
        last t_delete = Some (Entry (KPatch KNetwork
          (remove_finalizer (k := KNetwork) o0 (Finalizer "network")) false) None))).
Proof.
    assert (runs (Reconcile NewNetworkReconciler true "default" "net") t_delete
              (no_requeue, None)) as Hr by run_by_eval.
    split; [exact Hr|].
    exact (Reconcile_requeues NewNetworkReconciler true "default" "net" _ _ Hr).
Defined.
End MirrorRuns.
