(* ===== verification/ServiceAddr.v ===== *)
(** * Addresses and names of advertised Services ([serviceaddr.go])

    The names of the children of a LoadBalancer Service, the IP family of an
    address, and the comparison key of a DNS record. *)

From stdpp Require Import base list strings.
From Stdlib Require Import Ascii ZArith Lia.
From S2P Require Import Prelude GoStrings NetIP.

Open Scope Z_scope.

(** The annotations and the label of advertised Services
    ([loadbalancer_controller.go]). *)
Definition advertiseAnnotation : string := "netbird.io/advertise".
Definition groupsAnnotation : string := "netbird.io/groups".
Definition lbServiceLabel : string := "netbird.io/loadbalancer".

(** [corev1.IPFamily]. *)
Definition IPFamily := string.
Definition IPv4Protocol : IPFamily := "IPv4".
Definition IPv6Protocol : IPFamily := "IPv6".

Definition childName (svcName : string) (family : IPFamily) : string :=
  svcName +:+ "-" +:+ strings.ToLower family.

(** [5 * time.Minute], in nanoseconds. *)
Definition dnsRecordTTL : Z := 5 * 60 * 1000000000.

Definition serviceFQDN (svcName svcNamespace zoneDomain : string) : string :=
  svcName +:+ "-" +:+ svcNamespace +:+ "." +:+ zoneDomain.

Record familyAddress := mkFamilyAddress { fa_family : IPFamily; fa_address : string }.

Definition ipFamilyOf (ip : string) : IPFamily :=
  match net.ParseIP ip with
  | None => ""%string
  | Some parsed =>
      match net.To4 parsed with
      | Some _ => IPv4Protocol
      | None => IPv6Protocol
      end
  end.

Definition DNSRecordTypeA : string := "A".
Definition DNSRecordTypeAAAA : string := "AAAA".

Definition dnsRecordTypeFor (ip : string) : string * bool :=
  if String.eqb (ipFamilyOf ip) IPv4Protocol then (DNSRecordTypeA, true)
  else if String.eqb (ipFamilyOf ip) IPv6Protocol then (DNSRecordTypeAAAA, true)
  else (""%string, false).

Definition recordMatchKey (recordType content : string) : string :=
  let content := match net.ParseIP content with
                 | Some ip => net.IP_String ip
                 | None => content
                 end in
  recordType +:+ "|" +:+ content.

Lemma ipFamilyOf_cases ip :
  ipFamilyOf ip = IPv4Protocol \/ ipFamilyOf ip = IPv6Protocol \/ ipFamilyOf ip = ""%string.
Proof. unfold ipFamilyOf. repeat case_scrut; auto. Qed.

Lemma dnsRecordTypeFor_valid ip :
  snd (dnsRecordTypeFor ip) = true <-> is_Some (net.ParseIP ip).
Proof.
  unfold dnsRecordTypeFor, ipFamilyOf. destruct (net.ParseIP ip) as [p|]; cbn.
  - destruct (net.To4 p); cbn; split; eauto.
  - split; [done|by intros [? ?]].
Qed.

(** The same record content: the same address, or the same text of something
    that is no address. *)
Definition same_content (c c' : string) : Prop :=
  match net.ParseIP c, net.ParseIP c' with
  | Some ip, Some ip' => ip = ip'
  | None, None => c = c'
  | _, _ => False
  end.

(** C15: the comparison key of DNS records. Every textual form of an address has
    the key of its canonical form, and two records (their types without a bar)
    have the same key exactly when their types agree and their contents are the
    same address, or the same text when they are no addresses. *)
Theorem recordMatchKey_canonical :
  (forall ty c ip, net.ParseIP c = Some ip ->
     recordMatchKey ty (net.IP_String ip) = recordMatchKey ty c /\ net.ParseIP (net.IP_String ip) = Some ip) /\
  (forall ty ty' c c', has_byte "|" ty = false -> has_byte "|" ty' = false ->
     recordMatchKey ty c = recordMatchKey ty' c' <-> ty = ty' /\ same_content c c').
Proof.
  split.
  - intros ty c ip Hip. pose proof (ParseIP_String ip (ParseIP_IP _ _ Hip)) as Hp.
    unfold recordMatchKey. by rewrite Hp, Hip.
  - intros ty ty' c c' Hty Hty'. unfold recordMatchKey, same_content.
    destruct (net.ParseIP c) as [ip|] eqn:Hc, (net.ParseIP c') as [ip'|] eqn:Hc'.
    all: try apply ParseIP_IP in Hc as Hip; try apply ParseIP_IP in Hc' as Hip'.
    all: split; [intros [-> Heq]%append_sep_inj; [|done..]; split; [done|]|intros [-> Heq]; by subst || done].
    + by apply IP_String_inj.
    + rewrite <- Heq, ParseIP_String in Hc' by done. done.
    + rewrite Heq, ParseIP_String in Hc by done. done.
    + done.
Qed.

Lemma recordMatchKey_canonical_witness :
  recordMatchKey "AAAA" "2001:0db8:0:0:0:0:0:1" = recordMatchKey "AAAA" "2001:db8::1" /\
  recordMatchKey "A" "10.0.0.1" <> recordMatchKey "A" "10.0.0.2".
Proof.
  split.
  - apply (proj2 recordMatchKey_canonical); [reflexivity..|]. split; reflexivity.
  - intros H. apply (proj2 recordMatchKey_canonical) in H; [|reflexivity..]. destruct H as [_ H].
    vm_compute in H. discriminate H.
Defined.

(** The name of an advertised Service joins name and namespace with a hyphen,
    which both may contain: Services of different namespaces can share it. *)
Lemma serviceFQDN_collides zone :
  serviceFQDN "app-a" "b" zone = serviceFQDN "app" "a-b" zone.
Proof. reflexivity. Qed.
