(* ===== verification/DNSMirror.v ===== *)
(** * DNSZone and DNSRecord

    [dnszone_mirror.go] and [dnsrecord_mirror.go]: zones are adopted by name
    and shared between custom resources, records are adopted by name, type and
    canonical content. *)

From stdpp Require Import base gmap list strings.
From Stdlib Require Import ZArith Lia.
From S2P Require Import Prelude GoStrings NetIP GoErr Prog ApiTypes K8sTypes ApplyConf Env NetbirdUtil Reconcile Mirror ServiceAddr.

Open Scope Z_scope.
Open Scope prog_scope.

Definition set_zone_id (z : DNSZone) (id : string) : DNSZone :=
  let st := DNSZone_Status z in
  mkDNSZone (DNSZone_Meta z) (DNSZone_Spec z)
    (mkDNSZoneStatus (zone_ObservedGeneration st) (zone_Conditions st) id).

Definition set_rec_ids (r : DNSRecord) (zone record : string) : DNSRecord :=
  let st := DNSRecord_Status r in
  mkDNSRecord (DNSRecord_Meta r) (DNSRecord_Spec r)
    (mkDNSRecordStatus (rec_ObservedGeneration st) (rec_Conditions st) zone record).

Section zone.
Context `{ErrorClass} `{K8sLib}.

Definition zone_request (z : DNSZone) (distGroups : list string) : api.ZoneRequest :=
  let spec := DNSZone_Spec z in
  api.mkZoneRequest distGroups (zone_Domain spec)
    (match zone_EnableSearchDomain spec with Some b => b | None => false end)
    (Some (zone_Enabled spec)) (zone_Name spec).

(** The tail of [applyDNSZone]: update the zone with id [zoneID], or create
    it when there is none or it vanished. *)
Definition upsertZone (z : DNSZone) (zoneID : string) (req : api.ZoneRequest) :
    M (DNSZone * option error) :=
  let create :=
    let! r := ask (NBCreate CZones req) in
    Ret (match r with
         | Err e => (z, Some e)
         | Ok resp => (set_zone_id z (api.z_Id resp), None)
         end) in
  if negb (String.eqb zoneID "") then
    let! r := ask (NBUpdate CZones zoneID req) in
    match r with
    | Ok resp => Ret (set_zone_id z (api.z_Id resp), None)
    | Err e => if netbird_IsNotFound e then create else Ret (z, Some e)
    end
  else create.

Definition applyDNSZone (z : DNSZone) : M (DNSZone * option error) :=
  let! groups := GetGroupIDs (zone_DistributionGroups (DNSZone_Spec z))
                   (meta_Namespace (DNSZone_Meta z)) in
  match groups with
  | Err e => Ret (z, Some e)
  | Ok distGroups =>
      let req := zone_request z distGroups in
      let! verified := verifyNetbirdID (zone_ZoneID (DNSZone_Status z)) (get_err CZones) in
      match verified with
      | Err e => Ret (z, Some e)
      | Ok zoneID =>
          if String.eqb zoneID "" then
            let! existing := GetDNSZoneByName (zone_Name (DNSZone_Spec z)) in
            match existing with
            | Ok zone => upsertZone z (api.z_Id zone) req
            | Err e =>
                if errors_Is e ErrZoneNotFound then upsertZone z "" req
                else Ret (z, Some e)
            end
          else upsertZone z zoneID req
      end
  end.

Definition sharesZone (z : DNSZone) (zoneName : string) (other : DNSZone) : bool :=
  let id := zone_ZoneID (DNSZone_Status z) in
  String.eqb (zone_Name (DNSZone_Spec other)) zoneName
  || (negb (String.eqb id "") && String.eqb (zone_ZoneID (DNSZone_Status other)) id).

Definition dnsZoneSharedByOther (z : DNSZone) (zoneName : string) : M (result error bool) :=
  let? items := ask (KList KDNSZone None None) in
  Ret (Ok (anotherLiveMatches DNSZone_Meta (DNSZone_Meta z) items (sharesZone z zoneName))).

Definition deleteDNSZone (z : DNSZone) : M (option error) :=
  let id := zone_ZoneID (DNSZone_Status z) in
  if String.eqb id "" then Ret None
  else
    let! got := ask (NBGet CZones id) in
    match got with
    | Err e => Ret (if netbird_IsNotFound e then None else Some e)
    | Ok zone =>
        let! shared := dnsZoneSharedByOther z (api.z_Name zone) in
        match shared with
        | Err e => Ret (Some e)
        | Ok true => Ret None
        | Ok false => ask (NBDelete CZones id)
        end
    end.

Definition NewDNSZoneReconciler : mirror KDNSZone :=
  mkMirror (k := KDNSZone) "DNSZone" "dnszone" applyDNSZone deleteDNSZone "".
End zone.

Section record.
Context `{ErrorClass} `{K8sLib}.

Definition record_request (r : DNSRecord) : api.DNSRecordRequest :=
  let spec := DNSRecord_Spec r in
  api.mkDNSRecordRequest (rec_Content spec) (rec_Name spec) (rec_TTL spec) (rec_Type spec).

Definition rehome_record (r : DNSRecord) (zoneID : string) : DNSRecord :=
  let st := DNSRecord_Status r in
  set_rec_ids r zoneID
    (if negb (String.eqb (rec_ZoneID st) "") && negb (String.eqb (rec_ZoneID st) zoneID)
     then "" else rec_RecordID st).

(** The test of the adoption loop. *)
Definition adoptable (spec : DNSRecordSpec) (d : api.DNSRecord) : bool :=
  String.eqb (api.d_Name d) (rec_Name spec)
  && String.eqb (recordMatchKey (api.d_Type d) (api.d_Content d))
                (recordMatchKey (rec_Type spec) (rec_Content spec)).

Definition upsertRecord (rec : DNSRecord) (zoneID recordID : string)
    (req : api.DNSRecordRequest) : M (DNSRecord * option error) :=
  let rec := set_rec_ids rec zoneID recordID in
  let create :=
    let! r := ask (NBCreate (CRecords zoneID) req) in
    Ret (match r with
         | Err e => (rec, Some e)
         | Ok resp => (set_rec_ids rec zoneID (api.d_Id resp), None)
         end) in
  if negb (String.eqb recordID "") then
    let! r := ask (NBUpdate (CRecords zoneID) recordID req) in
    match r with
    | Ok resp => Ret (set_rec_ids rec zoneID (api.d_Id resp), None)
    | Err e => if netbird_IsNotFound e then create else Ret (rec, Some e)
    end
  else create.

Definition applyDNSRecord (rec : DNSRecord) : M (DNSRecord * option error) :=
  let! resolved := resolveZoneID (rec_ZoneRef (DNSRecord_Spec rec)) in
  match resolved with
  | Err e => Ret (rec, Some e)
  | Ok zoneID =>
      let rec := rehome_record rec zoneID in
      let! verified := verifyNetbirdID (rec_RecordID (DNSRecord_Status rec))
                         (get_err (CRecords zoneID)) in
      match verified with
      | Err e => Ret (set_rec_ids rec zoneID "", Some e)
      | Ok recordID =>
          let rec := set_rec_ids rec zoneID recordID in
          let req := record_request rec in
          if String.eqb recordID "" then
            let! listed := ask (NBList (CRecords zoneID)) in
            match listed with
            | Err e => Ret (rec, Some e)
            | Ok records =>
                let adopted := match find_first (adoptable (DNSRecord_Spec rec)) records with
                               | Some d => api.d_Id d
                               | None => ""
                               end in
                upsertRecord rec zoneID adopted req
            end
          else upsertRecord rec zoneID recordID req
      end
  end.

Definition deleteDNSRecord (rec : DNSRecord) : M (option error) :=
  let st := DNSRecord_Status rec in
  if String.eqb (rec_RecordID st) "" || String.eqb (rec_ZoneID st) "" then Ret None
  else ask (NBDelete (CRecords (rec_ZoneID st)) (rec_RecordID st)).

Definition NewDNSRecordReconciler : mirror KDNSRecord :=
  mkMirror (k := KDNSRecord) "DNSRecord" "dnsrecord" applyDNSRecord deleteDNSRecord "".
End record.

#[export] Instance DNSZone_behaviour `{ErrorClass} : MirrorBehaviour NewDNSZoneReconciler.
Proof.
  constructor; intros z; cbn [m_apply m_del NewDNSZoneReconciler];
    unfold applyDNSZone, deleteDNSZone, upsertZone, dnsZoneSharedByOther,
      verifyNetbirdID, get_err;
    [behaviour_calls|behaviour_meta|behaviour_calls].
Qed.

#[export] Instance DNSRecord_behaviour `{ErrorClass} : MirrorBehaviour NewDNSRecordReconciler.
Proof.
  constructor; intros z; cbn [m_apply m_del NewDNSRecordReconciler];
    unfold applyDNSRecord, deleteDNSRecord, upsertRecord, resolveZoneID, verifyNetbirdID, get_err;
    [behaviour_calls|behaviour_meta|behaviour_calls].
Qed.

(** ** Sharing *)

(** Another custom resource still owns the NetBird zone [z] records: it is not
    being deleted, and declares the zone's live name or records its id. *)
Definition owned_by_other (z : DNSZone) (live : string) (items : list DNSZone) : Prop :=
  exists other, other ∈ items
    /\ meta_UID (DNSZone_Meta other) <> meta_UID (DNSZone_Meta z)
    /\ deleting (DNSZone_Meta other) = false
    /\ (zone_Name (DNSZone_Spec other) = live
        \/ zone_ZoneID (DNSZone_Status other) = zone_ZoneID (DNSZone_Status z)).

Lemma anotherLiveMatches_owned z live items :
  zone_ZoneID (DNSZone_Status z) <> "" ->
  anotherLiveMatches DNSZone_Meta (DNSZone_Meta z) items (sharesZone z live) = true
  <-> owned_by_other z live items.
Proof.
  intros Hid. rewrite anotherLiveMatches_spec. unfold owned_by_other.
  enough (forall other, sharesZone z live other = true <->
    zone_Name (DNSZone_Spec other) = live
    \/ zone_ZoneID (DNSZone_Status other) = zone_ZoneID (DNSZone_Status z)) as Hs.
  { split; intros (o & ? & ? & ? & Ho); exists o; revert Ho; [rewrite Hs|rewrite Hs]; auto. }
  intros other. unfold sharesZone. rewrite orb_true_iff, andb_true_iff, !String.eqb_eq.
  rewrite (proj2 (String.eqb_neq _ _) Hid). naive_solver.
Qed.

Section zone_props.
Context `{ErrorClass}.

(** C6: the last custom resource standing removes the zone: a delete is sent
    only for the recorded id, after reading the zone's live name and a list
    in which no other live resource owns it; and when the zone is there and
    no other live resource owns it, the delete is sent and its result is the
    result. *)
Theorem deleteDNSZone_last_standing z :
  wp (deleteDNSZone z) (fun t r =>
    let id := zone_ZoneID (DNSZone_Status z) in
    (forall e, e ∈ t -> nb_write e ->
      exists x zone items, e = Entry (NBDelete CZones id) x /\ id <> "" /\
        Entry (NBGet CZones id) (Ok zone) ∈ t /\
        Entry (KList KDNSZone None None) (Ok items) ∈ t /\
        ~ owned_by_other z (api.z_Name zone) items) /\
    (forall zone items, t = [Entry (NBGet CZones id) (Ok zone);
                            Entry (KList KDNSZone None None) (Ok items)] ->
      owned_by_other z (api.z_Name zone) items /\ r = None) /\
    (id = "" -> t = [] /\ r = None)).
Proof.
  unfold deleteDNSZone, dnsZoneSharedByOther. cbn.
  destruct (String.eqb_spec (zone_ZoneID (DNSZone_Status z)) "") as [He|Hne].
  { cbn. split; [trace_cases|]. done. }
  wp_run; (split; [trace_cases|split; [intros ? ? Ht; entry_eq|by intros ?]]).
  - split; [|done]. by apply anotherLiveMatches_owned.
  - do 3 eexists. split; [reflexivity|]. split; [done|]. split; [in_trace|].
    split; [in_trace|]. rewrite <- anotherLiveMatches_owned by done. congruence.
Qed.

(** What [upsertZone] does, given the id it found. *)
Lemma upsertZone_spec z zoneID req :
  wp (upsertZone z zoneID req) (fun t r =>
    (forall e, e ∈ t -> nb_write e ->
       (zoneID <> "" /\ exists x, e = Entry (NBUpdate CZones zoneID req) x) \/
       (exists x, e = Entry (NBCreate CZones req) x /\
          (zoneID = "" \/ exists g, Entry (NBUpdate CZones zoneID req) (Err g) ∈ t /\
                                netbird_IsNotFound g = true))) /\
    (r.2 = None -> exists x, api.z_Id x = zone_ZoneID (DNSZone_Status r.1) /\
       (Entry (NBUpdate CZones zoneID req) (Ok x) ∈ t \/
        Entry (NBCreate CZones req) (Ok x) ∈ t))).
Proof.
  unfold upsertZone. wp_run; bool_prop; subst; trace_cases.
  all: first
    [ left; split; [done|eexists; reflexivity]
    | right; eexists; split; [reflexivity|]; first [left; done|right; eexists; split; [in_trace|done]]
    | eexists; split; [reflexivity|]; first [left; in_trace|right; in_trace] ].
Qed.

(** No zone is recorded, or the recorded one is not there. *)
Definition unrecorded (z : DNSZone) (t : history) : Prop :=
  let id := zone_ZoneID (DNSZone_Status z) in
  id = "" \/ exists g, Entry (NBGet CZones id) (Err g) ∈ t /\ netbird_IsNotFound g = true.

(** The recorded zone was just read. *)
Definition recorded_zone (z : DNSZone) (id : string) (t : history) : Prop :=
  id = zone_ZoneID (DNSZone_Status z) /\ exists zone, Entry (NBGet CZones id) (Ok zone) ∈ t.

(** The first zone of the declared name in a list of the run. *)
Definition named_zone (z : DNSZone) (id : string) (t : history) : Prop :=
  unrecorded z t /\ exists zone, zone_found (zone_Name (DNSZone_Spec z)) zone t /\ api.z_Id zone = id.

(** A list fetched in the run has no zone of the declared name. *)
Definition no_such_zone (z : DNSZone) (t : history) : Prop :=
  unrecorded z t /\ exists zs, Entry (NBList CZones) (Ok zs) ∈ t /\
    forall zone, zone ∈ zs -> api.z_Name zone <> zone_Name (DNSZone_Spec z).

(** The request declares the zone of the spec to these groups. *)
Definition declares_zone (z : DNSZone) (groups : list string) (req : api.ZoneRequest) : Prop :=
  let spec := DNSZone_Spec z in
  api.zrq_Name req = zone_Name spec /\ api.zrq_Domain req = zone_Domain spec /\
  api.zrq_DistributionGroups req = groups /\ api.zrq_Enabled req = Some (zone_Enabled spec) /\
  api.zrq_EnableSearchDomain req = default false (zone_EnableSearchDomain spec).

(** The adoption contract of a run with request [req]. *)
Definition zone_adopted (z : DNSZone) (req : api.ZoneRequest) (t : history)
    (r : DNSZone * option error) : Prop :=
  (forall e, e ∈ t -> nb_write e ->
     (exists x, e = Entry (NBCreate CZones req) x /\
        (no_such_zone z t \/ named_zone z "" t \/
         exists id g, Entry (NBUpdate CZones id req) (Err g) ∈ t /\ netbird_IsNotFound g = true)) \/
     (exists id x, id <> "" /\ e = Entry (NBUpdate CZones id req) x /\
        (recorded_zone z id t \/ named_zone z id t))) /\
  (r.2 = None -> exists x, api.z_Id x = zone_ZoneID (DNSZone_Status r.1) /\
     (Entry (NBCreate CZones req) (Ok x) ∈ t \/
      exists id, Entry (NBUpdate CZones id req) (Ok x) ∈ t)).

Lemma unrecorded_mono z t t' : t ⊆ t' -> unrecorded z t -> unrecorded z t'.
Proof. intros Ht [?|(g & ? & ?)]; [by left|right]. exists g. auto. Qed.

Lemma recorded_zone_mono z id t t' : t ⊆ t' -> recorded_zone z id t -> recorded_zone z id t'.
Proof. intros Ht (? & x & ?). split; [done|]. exists x. auto. Qed.

Lemma named_zone_mono z id t t' : t ⊆ t' -> named_zone z id t -> named_zone z id t'.
Proof.
  intros Ht (Hu & zone & Hf & ?). split; [by eapply unrecorded_mono|]. exists zone.
  split; [by eapply zone_found_mono|done].
Qed.

Lemma no_such_zone_mono z t t' : t ⊆ t' -> no_such_zone z t -> no_such_zone z t'.
Proof. intros Ht (Hu & zs & ? & ?). split; [by eapply unrecorded_mono|]. exists zs. auto. Qed.

Lemma upsertZone_adopted z zoneID req tp :
  (recorded_zone z zoneID tp /\ zoneID <> "" \/ named_zone z zoneID tp \/ zoneID = "" /\ no_such_zone z tp) ->
  (forall e, e ∈ tp -> ~ nb_write e) ->
  wp (upsertZone z zoneID req) (fun t r => zone_adopted z req (tp ++ t) r).
Proof.
  intros Hwhy Htp. eapply wp_mono; [apply upsertZone_spec|]. intros t r [Hw Hok].
  assert (tp ⊆ tp ++ t) as Hsub by set_solver. split.
  - intros e [He|He]%elem_of_app Hwr; [by destruct (Htp e)|].
    destruct (Hw e He Hwr) as [[Hne (x & ->)]|(x & -> & Hx)]; [right|left].
    + exists zoneID, x. split; [done|]. split; [done|].
      destruct Hwhy as [[Hr _]|[Hn|[? _]]]; [left|right|done].
      * by eapply recorded_zone_mono.
      * by eapply named_zone_mono.
    + exists x. split; [done|]. destruct Hx as [->|(g & ? & ?)]; [|do 2 right; exists zoneID, g; set_solver].
      destruct Hwhy as [[_ ?]|[Hn|[_ Hn]]]; [done|right; left|left].
      * by eapply named_zone_mono.
      * by eapply no_such_zone_mono.
  - intros Hr. destruct (Hok Hr) as (x & Hx & Hin). exists x. split; [done|].
    setoid_rewrite elem_of_app. naive_solver.
Qed.

Lemma foreign_errors_app t1 t2 : foreign_errors (t1 ++ t2) -> foreign_errors t2.
Proof. intros Hf e err s He. apply (Hf e err s). set_solver. Qed.

(** The lookup by name and what follows it. *)
Lemma adopt_or_create_spec z req tp :
  (forall e, e ∈ tp -> ~ nb_write e) -> unrecorded z tp ->
  wp (let! existing := GetDNSZoneByName (zone_Name (DNSZone_Spec z)) in
      match existing with
      | Ok zone => upsertZone z (api.z_Id zone) req
      | Err e => if errors_Is e ErrZoneNotFound then upsertZone z "" req else Ret (z, Some e)
      end)
    (fun t r => foreign_errors t ->
       (forall e, e ∈ tp ++ t -> ~ nb_write e) /\ r.2 <> None \/
       zone_adopted z req (tp ++ t) r).
Proof.
  intros Htp Hun. apply wp_bind. eapply wp_mono;
    [apply wp_and; [apply reads_no_writes; auto with go_hints|apply GetDNSZoneByName_spec]|].
  intros tz r [Hz Hr].
  assert (forall e, e ∈ tp ++ tz -> ~ nb_write e) as Htp' by set_solver.
  assert (unrecorded z (tp ++ tz)) as Hun' by (eapply unrecorded_mono; [|done]; set_solver).
  assert (forall p : M (DNSZone * option error),
    wp p (fun t r => zone_adopted z req ((tp ++ tz) ++ t) r) ->
    wp p (fun t r => foreign_errors (tz ++ t) ->
       (forall e, e ∈ tp ++ tz ++ t -> ~ nb_write e) /\ r.2 <> None \/
       zone_adopted z req (tp ++ tz ++ t) r)) as Hlift.
  { intros p Hp. eapply wp_mono; [exact Hp|]. intros t x Hx _. right.
    by rewrite (app_assoc tp). }
  destruct r as [zone|e].
  - apply Hlift, upsertZone_adopted; [|done]. right; left. split; [done|]. exists zone. split; [|done].
    eapply zone_found_mono; [|exact Hr]. set_solver.
  - destruct (errors_Is e ErrZoneNotFound) eqn:He.
    + destruct Hr as [(zs & Hin & -> & Hnone)|Hin].
      * apply Hlift, upsertZone_adopted; [|done]. right; right. split; [done|]. split; [done|].
        exists zs. split; [set_solver|done].
      * eapply wp_all. intros t x _ Hf. exfalso.
        enough (errors_Is e ErrZoneNotFound = false) by congruence.
        eapply Hf; [apply elem_of_app; left; exact Hin|reflexivity].
    + cbn. intros _. left. rewrite app_nil_r. split; [done|by intros ?].
Qed.

(** C7: a DNSZone adopts before it creates. An update addresses the recorded
    zone, which this run has just read, or - when none is recorded or the
    recorded one is not there - the first zone of the declared name in the list
    of zones this run fetched or found fresh in the cache. A zone is created
    only when a list fetched in this run holds no zone of that name, when the
    update just above answered not-found, or when the zone of that name carries
    no id. Every write declares the zone of the spec to the resolved groups, and
    on success the id NetBird answered with is recorded. *)
Theorem applyDNSZone_adopts z :
  wp (applyDNSZone z) (fun t r => foreign_errors t ->
    (forall e, e ∈ t -> ~ nb_write e) /\ r.2 <> None \/
    exists tg ids req,
      runs (GetGroupIDs (zone_DistributionGroups (DNSZone_Spec z))
              (meta_Namespace (DNSZone_Meta z))) tg (Ok ids) /\
      tg `sublist_of` t /\ declares_zone z ids req /\ zone_adopted z req t r).
Proof.
  unfold applyDNSZone. apply wp_bind. eapply wp_mono;
    [apply wp_and; [apply reads_no_writes; auto with go_hints|by apply wp_all]|].
  intros tg [ids|e] [Hnw Hg]; cbn -[upsertZone]; [|intros _; left; trace_cases].
  set (id := zone_ZoneID (DNSZone_Status z)).
  assert (forall (p : M (DNSZone * option error)) tp, (forall e, e ∈ tp -> ~ nb_write e) ->
    wp p (fun t r => foreign_errors t ->
       (forall e, e ∈ (tg ++ tp) ++ t -> ~ nb_write e) /\ r.2 <> None \/
       zone_adopted z (zone_request z ids) ((tg ++ tp) ++ t) r) ->
    wp p (fun t r => foreign_errors (tg ++ tp ++ t) ->
       (forall e, e ∈ tg ++ tp ++ t -> ~ nb_write e) /\ r.2 <> None \/
       exists tg' ids' req',
         runs (GetGroupIDs (zone_DistributionGroups (DNSZone_Spec z))
                 (meta_Namespace (DNSZone_Meta z))) tg' (Ok ids') /\
         tg' `sublist_of` (tg ++ tp ++ t) /\ declares_zone z ids' req' /\
         zone_adopted z req' (tg ++ tp ++ t) r)) as Hlift.
  { intros p tp Htp Hp. eapply wp_mono; [exact Hp|]. intros t r Hr Hf.
    rewrite !(app_assoc tg) in *. destruct Hr as [?|Ha]; [by eapply foreign_errors_app| |].
    - by left.
    - right. exists tg, ids, (zone_request z ids). split; [done|]. split; [|done].
      by apply sublist_inserts_r, sublist_inserts_r. }
  unfold verifyNetbirdID, get_err.
  destruct (String.eqb_spec id "") as [Hr|Hr].
  - cbn -[upsertZone]. apply (Hlift _ []); [set_solver|]. rewrite app_nil_r.
    apply adopt_or_create_spec; [set_solver|by left].
  - cbn -[upsertZone]. intros [x|e]; cbn -[upsertZone].
    + rewrite (proj2 (String.eqb_neq _ _) Hr).
      apply (Hlift _ [Entry (NBGet CZones id) (Ok x)]); [set_solver|].
      eapply wp_mono; [apply (upsertZone_adopted _ _ _ (tg ++ [Entry (NBGet CZones id) (Ok x)]))|].
      * left. split; [|done]. split; [done|]. exists x. set_solver.
      * set_solver.
      * intros t r Ha _. by right.
    + destruct (netbird_IsNotFound e) eqn:He; cbn -[upsertZone].
      * apply (Hlift _ [Entry (NBGet CZones id) (Err e)]); [set_solver|]. apply adopt_or_create_spec; [set_solver|].
        right. exists e. set_solver.
      * intros _. left. trace_cases.
Qed.
End zone_props.

(** An existing record that declares the same thing as the spec. *)
Definition same_record (spec : DNSRecordSpec) (d : api.DNSRecord) : Prop :=
  api.d_Name d = rec_Name spec /\
  recordMatchKey (api.d_Type d) (api.d_Content d) = recordMatchKey (rec_Type spec) (rec_Content spec).

Lemma adoptable_spec spec d : adoptable spec d = true <-> same_record spec d.
Proof. unfold adoptable, same_record. by rewrite andb_true_iff, !String.eqb_eq. Qed.

Definition first_match (spec : DNSRecordSpec) (ds : list api.DNSRecord) (d : api.DNSRecord) : Prop :=
  exists l1 l2, ds = l1 ++ d :: l2 /\ same_record spec d /\ forall d', d' ∈ l1 -> ~ same_record spec d'.

Lemma find_first_match spec ds d :
  find_first (adoptable spec) ds = Some d <-> first_match spec ds d.
Proof.
  unfold first_match. induction ds as [|x ds IH]; cbn.
  - split; [done|]. intros ([|? ?] & ? & ? & _); done.
  - destruct (adoptable spec x) eqn:Hx.
    + split.
      * intros [= <-]. exists [], ds. split; [done|]. apply adoptable_spec in Hx. set_solver.
      * intros ([|y l1] & l2 & [= -> ->] & Hd & Hno); [done|]. apply adoptable_spec in Hx.
        destruct (Hno y); [left|done].
    + rewrite IH. split; intros (l1 & l2 & Heq & Hd & Hno).
      * exists (x :: l1), l2. split; [by rewrite Heq|]. split; [done|].
        intros d' [->|?]%elem_of_cons; [|by apply Hno]. rewrite <- adoptable_spec. by rewrite Hx.
      * destruct l1 as [|y l1]; cbn in Heq; simplify_eq.
        -- apply adoptable_spec in Hd. congruence.
        -- exists l1, l2. split; [done|split; [done|]]. intros d' ?. apply Hno. by right.
Qed.

Section record_props.
Context `{ErrorClass}.

(** C8: a DNSRecord adopts a matching record of the zone its reference
    resolves to instead of creating an identical one: a record is created
    only after a list fetched in this run holds no record (with an id) of the
    same name whose type and canonical content match, or after the update of an
    existing one (with an id) answered not-found; an update addresses the
    record recorded for this very zone, seen in this run, or the first
    match; every write goes to the resolved zone and carries the spec; and
    on success the id NetBird answered with is recorded. *)
Theorem applyDNSRecord_adopts rec :
  wp (applyDNSRecord rec) (fun t r =>
    let spec := DNSRecord_Spec rec in
    let st := DNSRecord_Status rec in
    (forall e, e ∈ t -> ~ nb_write e) /\ r.2 <> None \/
    exists zone, let zoneID := zone_ZoneID (DNSZone_Status zone) in
      let req := record_request rec in
      zoneID <> "" /\
      Entry (KGet KDNSZone (ref_Namespace (rec_ZoneRef spec)) (ref_Name (rec_ZoneRef spec)))
        (Ok zone) ∈ t /\
      rec_ZoneID (DNSRecord_Status r.1) = zoneID /\
      (forall e, e ∈ t -> nb_write e ->
        (exists x, e = Entry (NBCreate (CRecords zoneID) req) x /\
          ((exists ds, Entry (NBList (CRecords zoneID)) (Ok ds) ∈ t /\
              forall d, first_match spec ds d -> api.d_Id d = "") \/
           (exists id g, Entry (NBUpdate (CRecords zoneID) id req) (Err g) ∈ t /\
              netbird_IsNotFound g = true))) \/
        (exists id x, id <> "" /\ e = Entry (NBUpdate (CRecords zoneID) id req) x /\
          ((id = rec_RecordID st /\ (rec_ZoneID st = "" \/ rec_ZoneID st = zoneID) /\
            exists d, Entry (NBGet (CRecords zoneID) id) (Ok d) ∈ t) \/
           (exists ds d, Entry (NBList (CRecords zoneID)) (Ok ds) ∈ t /\
              first_match spec ds d /\ api.d_Id d = id)))) /\
      (r.2 = None -> exists d, api.d_Id d = rec_RecordID (DNSRecord_Status r.1) /\
        (Entry (NBCreate (CRecords zoneID) req) (Ok d) ∈ t \/
         exists id, Entry (NBUpdate (CRecords zoneID) id req) (Ok d) ∈ t))).
Proof.
  unfold applyDNSRecord, resolveZoneID, upsertRecord, rehome_record, verifyNetbirdID, get_err.
  wp_run; bool_prop; subst; try (left; trace_cases; done).
  all: right; eexists; (split; [eassumption|]); (split; [in_trace|]); (split; [done|]).
  all: trace_cases.
  all: try (eexists; split; [reflexivity|];
            first [left; in_trace|right; eexists; in_trace]).
  all: first
    [ left; eexists; split; [reflexivity|]; first
        [ right; do 2 eexists; split; [in_trace|done]
        | left; eexists; split; [in_trace|]; intros ? ?%find_first_match; congruence ]
    | right; do 2 eexists; split; [|split; [reflexivity|]]; [done|];
      first [ left; split; [done|]; split; [tauto|eexists; in_trace]
            | right; do 2 eexists; split; [in_trace|]; split; [by apply find_first_match|done] ] ].
Qed.
End record_props.
