(* ===== verification/Rps.v ===== *)
(** * ReverseProxyService ([reverseproxyservice_mirror.go])

    The service request rendered from a [ReverseProxyService]: HTTP backends
    become cluster targets, an L4 mode has exactly one backend, resolved to the
    advertised network resource. *)

From stdpp Require Import base gmap list strings sorting.
From Stdlib Require Import ZArith Lia.
From S2P Require Import Prelude Sort GoStrings NetIP GoErr Prog ApiTypes K8sTypes ApplyConf Env NetbirdUtil Reconcile Mirror ServiceAddr.

Open Scope Z_scope.
Open Scope prog_scope.

(** [int(int32(want))]. *)
Definition to_int32 (z : Z) : Z := (z + 2 ^ 31) mod 2 ^ 32 - 2 ^ 31.

(** The zero [ServicePort] never occurs: the callers check for ports first. *)
Definition backendPort (svc : Service) (want : Z) : ServicePort :=
  let first := match svc_Ports svc with p :: _ => p | [] => mkServicePort "" 0 end in
  if want =? 0 then first
  else match find_first (fun sp => sp_Port sp =? want) (svc_Ports svc) with
       | Some sp => sp
       | None => mkServicePort "" (to_int32 want)
       end.

Definition addressLess (a b : NetworkResource) : bool :=
  let fi := ipFamilyOf (nres_Address (NetworkResource_Spec a)) in
  let fj := ipFamilyOf (nres_Address (NetworkResource_Spec b)) in
  if negb (String.eqb fi fj) then String.eqb fi IPv4Protocol
  else strings.less (meta_Name (NetworkResource_Meta a)) (meta_Name (NetworkResource_Meta b)).

Definition preferL4Resource `{SortSlice} (items : list NetworkResource) : option NetworkResource :=
  head (sort_slice addressLess items).

Definition targetHost (t : api.ServiceTarget) : string :=
  match api.t_Host t with Some h => h | None => "" end.

Definition targetLess (a b : api.ServiceTarget) : bool :=
  if negb (String.eqb (targetHost a) (targetHost b)) then
    strings.less (targetHost a) (targetHost b)
  else api.t_Port a <? api.t_Port b.

Definition sortServiceTargets `{SortSlice} (targets : list api.ServiceTarget) :
    list api.ServiceTarget :=
  sort_slice targetLess targets.

Definition portLabelDomain (host label : string) : string :=
  let '(first, rest, found) := strings.Cut host "." in
  if negb found then first +:+ "-" +:+ label
  else first +:+ "-" +:+ label +:+ "." +:+ rest.

Definition serviceMode (m : ReverseProxyMode) : api.ServiceRequestMode * api.ServiceTargetProtocol :=
  if String.eqb m ReverseProxyModeTCP then (api.ServiceRequestModeTcp, api.ServiceTargetProtocolTcp)
  else if String.eqb m ReverseProxyModeTLS then (api.ServiceRequestModeTls, api.ServiceTargetProtocolTcp)
  else if String.eqb m ReverseProxyModeUDP then (api.ServiceRequestModeUdp, api.ServiceTargetProtocolUdp)
  else (api.ServiceRequestModeHttp, api.ServiceTargetProtocolHttp).

(** [if len(l) > 0 { v := append(nil, l...); out.X = &v }]. *)
Definition if_nonempty {A} (l : list A) : option (list A) :=
  match l with [] => None | _ => Some l end.

Definition accessRestrictionsFor (mode : option CrowdsecMode) (ar : option AccessRestrictions) :
    option api.AccessRestrictions :=
  match mode, ar with
  | None, None => None
  | _, _ =>
      Some (match ar with
            | None => api.mkAccessRestrictions mode None None None None
            | Some r =>
                api.mkAccessRestrictions mode (if_nonempty (ar_AllowedCidrs r))
                  (if_nonempty (ar_BlockedCidrs r)) (if_nonempty (ar_AllowedCountries r))
                  (if_nonempty (ar_BlockedCountries r))
            end)
  end.

Definition set_rps_status (s : ReverseProxyService) (id domain : string) : ReverseProxyService :=
  let st := ReverseProxyService_Status s in
  mkReverseProxyService (ReverseProxyService_Meta s) (ReverseProxyService_Spec s)
    (mkReverseProxyServiceStatus (rps_ObservedGeneration st) (rps_Conditions st) id domain).

Section rps.
Context `{ErrorClass} `{K8sLib} `{SortSlice}.
(** The text of an API mode, in an error message. *)
Context (mode_text : api.ServiceRequestMode -> string).

Definition svc_text (namespace svcName : string) : string :=
  "Service " +:+ namespace +:+ "/" +:+ svcName.

Definition backendFQDN (namespace svcName : string) : M (result error string) :=
  let? records := ask (KList KDNSRecord (Some namespace) (Some (lbServiceLabel, svcName))) in
  Ret (match records with
       | [] => Err (dependency_not_ready
                      (svc_text namespace svcName +:+ " not advertised (no DNSRecord)"))
       | r :: _ => Ok (rec_Name (DNSRecord_Spec r))
       end).

(** [c.Get] of a backend Service, with the not-found error the callers give. *)
Definition get_backend (namespace svcName : string) : M (result error Service) :=
  let! got := ask (KGet KService namespace svcName) in
  Ret (match got with
       | Ok svc => Ok svc
       | Err e =>
           if kerrors_IsNotFound e
           then Err (dependency_not_ready (svc_text namespace svcName +:+ " not found"))
           else Err e
       end).

Definition no_ports (namespace svcName : string) : error :=
  dependency_not_ready (svc_text namespace svcName +:+ " has no ports").

(** Host, port and port name. *)
Definition resolveBackend (namespace svcName : string) (want : Z) :
    M (result error (string * Z * string)) :=
  let? svc := get_backend namespace svcName in
  match svc_Ports svc with
  | [] => Ret (Err (no_ports namespace svcName))
  | _ =>
      let p := backendPort svc want in
      if String.eqb (svc_Type svc) ServiceTypeLoadBalancer then
        let? host := backendFQDN namespace svcName in
        Ret (Ok (host, sp_Port p, sp_Name p))
      else
        Ret (Ok (svcName +:+ "." +:+ namespace +:+ ".svc.cluster.local", sp_Port p, sp_Name p))
  end.

(** Resource id, port and port name. *)
Definition resolveL4Backend (namespace svcName : string) (want : Z) :
    M (result error (string * Z * string)) :=
  let? svc := get_backend namespace svcName in
  if negb (String.eqb (svc_Type svc) ServiceTypeLoadBalancer) then
    Ret (Err (ErrText ("tcp/tls/udp modes require an advertised LoadBalancer backend: "
      +:+ svc_text namespace svcName +:+ " is type " +:+ svc_Type svc
      +:+ " (the proxy relays L4 connections over the NetBird mesh, which routes only LoadBalancer addresses)")))
  else
    match svc_Ports svc with
    | [] => Ret (Err (no_ports namespace svcName))
    | _ =>
        let p := backendPort svc want in
        let? resources :=
          ask (KList KNetworkResource (Some namespace) (Some (lbServiceLabel, svcName))) in
        Ret (match preferL4Resource resources with
             | None => Err (dependency_not_ready
                              (svc_text namespace svcName +:+ " not advertised (no NetworkResource)"))
             | Some pick =>
                 if String.eqb (nres_ResourceID (NetworkResource_Status pick)) "" then
                   Err (dependency_not_ready ("NetworkResource " +:+ namespace +:+ "/"
                          +:+ meta_Name (NetworkResource_Meta pick)
                          +:+ " not ready (no NetBird resource id)"))
                 else Ok (nres_ResourceID (NetworkResource_Status pick), sp_Port p, sp_Name p)
             end)
    end.

Definition isHTTP (mode : api.ServiceRequestMode) : bool :=
  bool_decide (mode = api.ServiceRequestModeHttp).
Definition isPortRouted (mode : api.ServiceRequestMode) : bool :=
  bool_decide (mode = api.ServiceRequestModeTcp) || bool_decide (mode = api.ServiceRequestModeUdp).
Definition takesProxyProtocol (mode : api.ServiceRequestMode) : bool :=
  bool_decide (mode = api.ServiceRequestModeTcp) || bool_decide (mode = api.ServiceRequestModeTls).

Definition l4_target (mode : api.ServiceRequestMode) (proto : api.ServiceTargetProtocol)
    (proxyProtocol : option bool) (resourceID : string) (port : Z) : api.ServiceTarget :=
  api.mkServiceTarget true None port proto api.ServiceTargetTargetTypeHost resourceID None
    (if takesProxyProtocol mode then
       match proxyProtocol with
       | Some b => Some (api.mkServiceTargetOptions None (Some b))
       | None => None
       end
     else None).

Definition http_target (proto : api.ServiceTargetProtocol) (clusterAddress host : string)
    (port : Z) (path : string) : api.ServiceTarget :=
  api.mkServiceTarget true (Some host) port proto api.ServiceTargetTargetTypeCluster
    clusterAddress (if String.eqb path "" then None else Some path)
    (Some (api.mkServiceTargetOptions (Some true) None)).

(** The loop over the backends: the targets so far and the port label. *)
Fixpoint render_targets (rps : ReverseProxyService) (cluster : api.ProxyCluster)
    (mode : api.ServiceRequestMode) (proto : api.ServiceTargetProtocol)
    (backends : list ReverseProxyBackend) (targets : list api.ServiceTarget) (portLabel : string) :
    M (result error (list api.ServiceTarget * string)) :=
  let ns := meta_Namespace (ReverseProxyService_Meta rps) in
  match backends with
  | [] => Ret (Ok (targets, portLabel))
  | b :: rest =>
      if negb (isHTTP mode) then
        let? r := resolveL4Backend ns (rpb_ServiceRef b) (rpb_Port b) in
        let '(resourceID, port, name) := r in
        let label := if String.eqb name "" then strconv.Itoa port else name in
        render_targets rps cluster mode proto rest
          (targets ++ [l4_target mode proto (rps_ProxyProtocol (ReverseProxyService_Spec rps))
                         resourceID port]) label
      else
        let? r := resolveBackend ns (rpb_ServiceRef b) (rpb_Port b) in
        let '(host, port, _) := r in
        render_targets rps cluster mode proto rest
          (targets ++ [http_target proto (api.pc_Address cluster) host port (rpb_Path b)]) portLabel
  end.

Definition serviceDomainFor (mode : api.ServiceRequestMode) (spec : ReverseProxyServiceSpec)
    (portLabel : string) : string :=
  match rps_ListenPort spec with
  | Some _ => if isPortRouted mode then portLabelDomain (rps_Domain spec) portLabel else rps_Domain spec
  | None => rps_Domain spec
  end.

Definition is_private (spec : ReverseProxyServiceSpec) : bool :=
  match rps_Private spec with Some true => true | _ => false end.

Definition service_request (rps : ReverseProxyService) (mode : api.ServiceRequestMode)
    (domain : string) (targets : list api.ServiceTarget) (accessGroups : list string) :
    api.ServiceRequest :=
  let spec := ReverseProxyService_Spec rps in
  api.mkServiceRequest domain true (Some mode) (meta_Name (ReverseProxyService_Meta rps))
    (Some targets) (rps_PassHostHeader spec) (rps_RewriteRedirects spec)
    (if isHTTP mode then rps_Private spec else None)
    (if isHTTP mode then if_nonempty accessGroups else None)
    (if isHTTP mode then None else rps_ListenPort spec)
    (accessRestrictionsFor (rps_CrowdsecMode spec) (rps_AccessRestrictions spec)).

(** Everything up to the request. *)
Definition renderService (rps : ReverseProxyService) : M (result error api.ServiceRequest) :=
  let spec := ReverseProxyService_Spec rps in
  let! found := GetProxyClusterByAddress (rps_ProxyCluster spec) in
  match found with
  | Err e =>
      Ret (Err (if errors_Is e ErrProxyClusterNotFound
                then dependency_not_ready ("proxy cluster " +:+ rps_ProxyCluster spec +:+ " not found")
                else e))
  | Ok cluster =>
      let '(mode, proto) := serviceMode (rps_Mode spec) in
      if negb (isHTTP mode) && (1 <? length (rps_Backends spec))%nat then
        Ret (Err (ErrText ("mode " +:+ mode_text mode
          +:+ " supports exactly one backend (NetBird relays L4 connections to a single target)")))
      else
        let? rendered := render_targets rps cluster mode proto (rps_Backends spec) [] "" in
        let '(targets, portLabel) := rendered in
        let domain := serviceDomainFor mode spec portLabel in
        let? groups :=
          if isHTTP mode && is_private spec then
            GetGroupIDs (rps_AccessGroups spec) (meta_Namespace (ReverseProxyService_Meta rps))
          else Ret (Ok []) in
        Ret (Ok (service_request rps mode domain (sortServiceTargets targets) groups))
  end.

Definition applyReverseProxyService (rps : ReverseProxyService) :
    M (ReverseProxyService * option error) :=
  let! rendered := renderService rps in
  match rendered with
  | Err e => Ret (rps, Some e)
  | Ok req =>
      let id := rps_ServiceID (ReverseProxyService_Status rps) in
      let rps := set_rps_status rps id (api.s_Domain req) in
      let create :=
        let! r := ask (NBCreate CServices req) in
        Ret (match r with
             | Err e => (rps, Some e)
             | Ok resp => (set_rps_status rps (api.sv_Id resp) (api.s_Domain req), None)
             end) in
      if negb (String.eqb id "") then
        let! r := ask (NBUpdate CServices id req) in
        match r with
        | Ok resp => Ret (set_rps_status rps (api.sv_Id resp) (api.s_Domain req), None)
        | Err e => if netbird_IsNotFound e then create else Ret (rps, Some e)
        end
      else create
  end.

Definition deleteReverseProxyService (rps : ReverseProxyService) : M (option error) :=
  let id := rps_ServiceID (ReverseProxyService_Status rps) in
  if String.eqb id "" then Ret None else ask (NBDelete CServices id).

Definition NewReverseProxyServiceReconciler : mirror KReverseProxyService :=
  mkMirror (k := KReverseProxyService) "ReverseProxyService" "reverseproxyservice"
    applyReverseProxyService deleteReverseProxyService "".

End rps.

(** ** The rendered request *)

(** What a target of a service of this mode looks like. *)
Definition target_ok (mode : api.ServiceRequestMode) (address : string) (t : api.ServiceTarget) : Prop :=
  if isHTTP mode then
    api.t_TargetType t = api.ServiceTargetTargetTypeCluster /\ api.t_TargetId t = address /\
    is_Some (api.t_Host t) /\
    api.t_Options t = Some (api.mkServiceTargetOptions (Some true) None)
  else
    api.t_TargetType t = api.ServiceTargetTargetTypeHost /\ api.t_TargetId t <> "" /\
    api.t_Host t = None /\ api.t_Path t = None.

(** ** The sort orders *)
Lemma targetLess_strict_weak : strict_weak targetLess.
Proof.
  constructor.
  - intros x. unfold targetLess. rewrite String.eqb_refl. cbn. lia.
  - intros x y. unfold targetLess. rewrite (String.eqb_sym (targetHost y)).
    destruct (String.eqb_spec (targetHost x) (targetHost y)); cbn; [lia|apply less_asym].
  - intros x y z. unfold targetLess.
    destruct (String.eqb_spec (targetHost y) (targetHost x)) as [Hyx|Hyx],
      (String.eqb_spec (targetHost z) (targetHost y)) as [Hzy|Hzy],
      (String.eqb_spec (targetHost z) (targetHost x)) as [Hzx|Hzx]; cbn;
      rewrite ?Hyx, ?Hzy, ?Hzx in *; try congruence; try lia; intros H1 H2.
    + destruct Hyx. by rewrite (less_total _ _ H1 H2).
    + by eapply not_less_trans.
Qed.

Lemma targetLess_total x y :
  targetLess x y = false -> targetLess y x = false ->
  (targetHost x, api.t_Port x) = (targetHost y, api.t_Port y).
Proof.
  unfold targetLess. rewrite (String.eqb_sym (targetHost y)).
  destruct (String.eqb_spec (targetHost x) (targetHost y)) as [->|Hne]; cbn; intros H1 H2.
  - f_equal. lia.
  - by destruct (less_total _ _ H1 H2).
Qed.

(** On IP addresses, the comparator ranks IPv4 first, then compares names. *)
Definition addressRank (r : NetworkResource) : bool * string :=
  (String.eqb (ipFamilyOf (nres_Address (NetworkResource_Spec r))) IPv4Protocol,
   meta_Name (NetworkResource_Meta r)).

Definition rankLess (a b : NetworkResource) : bool :=
  let '(va, na) := addressRank a in
  let '(vb, nb) := addressRank b in
  if Bool.eqb va vb then strings.less na nb else va.

Lemma rankLess_strict_weak : strict_weak rankLess.
Proof.
  constructor; unfold rankLess, addressRank.
  - intros x. rewrite eqb_reflx. apply less_irrefl.
  - intros x y.
    destruct (String.eqb (ipFamilyOf _) _), (String.eqb (ipFamilyOf _) _); cbn; try done;
      apply less_asym.
  - intros x y z.
    destruct (String.eqb (ipFamilyOf _) _), (String.eqb (ipFamilyOf _) _),
      (String.eqb (ipFamilyOf _) _); cbn; try done; apply not_less_trans.
Qed.

Lemma addressLess_rank x y :
  ipFamilyOf (nres_Address (NetworkResource_Spec x)) <> "" ->
  ipFamilyOf (nres_Address (NetworkResource_Spec y)) <> "" ->
  addressLess x y = rankLess x y.
Proof.
  intros Hx Hy. unfold addressLess, rankLess, addressRank.
  destruct (ipFamilyOf_cases (nres_Address (NetworkResource_Spec x))) as [->|[->|?]],
    (ipFamilyOf_cases (nres_Address (NetworkResource_Spec y))) as [->|[->|?]]; done.
Qed.

Section rps_props.
Context `{ErrorClass} `{SortSliceLaws}.
Context (mode_text : api.ServiceRequestMode -> string).

Lemma resolveL4Backend_id ns svc want :
  wp (resolveL4Backend ns svc want) (fun _ r =>
    match r with Ok (id, _, _) => id <> ""%string | Err _ => True end).
Proof.
  unfold resolveL4Backend, get_backend. wp_run; bool_prop; auto.
Qed.

Lemma render_targets_ok rps cluster mode proto backends targets label :
  wp (render_targets rps cluster mode proto backends targets label) (fun _ r =>
    match r with
    | Ok (ts, _) => exists new, ts = targets ++ new /\ length new = length backends /\
        Forall (target_ok mode (api.pc_Address cluster)) new
    | Err _ => True
    end).
Proof.
  revert targets label. induction backends as [|b backends IH]; intros targets label.
  - cbn. exists []. rewrite app_nil_r. auto.
  - cbn [render_targets]. destruct (isHTTP mode) eqn:Hm; cbn [negb]; apply wp_bind_result.
    + eapply wp_mono; [apply wp_all; intros ? ? _; exact I|].
      intros t [[[host port] nm]|e] _; [|done].
      eapply wp_mono; [apply IH|]. intros _ [[ts l]|e]; [|done].
      intros (new & -> & Hl & Hf). eexists. rewrite <- app_assoc. split; [done|].
      split; [by cbn; rewrite Hl|]. constructor; [|done].
      unfold target_ok. rewrite Hm. cbn. eauto.
    + eapply wp_mono; [apply resolveL4Backend_id|].
      intros t [[[id port] nm]|e] Hid; [|done].
      eapply wp_mono; [apply IH|]. intros _ [[ts l]|e]; [|done].
      intros (new & -> & Hl & Hf). eexists. rewrite <- app_assoc. split; [done|].
      split; [by cbn; rewrite Hl|]. constructor; [|done].
      unfold target_ok. rewrite Hm. cbn. auto.
Qed.

Lemma render_targets_reads rps cluster mode proto backends targets label :
  calls_in is_read (render_targets rps cluster mode proto backends targets label).
Proof.
  revert targets label. induction backends as [|b backends IH]; intros targets label; [done|].
  cbn [render_targets]. destruct (negb (isHTTP mode)); apply calls_in_bind_result.
  - unfold resolveL4Backend, get_backend. calls_run fail.
  - intros [[? ?] ?]. apply IH.
  - unfold resolveBackend, get_backend, backendFQDN. calls_run fail.
  - intros [[? ?] ?]. apply IH.
Qed.

Lemma renderService_reads rps : calls_in is_read (renderService mode_text rps).
Proof.
  unfold renderService.
  calls_run ltac:(first [apply calls_in_bind_result | apply render_targets_reads
                        | solve [auto with go_hints]]).
Qed.

(** C34: the request rendered for a ReverseProxyService. An L4 service has at
    most one backend; there is one target per backend, in sorted order, an HTTP
    target being the requested proxy cluster dialed direct-upstream and an L4
    target an advertised network resource. Private and the access groups are
    only sent for HTTP, access groups only when the service is private, the
    listen port only for L4, and the domain is the declared one unless a listen
    port makes it the per-port sibling. *)
Theorem renderService_request rps :
  wp (renderService mode_text rps) (fun _ r =>
    match r with
    | Err _ => True
    | Ok req =>
        let spec := ReverseProxyService_Spec rps in
        let mode := fst (serviceMode (rps_Mode spec)) in
        (isHTTP mode = false -> (length (rps_Backends spec) <= 1)%nat) /\
        (exists ts, api.s_Targets req = Some ts /\ length ts = length (rps_Backends spec) /\
           Forall (target_ok mode (rps_ProxyCluster spec)) ts /\
           StronglySorted (may_precede targetLess) ts) /\
        api.s_Mode req = Some mode /\
        (is_Some (api.s_Private req) \/ is_Some (api.s_AccessGroups req) -> isHTTP mode = true) /\
        (is_Some (api.s_AccessGroups req) -> api.s_Private req = Some true) /\
        (is_Some (api.s_ListenPort req) -> isHTTP mode = false) /\
        (api.s_Domain req = rps_Domain spec \/
         isPortRouted mode = true /\ is_Some (rps_ListenPort spec) /\
         exists label, api.s_Domain req = portLabelDomain (rps_Domain spec) label)
    end).
Proof.
  unfold renderService. apply wp_bind. eapply wp_mono; [apply GetProxyClusterByAddress_spec|].
  intros tc [cluster|e] Hc; [|done].
  destruct (serviceMode _) as [mode proto] eqn:Hmode; cbn [fst].
  destruct (negb (isHTTP mode) && _) eqn:Hone; [done|].
  apply wp_bind_result. eapply wp_mono; [apply render_targets_ok|].
  intros _ [[targets label]|e]; [|done]. intros (new & Hnew & Hlen & Hok). cbn in Hnew. subst new.
  rewrite Hc in Hok. apply wp_bind_result.
  eapply (wp_mono _ (fun _ g => match g with
    | Ok gs => isHTTP mode && is_private (ReverseProxyService_Spec rps) = false -> gs = []
    | Err _ => True end)).
  { destruct (isHTTP mode && _); [|done]. apply wp_all. by intros ? [|]. }
  intros _ [groups|e] Hg; [|done]. cbn -[targetLess]. unfold service_request; cbn -[targetLess].
  repeat match goal with |- _ /\ _ => split end; try done.
  - intros Hm. rewrite Hm in Hone. cbn in Hone. destruct (rps_Backends _) as [|? [|]]; cbn in *; lia.
  - exists (sortServiceTargets targets). unfold sortServiceTargets.
    split; [done|]. split; [by rewrite sort_slice_perm|].
    split; [by rewrite sort_slice_perm|]. apply sort_slice_sorted, targetLess_strict_weak.
  - destruct (isHTTP mode); [done|]. by intros [[? ?]|[? ?]].
  - destruct (isHTTP mode); [|by intros [? ?]]. unfold is_private in Hg; cbn in Hg.
    destruct (rps_Private _) as [[]|]; [done|rewrite Hg by done; by intros [? ?]..].
  - destruct (isHTTP mode); [by intros [? ?]|done].
  - unfold serviceDomainFor. destruct (rps_ListenPort _); [|by left].
    destruct (isPortRouted mode); [right; eauto|by left].
Qed.

(** A ReverseProxyService is only written once its request is rendered
    (an error while rendering writes nothing), with exactly that request: the
    recorded service is updated, and one is created only when none is recorded
    or the update answered not-found; the status names the registered domain
    and, on success, the id NetBird answered with. *)
Theorem applyReverseProxyService_upsert rps :
  wp (applyReverseProxyService mode_text rps) (fun t r =>
    let id := rps_ServiceID (ReverseProxyService_Status rps) in
    (forall e, e ∈ t -> ~ nb_write e) /\ r.2 <> None /\ r.1 = rps \/
    exists tr req, runs (renderService mode_text rps) tr (Ok req) /\ tr `sublist_of` t /\
      (forall e, e ∈ t -> nb_write e ->
         (id <> "" /\ exists x, e = Entry (NBUpdate CServices id req) x) \/
         (exists x, e = Entry (NBCreate CServices req) x /\
            (id = "" \/ exists g, Entry (NBUpdate CServices id req) (Err g) ∈ t /\
                              netbird_IsNotFound g = true))) /\
      rps_ServiceDomain (ReverseProxyService_Status r.1) = api.s_Domain req /\
      (r.2 = None -> exists x,
         api.sv_Id x = rps_ServiceID (ReverseProxyService_Status r.1) /\
         (Entry (NBUpdate CServices id req) (Ok x) ∈ t \/ Entry (NBCreate CServices req) (Ok x) ∈ t))).
Proof.
  unfold applyReverseProxyService. apply wp_bind. eapply wp_mono;
    [apply wp_and; [apply reads_no_writes, renderService_reads|by apply wp_all]|].
  intros tr [req|e] [Hnw Hr]; cbn; [|left; trace_cases; done].
  wp_run; bool_prop; subst; right; exists tr, req; (split; [done|]);
    (split; [by apply sublist_inserts_r|]); trace_cases; try done.
  all: first
    [ left; split; [done|eexists; reflexivity]
    | right; eexists; split; [reflexivity|]; first [left; done|right; eexists; split; [in_trace|done]]
    | eexists; split; [reflexivity|]; first [left; in_trace|right; in_trace] ].
Qed.

(** The resource an L4 target references does not depend on the order of
    the list when every address is an IP and names are distinct, and it is an
    IPv4 one whenever there is one. *)
Theorem preferL4Resource_stable l1 l2 :
  l1 ≡ₚ l2 ->
  Forall (fun r => ipFamilyOf (nres_Address (NetworkResource_Spec r)) <> "") l1 ->
  NoDup (map (fun r => meta_Name (NetworkResource_Meta r)) l1) ->
  preferL4Resource l1 = preferL4Resource l2 /\
  (forall pick r, preferL4Resource l1 = Some pick -> r ∈ l1 ->
     ipFamilyOf (nres_Address (NetworkResource_Spec r)) = IPv4Protocol ->
     ipFamilyOf (nres_Address (NetworkResource_Spec pick)) = IPv4Protocol).
Proof.
  intros Hp Hv Hn.
  assert (Forall (fun r => ipFamilyOf (nres_Address (NetworkResource_Spec r)) <> "") l2) as Hv2
    by (by rewrite <- Hp).
  rewrite Forall_forall in Hv, Hv2. unfold preferL4Resource.
  rewrite (sort_slice_ext addressLess rankLess l1) by (intros; apply addressLess_rank; auto).
  rewrite (sort_slice_ext addressLess rankLess l2) by (intros; apply addressLess_rank; auto).
  split.
  - assert (map addressRank (sort_slice rankLess l1) = map addressRank (sort_slice rankLess l2)) as Hk.
    { apply sort_slice_keys; [apply rankLess_strict_weak| | |done].
      - unfold rankLess. intros x y. destruct (addressRank x) as [[] n1], (addressRank y) as [[] n2];
          cbn; try done; intros Ha Hb; by rewrite (less_total _ _ Ha Hb).
      - unfold rankLess. by intros x x' y y' -> ->. }
    destruct (sort_slice rankLess l1) as [|x s1] eqn:E1, (sort_slice rankLess l2) as [|y s2] eqn:E2;
      try done. cbn. f_equal. apply (NoDup_map_inj (fun r => meta_Name (NetworkResource_Meta r)) l1);
      [done|rewrite <- (sort_slice_perm rankLess l1), E1; left
      |rewrite Hp, <- (sort_slice_perm rankLess l2), E2; left|].
    cbn in Hk. injection Hk as _ Hk _. exact Hk.
  - intros pick r Hpick Hr H4. pose proof (sort_slice_sorted rankLess l1 rankLess_strict_weak) as Hs.
    rewrite <- (sort_slice_perm rankLess l1) in Hr.
    destruct (sort_slice rankLess l1) as [|x s1]; [done|]. cbn in Hpick. injection Hpick as ->.
    apply elem_of_cons in Hr as [->|Hr]; [done|].
    apply StronglySorted_inv in Hs as [_ Hs]. rewrite Forall_forall in Hs.
    specialize (Hs r Hr). unfold may_precede, rankLess, addressRank in Hs. rewrite H4 in Hs.
    destruct (String.eqb_spec (ipFamilyOf (nres_Address (NetworkResource_Spec pick))) IPv4Protocol);
      [done|by cbn in Hs].
Qed.
End rps_props.

(** Rendering the same backends in another order gives the targets in the
    same order of host and port. *)
Theorem sortServiceTargets_keys `{SortSliceLaws} l1 l2 :
  l1 ≡ₚ l2 ->
  map (fun t => (targetHost t, api.t_Port t)) (sortServiceTargets l1) =
  map (fun t => (targetHost t, api.t_Port t)) (sortServiceTargets l2).
Proof.
  apply sort_slice_keys; [apply targetLess_strict_weak|apply targetLess_total|].
  intros x x' y y' [= Hx Hpx] [= Hy Hpy]. unfold targetLess. by rewrite Hx, Hpx, Hy, Hpy.
Qed.

(** The per-port domain is a sibling of the declared host: the label goes
    behind the first label and the parent is kept, and distinct port labels
    give distinct domains. *)
Theorem portLabelDomain_sibling host l1 l2 :
  (portLabelDomain host l1 = portLabelDomain host l2 <-> l1 = l2) /\
  (forall first rest, strings.Cut host "." = (first, rest, true) ->
     host = first +:+ "." +:+ rest /\
     portLabelDomain host l1 = first +:+ "-" +:+ l1 +:+ "." +:+ rest).
Proof.
  unfold portLabelDomain. destruct (strings.Cut host ".") as [[first rest] found] eqn:Hc. split.
  - split; [|by intros ->]. destruct found; cbn; intros Heq; apply append_inj_r in Heq;
      injection Heq as Heq; [by apply append_inj_l in Heq|done].
  - intros ? ? [= -> -> ->]. split; [|done].
    unfold strings.Cut in Hc. destruct (strings.Cut_at host ".") as [[b r]|] eqn:E;
      [|done]. injection Hc as -> ->. by apply Cut_at_Some.
Qed.

Lemma portLabelDomain_example : portLabelDomain "mail.example.com" "smtp" = "mail-smtp.example.com".
Proof. reflexivity. Qed.

#[export] Instance Rps_behaviour `{ErrorClass} `{SortSlice} mode_text :
  MirrorBehaviour (NewReverseProxyServiceReconciler mode_text).
Proof.
  assert (forall rps, calls_in (not_patch KReverseProxyService) (renderService mode_text rps)) as Hr.
  { intros rps. eapply calls_in_mono; [apply read_not_patch|apply renderService_reads]. }
  constructor; intros rps; cbn [m_apply m_del NewReverseProxyServiceReconciler];
    unfold applyReverseProxyService, deleteReverseProxyService.
  - apply calls_no_patch, calls_in_bind; [apply Hr|]. intros [req|e]; calls_run fail.
  - behaviour_meta.
  - behaviour_calls.
Qed.

(** ** Witnesses *)
Definition nres_example (name address : string) : NetworkResource :=
  mkNetworkResource (mkMeta name "shop" name ∅ ∅ [] None 1)
    (mkNetworkResourceSpec (mkRef "corp" "netbird") name address "" [] true)
    (mkNetworkResourceStatus 1 [] "n-1" ("r-" +:+ name)).

Lemma preferL4Resource_stable_witness :
  let v4 := nres_example "web-ipv4" "10.0.0.7" in
  let v6 := nres_example "web-ipv6" "2001:db8::7" in
  preferL4Resource [v6; v4] = preferL4Resource [v4; v6] /\
  preferL4Resource [v4; v6] = Some v4.
Proof.
  cbn zeta. split; [|reflexivity].
  apply (preferL4Resource_stable
           [nres_example "web-ipv6" "2001:db8::7"; nres_example "web-ipv4" "10.0.0.7"]
           [nres_example "web-ipv4" "10.0.0.7"; nres_example "web-ipv6" "2001:db8::7"]).
  - apply Permutation_swap.
  - repeat constructor; vm_compute; discriminate.
  - cbn. repeat constructor; set_solver.
Defined.

Definition target_example (host : string) (port : Z) : api.ServiceTarget :=
  http_target api.ServiceTargetProtocolHttp "gate.example.com" host port "".

Lemma sortServiceTargets_keys_witness :
  let a := target_example "a.svc" 80 in
  let b := target_example "b.svc" 80 in
  let a' := target_example "a.svc" 443 in
  map (fun t => (targetHost t, api.t_Port t)) (sortServiceTargets [b; a; a']) =
  map (fun t => (targetHost t, api.t_Port t)) (sortServiceTargets [a'; b; a]) /\
  sortServiceTargets [b; a; a'] = [a; a'; b].
Proof.
  cbn zeta. split; [|reflexivity].
  apply (sortServiceTargets_keys
    [target_example "b.svc" 80; target_example "a.svc" 80; target_example "a.svc" 443]
    [target_example "a.svc" 443; target_example "b.svc" 80; target_example "a.svc" 80]).
  change [target_example "b.svc" 80; target_example "a.svc" 80; target_example "a.svc" 443]
    with ([target_example "b.svc" 80; target_example "a.svc" 80] ++ [target_example "a.svc" 443]).
  apply Permutation_app_comm.
Defined.

(** An HTTP service in front of a ClusterIP Service, rendered. *)
Module RenderRun.
Definition cluster : api.ProxyCluster := api.mkProxyCluster "c-1" "gate.example.com" true 1.
Definition backend_svc : Service :=
  mkService (mkMeta "web" "shop" "uid-svc" ∅ ∅ [] None 1) "ClusterIP" [mkServicePort "http" 8080] [].
Definition rps : ReverseProxyService :=
  mkReverseProxyService (mkMeta "web" "shop" "uid-rps" ∅ ∅ [] None 1)
    (mkReverseProxyServiceSpec [mkReverseProxyBackend "web" 0 "/"] "" None None
       "gate.example.com" "shop.example.com" None [] None None (Some true) None)
    (mkReverseProxyServiceStatus 0 [] "" "").
Definition cache0 : listCache (cache_item ClusterCache) := mkListCache [cluster] true 100.
Definition run : history :=
  [Entry Now 10; Entry (CacheRead ClusterCache) cache0; Entry (CacheWrite ClusterCache cache0) tt;
   Entry (KGet KService "shop" "web") (Ok backend_svc)].
Definition request : api.ServiceRequest :=
  service_request rps api.ServiceRequestModeHttp "shop.example.com"
    [http_target api.ServiceTargetProtocolHttp "gate.example.com" "web.shop.svc.cluster.local"
       8080 "/"] [].

Lemma renderService_request_witness :
  runs (renderService (fun _ => "http"%string) rps) run (Ok request) /\
  (exists ts, api.s_Targets request = Some ts /\ length ts = 1%nat /\
     Forall (target_ok api.ServiceRequestModeHttp "gate.example.com") ts).
Proof.
  assert (runs (renderService (fun _ => "http"%string) rps) run (Ok request)) as Hr
    by (repeat (eexists; split; [reflexivity|]); reflexivity).
  split; [exact Hr|].
  destruct (wp_elim _ _ _ _ (renderService_request (fun _ => "http"%string) rps) Hr)
    as (_ & (ts & Ht & Hl & Hok & _) & _).
  exists ts. split; [exact Ht|]. split; [exact Hl|exact Hok].
Defined.
End RenderRun.
