(* ===== verification/Gateway.v ===== *)
(** * Gateway API: which routes are admitted and how they are translated

    The pure half of [gateway_controller.go]: names, the proxy configuration of
    a Gateway, admission of routes and hostnames by listeners, and the mapping of
    an HTTPRoute's rules to reverse-proxy backends. *)

From stdpp Require Import base gmap list strings.
From Stdlib Require Import Ascii ZArith Lia.
From S2P Require Import Prelude GoStrings Sha256 ApiTypes K8sTypes ApplyConf.

Open Scope Z_scope.

(** [gatewayController], the GatewayClass [controllerName]. *)
Definition gatewayController : string := "netbird.io/gateway-controller".
Definition paramsKind : string := "ReverseProxyClusterParameters".
Definition httpRouteLabel : string := "gateway.netbird.io/httproute".
Definition labelValueMaxLen : nat := 63.
Definition objectNameMaxLen : nat := 253.

(** ** Names *)

(** [max] is at least the length of the suffix at every call. *)
Definition safeName (s : string) (max : nat) : string :=
  if (String.length s <=? max)%nat then s
  else
    let suffix := "-" +:+ sum8 s in
    let head := strings.TrimRight (strings.take_bytes (max - String.length suffix) s)
                  ["-"; "."; "_"]%char in
    head +:+ suffix.

Definition httpRouteLabelValue (route : HTTPRoute) : string :=
  safeName (meta_Name (HTTPRoute_Meta route)) labelValueMaxLen.

Definition routeChildName (routeName hostname : string) : string :=
  let sum := sum8 (routeName +:+ String "000" EmptyString +:+ hostname) in
  let h := strings.ReplaceByte hostname "*" "wildcard" in
  let h := strings.ReplaceByte h "." "-" in
  safeName (routeName +:+ "-" +:+ h) (objectNameMaxLen - 9) +:+ "-" +:+ sum.

(** ** The proxy configuration of a Gateway *)

Record gatewayProxy := mkGatewayProxy {
  gp_domain : string;
  gp_clusterAddress : string;
  gp_certSecret : string;
  gp_listener : string
}.

(** [*l.Hostname], [""] for a nil hostname. *)
Definition listener_hostname (l : Listener) : string :=
  match l_Hostname l with Some h => h | None => "" end.

Definition proxy_of_listener (l : Listener) : option gatewayProxy :=
  if negb (String.eqb (l_Protocol l) HTTPSProtocolType || String.eqb (l_Protocol l) TLSProtocolType)
     || String.eqb (listener_hostname l) ""
  then None
  else
    match l_TLS l with
    | Some tls =>
        match tls_CertificateRefs tls with
        | [] => None
        | cert :: _ =>
            let domain := strings.TrimPrefix (listener_hostname l) "*." in
            Some (mkGatewayProxy domain ("gate." +:+ domain) cert (l_Name l))
        end
    | None => None
    end.

(** The first TLS-terminating listener with a hostname and a certificate. *)
Fixpoint gatewayProxyConfig_loop (ls : list Listener) : option gatewayProxy :=
  match ls with
  | [] => None
  | l :: ls' =>
      match proxy_of_listener l with
      | Some cfg => Some cfg
      | None => gatewayProxyConfig_loop ls'
      end
  end.

Definition gatewayProxyConfig (gw : Gateway) : option gatewayProxy :=
  gatewayProxyConfig_loop (gw_Listeners gw).

Definition proxyClusterNameForGateway (gw : Gateway) : string :=
  "gateway-" +:+ meta_Name (Gateway_Meta gw).

(** ** Admission *)

Definition parent_namespace (route : HTTPRoute) (p : ParentReference) : string :=
  match pr_Namespace p with
  | Some ns => ns
  | None => meta_Namespace (HTTPRoute_Meta route)
  end.

Definition routeReferencesGateway (route : HTTPRoute) (gw : Gateway) : bool :=
  existsb (fun p => String.eqb (pr_Name p) (meta_Name (Gateway_Meta gw))
                    && String.eqb (parent_namespace route p) (meta_Namespace (Gateway_Meta gw)))
    (route_ParentRefs route).

Definition hostnameUnderDomain (hostname domain : string) : bool :=
  String.eqb hostname domain || strings.HasSuffix hostname ("." +:+ domain).

Definition listenerUnderDomain (l : Listener) (domain : string) : bool :=
  if String.eqb (listener_hostname l) "" then false
  else hostnameUnderDomain (strings.TrimPrefix (listener_hostname l) "*.") domain.

Definition listenerHostnameMatches (listener : option string) (routeHost : string) : bool :=
  match listener with
  | None => true
  | Some lh =>
      if String.eqb lh "" then true
      else
        let '(suffix, ok) := strings.CutPrefix lh "*." in
        if ok then strings.HasSuffix routeHost ("." +:+ suffix)
                   && (String.length suffix + 1 <? String.length routeHost)%nat
        else String.eqb lh routeHost
  end.

Definition allowed_from (l : Listener) : option string :=
  match l_AllowedRoutes l with
  | Some al => match al_Namespaces al with Some ns => rn_From ns | None => None end
  | None => None
  end.

Definition allowedRoutesPermits (gw : Gateway) (l : Listener) (routeNamespace : string) : bool :=
  match allowed_from l with
  | None => String.eqb routeNamespace (meta_Namespace (Gateway_Meta gw))
  | Some from =>
      if String.eqb from NamespacesFromAll then true
      else if String.eqb from NamespacesFromSame
      then String.eqb routeNamespace (meta_Namespace (Gateway_Meta gw))
      else false
  end.

Definition route_namespace (route : HTTPRoute) : string := meta_Namespace (HTTPRoute_Meta route).

Definition gatewayAdmitsRoute (gw : Gateway) (route : HTTPRoute) (hostname : string)
    (cfg : gatewayProxy) : bool :=
  if negb (hostnameUnderDomain hostname (gp_domain cfg)) then false
  else existsb (fun l => listenerUnderDomain l (gp_domain cfg)
                  && (listenerHostnameMatches (l_Hostname l) hostname
                      && allowedRoutesPermits gw l (route_namespace route)))
         (gw_Listeners gw).

(** The body shared by the two loops of [admittedHostnames]: append what
    [admits] accepts and has not been seen. *)
Fixpoint admit_loop (admits : string -> bool) (seen : list string) (hs : list string) : list string :=
  match hs with
  | [] => []
  | h :: hs' =>
      if negb (bool_decide (h ∈ seen)) && admits h
      then h :: admit_loop admits (h :: seen) hs'
      else admit_loop admits seen hs'
  end.

(** The second loop tests each listener, not only its hostname. *)
Fixpoint inherit_loop (gw : Gateway) (route : HTTPRoute) (cfg : gatewayProxy)
    (seen : list string) (ls : list Listener) : list string :=
  match ls with
  | [] => []
  | l :: ls' =>
      let h := listener_hostname l in
      if String.eqb h "" || strings.HasPrefix h "*." then inherit_loop gw route cfg seen ls'
      else if negb (bool_decide (h ∈ seen)) && hostnameUnderDomain h (gp_domain cfg)
              && allowedRoutesPermits gw l (route_namespace route)
      then h :: inherit_loop gw route cfg (h :: seen) ls'
      else inherit_loop gw route cfg seen ls'
  end.

Definition admittedHostnames (gw : Gateway) (route : HTTPRoute) (cfg : gatewayProxy) : list string :=
  match route_Hostnames route with
  | [] => inherit_loop gw route cfg [] (gw_Listeners gw)
  | hs => admit_loop (fun h => gatewayAdmitsRoute gw route h cfg) [] hs
  end.

(** [listenerAttachedRoutes]. *)
Definition route_attaches (gw : Gateway) (l : Listener) (route : HTTPRoute) : bool :=
  routeReferencesGateway route gw && allowedRoutesPermits gw l (route_namespace route)
  && (match route_Hostnames route with [] => true | _ => false end
      || existsb (listenerHostnameMatches (l_Hostname l)) (route_Hostnames route)).

Definition listenerAttachedRoutes (gw : Gateway) (l : Listener) (routes : list HTTPRoute) : Z :=
  Z.of_nat (length (List.filter (route_attaches gw l) routes)).

(** ** Backends *)

Definition maxProxyBackends : nat := 64.

(** [add] of [rulePaths]. *)
Definition add_path (paths : list string) (p : string) : list string :=
  if decide (p ∈ paths) then paths else paths ++ [p].

(** The path one match contributes; [None] for a path type other than
    [PathPrefix]. *)
Definition match_path (m : HTTPRouteMatch) : option string :=
  match m_Path m with
  | None => Some "/"%string
  | Some pm =>
      if (match pm_Type pm with
          | Some ty => negb (String.eqb ty PathMatchPathPrefix)
          | None => false
          end) then None
      else match pm_Value pm with Some v => Some v | None => Some "/"%string end
  end.

Fixpoint rulePaths_loop (ms : list HTTPRouteMatch) (paths : list string) : option (list string) :=
  match ms with
  | [] => Some paths
  | m :: ms' =>
      match match_path m with
      | None => None
      | Some p => rulePaths_loop ms' (add_path paths p)
      end
  end.

Definition rulePaths (rule : HTTPRouteRule) : option (list string) :=
  match rulePaths_loop (rule_Matches rule) [] with
  | None => None
  | Some [] => Some ["/"%string]
  | Some paths => Some paths
  end.

Definition backend_weight (br : HTTPBackendRef) : Z :=
  match br_Weight br with Some w => w | None => 1 end.

Definition path_backend (br : HTTPBackendRef) (path : string) : ACReverseProxyBackend.t :=
  let b := (ACReverseProxyBackend.new
            |> ACReverseProxyBackend.WithServiceRef (br_Name br)
            |> ACReverseProxyBackend.WithPath path)%go in
  match br_Port br with
  | Some port => ACReverseProxyBackend.WithPort port b
  | None => b
  end.

(** The inner loop of [routeBackends]: weight so far ([-1] for none), number of
    backends of this rule, and the output. *)
Fixpoint rule_backends (paths : list string) (brs : list HTTPBackendRef) (weight : Z) (n : nat)
    (out : list ACReverseProxyBackend.t) : result string (nat * list ACReverseProxyBackend.t) :=
  match brs with
  | [] => Ok (n, out)
  | br :: brs' =>
      match br_Filters br with
      | _ :: _ => Err "backendRef filters are not supported"
      | [] =>
          let w := backend_weight br in
          if w =? 0 then rule_backends paths brs' weight n out
          else if (0 <=? weight) && negb (w =? weight) then
            Err "differing backend weights are not supported (the NetBird proxy has no weighted routing)"
          else rule_backends paths brs' w (S n) (out ++ map (path_backend br) paths)
      end
  end.

Fixpoint rules_backends (rules : list HTTPRouteRule) (out : list ACReverseProxyBackend.t) :
    result string (list ACReverseProxyBackend.t) :=
  match rules with
  | [] => Ok out
  | rule :: rules' =>
      match rule_Filters rule with
      | _ :: _ => Err "route rule filters are not supported"
      | [] =>
          match rulePaths rule with
          | None => Err "only PathPrefix path matches are supported"
          | Some paths =>
              match rule_backends paths (rule_BackendRefs rule) (-1) 0 out with
              | Err e => Err e
              | Ok (O, _) => Err "a rule routes no traffic (no backendRefs, or all weights 0)"
              | Ok (_, out') => rules_backends rules' out'
              end
          end
      end
  end.

Definition routeBackends (route : HTTPRoute) : result string (list ACReverseProxyBackend.t) :=
  match rules_backends (route_Rules route) [] with
  | Err e => Err e
  | Ok [] => Err "no backends to route to (route has no rules)"
  | Ok out =>
      if (maxProxyBackends <? length out)%nat then
        Err ("too many path/backend combinations (max " +:+ strconv.Itoa (Z.of_nat maxProxyBackends) +:+ ")")
      else Ok out
  end.

(** ** Translation of rules *)

Lemma dedup_seen_ext {A} `{EqDecision A} (seen seen' l : list A) :
  (forall x, x ∈ seen <-> x ∈ seen') -> dedup_seen seen l = dedup_seen seen' l.
Proof.
  revert seen seen'. induction l as [|x l IH]; intros seen seen' Hs; cbn; [done|].
  destruct (decide (x ∈ seen)) as [Hx|Hx], (decide (x ∈ seen')) as [Hx'|Hx'];
    try (exfalso; by apply Hs in Hx || by apply Hx, Hs); [by apply IH|].
  f_equal. apply IH. set_solver.
Qed.

Lemma rulePaths_loop_spec ms acc :
  rulePaths_loop ms acc =
  if forallb (fun m => match match_path m with Some _ => true | None => false end) ms
  then Some (acc ++ dedup_seen acc (omap match_path ms)) else None.
Proof.
  revert acc. induction ms as [|m ms IH]; intros acc; cbn; [by rewrite app_nil_r|].
  destruct (match_path m) as [p|]; cbn; [|done]. rewrite IH. clear IH. unfold add_path.
  destruct (forallb _ ms); [|done].
  destruct (decide (p ∈ acc)); [done|]. rewrite <- app_assoc. cbn. do 3 f_equal.
  apply dedup_seen_ext. set_solver.
Qed.

(** The path prefixes of a rule: those of its matches without repetition, or
    the root. *)
Definition rule_paths_of (rule : HTTPRouteRule) : list string :=
  match dedup (omap match_path (rule_Matches rule)) with
  | [] => ["/"%string]
  | ps => ps
  end.

Lemma rulePaths_spec rule ps :
  rulePaths rule = Some ps <->
  Forall (fun m => is_Some (match_path m)) (rule_Matches rule) /\ ps = rule_paths_of rule.
Proof.
  unfold rulePaths, rule_paths_of. rewrite rulePaths_loop_spec. cbn [app].
  destruct (forallb _ _) eqn:E.
  - assert (Forall (fun m => is_Some (match_path m)) (rule_Matches rule)) as Hall.
    { apply Forall_forall. intros m Hm. rewrite forallb_forall in E.
      apply list_elem_of_In, E in Hm. destruct (match_path m); [eauto|done]. }
    destruct (dedup _); split; [intros [= <-]|intros [_ ->]|intros [= <-]|intros [_ ->]]; done.
  - split; [done|]. intros [Hall _]. exfalso. rewrite <- not_true_iff_false in E.
    apply E, forallb_forall. intros m Hm. rewrite Forall_forall in Hall.
    apply list_elem_of_In, Hall in Hm as [p ->]. done.
Qed.

Definition rule_supported (rule : HTTPRouteRule) : Prop :=
  rule_Filters rule = [] /\
  Forall (fun m => is_Some (match_path m)) (rule_Matches rule) /\
  Forall (fun br => br_Filters br = []) (rule_BackendRefs rule) /\
  Exists (fun br => backend_weight br <> 0) (rule_BackendRefs rule) /\
  (forall br br', br ∈ rule_BackendRefs rule -> br' ∈ rule_BackendRefs rule ->
     backend_weight br <> 0 -> backend_weight br' <> 0 -> backend_weight br = backend_weight br').

(** The named Service at its port, under the path. *)
Definition backend_to (br : HTTPBackendRef) (path : string) : ACReverseProxyBackend.t :=
  ACReverseProxyBackend.mk (Some (br_Name br)) (br_Port br) (Some path).

Lemma path_backend_to br paths : map (path_backend br) paths = map (backend_to br) paths.
Proof. apply map_ext. intros path. unfold path_backend, backend_to. by destruct (br_Port br). Qed.

Definition refs_expected (paths : list string) (brs : list HTTPBackendRef) :
    list ACReverseProxyBackend.t :=
  flat_map (fun br => if backend_weight br =? 0 then [] else map (backend_to br) paths) brs.

Definition rule_expected (rule : HTTPRouteRule) : list ACReverseProxyBackend.t :=
  refs_expected (rule_paths_of rule) (rule_BackendRefs rule).

(** Weights are not negative (a bound of the HTTPRoute CRD). *)
Definition weights_valid (route : HTTPRoute) : Prop :=
  Forall (fun rule => Forall (fun br => 0 <= backend_weight br) (rule_BackendRefs rule))
    (route_Rules route).

Lemma rule_backends_spec paths brs weight n out r :
  Forall (fun br => 0 <= backend_weight br) brs ->
  rule_backends paths brs weight n out = Ok r <->
  Forall (fun br => br_Filters br = []) brs /\
  (forall br br', br ∈ brs -> br' ∈ brs -> backend_weight br <> 0 -> backend_weight br' <> 0 ->
     backend_weight br = backend_weight br') /\
  (0 <= weight -> forall br, br ∈ brs -> backend_weight br <> 0 -> backend_weight br = weight) /\
  r = ((n + length (List.filter (fun br => negb (backend_weight br =? 0)%Z) brs))%nat,
       out ++ refs_expected paths brs).
Proof.
  intros Hv. revert weight n out. induction brs as [|br brs IH]; intros weight n out.
  - cbn. rewrite Nat.add_0_r, app_nil_r. split; [intros [= <-]|by intros (_ & _ & _ & ->)].
    repeat split; [constructor|set_solver..].
  - apply Forall_cons in Hv as [Hbr Hv]. cbn [rule_backends].
    destruct (br_Filters br) as [|f fs] eqn:Ef.
    2: { split; [done|]. intros [Hf _]. apply Forall_cons in Hf as [Hf _]. congruence. }
    destruct (Z.eqb_spec (backend_weight br) 0) as [Hw|Hw].
    + rewrite IH by done. cbn [List.filter refs_expected flat_map length].
      rewrite Hw; cbn [negb Z.eqb app]. rewrite Forall_cons.
      split; intros (Hf & Hp & Hq & ->); (split; [tauto|]); (split; [|split; [|done]]).
      * intros b b' [->|Hb]%elem_of_cons [->|Hb']%elem_of_cons; [done..|]. auto.
      * intros Hwt b [->|Hb]%elem_of_cons; [done|]. auto.
      * intros b b' Hb Hb'. apply Hp; by right.
      * intros Hwt b Hb. apply Hq; [done|by right].
    + destruct ((0 <=? weight) && negb (backend_weight br =? weight)) eqn:Ec.
      * split; [done|]. intros (_ & _ & Hq & _). exfalso.
        apply andb_true_iff in Ec as [Ec1 Ec2]. apply negb_true_iff in Ec2.
        rewrite (Hq ltac:(lia) br ltac:(left) Hw) in Ec2. lia.
      * rewrite IH, path_backend_to by done. cbn [List.filter refs_expected flat_map length].
        rewrite (proj2 (Z.eqb_neq _ _) Hw); cbn [negb length]. rewrite Forall_cons, <- app_assoc.
        rewrite Nat.add_succ_r. cbn [Nat.add].
        assert (0 <= weight -> backend_weight br = weight) as Hbw
          by (intros; destruct (Z.eqb_spec (backend_weight br) weight); cbn in Ec; lia).
        split; intros (Hf & Hp & Hq & ->); (split; [tauto|]); (split; [|split; [|done]]).
        -- intros b b' [->|H1]%elem_of_cons [->|H2]%elem_of_cons H3 H4; [done|symmetry; auto|auto..].
        -- intros Hwt b [->|H1]%elem_of_cons H3; [auto|]. rewrite (Hq Hbr _ H1 H3). auto.
        -- intros b b' H1 H2. apply Hp; by right.
        -- intros _ b H1 H3. apply Hp; [by right|left|done|done].
Qed.

Lemma filter_nonzero_length brs :
  length (List.filter (fun br => negb (backend_weight br =? 0)) brs) <> 0%nat <->
  Exists (fun br => backend_weight br <> 0) brs.
Proof.
  rewrite Exists_exists. split.
  - intros Hl. destruct (List.filter _ brs) as [|br l] eqn:E; [done|].
    assert (In br (List.filter (fun br => negb (backend_weight br =? 0)) brs)) as Hin
      by (rewrite E; left; done).
    apply filter_In in Hin as [Hin Hw]. exists br. rewrite list_elem_of_In. split; [done|].
    intros Hz. by rewrite Hz in Hw.
  - intros (br & Hin & Hw) Hl. apply length_zero_iff_nil in Hl.
    assert (In br (List.filter (fun br => negb (backend_weight br =? 0)) brs)) as Hin'.
    { apply filter_In. split; [by apply list_elem_of_In|]. by apply negb_true_iff, Z.eqb_neq. }
    by rewrite Hl in Hin'.
Qed.

Lemma rules_backends_spec rules out bs :
  Forall (fun rule => Forall (fun br => 0 <= backend_weight br) (rule_BackendRefs rule)) rules ->
  rules_backends rules out = Ok bs <->
  Forall rule_supported rules /\ bs = out ++ flat_map rule_expected rules.
Proof.
  intros Hv. revert out. induction rules as [|rule rules IH]; intros out.
  - cbn. rewrite app_nil_r. split; [intros [= <-]; auto|by intros [_ ->]].
  - apply Forall_cons in Hv as [Hr Hv]. cbn [rules_backends flat_map]. rewrite Forall_cons.
    destruct (rule_Filters rule) as [|f fs] eqn:Ef.
    2: { split; [done|]. intros [[[Hf _] _] _]. congruence. }
    destruct (rulePaths rule) as [paths|] eqn:Ep.
    2: { split; [done|]. intros [[(_ & Hm & _) _] _]. exfalso.
         assert (rulePaths rule = Some (rule_paths_of rule)) by (by apply rulePaths_spec).
         congruence. }
    apply rulePaths_spec in Ep as [Hm ->].
    destruct (rule_backends _ _ _ _ _) as [[m out']|e] eqn:Eb.
    + apply rule_backends_spec in Eb as (Hf & Hp & _ & [= -> ->]); [|done]. cbn [Nat.add].
      destruct (length (List.filter _ _)) eqn:El.
      * split; [done|]. intros [[(_ & _ & _ & Hex & _) _] _].
        by apply filter_nonzero_length in Hex.
      * rewrite IH, <- app_assoc by done. unfold rule_expected at 2, rule_supported at 2.
        assert (Exists (fun br => backend_weight br <> 0) (rule_BackendRefs rule)) as Hex
          by (apply filter_nonzero_length; congruence).
        tauto.
    + split; [done|]. intros [[(_ & _ & Hf & _ & Hp) _] _]. exfalso.
      assert (rule_backends (rule_paths_of rule) (rule_BackendRefs rule) (-1) 0 out =
        Ok ((0 + length (List.filter (fun br => negb (backend_weight br =? 0)%Z)
               (rule_BackendRefs rule)))%nat,
            out ++ refs_expected (rule_paths_of rule) (rule_BackendRefs rule))) as Hok.
      { apply rule_backends_spec; [done|]. split; [done|]. split; [done|]. split; [lia|done]. }
      congruence.
Qed.

Lemma rule_expected_nonempty rule : rule_supported rule -> rule_expected rule <> [].
Proof.
  intros (_ & _ & _ & Hex & _). apply Exists_exists in Hex as (br & Hin & Hw).
  unfold rule_expected, refs_expected. intros Hnil.
  assert (exists p, p ∈ rule_paths_of rule) as [p Hp].
  { unfold rule_paths_of. destruct (dedup _) as [|p ps]; [exists "/"%string|exists p]; left. }
  assert (In (backend_to br p) (flat_map (fun br =>
    if backend_weight br =? 0 then [] else map (backend_to br) (rule_paths_of rule))
      (rule_BackendRefs rule))) as Hin'.
  { apply in_flat_map. exists br. split; [by apply list_elem_of_In|].
    rewrite (proj2 (Z.eqb_neq _ _) Hw). by apply in_map, list_elem_of_In. }
  by rewrite Hnil in Hin'.
Qed.

Lemma routeBackends_iff route bs :
  weights_valid route ->
  routeBackends route = Ok bs <->
  route_Rules route <> [] /\ Forall rule_supported (route_Rules route) /\
  bs = flat_map rule_expected (route_Rules route) /\ (length bs <= maxProxyBackends)%nat.
Proof.
  intros Hv. unfold routeBackends.
  assert (forall bs, rules_backends (route_Rules route) [] = Ok bs <->
    Forall rule_supported (route_Rules route) /\ bs = flat_map rule_expected (route_Rules route))
    as Hs by (intros; by apply rules_backends_spec).
  destruct (rules_backends _ _) as [[|b bs']|e] eqn:E.
  - destruct (proj1 (Hs _) eq_refl) as [Hall Hnil]. split; [done|].
    intros (Hne & _). destruct (route_Rules route) as [|rule rules]; [done|].
    apply Forall_cons in Hall as [Hr _]. cbn in Hnil. symmetry in Hnil.
    apply app_eq_nil in Hnil as [Hnil _]. by apply rule_expected_nonempty in Hnil.
  - destruct (proj1 (Hs _) eq_refl) as [Hall Hbs].
    assert (route_Rules route <> []) by (by intros Hn; rewrite Hn in Hbs).
    destruct (Nat.ltb_spec maxProxyBackends (length (b :: bs'))) as [Hl|Hl].
    + split; [done|]. intros (_ & _ & -> & Hle). rewrite <- Hbs in Hle. lia.
    + split; [intros [= <-]; auto|]. intros (_ & _ & -> & _). by rewrite Hbs.
  - split; [done|]. intros (_ & Hall & -> & _).
    assert (Err e = Ok (flat_map rule_expected (route_Rules route))) by (by apply Hs). done.
Qed.

Lemma routeBackends_ok_perm r1 r2 :
  route_Rules r1 ≡ₚ route_Rules r2 -> weights_valid r1 ->
  is_ok (routeBackends r1) = true -> is_ok (routeBackends r2) = true.
Proof.
  intros Hp Hv Hok.
  assert (weights_valid r2) as Hv2 by (unfold weights_valid in *; by rewrite <- Hp).
  destruct (routeBackends r1) as [bs|] eqn:E; [|done].
  apply routeBackends_iff in E as (Hne & Hall & -> & Hle); [|done].
  enough (routeBackends r2 = Ok (flat_map rule_expected (route_Rules r2))) as -> by done.
  apply routeBackends_iff; [done|]. split; [|split; [by rewrite <- Hp|split; [done|]]].
  - intros Hn. rewrite Hn in Hp. by apply Permutation_sym, Permutation_nil in Hp.
  - by rewrite <- (Permutation_flat_map rule_expected Hp).
Qed.

(** What a rule says beside its paths, filters and the names, ports and weights
    of its backends. *)
Definition strip_match (m : HTTPRouteMatch) : HTTPRouteMatch := mkHTTPRouteMatch (m_Path m) [] None [].
Definition strip_ref (br : HTTPBackendRef) : HTTPBackendRef :=
  mkHTTPBackendRef None None (br_Name br) (br_Port br) (br_Weight br) (br_Filters br).
Definition strip_rule (rule : HTTPRouteRule) : HTTPRouteRule :=
  mkHTTPRouteRule (map strip_match (rule_Matches rule)) (rule_Filters rule) (map strip_ref (rule_BackendRefs rule)).
Definition strip_route (route : HTTPRoute) : HTTPRoute :=
  mkHTTPRoute (HTTPRoute_Meta route) (route_ParentRefs route) (route_Hostnames route)
    (map strip_rule (route_Rules route)) (route_Parents route).

Lemma strip_rulePaths rule : rulePaths (strip_rule rule) = rulePaths rule.
Proof.
  unfold rulePaths, strip_rule. cbn [rule_Matches].
  enough (forall acc, rulePaths_loop (map strip_match (rule_Matches rule)) acc = rulePaths_loop (rule_Matches rule) acc)
    as -> by done.
  induction (rule_Matches rule) as [|m ms IH]; intros acc; [done|]. cbn [map rulePaths_loop].
  change (match_path (strip_match m)) with (match_path m). destruct (match_path m); [apply IH|done].
Qed.

Lemma strip_rule_backends paths brs weight n out :
  rule_backends paths (map strip_ref brs) weight n out = rule_backends paths brs weight n out.
Proof.
  revert weight n out. induction brs as [|br brs IH]; intros weight n out; [done|]. cbn [map rule_backends].
  change (br_Filters (strip_ref br)) with (br_Filters br).
  change (backend_weight (strip_ref br)) with (backend_weight br).
  change (map (path_backend (strip_ref br)) paths) with (map (path_backend br) paths).
  destruct (br_Filters br); [|done]. cbv zeta. destruct (_ =? 0); [apply IH|]. destruct (_ && _); [done|apply IH].
Qed.

(** A route is translated as if it had no header, method and query conditions,
    and as if every backend were a Service of its own namespace: the condition
    is dropped and the traffic goes to the namesake, without an error. *)
Lemma untranslated_ignored route : routeBackends (strip_route route) = routeBackends route.
Proof.
  unfold routeBackends, strip_route. cbn [route_Rules].
  assert (forall out, rules_backends (map strip_rule (route_Rules route)) out = rules_backends (route_Rules route) out) as ->;
    [|done].
  induction (route_Rules route) as [|rule rules IH]; intros out; [done|]. cbn [map rules_backends].
  rewrite strip_rulePaths. cbn [rule_Filters rule_BackendRefs strip_rule]. destruct (rule_Filters rule); [|done].
  destruct (rulePaths rule); [|done]. rewrite strip_rule_backends.
  destruct (rule_backends _ _ _ _ _) as [[[|n] out']|e]; [done|apply IH|done].
Qed.

(** C36: which HTTPRoutes are translated, and into what. With weights that are not
    negative (a bound of the HTTPRoute CRD), a route is translated exactly when
    it has a rule, every rule has no filters, only path-prefix matches, at least
    one backend with traffic, no backend with filters and no two different
    non-zero weights, and there are at most 64 path/backend pairs; the backends
    are then, in the order of the rules, one per path of the rule and backend
    reference that carries traffic: the Service of that name at that port under
    that path. Every other route is rejected as a whole, whatever the order of
    its rules. Header, method and query matches and the namespace and kind of a
    backend play no part: a route is translated as it would be without them,
    where the design document would have such a route rejected with a
    condition. *)
Theorem routeBackends_spec route :
  weights_valid route ->
  (forall bs, routeBackends route = Ok bs <->
     route_Rules route <> [] /\ Forall rule_supported (route_Rules route) /\
     bs = flat_map rule_expected (route_Rules route) /\ (length bs <= maxProxyBackends)%nat) /\
  (forall route', route_Rules route' ≡ₚ route_Rules route ->
     is_ok (routeBackends route') = is_ok (routeBackends route)) /\
  routeBackends (strip_route route) = routeBackends route.
Proof.
  intros Hv. split; [intros bs; by apply routeBackends_iff|].
  split; [|apply untranslated_ignored]. intros route' Hp.
  assert (weights_valid route') as Hv' by (unfold weights_valid in *; by rewrite Hp).
  apply eq_bool_prop_intro. rewrite !Is_true_true. split; by apply routeBackends_ok_perm.
Qed.

(** ** Admission *)

Lemma elem_of_admit_loop admits seen hs h :
  h ∈ admit_loop admits seen hs <-> h ∈ hs /\ admits h = true /\ h ∉ seen.
Proof.
  revert seen. induction hs as [|x hs IH]; intros seen; cbn; [set_solver|].
  case_bool_decide as Hx; cbn; [rewrite IH; set_solver|].
  destruct (admits x) eqn:Ha; rewrite ?elem_of_cons, IH.
  - destruct (decide (h = x)) as [->|]; set_solver.
  - split; [set_solver|]. intros [[->|?] [? ?]]; [congruence|auto].
Qed.

Lemma NoDup_admit_loop admits seen hs : NoDup (admit_loop admits seen hs).
Proof.
  revert seen. induction hs as [|x hs IH]; intros seen; cbn; [constructor|].
  case_bool_decide; cbn; [auto|]. destruct (admits x); [|auto].
  constructor; [|auto]. rewrite elem_of_admit_loop. set_solver.
Qed.

(** A listener a hostname-less route inherits its hostname from. *)
Definition inheritable (gw : Gateway) (route : HTTPRoute) (cfg : gatewayProxy) (l : Listener) : Prop :=
  listener_hostname l <> "" /\ strings.HasPrefix (listener_hostname l) "*." = false /\
  hostnameUnderDomain (listener_hostname l) (gp_domain cfg) = true /\
  allowedRoutesPermits gw l (route_namespace route) = true.

Lemma elem_of_inherit_loop gw route cfg seen ls h :
  h ∈ inherit_loop gw route cfg seen ls <->
  (exists l, l ∈ ls /\ listener_hostname l = h /\ inheritable gw route cfg l) /\ h ∉ seen.
Proof.
  revert seen. induction ls as [|l ls IH]; intros seen; cbn; [set_solver|].
  assert ((exists l', l' ∈ l :: ls /\ listener_hostname l' = h /\ inheritable gw route cfg l') <->
    (listener_hostname l = h /\ inheritable gw route cfg l) \/
    (exists l', l' ∈ ls /\ listener_hostname l' = h /\ inheritable gw route cfg l')) as -> by set_solver.
  unfold inheritable at 1.
  destruct (String.eqb_spec (listener_hostname l) "") as [He|He]; cbn;
    [rewrite IH; tauto|].
  destruct (strings.HasPrefix (listener_hostname l) "*."); cbn; [rewrite IH; intuition congruence|].
  case_bool_decide as Hs; cbn; [rewrite IH; intuition congruence|].
  destruct (hostnameUnderDomain _ _); cbn; [|rewrite IH; intuition congruence].
  destruct (allowedRoutesPermits _ _ _); cbn; [|rewrite IH; intuition congruence].
  rewrite elem_of_cons, IH. destruct (decide (h = listener_hostname l)) as [->|]; set_solver.
Qed.

Lemma NoDup_inherit_loop gw route cfg seen ls : NoDup (inherit_loop gw route cfg seen ls).
Proof.
  revert seen. induction ls as [|l ls IH]; intros seen; cbn; [constructor|].
  destruct (_ || _); [auto|]. destruct (_ && _ && _); [|auto].
  constructor; [|auto]. rewrite elem_of_inherit_loop. set_solver.
Qed.

Lemma gatewayAdmitsRoute_spec gw route h cfg :
  gatewayAdmitsRoute gw route h cfg = true <->
  hostnameUnderDomain h (gp_domain cfg) = true /\
  exists l, l ∈ gw_Listeners gw /\ listenerUnderDomain l (gp_domain cfg) = true /\
    listenerHostnameMatches (l_Hostname l) h = true /\
    allowedRoutesPermits gw l (route_namespace route) = true.
Proof.
  unfold gatewayAdmitsRoute. destruct (hostnameUnderDomain h _); cbn; [|intuition congruence].
  rewrite existsb_elem. setoid_rewrite andb_true_iff. setoid_rewrite andb_true_iff. tauto.
Qed.

(** An inherited hostname is admitted by the listener it comes from. *)
Lemma inheritable_admits gw route cfg l :
  l ∈ gw_Listeners gw -> inheritable gw route cfg l ->
  gatewayAdmitsRoute gw route (listener_hostname l) cfg = true.
Proof.
  intros Hl (Hne & Hw & Hd & Hp). apply gatewayAdmitsRoute_spec. split; [done|].
  exists l. split; [done|]. unfold listenerUnderDomain, listenerHostnameMatches.
  rewrite (proj2 (String.eqb_neq _ _) Hne), TrimPrefix_not by done.
  split; [done|]. split; [|done]. unfold listener_hostname in *.
  destruct (l_Hostname l) as [lh|]; [|done].
  rewrite (proj2 (String.eqb_neq _ _) Hne). unfold strings.CutPrefix. rewrite Hw.
  apply String.eqb_refl.
Qed.

(** C35: the hostnames translated for a route. They are distinct, and exactly
    the route's own hostnames the Gateway admits - or, when it declares none,
    the concrete hostnames of the listeners under the domain that permit its
    namespace, never a wildcard. Each is under the proxy's domain and is granted
    by one listener under that domain which both matches it and permits the
    route's namespace; a route of another namespace needs such a listener with
    allowedRoutes From=All. *)
Theorem admittedHostnames_spec gw route cfg :
  NoDup (admittedHostnames gw route cfg) /\
  (forall h, h ∈ admittedHostnames gw route cfg <->
     match route_Hostnames route with
     | [] => exists l, l ∈ gw_Listeners gw /\ listener_hostname l = h /\ inheritable gw route cfg l
     | hs => h ∈ hs /\ gatewayAdmitsRoute gw route h cfg = true
     end) /\
  (forall h, h ∈ admittedHostnames gw route cfg ->
     hostnameUnderDomain h (gp_domain cfg) = true /\
     exists l, l ∈ gw_Listeners gw /\ listenerUnderDomain l (gp_domain cfg) = true /\
       listenerHostnameMatches (l_Hostname l) h = true /\
       allowedRoutesPermits gw l (route_namespace route) = true /\
       (route_namespace route <> meta_Namespace (Gateway_Meta gw) ->
        allowed_from l = Some NamespacesFromAll)).
Proof.
  unfold admittedHostnames.
  assert (forall h, h ∈ match route_Hostnames route with
                        | [] => inherit_loop gw route cfg [] (gw_Listeners gw)
                        | hs => admit_loop (fun h => gatewayAdmitsRoute gw route h cfg) [] hs
                        end <->
     match route_Hostnames route with
     | [] => exists l, l ∈ gw_Listeners gw /\ listener_hostname l = h /\ inheritable gw route cfg l
     | hs => h ∈ hs /\ gatewayAdmitsRoute gw route h cfg = true
     end) as Hiff.
  { intros h. destruct (route_Hostnames route) as [|x hs].
    - rewrite elem_of_inherit_loop. set_solver.
    - rewrite elem_of_admit_loop. set_solver. }
  split; [|split; [exact Hiff|]].
  - destruct (route_Hostnames route); [apply NoDup_inherit_loop|apply NoDup_admit_loop].
  - intros h Hh. apply Hiff in Hh.
    assert (gatewayAdmitsRoute gw route h cfg = true) as Ha.
    { destruct (route_Hostnames route); [|tauto].
      destruct Hh as (l & Hl & <- & Hi). by apply inheritable_admits. }
    apply gatewayAdmitsRoute_spec in Ha as (Hd & l & Hl & Hu & Hm & Hp).
    split; [done|]. exists l. repeat split; [done..|]. intros Hns.
    unfold allowedRoutesPermits in Hp. apply String.eqb_neq in Hns. rewrite Hns in Hp.
    destruct (allowed_from l) as [fr|]; [|done].
    destruct (String.eqb_spec fr NamespacesFromAll) as [Hfr|]; [by f_equal|].
    by destruct (String.eqb fr NamespacesFromSame).
Qed.

(** A wildcard listener "*.s" matches exactly the hostnames with at least
    one more non-empty label part before ".s" - not "s" itself -, any other
    listener hostname only itself, and no hostname matches everything. *)
Theorem listenerHostnameMatches_spec listener h :
  listenerHostnameMatches listener h = true <->
  match listener with
  | None => True
  | Some lh =>
      lh = "" \/
      (exists s p, lh = "*." +:+ s /\ p <> "" /\ h = p +:+ "." +:+ s) \/
      (strings.HasPrefix lh "*." = false /\ lh = h)
  end.
Proof.
  destruct listener as [lh|]; cbn; [|done].
  destruct (String.eqb_spec lh "") as [->|Hne]; [tauto|].
  unfold strings.CutPrefix. destruct (strings.HasPrefix lh "*.") eqn:Hp.
  - apply HasPrefix_spec in Hp as [s ->]. rewrite drop_append, andb_true_iff, HasSuffix_spec.
    split.
    + intros [[p ->] Hl]. right; left. exists s, p. split; [done|]. split; [|done].
      intros ->. rewrite !length_append in Hl. cbn in Hl. apply Nat.leb_le in Hl. lia.
    + intros [?|[(s' & p & Hs & Hpne & ->)|[? _]]]; [done| |done].
      injection Hs as <-. split; [by exists p|].
      rewrite !length_append. apply Nat.ltb_lt. destruct p; [done|cbn; lia].
  - rewrite String.eqb_eq. split; [auto|].
    intros [?|[(s & p & -> & _)|[_ ?]]]; [done| |done].
    pose proof (HasPrefix_append "*." s). cbn in *. congruence.
Qed.

(** The proxy is configured from the first listener that terminates TLS
    and has a hostname and a certificate; its domain is that hostname without
    the wildcard label, the listener and the cluster address are themselves
    under the domain, and there is no configuration exactly when no listener
    qualifies. *)
Theorem gatewayProxyConfig_spec gw :
  match gatewayProxyConfig gw with
  | None => forall l, l ∈ gw_Listeners gw -> proxy_of_listener l = None
  | Some cfg => exists pre l post, gw_Listeners gw = pre ++ l :: post /\
      (forall l', l' ∈ pre -> proxy_of_listener l' = None) /\
      proxy_of_listener l = Some cfg /\
      (l_Protocol l = HTTPSProtocolType \/ l_Protocol l = TLSProtocolType) /\
      (l_Hostname l = Some (gp_domain cfg) \/ l_Hostname l = Some ("*." +:+ gp_domain cfg)) /\
      (exists tls rest, l_TLS l = Some tls /\ tls_CertificateRefs tls = gp_certSecret cfg :: rest) /\
      listenerUnderDomain l (gp_domain cfg) = true /\
      hostnameUnderDomain (gp_clusterAddress cfg) (gp_domain cfg) = true
  end.
Proof.
  unfold gatewayProxyConfig. induction (gw_Listeners gw) as [|l ls IH]; cbn; [set_solver|].
  destruct (proxy_of_listener l) as [cfg|] eqn:Hl.
  - exists [], l, ls. split; [done|]. split; [set_solver|]. split; [done|].
    unfold proxy_of_listener in Hl. destruct (_ || _) eqn:Hc in Hl; [done|].
    apply orb_false_iff in Hc as [Hpr Hne]. apply String.eqb_neq in Hne.
    apply negb_false_iff, orb_true_iff in Hpr. rewrite !String.eqb_eq in Hpr.
    destruct (l_TLS l) as [[[|cert rest]]|] eqn:Ht; [done| |done]. injection Hl as <-. cbn.
    split; [done|].
    assert (hostnameUnderDomain (strings.TrimPrefix (listener_hostname l) "*.")
              (strings.TrimPrefix (listener_hostname l) "*.") = true) as Hu
      by (unfold hostnameUnderDomain; by rewrite String.eqb_refl).
    split; [|split; [by do 2 eexists|split]].
    + unfold listener_hostname in *. destruct (l_Hostname l) as [h|]; [|done].
      destruct (strings.HasPrefix h "*.") eqn:Hp.
      * apply HasPrefix_spec in Hp as [r ->]. right. by rewrite TrimPrefix_append.
      * left. by rewrite TrimPrefix_not.
    + unfold listenerUnderDomain. by rewrite (proj2 (String.eqb_neq _ _)).
    + unfold hostnameUnderDomain. apply orb_true_iff. right.
      apply (HasSuffix_append "gate").
  - destruct (gatewayProxyConfig_loop ls) as [cfg|].
    + destruct IH as (pre & l' & post & -> & Hpre & H'). exists (l :: pre), l', post.
      split; [done|]. split; [set_solver|done].
    + set_solver.
Qed.

(** ** Names *)

Lemma safeName_long s max :
  (max < String.length s)%nat ->
  exists head, safeName s max = head +:+ "-" +:+ sum8 s /\
    (String.length head <= max - 9)%nat.
Proof.
  intros Hl. unfold safeName. rewrite (proj2 (Nat.leb_gt _ _) Hl).
  eexists. split; [reflexivity|]. etransitivity; [apply length_TrimRight|].
  rewrite length_take. cbn. rewrite length_sum8. lia.
Qed.

Lemma length_safeName s max :
  (9 <= max)%nat -> (String.length (safeName s max) <= max)%nat.
Proof.
  intros Hmax. destruct (Nat.le_gt_cases (String.length s) max) as [Hl|Hl].
  - unfold safeName. by rewrite (proj2 (Nat.leb_le _ _) Hl).
  - destruct (safeName_long s max Hl) as (head & -> & Hh).
    rewrite length_append. cbn. rewrite length_sum8. lia.
Qed.

(** The digest of a shortened name is its last eight characters. *)
Lemma safeName_long_inj s s' max :
  (max < String.length s)%nat -> (max < String.length s')%nat -> safeName s max = safeName s' max -> sum8 s = sum8 s'.
Proof.
  intros Hl Hl' Heq. destruct (safeName_long _ _ Hl) as (hd & E & _).
  destruct (safeName_long _ _ Hl') as (hd' & E' & _). rewrite E, E' in Heq.
  apply append_eq_length_r in Heq as [_ Heq]; [exact (append_inj_r "-" _ _ Heq)|].
  cbn. by rewrite !length_sum8.
Qed.

Lemma safeName_short s max : (String.length s <= max)%nat -> safeName s max = s.
Proof. intros Hl. unfold safeName. by rewrite (proj2 (Nat.leb_le _ _) Hl). Qed.

(** C37: child names and label values. Every one fits its Kubernetes cap, and a
    name that fits is its own label value. Two routes have the same label value
    exactly in three cases: their names are the same; both names are too long and
    shortened to the same text, which takes equal digests; or the name of one is
    the shortened form of the other's - a case without any collision of digests,
    and one that every long name has. Two (route, hostname) pairs have the same
    child name only when the digests of route name, a NUL byte and hostname
    agree. *)
Theorem names_spec :
  (forall route, (String.length (httpRouteLabelValue route) <= labelValueMaxLen)%nat) /\
  (forall r h, (String.length (routeChildName r h) <= objectNameMaxLen)%nat) /\
  (forall route, (String.length (meta_Name (HTTPRoute_Meta route)) <= labelValueMaxLen)%nat ->
     httpRouteLabelValue route = meta_Name (HTTPRoute_Meta route)) /\
  (forall route route', let n := meta_Name (HTTPRoute_Meta route) in let n' := meta_Name (HTTPRoute_Meta route') in
     httpRouteLabelValue route = httpRouteLabelValue route' <->
     n = n' \/
     ((labelValueMaxLen < String.length n)%nat /\ (labelValueMaxLen < String.length n')%nat /\
        sum8 n = sum8 n' /\ httpRouteLabelValue route = httpRouteLabelValue route') \/
     ((labelValueMaxLen < String.length n)%nat /\ n' = httpRouteLabelValue route) \/
     ((labelValueMaxLen < String.length n')%nat /\ n = httpRouteLabelValue route')) /\
  (forall r h r' h', routeChildName r h = routeChildName r' h' ->
     sum8 (r +:+ String "000" h) = sum8 (r' +:+ String "000" h')).
Proof.
  assert (forall n, String.length (safeName n labelValueMaxLen) <= labelValueMaxLen)%nat as Hmax
    by (intros n; apply length_safeName; unfold labelValueMaxLen; lia).
  split; [|split; [|split; [|split]]].
  - intros route. apply Hmax.
  - intros r h. unfold routeChildName. rewrite !length_append, length_sum8. cbn [String.length].
    pose proof (length_safeName
      (r +:+ "-" +:+ strings.ReplaceByte (strings.ReplaceByte h "*" "wildcard") "." "-")
      (objectNameMaxLen - 9)) as Hl. unfold objectNameMaxLen in *. lia.
  - intros route Hl. by apply safeName_short.
  - intros route route' n n'. unfold httpRouteLabelValue. fold n n'. split.
    + intros Heq. destruct (Nat.le_gt_cases (String.length n) labelValueMaxLen) as [Hl|Hl],
        (Nat.le_gt_cases (String.length n') labelValueMaxLen) as [Hl'|Hl'].
      * left. by rewrite !safeName_short in Heq.
      * do 3 right. split; [done|]. by rewrite (safeName_short n) in Heq.
      * do 2 right. left. split; [done|]. by rewrite (safeName_short n') in Heq.
      * right. left. split_and!; try done. by eapply safeName_long_inj.
    + intros [->|[(_ & _ & _ & Heq)|[(_ & ->)|(_ & ->)]]]; [done|done| |]; by rewrite (safeName_short (safeName _ _)).
  - intros r h r' h' Heq. unfold routeChildName in Heq.
    apply append_eq_length_r in Heq as [_ Heq]; [exact (append_inj_r "-" _ _ Heq)|].
    cbn. by rewrite !length_sum8.
Qed.

(** A shortened label value is itself a name of legal length that is kept
    as it is: the route named so shares the label, and with it the children,
    of the longer route. *)
Theorem httpRouteLabelValue_shared route route' :
  (labelValueMaxLen < String.length (meta_Name (HTTPRoute_Meta route)))%nat ->
  meta_Name (HTTPRoute_Meta route') = httpRouteLabelValue route ->
  httpRouteLabelValue route' = httpRouteLabelValue route /\
  meta_Name (HTTPRoute_Meta route') <> meta_Name (HTTPRoute_Meta route).
Proof.
  intros Hl Hn.
  assert (String.length (httpRouteLabelValue route) <= labelValueMaxLen)%nat as Hs
    by (apply length_safeName; unfold labelValueMaxLen; lia).
  split.
  - unfold httpRouteLabelValue at 1. rewrite Hn. unfold safeName.
    by rewrite (proj2 (Nat.leb_le _ _) Hs).
  - intros Heq. rewrite <- Heq, Hn in Hl. lia.
Qed.

Lemma route_attaches_spec gw l route :
  route_attaches gw l route = true <->
  routeReferencesGateway route gw = true /\ allowedRoutesPermits gw l (route_namespace route) = true /\
  (route_Hostnames route = [] \/
   exists h, h ∈ route_Hostnames route /\ listenerHostnameMatches (l_Hostname l) h = true).
Proof.
  unfold route_attaches. rewrite !andb_true_iff, orb_true_iff.
  rewrite (existsb_elem (listenerHostnameMatches (l_Hostname l))).
  destruct (route_Hostnames route); intuition congruence.
Qed.

(** The listener status never contradicts an accepted route: for each
    hostname the Gateway admits - the route's own or inherited - some listener
    under the domain counts the route as attached. *)
Theorem admitted_is_attached gw route cfg routes h :
  routeReferencesGateway route gw = true -> route ∈ routes ->
  h ∈ admittedHostnames gw route cfg ->
  exists l, l ∈ gw_Listeners gw /\ listenerUnderDomain l (gp_domain cfg) = true /\
    1 <= listenerAttachedRoutes gw l routes.
Proof.
  intros Href Hin Hh.
  assert (exists l, l ∈ gw_Listeners gw /\ listenerUnderDomain l (gp_domain cfg) = true /\
    route_attaches gw l route = true) as (l & Hl & Hu & Ha).
  { unfold admittedHostnames in Hh. setoid_rewrite route_attaches_spec.
    destruct (route_Hostnames route) as [|x hs].
    - apply elem_of_inherit_loop in Hh as [(l & Hl & <- & Hi) _].
      apply (inheritable_admits _ _ _ _ Hl), gatewayAdmitsRoute_spec in Hi as (_ & l' & ? & ? & ? & ?).
      exists l'. auto 10.
    - apply elem_of_admit_loop in Hh as (Hx & Ha & _).
      apply gatewayAdmitsRoute_spec in Ha as (_ & l & ? & ? & ? & ?). exists l. eauto 10. }
  exists l. split; [done|]. split; [done|]. unfold listenerAttachedRoutes.
  assert (In route (List.filter (route_attaches gw l) routes)) as Hf
    by (apply filter_In; split; [by apply list_elem_of_In|done]).
  destruct (List.filter _ routes); [done|cbn; lia].
Qed.

(** ** Witnesses *)
Module Examples.

Definition meta (ns name : string) : ObjectMeta := mkMeta name ns name ∅ ∅ [] None 1.

Definition ref (svc : string) (weight : option Z) : HTTPBackendRef :=
  mkHTTPBackendRef None None svc (Some 80) weight [].

Definition prefix (p : string) : HTTPRouteMatch :=
  mkHTTPRouteMatch (Some (mkHTTPPathMatch (Some PathMatchPathPrefix) (Some p))) [] None [].

Definition route : HTTPRoute :=
  mkHTTPRoute (meta "shop" "web") [mkParentReference (Some "infra") "gw" None] ["shop.example.com"]
    [mkHTTPRouteRule [prefix "/api"; prefix "/api"; prefix "/v2"] [] [ref "api" (Some 3); ref "old" (Some 0)];
     mkHTTPRouteRule [] [] [ref "web" None]] [].

Definition listener : Listener :=
  mkListener "https" (Some "*.example.com") HTTPSProtocolType (Some (mkListenerTLS ["cert"]))
    (Some (mkAllowedRoutes (Some (mkRouteNamespaces (Some NamespacesFromAll))))).

Definition gateway : Gateway :=
  mkGateway (meta "infra" "gw") "netbird" [listener] None [] [] [].

Lemma routeBackends_spec_witness :
  weights_valid route /\
  routeBackends route = Ok (flat_map rule_expected (route_Rules route)) /\
  length (flat_map rule_expected (route_Rules route)) = 3%nat.
Proof.
  assert (weights_valid route) as Hv by (repeat constructor; vm_compute; discriminate).
  split; [exact Hv|]. split; [|reflexivity].
  destruct (proj1 (routeBackends_spec route Hv) (flat_map rule_expected (route_Rules route)))
    as [_ Hok]. apply Hok. split; [discriminate|].
  destruct (proj1 (proj1 (routeBackends_spec route Hv)
    (match routeBackends route with Ok bs => bs | Err _ => [] end)) eq_refl)
    as (_ & Hs & _). split; [exact Hs|]. split; [reflexivity|].
  apply Nat.leb_le. reflexivity.
Defined.

Definition long_name : string :=
  "a-route-with-a-name-that-is-longer-than-the-sixty-three-bytes-of-a-label-value".
Definition long_route : HTTPRoute := mkHTTPRoute (meta "shop" long_name) [] [] [] [].
Definition short_route : HTTPRoute :=
  mkHTTPRoute (meta "shop" (safeName long_name labelValueMaxLen)) [] [] [] [].

Lemma httpRouteLabelValue_shared_witness :
  (labelValueMaxLen < String.length (meta_Name (HTTPRoute_Meta long_route)))%nat /\
  httpRouteLabelValue short_route = httpRouteLabelValue long_route /\
  meta_Name (HTTPRoute_Meta short_route) <> meta_Name (HTTPRoute_Meta long_route).
Proof.
  assert (labelValueMaxLen < String.length (meta_Name (HTTPRoute_Meta long_route)))%nat as Hl
    by (apply Nat.ltb_lt; reflexivity).
  split; [exact Hl|].
  exact (httpRouteLabelValue_shared long_route short_route Hl eq_refl).
Defined.

Lemma admitted_is_attached_witness :
  let cfg := mkGatewayProxy "example.com" "gate.example.com" "cert" "https" in
  gatewayProxyConfig gateway = Some cfg /\
  "shop.example.com" ∈ admittedHostnames gateway route cfg /\
  exists l, l ∈ gw_Listeners gateway /\ listenerUnderDomain l "example.com" = true /\
    1 <= listenerAttachedRoutes gateway l [route].
Proof.
  cbn zeta. split; [reflexivity|].
  assert ("shop.example.com" ∈ admittedHostnames gateway route
    (mkGatewayProxy "example.com" "gate.example.com" "cert" "https")) as Hh by left.
  split; [exact Hh|].
  exact (admitted_is_attached gateway route _ [route] _ eq_refl (list_elem_of_here _ _) Hh).
Defined.

End Examples.

(** Keep names folded in symbolic execution. *)
Arguments proxyClusterNameForGateway : simpl never.
Arguments routeChildName : simpl never.
Arguments httpRouteLabelValue : simpl never.
Arguments safeName : simpl never.
