(* ===== verification/GatewayCtl.v ===== *)
(** * The Gateway API controllers

    The reconcilers of [gateway_controller.go]: the managed GatewayClass, a
    Gateway as an owned ReverseProxyCluster, and an HTTPRoute as owned
    ReverseProxyServices. *)

From stdpp Require Import base gmap list strings.
From Stdlib Require Import ZArith Lia.
From S2P Require Import Prelude GoStrings GoErr Prog ApiTypes K8sTypes ApplyConf Env NetbirdUtil Reconcile Gateway.

Open Scope Z_scope.
Open Scope prog_scope.

(** The condition types and reasons of the Gateway API. *)
Definition ConditionAccepted : string := "Accepted".
Definition ConditionProgrammed : string := "Programmed".
Definition ConditionResolvedRefs : string := "ResolvedRefs".
Definition ReasonAccepted : string := "Accepted".
Definition ReasonProgrammed : string := "Programmed".
Definition ReasonResolvedRefs : string := "ResolvedRefs".
Definition ReasonInvalidCertificateRef : string := "InvalidCertificateRef".
Definition ReasonUnsupportedValue : string := "UnsupportedValue".
Definition ReasonNoMatchingListenerHostname : string := "NoMatchingListenerHostname".

(** [client.ObjectKeyFromObject]. *)
Definition request_of (m : ObjectMeta) : string * string := (meta_Namespace m, meta_Name m).

(** ** GatewayClass *)
Module GatewayClassReconciler.
Section ctl.
Context `{ErrorClass} `{K8sLib}.
Context (ManagedClassName : string).

Definition ensure : M (option error) :=
  if String.eqb ManagedClassName "" then Ret None
  else ask (KApply (ApplyGatewayClass ManagedClassName gatewayController
                      "NetBird reverse-proxy gateway (operator-managed)")).

Definition set_conditions (gc : GatewayClass) (cs : list Condition) : GatewayClass :=
  mkGatewayClass (GatewayClass_Meta gc) (gc_ControllerName gc) cs.

Definition Reconcile (name : string) : M outcome :=
  let! got := ask (KGet KGatewayClass "" name) in
  match got with
  | Err e =>
      if kerrors_IsNotFound e && String.eqb name ManagedClassName then
        let! err := ensure in Ret (no_requeue, err)
      else Ret (no_requeue, IgnoreNotFound e)
  | Ok gc =>
      if negb (String.eqb (gc_ControllerName gc) gatewayController) then Ret (no_requeue, None)
      else
        let gc := set_conditions gc
          (SetStatusCondition (gc_Conditions gc)
             (mkCondition ConditionAccepted ConditionTrue ReasonAccepted
                "Accepted by the NetBird reverse-proxy gateway controller"
                (meta_Generation (GatewayClass_Meta gc)))) in
        let! err := ask (KStatusUpdate KGatewayClass gc) in
        Ret (no_requeue, err)
  end.

(** A failed apply is logged, not fatal. *)
Definition Start : M (option error) :=
  let! _ := ensure in Ret None.
End ctl.
End GatewayClassReconciler.

(** ** Gateway *)
Module GatewayReconciler.
Section ctl.
Context `{ErrorClass} `{K8sLib}.

Definition resolveGatewayParams (gw : Gateway) : M (result error ReverseProxyClusterParameters) :=
  match (match gw_Infrastructure gw with
         | Some infra => infra_ParametersRef infra
         | None => None
         end) with
  | None => Ret (Err (ErrText ("spec.infrastructure.parametersRef is required and must reference a "
                               +:+ paramsKind)))
  | Some ref =>
      if negb (String.eqb (pref_Group ref) GroupVersion_Group)
         || negb (String.eqb (pref_Kind ref) paramsKind)
      then Ret (Err (ErrText ("parametersRef must reference " +:+ paramsKind +:+ "."
             +:+ GroupVersion_Group +:+ ", got " +:+ pref_Kind ref +:+ "." +:+ pref_Group ref)))
      else
        let ns := meta_Namespace (Gateway_Meta gw) in
        let! got := ask (KGet KReverseProxyClusterParameters ns (pref_Name ref)) in
        Ret (match got with
             | Ok params => Ok params
             | Err e =>
                 if kerrors_IsNotFound e then
                   Err (ErrText (paramsKind +:+ " " +:+ quote (pref_Name ref)
                                 +:+ " not found in namespace " +:+ quote ns))
                 else Err e
             end)
  end.

Definition set_status (gw : Gateway) (cs : list Condition) (addresses : list string)
    (ls : list ListenerStatus) : Gateway :=
  mkGateway (Gateway_Meta gw) (gw_GatewayClassName gw) (gw_Listeners gw) (gw_Infrastructure gw)
    cs addresses ls.

Definition fail (gw : Gateway) (reason msg : string) : M outcome :=
  let gw := set_status gw
    (SetStatusCondition (gw_Conditions gw)
       (mkCondition ConditionAccepted ConditionFalse reason msg (meta_Generation (Gateway_Meta gw))))
    (gw_Addresses gw) (gw_ListenerStatuses gw) in
  do^ ask (KStatusUpdate KGateway gw) in
  Ret (requeue_after dependencyRetry, None).

Definition secretExists (namespace name : string) : M bool :=
  if String.eqb name "" then Ret false
  else let! got := ask (KGet KSecret namespace name) in Ret (is_ok got).

Definition certificate_name (l : Listener) : option string :=
  match l_TLS l with
  | Some tls => match tls_CertificateRefs tls with c :: _ => Some c | [] => None end
  | None => None
  end.

(** The status of one listener, given whether its certificate resolves. *)
Definition unused_status (gen : Z) (l : Listener) (domain : string) : ListenerStatus :=
  mkListenerStatus (l_Name l) 0
    (SetStatusCondition []
       (mkCondition ConditionAccepted ConditionFalse "Unused"
          ("listener hostname is not under the proxy's registered domain " +:+ domain) gen)).

Definition used_status (gen : Z) (l : Listener) (attached : Z) (certOK programmed : bool) :
    ListenerStatus :=
  let resolved :=
    if certOK then mkCondition ConditionResolvedRefs ConditionTrue ReasonResolvedRefs "resolved" gen
    else mkCondition ConditionResolvedRefs ConditionFalse ReasonInvalidCertificateRef
           ("Secret " +:+ quote (match certificate_name l with Some c => c | None => "" end)
            +:+ " not found") gen in
  let cs := SetStatusCondition []
    (mkCondition ConditionAccepted ConditionTrue ReasonAccepted "Accepted" gen) in
  let cs := SetStatusCondition cs resolved in
  let cs := SetStatusCondition cs
    (mkCondition ConditionProgrammed
       (if programmed && certOK then ConditionTrue else ConditionFalse) ReasonProgrammed "" gen) in
  mkListenerStatus (l_Name l) attached cs.

Fixpoint listener_loop (gw : Gateway) (cfg : gatewayProxy) (programmed : bool)
    (routes : list HTTPRoute) (ls : list Listener) : M (list ListenerStatus) :=
  let gen := meta_Generation (Gateway_Meta gw) in
  match ls with
  | [] => Ret []
  | l :: ls' =>
      if negb (listenerUnderDomain l (gp_domain cfg)) then
        let! rest := listener_loop gw cfg programmed routes ls' in
        Ret (unused_status gen l (gp_domain cfg) :: rest)
      else
        let! certOK :=
          match certificate_name l with
          | Some c => secretExists (meta_Namespace (Gateway_Meta gw)) c
          | None => Ret true
          end in
        let! rest := listener_loop gw cfg programmed routes ls' in
        Ret (used_status gen l (listenerAttachedRoutes gw l routes) certOK programmed :: rest)
  end.

(** A failed list counts no routes. *)
Definition listenerStatuses (gw : Gateway) (cfg : gatewayProxy) (programmed : bool) :
    M (list ListenerStatus) :=
  let! listed := ask (KList KHTTPRoute None None) in
  let routes := match listed with Ok rs => rs | Err _ => [] end in
  listener_loop gw cfg programmed routes (gw_Listeners gw).

Definition syncStatus (gw : Gateway) (cfg : gatewayProxy) (rpc : ReverseProxyCluster) :
    M (option error) :=
  let gen := meta_Generation (Gateway_Meta gw) in
  let st := ReverseProxyCluster_Status rpc in
  let cs := SetStatusCondition (gw_Conditions gw)
    (mkCondition ConditionAccepted ConditionTrue ReasonAccepted
       "Translated to a NetBird ReverseProxyCluster" gen) in
  let ready := IsStatusConditionTrue (rpc_Conditions st) ReadyCondition in
  let programmed :=
    if ready then mkCondition ConditionProgrammed ConditionTrue ReasonProgrammed
                    "the proxy cluster is ready" gen
    else mkCondition ConditionProgrammed ConditionFalse "Pending"
           "waiting for the proxy cluster to become ready" gen in
  let cs := SetStatusCondition cs programmed in
  let addresses :=
    if negb (String.eqb (rpc_LoadBalancerIP st) "") then [rpc_LoadBalancerIP st]
    else gw_Addresses gw in
  let! listeners := listenerStatuses gw cfg ready in
  ask (KStatusUpdate KGateway (set_status gw cs addresses listeners)).

Definition cluster_spec (cfg : gatewayProxy) (params : ReverseProxyClusterParametersSpec) :
    ACReverseProxyClusterSpec.t :=
  let spec := (ACReverseProxyClusterSpec.new
    |> ACReverseProxyClusterSpec.WithClusterAddress (gp_clusterAddress cfg)
    |> ACReverseProxyClusterSpec.WithDomain (gp_domain cfg)
    |> ACReverseProxyClusterSpec.WithPrivate (params_Private params))%go in
  let spec := if negb (String.eqb (gp_certSecret cfg) "")
    then ACReverseProxyClusterSpec.WithCertSecretName (gp_certSecret cfg) spec else spec in
  let spec := if negb (String.eqb (params_Image params) "")
    then ACReverseProxyClusterSpec.WithImage (params_Image params) spec else spec in
  let spec := if negb (String.eqb (params_LogLevel params) "")
    then ACReverseProxyClusterSpec.WithLogLevel (params_LogLevel params) spec else spec in
  let spec := match params_Replicas params with
    | Some n => ACReverseProxyClusterSpec.WithReplicas n spec | None => spec end in
  let spec := match params_Groups params with
    | [] => spec | gs => ACReverseProxyClusterSpec.WithGroups (groupRefACs gs) spec end in
  if bool_decide (params_ServiceAnnotations params = ∅) then spec
  else ACReverseProxyClusterSpec.WithServiceAnnotations (params_ServiceAnnotations params) spec.

Definition Reconcile (ns name : string) : M outcome :=
  let! got := ask (KGet KGateway ns name) in
  match got with
  | Err e => Ret (no_requeue, IgnoreNotFound e)
  | Ok gw =>
      let! got_class := ask (KGet KGatewayClass "" (gw_GatewayClassName gw)) in
      match got_class with
      | Err e => Ret (no_requeue, IgnoreNotFound e)
      | Ok gc =>
          if negb (String.eqb (gc_ControllerName gc) gatewayController) then Ret (no_requeue, None)
          else
            let! resolved := resolveGatewayParams gw in
            match resolved with
            | Err e => fail gw "InvalidParameters" (Error e)
            | Ok params =>
                match gatewayProxyConfig gw with
                | None => fail gw "NoUsableListener"
                            "no HTTPS/TLS listener with a hostname and certificateRefs"
                | Some cfg =>
                    match ControllerReference KGateway (Gateway_Meta gw) with
                    | Err e => Ret (fail_with e)
                    | Ok ownerRef =>
                        let gwns := meta_Namespace (Gateway_Meta gw) in
                        let cname := proxyClusterNameForGateway gw in
                        do^ ask (KApply (ApplyReverseProxyCluster
                              (ObjectAC cname gwns |> WithOwnerReferences [ownerRef])%go
                              (cluster_spec cfg (ReverseProxyClusterParameters_Spec params)))) in
                        let^ rpc := ask (KGet KReverseProxyCluster gwns cname) in
                        let! err := syncStatus gw cfg rpc in
                        Ret (requeue_after resyncInterval, err)
                    end
                end
            end
      end
  end.

(** The watch mappings; a failed list enqueues nothing. *)
Definition gatewaysForClass (className : string) : M (list (string * string)) :=
  let! listed := ask (KList KGateway None None) in
  Ret (match listed with
       | Err _ => []
       | Ok gws => map (fun gw => request_of (Gateway_Meta gw))
                     (List.filter (fun gw => String.eqb (gw_GatewayClassName gw) className) gws)
       end).

Definition references_params (paramsName : string) (gw : Gateway) : bool :=
  match gw_Infrastructure gw with
  | Some infra =>
      match infra_ParametersRef infra with
      | Some ref => String.eqb (pref_Name ref) paramsName
      | None => false
      end
  | None => false
  end.

Definition gatewaysForParams (ns paramsName : string) : M (list (string * string)) :=
  let! listed := ask (KList KGateway (Some ns) None) in
  Ret (match listed with
       | Err _ => []
       | Ok gws => map (fun gw => request_of (Gateway_Meta gw))
                     (List.filter (references_params paramsName) gws)
       end).
End ctl.
End GatewayReconciler.

(** ** HTTPRoute *)
Module HTTPRouteReconciler.
Section ctl.
Context `{ErrorClass} `{K8sLib}.

(** The first parent Gateway of our class, with the parentRef that names it. *)
Fixpoint resolveGateway_loop (route : HTTPRoute) (ps : list ParentReference) :
    M (result error (option (Gateway * ParentReference))) :=
  match ps with
  | [] => Ret (Ok None)
  | p :: ps' =>
      let! got := ask (KGet KGateway (parent_namespace route p) (pr_Name p)) in
      match got with
      | Err e =>
          if kerrors_IsNotFound e then resolveGateway_loop route ps' else Ret (Err e)
      | Ok gw =>
          let! got_class := ask (KGet KGatewayClass "" (gw_GatewayClassName gw)) in
          match got_class with
          | Err e =>
              if kerrors_IsNotFound e then resolveGateway_loop route ps' else Ret (Err e)
          | Ok gc =>
              if negb (String.eqb (gc_ControllerName gc) gatewayController)
              then resolveGateway_loop route ps'
              else Ret (Ok (Some (gw, p)))
          end
      end
  end.

Definition resolveGateway (route : HTTPRoute) :
    M (result error (option (Gateway * ParentReference))) :=
  resolveGateway_loop route (route_ParentRefs route).

Definition prune (route : HTTPRoute) (desired : list string) : M (option error) :=
  let! listed := ask (KList KReverseProxyService (Some (route_namespace route))
                        (Some (httpRouteLabel, httpRouteLabelValue route))) in
  match listed with
  | Err e => Ret (Some e)
  | Ok items => delete_undesired KReverseProxyService ReverseProxyService_Meta desired items
  end.

(** Update the first parent status entry of our controller, adding one when
    there is none. *)
Fixpoint set_parent_condition (parents : list RouteParentStatus) (parent : ParentReference)
    (cond : Condition) : list RouteParentStatus :=
  match parents with
  | [] => [mkRouteParentStatus parent gatewayController (SetStatusCondition [] cond)]
  | rp :: rest =>
      if String.eqb (rp_ControllerName rp) gatewayController then
        mkRouteParentStatus (rp_ParentRef rp) (rp_ControllerName rp)
          (SetStatusCondition (rp_Conditions rp) cond) :: rest
      else rp :: set_parent_condition rest parent cond
  end.

Definition setRouteCondition (route : HTTPRoute) (parent : ParentReference)
    (status : ConditionStatus) (reason message : string) : M (option error) :=
  let cond := mkCondition ConditionAccepted status reason message
                (meta_Generation (HTTPRoute_Meta route)) in
  ask (KStatusUpdate KHTTPRoute
    (mkHTTPRoute (HTTPRoute_Meta route) (route_ParentRefs route) (route_Hostnames route)
       (route_Rules route) (set_parent_condition (route_Parents route) parent cond))).

Definition service_spec (cfg : gatewayProxy) (hostname : string)
    (backends : list ACReverseProxyBackend.t) : ACReverseProxyServiceSpec.t :=
  (ACReverseProxyServiceSpec.new
    |> ACReverseProxyServiceSpec.WithDomain hostname
    |> ACReverseProxyServiceSpec.WithProxyCluster (gp_clusterAddress cfg)
    |> ACReverseProxyServiceSpec.WithPassHostHeader true
    |> ACReverseProxyServiceSpec.WithBackends backends)%go.

Definition service_meta (route : HTTPRoute) (ownerRef : OwnerReference) (hostname : string) : ACMeta :=
  (ObjectAC (routeChildName (meta_Name (HTTPRoute_Meta route)) hostname) (route_namespace route)
    |> WithOwnerReferences [ownerRef]
    |> WithLabels {[ httpRouteLabel := httpRouteLabelValue route ]})%go.

Fixpoint apply_services (route : HTTPRoute) (cfg : gatewayProxy) (ownerRef : OwnerReference)
    (backends : list ACReverseProxyBackend.t) (hostnames : list string) : M (option error) :=
  match hostnames with
  | [] => Ret None
  | h :: hs =>
      let! err := ask (KApply (ApplyReverseProxyService (service_meta route ownerRef h)
                                 (service_spec cfg h backends))) in
      match err with
      | Some e => Ret (Some e)
      | None => apply_services route cfg ownerRef backends hs
      end
  end.

(** The condition of a translated route: status, reason and message. *)
Definition route_verdict (route : HTTPRoute) (cfg : gatewayProxy) (desired : list string) :
    ConditionStatus * string * string :=
  match desired, route_Hostnames route with
  | _ :: _, _ => (ConditionTrue, ReasonAccepted, "Translated to a NetBird ReverseProxyService")
  | [], _ :: _ =>
      (ConditionFalse, ReasonNoMatchingListenerHostname,
       "no route hostname matches the Gateway's proxy listener domain")
  | [], [] =>
      (ConditionFalse, ReasonUnsupportedValue,
       "route has no hostnames and no concrete listener hostname under " +:+ gp_domain cfg
       +:+ " admits namespace " +:+ route_namespace route +:+ "; set spec.hostnames explicitly")
  end%string.

Definition Reconcile (ns name : string) : M outcome :=
  let! got := ask (KGet KHTTPRoute ns name) in
  match got with
  | Err e => Ret (no_requeue, IgnoreNotFound e)
  | Ok route =>
      let^ attached := resolveGateway route in
      match attached with
      | None => let! err := prune route [] in Ret (no_requeue, err)
      | Some (gw, parent) =>
          match gatewayProxyConfig gw with
          | None => let! err := prune route [] in Ret (requeue_after dependencyRetry, err)
          | Some cfg =>
              match ControllerReference KHTTPRoute (HTTPRoute_Meta route) with
              | Err e => Ret (fail_with e)
              | Ok ownerRef =>
                  match routeBackends route with
                  | Err unsupported =>
                      do^ prune route [] in
                      let! err := setRouteCondition route parent ConditionFalse
                                    ReasonUnsupportedValue unsupported in
                      Ret (no_requeue, err)
                  | Ok backends =>
                      let hostnames := admittedHostnames gw route cfg in
                      let desired := map (routeChildName (meta_Name (HTTPRoute_Meta route))) hostnames in
                      do^ apply_services route cfg ownerRef backends hostnames in
                      do^ prune route desired in
                      let '(status, reason, msg) := route_verdict route cfg desired in
                      do^ setRouteCondition route parent status reason msg in
                      Ret (requeue_after resyncInterval, None)
                  end
              end
          end
      end
  end.

(** The watch mapping of Gateways. *)
Definition routesForGateway (gw : Gateway) : M (list (string * string)) :=
  let! listed := ask (KList KHTTPRoute None None) in
  Ret (match listed with
       | Err _ => []
       | Ok routes => map (fun r => request_of (HTTPRoute_Meta r))
                        (List.filter (fun r => routeReferencesGateway r gw) routes)
       end).
End ctl.
End HTTPRouteReconciler.

(** ** What the HTTPRoute reconciler guarantees *)
Module HTTPRouteProps.
Import HTTPRouteReconciler.
Arguments prune : simpl never.
Arguments setRouteCondition : simpl never.
Arguments resolveGateway : simpl never.
Section props.
Context `{ErrorClass} `{K8sLib}.

(** The children the route had when it was last listed. *)
Definition listed_children (route : HTTPRoute) (t : history) (items : list ReverseProxyService) : Prop :=
  Entry (KList KReverseProxyService (Some (route_namespace route))
           (Some (httpRouteLabel, httpRouteLabelValue route))) (Ok items) ∈ t.

(** Of the children the route had when they were listed, those that should not
    be there are gone, and nothing else was deleted. *)
Definition pruned (route : HTTPRoute) (desired : list string) (t : history) : Prop :=
  exists items, listed_children route t items /\
    (forall it, it ∈ items -> meta_Name (ReverseProxyService_Meta it) ∉ desired ->
       deleted t KReverseProxyService (ReverseProxyService_Meta it)) /\
    (forall e, e ∈ t -> removes e -> exists it, it ∈ items /\
       meta_Name (ReverseProxyService_Meta it) ∉ desired /\
       entry_call e = KDelete KReverseProxyService (meta_Namespace (ReverseProxyService_Meta it))
                        (meta_Name (ReverseProxyService_Meta it))).

(** Calls that delete nothing, before and after, change none of it. *)
Lemma pruned_frame route desired t1 t t2 :
  (forall e, e ∈ t1 -> ~ removes e) -> (forall e, e ∈ t2 -> ~ removes e) ->
  pruned route desired t -> pruned route desired (t1 ++ t ++ t2).
Proof.
  intros H1 H2 (items & Hl & Hd & Ho). exists items.
  split; [apply elem_of_app; right; by apply elem_of_app; left|]. split.
  - intros it Hit Hn. eapply deleted_mono; [|by apply Hd]. set_solver.
  - intros e [He|[He|He]%elem_of_app]%elem_of_app Hr; [by destruct (H1 e)|auto|by destruct (H2 e)].
Qed.

Lemma pruned_after route desired t1 t :
  (forall e, e ∈ t1 -> ~ removes e) -> pruned route desired t -> pruned route desired (t1 ++ t).
Proof.
  intros H1 Hp. rewrite <- (app_nil_r t). apply pruned_frame; [done|by intros e ?%not_elem_of_nil|done].
Qed.

Lemma prune_spec route desired :
  wp (prune route desired) (fun t r =>
    (forall e, e ∈ t -> ~ applies e) /\ (r = None -> pruned route desired t)).
Proof.
  unfold prune. cbn. intros [items|e]; cbn; [|split; [|done]].
  2: no_applies.
  eapply wp_mono; [apply delete_undesired_spec|]. intros t r [Hin Hall]. split.
  - intros e [->|He]%elem_of_cons; [by intros []|]. by apply (deletions_no_apply _ _ _ _ _ Hin).
  - intros Hr. exists items. split; [left|]. split.
    + intros it Hit Hn. eapply deleted_mono; [|by apply Hall]. intros e' He'. by right.
    + intros e [->|He]%elem_of_cons Hd; [done|auto].
Qed.

(** The resolved Gateway was read, is a parent of the route and of our class. *)
Definition our_gateway (route : HTTPRoute) (gw : Gateway) (p : ParentReference) (t : history) : Prop :=
  p ∈ route_ParentRefs route /\
  Entry (KGet KGateway (parent_namespace route p) (pr_Name p)) (Ok gw) ∈ t /\
  exists gc, Entry (KGet KGatewayClass "" (gw_GatewayClassName gw)) (Ok gc) ∈ t /\
    gc_ControllerName gc = gatewayController.

Lemma our_gateway_mono route gw p t t' :
  (forall e, e ∈ t -> e ∈ t') -> our_gateway route gw p t -> our_gateway route gw p t'.
Proof. intros Ht (? & ? & gc & ? & ?). split; [done|]. split; [auto|]. exists gc. auto. Qed.

(** A parentRef that does not attach the route: its Gateway, or the class of
    it, was not found, or the class is another controller's. *)
Definition not_ours (route : HTTPRoute) (t : history) (p : ParentReference) : Prop :=
  (exists e, Entry (KGet KGateway (parent_namespace route p) (pr_Name p)) (Err e) ∈ t /\
     kerrors_IsNotFound e = true) \/
  exists gw, Entry (KGet KGateway (parent_namespace route p) (pr_Name p)) (Ok gw) ∈ t /\
    ((exists e, Entry (KGet KGatewayClass "" (gw_GatewayClassName gw)) (Err e) ∈ t /\
        kerrors_IsNotFound e = true) \/
     exists gc, Entry (KGet KGatewayClass "" (gw_GatewayClassName gw)) (Ok gc) ∈ t /\
       gc_ControllerName gc <> gatewayController).

(** The Gateway of the first parentRef that attaches the route. *)
Definition attached (route : HTTPRoute) (gw : Gateway) (p : ParentReference) (t : history) : Prop :=
  our_gateway route gw p t /\
  exists before after, route_ParentRefs route = before ++ p :: after /\
    forall q, q ∈ before -> not_ours route t q.
Definition detached (route : HTTPRoute) (t : history) : Prop :=
  forall p, p ∈ route_ParentRefs route -> not_ours route t p.

Lemma not_ours_mono route p t t' :
  (forall e, e ∈ t -> e ∈ t') -> not_ours route t p -> not_ours route t' p.
Proof.
  intros Ht [(e & ? & ?)|(gw & ? & [(e & ? & ?)|(gc & ? & ?)])];
    [left; eauto|right; exists gw; split; [auto|]..]; [left|right]; eauto.
Qed.
Lemma detached_mono route t t' :
  (forall e, e ∈ t -> e ∈ t') -> detached route t -> detached route t'.
Proof. intros Ht Hd p Hp. eapply not_ours_mono; [exact Ht|auto]. Qed.
Lemma attached_mono route gw p t t' :
  (forall e, e ∈ t -> e ∈ t') -> attached route gw p t -> attached route gw p t'.
Proof.
  intros Ht [Hg (before & after & Hps & Hb)]. split; [by eapply our_gateway_mono|].
  exists before, after. split; [done|]. intros q Hq. eapply not_ours_mono; [exact Ht|auto].
Qed.

(** What the loop has found once the parentRefs [seen] did not attach. *)
Definition resolved (route : HTTPRoute) (t : history)
    (r : result error (option (Gateway * ParentReference))) : Prop :=
  match r with
  | Ok (Some (gw, p)) => attached route gw p t
  | Ok None => detached route t
  | Err _ => True
  end.

Definition reads_only (t : history) : Prop := forall e, e ∈ t -> ~ applies e /\ ~ removes e.

Ltac reads_done :=
  let e := fresh "e" in let He := fresh "He" in
  intros e He; repeat apply elem_of_cons in He as [->|He];
  first [by apply not_elem_of_nil in He | by split; intros []].

Lemma resolveGateway_loop_spec route ps : forall seen t0,
  route_ParentRefs route = seen ++ ps -> (forall q, q ∈ seen -> not_ours route t0 q) ->
  wp (resolveGateway_loop route ps) (fun t r => reads_only t /\ resolved route (t0 ++ t) r).
Proof.
  induction ps as [|p ps IH]; intros seen t0 Hps Hseen; cbn [resolveGateway_loop].
  { cbn. split; [reads_done|]. rewrite app_nil_r in Hps |- *. intros p. rewrite Hps. auto. }
  assert (forall tp, reads_only tp -> not_ours route (t0 ++ tp) p ->
    wp (resolveGateway_loop route ps) (fun t r =>
      reads_only (tp ++ t) /\ resolved route (t0 ++ tp ++ t) r)) as Hgo.
  { intros tp Htp Hp. eapply wp_mono; [apply (IH (seen ++ [p]) (t0 ++ tp))|].
    - by rewrite <- app_assoc.
    - intros q [Hq|Hq]%elem_of_app;
        [eapply not_ours_mono; [|by apply Hseen]; set_solver|by apply list_elem_of_singleton in Hq as ->].
    - intros t r [Hr Ho]. rewrite <- app_assoc in Ho. split; [|done].
      intros e [?|?]%elem_of_app; auto. }
  cbn. intros [gw|e]; cbn.
  - intros [gc|e]; cbn.
    + destruct (negb _) eqn:Hc; cbn; bool_prop.
      * apply (Hgo [_; _]); [reads_done|]. right. exists gw. split; [set_solver|]. right.
        exists gc. split; [set_solver|done].
      * split; [reads_done|]. split.
        -- split; [rewrite Hps; set_solver|]. split; [set_solver|]. exists gc. split; [set_solver|done].
        -- exists seen, ps. split; [done|]. intros q Hq. eapply not_ours_mono; [|by apply Hseen]. set_solver.
    + destruct (kerrors_IsNotFound e) eqn:He; cbn; [|split; [reads_done|done]].
      apply (Hgo [_; _]); [reads_done|]. right. exists gw. split; [set_solver|]. left.
      exists e. split; [set_solver|done].
  - destruct (kerrors_IsNotFound e) eqn:He; cbn; [|split; [reads_done|done]].
    apply (Hgo [_]); [reads_done|]. left. exists e. split; [set_solver|done].
Qed.

Lemma resolveGateway_spec route :
  wp (resolveGateway route) (fun t r => reads_only t /\ resolved route t r).
Proof. by apply (resolveGateway_loop_spec route _ [] []); [|intros q ?%not_elem_of_nil]. Qed.

Lemma apply_services_spec route cfg ownerRef backends hostnames :
  wp (apply_services route cfg ownerRef backends hostnames) (fun t r =>
    (forall e, e ∈ t -> exists h, h ∈ hostnames /\
       entry_call e = KApply (ApplyReverseProxyService (service_meta route ownerRef h)
                                (service_spec cfg h backends))) /\
    (r = None -> forall h, h ∈ hostnames ->
       Entry (KApply (ApplyReverseProxyService (service_meta route ownerRef h)
                        (service_spec cfg h backends))) None ∈ t)).
Proof.
  induction hostnames as [|h hs IH]; cbn [apply_services].
  - cbn. split; [by intros e ?%not_elem_of_nil|by intros _ h ?%not_elem_of_nil].
  - cbn. intros [e|]; cbn.
    + split; [|done]. intros e' [->|?%not_elem_of_nil]%elem_of_cons; [|done].
      exists h. split; [left|done].
    + eapply wp_mono; [exact IH|]. intros t r [Hin Hall]. split.
      * intros e' [->|He]%elem_of_cons; [exists h; split; [left|done]|].
        destruct (Hin e' He) as (x & ? & ?). exists x. split; [by right|done].
      * intros Hr x [->|Hx]%elem_of_cons; [left|right; auto].
Qed.

(** A child a route is translated to. *)
Definition translated (ns name : string) (t : history) (ac : applyconf) : Prop :=
  exists route gw p cfg ownerRef bs h,
    Entry (KGet KHTTPRoute ns name) (Ok route) ∈ t /\
    our_gateway route gw p t /\
    gatewayProxyConfig gw = Some cfg /\
    ControllerReference KHTTPRoute (HTTPRoute_Meta route) = Ok ownerRef /\
    routeBackends route = Ok bs /\
    h ∈ admittedHostnames gw route cfg /\
    ac = ApplyReverseProxyService (service_meta route ownerRef h) (service_spec cfg h bs).

(** The whole configuration of the child of a hostname. *)
Definition route_child (route : HTTPRoute) (cfg : gatewayProxy)
    (bs : list ACReverseProxyBackend.t) (h : string) (ac : applyconf) : Prop :=
  exists ownerRef, ControllerReference KHTTPRoute (HTTPRoute_Meta route) = Ok ownerRef /\
    ac = ApplyReverseProxyService
           (mkACMeta (routeChildName (meta_Name (HTTPRoute_Meta route)) h) (route_namespace route)
              {[ httpRouteLabel := httpRouteLabelValue route ]} ∅ [ownerRef])
           (ACReverseProxyServiceSpec.mk bs None None None (Some (gp_clusterAddress cfg)) (Some h)
              None [] None None (Some true) None).

(** The Accepted condition of our controller was stored in the route's status. *)
Definition condition_stored (route : HTTPRoute) (status : ConditionStatus) (t : history) : Prop :=
  exists route' rp cs reason msg, Entry (KStatusUpdate KHTTPRoute route') None ∈ t /\
    HTTPRoute_Meta route' = HTTPRoute_Meta route /\
    rp ∈ route_Parents route' /\ rp_ControllerName rp = gatewayController /\
    rp_Conditions rp = SetStatusCondition cs
      (mkCondition ConditionAccepted status reason msg (meta_Generation (HTTPRoute_Meta route))).

Lemma condition_stored_mono route status t t' :
  (forall e, e ∈ t -> e ∈ t') -> condition_stored route status t -> condition_stored route status t'.
Proof.
  intros Ht (r & rp & cs & reason & msg & He & ?). exists r, rp, cs, reason, msg. split; [auto|done].
Qed.

Lemma set_parent_condition_spec ps parent cond :
  exists rp cs, rp ∈ set_parent_condition ps parent cond /\
    rp_ControllerName rp = gatewayController /\ rp_Conditions rp = SetStatusCondition cs cond.
Proof.
  induction ps as [|q ps (rp & cs & Hin & ?)]; cbn [set_parent_condition].
  - eexists _, _. split; [left|done].
  - case_scrut; bool_prop; [eexists _, _; split; [left|done]|].
    exists rp, cs. split; [by right|done].
Qed.

Lemma setRouteCondition_spec route parent status reason msg :
  wp (setRouteCondition route parent status reason msg) (fun t r =>
    (forall e, e ∈ t -> ~ applies e /\ ~ removes e) /\ (r = None -> condition_stored route status t)).
Proof.
  unfold setRouteCondition. cbn. intros r. split; [reads_done|]. intros ->.
  destruct (set_parent_condition_spec (route_Parents route) parent
    (mkCondition ConditionAccepted status reason msg (meta_Generation (HTTPRoute_Meta route))))
    as (rp & cs & Hin & ? & ?).
  exists (mkHTTPRoute (HTTPRoute_Meta route) (route_ParentRefs route) (route_Hostnames route)
    (route_Rules route) (set_parent_condition (route_Parents route) parent
       (mkCondition ConditionAccepted status reason msg (meta_Generation (HTTPRoute_Meta route))))),
    rp, cs, reason, msg. split; [left|done].
Qed.

(** The status of the Accepted condition of a translated route. *)
Definition verdict {A} (hostnames : list A) : ConditionStatus :=
  match hostnames with [] => ConditionFalse | _ => ConditionTrue end.

(** The tail of the reconcile of a route whose rules are translatable. *)
Lemma translate_spec route gw cfg parent ownerRef bs :
  let hostnames := admittedHostnames gw route cfg in
  let desired := map (routeChildName (meta_Name (HTTPRoute_Meta route))) hostnames in
  ControllerReference KHTTPRoute (HTTPRoute_Meta route) = Ok ownerRef ->
  wp (do^ apply_services route cfg ownerRef bs hostnames in
      do^ prune route desired in
      let '(status, reason, msg) := route_verdict route cfg desired in
      do^ setRouteCondition route parent status reason msg in
      Ret (requeue_after resyncInterval, None))
    (fun t out =>
      (forall ac r, Entry (KApply ac) r ∈ t -> exists h, h ∈ hostnames /\
         ac = ApplyReverseProxyService (service_meta route ownerRef h) (service_spec cfg h bs)) /\
      (out.2 = None -> out = (requeue_after resyncInterval, None) /\ pruned route desired t /\
         (forall h, h ∈ hostnames -> exists ac, route_child route cfg bs h ac /\ Entry (KApply ac) None ∈ t) /\
         condition_stored route (verdict hostnames) t)).
Proof.
  cbn zeta. set (hs := admittedHostnames gw route cfg). set (desired := map _ hs). intros Howner.
  assert (exists reason msg, route_verdict route cfg desired = (verdict hs, reason, msg))
    as (reason & msg & ->).
  { unfold route_verdict, verdict, desired. destruct hs; cbn; [destruct (route_Hostnames route)|]; eauto. }
  apply wp_then_outcome. eapply wp_mono; [apply apply_services_spec|]. intros ta ra [Hin Hall].
  assert (forall ac r, Entry (KApply ac) r ∈ ta -> exists h, h ∈ hs /\
    ac = ApplyReverseProxyService (service_meta route ownerRef h) (service_spec cfg h bs)) as Ha.
  { intros ac r He. destruct (Hin _ He) as (h & Hh & Hc). exists h. split; [done|].
    cbn in Hc. by injection Hc. }
  assert (forall e, e ∈ ta -> ~ removes e) as Hta.
  { intros e He. destruct (Hin e He) as (h & _ & Hc). unfold removes. rewrite Hc. by intros []. }
  destruct ra as [e|]; [by split|].
  apply wp_then_outcome. eapply wp_mono; [apply prune_spec|]. intros tp rp [Hno Hp].
  destruct rp as [e|].
  { split; [|done]. intros ac r [He|He]%elem_of_app; [eauto|]. by destruct (Hno _ He). }
  apply wp_then_outcome. eapply wp_mono; [apply setRouteCondition_spec|]. intros ts rs [Hs Hst].
  assert (forall t3 ac r, t3 = [] -> Entry (KApply ac) r ∈ ta ++ tp ++ ts ++ t3 -> exists h, h ∈ hs /\
    ac = ApplyReverseProxyService (service_meta route ownerRef h) (service_spec cfg h bs)) as Hap.
  { intros t3 ac r ->. rewrite app_nil_r. intros [He|[He|He]%elem_of_app]%elem_of_app; [eauto| |].
    - by destruct (Hno _ He).
    - by destruct (Hs _ He) as [[] _]. }
  destruct rs as [e|]; (split; [|done || intros _]).
  { intros ac r. specialize (Hap [] ac r eq_refl). by rewrite app_nil_r in Hap. }
  { intros ac r. by apply (Hap []). }
  rewrite app_nil_r. split; [done|]. split.
  { apply pruned_frame; [done|intros e He; by apply Hs|by apply Hp]. }
  split; [|eapply condition_stored_mono; [|by apply Hst]; set_solver].
  intros h Hh. eexists. split; [exists ownerRef; split; [done|reflexivity]|].
  apply elem_of_app; left. by apply (Hall eq_refl).
Qed.

(** Fail closed. Whatever the cluster answers, the reconciler only ever
    applies a ReverseProxyService for a hostname the Gateway admits for this
    route, on a Gateway of the operator's class that the route names as parent
    and that has a proxy listener, and with the backends of a route that is
    translatable as a whole; nothing else is applied. *)
Theorem HTTPRoute_fail_closed ns name :
  wp (Reconcile ns name) (fun t _ =>
    forall ac r, Entry (KApply ac) r ∈ t -> translated ns name t ac).
Proof.
  unfold Reconcile. cbn. intros [route|e]; [|by intros ac r [?|?%not_elem_of_nil]%elem_of_cons].
  assert (forall t1, (forall e, e ∈ t1 -> ~ applies e) ->
    forall ac r, ~ Entry (KApply ac) r ∈ Entry (KGet KHTTPRoute ns name) (Ok route) :: t1) as Hnone.
  { intros t1 Ht1 ac r [?|Hin]%elem_of_cons; [done|]. by apply (Ht1 _ Hin). }
  apply wp_bind_outcome. eapply wp_mono; [apply resolveGateway_spec|].
  intros tr r [Hro Hg]. assert (forall e, e ∈ tr -> ~ applies e) as Hn by (intros e He; by apply Hro).
  destruct r as [[[gw p]|]|e]; [destruct Hg as [Hg _]| |intros ac r Hin; exfalso; by eapply Hnone].
  2: { apply wp_bind. eapply wp_mono; [apply prune_spec|]. intros tp rp [Hnp _] ac r Hin.
       exfalso. rewrite app_nil_r in Hin. eapply Hnone; [|exact Hin].
       intros e [?|?]%elem_of_app; auto. }
  assert (forall f, wp (let! err := prune route [] in Ret (f err)) (fun t (_ : outcome) =>
    forall ac r, Entry (KApply ac) r ∈ Entry (KGet KHTTPRoute ns name) (Ok route) :: tr ++ t ->
      translated ns name (Entry (KGet KHTTPRoute ns name) (Ok route) :: tr ++ t) ac)) as Hprune.
  { intros f. apply wp_bind. eapply wp_mono; [apply prune_spec|]. intros tp rp [Hnp _] ac r Hin.
    exfalso. rewrite app_nil_r in Hin. eapply Hnone; [|exact Hin].
    intros e [?|?]%elem_of_app; auto. }
  destruct (gatewayProxyConfig gw) as [cfg|] eqn:Hcfg; [|apply Hprune].
  destruct (ControllerReference _ _) as [ownerRef|e] eqn:Ho.
  2: { intros ac r Hin. exfalso. rewrite app_nil_r in Hin. by eapply Hnone. }
  destruct (routeBackends route) as [bs|msg] eqn:Hb.
  - eapply wp_mono; [by apply translate_spec|]. intros t out [Ha _] ac r Hin.
    rewrite elem_of_cons, elem_of_app in Hin. destruct Hin as [?|[Hin|Hin]]; [done| |].
    + by destruct (Hn _ Hin).
    + destruct (Ha ac r Hin) as (h & Hh & ->). exists route, gw, p, cfg, ownerRef, bs, h.
      split; [left|]. split; [|done]. eapply our_gateway_mono; [|exact Hg]. set_solver.
  - apply wp_then_outcome. eapply wp_mono; [apply prune_spec|]. intros tp rp [Hnp _].
    destruct rp as [e|].
    + intros ac r Hin. exfalso. eapply Hnone; [|exact Hin]. intros e' [?|?]%elem_of_app; auto.
    + unfold setRouteCondition. cbn. intros r0 ac r Hin. exfalso. eapply Hnone; [|exact Hin].
      intros e'. rewrite !elem_of_app, list_elem_of_singleton. intros [?|[?| ->]]; [auto..|by intros []].
Qed.

(** Every hostname was applied as a child. *)
Definition applied_children (route : HTTPRoute) (cfg : gatewayProxy)
    (bs : list ACReverseProxyBackend.t) (hostnames : list string) (t : history) : Prop :=
  forall h, h ∈ hostnames -> exists ac, route_child route cfg bs h ac /\ Entry (KApply ac) None ∈ t.

(** What a reconcile without an error made of a route, cause by cause. *)
Inductive settled (route : HTTPRoute) (t : history) : outcome -> Prop :=
  (** no parentRef leads to a Gateway of our class *)
| settled_detached :
    detached route t -> pruned route [] t -> settled route t (no_requeue, None)
  (** the Gateway has no usable proxy listener *)
| settled_no_listener gw p :
    attached route gw p t -> gatewayProxyConfig gw = None -> pruned route [] t ->
    settled route t (requeue_after dependencyRetry, None)
  (** the rules are not representable *)
| settled_rejected gw p cfg msg :
    attached route gw p t -> gatewayProxyConfig gw = Some cfg -> routeBackends route = Err msg ->
    pruned route [] t -> condition_stored route ConditionFalse t ->
    settled route t (no_requeue, None)
  (** translated *)
| settled_translated gw p cfg bs :
    attached route gw p t -> gatewayProxyConfig gw = Some cfg -> routeBackends route = Ok bs ->
    applied_children route cfg bs (admittedHostnames gw route cfg) t ->
    pruned route (map (routeChildName (meta_Name (HTTPRoute_Meta route)))
                    (admittedHostnames gw route cfg)) t ->
    condition_stored route (verdict (admittedHostnames gw route cfg)) t ->
    settled route t (requeue_after resyncInterval, None).

Lemma prune_all_spec route res t1 :
  (forall e, e ∈ t1 -> ~ removes e) ->
  wp (let! err := prune route [] in Ret ((res, err) : outcome)) (fun t out =>
    out.2 = None -> out = (res, None) /\ pruned route [] (t1 ++ t)).
Proof.
  intros H1. apply wp_bind. eapply wp_mono; [apply prune_spec|]. intros tp rp [_ Hp].
  cbn. intros ->. split; [done|]. apply pruned_after; [done|]. rewrite app_nil_r. auto.
Qed.

(** C19: a reconcile that reports no error has converged on what it read, and
    which of the five ways it took is decided by what it read: the route is
    gone; none of its parentRefs leads to a Gateway of the operator's class, and
    every child is deleted; the Gateway of the first parentRef that does has no
    usable proxy listener, and every child is deleted and the route retried; the
    rules are not representable, and every child is deleted and the route
    rejected in its status; or the route is translated, and then every hostname
    the Gateway admits was applied as a child with that hostname, the Gateway's
    cluster and the translated backends, every other child and no other object
    was deleted, and the status accepts the route exactly when it exposes some
    hostname. *)
Theorem HTTPRoute_converges ns name :
  wp (Reconcile ns name) (fun t out => out.2 = None ->
    (exists e, t = [Entry (KGet KHTTPRoute ns name) (Err e)] /\ out = (no_requeue, IgnoreNotFound e)) \/
    exists route, Entry (KGet KHTTPRoute ns name) (Ok route) ∈ t /\ settled route t out).
Proof.
  unfold Reconcile. cbn. intros [route|e]; [|intros _; left; eauto].
  set (t0 := Entry (KGet KHTTPRoute ns name) (Ok route)).
  apply wp_bind_outcome. eapply wp_mono; [apply resolveGateway_spec|].
  intros tr r [Hn Hg].
  assert (forall e, e ∈ t0 :: tr -> ~ removes e) as Hpre.
  { intros e [->|He]%elem_of_cons; [by intros []|by apply Hn]. }
  assert (forall t out, (out.2 = None -> settled route (t0 :: tr ++ t) out) ->
    out.2 = None -> (exists e, t0 :: tr ++ t = [Entry (KGet KHTTPRoute ns name) (Err e)] /\
      out = (no_requeue, IgnoreNotFound e)) \/
    exists route', Entry (KGet KHTTPRoute ns name) (Ok route') ∈ t0 :: tr ++ t /\
      settled route' (t0 :: tr ++ t) out) as Hgo.
  { intros t out Hs Hout. right. exists route. split; [left|auto]. }
  destruct r as [[[gw p]|]|e]; cbn in Hg; [| |done].
  2: { eapply wp_mono; [apply (prune_all_spec route _ (t0 :: tr) Hpre)|].
       intros t out Hp. apply Hgo. intros Hout. destruct (Hp Hout) as [-> ?].
       apply settled_detached; [|done]. eapply detached_mono; [|exact Hg]. set_solver. }
  assert (forall t, attached route gw p (t0 :: tr ++ t)) as Hatt.
  { intros t. eapply attached_mono; [|exact Hg]. set_solver. }
  destruct (gatewayProxyConfig gw) as [cfg|] eqn:Hcfg.
  2: { eapply wp_mono; [apply (prune_all_spec route _ (t0 :: tr) Hpre)|].
       intros t out Hp. apply Hgo. intros Hout. destruct (Hp Hout) as [-> ?].
       by eapply settled_no_listener. }
  destruct (ControllerReference _ _) as [ownerRef|e] eqn:Howner; [|done].
  destruct (routeBackends route) as [bs|msg] eqn:Hb.
  - eapply wp_mono; [by apply translate_spec|]. intros t out [_ Hok]. apply Hgo. intros Hout.
    destruct (Hok Hout) as (-> & Hp & Ha & Hc). eapply settled_translated; [done..| | |].
    + intros h Hh. destruct (Ha h Hh) as (ac & ? & ?). exists ac. split; [done|]. set_solver.
    + by apply (pruned_after _ _ (t0 :: tr)).
    + eapply condition_stored_mono; [|exact Hc]. set_solver.
  - apply wp_then_outcome. eapply wp_mono; [apply prune_spec|]. intros tp rp [_ Hp].
    destruct rp as [e|]; [done|]. apply wp_bind. eapply wp_mono; [apply setRouteCondition_spec|].
    intros ts rs [Hs Hst]. cbn [wp]. rewrite app_nil_r. apply Hgo. cbn [snd]. intros ->.
    eapply settled_rejected; [done..| |].
    + apply (pruned_frame _ _ (t0 :: tr)); [done|intros e He; by apply Hs|by apply Hp].
    + eapply condition_stored_mono; [|by apply Hst]. set_solver.
Qed.
End props.
End HTTPRouteProps.

(** ** What the Gateway reconciler guarantees *)
Module GatewayProps.
Import GatewayReconciler.
Arguments syncStatus : simpl never.
Section props.
Context `{ErrorClass} `{K8sLibLaws}.

Lemma listenerStatuses_reads gw cfg programmed :
  calls_in is_read (listenerStatuses gw cfg programmed).
Proof.
  unfold listenerStatuses. cbn. split; [done|]. intros listed. generalize (gw_Listeners gw).
  intros ls. induction ls as [|l ls IH]; cbn; [done|].
  destruct (negb _); [apply calls_in_bind; done|].
  apply calls_in_bind; [|intros; by apply calls_in_bind].
  unfold secretExists. calls_run fail.
Qed.

(** The status written for a Gateway: rejected without a cluster, or accepted
    with Programmed telling whether the owned cluster is ready. *)
Definition rejected (g : Gateway) : Prop :=
  exists c, condition_of (gw_Conditions g) ConditionAccepted = Some c /\ cond_Status c = ConditionFalse.
Definition accepted (g : Gateway) (programmed : bool) : Prop :=
  (exists c, condition_of (gw_Conditions g) ConditionAccepted = Some c /\ cond_Status c = ConditionTrue) /\
  (exists c, condition_of (gw_Conditions g) ConditionProgrammed = Some c /\
     cond_Status c = if programmed then ConditionTrue else ConditionFalse).

(** The cluster a Gateway of our class is translated to. *)
Definition cluster_for (ns name : string) (t : history) (gw : Gateway) (ac : applyconf) : Prop :=
  exists gc pref params cfg ownerRef,
    Entry (KGet KGateway ns name) (Ok gw) ∈ t /\
    Entry (KGet KGatewayClass "" (gw_GatewayClassName gw)) (Ok gc) ∈ t /\
    gc_ControllerName gc = gatewayController /\
    Entry (KGet KReverseProxyClusterParameters (meta_Namespace (Gateway_Meta gw)) pref) (Ok params) ∈ t /\
    gatewayProxyConfig gw = Some cfg /\
    ControllerReference KGateway (Gateway_Meta gw) = Ok ownerRef /\
    ac = ApplyReverseProxyCluster
           (WithOwnerReferences [ownerRef]
              (ObjectAC (proxyClusterNameForGateway gw) (meta_Namespace (Gateway_Meta gw))))
           (cluster_spec cfg (ReverseProxyClusterParameters_Spec params)).

Lemma fail_rejected gw reason msg :
  rejected (set_status gw
    (SetStatusCondition (gw_Conditions gw)
       (mkCondition ConditionAccepted ConditionFalse reason msg (meta_Generation (Gateway_Meta gw))))
    (gw_Addresses gw) (gw_ListenerStatuses gw)).
Proof.
  refine (set_condition_status _ _).
Qed.

Lemma syncStatus_spec gw cfg rpc :
  wp (syncStatus gw cfg rpc) (fun t r => exists tr g, t = tr ++ [Entry (KStatusUpdate KGateway g) r] /\
    (forall e, e ∈ tr -> is_read (entry_call e)) /\
    accepted g (IsStatusConditionTrue (rpc_Conditions (ReverseProxyCluster_Status rpc)) ReadyCondition)).
Proof.
  unfold syncStatus. apply wp_bind. eapply wp_mono;
    [apply calls_in_wp, listenerStatuses_reads|]. intros tr ls Hr. cbn. intros r.
  eexists tr, _. split; [reflexivity|]. split; [intros [c x] He; by apply (Hr c x)|].
  set (ready := IsStatusConditionTrue _ _). unfold accepted. cbn [gw_Conditions set_status]. split.
  - rewrite set_condition_other by (destruct ready; done).
    refine (set_condition_status _ _).
  - destruct ready; refine (set_condition_status _ _).
Qed.

(** Entries that neither apply nor write a status. *)
Definition quiet (e : event) : Prop :=
  match entry_call e with KApply _ | KStatusUpdate _ _ => False | _ => True end.

(** What holds of the writes of a trace. *)
Definition writes_ok (ns name : string) (t : history) : Prop :=
  (forall ac r, Entry (KApply ac) r ∈ t -> exists gw, cluster_for ns name t gw ac) /\
  (forall g r, Entry (KStatusUpdate KGateway g) r ∈ t ->
     (rejected g /\ forall ac r, ~ Entry (KApply ac) r ∈ t) \/
     exists gw ac rpc, cluster_for ns name t gw ac /\ Entry (KApply ac) None ∈ t /\
       Entry (KGet KReverseProxyCluster (meta_Namespace (Gateway_Meta gw))
                (proxyClusterNameForGateway gw)) (Ok rpc) ∈ t /\
       accepted g (IsStatusConditionTrue (rpc_Conditions (ReverseProxyCluster_Status rpc)) ReadyCondition)).

Ltac not_in :=
  let H := fresh in intros H; repeat apply elem_of_cons in H as [H|H];
  first [discriminate H | by apply not_elem_of_nil in H].

Lemma quiet_ok ns name t : (forall e, e ∈ t -> quiet e) -> writes_ok ns name t.
Proof. intros Ht. split; intros x r Hin; by destruct (Ht _ Hin). Qed.

Ltac all_quiet :=
  let e := fresh "e" in let He := fresh "He" in
  intros e He; repeat apply elem_of_cons in He as [->|He];
  first [by apply not_elem_of_nil in He | exact I].

Lemma fail_ok ns name gw reason msg tp :
  (forall e, e ∈ tp -> quiet e) ->
  wp (fail gw reason msg) (fun t _ => writes_ok ns name (tp ++ t)).
Proof.
  intros Hq. unfold fail. apply wp_then_outcome. cbn. intros r.
  set (g := set_status _ _ _ _).
  assert (writes_ok ns name (tp ++ [Entry (KStatusUpdate KGateway g) r])) as Hw.
  { assert (forall ac r', ~ Entry (KApply ac) r' ∈ tp ++ [Entry (KStatusUpdate KGateway g) r]) as Hn.
    { intros ac r' [Hin|Hin]%elem_of_app; [by destruct (Hq _ Hin)|].
      apply list_elem_of_singleton in Hin. discriminate Hin. }
    split; [intros ac r' Hin; by destruct (Hn ac r')|].
    intros g' r' [Hin|Hin]%elem_of_app; [by destruct (Hq _ Hin)|].
    apply list_elem_of_singleton in Hin. left. split; [|done].
    assert (g' = g) as -> by (by simplify_eq). apply fail_rejected. }
  by destruct r.
Qed.

Lemma cluster_for_mono ns name t t' gw ac :
  (forall e, e ∈ t -> e ∈ t') -> cluster_for ns name t gw ac -> cluster_for ns name t' gw ac.
Proof.
  intros Ht (gc & pref & params & cfg & ownerRef & ? & ? & ? & ? & ?).
  exists gc, pref, params, cfg, ownerRef. auto 10.
Qed.

(** A quiet run that applies the cluster of the Gateway and may end with an
    accepting status. *)
Lemma applied_ok ns name gw ac pre post r :
  (forall e, e ∈ pre -> quiet e) -> (forall e, e ∈ post -> quiet e) ->
  cluster_for ns name pre gw ac ->
  writes_ok ns name (pre ++ Entry (KApply ac) r :: post).
Proof.
  intros Hpre Hpost Hc. split.
  - intros ac' r' [Hin|[Hin|Hin]%elem_of_cons]%elem_of_app;
      [by destruct (Hpre _ Hin)| |by destruct (Hpost _ Hin)].
    exists gw. assert (ac' = ac) as -> by (by simplify_eq).
    eapply cluster_for_mono; [|exact Hc]. set_solver.
  - intros g' r' [Hin|[Hin|Hin]%elem_of_cons]%elem_of_app;
      [by destruct (Hpre _ Hin)|discriminate Hin|by destruct (Hpost _ Hin)].
Qed.

Lemma applied_status_ok ns name gw ac pre post g rpc r :
  (forall e, e ∈ pre -> quiet e) -> (forall e, e ∈ post -> quiet e) ->
  cluster_for ns name pre gw ac ->
  Entry (KGet KReverseProxyCluster (meta_Namespace (Gateway_Meta gw))
           (proxyClusterNameForGateway gw)) (Ok rpc) ∈ post ->
  accepted g (IsStatusConditionTrue (rpc_Conditions (ReverseProxyCluster_Status rpc)) ReadyCondition) ->
  writes_ok ns name (pre ++ Entry (KApply ac) None :: post ++ [Entry (KStatusUpdate KGateway g) r]).
Proof.
  intros Hpre Hpost Hc Hrpc Hg.
  assert (cluster_for ns name
    (pre ++ Entry (KApply ac) None :: post ++ [Entry (KStatusUpdate KGateway g) r]) gw ac) as Hc'
    by (eapply cluster_for_mono; [|exact Hc]; set_solver).
  destruct (applied_ok ns name gw ac pre post None Hpre Hpost Hc) as [Ha Hs]. split.
  - intros ac' r'. rewrite app_comm_cons, app_assoc. intros [Hin|Hin]%elem_of_app.
    + destruct (Ha ac' r' Hin) as [gw' Hgw]. exists gw'. rewrite <- app_assoc, <- app_comm_cons.
      eapply cluster_for_mono; [|exact Hgw]. set_solver.
    + apply list_elem_of_singleton in Hin. discriminate Hin.
  - intros g' r'. rewrite app_comm_cons, app_assoc. intros [Hin|Hin]%elem_of_app.
    + exfalso. apply elem_of_app in Hin as [Hin|[Hin|Hin]%elem_of_cons];
        [by destruct (Hpre _ Hin)|discriminate Hin|by destruct (Hpost _ Hin)].
    + apply list_elem_of_singleton in Hin. assert (g' = g) as -> by (by simplify_eq).
      right. exists gw, ac, rpc. rewrite <- app_assoc, <- app_comm_cons.
      split; [done|]. split; [|split; [|done]]; set_solver.
Qed.

Lemma resolveGatewayParams_spec gw :
  wp (resolveGatewayParams gw) (fun t r => (forall e, e ∈ t -> quiet e) /\
    match r with
    | Ok params => exists pref, Entry (KGet KReverseProxyClusterParameters
        (meta_Namespace (Gateway_Meta gw)) pref) (Ok params) ∈ t
    | Err _ => True
    end).
Proof.
  unfold resolveGatewayParams. wp_run; (split; [all_quiet|]); try done. eexists; in_trace.
Qed.

(** A Gateway is only translated when its class is the operator's, its
    parameters were read from its own namespace and it has a proxy listener,
    and then to the one cluster named after it, with the domain, address and
    certificate of that listener; its status is written as rejected when no
    cluster was applied, and otherwise as accepted, Programmed exactly when
    the cluster read back is ready. *)
Theorem Gateway_translates ns name :
  wp (Reconcile ns name) (fun t _ => writes_ok ns name t).
Proof.
  unfold Reconcile. cbn. intros [gw|e]; [|apply quiet_ok; all_quiet].
  cbn. intros [gc|e]; [|apply quiet_ok; all_quiet].
  destruct (negb _) eqn:Hclass; [apply quiet_ok; all_quiet|].
  apply negb_false_iff, String.eqb_eq in Hclass.
  set (g1 := Entry (KGet KGateway ns name) (Ok gw)).
  set (g2 := Entry (KGet KGatewayClass "" (gw_GatewayClassName gw)) (Ok gc)).
  apply wp_bind. eapply wp_mono; [apply resolveGatewayParams_spec|]. intros tp res [Hq Hparams].
  assert (forall e, e ∈ g1 :: g2 :: tp -> quiet e) as Hpre.
  { intros e [->|[->|?]%elem_of_cons]%elem_of_cons; [exact I..|auto]. }
  assert (forall reason msg, wp (fail gw reason msg)
    (fun t _ => writes_ok ns name ((g1 :: g2 :: tp) ++ t))) as Hfail by (intros; by apply fail_ok).
  destruct res as [params|e]; [|by apply Hfail]. destruct Hparams as [pref Hpref].
  destruct (gatewayProxyConfig gw) as [cfg|] eqn:Hcfg; [|by apply Hfail].
  destruct (ControllerReference _ _) as [ownerRef|e] eqn:Ho.
  2: { apply quiet_ok. by rewrite app_nil_r. }
  set (ac := ApplyReverseProxyCluster _ _).
  assert (cluster_for ns name (g1 :: g2 :: tp) gw ac) as Hac.
  { exists gc, pref, params, cfg, ownerRef. split; [left|]. split; [right; left|].
    split; [done|]. split; [by do 2 right|done]. }
  cbn. intros [e|]; [apply (applied_ok ns name gw ac (g1 :: g2 :: tp) []);
    [done|all_quiet|done]|].
  cbn. intros [rpc|e].
  2: { apply (applied_ok ns name gw ac (g1 :: g2 :: tp) [_]); [done|all_quiet|done]. }
  apply wp_bind. eapply wp_mono; [apply syncStatus_spec|].
  intros ts r (tr & g & -> & Hr & Hg). cbn [wp]. rewrite app_nil_r.
  apply (applied_status_ok ns name gw ac (g1 :: g2 :: tp) (_ :: tr) g rpc r); [done| |done|left|done].
  intros e [->|He]%elem_of_cons; [exact I|]. specialize (Hr e He). unfold quiet.
  by destruct (entry_call e).
Qed.
End props.
End GatewayProps.

(** A Gateway without parameters, read and rejected, with the concrete library. *)
Lemma Gateway_translates_witness :
  let gw := mkGateway (mkMeta "gw" "infra" "uid" ∅ ∅ [] None 1) "netbird" [] None [] [] [] in
  let gc := mkGatewayClass (mkMeta "netbird" "" "uid" ∅ ∅ [] None 1) gatewayController [] in
  exists t, GatewayProps.writes_ok "infra" "gw" t /\
    runs (GatewayReconciler.Reconcile "infra" "gw") t (requeue_after dependencyRetry, None) /\
    Entry (KGet KGatewayClass "" "netbird") (Ok gc) ∈ t /\
    Entry (KGet KGateway "infra" "gw") (Ok gw) ∈ t.
Proof.
  cbn zeta. set (gw := mkGateway _ _ _ _ _ _ _). set (gc := mkGatewayClass _ _ _).
  assert (exists t, runs (GatewayReconciler.Reconcile "infra" "gw") t
      (requeue_after dependencyRetry, None) /\
    Entry (KGet KGatewayClass "" "netbird") (Ok gc) ∈ t /\
    Entry (KGet KGateway "infra" "gw") (Ok gw) ∈ t) as (t & Hr & Hin).
  { eexists [_; _; _]. split.
    - exists (Ok gw). split; [reflexivity|]. exists (Ok gc). split; [reflexivity|].
      exists None. split; reflexivity.
    - split; [right; left|left]. }
  exists t. split; [|split; [exact Hr|exact Hin]].
  exact (wp_elim _ _ _ _ (GatewayProps.Gateway_translates "infra" "gw") Hr).
Defined.
