(* ===== verification/LoadBalancer.v ===== *)
(** * LoadBalancer advertisement ([loadbalancer_controller.go])

    A Service of type LoadBalancer is advertised as one NetworkResource and one
    DNSRecord per ingress IP family; children that are no longer wanted are
    pruned. *)

From stdpp Require Import base gmap list strings.
From Stdlib Require Import Ascii ZArith Lia.
From S2P Require Import Prelude GoStrings NetIP GoErr Prog ApiTypes K8sTypes ApplyConf Env NetbirdUtil Reconcile ServiceAddr.

Open Scope Z_scope.
Open Scope prog_scope.

Record LoadBalancerReconciler := mkLoadBalancerReconciler {
  lb_DefaultAdvertise : bool;
  lb_Namespace : string;
  lb_Network : string;
  lb_DNSZone : string;
  lb_DNSZoneGroups : list string;
  lb_DefaultGroups : list string;
  lb_Recorder : bool       (* a recorder is present *)
}.

(** Service annotation, then namespace annotation, then the default. *)
Definition shouldAdvertise (svc : Service) (ns : Namespace) (def : bool) : bool :=
  match meta_Annotations (Service_Meta svc) !! advertiseAnnotation with
  | Some v => String.eqb v "true"
  | None =>
      match meta_Annotations (Namespace_Meta ns) !! advertiseAnnotation with
      | Some v => String.eqb v "true"
      | None => def
      end
  end.

(** [""] when neither has the annotation. *)
Definition annotation (svc : Service) (ns : Namespace) (key : string) : string :=
  match meta_Annotations (Service_Meta svc) !! key with
  | Some v => v
  | None => default ""%string (meta_Annotations (Namespace_Meta ns) !! key)
  end.

Definition resourceGroups (r : LoadBalancerReconciler) (svc : Service) (ns : Namespace) : list string :=
  let v := annotation svc ns groupsAnnotation in
  if String.eqb v "" then lb_DefaultGroups r
  else List.filter (fun g => negb (String.eqb g ""))
         (map strings.TrimSpace (strings.SplitByte v ","%char)).

Definition lbIngressAddresses (svc : Service) : list familyAddress :=
  omap (fun ip =>
    if String.eqb ip "" then None
    else if String.eqb (ipFamilyOf ip) "" then None
    else Some (mkFamilyAddress (ipFamilyOf ip) ip)) (svc_Ingress svc).

Section lb.
Context `{ErrorClass} `{K8sLib}.
Context (r : LoadBalancerReconciler).

Definition dependencyRequeue (e : error) : M outcome :=
  do! recordEvent (lb_Recorder r) reasonDependencyNotReady (Error e) in
  Ret (requeue_after dependencyRetry, None).

Definition svc_ns (svc : Service) : string := meta_Namespace (Service_Meta svc).
Definition svc_name (svc : Service) : string := meta_Name (Service_Meta svc).

Definition prune (svc : Service) (desired : list string) : M (option error) :=
  let sel := Some (lbServiceLabel, svc_name svc) in
  let inNS := Some (svc_ns svc) in
  let! resources := ask (KList KNetworkResource inNS sel) in
  match resources with
  | Err e => Ret (Some e)
  | Ok items =>
      let! err := delete_undesired KNetworkResource NetworkResource_Meta desired items in
      match err with
      | Some e => Ret (Some e)
      | None =>
          let! records := ask (KList KDNSRecord inNS sel) in
          match records with
          | Err e => Ret (Some e)
          | Ok items => delete_undesired KDNSRecord DNSRecord_Meta desired items
          end
      end
  end.

Definition resolveNetwork : M (result error Network) :=
  let? items := ask (KList KNetwork None None) in
  Ret (match find_first (fun n => String.eqb (meta_Name (Network_Meta n)) (lb_Network r)) items with
       | Some n => Ok n
       | None => Err (dependency_not_ready ("Network " +:+ quote (lb_Network r) +:+ " not found"))
       end).

(** The zone the records land in: name, namespace and domain. *)
Record zoneRef := mkZoneRef { zr_name : string; zr_namespace : string; zr_domain : string }.

Definition zone_spec : ACDNSZoneSpec.t :=
  let spec := (ACDNSZoneSpec.new
    |> ACDNSZoneSpec.WithName (lb_DNSZone r)
    |> ACDNSZoneSpec.WithDomain (lb_DNSZone r)
    |> ACDNSZoneSpec.WithEnabled true)%go in
  match groupReferences (lb_DNSZoneGroups r) with
  | [] => spec
  | groups => ACDNSZoneSpec.WithDistributionGroups groups spec
  end.

Definition ensureZone : M (result error zoneRef) :=
  if String.eqb (lb_DNSZone r) "" then
    Ret (Err (dependency_not_ready "no LoadBalancer DNSZone configured"))
  else
    do? ask (KApply (ApplyDNSZone (ObjectAC (lb_DNSZone r) (lb_Namespace r)) zone_spec)) in
    Ret (Ok (mkZoneRef (lb_DNSZone r) (lb_Namespace r) (lb_DNSZone r))).

Definition child_meta (svc : Service) (ownerRef : OwnerReference) (family : IPFamily) : ACMeta :=
  (ObjectAC (childName (svc_name svc) family) (svc_ns svc)
    |> WithLabels {[ lbServiceLabel := svc_name svc ]}
    |> WithOwnerReferences [ownerRef])%go.

Definition resource_spec (svc : Service) (network : Network) (groupRefs : list ACGroupReference.t)
    (fa : familyAddress) : ACNetworkResourceSpec.t :=
  let spec := (ACNetworkResourceSpec.new
    |> ACNetworkResourceSpec.WithNetworkRef
         (ACCrossNamespaceReference.new
           |> ACCrossNamespaceReference.WithName (meta_Name (Network_Meta network))
           |> ACCrossNamespaceReference.WithNamespace (meta_Namespace (Network_Meta network)))
    |> ACNetworkResourceSpec.WithName
         (svc_name svc +:+ "-" +:+ svc_ns svc +:+ "-" +:+ fa_family fa)
    |> ACNetworkResourceSpec.WithAddress (fa_address fa)
    |> ACNetworkResourceSpec.WithEnabled true)%go in
  match groupRefs with
  | [] => spec
  | _ => ACNetworkResourceSpec.WithGroups groupRefs spec
  end.

Definition record_spec (svc : Service) (zone : zoneRef) (recordType : string) (fa : familyAddress) :
    ACDNSRecordSpec.t :=
  (ACDNSRecordSpec.new
    |> ACDNSRecordSpec.WithZoneRef
         (ACCrossNamespaceReference.new
           |> ACCrossNamespaceReference.WithName (zr_name zone)
           |> ACCrossNamespaceReference.WithNamespace (zr_namespace zone))
    |> ACDNSRecordSpec.WithName (serviceFQDN (svc_name svc) (svc_ns svc) (zr_domain zone))
    |> ACDNSRecordSpec.WithType recordType
    |> ACDNSRecordSpec.WithContent (fa_address fa)
    |> ACDNSRecordSpec.WithTTL (dnsRecordTTL / Second))%go.

(** The loop over the ingress addresses; the result is the list of desired
    child names. *)
Fixpoint advertise (svc : Service) (network : Network) (zone : zoneRef) (ownerRef : OwnerReference)
    (groupRefs : list ACGroupReference.t) (ingress : list familyAddress) (desired : list string) :
    M (result error (list string)) :=
  match ingress with
  | [] => Ret (Ok desired)
  | fa :: rest =>
      let '(recordType, ok) := dnsRecordTypeFor (fa_address fa) in
      if negb ok then advertise svc network zone ownerRef groupRefs rest desired
      else
        let name := childName (svc_name svc) (fa_family fa) in
        let m := child_meta svc ownerRef (fa_family fa) in
        do? ask (KApply (ApplyNetworkResource m (resource_spec svc network groupRefs fa))) in
        do? ask (KApply (ApplyDNSRecord m (record_spec svc zone recordType fa))) in
        advertise svc network zone ownerRef groupRefs rest (name :: desired)
  end.

Definition Reconcile (ns name : string) : M outcome :=
  let! got := ask (KGet KService ns name) in
  match got with
  | Err e => Ret (no_requeue, IgnoreNotFound e)
  | Ok svc =>
      let! got_ns := ask (KGet KNamespace "" (svc_ns svc)) in
      match got_ns with
      | Err e => Ret (no_requeue, IgnoreNotFound e)
      | Ok nsObj =>
          let adv := String.eqb (svc_Type svc) ServiceTypeLoadBalancer
                     && negb (deleting (Service_Meta svc))
                     && shouldAdvertise svc nsObj (lb_DefaultAdvertise r) in
          if negb adv then let! err := prune svc [] in Ret (no_requeue, err)
          else
            match lbIngressAddresses svc with
            | [] => Ret (no_requeue, None)
            | ingress =>
                let! net := resolveNetwork in
                match net with
                | Err e => dependencyRequeue e
                | Ok network =>
                    let! z := ensureZone in
                    match z with
                    | Err e => dependencyRequeue e
                    | Ok zone =>
                        match ControllerReference KService (Service_Meta svc) with
                        | Err e => Ret (fail_with e)
                        | Ok ownerRef =>
                            let groupRefs := groupReferences (resourceGroups r svc nsObj) in
                            let^ desired := advertise svc network zone ownerRef groupRefs ingress [] in
                            do! recordNormalEvent (lb_Recorder r) reasonAdvertised
                              ("advertised over NetBird as "
                               +:+ serviceFQDN (svc_name svc) (svc_ns svc) (zr_domain zone)
                               +:+ " (network " +:+ meta_Name (Network_Meta network) +:+ ")") in
                            let! err := prune svc desired in
                            Ret (requeue_after resyncInterval, err)
                        end
                    end
                end
            end
      end
  end.
End lb.
Arguments prune : simpl never.

(** ** What the reconciler guarantees *)

(** The Service's annotation decides, then the namespace's, then the default. *)
Definition opted_in (svc : Service) (ns : Namespace) (def : bool) : Prop :=
  let here := meta_Annotations (Service_Meta svc) !! advertiseAnnotation in
  let there := meta_Annotations (Namespace_Meta ns) !! advertiseAnnotation in
  here = Some "true"%string \/
  (here = None /\ (there = Some "true"%string \/ (there = None /\ def = true))).

Lemma shouldAdvertise_spec svc ns def :
  shouldAdvertise svc ns def = true <-> opted_in svc ns def.
Proof.
  unfold shouldAdvertise, opted_in.
  destruct (meta_Annotations (Service_Meta svc) !! advertiseAnnotation) as [v|];
    [|destruct (meta_Annotations (Namespace_Meta ns) !! advertiseAnnotation) as [w|]];
    rewrite ?String.eqb_eq; naive_solver.
Qed.

(** The ingress addresses are the parseable ones, and each has a record type. *)
Lemma lbIngressAddresses_spec svc fa :
  fa ∈ lbIngressAddresses svc <->
  fa_address fa ∈ svc_Ingress svc /\ is_Some (net.ParseIP (fa_address fa)) /\
  fa_family fa = ipFamilyOf (fa_address fa).
Proof.
  unfold lbIngressAddresses. rewrite list_elem_of_omap. split.
  - intros (ip & Hip & Hf). destruct (String.eqb_spec ip "") as [|Hne]; [done|].
    destruct (String.eqb_spec (ipFamilyOf ip) "") as [|Hfam]; [done|]. simplify_eq. cbn.
    split; [done|]. split; [|done]. unfold ipFamilyOf in Hfam.
    destruct (net.ParseIP ip); [eauto|done].
  - intros (Hip & [p Hp] & Hfam). destruct fa as [fam ip]; cbn in *. exists ip. split; [done|].
    assert (ipFamilyOf ip <> "") as Hne.
    { unfold ipFamilyOf. rewrite Hp. by destruct (net.To4 p). }
    destruct (String.eqb_spec ip "") as [->|_]; [done|].
    apply String.eqb_neq in Hne. rewrite Hne. by subst.
Qed.

Lemma ingress_record_type svc fa :
  fa ∈ lbIngressAddresses svc -> exists rt, dnsRecordTypeFor (fa_address fa) = (rt, true).
Proof.
  rewrite lbIngressAddresses_spec. intros (_ & Hp & _).
  apply dnsRecordTypeFor_valid in Hp. destruct (dnsRecordTypeFor _) as [rt ok].
  cbn in Hp. subst. eauto.
Qed.

(** The two families of a Service have different children. *)
Lemma childName_family svcName :
  childName svcName IPv4Protocol <> childName svcName IPv6Protocol.
Proof.
  unfold childName. intros H. apply (inj (String.append svcName)) in H. discriminate H.
Qed.

(** No call of an explicit trace applies or deletes anything. *)
Ltac quiet_calls :=
  let e := fresh "e" in let He := fresh "He" in
  intros e He; repeat apply elem_of_cons in He as [->|He];
  first [by apply not_elem_of_nil in He | by split; intros []].

Section props.
Context `{ErrorClass} `{K8sLib}.
Context (r : LoadBalancerReconciler).

(** A deletion of one of these objects that is not desired. *)
Definition deletes_undesired (k : kind) (meta : obj k -> ObjectMeta) (desired : list string)
    (items : list (obj k)) (e : event) : Prop :=
  exists it, it ∈ items /\ meta_Name (meta it) ∉ desired /\
    entry_call e = KDelete k (meta_Namespace (meta it)) (meta_Name (meta it)).

(** Of the children of a Service, as listed, those that are not desired are
    gone, and nothing else was deleted. *)
Definition lb_pruned (svc : Service) (desired : list string) (t : history) : Prop :=
  exists resources records,
    Entry (KList KNetworkResource (Some (svc_ns svc)) (Some (lbServiceLabel, svc_name svc)))
      (Ok resources) ∈ t /\
    Entry (KList KDNSRecord (Some (svc_ns svc)) (Some (lbServiceLabel, svc_name svc)))
      (Ok records) ∈ t /\
    (forall it, it ∈ resources -> meta_Name (NetworkResource_Meta it) ∉ desired ->
       deleted t KNetworkResource (NetworkResource_Meta it)) /\
    (forall it, it ∈ records -> meta_Name (DNSRecord_Meta it) ∉ desired ->
       deleted t KDNSRecord (DNSRecord_Meta it)) /\
    (forall e, e ∈ t -> removes e ->
       deletes_undesired KNetworkResource NetworkResource_Meta desired resources e \/
       deletes_undesired KDNSRecord DNSRecord_Meta desired records e).

(** Calls before and after that delete nothing change none of it. *)
Lemma lb_pruned_frame svc desired t1 t t2 :
  (forall e, e ∈ t1 -> ~ removes e) -> (forall e, e ∈ t2 -> ~ removes e) ->
  lb_pruned svc desired t -> lb_pruned svc desired (t1 ++ t ++ t2).
Proof.
  intros H1 H2 (rs & ds & ? & ? & Hr & Hd & Ho). exists rs, ds. do 2 (split; [set_solver|]).
  split; [|split].
  - intros it ? ?. eapply deleted_mono; [|by apply Hr]. set_solver.
  - intros it ? ?. eapply deleted_mono; [|by apply Hd]. set_solver.
  - intros e [He|[He|He]%elem_of_app]%elem_of_app Hrm; [by destruct (H1 e)|auto|by destruct (H2 e)].
Qed.
Lemma lb_pruned_after svc desired t1 t :
  (forall e, e ∈ t1 -> ~ removes e) -> lb_pruned svc desired t -> lb_pruned svc desired (t1 ++ t).
Proof.
  intros H1 Hp. rewrite <- (app_nil_r t). apply lb_pruned_frame; [done|by intros e ?%not_elem_of_nil|done].
Qed.

Lemma lb_prune_spec svc desired :
  wp (prune svc desired) (fun t err =>
    (forall e, e ∈ t -> ~ applies e) /\ (err = None -> lb_pruned svc desired t)).
Proof.
  unfold prune. cbn. intros [rs|e]; cbn; [|split; [no_applies|done]].
  apply wp_bind. eapply wp_mono; [apply delete_undesired_spec|]. intros tr er [Hin Hr].
  pose proof (deletions_no_apply _ _ _ _ _ Hin) as Hna.
  destruct er as [e|]; cbn.
  { rewrite app_nil_r. split; [|done]. intros e' [->|?]%elem_of_cons; [by intros []|auto]. }
  intros [ds|e]; cbn.
  2: { split; [|done]. intros e'. rewrite elem_of_cons, elem_of_app, list_elem_of_singleton.
       intros [->|[?| ->]]; [by intros []|auto|by intros []]. }
  eapply wp_mono; [apply delete_undesired_spec|]. intros td ed [Hind Hd].
  pose proof (deletions_no_apply _ _ _ _ _ Hind) as Hnd. split.
  - intros e'. rewrite elem_of_cons, elem_of_app, elem_of_cons.
    intros [->|[?|[->|?]]]; [by intros []|auto|by intros []|auto].
  - intros ->. exists rs, ds. split; [left|]. split; [set_solver|]. split; [|split].
    + intros it Hit Hn. eapply deleted_mono; [|by apply Hr]. set_solver.
    + intros it Hit Hn. eapply deleted_mono; [|by apply Hd]. set_solver.
    + intros e'. rewrite elem_of_cons, elem_of_app, elem_of_cons.
      intros [->|[He|[->|He]]] Hrm; [done|left; by apply Hin|done|right; by apply Hind].
Qed.

(** The two objects one ingress address is advertised with. *)
Definition advertised_resource svc network ownerRef groupRefs fa : applyconf :=
  ApplyNetworkResource (child_meta svc ownerRef (fa_family fa))
    (resource_spec svc network groupRefs fa).
Definition advertised_record svc zone ownerRef recordType fa : applyconf :=
  ApplyDNSRecord (child_meta svc ownerRef (fa_family fa)) (record_spec svc zone recordType fa).

Lemma advertise_spec svc network zone ownerRef groupRefs ingress desired :
  (forall fa, fa ∈ ingress -> exists rt, dnsRecordTypeFor (fa_address fa) = (rt, true)) ->
  wp (advertise svc network zone ownerRef groupRefs ingress desired) (fun t res =>
    (forall e, e ∈ t -> exists fa rt, fa ∈ ingress /\ dnsRecordTypeFor (fa_address fa) = (rt, true) /\
       (entry_call e = KApply (advertised_resource svc network ownerRef groupRefs fa) \/
        entry_call e = KApply (advertised_record svc zone ownerRef rt fa))) /\
    match res with
    | Err _ => True
    | Ok d =>
        (forall n, n ∈ d <-> n ∈ desired \/
           exists fa, fa ∈ ingress /\ n = childName (svc_name svc) (fa_family fa)) /\
        forall fa rt, fa ∈ ingress -> dnsRecordTypeFor (fa_address fa) = (rt, true) ->
          Entry (KApply (advertised_resource svc network ownerRef groupRefs fa)) None ∈ t /\
          Entry (KApply (advertised_record svc zone ownerRef rt fa)) None ∈ t
    end).
Proof.
  revert desired. induction ingress as [|fa ingress IH]; intros desired Hty; cbn [advertise].
  { cbn. split; [by intros e ?%not_elem_of_nil|]. split; [set_solver|].
    by intros fa rt ?%not_elem_of_nil. }
  destruct (Hty fa) as [rt Hrt]; [left|]. rewrite Hrt. cbn.
  intros [e|]; cbn.
  { split; [|done]. intros e' ->%list_elem_of_singleton. exists fa, rt.
    split; [left|]. split; [done|]. by left. }
  intros [e|]; cbn.
  { split; [|done]. intros e' [->| ->%list_elem_of_singleton]%elem_of_cons; exists fa, rt;
      (split; [left|split; [done|]]); [by left|by right]. }
  eapply wp_mono; [apply IH; intros; apply Hty; by right|]. intros t res [Hin Hres]. split.
  - intros e'. rewrite !elem_of_cons. intros [->|[->|He]].
    + exists fa, rt. split; [left|]. split; [done|]. by left.
    + exists fa, rt. split; [left|]. split; [done|]. by right.
    + destruct (Hin e' He) as (fa' & rt' & ? & ?). exists fa', rt'. split; [by right|done].
  - destruct res as [d|]; [|done]. destruct Hres as [Hd Hall]. split.
    + intros n. rewrite Hd, elem_of_cons. set_solver.
    + intros fa' rt' [->|Hfa]%elem_of_cons Hrt'.
      * rewrite Hrt in Hrt'. simplify_eq. split; [left|right; left].
      * destruct (Hall fa' rt' Hfa Hrt'). by split; do 2 right.
Qed.

Lemma lb_pruned_same svc desired desired' t :
  (forall n, n ∈ desired <-> n ∈ desired') -> lb_pruned svc desired t -> lb_pruned svc desired' t.
Proof.
  intros Hd (rs & ds & ? & ? & Hr & Hs & Ho). exists rs, ds. do 2 (split; [done|]).
  split; [intros it ? Hn; apply Hr; [done|by rewrite Hd]|].
  split; [intros it ? Hn; apply Hs; [done|by rewrite Hd]|].
  intros e He Hrm. destruct (Ho e He Hrm) as [(it & ? & Hn & ?)|(it & ? & Hn & ?)]; [left|right];
    exists it; rewrite <- Hd; auto.
Qed.

Lemma event_trace rec reason msg :
  wp (recordNormalEvent rec reason msg) (fun t _ => forall e, e ∈ t -> ~ applies e /\ ~ removes e).
Proof. unfold recordNormalEvent, recordEventType. destruct rec; cbn; [intros u|]; quiet_calls. Qed.

(** What advertising an ingress list applies. *)
Definition advertised (svc : Service) network zone ownerRef groupRefs
    (ingress : list familyAddress) (ac : applyconf) : Prop :=
  exists fa rt, fa ∈ ingress /\ dnsRecordTypeFor (fa_address fa) = (rt, true) /\
    (ac = advertised_resource svc network ownerRef groupRefs fa \/
     ac = advertised_record svc zone ownerRef rt fa).

Lemma applies_elim (t : history) ac x :
  (forall e, e ∈ t -> ~ applies e) -> ~ Entry (KApply ac) x ∈ t.
Proof. intros Hn Hin. by apply (Hn _ Hin). Qed.

(** The tail of the reconcile, once network, zone and owner are known. *)
Lemma advertise_tail svc network zone ownerRef groupRefs ingress reason msg :
  (forall fa, fa ∈ ingress -> exists rt, dnsRecordTypeFor (fa_address fa) = (rt, true)) ->
  wp (let^ desired := advertise svc network zone ownerRef groupRefs ingress [] in
      do! recordNormalEvent (lb_Recorder r) reason msg in
      let! err := prune svc desired in
      Ret (requeue_after resyncInterval, err))
    (fun t out =>
      (forall ac x, Entry (KApply ac) x ∈ t ->
         advertised svc network zone ownerRef groupRefs ingress ac) /\
      (out.2 = None -> out = (requeue_after resyncInterval, None) /\
         lb_pruned svc (map (fun fa => childName (svc_name svc) (fa_family fa)) ingress) t /\
         forall ac, advertised svc network zone ownerRef groupRefs ingress ac ->
           Entry (KApply ac) None ∈ t)).
Proof.
  intros Hty. apply wp_bind_outcome. eapply wp_mono; [by apply advertise_spec|].
  intros ta res [Hin Hres].
  assert (forall ac x, Entry (KApply ac) x ∈ ta ->
    advertised svc network zone ownerRef groupRefs ingress ac) as Ha.
  { intros ac x He. destruct (Hin _ He) as (fa & rt & ? & ? & [Hc|Hc]); cbn in Hc;
      exists fa, rt; simplify_eq; auto. }
  destruct res as [d|e]; [|done]. destruct Hres as [Hd Hall].
  apply wp_bind. eapply wp_mono; [apply event_trace|]. intros te u He.
  assert (forall e, e ∈ te -> ~ applies e) as Hte by (intros e ?; by apply He).
  apply wp_bind. eapply wp_mono; [apply lb_prune_spec|]. intros tp err [Hp Hdone]. cbn.
  rewrite app_nil_r. split.
  - intros ac x. rewrite !elem_of_app. intros [?|[Hx|Hx]]; [eauto|exfalso..];
      by eapply applies_elim in Hx.
  - intros ->. split; [done|]. split.
    + rewrite app_assoc. apply lb_pruned_after.
      { intros e [Hx|Hx]%elem_of_app; [|by apply He]. destruct (Hin _ Hx) as (fa & rt & _ & _ & Hc).
        unfold removes. destruct Hc as [-> | ->]; by intros []. }
      eapply lb_pruned_same; [|by apply Hdone].
      intros n. rewrite Hd, list_elem_of_fmap. split; [intros [?%not_elem_of_nil|(fa & ? & ->)]; eauto; done|].
      intros (fa & -> & ?). right. eauto.
    + intros ac (fa & rt & Hfa & Hrt & Hac). destruct (Hall fa rt Hfa Hrt).
      rewrite elem_of_app. left. by destruct Hac as [-> | ->].
Qed.

(** The Service and its namespace, read and found to be advertised. *)
Definition to_advertise (ns name : string) (svc : Service) (nsObj : Namespace) (t : history) : Prop :=
  Entry (KGet KService ns name) (Ok svc) ∈ t /\
  Entry (KGet KNamespace "" (svc_ns svc)) (Ok nsObj) ∈ t /\
  svc_Type svc = ServiceTypeLoadBalancer /\ deleting (Service_Meta svc) = false /\
  opted_in svc nsObj (lb_DefaultAdvertise r).

(** The network of the configuration, as listed. *)
Definition configured_network (network : Network) (t : history) : Prop :=
  exists items, Entry (KList KNetwork None None) (Ok items) ∈ t /\ network ∈ items /\
    meta_Name (Network_Meta network) = lb_Network r.

Definition configured_zone : zoneRef := mkZoneRef (lb_DNSZone r) (lb_Namespace r) (lb_DNSZone r).
Definition zone_apply : applyconf :=
  ApplyDNSZone (ObjectAC (lb_DNSZone r) (lb_Namespace r)) (zone_spec r).


(** Why advertising has to wait. *)
Definition network_missing (t : history) : Prop :=
  (exists e, Entry (KList KNetwork None None) (Err e) ∈ t) \/
  exists items, Entry (KList KNetwork None None) (Ok items) ∈ t /\
    forall n, n ∈ items -> meta_Name (Network_Meta n) <> lb_Network r.
Definition zone_missing (t : history) : Prop :=
  lb_DNSZone r = "" \/ exists e, Entry (KApply zone_apply) (Some e) ∈ t.

Lemma resolveNetwork_spec :
  wp (resolveNetwork r) (fun t res => (forall e, e ∈ t -> ~ applies e /\ ~ removes e) /\
    match res with
    | Ok network => configured_network network t
    | Err _ => network_missing t
    end).
Proof.
  unfold resolveNetwork. cbn. intros [items|e]; cbn; (split; [quiet_calls|]).
  2: { left. exists e. left. }
  destruct (find_first _ _) as [n|] eqn:Hf; find_prop.
  - bool_prop. exists items. split; [left|done].
  - right. exists items. split; [left|]. intros n Hn. apply String.eqb_neq. auto.
Qed.

Lemma ensureZone_spec :
  wp (ensureZone r) (fun t res =>
    (forall ac x, Entry (KApply ac) x ∈ t -> ac = zone_apply) /\
    (forall e, e ∈ t -> ~ removes e) /\
    match res with
    | Ok z => z = configured_zone /\ Entry (KApply zone_apply) None ∈ t
    | Err _ => zone_missing t
    end).
Proof.
  unfold ensureZone. destruct (String.eqb_spec (lb_DNSZone r) "").
  { cbn. split; [by intros ac x ?%not_elem_of_nil|]. split; [by intros e0 ?%not_elem_of_nil|by left]. }
  cbn. intros [e|]; cbn; (split; [intros ac x ?%list_elem_of_singleton; by simplify_eq|]);
    (split; [by intros e' ->%list_elem_of_singleton; intros []|]).
  - right. exists e. left.
  - split; [done|left].
Qed.

Lemma dependency_spec e :
  wp (dependencyRequeue r e) (fun t out =>
    (forall e, e ∈ t -> ~ applies e /\ ~ removes e) /\ out = (requeue_after dependencyRetry, None)).
Proof.
  unfold dependencyRequeue, recordEvent, recordEventType. destruct (lb_Recorder r); cbn; intros;
    (split; [quiet_calls|done]).
Qed.

(** What a reconcile may apply. *)
Definition lb_applied (ns name : string) (t : history) (ac : applyconf) : Prop :=
  exists svc nsObj, to_advertise ns name svc nsObj t /\
    (ac = zone_apply \/
     exists network ownerRef, configured_network network t /\
       ControllerReference KService (Service_Meta svc) = Ok ownerRef /\
       advertised svc network configured_zone ownerRef
         (groupReferences (resourceGroups r svc nsObj)) (lbIngressAddresses svc) ac).

(** What a reconcile without error has reached, cause by cause. *)
Inductive lb_reached (ns name : string) : history -> outcome -> Prop :=
  (** no such Service *)
| lb_gone e :
    IgnoreNotFound e = None ->
    lb_reached ns name [Entry (resp := resp) (KGet KService ns name) (Err e)] (no_requeue, None)
  (** nor its namespace *)
| lb_namespace_gone svc e :
    IgnoreNotFound e = None ->
    lb_reached ns name
      [Entry (resp := resp) (KGet KService ns name) (Ok svc); Entry (resp := resp) (KGet KNamespace "" (svc_ns svc)) (Err e)]
      (no_requeue, None)
  (** of another type, being deleted, or opted out *)
| lb_not_advertised svc nsObj t :
    Entry (resp := resp) (KGet KService ns name) (Ok svc) ∈ t -> Entry (resp := resp) (KGet KNamespace "" (svc_ns svc)) (Ok nsObj) ∈ t ->
    ~ (svc_Type svc = ServiceTypeLoadBalancer /\ deleting (Service_Meta svc) = false /\
       opted_in svc nsObj (lb_DefaultAdvertise r)) ->
    lb_pruned svc [] t -> (forall e, e ∈ t -> ~ applies e) -> lb_reached ns name t (no_requeue, None)
  (** without an address: nothing is done, whatever children there are *)
| lb_no_address svc nsObj t :
    to_advertise ns name svc nsObj t -> lbIngressAddresses svc = [] ->
    t = [Entry (resp := resp) (KGet KService ns name) (Ok svc); Entry (resp := resp) (KGet KNamespace "" (svc_ns svc)) (Ok nsObj)] ->
    lb_reached ns name t (no_requeue, None)
  (** its network or zone is not there: only the zone may have been applied *)
| lb_waiting svc nsObj t :
    to_advertise ns name svc nsObj t -> lbIngressAddresses svc <> [] ->
    network_missing t \/ (exists network, configured_network network t) /\ zone_missing t ->
    (forall ac x, Entry (resp := resp) (KApply ac) x ∈ t -> ac = zone_apply) -> (forall e, e ∈ t -> ~ removes e) ->
    lb_reached ns name t (requeue_after dependencyRetry, None)
  (** advertised *)
| lb_advertised svc nsObj network ownerRef t :
    to_advertise ns name svc nsObj t -> lbIngressAddresses svc <> [] ->
    configured_network network t -> Entry (resp := resp) (KApply zone_apply) None ∈ t ->
    ControllerReference KService (Service_Meta svc) = Ok ownerRef ->
    (forall ac, advertised svc network configured_zone ownerRef
         (groupReferences (resourceGroups r svc nsObj)) (lbIngressAddresses svc) ac ->
       Entry (resp := resp) (KApply ac) None ∈ t) ->
    lb_pruned svc (map (fun fa => childName (svc_name svc) (fa_family fa)) (lbIngressAddresses svc)) t ->
    lb_reached ns name t (requeue_after resyncInterval, None).

Lemma configured_network_mono network t t' :
  (forall e, e ∈ t -> e ∈ t') -> configured_network network t -> configured_network network t'.
Proof. intros Ht (items & ? & ?). exists items. auto. Qed.

Lemma to_advertise_mono ns name svc nsObj t t' :
  (forall e, e ∈ t -> e ∈ t') -> to_advertise ns name svc nsObj t -> to_advertise ns name svc nsObj t'.
Proof. intros Ht (? & ? & ?). unfold to_advertise. auto. Qed.

(** The branch of a Service to be advertised, after the two reads. *)
Lemma to_advertise_run ns name svc nsObj t0 :
  to_advertise ns name svc nsObj t0 ->
  t0 = [Entry (KGet KService ns name) (Ok svc); Entry (KGet KNamespace "" (svc_ns svc)) (Ok nsObj)] ->
  wp (match lbIngressAddresses svc with
      | [] => Ret (no_requeue, None)
      | ingress =>
          let! net := resolveNetwork r in
          match net with
          | Err e => dependencyRequeue r e
          | Ok network =>
              let! z := ensureZone r in
              match z with
              | Err e => dependencyRequeue r e
              | Ok zone =>
                  match ControllerReference KService (Service_Meta svc) with
                  | Err e => Ret (fail_with e)
                  | Ok ownerRef =>
                      let groupRefs := groupReferences (resourceGroups r svc nsObj) in
                      let^ desired := advertise svc network zone ownerRef groupRefs ingress [] in
                      do! recordNormalEvent (lb_Recorder r) reasonAdvertised
                        ("advertised over NetBird as "
                         +:+ serviceFQDN (svc_name svc) (svc_ns svc) (zr_domain zone)
                         +:+ " (network " +:+ meta_Name (Network_Meta network) +:+ ")") in
                      let! err := prune svc desired in
                      Ret (requeue_after resyncInterval, err)
                  end
              end
          end
      end) (fun t out =>
    (forall ac x, Entry (KApply ac) x ∈ t0 ++ t -> lb_applied ns name (t0 ++ t) ac) /\
    (out.2 = None -> lb_reached ns name (t0 ++ t) out)).
Proof.
  intros Hto Ht0. assert (forall e, e ∈ t0 -> ~ applies e /\ ~ removes e) as Hq0 by (subst t0; quiet_calls).
  assert (forall e, e ∈ t0 -> ~ applies e) as Hn0 by (intros e ?; by apply Hq0).
  assert (forall t, to_advertise ns name svc nsObj (t0 ++ t)) as Hto'.
  { intros t. eapply to_advertise_mono; [|exact Hto]. set_solver. }
  pose proof (ingress_record_type svc) as Hty. revert Hty.
  destruct (lbIngressAddresses svc) as [|fa ingress] eqn:Hing.
  { intros _. cbn. rewrite app_nil_r. split.
    - intros ac x Hx. by eapply applies_elim in Hx.
    - intros _. by eapply lb_no_address. }
  assert (lbIngressAddresses svc <> []) as Hne by (by rewrite Hing).
  rewrite <- Hing. intros Hty. apply wp_bind. eapply wp_mono; [apply resolveNetwork_spec|].
  intros tn net [Hq1 Hnet]. assert (forall e, e ∈ tn -> ~ applies e) as Hn1 by (intros e ?; by apply Hq1).
  destruct net as [network|e].
  2: { eapply wp_mono; [apply dependency_spec|]. intros t out [Hq2 ->].
       assert (forall e, e ∈ t0 ++ tn ++ t -> ~ applies e /\ ~ removes e) as Hq.
       { intros e'. rewrite !elem_of_app. intros [?|[?|?]]; auto. }
       assert (forall ac x, ~ Entry (KApply ac) x ∈ t0 ++ tn ++ t) as Hna by (intros ac x Hx; by apply Hq in Hx as [[] _]).
       split; [intros ac x Hx; by destruct (Hna ac x)|]. intros _. eapply lb_waiting; [apply Hto'|done| | |].
       - left. destruct Hnet as [(e' & ?)|(items & ? & ?)];
           [left; exists e'|right; exists items; split; [|done]]; set_solver.
       - intros ac x Hx. by destruct (Hna ac x).
       - intros e' He'. by apply Hq. }
  apply wp_bind. eapply wp_mono; [apply ensureZone_spec|]. intros tz z (Hz & Hqz & Hzone).
  assert (forall ac x t, Entry (KApply ac) x ∈ tz -> lb_applied ns name (t0 ++ t) ac) as Hza.
  { intros ac x t Hx. exists svc, nsObj. split; [done|]. left. eauto. }
  assert (forall t, configured_network network (t0 ++ tn ++ t)) as Hnet'.
  { intros t'. eapply configured_network_mono; [|exact Hnet]. set_solver. }
  destruct z as [zone|e].
  2: { eapply wp_mono; [apply dependency_spec|]. intros t out [Hq2 ->].
       assert (forall ac x, Entry (KApply ac) x ∈ t0 ++ tn ++ tz ++ t -> Entry (KApply ac) x ∈ tz) as Hin.
       { intros ac x. rewrite !elem_of_app. intros [Hx|[Hx|[Hx|Hx]]]; [by apply Hq0 in Hx as [[] _]
           |by apply Hq1 in Hx as [[] _]|done|by apply Hq2 in Hx as [[] _]]. }
       split; [intros ac x Hx; eapply Hza, Hin, Hx|]. intros _. eapply lb_waiting; [apply Hto'|done| | |].
       - right. split; [exists network; apply Hnet'|].
         destruct Hzone as [?|(e' & ?)]; [by left|right; exists e'; set_solver].
       - intros ac x Hx. by eapply Hz, Hin.
       - intros e'. rewrite !elem_of_app. intros [Hx|[Hx|[Hx|Hx]]];
           [by apply Hq0|by apply Hq1|by apply Hqz|by apply Hq2]. }
  destruct Hzone as [-> Hzin].
  destruct (ControllerReference _ _) as [ownerRef|e] eqn:Ho.
  2: { cbn. rewrite app_nil_r. split; [|done]. intros ac x. rewrite !elem_of_app.
       intros [Hx|[Hx|Hx]]; [by eapply applies_elim in Hx..|by eapply Hza]. }
  eapply wp_mono; [by apply advertise_tail|]. intros t out [Ha Hdone]. split.
  - intros ac x. rewrite !elem_of_app. intros [Hx|[Hx|[Hx|Hx]]];
      [by eapply applies_elim in Hx..|by eapply Hza|].
    exists svc, nsObj. split; [done|]. right. exists network, ownerRef.
    split; [done|]. split; [done|]. by eapply Ha.
  - intros Hout. destruct (Hdone Hout) as (-> & Hp & Hall).
    eapply lb_advertised; [apply Hto'|done|apply Hnet'|set_solver|exact Ho| |].
    + intros ac Hac. rewrite !elem_of_app. do 3 right. auto.
    + rewrite !app_assoc. apply lb_pruned_after; [|done].
      intros e. rewrite !elem_of_app. intros [[Hx|Hx]|Hx]; [by apply Hq0|by apply Hq1|by apply Hqz].
Qed.

Lemma lb_run ns name :
  wp (Reconcile r ns name) (fun t out =>
    (forall ac x, Entry (KApply ac) x ∈ t -> lb_applied ns name t ac) /\
    (out.2 = None -> lb_reached ns name t out)).
Proof.
  unfold Reconcile. cbn. intros [svc|e].
  2: { cbn. split; [intros ac x Hx; eapply applies_elim in Hx; [done|no_applies]|].
       intros Hi. rewrite Hi. by apply lb_gone. }
  cbn. intros [nsObj|e].
  2: { cbn. split; [intros ac x Hx; eapply applies_elim in Hx; [done|no_applies]|].
       intros Hi. rewrite Hi. by apply lb_namespace_gone. }
  set (g1 := Entry (KGet KService ns name) (Ok svc)).
  set (g2 := Entry (KGet KNamespace "" (svc_ns svc)) (Ok nsObj)).
  assert (forall e, e ∈ [g1; g2] -> ~ applies e /\ ~ removes e) as Hn by quiet_calls.
  destruct (negb _) eqn:Hadv.
  - apply wp_bind. eapply wp_mono; [apply lb_prune_spec|]. intros t err [Hnp Hp]. cbn.
    rewrite app_nil_r.
    assert (forall e, e ∈ g1 :: g2 :: t -> ~ applies e) as Hna.
    { intros e [->|[->|?]%elem_of_cons]%elem_of_cons; [by intros []..|auto]. }
    split; [intros ac x Hx; by destruct (Hna _ Hx)|].
    intros ->. eapply lb_not_advertised; [left|right; left| |apply (lb_pruned_after _ _ [g1; g2])|done].
    + intros (Hty & Hdel & Hopt). apply shouldAdvertise_spec in Hopt.
      rewrite Hty, Hdel, Hopt in Hadv. discriminate Hadv.
    + intros e He. by apply Hn.
    + by apply Hp.
  - apply negb_false_iff in Hadv. bool_prop.
    apply (to_advertise_run ns name svc nsObj [g1; g2]); [|done].
    split; [left|]. split; [right; left|]. split; [done|]. split; [done|].
    by apply shouldAdvertise_spec.
Qed.

(** Only a live Service of type LoadBalancer that opted in is advertised:
    everything a reconcile applies is the operator's own zone, or the
    NetworkResource or DNSRecord of one of its parseable ingress addresses, in
    the configured network and zone, under the groups its annotations select,
    and owned by the Service. *)
Theorem LoadBalancer_advertises ns name :
  wp (Reconcile r ns name) (fun t _ =>
    forall ac x, Entry (KApply ac) x ∈ t -> lb_applied ns name t ac).
Proof. eapply wp_mono; [apply lb_run|]. by intros t out [? _]. Qed.

(** C26: what a reconcile without error has reached, cause by cause. The Service
    or its namespace is gone, and nothing was done. The Service is not to be
    advertised (another type, being deleted, opted out): nothing was applied and
    every listed child is deleted. It is to be advertised but has no parseable
    ingress address: nothing was done at all, so children it has from before
    stay, and nothing is requeued. It has addresses but the configured network
    was not listed, or the zone is not configured or was refused: nothing was
    deleted and the reconcile is run again after [dependencyRetry]. Otherwise the
    zone, and a resource and a record for every address, were applied, and every
    other listed child and nothing else was deleted. *)
Theorem LoadBalancer_converges ns name :
  wp (Reconcile r ns name) (fun t out => out.2 = None -> lb_reached ns name t out).
Proof. eapply wp_mono; [apply lb_run|]. by intros t out [_ ?]. Qed.
End props.
