(* ===== verification/RpCluster.v ===== *)
(** * ReverseProxyCluster ([reverseproxycluster_controller.go])

    Deploys and enrolls a self-hosted reverse proxy: the enrollment token and
    its Secret, the DNS zone, the Deployment and Service, the address records,
    the account's cluster and custom domain. *)

From stdpp Require Import base gmap list strings.
From Stdlib Require Import ZArith Lia.
From S2P Require Import Prelude GoStrings NetIP GoErr Prog ApiTypes K8sTypes ApplyConf Env NetbirdUtil Reconcile Mirror ServiceAddr LoadBalancer.

Open Scope Z_scope.
Open Scope prog_scope.

Definition proxyTokenKey : string := "token".
Definition proxyListenPort : Z := 8443.
Definition proxyHealthPort : Z := 8080.

(** [version.ReverseProxyImage]. *)
Definition ReverseProxyImage : string := "netbirdio/reverse-proxy:latest".

(** ** Names and labels *)

Definition rpc_ns (rpc : ReverseProxyCluster) : string := meta_Namespace (ReverseProxyCluster_Meta rpc).
Definition rpc_name (rpc : ReverseProxyCluster) : string := meta_Name (ReverseProxyCluster_Meta rpc).

Definition proxyResourceName (rpc : ReverseProxyCluster) : string :=
  "reverseproxycluster-" +:+ rpc_name rpc.

Definition proxyAddressRecordName (rpc : ReverseProxyCluster) (recordType : string) : string :=
  proxyResourceName rpc +:+ "-" +:+ strings.ToLower recordType.

Definition proxySelectorLabels (rpc : ReverseProxyCluster) : gmap string string :=
  {[ "app.kubernetes.io/name"%string := "netbird-reverse-proxy"%string;
     "app.kubernetes.io/instance"%string := rpc_name rpc ]}.

(** Only groups given by name. *)
Definition groupNames (groups : list GroupReference) : string :=
  strings.Join (omap gr_Name groups) ",".

(** ** Status updates *)

Definition with_status (rpc : ReverseProxyCluster) (st : ReverseProxyClusterStatus) :
    ReverseProxyCluster :=
  mkReverseProxyCluster (ReverseProxyCluster_Meta rpc) (ReverseProxyCluster_Spec rpc) st.

Definition set_TokenID (rpc : ReverseProxyCluster) (id : string) : ReverseProxyCluster :=
  let st := ReverseProxyCluster_Status rpc in
  with_status rpc (mkReverseProxyClusterStatus (rpc_ObservedGeneration st) (rpc_Conditions st)
    (rpc_StatusClusterAddress st) id (rpc_DomainID st) (rpc_LoadBalancerIP st)
    (rpc_Online st) (rpc_ConnectedProxies st)).

Definition set_DomainID (rpc : ReverseProxyCluster) (id : string) : ReverseProxyCluster :=
  let st := ReverseProxyCluster_Status rpc in
  with_status rpc (mkReverseProxyClusterStatus (rpc_ObservedGeneration st) (rpc_Conditions st)
    (rpc_StatusClusterAddress st) (rpc_TokenID st) id (rpc_LoadBalancerIP st)
    (rpc_Online st) (rpc_ConnectedProxies st)).

Definition set_LoadBalancerIP (rpc : ReverseProxyCluster) (ip : string) : ReverseProxyCluster :=
  let st := ReverseProxyCluster_Status rpc in
  with_status rpc (mkReverseProxyClusterStatus (rpc_ObservedGeneration st) (rpc_Conditions st)
    (rpc_StatusClusterAddress st) (rpc_TokenID st) (rpc_DomainID st) ip
    (rpc_Online st) (rpc_ConnectedProxies st)).

Definition set_connectivity (rpc : ReverseProxyCluster) (online : bool) (connected : Z) :
    ReverseProxyCluster :=
  let st := ReverseProxyCluster_Status rpc in
  with_status rpc (mkReverseProxyClusterStatus (rpc_ObservedGeneration st) (rpc_Conditions st)
    (rpc_StatusClusterAddress st) (rpc_TokenID st) (rpc_DomainID st) (rpc_LoadBalancerIP st)
    online connected).

Definition set_ClusterAddress (rpc : ReverseProxyCluster) (address : string) : ReverseProxyCluster :=
  let st := ReverseProxyCluster_Status rpc in
  with_status rpc (mkReverseProxyClusterStatus (rpc_ObservedGeneration st) (rpc_Conditions st)
    address (rpc_TokenID st) (rpc_DomainID st) (rpc_LoadBalancerIP st)
    (rpc_Online st) (rpc_ConnectedProxies st)).

(** ** The workload *)

Definition proxy_probe (path : string) (failures period : option Z) : Probe :=
  mkProbe (HTTPGet path proxyHealthPort) failures period.

Definition proxy_container (ManagementURL : string) (rpc : ReverseProxyCluster) : Container :=
  let spec := ReverseProxyCluster_Spec rpc in
  mkContainer "proxy"
    (if String.eqb (rpc_Image spec) "" then ReverseProxyImage else rpc_Image spec)
    [] [("https"%string, proxyListenPort); ("health"%string, proxyHealthPort)]
    ([mkEnv "NB_PROXY_MANAGEMENT_ADDRESS" (EnvValue ManagementURL);
      mkEnv "NB_PROXY_DOMAIN" (EnvValue (rpc_ClusterAddress spec));
      mkEnv "NB_PROXY_ADDRESS" (EnvValue (":" +:+ strconv.Itoa proxyListenPort));
      mkEnv "NB_PROXY_HEALTH_ADDRESS" (EnvValue (":" +:+ strconv.Itoa proxyHealthPort));
      mkEnv "NB_PROXY_ACME_CERTIFICATES" (EnvValue "false");
      mkEnv "NB_PROXY_CERTIFICATE_DIRECTORY" (EnvValue "/certs");
      mkEnv "NB_PROXY_PRIVATE" (EnvValue (strconv.FormatBool (rpc_Private spec)));
      mkEnv "NB_PROXY_TOKEN" (EnvSecret (proxyResourceName rpc) proxyTokenKey)]
     ++ (if String.eqb (rpc_LogLevel spec) "" then []
         else [mkEnv "NB_PROXY_LOG_LEVEL" (EnvValue (rpc_LogLevel spec));
               mkEnv "NB_LOG_LEVEL" (EnvValue (rpc_LogLevel spec))]))
    (Some (proxy_probe "/healthz/startup" (Some 30) (Some 2)))
    (Some (proxy_probe "/healthz/ready" None None))
    (Some (proxy_probe "/healthz/live" None None))
    (if String.eqb (rpc_CertSecretName spec) "" then []
     else [mkVolumeMount "certs" "/certs" (Some true)])
    (Some (mkSecurityContext (Some false) None None None [] ["ALL"%string]))
    [("cpu"%string, "100m"%string); ("memory"%string, "128Mi"%string)] None.

Definition proxy_pod (ManagementURL : string) (rpc : ReverseProxyCluster) : PodSpec :=
  let spec := ReverseProxyCluster_Spec rpc in
  mkPodSpec None None [("ndots"%string, "1"%string)] None [] ∅
    [proxy_container ManagementURL rpc]
    (if String.eqb (rpc_CertSecretName spec) "" then []
     else [mkVolume "certs" (SecretVolume (rpc_CertSecretName spec))]).

Section cluster.
Context `{ErrorClass} `{K8sLib}.
Context (ManagementURL : string).

Definition applyDeployment (rpc : ReverseProxyCluster) (ownerRef : OwnerReference) : M (option error) :=
  let labels := proxySelectorLabels rpc in
  ask (KApply (ApplyDeployment
    (ObjectAC (proxyResourceName rpc) (rpc_ns rpc)
      |> WithOwnerReferences [ownerRef]
      |> WithLabels labels)%go
    (mkWorkloadSpec (Some (default 1 (rpc_Replicas (ReverseProxyCluster_Spec rpc))))
       labels labels (proxy_pod ManagementURL rpc)))).

Definition proxy_service_meta (rpc : ReverseProxyCluster) (ownerRef : OwnerReference) : ACMeta :=
  let spec := ReverseProxyCluster_Spec rpc in
  let names := groupNames (rpc_Groups spec) in
  let m := (ObjectAC (proxyResourceName rpc) (rpc_ns rpc) |> WithOwnerReferences [ownerRef])%go in
  let m := if bool_decide (rpc_ServiceAnnotations spec = ∅) then m
           else WithAnnotations (rpc_ServiceAnnotations spec) m in
  if String.eqb names "" then m else WithAnnotations {[ groupsAnnotation := names ]} m.

Definition applyService (rpc : ReverseProxyCluster) (ownerRef : OwnerReference) : M (option error) :=
  ask (KApply (ApplyService (proxy_service_meta rpc ownerRef)
    (mkServiceSpecAC ServiceTypeLoadBalancer "PreferDualStack" (proxySelectorLabels rpc)
       [("http"%string, 80, proxyListenPort); ("https"%string, 443, proxyListenPort)]))).

(** The first address of each family. *)
Fixpoint first_per_family (seen : list IPFamily) (l : list familyAddress) : list familyAddress :=
  match l with
  | [] => []
  | fa :: l' =>
      if bool_decide (fa_family fa ∈ seen) then first_per_family seen l'
      else fa :: first_per_family (fa_family fa :: seen) l'
  end.

(** [[]] while no address is assigned. *)
Definition serviceAddresses (rpc : ReverseProxyCluster) : M (list familyAddress) :=
  let! got := ask (KGet KService (rpc_ns rpc) (proxyResourceName rpc)) in
  Ret (match got with
       | Err _ => []
       | Ok svc => first_per_family [] (lbIngressAddresses svc)
       end).

(** ** DNS *)

Definition ensureZone (rpc : ReverseProxyCluster) (ownerRef : OwnerReference) :
    M (result error CrossNamespaceReference) :=
  let spec := ReverseProxyCluster_Spec rpc in
  match rpc_ZoneRef spec with
  | Some ref => Ret (Ok ref)
  | None =>
      do? ask (KApply (ApplyDNSZone
        (ObjectAC (proxyResourceName rpc) (rpc_ns rpc) |> WithOwnerReferences [ownerRef])%go
        (ACDNSZoneSpec.new
          |> ACDNSZoneSpec.WithName (rpc_Domain spec)
          |> ACDNSZoneSpec.WithDomain (rpc_Domain spec)
          |> ACDNSZoneSpec.WithEnabled true
          |> ACDNSZoneSpec.WithDistributionGroups (groupRefACs (rpc_Groups spec)))%go)) in
      Ret (Ok (mkRef (proxyResourceName rpc) (rpc_ns rpc)))
  end.

Definition zone_ref_ac (zoneRef : CrossNamespaceReference) : ACCrossNamespaceReference.t :=
  (ACCrossNamespaceReference.new
    |> ACCrossNamespaceReference.WithName (ref_Name zoneRef)
    |> ACCrossNamespaceReference.WithNamespace (ref_Namespace zoneRef))%go.

Definition record_ac (rpc : ReverseProxyCluster) (ownerRef : OwnerReference)
    (zoneRef : CrossNamespaceReference) (object name type_ content : string) : applyconf :=
  ApplyDNSRecord (ObjectAC object (rpc_ns rpc) |> WithOwnerReferences [ownerRef])%go
    (ACDNSRecordSpec.new
      |> ACDNSRecordSpec.WithZoneRef (zone_ref_ac zoneRef)
      |> ACDNSRecordSpec.WithName name
      |> ACDNSRecordSpec.WithType type_
      |> ACDNSRecordSpec.WithContent content
      |> ACDNSRecordSpec.WithTTL (dnsRecordTTL / Second))%go.

Definition address_record (rpc : ReverseProxyCluster) (ownerRef : OwnerReference)
    (zoneRef : CrossNamespaceReference) (recordType address : string) : applyconf :=
  record_ac rpc ownerRef zoneRef (proxyAddressRecordName rpc recordType)
    (rpc_ClusterAddress (ReverseProxyCluster_Spec rpc)) recordType address.

Definition catch_all_record (rpc : ReverseProxyCluster) (ownerRef : OwnerReference)
    (zoneRef : CrossNamespaceReference) : applyconf :=
  record_ac rpc ownerRef zoneRef (proxyResourceName rpc +:+ "-catchall")
    ("*." +:+ rpc_Domain (ReverseProxyCluster_Spec rpc)) "CNAME"
    (rpc_ClusterAddress (ReverseProxyCluster_Spec rpc)).

(** The loop over the addresses; the result is the list of published types. *)
Fixpoint publish_addresses (rpc : ReverseProxyCluster) (ownerRef : OwnerReference)
    (zoneRef : CrossNamespaceReference) (addrs : list familyAddress) (published : list string) :
    M (result error (list string)) :=
  match addrs with
  | [] => Ret (Ok published)
  | fa :: rest =>
      let '(recordType, ok) := dnsRecordTypeFor (fa_address fa) in
      if negb ok || bool_decide (recordType ∈ published) then
        publish_addresses rpc ownerRef zoneRef rest published
      else
        do? ask (KApply (address_record rpc ownerRef zoneRef recordType (fa_address fa))) in
        publish_addresses rpc ownerRef zoneRef rest (recordType :: published)
  end.

(** The loop over the record types that lost their address. *)
Fixpoint unpublish (rpc : ReverseProxyCluster) (types published : list string) : M (option error) :=
  match types with
  | [] => Ret None
  | ty :: rest =>
      if bool_decide (ty ∈ published) then unpublish rpc rest published
      else
        let! err := ask (KDelete KDNSRecord (rpc_ns rpc) (proxyAddressRecordName rpc ty)) in
        match err with
        | None => unpublish rpc rest published
        | Some e => if kerrors_IsNotFound e then unpublish rpc rest published else Ret (Some e)
        end
  end.

Definition applyRecords (rpc : ReverseProxyCluster) (ownerRef : OwnerReference)
    (zoneRef : CrossNamespaceReference) (addrs : list familyAddress) : M (option error) :=
  let! res := publish_addresses rpc ownerRef zoneRef addrs [] in
  match res with
  | Err e => Ret (Some e)
  | Ok published =>
      let! err := unpublish rpc [DNSRecordTypeA; DNSRecordTypeAAAA] published in
      match err with
      | Some e => Ret (Some e)
      | None => ask (KApply (catch_all_record rpc ownerRef zoneRef))
      end
  end.

(** ** Registrations in the account *)

Definition anotherClusterMatches (rpc : ReverseProxyCluster) (match_ : ReverseProxyCluster -> bool) :
    M (result error bool) :=
  let? items := ask (KList KReverseProxyCluster None None) in
  Ret (Ok (anotherLiveMatches ReverseProxyCluster_Meta (ReverseProxyCluster_Meta rpc) items match_)).

(** [other] declares the cluster address or has registered it. *)
Definition uses_cluster (address : string) (other : ReverseProxyCluster) : bool :=
  String.eqb (rpc_ClusterAddress (ReverseProxyCluster_Spec other)) address ||
  String.eqb (rpc_StatusClusterAddress (ReverseProxyCluster_Status other)) address.

(** [other] declares the domain or has recorded the registration. *)
Definition uses_domain (domain id : string) (other : ReverseProxyCluster) : bool :=
  String.eqb (rpc_Domain (ReverseProxyCluster_Spec other)) domain ||
  String.eqb (rpc_DomainID (ReverseProxyCluster_Status other)) id.

Definition create_domain (rpc : ReverseProxyCluster) : M (result error string) :=
  let spec := ReverseProxyCluster_Spec rpc in
  let? resp := ask (NBCreate CDomains
    (api.mkReverseProxyDomainRequest (rpc_Domain spec) (rpc_ClusterAddress spec))) in
  Ret (Ok (api.dm_Id resp)).

Definition ensureDomain (rpc : ReverseProxyCluster) : M (result error string) :=
  let spec := ReverseProxyCluster_Spec rpc in
  let? domains := ask (NBList CDomains) in
  match find_first (fun d => String.eqb (api.dm_Domain d) (rpc_Domain spec)) domains with
  | None => create_domain rpc
  | Some d =>
      let target := default ""%string (api.dm_TargetCluster d) in
      if String.eqb target "" || String.eqb target (rpc_ClusterAddress spec) then
        Ret (Ok (api.dm_Id d))
      else
        let? owned := anotherClusterMatches rpc (uses_cluster target) in
        if owned : bool then
          Ret (Err (dependency_not_ready ("custom domain " +:+ rpc_Domain spec
            +:+ " already targets cluster " +:+ target +:+ " owned by another ReverseProxyCluster")))
        else
          let! found := GetProxyClusterByAddress target in
          match found with
          | Ok _ =>
              Ret (Err (dependency_not_ready ("custom domain " +:+ rpc_Domain spec
                +:+ " targets existing cluster " +:+ target +:+ " not managed by this operator")))
          | Err e =>
              if negb (errors_Is e ErrProxyClusterNotFound) then Ret (Err e)
              else
                do? delete_tolerant CDomains (api.dm_Id d) in
                create_domain rpc
          end
  end.

(** ** The reconciler *)

Definition notReady (rpc : ReverseProxyCluster) (msg : string) : M outcome :=
  do^ patch (k := KReverseProxyCluster) (mark_not_ready (k := KReverseProxyCluster) rpc msg) in
  Ret (requeue_after dependencyRetry, None).

(** Step 1: the enrollment token, once. *)
Definition mintToken (rpc : ReverseProxyCluster) (ownerRef : OwnerReference) :
    M (result error ReverseProxyCluster) :=
  if negb (String.eqb (rpc_TokenID (ReverseProxyCluster_Status rpc)) "") then Ret (Ok rpc)
  else
    let? resp := ask (NBCreate CTokens
      (api.mkProxyTokenRequest ("k8s-" +:+ rpc_ns rpc +:+ "-" +:+ rpc_name rpc))) in
    do? ask (KApply (ApplySecret
      (ObjectAC (proxyResourceName rpc) (rpc_ns rpc) |> WithOwnerReferences [ownerRef])%go
      {[ proxyTokenKey := api.pt_PlainToken resp ]})) in
    let rpc := set_TokenID rpc (api.pt_Id resp) in
    do? patch (k := KReverseProxyCluster) rpc in
    Ret (Ok rpc).

(** Step 6: the custom domain, recorded and validated. *)
Definition registerDomain (rpc : ReverseProxyCluster) : M outcome :=
  let! found := ensureDomain rpc in
  match found with
  | Err e =>
      if errors_Is e ErrDependencyNotReady then notReady rpc (Error e) else Ret (fail_with e)
  | Ok domainID =>
      let stale := negb (String.eqb (rpc_DomainID (ReverseProxyCluster_Status rpc)) domainID) in
      let rpc := if stale then set_DomainID rpc domainID else rpc in
      do^ if stale then patch (k := KReverseProxyCluster) rpc else Ret None in
      let! err := ask (NBValidateDomain (rpc_DomainID (ReverseProxyCluster_Status rpc))) in
      match err with
      | Some e =>
          notReady rpc ("validating custom domain " +:+ rpc_Domain (ReverseProxyCluster_Spec rpc)
                        +:+ ": " +:+ Error e)
      | None =>
          do^ patch_observed (k := KReverseProxyCluster) (mark_ready (k := KReverseProxyCluster) rpc) in
          Ret (requeue_after resyncInterval, None)
      end
  end.

(** Step 5: the enrolled cluster. *)
Definition enroll (rpc : ReverseProxyCluster) : M outcome :=
  let address := rpc_ClusterAddress (ReverseProxyCluster_Spec rpc) in
  let! found := GetProxyClusterByAddress address in
  match found with
  | Err e =>
      if errors_Is e ErrProxyClusterNotFound then
        notReady (set_connectivity rpc false 0) ("waiting for the proxy to enroll at " +:+ address)
      else Ret (fail_with e)
  | Ok cluster =>
      registerDomain (set_connectivity (set_ClusterAddress rpc address)
                        (api.pc_Online cluster) (api.pc_ConnectedProxies cluster))
  end.

(** Steps 2 to 4: zone, workload, Service and records; then the enrollment. *)
Definition deploy (rpc : ReverseProxyCluster) (ownerRef : OwnerReference) : M outcome :=
  let^ zoneRef := ensureZone rpc ownerRef in
  do^ applyDeployment rpc ownerRef in
  do^ applyService rpc ownerRef in
  let! addrs := serviceAddresses rpc in
  match addrs with
  | [] => notReady (set_connectivity rpc false 0) "waiting for the proxy LoadBalancer IP"
  | fa :: _ =>
      let rpc := set_LoadBalancerIP rpc (fa_address fa) in
      do^ applyRecords rpc ownerRef zoneRef addrs in
      enroll rpc
  end.

(** The domain registration of a deleted cluster, unless it is shared. *)
Definition releaseDomain (rpc : ReverseProxyCluster) : M (option error) :=
  let id := rpc_DomainID (ReverseProxyCluster_Status rpc) in
  if String.eqb id "" then Ret None
  else
    let! domains := ask (NBList CDomains) in
    match domains with
    | Err e => Ret (Some e)
    | Ok domains =>
        match find_first (fun d => String.eqb (api.dm_Id d) id) domains with
        | None => Ret None
        | Some d =>
            let! shared := anotherClusterMatches rpc (uses_domain (api.dm_Domain d) id) in
            match shared with
            | Err e => Ret (Some e)
            | Ok true => Ret None
            | Ok false => delete_tolerant CDomains id
            end
        end
    end.

(** The cluster registration of a deleted cluster, unless it is shared. *)
Definition releaseCluster (rpc : ReverseProxyCluster) : M (option error) :=
  let address := rpc_StatusClusterAddress (ReverseProxyCluster_Status rpc) in
  if String.eqb address "" then Ret None
  else
    let! shared := anotherClusterMatches rpc (uses_cluster address) in
    match shared with
    | Err e => Ret (Some e)
    | Ok true => Ret None
    | Ok false => delete_tolerant CClusters address
    end.

Definition reconcileDelete (rpc : ReverseProxyCluster) : M outcome :=
  let token := rpc_TokenID (ReverseProxyCluster_Status rpc) in
  do^ if String.eqb token "" then Ret None else delete_tolerant CTokens token in
  do^ releaseDomain rpc in
  do^ releaseCluster rpc in
  do^ patch (k := KReverseProxyCluster)
        (remove_finalizer (k := KReverseProxyCluster) rpc (Finalizer "reverseproxycluster")) in
  Ret (no_requeue, None).

Definition Reconcile (ns name : string) : M outcome :=
  let! got := ask (KGet KReverseProxyCluster ns name) in
  match got with
  | Err e => Ret (no_requeue, IgnoreNotFound e)
  | Ok rpc =>
      if deleting (ReverseProxyCluster_Meta rpc) then reconcileDelete rpc
      else
        let rpc := add_finalizer (k := KReverseProxyCluster) rpc (Finalizer "reverseproxycluster") in
        do^ patch (k := KReverseProxyCluster) rpc in
        match ControllerReference KReverseProxyCluster (ReverseProxyCluster_Meta rpc) with
        | Err e => Ret (fail_with e)
        | Ok ownerRef =>
            let^ rpc := mintToken rpc ownerRef in
            deploy rpc ownerRef
        end
  end.
End cluster.

Arguments anotherClusterMatches : simpl never.
Arguments create_domain : simpl never.
Arguments ensureDomain : simpl never.
Arguments releaseDomain : simpl never.
Arguments releaseCluster : simpl never.
Arguments applyRecords : simpl never.

(** ** What the operations guarantee *)

(** A list read in the trace in which a live other cluster satisfies [f]. *)
Definition shared_by_other (self : ReverseProxyCluster) (f : ReverseProxyCluster -> bool)
    (t : history) : Prop :=
  exists items other, Entry (KList KReverseProxyCluster None None) (Ok items) ∈ t /\
    other ∈ items /\ meta_UID (ReverseProxyCluster_Meta other) <> meta_UID (ReverseProxyCluster_Meta self) /\
    deleting (ReverseProxyCluster_Meta other) = false /\ f other = true.

(** A list read in the trace in which no live other cluster satisfies [f]. *)
Definition unshared (self : ReverseProxyCluster) (f : ReverseProxyCluster -> bool)
    (t : history) : Prop :=
  exists items, Entry (KList KReverseProxyCluster None None) (Ok items) ∈ t /\
    forall other, other ∈ items ->
      meta_UID (ReverseProxyCluster_Meta other) <> meta_UID (ReverseProxyCluster_Meta self) ->
      deleting (ReverseProxyCluster_Meta other) = false -> f other = false.

Section mono.
Context `{ErrorClass}.

Lemma shared_mono self f t t' :
  (forall e, e ∈ t -> e ∈ t') -> shared_by_other self f t -> shared_by_other self f t'.
Proof. intros Ht (items & other & ? & ?). exists items, other. auto. Qed.

Lemma unshared_mono self f t t' :
  (forall e, e ∈ t -> e ∈ t') -> unshared self f t -> unshared self f t'.
Proof. intros Ht (items & ? & ?). exists items. auto. Qed.

Lemma anotherClusterMatches_spec self f :
  wp (anotherClusterMatches self f) (fun t r =>
    (exists x, t = [Entry (KList KReverseProxyCluster None None) x]) /\
    match r with
    | Ok true => shared_by_other self f t
    | Ok false => unshared self f t
    | Err _ => True
    end).
Proof.
  unfold anotherClusterMatches. cbn. intros [items|e]; cbn; (split; [eauto|]); [|done].
  destruct (anotherLiveMatches _ _ _ _) eqn:E.
  - apply anotherLiveMatches_spec in E as (other & ? & ? & ? & ?). exists items, other.
    split; [left|done].
  - rewrite anotherLiveMatches_false in E. exists items. split; [left|done].
Qed.
End mono.

Section domain_props.
Context `{ErrorClass} `{K8sLib}.

(** No cluster of the account has this address, by a list read in the trace. *)
Definition no_cluster_at (address : string) (t : history) : Prop :=
  exists cs, Entry (NBList CClusters) (Ok cs) ∈ t /\
    forall c, c ∈ cs -> api.pc_Address c <> address.

Definition domain_request (rpc : ReverseProxyCluster) : api.ReverseProxyDomainRequest :=
  api.mkReverseProxyDomainRequest (rpc_Domain (ReverseProxyCluster_Spec rpc))
    (rpc_ClusterAddress (ReverseProxyCluster_Spec rpc)).

(** The registration of our domain, in the first list of the trace. *)
Definition registered (rpc : ReverseProxyCluster) (d : api.ReverseProxyDomain) (t : history) : Prop :=
  exists ds, Entry (NBList CDomains) (Ok ds) ∈ t /\ d ∈ ds /\
    api.dm_Domain d = rpc_Domain (ReverseProxyCluster_Spec rpc).
Definition unregistered (rpc : ReverseProxyCluster) (t : history) : Prop :=
  exists ds, Entry (NBList CDomains) (Ok ds) ∈ t /\
    forall d, d ∈ ds -> api.dm_Domain d <> rpc_Domain (ReverseProxyCluster_Spec rpc).

(** It points at a cluster that is neither ours nor anybody else's. *)
Definition dead_target (rpc : ReverseProxyCluster) (d : api.ReverseProxyDomain) (t : history) : Prop :=
  exists target, api.dm_TargetCluster d = Some target /\ target <> "" /\
    target <> rpc_ClusterAddress (ReverseProxyCluster_Spec rpc) /\
    unshared rpc (uses_cluster target) t /\ (foreign_errors t -> no_cluster_at target t).

(** The write is a repair or a registration. *)
Definition domain_write_ok (rpc : ReverseProxyCluster) (t : history) (e : event) : Prop :=
  (exists d x, e = Entry (NBDelete CDomains (api.dm_Id d)) x /\ registered rpc d t /\ dead_target rpc d t) \/
  (exists x, e = Entry (NBCreate CDomains (domain_request rpc)) x /\
    (unregistered rpc t \/
      exists d, registered rpc d t /\ dead_target rpc d t /\ nb_deleted CDomains (api.dm_Id d) t)).

Definition domain_ours (rpc : ReverseProxyCluster) (id : string) (t : history) : Prop :=
  (exists d, registered rpc d t /\ api.dm_Id d = id /\
    (default ""%string (api.dm_TargetCluster d) = "" \/
      api.dm_TargetCluster d = Some (rpc_ClusterAddress (ReverseProxyCluster_Spec rpc)))) \/
  (exists resp, Entry (NBCreate CDomains (domain_request rpc)) (Ok resp) ∈ t /\ api.dm_Id resp = id).

Lemma create_domain_spec rpc :
  wp (create_domain rpc) (fun t r => exists x,
    t = [Entry (NBCreate CDomains (domain_request rpc)) x] /\
    match r with Ok id => exists resp, x = Ok resp /\ api.dm_Id resp = id | Err _ => True end).
Proof. unfold create_domain. cbn. intros [resp|e]; cbn; eauto. Qed.

(** Reads add no write. *)
Lemma domain_write_mono rpc t t' e :
  (forall x, x ∈ t -> x ∈ t') -> domain_write_ok rpc t e -> domain_write_ok rpc t' e.
Proof.
  intros Ht. assert (forall d, registered rpc d t -> registered rpc d t') as Hr.
  { intros d (ds & ? & ?). exists ds. auto. }
  assert (forall d, dead_target rpc d t -> dead_target rpc d t') as Hd.
  { intros d (target & ? & ? & ? & Hu & Hn). exists target. do 3 (split; [done|]). split.
    - by eapply unshared_mono.
    - intros Hf. destruct Hn as (cs & ? & ?); [|exists cs; auto].
      intros e' err s' He. by apply Hf, Ht. }
  intros [(d & x & ? & ? & ?)|(x & ? & Hc)]; [left; exists d, x; auto|].
  right. exists x. split; [done|]. destruct Hc as [(ds & ? & ?)|(d & ? & ? & (r & ? & ?))].
  - left. exists ds. auto.
  - right. exists d. do 2 (split; [auto|]). exists r. auto.
Qed.

Lemma domain_write_app rpc t t' e : domain_write_ok rpc t e -> domain_write_ok rpc (t ++ t') e.
Proof. apply domain_write_mono. set_solver. Qed.

(** The tail of [ensureDomain] for a registration with a dead target. *)
Lemma replace_domain_spec rpc d t0 :
  registered rpc d t0 -> dead_target rpc d t0 ->
  (forall e, e ∈ t0 -> ~ nb_write e) ->
  wp (do? delete_tolerant CDomains (api.dm_Id d) in create_domain rpc) (fun t r =>
    (forall e, e ∈ t0 ++ t -> nb_write e -> domain_write_ok rpc (t0 ++ t) e) /\
    match r with Ok id => domain_ours rpc id (t0 ++ t) | Err _ => True end).
Proof.
  intros Hreg Hdead Hno. apply wp_then_result. eapply wp_mono; [apply delete_tolerant_spec|].
  intros td rd (x & -> & Hdel). set (e1 := Entry (NBDelete CDomains (api.dm_Id d)) x).
  assert (domain_write_ok rpc (t0 ++ [e1]) e1) as H1.
  { apply domain_write_app. left. exists d, x. auto. }
  destruct rd as [e|].
  { split; [|done]. intros e' [He| ->%list_elem_of_singleton]%elem_of_app Hw; [|done].
    by destruct (Hno _ He). }
  eapply wp_mono; [apply create_domain_spec|]. intros tc r (y & -> & Hr).
  set (e2 := Entry _ y). assert (domain_write_ok rpc (t0 ++ [e1] ++ [e2]) e2) as H2.
  { right. exists y. split; [done|]. right. exists d.
    destruct Hreg as (ds & ? & ?), (Hdel eq_refl) as (x' & ? & ?).
    split; [exists ds; set_solver|]. split; [|exists x'; set_solver].
    destruct Hdead as (target & ? & ? & ? & Hu & Hn). exists target. do 3 (split; [done|]). split.
    - eapply unshared_mono; [|exact Hu]. set_solver.
    - intros Hf. destruct Hn as (cs & ? & ?); [|exists cs; set_solver].
      intros e' err s' He. apply Hf. set_solver. }
  split.
  - intros e [He|[->|He]%elem_of_cons]%elem_of_app Hw; [by destruct (Hno _ He)| |].
    + rewrite app_assoc. by apply domain_write_app.
    + apply list_elem_of_singleton in He as ->. exact H2.
  - destruct r as [id|]; [|done]. destruct Hr as (resp & -> & Hid). right. exists resp.
    split; [set_solver|done].
Qed.

(** A lookup that found nothing, on a trace. *)
Lemma not_found_no_cluster target e (t t' : history) :
  errors_Is e ErrProxyClusterNotFound = true -> (forall x, x ∈ t -> x ∈ t') ->
  (exists cs, Entry (NBList CClusters) (Ok cs) ∈ t /\ e = cluster_not_found target /\
     forall c, c ∈ cs -> api.pc_Address c <> target) \/ Entry (NBList CClusters) (Err e) ∈ t ->
  foreign_errors t' -> no_cluster_at target t'.
Proof.
  intros He Ht [(cs & Hin & _ & Hc)|Hin] Hf; [exists cs; auto|].
  exfalso. apply Ht in Hin. enough (errors_Is e ErrProxyClusterNotFound = false) by congruence.
  by eapply Hf.
Qed.

(** The custom domain of a cluster. A registration that names our domain and
    points nowhere or at our cluster is adopted; a registration is deleted only
    when it names our domain, its target is not ours, no other live
    ReverseProxyCluster uses that target and no cluster of the account has that
    address; one is created only when a list read in this run has none for our
    domain, or after deleting such a dead one; and the id returned is that of
    the adopted or created registration. *)
Lemma ensureDomain_spec rpc :
  wp (ensureDomain rpc) (fun t r =>
    (forall e, e ∈ t -> nb_write e -> domain_write_ok rpc t e) /\
    match r with Ok id => domain_ours rpc id t | Err _ => True end).
Proof.
  unfold ensureDomain. cbn. intros [ds|e]; [|cbn; split; [trace_cases; done|done]].
  set (e0 := Entry (NBList CDomains) (Ok ds)).
  destruct (find_first _ ds) as [d|] eqn:Hd; find_prop; bool_prop.
  2: { eapply wp_mono; [apply create_domain_spec|]. intros t r (x & -> & Hr).
       assert (unregistered rpc [e0; Entry (NBCreate CDomains (domain_request rpc)) x]) as Hu.
       { exists ds. split; [left|]. intros d Hin. by apply String.eqb_neq, Hd. }
       split.
       - intros e [->|[->|?%not_elem_of_nil]%elem_of_cons]%elem_of_cons Hw; [done| |done].
         right. exists x. auto.
       - destruct r as [id|]; [|done]. destruct Hr as (resp & -> & Hid).
         right. exists resp. split; [right; left|done]. }
  assert (forall t, registered rpc d (e0 :: t)) as Hreg by (intros t; exists ds; split; [left|auto]).
  destruct (_ || _) eqn:Htarget; bool_prop.
  1,2: cbn; split; [trace_cases; done|]; left; exists d; split; [apply Hreg|split; [done|]].
  1: by left.
  { destruct (api.dm_TargetCluster d) as [target|]; cbn in Htarget; subst; [by right|by left]. }
  apply wp_bind_result. eapply wp_mono; [apply anotherClusterMatches_spec|].
  intros ta owned ((x & ->) & Hown).
  set (ea := Entry (KList KReverseProxyCluster None None) x).
  assert ((forall e, e ∈ [e0; ea] -> nb_write e -> domain_write_ok rpc [e0; ea] e) /\ True) as Hstop
    by (split; [trace_cases; done|done]).
  destruct owned as [[]|e]; [exact Hstop| |exact Hstop].
  apply wp_bind. eapply wp_mono;
    [apply wp_and; [apply reads_no_writes, GetProxyClusterByAddress_reads
                   |apply GetProxyClusterByAddress_spec]|].
  intros tg found [Hnw Hfound].
  assert (forall e, e ∈ e0 :: ea :: tg -> ~ nb_write e) as Hno.
  { intros e [->|[->|?]%elem_of_cons]%elem_of_cons; [done..|auto]. }
  destruct found as [c|e]; cbn [wp].
  { rewrite app_nil_r. split; [|done]. intros e He Hw. by destruct (Hno _ He). }
  destruct (negb _) eqn:Hnf; bool_prop; cbn [wp].
  { rewrite app_nil_r. split; [|done]. intros e' He Hw. by destruct (Hno _ He). }
  eapply wp_mono; [apply (replace_domain_spec rpc d (e0 :: ea :: tg))|]; [apply Hreg| |done|].
  2: { intros t r Hr. exact Hr. }
  destruct (api.dm_TargetCluster d) as [target|] eqn:Ht; cbn in *; [|congruence].
  exists target. split; [done|]. split; [done|]. split; [done|]. split.
  - eapply unshared_mono; [|exact Hown]. set_solver.
  - eapply not_found_no_cluster; [done| |exact Hfound]. set_solver.
Qed.
End domain_props.

(** ** Addresses and records *)

(** One address of each family, as classified. *)
Definition addresses_ok (addrs : list familyAddress) : Prop :=
  NoDup (map fa_family addrs) /\
  forall fa, fa ∈ addrs -> is_Some (net.ParseIP (fa_address fa)) /\ fa_family fa = ipFamilyOf (fa_address fa).

Lemma first_per_family_sub seen l fa :
  fa ∈ first_per_family seen l -> fa ∈ l /\ fa_family fa ∉ seen.
Proof.
  revert seen. induction l as [|x l IH]; intros seen; cbn; [by intros ?%not_elem_of_nil|].
  case_bool_decide as Hx.
  - intros H. destruct (IH _ H). split; [by right|done].
  - intros [->|H]%elem_of_cons; [split; [left|done]|]. destruct (IH _ H). set_solver.
Qed.

Lemma first_per_family_complete seen l fa :
  fa ∈ l -> fa_family fa ∈ seen \/
  exists fa', fa' ∈ first_per_family seen l /\ fa_family fa' = fa_family fa.
Proof.
  revert seen. induction l as [|x l IH]; intros seen; [by intros ?%not_elem_of_nil|]. cbn.
  case_bool_decide as Hx; intros [->|H]%elem_of_cons; [by left|by apply IH| |].
  - right. exists x. split; [left|done].
  - destruct (decide (fa_family fa = fa_family x)) as [E|E].
    + right. exists x. split; [left|done].
    + destruct (IH (fa_family x :: seen) H) as [[?|?]%elem_of_cons|(fa' & ? & ?)];
        [done|by left|right; exists fa'; split; [by right|done]].
Qed.

Lemma first_per_family_NoDup seen l : NoDup (map fa_family (first_per_family seen l)).
Proof.
  revert seen. induction l as [|x l IH]; intros seen; cbn; [constructor|].
  case_bool_decide; [done|]. cbn. constructor; [|done].
  intros (fa & Hfa & Hin)%list_elem_of_fmap. apply first_per_family_sub in Hin as [_ Hn].
  apply Hn. rewrite <- Hfa. left.
Qed.

(** The first ingress address of each family of a Service. *)
Lemma first_per_family_ok svc : addresses_ok (first_per_family [] (lbIngressAddresses svc)).
Proof.
  split; [apply first_per_family_NoDup|]. intros fa Hfa.
  apply first_per_family_sub in Hfa as [Hfa _]. by apply lbIngressAddresses_spec in Hfa as [_ ?].
Qed.

Lemma record_type_family fa rt :
  fa_family fa = ipFamilyOf (fa_address fa) -> is_Some (net.ParseIP (fa_address fa)) ->
  dnsRecordTypeFor (fa_address fa) = (rt, true) <->
  (fa_family fa = IPv4Protocol /\ rt = DNSRecordTypeA \/ fa_family fa = IPv6Protocol /\ rt = DNSRecordTypeAAAA).
Proof.
  intros Hf [p Hp]. rewrite Hf. unfold dnsRecordTypeFor, ipFamilyOf. rewrite Hp.
  destruct (net.To4 p); cbn; split.
  - intros [= <-]. by left.
  - by intros [[_ ->]|[? _]].
  - intros [= <-]. by right.
  - by intros [[? _]|[_ ->]].
Qed.

Section record_props.
Context `{ErrorClass} `{K8sLib}.
Context (rpc : ReverseProxyCluster) (ownerRef : OwnerReference) (zoneRef : CrossNamespaceReference).

Abbreviation record_of fa rt := (address_record rpc ownerRef zoneRef rt (fa_address fa)).

(** The records that should be there are applied, the others are gone. *)
Definition records_published (addrs : list familyAddress) (t : history) : Prop :=
  (forall fa rt, fa ∈ addrs -> dnsRecordTypeFor (fa_address fa) = (rt, true) ->
     Entry (KApply (record_of fa rt)) None ∈ t) /\
  (forall rt, rt ∈ [DNSRecordTypeA; DNSRecordTypeAAAA] ->
     (forall fa, fa ∈ addrs -> dnsRecordTypeFor (fa_address fa) <> (rt, true)) ->
     exists x, Entry (KDelete KDNSRecord (rpc_ns rpc) (proxyAddressRecordName rpc rt)) x ∈ t /\
       match x with None => True | Some e => kerrors_IsNotFound e = true end) /\
  Entry (KApply (catch_all_record rpc ownerRef zoneRef)) None ∈ t.

(** The calls of [applyRecords]. *)
Definition record_call (c : call) : Prop :=
  match c with
  | KApply (ApplyDNSRecord _ _) => True
  | KDelete KDNSRecord _ _ => True
  | _ => False
  end.

Lemma publish_addresses_calls addrs published :
  calls_in record_call (publish_addresses rpc ownerRef zoneRef addrs published).
Proof.
  revert published. induction addrs as [|fa addrs IH]; intros published; cbn; [done|].
  destruct (dnsRecordTypeFor _) as [rt ok]. case_match; [apply IH|].
  cbn. split; [done|]. intros [e|]; [done|apply IH].
Qed.

Lemma unpublish_calls types published : calls_in record_call (unpublish rpc types published).
Proof.
  induction types as [|ty types IH]; cbn; [done|]. case_bool_decide; [done|].
  cbn. split; [done|]. intros [e|]; [|done]. by destruct (kerrors_IsNotFound e).
Qed.

Lemma applyRecords_calls addrs : calls_in record_call (applyRecords rpc ownerRef zoneRef addrs).
Proof.
  unfold applyRecords. apply calls_in_bind; [apply publish_addresses_calls|].
  intros [published|e]; [|done]. apply calls_in_bind; [apply unpublish_calls|]. by intros [e|].
Qed.

(** Addresses whose types are distinct from each other and from the published
    ones are all published. *)
Lemma publish_addresses_spec addrs published :
  NoDup (map (fun fa => (dnsRecordTypeFor (fa_address fa)).1) addrs) ->
  (forall fa, fa ∈ addrs -> (dnsRecordTypeFor (fa_address fa)).2 = true /\
     (dnsRecordTypeFor (fa_address fa)).1 ∉ published) ->
  wp (publish_addresses rpc ownerRef zoneRef addrs published) (fun t res =>
    match res with
    | Err _ => True
    | Ok done =>
        (forall rt, rt ∈ done <-> rt ∈ published \/
           exists fa, fa ∈ addrs /\ dnsRecordTypeFor (fa_address fa) = (rt, true)) /\
        forall fa rt, fa ∈ addrs -> dnsRecordTypeFor (fa_address fa) = (rt, true) ->
          Entry (KApply (record_of fa rt)) None ∈ t
    end).
Proof.
  revert published. induction addrs as [|fa addrs IH]; intros published Hn Hok; cbn.
  { split; [set_solver|]. by intros fa rt ?%not_elem_of_nil. }
  destruct (Hok fa) as [Hvalid Hnew]; [left|]. cbn in Hn. apply NoDup_cons in Hn as [Hfa Hn].
  destruct (dnsRecordTypeFor (fa_address fa)) as [rt ok] eqn:Hrt. cbn in *. subst ok.
  rewrite bool_decide_eq_false_2 by done. cbn. intros [e|]; [done|].
  eapply wp_mono; [apply IH; [done|]|].
  { intros fa' Hin. destruct (Hok fa') as [? ?]; [by right|]. split; [done|].
    rewrite not_elem_of_cons. split; [|done]. intros Heq. apply Hfa. rewrite <- Heq.
    apply list_elem_of_fmap. eauto. }
  intros t [d|e]; [|done]. intros [Hd Hall]. split.
  - intros rt'. rewrite Hd, elem_of_cons. split.
    + intros [[->|?]|(fa' & ? & ?)]; [right; exists fa; split; [left|done]|by left|].
      right. exists fa'. split; [by right|done].
    + intros [?|(fa' & [->|?]%elem_of_cons & Heq)]; [auto|rewrite Hrt in Heq; simplify_eq; auto|].
      right. eauto.
  - intros fa' rt' [->|Hin]%elem_of_cons Heq; [|right; eauto].
    rewrite Hrt in Heq. simplify_eq. left.
Qed.

Lemma unpublish_spec types published :
  wp (unpublish rpc types published) (fun t r => r = None ->
    forall rt, rt ∈ types -> rt ∉ published ->
      exists x, Entry (KDelete KDNSRecord (rpc_ns rpc) (proxyAddressRecordName rpc rt)) x ∈ t /\
        match x with None => True | Some e => kerrors_IsNotFound e = true end).
Proof.
  induction types as [|ty types IH]; cbn; [by intros _ rt ?%not_elem_of_nil|].
  case_bool_decide as Hp.
  { eapply wp_mono; [exact IH|]. intros t r Ht Hr rt [->|?]%elem_of_cons ?; [done|by apply Ht]. }
  cbn. intros x.
  assert (match x with None => True | Some e => kerrors_IsNotFound e = true end ->
    wp (unpublish rpc types published) (fun t r => r = None ->
      forall rt, rt ∈ ty :: types -> rt ∉ published -> exists y,
        Entry (KDelete KDNSRecord (rpc_ns rpc) (proxyAddressRecordName rpc rt)) y ∈
          Entry (KDelete KDNSRecord (rpc_ns rpc) (proxyAddressRecordName rpc ty)) x :: t /\
        match y with None => True | Some e => kerrors_IsNotFound e = true end)) as Hgo.
  { intros Hx. eapply wp_mono; [exact IH|]. intros t r Ht Hr rt [->|Hin]%elem_of_cons Hnp.
    - exists x. split; [left|done].
    - destruct (Ht Hr rt Hin Hnp) as (y & ? & ?). exists y. split; [by right|done]. }
  destruct x as [e|]; [destruct (kerrors_IsNotFound e) eqn:E; [by apply Hgo|done]|by apply Hgo].
Qed.

Lemma NoDup_fmap_family (f : familyAddress -> string) addrs :
  NoDup (map fa_family addrs) ->
  (forall fa fa', fa ∈ addrs -> fa' ∈ addrs -> f fa = f fa' -> fa_family fa = fa_family fa') ->
  NoDup (map f addrs).
Proof.
  induction addrs as [|fa addrs IH]; cbn; [constructor|].
  intros [Hfa Hn]%NoDup_cons Hinj. constructor.
  - intros (fa' & Heq & Hin)%list_elem_of_fmap. apply Hfa, list_elem_of_fmap.
    exists fa'. split; [|done]. apply Hinj; [left|by right|done].
  - apply IH; [done|]. intros x y ? ?. apply Hinj; by right.
Qed.

(** Publishing the addresses of the LoadBalancer - one of each family - ends
    without error only when there is one address record per family served, no
    record of a family not served, and the catch-all. *)
Lemma applyRecords_spec addrs :
  addresses_ok addrs ->
  wp (applyRecords rpc ownerRef zoneRef addrs) (fun t r =>
    r = None -> records_published addrs t).
Proof.
  intros [Hn Hfam]. unfold applyRecords. apply wp_bind.
  assert (forall fa rt, fa ∈ addrs -> dnsRecordTypeFor (fa_address fa) = (rt, true) <->
    (fa_family fa = IPv4Protocol /\ rt = DNSRecordTypeA \/
     fa_family fa = IPv6Protocol /\ rt = DNSRecordTypeAAAA)) as Hty.
  { intros fa rt Hin. destruct (Hfam fa Hin). by apply record_type_family. }
  assert (forall fa, fa ∈ addrs -> (dnsRecordTypeFor (fa_address fa)).2 = true) as Hvalid.
  { intros fa Hin. apply dnsRecordTypeFor_valid. by apply Hfam. }
  eapply wp_mono; [apply (publish_addresses_spec addrs [])|].
  - apply NoDup_fmap_family; [done|]. intros fa fa' Hin Hin' Heq.
    destruct (dnsRecordTypeFor (fa_address fa)) as [rt ok] eqn:E1,
      (dnsRecordTypeFor (fa_address fa')) as [rt' ok'] eqn:E2. cbn in Heq. subst rt'.
    pose proof (Hvalid fa Hin) as V. pose proof (Hvalid fa' Hin') as V'.
    rewrite E1 in V. rewrite E2 in V'. cbn in V, V'. subst.
    apply Hty in E1, E2; [|done..].
    destruct E1 as [[-> ->]|[-> ->]], E2 as [[-> ?]|[-> ?]]; done.
  - intros fa Hin. split; [auto|]. apply not_elem_of_nil.
  - intros ta [published|e]; [|done]. intros [Hpub Hall]. apply wp_bind.
    eapply wp_mono; [apply unpublish_spec|]. intros tu [e|] Hun; [done|]. cbn.
    intros x ->. split; [|split].
    + intros fa rt Hin Hrt. apply elem_of_app. left. auto.
    + intros rt Hrt Hno. destruct (Hun eq_refl rt Hrt) as (x & Hx & Hd).
      { rewrite Hpub. intros [?%not_elem_of_nil|(fa & ? & ?)]; [done|]. by eapply Hno. }
      exists x. split; [|done]. set_solver.
    + set_solver.
Qed.
End record_props.

(** ** Deletion *)
Section delete_props.
Context `{ErrorClass} `{K8sLib}.
Implicit Types (rpc : ReverseProxyCluster) (t : history).

(** The three registrations of a deleted cluster are released: gone, deleted
    now, or still used by another live cluster. *)
Definition token_released rpc t : Prop :=
  let id := rpc_TokenID (ReverseProxyCluster_Status rpc) in
  id = "" \/ nb_deleted CTokens id t.
Definition domain_released rpc t : Prop :=
  let id := rpc_DomainID (ReverseProxyCluster_Status rpc) in
  id = "" \/
  (exists ds, Entry (NBList CDomains) (Ok ds) ∈ t /\ forall d, d ∈ ds -> api.dm_Id d <> id) \/
  (exists ds d, Entry (NBList CDomains) (Ok ds) ∈ t /\ d ∈ ds /\ api.dm_Id d = id /\
     shared_by_other rpc (uses_domain (api.dm_Domain d) id) t) \/
  nb_deleted CDomains id t.
Definition cluster_released rpc t : Prop :=
  let address := rpc_StatusClusterAddress (ReverseProxyCluster_Status rpc) in
  address = "" \/ shared_by_other rpc (uses_cluster address) t \/ nb_deleted CClusters address t.

(** What a deletion may delete in NetBird. *)
Definition release_write_ok rpc t (e : event) : Prop :=
  let st := ReverseProxyCluster_Status rpc in
  (exists x, e = Entry (NBDelete CTokens (rpc_TokenID st)) x) \/
  (exists ds d x, e = Entry (NBDelete CDomains (rpc_DomainID st)) x /\
     Entry (NBList CDomains) (Ok ds) ∈ t /\ d ∈ ds /\ api.dm_Id d = rpc_DomainID st /\
     unshared rpc (uses_domain (api.dm_Domain d) (rpc_DomainID st)) t) \/
  (exists x, e = Entry (NBDelete CClusters (rpc_StatusClusterAddress st)) x /\
     unshared rpc (uses_cluster (rpc_StatusClusterAddress st)) t).

Lemma release_write_mono rpc t t' e :
  (forall x, x ∈ t -> x ∈ t') -> release_write_ok rpc t e -> release_write_ok rpc t' e.
Proof.
  intros Ht [?|[(ds & d & x & ? & ? & ? & ? & Hu)|(x & ? & Hu)]]; [by left|right; left|right; right].
  - exists ds, d, x. do 4 (split; [auto|]). by eapply unshared_mono.
  - exists x. split; [done|]. by eapply unshared_mono.
Qed.

Lemma domain_released_mono rpc t t' :
  (forall x, x ∈ t -> x ∈ t') -> domain_released rpc t -> domain_released rpc t'.
Proof.
  intros Ht [?|[(ds & ? & ?)|[(ds & d & ? & ? & ? & Hs)|Hd]]]; [by left|right..].
  - left. exists ds. auto.
  - right; left. exists ds, d. do 3 (split; [auto|]). by eapply shared_mono.
  - right; right. by eapply nb_deleted_mono.
Qed.

Lemma cluster_released_mono rpc t t' :
  (forall x, x ∈ t -> x ∈ t') -> cluster_released rpc t -> cluster_released rpc t'.
Proof.
  intros Ht [?|[Hs|Hd]]; [by left|right..]; [left; by eapply shared_mono|right; by eapply nb_deleted_mono].
Qed.

(** Both releases are of this form. *)
Definition releases rpc (released : ReverseProxyCluster -> history -> Prop) (p : M (option error)) : Prop :=
  wp p (fun t r =>
    (forall e, e ∈ t -> ~ patches KReverseProxyCluster e) /\
    (forall e, e ∈ t -> nb_write e -> release_write_ok rpc t e) /\
    (r = None -> released rpc t)).

Lemma releaseDomain_spec rpc : releases rpc domain_released (releaseDomain rpc).
Proof.
  unfold releases, releaseDomain, domain_released. set (id := rpc_DomainID _).
  destruct (String.eqb_spec id "") as [|Hid]; [cbn; split; [trace_cases; done|]; split;
    [trace_cases; done|by left]|].
  cbn. intros [ds|e]; cbn; [|split; [trace_cases; done|]; split; [trace_cases; done|done]].
  set (e0 := Entry (NBList CDomains) (Ok ds)).
  destruct (find_first _ ds) as [d|] eqn:Hd; find_prop; bool_prop.
  2: { cbn. split; [trace_cases; done|]. split; [trace_cases; done|]. intros _. right; left.
       exists ds. split; [left|]. intros d Hin. by apply String.eqb_neq, Hd. }
  apply wp_bind. eapply wp_mono; [apply anotherClusterMatches_spec|]. intros ta r ((x & ->) & Hr).
  destruct r as [[]|e]; cbn.
  - split; [trace_cases; done|]. split; [trace_cases; done|]. intros _. right; right; left.
    exists ds, d. split; [left|]. do 2 (split; [done|]). eapply shared_mono; [|exact Hr]. set_solver.
  - eapply wp_mono; [apply delete_tolerant_spec|]. intros td rd (y & -> & Hdel).
    split; [trace_cases; done|]. split.
    + trace_cases. right; left. exists ds, d, y. split; [done|].
      split; [left|]. do 2 (split; [done|]). eapply unshared_mono; [|exact Hr]. set_solver.
    + intros Hrd. right; right; right. eapply nb_deleted_mono; [|by apply Hdel]. set_solver.
  - split; [trace_cases; done|]. split; [trace_cases; done|done].
Qed.

Lemma releaseCluster_spec rpc : releases rpc cluster_released (releaseCluster rpc).
Proof.
  unfold releases, releaseCluster, cluster_released. set (address := rpc_StatusClusterAddress _).
  destruct (String.eqb_spec address "") as [|Hid]; [cbn; split; [trace_cases; done|]; split;
    [trace_cases; done|by left]|].
  apply wp_bind. eapply wp_mono; [apply anotherClusterMatches_spec|]. intros ta r ((x & ->) & Hr).
  destruct r as [[]|e]; cbn.
  - split; [trace_cases; done|]. split; [trace_cases; done|]. intros _. by right; left.
  - eapply wp_mono; [apply delete_tolerant_spec|]. intros td rd (y & -> & Hdel).
    split; [trace_cases; done|]. split.
    + trace_cases. right; right. exists y. split; [done|].
      eapply unshared_mono; [|exact Hr]. set_solver.
    + intros Hrd. right; right. eapply nb_deleted_mono; [|by apply Hdel]. set_solver.
  - split; [trace_cases; done|]. split; [trace_cases; done|done].
Qed.
End delete_props.

(** ** Readiness *)
Section ready_props.
Context `{ErrorClass} `{K8sLib}.
Context (ManagementURL : string).
Implicit Types (rpc o : ReverseProxyCluster) (t : history).

(** [o] is [rpc] up to the part of the status the enrollment updates. *)
Definition same_base o rpc : Prop :=
  ReverseProxyCluster_Meta o = ReverseProxyCluster_Meta rpc /\
  ReverseProxyCluster_Spec o = ReverseProxyCluster_Spec rpc /\
  rpc_TokenID (ReverseProxyCluster_Status o) = rpc_TokenID (ReverseProxyCluster_Status rpc) /\
  rpc_LoadBalancerIP (ReverseProxyCluster_Status o) = rpc_LoadBalancerIP (ReverseProxyCluster_Status rpc).

(** The domain recorded in the status is ours and validated. *)
Definition domain_validated o t : Prop :=
  let id := rpc_DomainID (ReverseProxyCluster_Status o) in
  domain_ours o id t /\ Entry (NBValidateDomain id) None ∈ t.

(** The connectivity of the status is that of the cluster found at our
    address. *)
Definition cluster_enrolled o t : Prop :=
  let address := rpc_ClusterAddress (ReverseProxyCluster_Spec o) in
  let st := ReverseProxyCluster_Status o in
  exists cluster tc, runs (GetProxyClusterByAddress address) tc (Ok cluster) /\ tc `sublist_of` t /\
    rpc_StatusClusterAddress st = address /\ rpc_Online st = api.pc_Online cluster /\
    rpc_ConnectedProxies st = api.pc_ConnectedProxies cluster.

Lemma domain_ours_mono rpc id t t' :
  (forall e, e ∈ t -> e ∈ t') -> domain_ours rpc id t -> domain_ours rpc id t'.
Proof.
  intros Ht [(d & (ds & ? & ?) & ?)|(resp & ? & ?)].
  - left. exists d. split; [exists ds; auto|done].
  - right. exists resp. auto.
Qed.

Lemma ensureDomain_not_patch rpc k : calls_in (not_patch k) (ensureDomain rpc).
Proof.
  unfold ensureDomain, anotherClusterMatches, delete_tolerant, create_domain.
  calls_run ltac:(first [apply calls_in_bind_result | apply GetProxyClusterByAddress_not_patch]).
Qed.

Lemma notReady_spec rpc msg :
  wp (notReady rpc msg) (fun t out => exists x,
    t = [Entry (KPatch KReverseProxyCluster (mark_not_ready (k := KReverseProxyCluster) rpc msg) false) x] /\
    (out.2 = None -> out.1 = requeue_after dependencyRetry /\ x = None)).
Proof. unfold notReady, patch. apply wp_then_outcome. cbn. by intros [e|]; eexists. Qed.

(** Patches after the domain is known. *)
Definition domain_patch_ok rpc (t : history) o (b : bool) : Prop :=
  same_base o rpc /\
  rpc_StatusClusterAddress (ReverseProxyCluster_Status o) =
    rpc_StatusClusterAddress (ReverseProxyCluster_Status rpc) /\
  rpc_Online (ReverseProxyCluster_Status o) = rpc_Online (ReverseProxyCluster_Status rpc) /\
  rpc_ConnectedProxies (ReverseProxyCluster_Status o) =
    rpc_ConnectedProxies (ReverseProxyCluster_Status rpc) /\
  (b = true -> (exists o', o = mark_ready (k := KReverseProxyCluster) o') /\ domain_validated o t).

Lemma domain_writes_app rpc t t' :
  (forall e, e ∈ t -> nb_write e -> domain_write_ok rpc t e) ->
  (forall e, e ∈ t' -> ~ nb_write e) ->
  forall e, e ∈ t ++ t' -> nb_write e -> domain_write_ok rpc (t ++ t') e.
Proof.
  intros Hok Hno e [He|He]%elem_of_app Hw; [by apply domain_write_app, Hok|].
  by destruct (Hno e He).
Qed.

Lemma registerDomain_spec rpc :
  wp (registerDomain rpc) (fun t _ =>
    (forall e, e ∈ t -> nb_write e -> domain_write_ok rpc t e) /\
    (forall o b x, Entry (KPatch KReverseProxyCluster o b) x ∈ t -> domain_patch_ok rpc t o b)).
Proof.
  unfold registerDomain. apply wp_bind. eapply wp_mono; [apply wp_and;
    [apply ensureDomain_spec|apply calls_no_patch, (ensureDomain_not_patch rpc KReverseProxyCluster)]|].
  intros td found [[Hw Hid] Hnp].
  assert (forall msg, wp (notReady rpc msg) (fun t _ =>
    (forall e, e ∈ td ++ t -> nb_write e -> domain_write_ok rpc (td ++ t) e) /\
    (forall o b x, Entry (KPatch KReverseProxyCluster o b) x ∈ td ++ t -> domain_patch_ok rpc (td ++ t) o b)))
    as Hwait.
  { intros msg. eapply wp_mono; [apply notReady_spec|]. intros t out (x & -> & _). split.
    - apply domain_writes_app; [done|]. intros e ->%list_elem_of_singleton. by intros ?.
    - patch_cases Hnp. split; done. }
  destruct found as [id|e]; cbn zeta.
  2: { destruct (errors_Is e _); [apply Hwait|]. cbn. rewrite app_nil_r. split; [done|].
       intros o b x Hin. exfalso. by apply (Hnp _ Hin). }
  assert (forall t', domain_ours rpc id (td ++ t')) as Hours.
  { intros t'. eapply domain_ours_mono; [|exact Hid]. set_solver. }
  destruct (String.eqb_spec (rpc_DomainID (ReverseProxyCluster_Status rpc)) id) as [<-|Hne];
    unfold notReady, patch, patch_observed; wp_run;
    (split; [apply domain_writes_app; [done|trace_cases; done]|patch_cases Hnp]).
  all: (split; [done|]; do 3 (split; [done|]); intros Hb; try done).
  all: split; [first [by exists rpc|by exists (set_DomainID rpc id)]|split; [apply Hours|in_trace]].
Qed.
(** Patches from the enrollment on. *)
Definition enroll_patch_ok rpc t o (b : bool) : Prop :=
  same_base o rpc /\
  (b = true -> (exists o', o = mark_ready (k := KReverseProxyCluster) o') /\
     domain_validated o t /\ cluster_enrolled o t).

Lemma enroll_spec rpc :
  wp (enroll rpc) (fun t _ =>
    (forall e, e ∈ t -> nb_write e -> domain_write_ok rpc t e) /\
    (forall o b x, Entry (KPatch KReverseProxyCluster o b) x ∈ t -> enroll_patch_ok rpc t o b)).
Proof.
  unfold enroll. set (address := rpc_ClusterAddress _). apply wp_bind.
  eapply wp_mono; [apply wp_and; [apply reads_no_writes, GetProxyClusterByAddress_reads
    |apply wp_and; [apply calls_no_patch, (GetProxyClusterByAddress_not_patch KReverseProxyCluster)
                   |by apply wp_all]]|].
  intros tg found [Hnw [Hnp Hrun]]. destruct found as [cluster|e].
  - set (rpc2 := set_connectivity _ _ _).
    eapply wp_mono; [apply (registerDomain_spec rpc2)|]. intros t _ [Hw Hp]. split.
    + intros e [He|He]%elem_of_app Hwr; [by destruct (Hnw e He)|].
      eapply (domain_write_mono rpc t); [set_solver|]. exact (Hw e He Hwr).
    + intros o b x [Hin|Hin]%elem_of_app; [exfalso; by apply (Hnp _ Hin)|].
      destruct (Hp o b x Hin) as ((Hm & Hs & Htok & Hip) & Ha & Hon & Hcp & Hready). split; [done|].
      intros Hb. destruct (Hready Hb) as [Hmark [Hours Hval]]. split; [done|]. split.
      * split; [eapply domain_ours_mono; [|exact Hours]; set_solver|set_solver].
      * exists cluster, tg. rewrite Hs, Ha, Hon, Hcp. split; [exact Hrun|].
        split; [by apply sublist_inserts_r|done].
  - destruct (errors_Is e _); cbn [wp].
    + eapply wp_mono; [apply notReady_spec|]. intros t out (x & -> & _). split.
      * intros e' [He| ->%list_elem_of_singleton]%elem_of_app; [by intros ?; destruct (Hnw e' He)|].
        by intros ?.
      * patch_cases Hnp. by split.
    + rewrite app_nil_r. split; [intros e' He Hwr; by destruct (Hnw e' He)|].
      intros o b x Hin. exfalso. by apply (Hnp _ Hin).
Qed.

(** ** The token *)
Definition token_request rpc : api.ProxyTokenRequest :=
  api.mkProxyTokenRequest ("k8s-" +:+ rpc_ns rpc +:+ "-" +:+ rpc_name rpc).

(** The token with this id was minted, and its plain text stored in the Secret
    the Deployment reads, before. *)
Definition token_stored rpc (id : string) t : Prop :=
  exists resp m, Entry (NBCreate CTokens (token_request rpc)) (Ok resp) ∈ t /\ api.pt_Id resp = id /\
    acm_Name m = proxyResourceName rpc /\ acm_Namespace m = rpc_ns rpc /\
    Entry (KApply (ApplySecret m {[ proxyTokenKey := api.pt_PlainToken resp ]})) None ∈ t.

Lemma token_stored_mono rpc id t t' :
  (forall e, e ∈ t -> e ∈ t') -> token_stored rpc id t -> token_stored rpc id t'.
Proof. intros Ht (resp & m & ? & ? & ? & ? & ?). exists resp, m. auto 6. Qed.

Definition is_patch_call (c : call) : Prop :=
  match c with KPatch KReverseProxyCluster _ _ => True | _ => False end.

Ltac mint_writes :=
  let e := fresh "e" in let He := fresh "He" in let Hw := fresh "Hw" in
  intros e He Hw; repeat apply elem_of_cons in He as [->|He];
  first [by apply not_elem_of_nil in He | discriminate Hw | split; [done|by eexists]].
Ltac mint_no_patch :=
  let Hin := fresh "Hin" in
  intros ? ? ? Hin; repeat apply elem_of_cons in Hin as [Hin|Hin];
  first [by apply not_elem_of_nil in Hin | discriminate Hin].

Lemma mintToken_spec rpc ownerRef :
  let id0 := rpc_TokenID (ReverseProxyCluster_Status rpc) in
  wp (mintToken rpc ownerRef) (fun t res =>
    (forall e, e ∈ t -> nb_write e -> id0 = "" /\ exists x, e = Entry (NBCreate CTokens (token_request rpc)) x) /\
    (forall o b x, Entry (KPatch KReverseProxyCluster o b) x ∈ t ->
       b = false /\ id0 = "" /\ exists id, o = set_TokenID rpc id /\ token_stored rpc id t) /\
    match res with
    | Err _ => True
    | Ok rpc' => (id0 <> "" /\ rpc' = rpc) \/
        (id0 = "" /\ exists id, rpc' = set_TokenID rpc id /\ token_stored rpc id t /\
           Entry (KPatch KReverseProxyCluster rpc' false) None ∈ t)
    end).
Proof.
  cbn zeta. unfold mintToken. set (id0 := rpc_TokenID _).
  destruct (String.eqb_spec id0 "") as [Hid|Hid]; cbn [negb].
  2: { cbn. split; [trace_cases; done|]. split; [by intros o b x ?%not_elem_of_nil|by left]. }
  assert (forall resp m, acm_Name m = proxyResourceName rpc -> acm_Namespace m = rpc_ns rpc ->
    forall t, Entry (NBCreate CTokens (token_request rpc)) (Ok resp) ∈ t ->
    Entry (KApply (ApplySecret m {[ proxyTokenKey := api.pt_PlainToken resp ]})) None ∈ t ->
    token_stored rpc (api.pt_Id resp) t) as Hstored by (intros resp m ? ? t ? ?; exists resp, m; auto 6).
  cbn. fold (token_request rpc). intros [tok|e]; cbn; [|split; [mint_writes|split; [mint_no_patch|done]]].
  set (e1 := Entry (resp := resp) (NBCreate CTokens (token_request rpc)) (Ok tok)).
  set (m := WithOwnerReferences _ _).
  intros [e|]; cbn; [split; [mint_writes|split; [mint_no_patch|done]]|].
  assert (forall t, token_stored rpc (api.pt_Id tok)
    (e1 :: Entry (KApply (ApplySecret m {[ proxyTokenKey := api.pt_PlainToken tok ]})) None :: t)) as Hst.
  { intros t. apply (Hstored tok m); [done|done|left|right; left]. }
  intros [e|]; cbn; (split; [mint_writes|split; [|try done]]).
  3: { right. split; [done|]. exists (api.pt_Id tok). split; [done|]. split; [apply Hst|in_trace]. }
  all: intros o b x [Hin|[Hin|[Hin|Hin%not_elem_of_nil]%elem_of_cons]%elem_of_cons]%elem_of_cons;
    [discriminate Hin|discriminate Hin|apply patch_inj in Hin as [-> ->]|done].
  all: split; [done|]; split; [done|]; exists (api.pt_Id tok); by split.
Qed.
(** ** The whole reconcile *)

(** Calls of the deployment steps. *)
Definition setup_call (c : call) : Prop :=
  match c with KGet _ _ _ | KApply _ | KDelete _ _ _ => True | _ => False end.

(** Neither a NetBird write nor a patch of the cluster. *)
Definition quiet t : Prop :=
  forall e, e ∈ t -> ~ nb_write e /\ ~ patches KReverseProxyCluster e.

Lemma quiet_app t t' : quiet t -> quiet t' -> quiet (t ++ t').
Proof. intros Ht Ht' e [?|?]%elem_of_app; auto. Qed.

Lemma setup_quiet {A} (p : M A) : calls_in setup_call p -> wp p (fun t _ => quiet t).
Proof.
  intros Hp. eapply wp_mono; [by apply calls_in_wp|]. intros t a Ht [c x] Hin.
  specialize (Ht c x Hin). destruct c; first [done|by split; intros ?].
Qed.

(** The addresses of the Service are published, the first one in the status. *)
Definition published o t : Prop :=
  exists svc ownerRef zoneRef fa rest,
    Entry (KGet KService (rpc_ns o) (proxyResourceName o)) (Ok svc) ∈ t /\
    first_per_family [] (lbIngressAddresses svc) = fa :: rest /\
    rpc_LoadBalancerIP (ReverseProxyCluster_Status o) = fa_address fa /\
    records_published o ownerRef zoneRef (fa :: rest) t.

(** Everything a Ready cluster stands on. *)
Definition ready_facts o t : Prop :=
  (exists o', o = mark_ready (k := KReverseProxyCluster) o') /\
  published o t /\ cluster_enrolled o t /\ domain_validated o t.

Definition deploy_patch_ok rpc t o (b : bool) : Prop :=
  ReverseProxyCluster_Meta o = ReverseProxyCluster_Meta rpc /\
  ReverseProxyCluster_Spec o = ReverseProxyCluster_Spec rpc /\
  rpc_TokenID (ReverseProxyCluster_Status o) = rpc_TokenID (ReverseProxyCluster_Status rpc) /\
  (b = true -> ready_facts o t).

Lemma serviceAddresses_spec rpc :
  wp (serviceAddresses rpc) (fun t addrs =>
    addrs = [] \/ exists svc, Entry (KGet KService (rpc_ns rpc) (proxyResourceName rpc)) (Ok svc) ∈ t /\
      addrs = first_per_family [] (lbIngressAddresses svc)).
Proof. unfold serviceAddresses. cbn. intros [svc|e]; [right|by left]. exists svc. split; [left|done]. Qed.

Lemma records_published_mono rpc ownerRef zoneRef addrs t t' :
  (forall e, e ∈ t -> e ∈ t') ->
  records_published rpc ownerRef zoneRef addrs t -> records_published rpc ownerRef zoneRef addrs t'.
Proof.
  intros Ht (Ha & Hd & Hc). split; [auto|]. split; [|auto].
  intros rt Hrt Hno. destruct (Hd rt Hrt Hno) as (x & ? & ?). exists x. auto.
Qed.

Lemma domain_validated_mono o t t' :
  (forall e, e ∈ t -> e ∈ t') -> domain_validated o t -> domain_validated o t'.
Proof. intros Ht [? ?]. split; [by eapply domain_ours_mono|auto]. Qed.

Lemma cluster_enrolled_app o t t' : cluster_enrolled o t -> cluster_enrolled o (t' ++ t).
Proof.
  intros (c & tc & Hr & Hs & ?). exists c, tc. split; [done|]. split; [|done].
  by apply sublist_inserts_l.
Qed.

Lemma ready_facts_app o t t' : ready_facts o t -> ready_facts o (t' ++ t).
Proof.
  intros (Hmark & (svc & orf & zr & fa & rest & ? & ? & ? & Hrec) & Henr & Hval).
  split; [done|]. split; [|split; [by apply cluster_enrolled_app|]].
  - exists svc, orf, zr, fa, rest. split; [set_solver|]. do 2 (split; [done|]).
    eapply records_published_mono; [|exact Hrec]. set_solver.
  - eapply domain_validated_mono; [|exact Hval]. set_solver.
Qed.

(** What holds of the writes and patches of a run of the deployment. *)
Definition deploy_ok rpc t : Prop :=
  (forall e, e ∈ t -> nb_write e -> domain_write_ok rpc t e) /\
  (forall o b x, Entry (KPatch KReverseProxyCluster o b) x ∈ t -> deploy_patch_ok rpc t o b).

Lemma quiet_deploy_ok rpc t : quiet t -> deploy_ok rpc t.
Proof.
  intros Hq. split; [intros e He Hw; by destruct (Hq e He)|].
  intros o b x Hin. by destruct (Hq _ Hin) as [_ []].
Qed.

Lemma records_quiet rpc ownerRef zoneRef addrs :
  wp (applyRecords rpc ownerRef zoneRef addrs) (fun t _ => quiet t).
Proof.
  apply setup_quiet. eapply calls_in_mono; [|apply applyRecords_calls].
  by intros [].
Qed.

Lemma not_ready_deploy_ok rpc rpc' msg t0 :
  quiet t0 -> ReverseProxyCluster_Meta rpc' = ReverseProxyCluster_Meta rpc ->
  ReverseProxyCluster_Spec rpc' = ReverseProxyCluster_Spec rpc ->
  rpc_TokenID (ReverseProxyCluster_Status rpc') = rpc_TokenID (ReverseProxyCluster_Status rpc) ->
  wp (notReady rpc' msg) (fun t _ => deploy_ok rpc (t0 ++ t)).
Proof.
  intros Hq Hm Hs Ht. eapply wp_mono; [apply notReady_spec|]. intros t out (x & -> & _). split.
  - intros e [He| ->%list_elem_of_singleton]%elem_of_app Hw; [by destruct (Hq e He)|done].
  - assert (forall e, e ∈ t0 -> ~ patches KReverseProxyCluster e) as Hnp by (intros; by apply Hq).
    patch_cases Hnp. by split.
Qed.

Lemma deploy_spec rpc ownerRef : wp (deploy ManagementURL rpc ownerRef) (fun t _ => deploy_ok rpc t).
Proof.
  unfold deploy. apply wp_bind_outcome. eapply wp_mono; [apply setup_quiet; unfold ensureZone;
    calls_run fail|]. intros tz [zoneRef|e] Hqz; [|by apply quiet_deploy_ok].
  apply wp_then_outcome. eapply wp_mono; [apply setup_quiet; unfold applyDeployment; calls_run fail|].
  intros td [e|] Hqd; [apply quiet_deploy_ok, quiet_app; done|].
  apply wp_then_outcome. eapply wp_mono; [apply setup_quiet; unfold applyService; calls_run fail|].
  intros ts [e|] Hqs; [apply quiet_deploy_ok; auto using quiet_app|].
  apply wp_bind. eapply wp_mono; [apply wp_and; [apply setup_quiet; unfold serviceAddresses; calls_run fail
    |apply serviceAddresses_spec]|]. intros ta addrs [Hqa Haddrs].
  assert (quiet (tz ++ td ++ ts ++ ta)) as Hq by auto using quiet_app.
  destruct addrs as [|fa rest].
  { eapply wp_mono; [by apply (not_ready_deploy_ok rpc _ _ _ Hq)|]. intros t out Hok.
    cbn beta in Hok. by rewrite <- !app_assoc in Hok. }
  destruct Haddrs as [|(svc & Hsvc & Haddrs)]; [done|].
  apply wp_then_outcome. eapply wp_mono; [apply wp_and; [apply records_quiet|]|].
  { apply applyRecords_spec. rewrite Haddrs. apply first_per_family_ok. }
  intros tr [e|] [Hqr Hrec].
  { apply quiet_deploy_ok. rewrite !app_assoc in *. by apply quiet_app. }
  eapply wp_mono; [apply (enroll_spec (set_LoadBalancerIP rpc (fa_address fa)))|].
  intros te out [Hw Hp].
  assert (quiet (tz ++ td ++ ts ++ ta ++ tr)) as Hq2 by auto 10 using quiet_app.
  replace (tz ++ td ++ ts ++ ta ++ tr ++ te) with ((tz ++ td ++ ts ++ ta ++ tr) ++ te)
    by (by rewrite <- !app_assoc).
  split.
  - intros e [He|He]%elem_of_app Hwr; [by destruct (Hq2 e He)|].
    eapply (domain_write_mono rpc te); [set_solver|]. exact (Hw e He Hwr).
  - intros o b x [Hin|Hin]%elem_of_app; [by destruct (Hq2 _ Hin) as [_ []]|].
    destruct (Hp o b x Hin) as ((Hm & Hs & Htok & Hip) & Hready). do 3 (split; [done|]).
    intros Hb. destruct (Hready Hb) as (Hmark & Hval & Henr). split; [done|]. split; [|split].
    + exists svc, ownerRef, zoneRef, fa, rest. unfold rpc_ns, proxyResourceName, rpc_name.
      rewrite Hm. split; [set_solver|]. split; [done|]. split; [done|].
      eapply (records_published_mono _ _ _ _ tr); [set_solver|].
      specialize (Hrec eq_refl). revert Hrec. clear - Hm Hs.
      destruct o as [om os ost]. cbn in Hm, Hs. subst. done.
    + by apply cluster_enrolled_app.
    + eapply domain_validated_mono; [|exact Hval]. set_solver.
Qed.
Definition finalizer : string := Finalizer "reverseproxycluster".

(** A run on a live cluster that has its finalizer. *)
Definition live_ok rpc t : Prop :=
  (forall e, e ∈ t -> nb_write e ->
     (rpc_TokenID (ReverseProxyCluster_Status rpc) = "" /\
      exists x, e = Entry (NBCreate CTokens (token_request rpc)) x) \/ domain_write_ok rpc t e) /\
  (forall o b x, Entry (KPatch KReverseProxyCluster o b) x ∈ t ->
     ReverseProxyCluster_Meta o = ReverseProxyCluster_Meta rpc /\
     (rpc_TokenID (ReverseProxyCluster_Status o) = rpc_TokenID (ReverseProxyCluster_Status rpc) \/
      rpc_TokenID (ReverseProxyCluster_Status rpc) = "" /\
      token_stored rpc (rpc_TokenID (ReverseProxyCluster_Status o)) t) /\
     (b = true -> ready_facts o t)).

(** A run on a cluster that is being deleted. *)
Definition delete_ok rpc t : Prop :=
  (forall e, e ∈ t -> nb_write e -> release_write_ok rpc t e) /\
  (forall o b x, Entry (KPatch KReverseProxyCluster o b) x ∈ t ->
     b = false /\ o = remove_finalizer (k := KReverseProxyCluster) rpc finalizer /\
     token_released rpc t /\ domain_released rpc t /\ cluster_released rpc t).

Lemma live_spec rpc ownerRef :
  wp (let^ rpc := mintToken rpc ownerRef in deploy ManagementURL rpc ownerRef)
    (fun t _ => live_ok rpc t).
Proof.
  apply wp_bind_outcome. eapply wp_mono; [apply mintToken_spec|]. intros tm res (Hw & Hp & Hres).
  assert (live_ok rpc tm) as Hm.
  { split; [intros e He Hwr; left; auto|]. intros o b x Hin.
    destruct (Hp o b x Hin) as (-> & Hid & id & -> & Hst). split; [done|]. split; [by right|done]. }
  destruct res as [rpc'|e]; [|exact Hm].
  assert (ReverseProxyCluster_Meta rpc' = ReverseProxyCluster_Meta rpc /\
    ReverseProxyCluster_Spec rpc' = ReverseProxyCluster_Spec rpc /\
    (rpc_TokenID (ReverseProxyCluster_Status rpc') = rpc_TokenID (ReverseProxyCluster_Status rpc) \/
     rpc_TokenID (ReverseProxyCluster_Status rpc) = "" /\
     token_stored rpc (rpc_TokenID (ReverseProxyCluster_Status rpc')) tm)) as (Hmeta & Hspec & Htok).
  { destruct Hres as [[_ ->]|(Hid & id & -> & Hst & _)]; [auto|]. do 2 (split; [done|]). by right. }
  eapply wp_mono; [apply deploy_spec|]. intros t out [Hdw Hdp]. destruct Hm as [Hmw Hmp]. split.
  - intros e [He|He]%elem_of_app Hwr; [left; auto|]. right.
    eapply (domain_write_mono rpc t); [set_solver|]. revert Hdw. destruct rpc, rpc'; cbn in *; subst.
    intros Hdw. exact (Hdw e He Hwr).
  - intros o b x [Hin|Hin]%elem_of_app.
    + destruct (Hp o b x Hin) as (-> & Hid & id & -> & Hst). split; [done|]. split; [|done].
      right. split; [done|]. eapply token_stored_mono; [|exact Hst]. set_solver.
    + destruct (Hdp o b x Hin) as (Ho & _ & Hot & Hready). rewrite Ho, Hot. split; [done|]. split.
      * destruct Htok as [?|[? Hst]]; [by left|right]. split; [done|].
        eapply token_stored_mono; [|exact Hst]. set_solver.
      * intros Hb. apply ready_facts_app. auto.
Qed.

Lemma delete_spec rpc : wp (reconcileDelete rpc) (fun t _ => delete_ok rpc t).
Proof.
  unfold reconcileDelete. set (token := rpc_TokenID _). apply wp_then_outcome.
  assert (releases rpc token_released
    (if String.eqb token "" then Ret None else delete_tolerant CTokens token)) as Htok.
  { unfold releases. destruct (String.eqb_spec token "") as [He|He].
    - cbn. split; [trace_cases; done|]. split; [trace_cases; done|by left].
    - eapply wp_mono; [apply delete_tolerant_spec|]. intros t r (x & -> & Hd).
      split; [trace_cases; done|]. split; [|intros Hr; right; by apply Hd].
      intros e ->%list_elem_of_singleton _. left. by exists x. }
  eapply wp_mono; [exact Htok|]. intros tt rt (Hnp1 & Hw1 & Hr1).
  destruct rt as [e|]; [split; [done|]; intros o b x Hin; by destruct (Hnp1 _ Hin)|].
  apply wp_then_outcome. eapply wp_mono; [apply releaseDomain_spec|]. intros td rd (Hnp2 & Hw2 & Hr2).
  assert (forall e, e ∈ tt ++ td -> ~ patches KReverseProxyCluster e) as Hnp12
    by (intros e [?|?]%elem_of_app; auto).
  assert (forall e, e ∈ tt ++ td -> nb_write e -> release_write_ok rpc (tt ++ td) e) as Hw12.
  { intros e [He|He]%elem_of_app Hwr; (eapply release_write_mono; [|by eauto]); set_solver. }
  destruct rd as [e|]; [split; [done|]; intros o b x Hin; by destruct (Hnp12 _ Hin)|].
  apply wp_then_outcome. eapply wp_mono; [apply releaseCluster_spec|]. intros tc rc (Hnp3 & Hw3 & Hr3).
  assert (forall e, e ∈ tt ++ td ++ tc -> ~ patches KReverseProxyCluster e) as Hnp
    by (rewrite app_assoc; intros e [?|?]%elem_of_app; auto).
  assert (forall e, e ∈ tt ++ td ++ tc -> nb_write e -> release_write_ok rpc (tt ++ td ++ tc) e) as Hw.
  { rewrite app_assoc. intros e [He|He]%elem_of_app Hwr;
      (eapply release_write_mono; [|by eauto]); set_solver. }
  destruct rc as [e|]; [split; [done|]; intros o b x Hin; by destruct (Hnp _ Hin)|].
  unfold patch. cbn [bind then_outcome ask perform wp]. intros x.
  assert (delete_ok rpc (tt ++ td ++ tc ++ [Entry (KPatch KReverseProxyCluster
    (remove_finalizer (k := KReverseProxyCluster) rpc finalizer) false) x])) as Hok.
  { replace (tt ++ td ++ tc ++ [Entry (KPatch KReverseProxyCluster
      (remove_finalizer (k := KReverseProxyCluster) rpc finalizer) false) x])
      with ((tt ++ td ++ tc) ++ [Entry (KPatch KReverseProxyCluster
        (remove_finalizer (k := KReverseProxyCluster) rpc finalizer) false) x])
      by (by rewrite <- !app_assoc).
    split.
    - intros e [He| ->%list_elem_of_singleton]%elem_of_app Hwr; [|done].
      eapply release_write_mono; [|by apply Hw]. set_solver.
    - patch_cases Hnp. split; [done|]. split; [done|]. split; [|split].
      + destruct (Hr1 eq_refl) as [?|?]; [by left|right]. eapply nb_deleted_mono; [|done]. set_solver.
      + eapply domain_released_mono; [|by apply Hr2]. set_solver.
      + eapply cluster_released_mono; [|by apply Hr3]. set_solver. }
  by destruct x.
Qed.

(** The three kinds of runs. *)
Definition run_cases (ns name : string) t : Prop :=
  (exists e, t = [Entry (KGet KReverseProxyCluster ns name) (Err e)]) \/
  (exists rpc t', t = Entry (KGet KReverseProxyCluster ns name) (Ok rpc) :: t' /\
     deleting (ReverseProxyCluster_Meta rpc) = true /\ delete_ok rpc t') \/
  (exists (rpc rpc1 : ReverseProxyCluster) x t',
     rpc1 = add_finalizer (k := KReverseProxyCluster) rpc finalizer /\
     t = Entry (KGet KReverseProxyCluster ns name) (Ok rpc) ::
         Entry (KPatch KReverseProxyCluster rpc1 false) x :: t' /\
     deleting (ReverseProxyCluster_Meta rpc) = false /\ (t' = [] \/ x = None /\ live_ok rpc1 t')).

Lemma Reconcile_cases ns name :
  wp (Reconcile ManagementURL ns name) (fun t _ => run_cases ns name t).
Proof.
  unfold Reconcile. cbn [bind ask perform wp]. intros [rpc|e]; [|left; by exists e].
  destruct (deleting _) eqn:Hdel.
  - eapply wp_mono; [apply delete_spec|]. intros t out Hok. right; left. exists rpc, t. auto.
  - cbn zeta. set (rpc1 := add_finalizer (k := KReverseProxyCluster) rpc _).
    unfold patch. cbn [then_outcome bind ask perform wp]. intros x.
    assert (forall t', t' = [] \/ x = None /\ live_ok rpc1 t' ->
      run_cases ns name (Entry (KGet KReverseProxyCluster ns name) (Ok rpc) ::
                         Entry (KPatch KReverseProxyCluster rpc1 false) x :: t')) as Hgo.
    { intros t' Ht'. right; right. exists rpc, rpc1, x, t'. auto. }
    destruct x as [e|]; [apply Hgo; by left|].
    destruct (ControllerReference _ _) as [ownerRef|e]; [|apply Hgo; by left].
    eapply wp_mono; [apply live_spec|]. intros t out Hok. apply Hgo. by right.
Qed.

(** C21: the observed generation is only reported, with Ready=True, for a cluster
    whose address records are published for the addresses of its LoadBalancer,
    that was found enrolled at its address with the connectivity the status
    tells, and whose custom domain is ours and validated - all in the same
    reconcile. *)
Theorem RpCluster_ready ns name :
  wp (Reconcile ManagementURL ns name) (fun t _ =>
    forall o x, Entry (KPatch KReverseProxyCluster o true) x ∈ t -> ready_facts o t).
Proof.
  eapply wp_mono; [apply Reconcile_cases|].
  intros t _ [(e & ->)|[(rpc & t' & -> & _ & _ & Hp)|(rpc & rpc1 & y & t' & Hrpc1 & -> & _ & Ht')]] o x Hin.
  - by apply list_elem_of_singleton in Hin.
  - apply elem_of_cons in Hin as [Hin|Hin]; [discriminate Hin|]. by destruct (Hp o true x Hin).
  - apply elem_of_cons in Hin as [Hin|Hin]; [discriminate Hin|].
    apply elem_of_cons in Hin as [Hin|Hin]; [by apply patch_inj in Hin as [_ ?]|].
    destruct Ht' as [->|[_ [_ Hp]]]; [by apply not_elem_of_nil in Hin|].
    destruct (Hp o true x Hin) as (_ & _ & Hready). apply (ready_facts_app o t' [_; _]). auto.
Qed.

(** The cluster read at the start of the run. *)
Definition read_cluster (ns name : string) rpc t : Prop :=
  Entry (KGet KReverseProxyCluster ns name) (Ok rpc) ∈ t.

(** C24: an enrollment token is minted only while none is recorded, and a token
    id is recorded only after the token's plain text was stored in the Secret
    the proxy reads it from; otherwise the recorded id is kept. *)
Theorem RpCluster_token ns name :
  wp (Reconcile ManagementURL ns name) (fun t _ =>
    (forall rq x, Entry (NBCreate CTokens rq) x ∈ t -> exists rpc, read_cluster ns name rpc t /\
       deleting (ReverseProxyCluster_Meta rpc) = false /\
       rpc_TokenID (ReverseProxyCluster_Status rpc) = "" /\ rq = token_request rpc) /\
    (forall o b x, Entry (KPatch KReverseProxyCluster o b) x ∈ t -> exists rpc, read_cluster ns name rpc t /\
       (rpc_TokenID (ReverseProxyCluster_Status o) = rpc_TokenID (ReverseProxyCluster_Status rpc) \/
        rpc_TokenID (ReverseProxyCluster_Status rpc) = "" /\
        token_stored rpc (rpc_TokenID (ReverseProxyCluster_Status o)) t))).
Proof.
  eapply wp_mono; [apply Reconcile_cases|].
  intros t _ [(e & ->)|[(rpc & t' & -> & _ & Hw & Hp)|(rpc & rpc1 & y & t' & -> & -> & Hdel & Ht')]].
  - split; [intros rq x Hin|intros o b x Hin]; by apply list_elem_of_singleton in Hin.
  - assert (read_cluster ns name rpc (Entry (KGet KReverseProxyCluster ns name) (Ok rpc) :: t')) as Hrd by left.
    split.
    + intros rq x [Hin|Hin]%elem_of_cons; [discriminate Hin|].
      destruct (Hw _ Hin eq_refl) as [(? & He)|[(? & ? & ? & He & _)|(? & He & _)]]; discriminate He.
    + intros o b x [Hin|Hin]%elem_of_cons; [discriminate Hin|].
      destruct (Hp o b x Hin) as (_ & -> & _). exists rpc. split; [done|by left].
  - set (rpc1 := add_finalizer (k := KReverseProxyCluster) rpc finalizer).
    set (g := Entry (KGet KReverseProxyCluster ns name) (Ok rpc)).
    set (p := Entry (KPatch KReverseProxyCluster rpc1 false) y).
    assert (read_cluster ns name rpc (g :: p :: t')) as Hrd by left.
    assert (live_ok rpc1 t') as [Hw Hp].
    { destruct Ht' as [->|[_ ?]]; [|done]. split; [by intros ? ?%not_elem_of_nil|].
      by intros ? ? ? ?%not_elem_of_nil. }
    split.
    + intros rq x [Hin|[Hin|Hin]%elem_of_cons]%elem_of_cons; [discriminate Hin..|].
      destruct (Hw _ Hin eq_refl) as [(Hid & z & He)|[(? & ? & He & _)|(? & He & _)]];
        [|discriminate He..]. exists rpc. split; [done|]. split; [done|]. split; [done|].
      apply (f_equal (fun e => match entry_call e with NBCreate CTokens q => Some q | _ => None end)) in He.
      by injection He as ->.
    + intros o b x [Hin|[Hin|Hin]%elem_of_cons]%elem_of_cons; [discriminate Hin| |].
      * apply patch_inj in Hin as [-> ->]. exists rpc. split; [done|by left].
      * destruct (Hp o b x Hin) as (_ & Ht & _). exists rpc. split; [done|].
        destruct Ht as [?|[? Hst]]; [by left|right]. split; [done|].
        eapply token_stored_mono; [|exact Hst]. set_solver.
Qed.

(** Some entry of the trace persisted the finalizer, or read the cluster being
    deleted. *)
Definition finalized (ns name : string) (e : event) : Prop :=
  (exists rpc, e = Entry (KPatch KReverseProxyCluster
     (add_finalizer (k := KReverseProxyCluster) rpc finalizer) false) None) \/
  read_deleting KReverseProxyCluster ns name e.

(** A write in NetBird on behalf of the cluster [rpc]. *)
Definition nb_write_ok rpc (t : history) (e : event) : Prop :=
  if deleting (ReverseProxyCluster_Meta rpc) then release_write_ok rpc t e
  else (exists x, e = Entry (NBCreate CTokens (token_request rpc)) x) \/ domain_write_ok rpc t e.

(** A run starts with the read, and what follows is written for what was read. *)
Lemma Reconcile_nb_writes ns name :
  wp (Reconcile ManagementURL ns name) (fun t _ =>
    exists r t', t = Entry (KGet KReverseProxyCluster ns name) r :: t' /\
      match r with
      | Err _ => t' = []
      | Ok rpc => forall e, e ∈ t' -> nb_write e -> nb_write_ok rpc t e
      end).
Proof.
  eapply wp_mono; [apply Reconcile_cases|]. unfold nb_write_ok.
  intros t _ [(e & ->)|[(rpc & t' & -> & Hdel & Hw & _)|(rpc & rpc1 & y & t' & -> & -> & Hdel & Ht')]].
  - by exists (Err e), [].
  - exists (Ok rpc), t'. split; [done|]. intros e He Hwr. rewrite Hdel.
    eapply release_write_mono; [|by apply Hw]. set_solver.
  - eexists (Ok rpc), _. split; [done|]. intros e [->|He]%elem_of_cons Hwr; [done|].
    destruct Ht' as [->|[_ [Hw _]]]; [by apply not_elem_of_nil in He|]. rewrite Hdel.
    destruct (Hw e He Hwr) as [[_ Hx]|Hd]; [by left|right].
    eapply (domain_write_mono rpc); [|exact Hd]. set_solver.
Qed.

(** C22: what a reconcile writes in NetBird besides tokens. Nothing is written
    before the cluster was patched with its finalizer or read while being
    deleted. For a live cluster the only writes are of the custom domain: it is
    created, with this cluster's domain and address, when the list read has no
    registration of the domain; and a registration is deleted, and created anew,
    only when it is one of this domain whose target is set, is not this
    cluster's address, is not declared or recorded as the address of another live
    ReverseProxyCluster of a list read in this run, and (when the errors of the
    calls are not the operator's own) has no cluster in NetBird. The test is on
    the target alone: who else declares the domain, or has recorded the
    registration, is not looked at ([RepointRun]). For a cluster being deleted
    the only writes are deletions of its recorded token, of its recorded domain
    registration and of its recorded cluster, the latter two only when a list
    read in this run has no other live ReverseProxyCluster that declares or has
    recorded them. *)
Theorem RpCluster_registrations ns name :
  wp (Reconcile ManagementURL ns name) (fun t _ =>
    preceded t nb_write (finalized ns name) /\
    forall e, e ∈ t -> nb_write e ->
      exists rpc, read_cluster ns name rpc t /\ nb_write_ok rpc t e).
Proof.
  eapply wp_mono; [apply wp_and; [apply Reconcile_nb_writes|apply Reconcile_cases]|].
  intros t _ [(r & t0 & Ht & Hnb) Hcases]. split.
  - destruct Hcases as [(e & ->)|[(rpc & t' & -> & Hdel & _)|(rpc & rpc1 & y & t' & -> & -> & Hdel & Ht')]].
    + apply preceded_cons_not; [by intros ?|apply preceded_nil].
    + apply preceded_cons_yes; [by intros ?|right; by exists rpc].
    + apply preceded_cons_not; [by intros ?|].
      destruct Ht' as [->|[-> _]]; [apply preceded_none; by intros e ->%list_elem_of_singleton|].
      apply preceded_cons_yes; [by intros ?|left; by exists rpc].
  - intros e He Hw. rewrite Ht in He. apply elem_of_cons in He as [->|He]; [done|].
    destruct r as [rpc|e0]; [|subst t0; by apply not_elem_of_nil in He].
    exists rpc. split; [rewrite Ht; left|auto].
Qed.

(** C23: the finalizer is taken off - in any patch that lacks it - only from a
    cluster read while being deleted, once its token is gone, its custom domain
    is gone or used by another live cluster, and its cluster registration is
    gone or used by another live cluster. *)
Theorem RpCluster_released `{!K8sLibLaws} ns name o b x t out :
  runs (Reconcile ManagementURL ns name) t out ->
  Entry (KPatch KReverseProxyCluster o b) x ∈ t ->
  ~ has_finalizer (k := KReverseProxyCluster) o finalizer ->
  exists rpc, read_cluster ns name rpc t /\ deleting (ReverseProxyCluster_Meta rpc) = true /\
    token_released rpc t /\ domain_released rpc t /\ cluster_released rpc t.
Proof.
  intros Hrun Hin Hno.
  destruct (wp_elim _ _ _ _ (Reconcile_cases ns name) Hrun)
    as [(e & ->)|[(rpc & t' & -> & Hdel & _ & Hp)|(rpc & rpc1 & y & t' & -> & -> & Hdel & Ht')]].
  - by apply list_elem_of_singleton in Hin.
  - apply elem_of_cons in Hin as [Hin|Hin]; [discriminate Hin|].
    destruct (Hp o b x Hin) as (_ & _ & Htok & Hdom & Hcl). exists rpc. split; [left|]. split; [done|].
    split; [destruct Htok as [?|?]; [by left|right; eapply nb_deleted_mono; [|done]; set_solver]|].
    split; [eapply domain_released_mono; [|exact Hdom]; set_solver|].
    eapply cluster_released_mono; [|exact Hcl]; set_solver.
  - exfalso. apply Hno.
    pose proof (add_finalizer_has (k := KReverseProxyCluster) rpc finalizer) as Hf.
    apply elem_of_cons in Hin as [Hin|Hin]; [discriminate Hin|].
    apply elem_of_cons in Hin as [Hin|Hin]; [by apply patch_inj in Hin as [-> _]|].
    destruct Ht' as [->|[_ [_ Hp]]]; [by apply not_elem_of_nil in Hin|].
    destruct (Hp o b x Hin) as [Hm _]. unfold has_finalizer in *. cbn in *. by rewrite Hm.
Qed.
End ready_props.

(** ** A cluster that is deleted while another one shares its domain *)
Module DeleteRun.
Definition cluster_cr (name uid : string) (del : option Z) : ReverseProxyCluster :=
  mkReverseProxyCluster (mkMeta name "infra" uid ∅ ∅ [finalizer] del 1)
    (mkReverseProxyClusterSpec ("gate-" +:+ name +:+ ".example.com") "example.com" None "" [] false
       None "" "" ∅)
    (mkReverseProxyClusterStatus 1 [] ("gate-" +:+ name +:+ ".example.com") "tok-1" "dom-1" "10.0.0.7"
       true 1).
Definition old := cluster_cr "old" "uid-old" (Some 5).
Definition new := cluster_cr "new" "uid-new" None.
Definition domain : api.ReverseProxyDomain :=
  api.mkReverseProxyDomain "dom-1" "example.com" (Some "gate-new.example.com"%string) true.
Definition released : ReverseProxyCluster := remove_finalizer (k := KReverseProxyCluster) old finalizer.

(** Token and cluster registration are deleted, the shared domain is kept. *)
Definition run : history :=
  [Entry (KGet KReverseProxyCluster "infra" "old") (Ok old);
   Entry (NBDelete CTokens "tok-1") None;
   Entry (NBList CDomains) (Ok [domain]);
   Entry (KList KReverseProxyCluster None None) (Ok [old; new]);
   Entry (KList KReverseProxyCluster None None) (Ok [old; new]);
   Entry (NBDelete CClusters "gate-old.example.com") None;
   Entry (KPatch KReverseProxyCluster released false) None].

Lemma RpCluster_released_witness :
  runs (Reconcile "https://api.netbird.io" "infra" "old") run (no_requeue, None) /\
  exists rpc, read_cluster "infra" "old" rpc run /\ deleting (ReverseProxyCluster_Meta rpc) = true /\
    token_released rpc run /\ domain_released rpc run /\ cluster_released rpc run.
Proof.
  assert (runs (Reconcile "https://api.netbird.io" "infra" "old") run (no_requeue, None)) as Hr
    by (repeat (eexists; split; [reflexivity|]); reflexivity).
  split; [exact Hr|].
  apply (RpCluster_released "https://api.netbird.io" "infra" "old" released false None run
           (no_requeue, None) Hr).
  - do 6 right; left.
  - apply remove_finalizer_has.
Defined.
End DeleteRun.

(** ** A live cluster whose domain another live cluster declares and has recorded

    Its registration targets an address nobody has; the reconcile of the first
    cluster deletes it and registers the domain for itself. *)
Module RepointRun.
Import DeleteRun.
Definition moved : ReverseProxyCluster := cluster_cr "old" "uid-old" None.
Definition stale : api.ReverseProxyDomain :=
  api.mkReverseProxyDomain "dom-1" "example.com" (Some "gate-gone.example.com"%string) true.

Definition answers (c : call) : resp c :=
  match c with
  | KGet KReverseProxyCluster _ _ => Ok moved
  | KGet KService ns name =>
      Ok (mkService (mkMeta name ns "uid-svc" ∅ ∅ [] None 1) ServiceTypeLoadBalancer [] ["192.0.2.7"%string])
  | KList KReverseProxyCluster _ _ => Ok [moved; new]
  | NBList CClusters => Ok [api.mkProxyCluster "pc-1" "gate-old.example.com" true 1]
  | NBList CDomains => Ok [stale]
  | NBCreate CDomains req => Ok (api.mkReverseProxyDomain "dom-2" (api.dmq_Domain req) (Some (api.dmq_TargetCluster req)) false)
  | c => no_answer c
  end.

(** The registration that the live [new] declares and has recorded is deleted. *)
Lemma repoints_declared_domain :
  let t := (follow answers (Reconcile "https://api.netbird.io" "infra" "old")).1 in
  deleting (ReverseProxyCluster_Meta new) = false /\
  uses_domain (api.dm_Domain stale) (api.dm_Id stale) new = true /\
  Entry (KList KReverseProxyCluster None None) (Ok [moved; new]) ∈ t /\
  Entry (NBDelete CDomains (api.dm_Id stale)) None ∈ t.
Proof.
  cbn zeta. split; [done|]. split; [done|].
  split; [eapply (list_elem_of_lookup_2 _ 14)|eapply (list_elem_of_lookup_2 _ 20)]; reflexivity.
Qed.
End RepointRun.
