(* ===== verification/GroupCtl.v ===== *)
(** * Groups ([group_controller.go])

    A Group custom resource owns one NetBird group: it is renamed in place,
    keeping its members, and recreated when it is gone. *)

From stdpp Require Import base gmap list strings.
From Stdlib Require Import ZArith Lia.
From S2P Require Import Prelude GoStrings GoErr Prog ApiTypes K8sTypes ApplyConf Env NetbirdUtil Reconcile Mirror.

Open Scope Z_scope.
Open Scope prog_scope.

Definition group_finalizer : string := Finalizer "group".

Definition set_group_id (g : Group) (id : string) : Group :=
  let st := Group_Status g in
  mkGroup (Group_Meta g) (Group_Spec g)
    (mkGroupStatus (group_ObservedGeneration st) (group_Conditions st) id).

(** The loop over the peers of the group: their ids, appended one by one. *)
Fixpoint append_peers (peers : list string) (found : list api.PeerMinimum) : list string :=
  match found with
  | [] => peers
  | peer :: found => append_peers (peers ++ [api.p_Id peer]) found
  end.

(** The name of the spec, and the members the group has. *)
Definition rename_request (g : Group) (found : api.Group) : api.GroupRequest :=
  let peers := append_peers [] (api.g_Peers found) in
  api.mkGroupRequest (group_Name (Group_Spec g)) (Some peers) (Some (api.g_Resources found)).
Definition new_group_request (g : Group) : api.GroupRequest :=
  api.mkGroupRequest (group_Name (Group_Spec g)) None None.

Section group.
Context `{ErrorClass} `{K8sLib}.
Context (recorder : bool).

Definition create_group (g : Group) : M (result error string) :=
  let? resp := ask (NBCreate CGroups (new_group_request g)) in
  Ret (Ok (api.g_Id resp)).

(** The function literal of the reconcile: the id of the NetBird group. *)
Definition ensure_group (g : Group) : M (result error string) :=
  let id := group_GroupID (Group_Status g) in
  if String.eqb id "" then create_group g
  else
    let! found := ask (NBGet CGroups id) in
    match found with
    | Err e => if netbird_IsNotFound e then create_group g else Ret (Err e)
    | Ok found =>
        let! resp := ask (NBUpdate CGroups id (rename_request g found)) in
        match resp with
        | Ok resp => Ret (Ok (api.g_Id resp))
        | Err e => if netbird_IsNotFound e then create_group g else Ret (Err e)
        end
    end.

Definition group_in_use (g : Group) : string :=
  "NetBird group " +:+ group_GroupID (Group_Status g) +:+ " still in use; retrying deletion".

Definition reconcileDelete (g : Group) : M outcome :=
  let id := group_GroupID (Group_Status g) in
  let finish :=
    do^ patch (k := KGroup) (remove_finalizer (k := KGroup) g group_finalizer) in
    Ret (no_requeue, None) in
  if String.eqb id "" then finish
  else
    let! err := ask (NBDelete CGroups id) in
    match err with
    | None => finish
    | Some e =>
        if netbird_IsNotFound e then finish
        else if IsConflict e then
          do! recordEvent recorder reasonInUse (group_in_use g) in
          Ret (requeue_after cleanupRetry, None)
        else Ret (fail_with e)
    end.

Definition Reconcile (ns name : string) : M outcome :=
  let! got := ask (KGet KGroup ns name) in
  match got with
  | Err e => Ret (no_requeue, IgnoreNotFound e)
  | Ok g =>
      if deleting (Group_Meta g) then reconcileDelete g
      else
        let g := add_finalizer (k := KGroup) g group_finalizer in
        do^ patch (k := KGroup) g in
        let^ id := ensure_group g in
        let g := set_group_id g id in
        do^ patch_observed (k := KGroup) (mark_ready (k := KGroup) g) in
        Ret (requeue_after resyncInterval, None)
  end.
End group.

(** ** What the reconciler guarantees *)
Section props.
Context `{ErrorClass} `{K8sLib}.
Context (recorder : bool).

Definition read_group (ns name : string) (g : Group) (t : history) : Prop :=
  Entry (KGet KGroup ns name) (Ok g) ∈ t.

Lemma append_peers_map peers found : append_peers peers found = peers ++ map api.p_Id found.
Proof.
  revert peers. induction found as [|peer found IH]; intros peers; cbn; [by rewrite app_nil_r|].
  rewrite IH. by rewrite <- app_assoc.
Qed.

(** The call is the right one for the recorded group: its id, and the fields
    of the request. *)
Definition group_write_ok (g : Group) (t : history) (e : event) : Prop :=
  let id := group_GroupID (Group_Status g) in
  if deleting (Group_Meta g) then exists x, e = Entry (NBDelete CGroups id) x
  else
    (exists found rq x, Entry (NBGet CGroups id) (Ok found) ∈ t /\
       e = Entry (NBUpdate CGroups id rq) x /\
       api.grq_Name rq = group_Name (Group_Spec g) /\
       api.grq_Peers rq = Some (map api.p_Id (api.g_Peers found)) /\
       api.grq_Resources rq = Some (api.g_Resources found)) \/
    (exists rq x, e = Entry (NBCreate CGroups rq) x /\
       api.grq_Name rq = group_Name (Group_Spec g) /\ api.grq_Peers rq = None /\ api.grq_Resources rq = None /\
       (id = "" \/ exists err, netbird_IsNotFound err = true /\
          (Entry (NBGet CGroups id) (Err err) ∈ t \/
           exists q, Entry (NBUpdate CGroups id q) (Err err) ∈ t))).

(** C31: what the Group controller writes in NetBird. A deleted resource deletes
    its recorded group; otherwise the recorded group is given the name of the
    spec with the ids of exactly the peers, and exactly the resources, that were
    read of it in this reconcile; and a new group of that name, without members,
    is created only when none is recorded or the recorded one answered
    not-found. *)
Theorem Group_writes ns name :
  wp (Reconcile recorder ns name) (fun t _ =>
    forall e, e ∈ t -> nb_write e -> exists g, read_group ns name g t /\ group_write_ok g t e).
Proof.
  unfold Reconcile, reconcileDelete, ensure_group, create_group, patch, patch_observed, recordEvent,
    recordEventType.
  wp_run; trace_cases; bool_prop.
  all: eexists; (split; [left|]); unfold group_write_ok; cbn.
  all: match goal with H : deleting _ = _ |- _ => rewrite H end.
  all: first
    [ eexists; reflexivity
    | left; do 3 eexists; split; [in_trace|]; split; [reflexivity|]; split; [done|]; split; [|done]; cbn;
      by rewrite append_peers_map
    | right; do 2 eexists; split; [reflexivity|]; do 3 (split; [done|]); first
        [ left; done
        | right; eexists; split; [eassumption|]; first [left; in_trace|right; eexists; in_trace] ] ].
Qed.

(** The status of a Group. Readiness is reported only with the id NetBird
    answered to this reconcile's update or creation; the finalizer is taken off
    only when the resource is being deleted and its group is gone - none was
    recorded, or the delete succeeded or answered not-found -, and a group that
    is still in use is retried after a minute, its resource left as it is. *)
Theorem Group_status ns name :
  wp (Reconcile recorder ns name) (fun t out =>
    (forall o x, Entry (KPatch KGroup o true) x ∈ t -> exists resp,
       (exists g, o = mark_ready (k := KGroup) g /\ group_GroupID (Group_Status g) = api.g_Id resp) /\
       ((exists rq, Entry (NBCreate CGroups rq) (Ok resp) ∈ t) \/
        exists id rq, Entry (NBUpdate CGroups id rq) (Ok resp) ∈ t)) /\
    (forall o x, Entry (KPatch KGroup o false) x ∈ t -> exists g, read_group ns name g t /\
       if deleting (Group_Meta g) then
         o = remove_finalizer (k := KGroup) g group_finalizer /\
         (group_GroupID (Group_Status g) = "" \/ nb_deleted CGroups (group_GroupID (Group_Status g)) t)
       else o = add_finalizer (k := KGroup) g group_finalizer) /\
    (forall g e, read_group ns name g t -> deleting (Group_Meta g) = true ->
       Entry (NBDelete CGroups (group_GroupID (Group_Status g))) (Some e) ∈ t ->
       netbird_IsNotFound e = false -> IsConflict e = true ->
       out = (requeue_after cleanupRetry, None) /\ forall o b x, ~ Entry (KPatch KGroup o b) x ∈ t)).
Proof.
  unfold Reconcile, reconcileDelete, ensure_group, create_group, patch, patch_observed, recordEvent,
    recordEventType.
  apply wp_and; [|apply wp_and]; unfold read_group; wp_run; entry_cases; bool_prop; try congruence.
  all: first
    [ solve [split; [reflexivity|]; intros; intros ?; entry_cases]
    | exists a; split; [left|]; match goal with H : deleting _ = _ |- _ => rewrite H end;
      first [reflexivity|split; [reflexivity|]; first [by left|right; eexists; split; [in_trace|done]]]
    | eexists; split; [|first [left; eexists; in_trace|right; do 2 eexists; in_trace]];
      eexists (set_group_id (add_finalizer (k := KGroup) a group_finalizer) _); split; reflexivity ].
Qed.
End props.
