(* ===== verification/SetupKeyCtl.v ===== *)
(** * Setup keys ([setupkey_controller.go])

    A SetupKey custom resource owns one NetBird setup key and the Secret that
    holds its plain text; a key that is no longer usable is replaced. *)

From stdpp Require Import base gmap list strings.
From Stdlib Require Import ZArith Lia.
From S2P Require Import Prelude GoStrings GoErr Prog ApiTypes K8sTypes ApplyConf Env NetbirdUtil Reconcile Mirror.

Open Scope Z_scope.
Open Scope prog_scope.

Definition SetupKeySecretKey : string := "setup-key".
Definition keyPrefixLen : nat := 5.
Definition setupkey_finalizer : string := Finalizer "setupkey".

Definition set_key_id (sk : SetupKey) (id : string) : SetupKey :=
  let st := SetupKey_Status sk in
  mkSetupKey (SetupKey_Meta sk) (SetupKey_Spec sk)
    (mkSetupKeyStatus (sk_ObservedGeneration st) (sk_Conditions st) id).

(** [int(d.Seconds())], 0 without a duration: truncation to whole seconds
    (exact for durations in whole milliseconds; [Seconds] is a float64). *)
Definition expires_in (sk : SetupKey) : Z :=
  match sk_Duration (SetupKey_Spec sk) with
  | Some d => Z.quot d Second
  | None => 0
  end.

Definition key_request (sk : SetupKey) (autoGroups : list string) : api.CreateSetupKeyRequest :=
  let spec := SetupKey_Spec sk in
  api.mkCreateSetupKeyRequest (sk_AllowExtraDnsLabels spec) autoGroups (sk_Ephemeral spec)
    (expires_in sk) (sk_Name spec) "reusable" 0.

(** Both are long enough to compare, and agree on the prefix. *)
Definition same_prefix (key stored : string) : bool :=
  negb ((String.length key <? keyPrefixLen)%nat || (String.length stored <? keyPrefixLen)%nat
        || negb (String.eqb (strings.take_bytes keyPrefixLen key)
                            (strings.take_bytes keyPrefixLen stored))).

Section setup_key.
Context `{ErrorClass} `{K8sLib}.
Context (recorder : bool).

(** The function literal of the reconcile: whether the recorded key is usable
    and up to date. [ns] is the namespace of the request. *)
Definition up_to_date (ns : string) (sk : SetupKey) (autoGroups : list string) : M (result error bool) :=
  let id := sk_SetupKeyID (SetupKey_Status sk) in
  if String.eqb id "" then Ret (Ok false)
  else
    let! got := ask (NBGet CSetupKeys id) in
    match got with
    | Err e => Ret (if netbird_IsNotFound e then Ok false else Err e)
    | Ok key =>
        if String.eqb (api.k_State key) "overused" then
          do! recordEvent recorder reasonDependencyNotReady "Setup key is overused; recreating" in
          Ret (Err (ErrText "setup key is overused"))
        else if negb (String.eqb (api.k_State key) "valid") then Ret (Ok false)
        else
          let! secret := ask (KGet KSecret ns (SecretName sk)) in
          match secret with
          | Err e => Ret (if kerrors_IsNotFound e then Ok false else Err e)
          | Ok secret =>
              let stored := default ""%string (secret_Data secret !! SetupKeySecretKey) in
              if negb (same_prefix (api.k_Key key) stored) then Ret (Ok false)
              else
                let? _u := ask (NBUpdate CSetupKeys id (api.mkSetupKeyRequest autoGroups)) in
                Ret (Ok true)
          end
    end.

(** A new key: recorded, stored in the Secret, and the old one deleted. *)
Definition replace_key (ns : string) (sk : SetupKey) (autoGroups : list string) (owner : OwnerReference) :
    M outcome :=
  let old := sk_SetupKeyID (SetupKey_Status sk) in
  let^ key := ask (NBCreate CSetupKeys (key_request sk autoGroups)) in
  let sk := set_key_id sk (api.k_Id key) in
  do^ patch (k := KSetupKey) sk in
  do^ ask (KApply (ApplySecret
    (ObjectAC (SecretName sk) ns |> WithOwnerReferences [owner])%go
    {[ SetupKeySecretKey := api.k_Key key ]})) in
  do^ if String.eqb old "" then Ret None else delete_tolerant CSetupKeys old in
  do^ patch_observed (k := KSetupKey) (mark_ready (k := KSetupKey) sk) in
  Ret (requeue_after resyncInterval, None).

Definition reconcileDelete (sk : SetupKey) : M outcome :=
  let id := sk_SetupKeyID (SetupKey_Status sk) in
  do^ if String.eqb id "" then Ret None else delete_tolerant CSetupKeys id in
  do^ patch (k := KSetupKey) (remove_finalizer (k := KSetupKey) sk setupkey_finalizer) in
  Ret (no_requeue, None).

Definition Reconcile (ns name : string) : M outcome :=
  let! got := ask (KGet KSetupKey ns name) in
  match got with
  | Err e => Ret (no_requeue, IgnoreNotFound e)
  | Ok sk =>
      match ControllerReference KSetupKey (SetupKey_Meta sk) with
      | Err e => Ret (fail_with e)
      | Ok owner =>
          if deleting (SetupKey_Meta sk) then reconcileDelete sk
          else
            let sk := add_finalizer (k := KSetupKey) sk setupkey_finalizer in
            do^ patch (k := KSetupKey) sk in
            let^ autoGroups := GetGroupIDs (sk_AutoGroups (SetupKey_Spec sk))
                                 (meta_Namespace (SetupKey_Meta sk)) in
            let^ ok := up_to_date ns sk autoGroups in
            if ok : bool then Ret (requeue_after resyncInterval, None)
            else replace_key ns sk autoGroups owner
      end
  end.
End setup_key.

(** ** What the reconciler guarantees *)
Section props.
Context `{ErrorClass} `{K8sLib}.
Context (recorder : bool).
Implicit Types (sk : SetupKey) (t : history).

Definition read_key (ns name : string) sk t : Prop :=
  Entry (KGet KSetupKey ns name) (Ok sk) ∈ t.

Abbreviation key_id sk := (sk_SetupKeyID (SetupKey_Status sk)).

(** The groups of the spec, resolved in this run. *)
Definition groups_resolved sk (gs : list string) t : Prop :=
  exists tg, runs (GetGroupIDs (sk_AutoGroups (SetupKey_Spec sk)) (meta_Namespace (SetupKey_Meta sk)))
               tg (Ok gs) /\ tg `sublist_of` t.

(** The recorded key is valid and the Secret holds it. *)
Definition usable ns sk t : Prop :=
  exists key secret, Entry (NBGet CSetupKeys (key_id sk)) (Ok key) ∈ t /\ api.k_State key = "valid" /\
    Entry (KGet KSecret ns (SecretName sk)) (Ok secret) ∈ t /\
    same_prefix (api.k_Key key) (default ""%string (secret_Data secret !! SetupKeySecretKey)) = true.

(** There is no recorded key, or it is gone, or neither valid nor overused, or
    valid but not the one of the Secret. *)
Definition unusable ns sk t : Prop :=
  key_id sk = "" \/
  (exists e, Entry (NBGet CSetupKeys (key_id sk)) (Err e) ∈ t /\ netbird_IsNotFound e = true) \/
  exists key, Entry (NBGet CSetupKeys (key_id sk)) (Ok key) ∈ t /\ api.k_State key <> "overused" /\
    (api.k_State key <> "valid" \/
     (exists e, Entry (KGet KSecret ns (SecretName sk)) (Err e) ∈ t /\ kerrors_IsNotFound e = true) \/
     exists secret, Entry (KGet KSecret ns (SecretName sk)) (Ok secret) ∈ t /\
       same_prefix (api.k_Key key) (default ""%string (secret_Data secret !! SetupKeySecretKey)) = false).

(** The new key is recorded in the status of [sk] and stored in the Secret. *)
Definition key_stored ns sk t (key : api.SetupKey) : Prop :=
  Entry (KPatch KSetupKey (set_key_id sk (api.k_Id key)) false) None ∈ t /\
  exists owner, Entry (KApply (ApplySecret (ObjectAC (SecretName sk) ns |> WithOwnerReferences [owner])%go
    {[ SetupKeySecretKey := api.k_Key key ]})) None ∈ t.

Definition with_finalizer sk : SetupKey := add_finalizer (k := KSetupKey) sk setupkey_finalizer.

Definition key_write_ok ns sk t (e : event) : Prop :=
  if deleting (SetupKey_Meta sk) then exists x, e = Entry (NBDelete CSetupKeys (key_id sk)) x
  else
    (exists gs x, groups_resolved sk gs t /\ usable ns sk t /\
       e = Entry (NBUpdate CSetupKeys (key_id sk) (api.mkSetupKeyRequest gs)) x) \/
    (exists gs x, groups_resolved sk gs t /\ unusable ns sk t /\
       e = Entry (NBCreate CSetupKeys (key_request sk gs)) x) \/
    (exists key rq x, Entry (NBCreate CSetupKeys rq) (Ok key) ∈ t /\ key_stored ns (with_finalizer sk) t key /\
       key_id sk <> "" /\ e = Entry (NBDelete CSetupKeys (key_id sk)) x).

Lemma usable_mono ns sk t t' : t ⊆ t' -> usable ns sk t -> usable ns sk t'.
Proof. unfold usable. set_solver. Qed.

Lemma unusable_mono ns sk t t' : t ⊆ t' -> unusable ns sk t -> unusable ns sk t'.
Proof.
  intros Ht [?|[(e & ? & ?)|(key & ? & ? & [?|[(e & ? & ?)|(s & ? & ?)]])]]; [by left|..].
  - right; left; eauto.
  - right; right; eauto 10.
  - right; right; eauto 12.
  - right; right; eauto 12.
Qed.

Lemma key_stored_mono ns sk t t' key : t ⊆ t' -> key_stored ns sk t key -> key_stored ns sk t' key.
Proof. intros Ht (? & owner & ?). split; eauto. Qed.

Arguments SecretName : simpl never.
Arguments same_prefix : simpl never.

(** The check writes only to update a usable key, and answers "no" only after
    it found the key unusable, having written nothing; if it answers "yes", it
    has updated the key. *)
Lemma up_to_date_spec ns sk gs :
  wp (up_to_date recorder ns sk gs) (fun t r =>
    (forall e, e ∈ t -> nb_write e -> usable ns sk t /\
       exists x, e = Entry (NBUpdate CSetupKeys (key_id sk) (api.mkSetupKeyRequest gs)) x) /\
    (r = Ok false -> unusable ns sk t /\ forall e, e ∈ t -> ~ nb_write e)).
Proof.
  unfold up_to_date, recordEvent, recordEventType. wp_run; bool_prop; trace_cases; try congruence.
  all: try match goal with H : nb_write _ |- _ => discriminate H end.
  all: first
    [ eexists; reflexivity
    | do 2 eexists; repeat split; [in_trace|done|in_trace|done]
    | left; done
    | right; left; eexists; split; [in_trace|done]
    | right; right; eexists; split; [in_trace|split; [congruence|]]; first
        [ left; done
        | right; left; eexists; split; [in_trace|done]
        | right; right; eexists; split; [in_trace|done] ] ].
Qed.

Lemma replace_key_spec ns sk gs owner :
  wp (replace_key ns sk gs owner) (fun t _ => forall e, e ∈ t -> nb_write e ->
    (exists x, e = Entry (NBCreate CSetupKeys (key_request sk gs)) x) \/
    exists key rq x, Entry (NBCreate CSetupKeys rq) (Ok key) ∈ t /\ key_stored ns sk t key /\
      key_id sk <> "" /\ e = Entry (NBDelete CSetupKeys (key_id sk)) x).
Proof.
  unfold replace_key, delete_tolerant, patch, patch_observed. wp_run; bool_prop; trace_cases.
  all: first
    [ left; eexists; reflexivity
    | right; do 3 eexists; split; [left|]; split; [|split; [done|reflexivity]];
      split; [in_trace|eexists; in_trace] ].
Qed.

(** The check neither patches nor applies nor deletes. *)
Definition checks_only (c : call) : Prop :=
  match c with KPatch _ _ _ | KApply _ | NBDelete _ _ | NBCreate _ _ => False | _ => True end.

Lemma up_to_date_calls ns sk gs : calls_in checks_only (up_to_date recorder ns sk gs).
Proof.
  unfold up_to_date, recordEvent, recordEventType.
  calls_run ltac:(apply calls_in_bind_result).
Qed.

Lemma GetGroupIDs_checks refs ns : calls_in checks_only (GetGroupIDs refs ns).
Proof. eapply calls_in_mono; [|apply GetGroupIDs_reads]. by intros []. Qed.

(** A "no" has written nothing. *)
Lemma up_to_date_no_update ns sk gs :
  wp (up_to_date recorder ns sk gs) (fun t r => r = Ok false -> forall e, e ∈ t -> ~ nb_write e).
Proof. eapply wp_mono; [apply up_to_date_spec|]. intros t r [_ Hf] Hr. by apply Hf. Qed.

(** After a "no" the readiness patch is the last step of the replacement. *)
Lemma replace_key_ready ns sk gs owner :
  wp (replace_key ns sk gs owner) (fun t _ =>
    (forall o x, Entry (KPatch KSetupKey o true) x ∈ t -> exists key,
       Entry (NBCreate CSetupKeys (key_request sk gs)) (Ok key) ∈ t /\
       o = mark_ready (k := KSetupKey) (set_key_id sk (api.k_Id key)) /\ key_stored ns sk t key /\
       (key_id sk = "" \/ nb_deleted CSetupKeys (key_id sk) t)) /\
    forall id rq x, ~ Entry (NBUpdate CSetupKeys id rq) x ∈ t).
Proof.
  unfold replace_key, delete_tolerant, patch, patch_observed.
  apply wp_and; wp_run; bool_prop; intros; intros; entry_cases; try done; try (intros ?; entry_cases; done).
  all: eexists; split; [left|]; split; [reflexivity|]; split;
    [split; [in_trace|eexists; in_trace]|].
  all: first [by left|right; eexists; split; [in_trace|done]].
Qed.

(** C27: what the SetupKey controller writes in NetBird. A deleted resource
    deletes its key. A usable key - valid, and the one of the Secret - only has
    its groups updated, to those the spec resolves to; a new key is created
    only when the recorded one is unusable, never when it is overused; and the
    old key is deleted only after the new one was recorded in the status and
    stored in the Secret. *)
Theorem SetupKey_writes ns name :
  wp (Reconcile recorder ns name) (fun t _ =>
    forall e, e ∈ t -> nb_write e -> exists sk, read_key ns name sk t /\ key_write_ok ns sk t e).
Proof.
  unfold Reconcile. cbn [bind ask perform wp]. intros [sk|e]; [|cbn; trace_cases].
  destruct (ControllerReference _ _) as [owner|e]; [|cbn; trace_cases].
  destruct (deleting _) eqn:Hdel.
  { unfold reconcileDelete, delete_tolerant, patch. wp_run; trace_cases.
    all: exists sk; split; [left|]; unfold key_write_ok; rewrite Hdel; eexists; reflexivity. }
  cbn zeta. set (sk1 := add_finalizer (k := KSetupKey) sk setupkey_finalizer).
  unfold patch at 1. cbn [then_outcome bind ask perform wp]. intros [e|]; [cbn; trace_cases|].
  apply wp_bind_outcome. eapply wp_mono;
    [apply wp_and; [apply reads_no_writes, GetGroupIDs_reads|by apply wp_all]|].
  intros tg [gs|e] [Hnw Hrun]; [|cbn; trace_cases].
  assert (forall t, groups_resolved sk gs (Entry (KGet KSetupKey ns name) (Ok sk) ::
    Entry (KPatch KSetupKey sk1 false) None :: tg ++ t)) as Hgs.
  { intros t. exists tg. split; [exact Hrun|]. apply sublist_cons, sublist_cons, sublist_inserts_r; done. }
  apply wp_bind_outcome. eapply wp_mono; [apply up_to_date_spec|].
  intros tu ok [Hu Hun].
  assert (forall t' e, e ∈ tu -> nb_write e ->
    key_write_ok ns sk (Entry (KGet KSetupKey ns name) (Ok sk) ::
      Entry (KPatch KSetupKey sk1 false) None :: tg ++ tu ++ t') e) as Hup.
  { intros t' e He Hw. destruct (Hu e He Hw) as [Hus [x ->]]. unfold key_write_ok. rewrite Hdel.
    left. exists gs, x. split; [apply Hgs|split; [|done]]. eapply usable_mono; [|exact Hus]. set_solver. }
  assert (forall t' e, e ∈ Entry (KGet KSetupKey ns name) (Ok sk) ::
    Entry (KPatch KSetupKey sk1 false) None :: tg ++ tu ++ t' -> nb_write e -> e ∈ tu \/ e ∈ t') as Hrest.
  { intros t' e He Hw. do 2 (apply elem_of_cons in He as [->|He]; [discriminate Hw|]).
    apply elem_of_app in He as [He|He]; [by destruct (Hnw e He)|by apply elem_of_app]. }
  destruct ok as [[|]|e]; cbn [wp].
  2: { destruct (Hun eq_refl) as [Hus Hnu]. eapply wp_mono; [apply replace_key_spec|].
    intros tr out Hr e He Hw. exists sk. split; [left|].
    apply Hrest in He as [He|He]; [by destruct (Hnu e He Hw)| |done].
    unfold key_write_ok. rewrite Hdel. right. destruct (Hr e He Hw) as [[x ->]|(key & rq & x & ? & ? & ? & ->)].
    - left. exists gs, x. split; [apply Hgs|split; [|done]]. eapply unusable_mono; [|exact Hus]. set_solver.
    - right. exists key, rq, x. split; [set_solver|]. split; [|done].
      eapply key_stored_mono; [|eassumption]. set_solver. }
  all: intros e' He Hw; exists sk; (split; [left|]).
  2: rewrite <- (app_nil_r tu) in He |- *.
  all: apply Hup; [|done]; apply Hrest in He as [He|He]; [done|set_solver|done].
Qed.

(** C28: readiness. The readiness patch is sent only by a reconcile that created
    a key, after its id was recorded, its plain text stored in the Secret and
    the key it replaces - if any - is gone. A reconcile that finds the recorded
    key usable, and so updates it, deletes nothing and never reports readiness:
    when the delete of a replaced key fails, no later reconcile takes it up
    again as long as the new key is usable. *)
Theorem SetupKey_ready ns name :
  wp (Reconcile recorder ns name) (fun t _ =>
    (forall o x, Entry (KPatch KSetupKey o true) x ∈ t -> exists sk key rq, read_key ns name sk t /\
       let sk' := with_finalizer sk in
       Entry (NBCreate CSetupKeys rq) (Ok key) ∈ t /\
       o = mark_ready (k := KSetupKey) (set_key_id sk' (api.k_Id key)) /\ key_stored ns sk' t key /\
       (key_id sk = "" \/ nb_deleted CSetupKeys (key_id sk) t)) /\
    (forall id rq u, Entry (NBUpdate CSetupKeys id rq) u ∈ t ->
       (forall o x, ~ Entry (KPatch KSetupKey o true) x ∈ t) /\
       forall id' x, ~ Entry (NBDelete CSetupKeys id') x ∈ t)).
Proof.
  unfold Reconcile. cbn [bind ask perform wp]. intros [sk|e];
    [|cbn; split; intros; entry_cases].
  destruct (ControllerReference _ _) as [owner|e]; [|cbn; split; intros; entry_cases].
  destruct (deleting _) eqn:Hdel.
  { unfold reconcileDelete, delete_tolerant, patch. wp_run; split; intros; entry_cases. }
  cbn zeta. set (sk1 := add_finalizer (k := KSetupKey) sk setupkey_finalizer).
  unfold patch at 1. cbn [then_outcome bind ask perform wp].
  intros [e|]; [cbn; split; intros; entry_cases|].
  apply wp_bind_outcome. eapply wp_mono;
    [apply wp_and; [apply reads_no_writes, GetGroupIDs_reads|apply calls_in_wp, GetGroupIDs_checks]|].
  intros tg [gs|e] [Hnw Hck];
    [|cbn; split; [intros o x Hin|intros id rq u Hin]; entry_cases;
      first [by apply Hnw in Hin|by apply Hck in Hin]].
  apply wp_bind_outcome. eapply wp_mono;
    [apply wp_and; [apply up_to_date_no_update|apply calls_in_wp, up_to_date_calls]|].
  intros tu ok [Hnu Hcu].
  set (hd := Entry (KGet KSetupKey ns name) (Ok sk) :: Entry (KPatch KSetupKey sk1 false) None :: tg ++ tu).
  assert ((forall o x, ~ Entry (KPatch KSetupKey o true) x ∈ hd) /\
          forall id' x, ~ Entry (NBDelete CSetupKeys id') x ∈ hd) as [Hp Hd].
  { subst hd. split; intros ? ? Hin; entry_cases; apply elem_of_app in Hin as [Hin|Hin];
      first [by apply Hck in Hin|by apply Hcu in Hin]. }
  destruct ok as [[|]|e]; cbn [wp]; rewrite ?app_nil_r; fold hd;
    try (split; [intros o x Hin; by destruct (Hp o x)|done]).
  eapply wp_mono; [apply replace_key_ready|]. intros tr out [Hr Hru].
  change (Entry (KGet KSetupKey ns name) (Ok sk) :: _) with (Entry (KGet KSetupKey ns name) (Ok sk) ::
    Entry (KPatch KSetupKey sk1 false) None :: tg ++ tu ++ tr).
  replace (_ :: _ :: tg ++ tu ++ tr) with (hd ++ tr) by (unfold hd; cbn; by rewrite app_assoc).
  split; [|intros id rq u Hin; exfalso].
  - intros o x Hin. apply elem_of_app in Hin as [Hin|Hin]; [by destruct (Hp o x)|].
    destruct (Hr o x Hin) as (key & Hc & -> & Hst & Hold). exists sk, key, (key_request sk1 gs).
    split; [apply elem_of_app; left; left|]. cbn zeta. split; [set_solver|]. split; [done|].
    split; [eapply key_stored_mono; [|exact Hst]; set_solver|].
    destruct Hold as [?|Hold]; [by left|right]. eapply nb_deleted_mono; [|exact Hold]. set_solver.
  - apply elem_of_app in Hin as [Hin|Hin]; [|by apply Hru in Hin].
    unfold hd in Hin. entry_cases. apply elem_of_app in Hin as [Hin|Hin];
      [by apply Hnw in Hin|by apply (Hnu eq_refl) in Hin].
Qed.
End props.
