(* ===== verification/Router.v ===== *)
(** * Network routers ([networkrouter_controller.go])

    A NetworkRouter custom resource owns one router of a NetBird network: the
    binding of a group of routing peers to the network.  The peers are an
    existing group, or are deployed by the operator as a DaemonSet of NetBird
    clients with a Group and a SetupKey of their own. *)

From stdpp Require Import base gmap list strings.
From Stdlib Require Import ZArith Lia.
From S2P Require Import Prelude GoStrings GoErr Prog ApiTypes K8sTypes ApplyConf Env NetbirdUtil Reconcile Mirror SetupKeyCtl.

Open Scope Z_scope.
Open Scope prog_scope.

Definition router_finalizer : string := Finalizer "networkrouter".
Definition router_child (nr : NetworkRouter) : string := meta_Name (NetworkRouter_Meta nr) +:+ "-router".
Definition router_group_name (nr : NetworkRouter) : string :=
  "networkrouter-" +:+ meta_Namespace (NetworkRouter_Meta nr) +:+ "-" +:+ meta_Name (NetworkRouter_Meta nr).

Arguments router_child : simpl never.
Arguments router_group_name : simpl never.

Definition router_status (nr : NetworkRouter) (network router group : string) : NetworkRouter :=
  let st := NetworkRouter_Status nr in
  mkNetworkRouter (NetworkRouter_Meta nr) (NetworkRouter_Spec nr)
    (mkNetworkRouterStatus (router_ObservedGeneration st) (router_Conditions st) network router group).

(** A router recorded in another network is gone with that network. *)
Definition set_network (nr : NetworkRouter) (networkID : string) : NetworkRouter :=
  let st := NetworkRouter_Status nr in
  router_status nr networkID
    (if negb (String.eqb (router_NetworkID st) "") && negb (String.eqb (router_NetworkID st) networkID)
     then "" else router_RouterID st) (router_GroupID st).

Definition set_group (nr : NetworkRouter) (groupID : string) : NetworkRouter :=
  let st := NetworkRouter_Status nr in
  router_status nr (router_NetworkID st) (router_RouterID st) groupID.

Definition set_router (nr : NetworkRouter) (routerID : string) : NetworkRouter :=
  let st := NetworkRouter_Status nr in
  router_status nr (router_NetworkID st) routerID (router_GroupID st).

Definition router_request (spec : NetworkRouterSpec) (groupID : string) : api.NetworkRouterRequest :=
  api.mkNetworkRouterRequest (router_Enabled spec) (router_Masquerade spec) (router_Metric spec)
    (Some [groupID]).

(** ** The DaemonSet of routing peers *)

Definition router_labels (nr : NetworkRouter) : gmap string string :=
  {[ "app.kubernetes.io/name" := "netbird-router";
     "app.kubernetes.io/instance" := meta_Name (NetworkRouter_Meta nr) ]}.

Definition router_image (ClientImage : string) (nr : NetworkRouter) : string :=
  match peers_Deploy (router_Peers (NetworkRouter_Spec nr)) with
  | Some deploy => if String.eqb (rd_Image deploy) "" then ClientImage else rd_Image deploy
  | None => ClientImage
  end.

Definition router_log_level (nr : NetworkRouter) : string :=
  match peers_Deploy (router_Peers (NetworkRouter_Spec nr)) with
  | Some deploy => if String.eqb (rd_LogLevel deploy) "" then "info" else rd_LogLevel deploy
  | None => "info"
  end.

Definition netbird_check (what : string) : option Probe :=
  Some (mkProbe (Exec ["netbird"; "status"; "--check"; what]%string) None None).

Definition router_container (ClientImage ManagementURL : string) (nr : NetworkRouter) (setupKey : SetupKey) :
    Container :=
  mkContainer "netbird" (router_image ClientImage nr) [] []
    [mkEnv "NB_SETUP_KEY" (EnvSecret (SecretName setupKey) SetupKeySecretKey);
     mkEnv "NB_MANAGEMENT_URL" (EnvValue ManagementURL);
     mkEnv "NB_LOG_LEVEL" (EnvValue (router_log_level nr));
     mkEnv "NB_LOG_FILE" (EnvValue "console");
     mkEnv "NB_DISABLE_PROFILES" (EnvValue "true");
     mkEnv "NB_DISABLE_UPDATE_SETTINGS" (EnvValue "true");
     mkEnv "NB_DAEMON_ADDR" (EnvValue "unix:///var/run/netbird/netbird.sock");
     mkEnv "NB_ENTRYPOINT_SERVICE_TIMEOUT" (EnvValue "0")]
    (netbird_check "startup") (netbird_check "ready") None
    [mkVolumeMount "netbird-run" "/var/run/netbird" None; mkVolumeMount "netbird-lib" "/var/lib/netbird" None]
    (Some (mkSecurityContext None (Some true) None None
             ["NET_ADMIN"; "SYS_RESOURCE"; "SYS_ADMIN"]%string []))
    [("cpu", "100m"); ("memory", "128Mi")]%string None.

Definition router_pod (ClientImage ManagementURL : string) (nr : NetworkRouter) (setupKey : SetupKey) : PodSpec :=
  mkPodSpec (Some true) (Some "ClusterFirstWithHostNet") [] None []
    (match peers_Deploy (router_Peers (NetworkRouter_Spec nr)) with
     | Some deploy => rd_NodeSelector deploy
     | None => ∅
     end)
    [router_container ClientImage ManagementURL nr setupKey]
    [mkVolume "netbird-run" EmptyDir; mkVolume "netbird-lib" EmptyDir].

Section router.
Context `{ErrorClass} `{K8sLib}.
Context (ClientImage ManagementURL : string).

Definition router_daemonset (nr : NetworkRouter) (ownerRef : OwnerReference) (setupKey : SetupKey) : applyconf :=
  ApplyDaemonSet
    (ObjectAC (router_child nr) (meta_Namespace (NetworkRouter_Meta nr))
      |> WithOwnerReferences [ownerRef] |> WithLabels (router_labels nr))%go
    (mkWorkloadSpec None (router_labels nr) (router_labels nr)
       (router_pod ClientImage ManagementURL nr setupKey)).

Definition ensureDaemonSet (nr : NetworkRouter) (ownerRef : OwnerReference) (setupKey : SetupKey) :
    M (option error) :=
  ask (KApply (router_daemonset nr ownerRef setupKey)).

Definition router_group_ac (nr : NetworkRouter) (ownerRef : OwnerReference) : applyconf :=
  ApplyGroup
    (ObjectAC (router_child nr) (meta_Namespace (NetworkRouter_Meta nr)) |> WithOwnerReferences [ownerRef])%go
    (ACGroupSpec.new |> ACGroupSpec.WithName (router_group_name nr))%go.

Definition router_key_ac (nr : NetworkRouter) (ownerRef : OwnerReference) : applyconf :=
  ApplySetupKey
    (ObjectAC (router_child nr) (meta_Namespace (NetworkRouter_Meta nr)) |> WithOwnerReferences [ownerRef])%go
    (ACSetupKeySpec.new
      |> ACSetupKeySpec.WithName (router_group_name nr)
      |> ACSetupKeySpec.WithEphemeral true
      |> ACSetupKeySpec.WithAutoGroups
           [(ACGroupReference.new |> ACGroupReference.WithLocalRef (router_child nr))%go])%go.

(** [return "", client.IgnoreNotFound(err)]. *)
Definition ignore_not_found_id (e : error) : result error string :=
  match IgnoreNotFound e with None => Ok ""%string | Some e => Err e end.

Definition ensureDeployedPeers (nr : NetworkRouter) : M (result error string) :=
  let ns := meta_Namespace (NetworkRouter_Meta nr) in
  let name := router_child nr in
  match ControllerReference KNetworkRouter (NetworkRouter_Meta nr) with
  | Err e => Ret (Err e)
  | Ok ownerRef =>
      do? ask (KApply (router_group_ac nr ownerRef)) in
      let! group := ask (KGet KGroup ns name) in
      match group with
      | Err e => Ret (ignore_not_found_id e)
      | Ok group =>
          if String.eqb (group_GroupID (Group_Status group)) ""
          then Ret (Err (dependency_not_ready "router group not ready"))
          else
            do? ask (KApply (router_key_ac nr ownerRef)) in
            let! setupKey := ask (KGet KSetupKey ns name) in
            match setupKey with
            | Err e => Ret (ignore_not_found_id e)
            | Ok setupKey =>
                if String.eqb (sk_SetupKeyID (SetupKey_Status setupKey)) ""
                then Ret (Err (dependency_not_ready "router setup key not ready"))
                else
                  do? ensureDaemonSet nr ownerRef setupKey in
                  let! ds := ask (KGet KDaemonSet ns name) in
                  match ds with
                  | Err e => Ret (ignore_not_found_id e)
                  | Ok ds =>
                      if (ds_DesiredNumberScheduled ds =? 0)
                         || negb (ds_NumberReady ds =? ds_DesiredNumberScheduled ds)
                      then Ret (Err (dependency_not_ready "router pods not ready"))
                      else Ret (Ok (group_GroupID (Group_Status group)))
                  end
            end
      end
  end.

Definition resolvePeerGroup (nr : NetworkRouter) : M (result error string) :=
  match peers_Group (router_Peers (NetworkRouter_Spec nr)) with
  | Some g =>
      let? ids := GetGroupIDs [g] (meta_Namespace (NetworkRouter_Meta nr)) in
      Ret (match ids with
           | [] => Err (dependency_not_ready "peer group not resolved")
           | id :: _ => if String.eqb id "" then Err (dependency_not_ready "peer group not resolved") else Ok id
           end)
  | None => ensureDeployedPeers nr
  end.

Definition upsertRouter (networkID routerID groupID : string) (spec : NetworkRouterSpec) :
    M (result error string) :=
  let req := router_request spec groupID in
  let? routerID := verifyNetbirdID routerID (get_err (CRouters networkID)) in
  let? router :=
    if negb (String.eqb routerID "")
    then ask (NBUpdate (CRouters networkID) routerID req)
    else ask (NBCreate (CRouters networkID) req) in
  Ret (Ok (api.rt_Id router)).

Definition reconcileDelete (nr : NetworkRouter) : M outcome :=
  let st := NetworkRouter_Status nr in
  do^ if negb (String.eqb (router_NetworkID st) "") && negb (String.eqb (router_RouterID st) "")
      then delete_tolerant (CRouters (router_NetworkID st)) (router_RouterID st)
      else Ret None in
  do^ patch (k := KNetworkRouter) (remove_finalizer (k := KNetworkRouter) nr router_finalizer) in
  Ret (no_requeue, None).

(** Not ready and a retry for a missing dependency, an error otherwise. *)
Definition dependency (nr : NetworkRouter) (e : error) : M outcome :=
  if negb (errors_Is e ErrDependencyNotReady) then Ret (fail_with e)
  else
    do^ patch (k := KNetworkRouter) (mark_not_ready (k := KNetworkRouter) nr (Error e)) in
    Ret (requeue_after dependencyRetry, None).

(** The reconcile of a live router, after its finalizer was stored. *)
Definition sync (nr : NetworkRouter) : M outcome :=
  let! network := resolveNetworkID (router_NetworkRef (NetworkRouter_Spec nr)) in
  match network with
  | Err e => dependency nr e
  | Ok networkID =>
      let nr := set_network nr networkID in
      let! group := resolvePeerGroup nr in
      match group with
      | Err e => dependency nr e
      | Ok groupID =>
          let nr := set_group nr groupID in
          let^ routerID := upsertRouter networkID (router_RouterID (NetworkRouter_Status nr)) groupID
                             (NetworkRouter_Spec nr) in
          let nr := set_router nr routerID in
          do^ patch_observed (k := KNetworkRouter) (mark_ready (k := KNetworkRouter) nr) in
          Ret (requeue_after resyncInterval, None)
      end
  end.

Definition Reconcile (ns name : string) : M outcome :=
  let! got := ask (KGet KNetworkRouter ns name) in
  match got with
  | Err e => Ret (no_requeue, IgnoreNotFound e)
  | Ok nr =>
      if deleting (NetworkRouter_Meta nr) then reconcileDelete nr
      else
        let nr := add_finalizer (k := KNetworkRouter) nr router_finalizer in
        do^ patch (k := KNetworkRouter) nr in
        sync nr
  end.
End router.
Arguments dependency : simpl never.

(** ** What the reconciler guarantees *)
Section props.
Context `{ErrorClass} `{K8sLib}.
Context (ClientImage ManagementURL : string).
Implicit Types (nr : NetworkRouter) (t : history).

Abbreviation Reconcile_ := (Reconcile ClientImage ManagementURL).
Abbreviation router_ns nr := (meta_Namespace (NetworkRouter_Meta nr)).
Abbreviation network_id n := (net_NetworkID (Network_Status n)).

Definition read_router (ns name : string) nr t : Prop :=
  Entry (KGet KNetworkRouter ns name) (Ok nr) ∈ t.

(** The network the spec names has this id. *)
Definition network_resolved nr (id : string) t : Prop :=
  exists n, Entry (KGet KNetwork (ref_Namespace (router_NetworkRef (NetworkRouter_Spec nr)))
                     (ref_Name (router_NetworkRef (NetworkRouter_Spec nr)))) (Ok n) ∈ t /\
    network_id n = id /\ id <> "".

(** Group, setup key and DaemonSet were applied and are ready: both ids are
    there, and every scheduled pod - at least one - is ready. *)
Definition peers_deployed nr (gid : string) t : Prop :=
  exists owner group key ds,
    Entry (KApply (router_group_ac nr owner)) None ∈ t /\
    Entry (KGet KGroup (router_ns nr) (router_child nr)) (Ok group) ∈ t /\
    group_GroupID (Group_Status group) = gid /\ gid <> "" /\
    Entry (KApply (router_key_ac nr owner)) None ∈ t /\
    Entry (KGet KSetupKey (router_ns nr) (router_child nr)) (Ok key) ∈ t /\
    sk_SetupKeyID (SetupKey_Status key) <> "" /\
    Entry (KApply (router_daemonset ClientImage ManagementURL nr owner key)) None ∈ t /\
    Entry (KGet KDaemonSet (router_ns nr) (router_child nr)) (Ok ds) ∈ t /\
    ds_DesiredNumberScheduled ds <> 0 /\ ds_NumberReady ds = ds_DesiredNumberScheduled ds.

(** One of the three was not found right after it was applied. *)
Definition child_missing nr t : Prop :=
  exists k e, (k = KGroup \/ k = KSetupKey \/ k = KDaemonSet) /\ IgnoreNotFound e = None /\
    Entry (KGet k (router_ns nr) (router_child nr)) (Err e) ∈ t.

Definition peer_group nr (gid : string) t : Prop :=
  match peers_Group (router_Peers (NetworkRouter_Spec nr)) with
  | Some g => gid <> "" /\ exists ids tg,
      runs (GetGroupIDs [g] (router_ns nr)) tg (Ok (gid :: ids)) /\ tg ⊆ t
  | None => peers_deployed nr gid t \/ (gid = "" /\ child_missing nr t)
  end.

(** The request carries the settings of the spec and this one peer group. *)
Definition settings_of (spec : NetworkRouterSpec) (gid : string) (rq : api.NetworkRouterRequest) : Prop :=
  api.rtq_Enabled rq = router_Enabled spec /\ api.rtq_Masquerade rq = router_Masquerade spec /\
  api.rtq_Metric rq = router_Metric spec /\ api.rtq_PeerGroups rq = Some [gid].

Lemma router_request_settings spec gid : settings_of spec gid (router_request spec gid).
Proof. done. Qed.

(** The call that brings router [rid] of a network - or a new one - up to date. *)
Definition router_upsert (network rid gid : string) (spec : NetworkRouterSpec) t (e : event) : Prop :=
  (rid <> "" /\ exists found rq x, Entry (NBGet (CRouters network) rid) (Ok found) ∈ t /\
     settings_of spec gid rq /\ e = Entry (NBUpdate (CRouters network) rid rq) x) \/
  (exists rq x, settings_of spec gid rq /\ e = Entry (NBCreate (CRouters network) rq) x /\
     (rid = "" \/ exists err, netbird_IsNotFound err = true /\
        Entry (NBGet (CRouters network) rid) (Err err) ∈ t)).

(** The router recorded for the network, none when it was another one's. *)
Definition recorded_router nr (network : string) : string :=
  let st := NetworkRouter_Status nr in
  if decide (router_NetworkID st = "" \/ router_NetworkID st = network) then router_RouterID st else "".

Lemma recorded_router_spec nr network :
  router_RouterID (NetworkRouter_Status (set_network nr network)) = recorded_router nr network.
Proof.
  unfold recorded_router, set_network, router_status. cbn.
  destruct (String.eqb_spec (router_NetworkID (NetworkRouter_Status nr)) ""), (String.eqb_spec (router_NetworkID (NetworkRouter_Status nr)) network);
    cbn; case_decide; naive_solver.
Qed.

Definition router_write_ok nr t (e : event) : Prop :=
  let st := NetworkRouter_Status nr in
  if deleting (NetworkRouter_Meta nr) then
    router_NetworkID st <> "" /\ router_RouterID st <> "" /\
    exists x, e = Entry (NBDelete (CRouters (router_NetworkID st)) (router_RouterID st)) x
  else exists network gid, network_resolved nr network t /\ peer_group nr gid t /\
    router_upsert network (recorded_router nr network) gid (NetworkRouter_Spec nr) t e.

Lemma peers_deployed_mono nr gid t t' : t ⊆ t' -> peers_deployed nr gid t -> peers_deployed nr gid t'.
Proof.
  intros Ht (owner & group & key & ds & ? & ? & ? & ? & ? & ? & ? & ? & ? & ?).
  exists owner, group, key, ds. repeat (split; [by auto|]). auto.
Qed.

Lemma peer_group_mono nr gid t t' : t ⊆ t' -> peer_group nr gid t -> peer_group nr gid t'.
Proof.
  unfold peer_group. intros Ht. destruct (peers_Group _).
  - intros (? & ids & tg & ? & ?). split; [done|]. exists ids, tg. split; [done|set_solver].
  - intros [?|(? & k & e & ? & ? & ?)]; [left; by eapply peers_deployed_mono|right; split; [done|]].
    exists k, e. auto.
Qed.

(** Resolving the peers writes nothing in NetBird and does not touch the
    router resource. *)
Definition no_router_patch (c : call) : Prop :=
  is_nb_write c = false /\ not_patch KNetworkRouter c.

Lemma resolvePeerGroup_calls nr : calls_in no_router_patch (resolvePeerGroup ClientImage ManagementURL nr).
Proof.
  unfold resolvePeerGroup, ensureDeployedPeers, ensureDaemonSet. destruct (peers_Group _) as [g|].
  - apply calls_in_bind_result; [|done]. eapply calls_in_mono; [|apply GetGroupIDs_reads]. by intros [].
  - calls_run fail.
Qed.

(** No write in NetBird, no patch of a router resource. *)
Definition router_quiet t : Prop :=
  (forall e, e ∈ t -> ~ nb_write e) /\ forall o b x, ~ Entry (KPatch KNetworkRouter o b) x ∈ t.

Lemma router_quiet_app t t' : router_quiet t -> router_quiet t' -> router_quiet (t ++ t').
Proof.
  intros [H1 H2] [H1' H2']. split.
  - intros e [?|?]%elem_of_app; auto.
  - intros o b x [?|?]%elem_of_app; [by eapply H2|by eapply H2'].
Qed.

Lemma resolvePeerGroup_quiet nr :
  wp (resolvePeerGroup ClientImage ManagementURL nr) (fun t _ => router_quiet t).
Proof.
  eapply wp_mono; [apply calls_in_wp, resolvePeerGroup_calls|]. intros t out Ht. split.
  - intros [c r] Hin Hw. apply Ht in Hin as [Hc _]. unfold nb_write in Hw. cbn in *. congruence.
  - intros o b x Hin. apply Ht in Hin as [_ Hk]. by apply Hk.
Qed.

Lemma resolvePeerGroup_spec nr :
  wp (resolvePeerGroup ClientImage ManagementURL nr) (fun t r =>
    forall gid, r = Ok gid -> peer_group nr gid t).
Proof.
  unfold resolvePeerGroup, peer_group. destruct (peers_Group _) as [g|].
  - apply wp_bind_result, wp_all. intros tg [[|id ids]|e] Hr; cbn; try done.
    destruct (String.eqb_spec id ""); [done|]. intros gid [= <-]. split; [done|].
    exists ids, tg. rewrite app_nil_r. done.
  - unfold ensureDeployedPeers, ensureDaemonSet, ignore_not_found_id.
    wp_run; try match goal with H : context [IgnoreNotFound ?e] |- _ => destruct (IgnoreNotFound e) eqn:? end;
      simplify_eq; bool_prop.
    1: left; exists a, a0, a1, a2; repeat (split; [first [in_trace|done|lia]|]); lia.
    all: right; split; [done|].
    1: exists KDaemonSet, e. 2: exists KSetupKey, e. 3: exists KGroup, e.
    all: (split; [by auto|split; [done|in_trace]]).
Qed.

Lemma upsertRouter_spec network rid gid spec :
  wp (upsertRouter network rid gid spec) (fun t r =>
    (forall e, e ∈ t -> nb_write e -> router_upsert network rid gid spec t e) /\
    (forall o b x, ~ Entry (KPatch KNetworkRouter o b) x ∈ t) /\
    forall id, r = Ok id -> exists router, api.rt_Id router = id /\
      ((exists rq, Entry (NBUpdate (CRouters network) rid rq) (Ok router) ∈ t) \/
       exists rq, Entry (NBCreate (CRouters network) rq) (Ok router) ∈ t)).
Proof.
  unfold upsertRouter, verifyNetbirdID, get_err.
  apply wp_and; [|apply wp_and]; wp_run; bool_prop; simplify_eq.
  all: try (intros ?; entry_cases; done).
  all: try (eexists; split; [reflexivity|]; first [left; eexists; in_trace|right; eexists; in_trace]).
  all: trace_cases; first
    [ left; split; [done|]; do 3 eexists; split; [in_trace|]; split; [apply router_request_settings|reflexivity]
    | right; do 2 eexists; split; [apply router_request_settings|]; split; [reflexivity|]; first [by left|right; eexists; split; [eassumption|in_trace]] ].
Qed.

Lemma resolveNetworkID_spec nr :
  wp (resolveNetworkID (router_NetworkRef (NetworkRouter_Spec nr))) (fun t r =>
    router_quiet t /\ forall id, r = Ok id -> network_resolved nr id t).
Proof.
  unfold resolveNetworkID, router_quiet. wp_run; trace_cases; entry_cases; bool_prop; simplify_eq; try done.
  eexists. split; [in_trace|done].
Qed.

(** What the patches of a live reconcile say. *)
Definition router_patch_ok nr t (o : NetworkRouter) (observed : bool) : Prop :=
  if observed then exists network gid router, network_resolved nr network t /\ peer_group nr gid t /\
    o = mark_ready (k := KNetworkRouter) (router_status nr network (api.rt_Id router) gid) /\
    ((exists rid rq, Entry (NBUpdate (CRouters network) rid rq) (Ok router) ∈ t) \/
     exists rq, Entry (NBCreate (CRouters network) rq) (Ok router) ∈ t)
  else exists nr' e, errors_Is e ErrDependencyNotReady = true /\
    o = mark_not_ready (k := KNetworkRouter) nr' (Error e) /\
    (nr' = nr \/ exists network, network_resolved nr network t /\ nr' = set_network nr network).

Lemma network_resolved_mono nr id t t' : t ⊆ t' -> network_resolved nr id t -> network_resolved nr id t'.
Proof. intros Ht (n & ? & ?). exists n. auto. Qed.

Lemma router_patch_ok_mono nr t t' o b : t ⊆ t' -> router_patch_ok nr t o b -> router_patch_ok nr t' o b.
Proof.
  intros Ht. pose proof (fun n => network_resolved_mono nr n _ _ Ht) as Hn. destruct b; cbn.
  - intros (n & gid & router & ? & Hg & ? & Hr). exists n, gid, router. split; [auto|].
    split; [by eapply peer_group_mono|]. split; [done|].
    destruct Hr as [(rid & rq & ?)|(rq & ?)]; [left|right]; eauto.
  - intros (nr' & e & ? & ? & [?|(n & ? & ?)]); exists nr', e; eauto 10.
Qed.

Lemma router_dependency_spec nr e :
  wp (dependency nr e) (fun t _ => (forall e', e' ∈ t -> ~ nb_write e') /\
    forall o b x, Entry (KPatch KNetworkRouter o b) x ∈ t -> b = false /\
      errors_Is e ErrDependencyNotReady = true /\ o = mark_not_ready (k := KNetworkRouter) nr (Error e)).
Proof.
  unfold dependency, patch. apply wp_and; wp_run; intros; entry_cases; bool_prop; trace_cases; done.
Qed.

(** A missing dependency after a quiet trace. *)
Lemma dependency_after nr nr' e tq :
  router_quiet tq -> (nr' = nr \/ exists network, network_resolved nr network tq /\ nr' = set_network nr network) ->
  wp (dependency nr' e) (fun t _ =>
    (forall e, e ∈ tq ++ t -> nb_write e -> exists network gid, network_resolved nr network (tq ++ t) /\
       peer_group nr gid (tq ++ t) /\
       router_upsert network (recorded_router nr network) gid (NetworkRouter_Spec nr) (tq ++ t) e) /\
    forall o b x, Entry (KPatch KNetworkRouter o b) x ∈ tq ++ t -> router_patch_ok nr (tq ++ t) o b).
Proof.
  intros [Hnw Hnp] Hnr. eapply wp_mono; [apply router_dependency_spec|]. intros t _ [Hd Hp]. split.
  - intros e' [He|He]%elem_of_app Hw; [by destruct (Hnw e')|by destruct (Hd e')].
  - intros o b x [He|He]%elem_of_app; [by destruct (Hnp _ _ _ He)|].
    destruct (Hp _ _ _ He) as (-> & ? & ->). exists nr', e. split; [done|split; [done|]].
    destruct Hnr as [?|(n & ? & ?)]; [by left|right]. exists n. split; [|done].
    eapply network_resolved_mono; [|done]. set_solver.
Qed.

Lemma router_upsert_mono network rid gid spec t t' e :
  t ⊆ t' -> router_upsert network rid gid spec t e -> router_upsert network rid gid spec t' e.
Proof.
  intros Ht [(? & f & rq & x & ? & ? & ?)|(rq & x & ? & ? & [?|(err & ? & ?)])].
  - left. split; [done|]. exists f, rq, x. auto.
  - right. exists rq, x. auto.
  - right. exists rq, x. split; [done|]. split; [done|]. right. exists err. auto.
Qed.

Lemma sync_spec nr :
  wp (sync ClientImage ManagementURL nr) (fun t _ =>
    (forall e, e ∈ t -> nb_write e -> exists network gid, network_resolved nr network t /\
       peer_group nr gid t /\ router_upsert network (recorded_router nr network) gid (NetworkRouter_Spec nr) t e) /\
    forall o b x, Entry (KPatch KNetworkRouter o b) x ∈ t -> router_patch_ok nr t o b).
Proof.
  unfold sync. apply wp_bind. eapply wp_mono; [apply resolveNetworkID_spec|].
  intros tn [network|e] [Hqn Hn]; cbn beta in *; [|by apply dependency_after; auto].
  specialize (Hn network eq_refl). cbn zeta. apply wp_bind. eapply wp_mono.
  { apply wp_and; [apply resolvePeerGroup_spec|apply resolvePeerGroup_quiet]. }
  intros tg [gid|e] [Hg Hqg]; cbn beta in *.
  2: { eapply wp_mono; [apply (dependency_after nr _ _ (tn ++ tg)); [by apply router_quiet_app|]|].
    - right. exists network. split; [|done]. eapply network_resolved_mono; [|done]. set_solver.
    - intros t out Ht. rewrite app_assoc. exact Ht. }
  specialize (Hg gid eq_refl). destruct (router_quiet_app _ _ Hqn Hqg) as [Hnw Hnp].
  assert (forall t, network_resolved nr network ((tn ++ tg) ++ t) /\ peer_group nr gid ((tn ++ tg) ++ t)) as Hok.
  { intros t. split; [eapply network_resolved_mono; [|exact Hn]|eapply peer_group_mono; [|exact Hg]]; set_solver. }
  apply wp_bind_outcome. change (router_RouterID _) with (router_RouterID (NetworkRouter_Status (set_network nr network))).
  rewrite recorded_router_spec. eapply wp_mono; [apply upsertRouter_spec|].
  intros tu res (Hw & Hp & Hid).
  assert (forall t e, e ∈ (tn ++ tg) ++ tu ++ t -> nb_write e ->
    router_upsert network (recorded_router nr network) gid (NetworkRouter_Spec nr) ((tn ++ tg) ++ tu ++ t) e \/
    e ∈ t) as Hws.
  { intros t e He Hwe. apply elem_of_app in He as [He|He]; [by destruct (Hnw e)|].
    apply elem_of_app in He as [He|He]; [left|by right]. eapply router_upsert_mono; [|by apply Hw]. set_solver. }
  destruct res as [rid|e].
  - destruct (Hid rid eq_refl) as (router & <- & Hr). unfold patch_observed.
    cbn [then_outcome bind ask perform wp]. intros x. cbv beta iota.
    set (o1 := mark_ready (k := KNetworkRouter) _). set (e1 := Entry (KPatch KNetworkRouter o1 true) x).
    destruct (Hok (tu ++ [e1])) as [Hn' Hg'].
    destruct x; cbn [wp]; rewrite app_assoc; (split; [intros e' He Hwe|intros o b y Hin]).
    1, 3: destruct (Hws _ _ He Hwe) as [?|He1]; [by exists network, gid|];
      apply elem_of_cons in He1 as [->|He1]; [discriminate Hwe|by apply not_elem_of_nil in He1].
    all: apply elem_of_app in Hin as [Hin|Hin]; [by destruct (Hnp _ _ _ Hin)|];
      apply elem_of_app in Hin as [Hin|Hin]; [by destruct (Hp _ _ _ Hin)|];
      apply list_elem_of_singleton, patch_inj in Hin as [-> ->]; exists network, gid, router; split; [done|split; [done|split; [done|]]];
      destruct Hr as [[rq ?]|[rq ?]]; [left; exists (recorded_router nr network), rq|right; exists rq]; set_solver.
  - rewrite app_assoc. destruct (Hok tu) as [Hn' Hg']. specialize (Hws []). rewrite app_nil_r in Hws.
    split; [intros e' He Hwe|intros o b y Hin; exfalso].
    + destruct (Hws _ He Hwe) as [?|He1]; [by exists network, gid|by apply not_elem_of_nil in He1].
    + apply elem_of_app in Hin as [Hin|Hin]; [by destruct (Hnp _ _ _ Hin)|by destruct (Hp _ _ _ Hin)].
Qed.

(** C29: what the NetworkRouter controller writes in NetBird. A deleted resource
    deletes its recorded router; otherwise the only write updates - after
    finding it - the router recorded for the network the spec names, or creates
    one when none is recorded there or it is gone, with the enabled flag, the
    masquerading and the metric of the spec and with one peer group: the
    non-empty group the spec resolves to, or the group of the deployed peers once
    group, setup key and DaemonSet are all ready. The one exception is the empty
    group id, written when one of the three was not found right after it was
    applied. *)
Theorem Router_writes ns name :
  wp (Reconcile_ ns name) (fun t _ => forall e, e ∈ t -> nb_write e ->
    exists nr, read_router ns name nr t /\ router_write_ok nr t e).
Proof.
  unfold Reconcile. cbn [bind ask perform wp]. intros [nr|e]; [|cbn; trace_cases].
  destruct (deleting _) eqn:Hdel.
  - unfold reconcileDelete, delete_tolerant, patch. wp_run; bool_prop; trace_cases.
    all: eexists; (split; [left|]); unfold router_write_ok; rewrite Hdel; cbn; eauto.
  - cbn zeta. unfold patch. cbn [then_outcome bind ask perform wp].
    intros [e|]; [cbn; trace_cases|]. eapply wp_mono; [apply sync_spec|].
    intros t out [Hw _] e He Hwe. exists nr. split; [left|]. unfold router_write_ok. rewrite Hdel.
    do 2 (apply elem_of_cons in He as [->|He]; [discriminate Hwe|]).
    destruct (Hw e He Hwe) as (network & gid & ? & ? & ?). exists network, gid.
    split; [eapply network_resolved_mono; [|eassumption]; set_solver|].
    split; [eapply (peer_group_mono nr); [|eassumption]; set_solver|].
    eapply router_upsert_mono; [|eassumption]. set_solver.
Qed.

(** C30: the status of a NetworkRouter. Readiness is reported, with the ids of
    network, group and router, only when the three come from this reconcile and
    NetBird answered the router's update or creation; a missing dependency -
    and nothing else - is reported as not ready; and the finalizer is taken off
    only when no router is recorded or its delete succeeded or answered
    not-found. *)
Theorem Router_status ns name :
  wp (Reconcile_ ns name) (fun t _ => forall o b x, Entry (KPatch KNetworkRouter o b) x ∈ t ->
    exists nr, read_router ns name nr t /\
      let st := NetworkRouter_Status nr in
      let nr1 := add_finalizer (k := KNetworkRouter) nr router_finalizer in
      if deleting (NetworkRouter_Meta nr) then
        b = false /\ o = remove_finalizer (k := KNetworkRouter) nr router_finalizer /\
        (router_NetworkID st = "" \/ router_RouterID st = "" \/
         nb_deleted (CRouters (router_NetworkID st)) (router_RouterID st) t)
      else (b = false /\ o = nr1) \/ router_patch_ok nr1 t o b).
Proof.
  unfold Reconcile. cbn [bind ask perform wp]. intros [nr|e]; [|cbn; intros; entry_cases].
  destruct (deleting _) eqn:Hdel.
  - unfold reconcileDelete, delete_tolerant, patch. wp_run; bool_prop; intros; entry_cases.
    all: exists nr; (split; [left|]); rewrite Hdel; cbn; split; [reflexivity|split; [reflexivity|]].
    all: first [by auto | do 2 right; eexists; split; [in_trace|done]].
  - cbn zeta. unfold patch. cbn [then_outcome bind ask perform wp]. intros x.
    destruct x as [e|]; [cbn; intros; entry_cases; exists nr; (split; [left|]); rewrite Hdel; by left|].
    eapply wp_mono; [apply sync_spec|]. intros t out [_ Hp] o b y Hin. exists nr. split; [left|]. rewrite Hdel.
    cbn zeta. apply elem_of_cons in Hin as [Hin|Hin]; [discriminate Hin|].
    apply elem_of_cons in Hin as [Hin|Hin]; [apply patch_inj in Hin as [-> ->]; by left|right].
    specialize (Hp _ _ _ Hin). eapply router_patch_ok_mono; [|exact Hp]. set_solver.
Qed.

(** A write NetBird answered is followed by the report that the router is ready. *)
Definition reported_ready (x : result error api.NetworkRouter) t : Prop :=
  forall router, x = Ok router -> exists o y, Entry (KPatch KNetworkRouter o true) y ∈ t /\ is_ready (k := KNetworkRouter) o.

(** What follows the resolution of network and peer group, for any group. *)
Lemma upsert_tail network rid gid (ready : string -> NetworkRouter) spec :
  (forall id, is_ready (k := KNetworkRouter) (ready id)) ->
  wp (let^ routerID := upsertRouter network rid gid spec in
      do^ patch_observed (k := KNetworkRouter) (ready routerID) in
      Ret (requeue_after resyncInterval, None))
    (fun t out =>
      (exists rq, api.rtq_PeerGroups rq = Some [gid] /\
         ((rid <> "" /\ exists x, Entry (NBUpdate (CRouters network) rid rq) x ∈ t /\ reported_ready x t) \/
          exists x, Entry (NBCreate (CRouters network) rq) x ∈ t /\ reported_ready x t)) \/
      exists err, Entry (NBGet (CRouters network) rid) (Err err) ∈ t /\ netbird_IsNotFound err = false /\
        out = fail_with err).
Proof.
  intros Hready. unfold upsertRouter, verifyNetbirdID, get_err, patch_observed.
  wp_run; bool_prop; simplify_eq.
  all: first
    [ right; eexists; split; [in_trace|]; done
    | left; exists (router_request spec gid); split; [reflexivity|]; first
        [ left; split; [done|]; eexists; split; [in_trace|]
        | right; eexists; split; [in_trace|] ];
      intros router Hx; first [discriminate Hx|eexists _, _; split; [in_trace|apply Hready]] ].
Qed.

Lemma resolvePeerGroup_missing nr :
  wp (resolvePeerGroup ClientImage ManagementURL nr) (fun t r =>
    peers_Group (router_Peers (NetworkRouter_Spec nr)) = None -> child_missing nr t -> r = Ok "").
Proof.
  unfold resolvePeerGroup, child_missing. destruct (peers_Group _) as [g|]; [by apply wp_all|].
  unfold ensureDeployedPeers, ensureDaemonSet, ignore_not_found_id.
  wp_run; match goal with H : exists _ _, _ |- _ => destruct H as (k & err & Hk & Herr & Hin) end;
    destruct Hk as [->|[->| ->]]; entry_cases; simplify_eq; by rewrite ?Herr.
Qed.

(** The reconcile went on without a peer group. *)
Definition without_group nr t (out : outcome) : Prop :=
  exists network, network_resolved nr network t /\
    let rid := recorded_router nr network in
    ((exists rq, api.rtq_PeerGroups rq = Some [""%string] /\
       ((rid <> "" /\ exists x, Entry (NBUpdate (CRouters network) rid rq) x ∈ t /\ reported_ready x t) \/
        exists x, Entry (NBCreate (CRouters network) rq) x ∈ t /\ reported_ready x t)) \/
     exists err, Entry (NBGet (CRouters network) rid) (Err err) ∈ t /\ netbird_IsNotFound err = false /\
       out = fail_with err).

Definition no_get (c : call) : Prop := match c with KGet _ _ _ => False | _ => True end.

Lemma child_missing_app nr t1 t2 : child_missing nr (t1 ++ t2) -> child_missing nr t1 \/ child_missing nr t2.
Proof. intros (k & e & Hk & He & [Hin|Hin]%elem_of_app); [left|right]; exists k, e; auto. Qed.

Lemma no_child nr t : (forall c r, Entry c r ∈ t -> no_get c) -> ~ child_missing nr t.
Proof. intros Ht (k & e & _ & _ & Hin). exact (Ht _ _ Hin). Qed.

Lemma dependency_no_get nr e : calls_in no_get (dependency nr e).
Proof. unfold dependency, patch. calls_run fail. Qed.

Lemma tail_no_get network rid gid (ready : string -> NetworkRouter) spec :
  calls_in no_get (let^ routerID := upsertRouter network rid gid spec in
      do^ patch_observed (k := KNetworkRouter) (ready routerID) in
      Ret (requeue_after resyncInterval, None)).
Proof. unfold upsertRouter, verifyNetbirdID, get_err, patch_observed. calls_run fail. Qed.

Lemma reported_ready_mono x t t' : t ⊆ t' -> reported_ready x t -> reported_ready x t'.
Proof. intros Ht Hr router Hx. destruct (Hr router Hx) as (o & y & Hin & ?). exists o, y. auto. Qed.

Lemma sync_empty_group `{!K8sLibLaws} nr :
  peers_Group (router_Peers (NetworkRouter_Spec nr)) = None ->
  wp (sync ClientImage ManagementURL nr) (fun t out => child_missing nr t -> without_group nr t out).
Proof.
  intros Hpeers. unfold sync. apply wp_bind. eapply wp_mono; [apply wp_and; [apply resolveNetworkID_spec|]|].
  { unfold resolveNetworkID. instantiate (1 := fun t _ => ~ child_missing nr t). wp_run;
      intros (k & err & [->|[->| ->]] & _ & Hin); entry_cases. }
  intros tn r [[_ Hn] Hno]; cbn beta in *.
  assert (forall nr' e tq, ~ child_missing nr tq ->
    wp (dependency nr' e) (fun t out => child_missing nr (tq ++ t) -> without_group nr (tq ++ t) out)) as Hdep.
  { intros nr' e tq Hq. eapply wp_mono; [apply calls_in_wp, dependency_no_get|].
    intros t out Ht [?|Hm]%child_missing_app; [done|]. by destruct (no_child nr t Ht). }
  destruct r as [network|e]; cbn beta in *; [|by apply Hdep]. specialize (Hn network eq_refl). cbn zeta.
  apply wp_bind. eapply wp_mono; [apply (resolvePeerGroup_missing (set_network nr network))|].
  intros tg r Hr; cbn beta in *. specialize (Hr Hpeers).
  destruct r as [gid|e]; cbn beta in *.
  2: { eapply wp_mono; [apply (Hdep (set_network nr network) e (tn ++ tg))|].
       - intros [?|Hm]%child_missing_app; [done|]. by specialize (Hr Hm).
       - intros t out. by rewrite app_assoc. }
  cbn zeta. eapply wp_mono; [apply wp_and; [eapply (upsert_tail _ _ _ (fun id => _)); intros id; apply mark_ready_ready
    |apply calls_in_wp, (tail_no_get _ _ _ (fun id => _))]|].
  intros t out [Ht Hc] Hm. rewrite app_assoc in Hm. apply child_missing_app in Hm as [Hm|Hm]; [|by destruct (no_child nr t Hc)].
  apply child_missing_app in Hm as [?|Hm]; [done|]. specialize (Hr Hm) as [= ->].
  exists network. split; [eapply network_resolved_mono; [|exact Hn]; set_solver|]. cbn zeta.
  change (router_RouterID _) with (router_RouterID (NetworkRouter_Status (set_network nr network))) in Ht.
  rewrite recorded_router_spec in Ht.
  assert (t ⊆ tn ++ tg ++ t) as Hsub by set_solver.
  destruct Ht as [(rq & Hrq & Hw)|(err & Hin & Hrest)]; [left; exists rq; split; [done|]|right; exists err; auto].
  destruct Hw as [(Hrid & x & Hin & Hx)|(x & Hin & Hx)]; [left; split; [done|]|right]; exists x;
    (split; [auto|by eapply reported_ready_mono]).
Qed.

(** C40: a deployed peer group is lost instead of awaited: whenever the Group,
    the SetupKey or the DaemonSet just applied is answered not-found, the
    reconcile does not wait for it as for a missing dependency. It goes on with
    the empty group id: it updates the recorded router, or creates one, with the
    empty string as its one peer group and reports the resource ready once
    NetBird took it - or fails on the read of the recorded router. *)
Theorem Router_empty_group `{!K8sLibLaws} ns name :
  wp (Reconcile_ ns name) (fun t out =>
    (exists e, Entry (KGet KNetworkRouter ns name) (Err e) ∈ t) \/
    exists nr, read_router ns name nr t /\
      (deleting (NetworkRouter_Meta nr) = false ->
       peers_Group (router_Peers (NetworkRouter_Spec nr)) = None ->
       child_missing nr t -> without_group nr t out)).
Proof.
  unfold Reconcile. cbn [bind ask perform wp]. intros [nr|e]; [|left; eexists; in_trace].
  destruct (deleting _) eqn:Hdel.
  { apply wp_all. intros t out _. right. exists nr. split; [left|congruence]. }
  cbn zeta. unfold patch. cbn [then_outcome bind ask perform wp].
  destruct (peers_Group (router_Peers (NetworkRouter_Spec nr))) eqn:Hpeers.
  { intros x. apply wp_all. intros t out _. right. exists nr. split; [left|congruence]. }
  set (nr1 := add_finalizer (k := KNetworkRouter) nr router_finalizer).
  intros [e|]; [cbn; right; exists nr; split; [left|]; intros _ _ Hm; destruct Hm as (k & err & [->|[->| ->]] & _ & Hin); entry_cases|].
  eapply wp_mono; [apply (sync_empty_group nr1 Hpeers)|]. intros t out Ht. right. exists nr. split; [left|].
  intros _ _ (k & err & Hk & Herr & Hin). destruct Ht as (network & Hn & Hw).
  { exists k, err. split; [done|split; [done|]]. destruct Hk as [->|[->| ->]]; entry_cases; done. }
  match goal with |- without_group nr ?t' out => assert (t ⊆ t') as Hsub by set_solver end.
  exists network. split; [by eapply (network_resolved_mono nr1)|]. cbn zeta in *.
  destruct Hw as [(rq & Hrq & Hw)|(err' & Hin' & Hrest)]; [left; exists rq; split; [done|]|right; exists err'; split; [by apply Hsub|done]].
  destruct Hw as [(Hrid & x & Hx & Hready)|(x & Hx & Hready)]; [left; split; [done|]|right]; exists x;
    (split; [by apply Hsub|by eapply reported_ready_mono]).
Qed.

End props.

(** ** A router without a peer group, on a concrete run *)
Module RouterRuns.
Definition router0 : NetworkRouter :=
  mkNetworkRouter (mkMeta "edge" "default" "uid-1" ∅ ∅ [] None 1)
    (mkNetworkRouterSpec (mkRef "corp" "default")
       (mkNetworkRouterPeers None (Some (mkRouterDeploy ∅ "" ""))) true 100 true)
    (mkNetworkRouterStatus 0 [] "" "" "").
Definition corp : Network :=
  mkNetwork (mkMeta "corp" "default" "uid-2" ∅ ∅ [] None 1) (mkNetworkSpec "corp" "")
    (mkNetworkStatus 1 [] "net-1").
Definition stored : NetworkRouter := add_finalizer (k := KNetworkRouter) router0 router_finalizer.
Definition owner0 : OwnerReference :=
  mkOwnerReference "netbird.io/v1alpha1" "Object" "edge" "uid-1" true true.
Definition bad_request : api.NetworkRouterRequest :=
  api.mkNetworkRouterRequest true true 100 (Some [""%string]).
Definition not_found : error := ErrExt 404 "not found".

(** The Group was just applied and is not in the cache yet. *)
Definition t_missing : history :=
  [Entry (KGet KNetworkRouter "default" "edge") (Ok router0);
   Entry (KPatch KNetworkRouter stored false) None;
   Entry (KGet KNetwork "default" "corp") (Ok corp);
   Entry (KApply (router_group_ac (set_network stored "net-1") owner0)) None;
   Entry (KGet KGroup "default" "edge-router") (Err not_found);
   Entry (NBCreate (CRouters "net-1") bad_request)
     (Ok (api.mkNetworkRouter "rt-1" true true 100 (Some [""%string])));
   Entry (KPatch KNetworkRouter (mark_ready (k := KNetworkRouter) (router_status stored "net-1" "rt-1" "")) true)
     None].

(** The Group is missing in this run, and the request it sends has the empty id
    as its one peer group. *)
Lemma Router_empty_group_witness :
  runs (Reconcile "client" "https://api" "default" "edge") t_missing (requeue_after resyncInterval, None) /\
  child_missing router0 t_missing /\ without_group router0 t_missing (requeue_after resyncInterval, None).
Proof.
  assert (runs (Reconcile "client" "https://api" "default" "edge") t_missing (requeue_after resyncInterval, None)) as Hrun
    by run_by_eval.
  assert (child_missing router0 t_missing) as Hm by (exists KGroup, not_found; split; [by left|split; [done|in_trace]]).
  split; [exact Hrun|split; [exact Hm|]].
  destruct (wp_elim _ _ _ _ (Router_empty_group "client" "https://api" "default" "edge") Hrun)
    as [(e & Hin)|(nr & Hr & Hw)]; [unfold t_missing in Hin; entry_cases|].
  unfold read_router, t_missing in Hr. entry_cases. by apply Hw.
Defined.
End RouterRuns.
