(* ===== verification/ClusterProxyCtl.v ===== *)
(** * Cluster proxies ([clusterproxy_controller.go])

    A ClusterProxy custom resource is a Deployment of NetBird API proxies, with
    the SetupKey its pods join with and the Secret of the API key.  The
    controller writes Kubernetes objects only. *)

From stdpp Require Import base gmap list strings.
From Stdlib Require Import ZArith Lia.
From S2P Require Import Prelude GoStrings Sha256 GoErr Prog ApiTypes K8sTypes ApplyConf Env NetbirdUtil Reconcile Mirror SetupKeyCtl.

Open Scope Z_scope.
Open Scope prog_scope.

Definition KubeApiProxyImage : string :=
  "ghcr.io/netbirdio/netbird-kubeapi-proxy:v0.0.5@sha256:af3c0b747d1ef307556ade3d1b59cf79cea6deac01f5c9d4ddd48f4e1154599a".

(** [fmt.Sprintf("%x", sum[:4])[:8]]. *)
Definition uniqueSuffix (uid : string) : string :=
  strings.take_bytes 8 (EncodeToString (take 4 (Sum256 uid))).

Definition clusterproxy_name (name : string) : string := "clusterproxy-" +:+ name.
Arguments clusterproxy_name : simpl never.
Arguments uniqueSuffix : simpl never.

(** The loop over the groups: an empty reference is skipped. *)
Definition proxy_auto_group (g : GroupReference) : list ACGroupReference.t :=
  let ref := ACGroupReference.new in
  match gr_ID g, gr_Name g, gr_LocalRef g with
  | Some id, _, _ => [ACGroupReference.WithID id ref]
  | None, Some name, _ => [ACGroupReference.WithName name ref]
  | None, None, Some local => [ACGroupReference.WithLocalRef local ref]
  | None, None, None => []
  end.

Definition proxy_key_ac (cp : ClusterProxy) (ns : string) (ownerRef : OwnerReference) : applyconf :=
  ApplySetupKey
    (ObjectAC (clusterproxy_name (meta_Name (ClusterProxy_Meta cp))) ns |> WithOwnerReferences [ownerRef])%go
    (ACSetupKeySpec.new
      |> ACSetupKeySpec.WithName (clusterproxy_name (uniqueSuffix (meta_UID (ClusterProxy_Meta cp))))
      |> ACSetupKeySpec.WithEphemeral true
      |> ACSetupKeySpec.WithAllowExtraDnsLabels true
      |> ACSetupKeySpec.WithAutoGroups
           (flat_map proxy_auto_group (cp_Groups (ClusterProxy_Spec cp))))%go.

Definition proxy_secret_ac (apiKey ns name : string) (ownerRef : OwnerReference) : applyconf :=
  ApplySecret (ObjectAC (clusterproxy_name name) ns |> WithOwnerReferences [ownerRef])%go
    {[ "api-key"%string := apiKey ]}.

Definition clusterproxy_labels (name : string) : gmap string string :=
  {[ "app.kubernetes.io/name" := "clusterproxy"; "app.kubernetes.io/instance" := name ]}.

Definition clusterproxy_container (ManagementURL : string) (cp : ClusterProxy) (keySecret apiSecret : string) :
    Container :=
  let spec := ClusterProxy_Spec cp in
  mkContainer "proxy" KubeApiProxyImage
    ["--setup-key"; "$(SETUP_KEY)"; "--api-key"; "$(API_KEY)"; "--instance-name"; "$(POD_NAME)";
     "--cluster-name"; cp_ClusterName spec; "--kubernetes-api-server"; cp_APIServer spec;
     "--management-url"; ManagementURL]%string
    []
    [mkEnv "POD_NAME" (EnvField "metadata.name");
     mkEnv "SETUP_KEY" (EnvSecret keySecret SetupKeySecretKey);
     mkEnv "API_KEY" (EnvSecret apiSecret "api-key")]
    None (Some (mkProbe (HTTPGet "/readyz" 8081) None None)) None []
    (Some (mkSecurityContext (Some false) None (Some true) (Some true) [] ["ALL"%string]))
    [("cpu", "100m"); ("memory", "128Mi")]%string None.

Definition clusterproxy_pod (ManagementURL name : string) (cp : ClusterProxy) (setupKey : SetupKey) : PodSpec :=
  mkPodSpec None None [] (Some (cp_ServiceAccountName (ClusterProxy_Spec cp)))
    [mkTopologySpread 1 "kubernetes.io/hostname" "ScheduleAnyway" (clusterproxy_labels name)] ∅
    [clusterproxy_container ManagementURL cp (SecretName setupKey) (clusterproxy_name name)] [].

Definition clusterproxy_deployment (ManagementURL ns name : string) (cp : ClusterProxy) (setupKey : SetupKey)
    (ownerRef : OwnerReference) : applyconf :=
  let labels := clusterproxy_labels name in
  ApplyDeployment
    (ObjectAC (clusterproxy_name name) ns |> WithOwnerReferences [ownerRef] |> WithLabels labels)%go
    (mkWorkloadSpec (Some (default 3 (cp_Replicas (ClusterProxy_Spec cp)))) labels labels
       (clusterproxy_pod ManagementURL name cp setupKey)).

Arguments proxy_key_ac : simpl never.
Arguments proxy_secret_ac : simpl never.
Arguments clusterproxy_deployment : simpl never.

Section clusterproxy.
Context `{ErrorClass} `{K8sLib}.
Context (ApiKey ManagementURL : string).

Definition Reconcile (ns name : string) : M outcome :=
  let! got := ask (KGet KClusterProxy ns name) in
  match got with
  | Err e => Ret (no_requeue, IgnoreNotFound e)
  | Ok cp =>
      if deleting (ClusterProxy_Meta cp) then Ret (no_requeue, None)
      else
        match ControllerReference KClusterProxy (ClusterProxy_Meta cp) with
        | Err e => Ret (fail_with e)
        | Ok ownerRef =>
            do^ ask (KApply (proxy_key_ac cp ns ownerRef)) in
            let! key := ask (KGet KSetupKey ns (clusterproxy_name (meta_Name (ClusterProxy_Meta cp)))) in
            match key with
            | Err e => Ret (no_requeue, IgnoreNotFound e)
            | Ok setupKey =>
                if String.eqb (sk_SetupKeyID (SetupKey_Status setupKey)) "" then Ret (no_requeue, None)
                else
                  do^ ask (KApply (proxy_secret_ac ApiKey ns name ownerRef)) in
                  do^ ask (KApply (clusterproxy_deployment ManagementURL ns name cp setupKey ownerRef)) in
                  do^ patch_observed (k := KClusterProxy) (mark_ready (k := KClusterProxy) cp) in
                  Ret (no_requeue, None)
            end
        end
  end.
End clusterproxy.

(** ** Properties *)

Lemma length_uniqueSuffix uid : String.length (uniqueSuffix uid) = 8%nat.
Proof.
  unfold uniqueSuffix. rewrite length_take, length_EncodeToString, length_take_le; [done|].
  rewrite length_Sum256. lia.
Qed.

(** The four-byte prefix of the digest is the first eight digits of its text. *)
Lemma uniqueSuffix_sum8 uid : uniqueSuffix uid = sum8 uid.
Proof.
  unfold uniqueSuffix, sum8. pose proof (length_Sum256 uid) as Hl.
  destruct (Sum256 uid) as [|a [|b [|c [|d l]]]]; cbn in Hl; try lia. done.
Qed.

Section props.
Context `{ErrorClass} `{K8sLib}.
Context (ApiKey ManagementURL : string).

(** What the deployment step relies on. *)
Definition proxy_prepared ns name cp owner key (t : history) : Prop :=
  Entry (KGet KClusterProxy ns name) (Ok cp) ∈ t /\ deleting (ClusterProxy_Meta cp) = false /\
  Entry (KApply (proxy_key_ac cp ns owner)) None ∈ t /\
  Entry (KGet KSetupKey ns (clusterproxy_name (meta_Name (ClusterProxy_Meta cp)))) (Ok key) ∈ t /\
  sk_SetupKeyID (SetupKey_Status key) <> "" /\
  Entry (KApply (proxy_secret_ac ApiKey ns name owner)) None ∈ t.

(** C32: the ClusterProxy controller. It never writes in NetBird; the Deployment
    is applied only after its SetupKey was applied and has an id and the Secret
    of the API key was applied, and takes the setup key from that SetupKey's
    Secret; readiness is reported only after the Deployment was applied. A
    reconcile that neither fails nor ends at a missing or deleted resource
    reports readiness or waits, without a requeue of its own, for the SetupKey
    to get its id or to appear. *)
Theorem ClusterProxy_deploys ns name :
  wp (Reconcile ApiKey ManagementURL ns name) (fun t out =>
    (forall e, e ∈ t -> ~ nb_write e) /\
    (forall m spec x, Entry (KApply (ApplyDeployment m spec)) x ∈ t -> exists cp owner key,
       proxy_prepared ns name cp owner key t /\
       ApplyDeployment m spec = clusterproxy_deployment ManagementURL ns name cp key owner) /\
    (forall o b x, Entry (KPatch KClusterProxy o b) x ∈ t -> exists cp owner key,
       b = true /\ o = mark_ready (k := KClusterProxy) cp /\ proxy_prepared ns name cp owner key t /\
       Entry (KApply (clusterproxy_deployment ManagementURL ns name cp key owner)) None ∈ t) /\
    (snd out = None -> fst out = no_requeue /\
       ((exists e, Entry (KGet KClusterProxy ns name) (Err e) ∈ t) \/
        (exists cp, Entry (KGet KClusterProxy ns name) (Ok cp) ∈ t /\ deleting (ClusterProxy_Meta cp) = true) \/
        (exists o, Entry (KPatch KClusterProxy o true) None ∈ t) \/
        exists cp owner got, Entry (KApply (proxy_key_ac cp ns owner)) None ∈ t /\
          Entry (KGet KSetupKey ns (clusterproxy_name (meta_Name (ClusterProxy_Meta cp)))) got ∈ t /\
          match got with Ok key => sk_SetupKeyID (SetupKey_Status key) = "" | Err e => IgnoreNotFound e = None end))).
Proof.
  unfold Reconcile, patch_observed, proxy_prepared.
  apply wp_and; [|apply wp_and; [|apply wp_and]].
  - wp_run; trace_cases.
  - wp_run; entry_cases; bool_prop;
      match goal with H : Entry (KApply (ApplyDeployment _ _)) _ = _ |- _ =>
        apply (f_equal entry_call) in H; injection H as -> ->; do 3 eexists end;
      (split; [|reflexivity]); repeat split; first [in_trace|done].
  - wp_run; entry_cases; bool_prop; do 3 eexists; (split; [reflexivity|]); (split; [reflexivity|]);
      repeat split; first [in_trace|done].
  - wp_run; bool_prop; try done; (split; [done|]).
    all: first
      [ left; eexists; in_trace
      | right; left; eexists; split; [in_trace|done]
      | do 2 right; left; eexists; in_trace
      | do 3 right; do 3 eexists; split; [in_trace|split; [in_trace|done]] ].
Qed.
End props.
