(* ===== verification/Webhook.v ===== *)
(** * The pod webhook ([internal/webhook/v1/pod_webhook.go])

    A mutating webhook injects a NetBird container into the pods a
    SidecarProfile of their namespace selects.  The strategic merge of a
    profile's override into the container is the [merge] parameter. *)

From stdpp Require Import base gmap list strings.
From Stdlib Require Import ZArith Lia Sorted Permutation.
From S2P Require Import Prelude Sort GoStrings GoErr Prog ApiTypes K8sTypes ApplyConf Env NetbirdUtil Reconcile Mirror SetupKeyCtl.

Open Scope Z_scope.
Open Scope prog_scope.

Definition SidecarProfileAnnotation : string := "netbird.io/sidecar-profile".

Record Pod := mkPod {
  Pod_Meta : ObjectMeta;
  p_InitContainers : list Container;
  p_Containers : list Container
}.

Definition profile_name (p : SidecarProfile) : string := meta_Name (SidecarProfile_Meta p).

(** [slices.SortFunc] with [cmp.Compare(a.Name, b.Name)]. *)
Definition profile_less (a b : SidecarProfile) : bool := strings.less (profile_name a) (profile_name b).

Definition sidecar_env (managementURL : string) (p : SidecarProfile) (setupKey : SetupKey) : list EnvVar :=
  [mkEnv "NB_SETUP_KEY" (EnvSecret (SecretName setupKey) SetupKeySecretKey);
   mkEnv "NB_MANAGEMENT_URL" (EnvValue managementURL)]
  ++ (if (0 <? length (sp_ExtraDNSLabels (SidecarProfile_Spec p)))%nat
      then [mkEnv "NB_EXTRA_DNS_LABELS"
              (EnvValue (strings.Join (sp_ExtraDNSLabels (SidecarProfile_Spec p)) ","))]
      else []).

Definition sidecar_base (managementURL clientImage : string) (p : SidecarProfile) (setupKey : SetupKey) :
    Container :=
  mkContainer "netbird" clientImage [] [] (sidecar_env managementURL p setupKey) None None None []
    (Some (mkSecurityContext None None None None ["NET_ADMIN"%string] [])) [] None.

Definition with_restart (c : Container) (policy : string) : Container :=
  mkContainer (c_Name c) (c_Image c) (c_Args c) (c_Ports c) (c_Env c) (c_StartupProbe c)
    (c_ReadinessProbe c) (c_LivenessProbe c) (c_VolumeMounts c) (c_SecurityContext c) (c_Requests c)
    (Some policy).

Definition annotate (pod : Pod) (key value : string) : Pod :=
  let m := Pod_Meta pod in
  mkPod (mkMeta (meta_Name m) (meta_Namespace m) (meta_UID m) (meta_Labels m)
           (<[ key := value ]> (meta_Annotations m)) (meta_Finalizers m) (meta_DeletionTimestamp m)
           (meta_Generation m))
    (p_InitContainers pod) (p_Containers pod).

Section webhook.
Context `{K8sLib} `{SortSlice}.
Context (merge : Container -> ContainerOverride -> result error Container).
Context (managementURL clientImage : string).

Definition profile_matches (labels : gmap string string) (p : SidecarProfile) : result error bool :=
  match sp_PodSelector (SidecarProfile_Spec p) with
  | None => Ok true
  | Some sel => if selector_is_empty sel then Ok true else selector_matches sel labels
  end.

Fixpoint matching_profiles (labels : gmap string string) (items : list SidecarProfile) :
    result error (list SidecarProfile) :=
  match items with
  | [] => Ok []
  | p :: items' =>
      match profile_matches labels p with
      | Err e => Err e
      | Ok b =>
          match matching_profiles labels items' with
          | Err e => Err e
          | Ok ps => Ok (if b then p :: ps else ps)
          end
      end
  end.

Definition sidecar_container (p : SidecarProfile) (setupKey : SetupKey) : result error Container :=
  let container := sidecar_base managementURL clientImage p setupKey in
  match sp_ContainerOverride (SidecarProfile_Spec p) with
  | None => Ok container
  | Some o => merge container o
  end.

Definition inject (pod : Pod) (p : SidecarProfile) (container : Container) : result error Pod :=
  let mode := sp_InjectionMode (SidecarProfile_Spec p) in
  let finish pod := Ok (annotate pod SidecarProfileAnnotation (profile_name p)) in
  if String.eqb mode InjectionModeSidecar then
    finish (mkPod (Pod_Meta pod) (p_InitContainers pod ++ [with_restart container "Always"]) (p_Containers pod))
  else if String.eqb mode InjectionModeContainer then
    finish (mkPod (Pod_Meta pod) (p_InitContainers pod) (p_Containers pod ++ [container]))
  else Err (ErrText ("unknown injection mode " +:+ mode)).

(** The pod is changed in place, and only on success. *)
Definition Default (pod : Pod) : M (Pod * option error) :=
  let ns := meta_Namespace (Pod_Meta pod) in
  let! profiles := ask (KList KSidecarProfile (Some ns) None) in
  match profiles with
  | Err e => Ret (pod, Some e)
  | Ok items =>
      match matching_profiles (meta_Labels (Pod_Meta pod)) items with
      | Err e => Ret (pod, Some e)
      | Ok ps =>
          let ps := if (1 <? length ps)%nat then sort_slice profile_less ps else ps in
          match ps with
          | [] => Ret (pod, None)
          | p :: _ =>
              let! key := ask (KGet KSetupKey ns (sp_SetupKeyRef (SidecarProfile_Spec p))) in
              match key with
              | Err e => Ret (pod, Some e)
              | Ok setupKey =>
                  Ret match sidecar_container p setupKey with
                      | Err e => (pod, Some e)
                      | Ok container =>
                          match inject pod p container with
                          | Err e => (pod, Some e)
                          | Ok pod' => (pod', None)
                          end
                      end
              end
          end
      end
  end.
End webhook.

(** ** Properties *)
Section props.
Context `{K8sLib} `{SortSlice}.

Lemma matching_profiles_spec labels items ps :
  matching_profiles labels items = Ok ps ->
  forall p, p ∈ ps <-> p ∈ items /\ profile_matches labels p = Ok true.
Proof.
  revert ps. induction items as [|q items IH]; intros ps; cbn [matching_profiles].
  - intros [= <-] p. split; [by intros ?%not_elem_of_nil|by intros [?%not_elem_of_nil _]].
  - destruct (profile_matches labels q) as [b|] eqn:Hq; [|done].
    destruct (matching_profiles labels items) as [qs|] eqn:Hm; [|done]. intros [= <-] p.
    specialize (IH _ eq_refl p). destruct b; rewrite ?elem_of_cons, IH; naive_solver congruence.
Qed.

(** Every listed profile has a verdict. *)
Lemma matching_profiles_total labels items ps :
  matching_profiles labels items = Ok ps ->
  forall p, p ∈ items -> exists b, profile_matches labels p = Ok b.
Proof.
  revert ps. induction items as [|q items IH]; intros ps; cbn [matching_profiles]; [set_solver|].
  destruct (profile_matches labels q) as [b|] eqn:Hq; [|done].
  destruct (matching_profiles labels items) as [qs|] eqn:Hm; [|done]. intros _ p [->|Hp]%elem_of_cons; eauto.
Qed.

Lemma profile_less_weak : strict_weak profile_less.
Proof.
  constructor; unfold profile_less; intros.
  - apply less_irrefl.
  - by apply less_asym.
  - by eapply not_less_trans.
Qed.

(** The first profile after the conditional sort is a least one. *)
Lemma first_profile `{!SortSliceLaws} (ps rest : list SidecarProfile) p :
  (if (1 <? length ps)%nat then sort_slice profile_less ps else ps) = p :: rest ->
  p ∈ ps /\ forall q, q ∈ ps -> profile_less q p = false.
Proof.
  destruct (Nat.ltb_spec 1 (length ps)) as [Hl|Hl]; intros Hs.
  - pose proof (sort_slice_sorted profile_less ps profile_less_weak) as Hsort.
    pose proof (sort_slice_perm profile_less ps) as Hperm. rewrite Hs in Hsort, Hperm.
    split; [rewrite <- Hperm; left|]. intros q Hq. rewrite <- Hperm in Hq.
    apply StronglySorted_inv in Hsort as [_ Hall]. rewrite Forall_forall in Hall.
    apply elem_of_cons in Hq as [->|Hq]; [apply less_irrefl|by apply Hall].
  - subst ps. split; [left|]. destruct rest; [|cbn in Hl; lia].
    intros q ->%list_elem_of_singleton. apply less_irrefl.
Qed.

Lemma no_profile `{!SortSliceLaws} (ps : list SidecarProfile) :
  (if (1 <? length ps)%nat then sort_slice profile_less ps else ps) = [] -> ps = [].
Proof.
  destruct (1 <? length ps)%nat; [|done]. intros Hs.
  apply Permutation_nil. by rewrite <- (sort_slice_perm profile_less ps), Hs.
Qed.

(** The pod after the injection of [c] by [p]. *)
Definition injected (pod : Pod) (p : SidecarProfile) (c : Container) (pod' : Pod) : Prop :=
  meta_Annotations (Pod_Meta pod') =
    <[ SidecarProfileAnnotation := profile_name p ]> (meta_Annotations (Pod_Meta pod)) /\
  ((sp_InjectionMode (SidecarProfile_Spec p) = InjectionModeSidecar /\
    p_InitContainers pod' = p_InitContainers pod ++ [with_restart c "Always"] /\
    p_Containers pod' = p_Containers pod) \/
   (sp_InjectionMode (SidecarProfile_Spec p) = InjectionModeContainer /\
    p_InitContainers pod' = p_InitContainers pod /\ p_Containers pod' = p_Containers pod ++ [c])).

Lemma inject_injected pod p c pod' : inject pod p c = Ok pod' -> injected pod p c pod'.
Proof.
  unfold inject, injected. destruct (String.eqb_spec (sp_InjectionMode (SidecarProfile_Spec p)) InjectionModeSidecar).
  - intros [= <-]. cbn. auto.
  - destruct (String.eqb_spec (sp_InjectionMode (SidecarProfile_Spec p)) InjectionModeContainer); [|done].
    intros [= <-]. cbn. auto.
Qed.

(** C33: what the webhook does to a pod. It only reads; an error leaves the pod
    as it was; and a pod that passes is either left alone because no profile of
    its namespace selects it, or got exactly one container more - in the list
    the profile's injection mode names, from the first selecting profile by
    name, with that profile's setup key and override - and the annotation with
    that profile's name. *)
Theorem Webhook_injects `{!SortSliceLaws} merge managementURL clientImage pod :
  wp (Default merge managementURL clientImage pod) (fun t r =>
    (forall c x, Entry c x ∈ t -> is_read c) /\
    match r with
    | (pod', Some _) => pod' = pod
    | (pod', None) => exists items,
        Entry (KList KSidecarProfile (Some (meta_Namespace (Pod_Meta pod))) None) (Ok items) ∈ t /\
        let selects p := profile_matches (meta_Labels (Pod_Meta pod)) p in
        ((forall p, p ∈ items -> selects p = Ok false) /\ pod' = pod \/
         exists p key c, p ∈ items /\ selects p = Ok true /\
           (forall q, q ∈ items -> selects q = Ok true -> strings.less (profile_name q) (profile_name p) = false) /\
           Entry (KGet KSetupKey (meta_Namespace (Pod_Meta pod)) (sp_SetupKeyRef (SidecarProfile_Spec p)))
             (Ok key) ∈ t /\
           sidecar_container merge managementURL clientImage p key = Ok c /\ injected pod p c pod')
    end).
Proof.
  unfold Default. cbn [bind ask perform wp]. intros [items|e].
  2: { split; [intros c x Hin; apply list_elem_of_singleton in Hin; by simplify_eq|done]. }
  destruct (matching_profiles _ items) as [ps|e] eqn:Hm.
  2: { split; [intros c x Hin; apply list_elem_of_singleton in Hin; by simplify_eq|done]. }
  cbn zeta. destruct (if (1 <? length ps)%nat then _ else _) as [|p rest] eqn:Hs; cbn [wp].
  - split; [intros c x Hin; apply list_elem_of_singleton in Hin; by simplify_eq|].
    apply no_profile in Hs as ->. exists items. split; [left|]. left. split; [|done].
    intros p Hp. destruct (matching_profiles_total _ _ _ Hm p Hp) as [[] Hb]; [|done].
    pose proof (proj2 (matching_profiles_spec _ _ _ Hm p) (conj Hp Hb)). set_solver.
  - apply first_profile in Hs as [Hp Hleast]. apply (matching_profiles_spec _ _ _ Hm) in Hp as [Hp Hb].
    cbn [bind ask perform wp]. intros key.
    destruct key as [key|e]; cbn [wp]; (split; [intros c x Hin; repeat (apply elem_of_cons in Hin as [Hin|Hin];
      [by simplify_eq|]); by apply not_elem_of_nil in Hin|]); [|done].
    destruct (sidecar_container _ _ _ p key) as [c|] eqn:Hc; [|done].
    destruct (inject pod p c) as [pod'|] eqn:Hi; [|done]. exists items. split; [left|]. right.
    exists p, key, c. split; [done|]. split; [done|]. split.
    { intros q Hq Hbq. apply Hleast, (matching_profiles_spec _ _ _ Hm). done. }
    split; [in_trace|]. split; [done|]. by apply inject_injected.
Qed.
End props.

(** ** A pod selected by two profiles *)
Module WebhookRun.
Definition profile (name mode : string) : SidecarProfile :=
  mkSidecarProfile (mkMeta name "apps" "uid-1" ∅ ∅ [] None 1)
    (mkSidecarProfileSpec "key" None mode ["web"; "db"]%string None) (mkSidecarProfileStatus 0 []).
Definition pod0 : Pod := mkPod (mkMeta "p" "apps" "uid-2" ∅ ∅ [] None 1) [] [].
Definition key0 : SetupKey :=
  mkSetupKey (mkMeta "key" "apps" "uid-3" ∅ ∅ [] None 1) (mkSetupKeySpec "k" true true None [])
    (mkSetupKeyStatus 1 [] "sk-1").
Definition no_merge (c : Container) (o : ContainerOverride) : result error Container := Ok c.
Definition base0 : Container := sidecar_base "https://api" "client" (profile "alpha" "Sidecar") key0.
Definition pod1 : Pod :=
  annotate (mkPod (Pod_Meta pod0) [with_restart base0 "Always"] []) SidecarProfileAnnotation "alpha".
Definition t0 : history :=
  [Entry (KList KSidecarProfile (Some "apps"%string) None) (Ok [profile "beta" "Container"; profile "alpha" "Sidecar"]);
   Entry (KGet KSetupKey "apps" "key") (Ok key0)].

Lemma Webhook_injects_witness :
  runs (Default no_merge "https://api" "client" pod0) t0 (pod1, None) /\
  exists items,
    Entry (KList KSidecarProfile (Some "apps"%string) None) (Ok items) ∈ t0 /\
    ((forall p, p ∈ items -> profile_matches ∅ p = Ok false) /\ pod1 = pod0 \/
     exists p key c, p ∈ items /\ profile_matches ∅ p = Ok true /\
       (forall q, q ∈ items -> profile_matches ∅ q = Ok true ->
          strings.less (profile_name q) (profile_name p) = false) /\
       Entry (KGet KSetupKey "apps" (sp_SetupKeyRef (SidecarProfile_Spec p))) (Ok key) ∈ t0 /\
       sidecar_container no_merge "https://api" "client" p key = Ok c /\ injected pod0 p c pod1).
Proof.
  assert (runs (Default no_merge "https://api" "client" pod0) t0 (pod1, None)) as Hr by run_by_eval.
  split; [exact Hr|].
  exact (proj2 (wp_elim _ _ _ _ (Webhook_injects no_merge "https://api" "client" pod0) Hr)).
Defined.
End WebhookRun.
