(* ===== verification/Config.v ===== *)
(** * Process configuration ([internal/logging], [internal/version], [cmd/main.go])

    The pure part of start-up: the logger options from a level and a format,
    the comma-separated group lists of the command line, the runtime namespace
    and the reported version. *)

From stdpp Require Import base list strings.
From Stdlib Require Import Ascii ZArith Lia.
From S2P Require Import Prelude GoStrings GoErr.

Open Scope Z_scope.

(** ** [internal/logging/logging.go] *)

(** [zapcore.Level] is an [int8]; a conversion to it wraps around. *)
Definition int8 (z : Z) : Z := (z + 128) mod 256 - 128.

Definition DebugLevel : Z := -1.
Definition InfoLevel : Z := 0.
Definition WarnLevel : Z := 1.
Definition ErrorLevel : Z := 2.
Definition PanicLevel : Z := 4.

Definition parseLevel (level : string) : result error Z :=
  let name := strings.ToLower (strings.TrimSpace level) in
  if String.eqb name "" || String.eqb name "info" then Ok InfoLevel
  else if String.eqb name "debug" then Ok DebugLevel
  else if String.eqb name "warn" || String.eqb name "warning" then Ok WarnLevel
  else if String.eqb name "error" then Ok ErrorLevel
  else
    let invalid := Err (ErrText ("invalid log level " +:+ quote level +:+
      ": must be debug, info, warn, error, or a non-negative integer")) in
    match strconv.Atoi (strings.TrimSpace level) with
    | Some n => if 0 <=? n then Ok (int8 (- n)) else invalid
    | None => invalid
    end.

(** [zap.Options]: the fields that are set; the time encoder is always
    [zapcore.ISO8601TimeEncoder]. *)
Record zapOptions := mkZapOptions {
  zo_Level : Z;
  zo_Development : bool;
  zo_StacktraceLevel : Z
}.

Definition Options (level format : string) : result error zapOptions :=
  match parseLevel level with
  | Err e => Err e
  | Ok lvl =>
      let fmt := strings.ToLower (strings.TrimSpace format) in
      let finish development :=
        Ok (mkZapOptions lvl development (if lvl <=? DebugLevel then ErrorLevel else PanicLevel)) in
      if String.eqb fmt "" || String.eqb fmt "json" then finish false
      else if String.eqb fmt "console" then finish true
      else Err (ErrText ("invalid log format " +:+ quote format +:+ ": must be " +:+ quote "json"
                  +:+ " or " +:+ quote "console"))
  end.

(** ** [cmd/main.go] *)

Fixpoint splitGroups_loop (gs out : list string) : list string :=
  match gs with
  | [] => out
  | g :: gs' =>
      let g := strings.TrimSpace g in
      splitGroups_loop gs' (if String.eqb g "" then out else out ++ [g])
  end.

Definition splitGroups (s : string) : list string :=
  splitGroups_loop (strings.SplitByte s ",") [].

(** ** [internal/version/version.go] *)

(** [debug.BuildInfo]: the main module's version and the build settings. *)
Record BuildInfo := mkBuildInfo {
  bi_MainVersion : string;
  bi_Settings : list (string * string)
}.

(** The loop stops at the first [vcs.modified] setting. *)
Fixpoint build_modified (settings : list (string * string)) : bool :=
  match settings with
  | [] => true
  | (key, value) :: rest =>
      if String.eqb key "vcs.modified" then negb (String.eqb value "false") else build_modified rest
  end.

Definition BuildVersion (bi : option BuildInfo) : string :=
  match bi with
  | None => "unknown"
  | Some bi =>
      if build_modified (bi_Settings bi) then "devel"
      else if String.eqb (bi_MainVersion bi) "" then "devel"
      else bi_MainVersion bi
  end.

(** ** Properties *)

Lemma int8_range z : -128 <= int8 z <= 127.
Proof. unfold int8. pose proof (Z.mod_pos_bound (z + 128) 256). lia. Qed.

Lemma int8_small z : -128 <= z <= 127 -> int8 z = z.
Proof. intros Hz. unfold int8. rewrite Z.mod_small; lia. Qed.

Lemma int8_wrapped n : 128 < n < 385 -> int8 (- n) = 256 - n.
Proof.
  intros Hn. unfold int8. replace (- n + 128) with ((256 - n + 128) + (-1) * 256) by lia.
  rewrite Z.mod_add by lia. rewrite Z.mod_small; lia.
Qed.

(** A decimal number is none of the level names. *)
Lemma parseLevel_Itoa n : 0 <= n < 2 ^ 63 -> parseLevel (strconv.Itoa n) = Ok (int8 (- n)).
Proof.
  intros Hn. destruct (Itoa_nonneg n) as (Hd & Hne & _); [lia|]. unfold parseLevel.
  rewrite TrimSpace_digits, ToLower_digits, Atoi_Itoa by done.
  assert (forall name, all_digits name = false -> String.eqb (strconv.Itoa n) name = false) as Hname.
  { intros name Hx. apply String.eqb_neq. intros <-. congruence. }
  rewrite (proj2 (String.eqb_neq _ ""%string) Hne), !Hname by reflexivity. cbn [orb].
  by rewrite (proj2 (Z.leb_le 0 n)) by lia.
Qed.

(** A numeric log level. [n] shows V(n) and below - zap level -n, with stack
    traces from error level on when it is at least 1 - as long as n is at most
    128; the level type has eight bits, so that from 129 to 255 the same option
    gives a positive level, which hides informational messages (up to 253 also
    errors), with stack traces for panics only. *)
Theorem Options_verbosity n : 0 <= n < 2 ^ 63 -> exists opts,
  Options (strconv.Itoa n) "" = Ok opts /\ zo_Development opts = false /\
  -128 <= zo_Level opts <= 127 /\
  (n <= 128 -> zo_Level opts = - n /\
     zo_StacktraceLevel opts = if 1 <=? n then ErrorLevel else PanicLevel) /\
  (128 < n < 256 -> zo_Level opts = 256 - n /\ InfoLevel < zo_Level opts /\
     (n <= 253 -> ErrorLevel < zo_Level opts) /\ zo_StacktraceLevel opts = PanicLevel).
Proof.
  intros Hn. unfold Options. rewrite parseLevel_Itoa by done. cbn. eexists. split; [reflexivity|]. cbn.
  split; [done|]. split; [apply int8_range|]. split; intros Hb.
  - rewrite int8_small by lia. split; [done|]. unfold DebugLevel.
    destruct (Z.leb_spec (- n) (-1)), (Z.leb_spec 1 n); lia || done.
  - rewrite int8_wrapped by lia. unfold InfoLevel, DebugLevel, ErrorLevel.
    split; [done|split; [lia|split; [lia|]]]. destruct (Z.leb_spec (256 - n) (-1)); lia || done.
Qed.

Lemma Options_verbosity_witness : 0 <= 129 < 2 ^ 63 /\ exists opts,
  Options (strconv.Itoa 129) "" = Ok opts /\ zo_Level opts = 127.
Proof.
  split; [lia|]. destruct (Options_verbosity 129) as (opts & H1 & _ & _ & _ & H2); [lia|].
  exists opts. split; [exact H1|]. exact (proj1 (H2 ltac:(lia))).
Defined.

(** Splitting at commas undoes joining with them. *)
Lemma SplitByte_app sep s t : has_byte sep s = false ->
  strings.SplitByte (s +:+ String sep t) sep = s :: strings.SplitByte t sep.
Proof.
  induction s as [|a s IH]; cbn; [by rewrite Ascii.eqb_refl|].
  intros [Ha Hs]%orb_false_iff. by rewrite Ha, IH.
Qed.

Lemma SplitByte_one sep s : has_byte sep s = false -> strings.SplitByte s sep = [s].
Proof.
  induction s as [|a s IH]; cbn; [done|]. intros [Ha Hs]%orb_false_iff. by rewrite Ha, IH.
Qed.

Lemma SplitByte_Join sep gs : gs <> [] -> (forall g, g ∈ gs -> has_byte sep g = false) ->
  strings.SplitByte (strings.Join gs (String sep "")) sep = gs.
Proof.
  unfold strings.Join. induction gs as [|g gs IH]; [done|]. intros _ Hgs. destruct gs as [|g' gs].
  - cbn. apply SplitByte_one, Hgs. left.
  - change (String.concat (String sep "") (g :: g' :: gs)) with
      (g +:+ String sep (String.concat (String sep "") (g' :: gs))).
    rewrite SplitByte_app by (apply Hgs; left). f_equal. apply IH; [done|]. intros. apply Hgs. by right.
Qed.

Lemma splitGroups_loop_spec gs out : splitGroups_loop gs out =
  out ++ filter (fun g => g <> ""%string) (map strings.TrimSpace gs).
Proof.
  revert out. induction gs as [|g gs IH]; intros out; cbn [splitGroups_loop map];
    [by rewrite filter_nil, app_nil_r|].
  rewrite IH, filter_cons. destruct (String.eqb_spec (strings.TrimSpace g) ""); case_decide; try done.
  by rewrite <- app_assoc.
Qed.

(** The comma-separated group lists of the command line. No entry of the
    result is empty, and a list of names without commas or surrounding space is
    read back from its comma-separated text - also the empty list, which is
    what an unset flag gives. *)
Theorem splitGroups_roundtrip :
  (forall s g, g ∈ splitGroups s -> g <> ""%string) /\
  forall gs, (forall g, g ∈ gs -> g <> ""%string /\ has_byte "," g = false /\ strings.TrimSpace g = g) ->
    splitGroups (strings.Join gs ",") = gs.
Proof.
  split.
  - intros s g. unfold splitGroups. rewrite splitGroups_loop_spec. cbn. by intros [? _]%list_elem_of_filter.
  - intros gs Hgs. destruct gs as [|g0 gs0]; [done|]. set (gs := g0 :: gs0) in *.
    unfold splitGroups. rewrite SplitByte_Join by (done || (intros g Hg; apply Hgs, Hg)).
    rewrite splitGroups_loop_spec. cbn [app]. clearbody gs.
    induction gs as [|g gs IH]; [done|]. cbn [map]. destruct (Hgs g) as (Hne & _ & Ht); [left|].
    rewrite Ht, filter_cons_True by done. f_equal. apply IH. intros. apply Hgs. by right.
Qed.

Lemma splitGroups_roundtrip_witness :
  splitGroups (strings.Join ["All"; "site-a"]%string ",") = ["All"; "site-a"]%string.
Proof.
  apply (proj2 splitGroups_roundtrip). intros g Hg.
  repeat apply elem_of_cons in Hg as [->|Hg]; [..|by apply not_elem_of_nil in Hg]; repeat split; done.
Defined.
