(* ===== verification/Bounds.v ===== *)
(** * How many calls a reconcile makes

    Every loop of a reconcile runs over a list of the spec, over the two
    address families, or once more after a miss: whatever the servers answer,
    a reconcile ends after a number of calls that its resource determines. *)

From stdpp Require Import base gmap list strings.
From Stdlib Require Import ZArith Lia.
From S2P Require Import Prelude Sort GoStrings NetIP GoErr Prog ApiTypes K8sTypes ApplyConf Env NetbirdUtil Reconcile Mirror NetworkMirror ServiceAddr DNSMirror Rps Gateway GatewayCtl LoadBalancer RpCluster GroupCtl SetupKeyCtl Router ClusterProxyCtl.

Open Scope nat_scope.
Open Scope prog_scope.

(** At most [n] calls, whatever the answers. *)
Fixpoint at_most {A} (n : nat) (p : M A) {struct p} : Prop :=
  match p with
  | Ret _ => True
  | Call _ kont => match n with O => False | S n' => forall r, at_most n' (kont r) end
  end.
Arguments at_most : simpl never.

Lemma at_most_ret {A} n (a : A) : at_most n (Ret a).
Proof. exact I. Qed.

Lemma at_most_call {A} n c (kont : resp c -> M A) : (forall r, at_most n (kont r)) -> at_most (S n) (Call c kont).
Proof. exact (fun H => H). Qed.

Lemma at_most_mono {A} n m (p : M A) : n <= m -> at_most n p -> at_most m p.
Proof.
  revert n m. induction p as [a|c kont IH]; intros n m Hle; [by intros _|].
  destruct n as [|n], m as [|m]; try (intros []; fail); [lia|]. intros Hk r. apply (IH r n); [lia|apply Hk].
Qed.

Lemma at_most_bind {A B} n m (p : M A) (f : A -> M B) :
  at_most n p -> (forall a, at_most m (f a)) -> at_most (n + m) (bind p f).
Proof.
  revert n. induction p as [a|c kont IH]; intros n; cbn.
  - intros _ Hf. eapply at_most_mono; [|apply Hf]. lia.
  - destruct n as [|n]; [intros []|]. intros Hk Hf. apply at_most_call. intros r. by apply IH.
Qed.

Lemma at_most_wp {A} n (p : M A) : at_most n p -> wp p (fun t _ => length t <= n).
Proof.
  revert n. induction p as [a|c kont IH]; intros n; cbn; [lia|].
  destruct n as [|n]; [intros []|]. intros Hk r. eapply wp_mono; [by apply IH, Hk|]. cbn. intros; lia.
Qed.

(** Follow the calls, one unit of the bound each; [tac] handles the callees. *)
Ltac count_calls tac :=
  repeat first
    [ progress cbn -[Nat.add Nat.mul]
    | match goal with
      | |- at_most _ (Ret _) => apply at_most_ret
      | |- at_most _ (ask _) => unfold ask, perform
      | |- at_most _ (Call _ _) => apply at_most_call; intros ?
      end
    | tac
    | case_scrut
    | done ].

(** ** The shared lookups *)

Lemma group_ids_of_calls ref ns : at_most 1 (group_ids_of ref ns).
Proof. unfold group_ids_of. count_calls fail. Qed.

Lemma GetGroupIDs_calls refs ns : at_most (length refs) (GetGroupIDs refs ns).
Proof.
  induction refs as [|ref refs IH]; [done|]. cbn [GetGroupIDs length].
  apply (at_most_bind 1); [apply group_ids_of_calls|]. intros [ids|e]; [|done].
  rewrite <- (Nat.add_0_r (length refs)). apply at_most_bind; [done|]. by intros [].
Qed.

Lemma GetDNSZoneByName_calls n : at_most 5 (GetDNSZoneByName n).
Proof. unfold GetDNSZoneByName, lookup, list_, refresh, fetchLocked. count_calls fail. Qed.

Lemma GetProxyClusterByAddress_calls a : at_most 5 (GetProxyClusterByAddress a).
Proof. unfold GetProxyClusterByAddress, lookup, list_, refresh, fetchLocked. count_calls fail. Qed.
#[export] Hint Resolve group_ids_of_calls GetGroupIDs_calls GetDNSZoneByName_calls GetProxyClusterByAddress_calls : go_hints.

Lemma verifyNetbirdID_calls `{ErrorClass} id c : at_most 1 (verifyNetbirdID id (get_err c)).
Proof. unfold verifyNetbirdID, get_err. count_calls fail. Qed.

Lemma resolveNetworkID_calls `{ErrorClass} ref : at_most 1 (resolveNetworkID ref).
Proof. unfold resolveNetworkID. count_calls fail. Qed.

Lemma delete_tolerant_calls `{ErrorClass} c id : at_most 1 (delete_tolerant c id).
Proof. unfold delete_tolerant. count_calls fail. Qed.
#[export] Hint Resolve verifyNetbirdID_calls resolveNetworkID_calls delete_tolerant_calls : go_hints.

(** A callee of a known count, then the rest. *)
Ltac after n := apply (at_most_bind n); [solve [auto with go_hints]|intros ?].

(** ** The mirrors *)

(** The calls of the upsert, by the resource, and of the delete. *)
Class Counted {k} (m : mirror k) (upsert : obj k -> nat) (del : nat) := {
  counted_apply : forall o, at_most (upsert o) (m_apply m o);
  counted_del : forall o, at_most del (m_del m o)
}.

(** The reconcile of the object read makes at most so many calls. *)
Definition bounded_by (k : kind) (ns name : string) (limit : obj k -> nat) (p : M outcome) : Prop :=
  wp p (fun t _ => length t = 1 \/
    exists o : obj k, Entry (KGet k ns name) (Ok o) ∈ t /\ length t <= limit o).

Lemma bounded_read k ns name (limit : obj k -> nat) (kont : result error (obj k) -> M outcome) :
  (forall e, at_most 0 (kont (Err e))) -> (forall o, at_most (limit o) (kont (Ok o))) ->
  bounded_by k ns name (fun o => S (limit o)) (Call (KGet k ns name) kont).
Proof.
  intros He Ho. unfold bounded_by. cbn. intros [o|e].
  - eapply wp_mono; [apply at_most_wp, Ho|]. cbn. intros t out Ht. right. exists o. split; [left|lia].
  - eapply wp_mono; [apply at_most_wp, He|]. cbn. intros t out Ht. left. lia.
Qed.

Section mirrors.
Context `{ErrorClass} `{K8sLib} {k : kind} `{MirrorObject k}.

(** The finalizer does not count. *)
Lemma Mirror_bounded m upsert del `{!Counted m upsert del} rec ns name :
  (forall o f, upsert (add_finalizer o f) = upsert o) ->
  bounded_by k ns name (fun o => S (S (S (upsert o + del)))) (Mirror.Reconcile m rec ns name).
Proof.
  intros Hf. unfold Mirror.Reconcile. cbn [bind ask perform]. apply bounded_read; [done|]. intros o.
  destruct (deleting _).
  - apply (at_most_mono (del + 1)); [lia|]. apply at_most_bind; [apply counted_del|]. intros err.
    unfold patch, recordEvent, recordEventType. count_calls fail.
  - apply at_most_call. intros [e|]; [apply at_most_ret|]. apply (at_most_mono (upsert o + 1)); [lia|].
    apply at_most_bind; [rewrite <- (Hf o (Finalizer (m_finalizer m))); apply counted_apply|]. intros [o2 err].
    unfold patch, patch_observed. count_calls fail.
Qed.
End mirrors.

#[export] Instance Network_counted `{ErrorClass} : Counted NewNetworkReconciler (fun _ => 2) 1.
Proof.
  constructor; intros net; cbn [m_apply m_del NewNetworkReconciler].
  - unfold applyNetwork. after 1. count_calls fail.
  - unfold deleteNetwork. count_calls fail.
Qed.

Definition nres_calls (nr : obj KNetworkResource) : nat := length (nres_Groups (NetworkResource_Spec nr)) + 3.

#[export] Instance NetworkResource_counted `{ErrorClass} : Counted NewNetworkResourceReconciler nres_calls 1.
Proof.
  constructor; intros nr; cbn [m_apply m_del NewNetworkResourceReconciler].
  - unfold applyNetworkResource, nres_calls. rewrite Nat.add_comm.
    apply (at_most_mono (1 + (length (nres_Groups (NetworkResource_Spec nr)) + 2))); [lia|]. after 1.
    destruct a as [id|e]; [|apply at_most_ret]. cbn zeta. apply at_most_bind; [apply GetGroupIDs_calls|].
    intros [ids|e]; [|apply at_most_ret]. after 1. count_calls fail.
  - unfold deleteNetworkResource. count_calls fail.
Qed.

Definition zone_calls (z : obj KDNSZone) : nat := length (zone_DistributionGroups (DNSZone_Spec z)) + 8.

#[export] Instance DNSZone_counted `{ErrorClass} : Counted NewDNSZoneReconciler zone_calls 3.
Proof.
  assert (forall z id req, at_most 2 (upsertZone z id req)) as Hup.
  { intros z id req. unfold upsertZone. count_calls fail. }
  constructor; intros z; cbn [m_apply m_del NewDNSZoneReconciler].
  - unfold applyDNSZone, zone_calls. apply at_most_bind; [apply GetGroupIDs_calls|].
    intros [ids|e]; [|apply at_most_ret]. cbn zeta. apply (at_most_bind 1 7); [auto with go_hints|].
    intros [id|e]; [|apply at_most_ret]. destruct (String.eqb id ""); [|eapply at_most_mono; [|apply Hup]; lia].
    apply (at_most_bind 5 2); [auto with go_hints|]. intros [zone|e]; [apply Hup|].
    destruct (errors_Is e _); [apply Hup|apply at_most_ret].
  - unfold deleteDNSZone, dnsZoneSharedByOther. count_calls fail.
Qed.

#[export] Instance DNSRecord_counted `{ErrorClass} : Counted NewDNSRecordReconciler (fun _ => 5) 1.
Proof.
  assert (forall r zone id req, at_most 2 (upsertRecord r zone id req)) as Hup.
  { intros r zone id req. unfold upsertRecord. count_calls fail. }
  constructor; intros r; cbn [m_apply m_del NewDNSRecordReconciler].
  - unfold applyDNSRecord. apply (at_most_bind 1 4); [unfold resolveZoneID; count_calls fail|].
    intros [zone|e]; [|apply at_most_ret]. cbn zeta. after 1. destruct a as [id|e]; [|apply at_most_ret].
    destruct (String.eqb id ""); [|eapply at_most_mono; [|apply Hup]; lia].
    apply at_most_call. intros [records|e]; [apply Hup|apply at_most_ret].
  - unfold deleteDNSRecord. count_calls fail.
Qed.

Definition rps_calls (rps : obj KReverseProxyService) : nat :=
  let spec := ReverseProxyService_Spec rps in 7 + 2 * length (rps_Backends spec) + length (rps_AccessGroups spec).

Section rps.
Context `{ErrorClass} `{SortSlice} (mode_text : api.ServiceRequestMode -> string).

Lemma resolveL4Backend_calls ns name want : at_most 2 (resolveL4Backend ns name want).
Proof. unfold resolveL4Backend, get_backend. count_calls fail. Qed.

Lemma resolveBackend_calls ns name want : at_most 2 (resolveBackend ns name want).
Proof. unfold resolveBackend, get_backend, backendFQDN. count_calls fail. Qed.

Lemma render_targets_calls rps cluster mode proto backends targets label :
  at_most (2 * length backends) (render_targets rps cluster mode proto backends targets label).
Proof.
  revert targets label. induction backends as [|b backends IH]; intros targets label; cbn [render_targets length];
    [apply at_most_ret|].
  replace (2 * S (length backends)) with (2 + 2 * length backends) by lia.
  destruct (negb _); apply (at_most_bind 2); [apply resolveL4Backend_calls| |apply resolveBackend_calls|];
    (intros [[[host port] name]|e]; [apply IH|apply at_most_ret]).
Qed.

Lemma renderService_calls (rps : obj KReverseProxyService) :
  let spec := ReverseProxyService_Spec rps in
  at_most (5 + (2 * length (rps_Backends spec) + length (rps_AccessGroups spec))) (renderService mode_text rps).
Proof.
  cbn zeta. unfold renderService. apply (at_most_bind 5); [auto with go_hints|].
  intros [cluster|e]; [|apply at_most_ret]. destruct (serviceMode _) as [mode proto].
  destruct (_ && _); [apply at_most_ret|]. apply at_most_bind; [apply render_targets_calls|].
  intros [[targets label]|e]; [|apply at_most_ret]. cbn zeta. rewrite <- (Nat.add_0_r (length (rps_AccessGroups _))).
  apply at_most_bind; [destruct (_ && _); [apply GetGroupIDs_calls|apply at_most_ret]|].
  intros [gs|e]; apply at_most_ret.
Qed.

#[export] Instance Rps_counted : Counted (NewReverseProxyServiceReconciler mode_text) rps_calls 1.
Proof.
  constructor; intros rps; cbn [m_apply m_del NewReverseProxyServiceReconciler].
  - unfold applyReverseProxyService, rps_calls.
    eapply (at_most_mono (_ + 2)); [|apply at_most_bind; [apply renderService_calls|]]; [cbn; lia|].
    intros [req|e]; count_calls fail.
  - unfold deleteReverseProxyService. count_calls fail.
Qed.
End rps.

(** ** The other controllers *)
Section controllers.
Context `{ErrorClass} `{K8sLib}.

Lemma Group_bounded rec ns name :
  bounded_by KGroup ns name (fun _ => 6) (GroupCtl.Reconcile rec ns name).
Proof.
  unfold GroupCtl.Reconcile. cbn [bind ask perform]. apply bounded_read; [intros; apply at_most_ret|]. intros g.
  unfold GroupCtl.reconcileDelete, ensure_group, create_group, recordEvent, recordEventType, patch, patch_observed.
  count_calls fail.
Qed.

Definition key_calls (sk : obj KSetupKey) : nat := 2 + (length (sk_AutoGroups (SetupKey_Spec sk)) + 7).

Lemma SetupKey_bounded rec ns name :
  bounded_by KSetupKey ns name key_calls (SetupKeyCtl.Reconcile rec ns name).
Proof.
  apply (bounded_read KSetupKey ns name (fun sk => 1 + (length (sk_AutoGroups (SetupKey_Spec sk)) + 7)));
    [intros e; apply at_most_ret|intros sk].
  destruct (ControllerReference _ _) as [owner|e]; [|apply at_most_ret]. destruct (deleting _).
  - unfold SetupKeyCtl.reconcileDelete, delete_tolerant, patch. apply (at_most_mono 2); [lia|]. count_calls fail.
  - apply at_most_call. intros [e|]; [apply at_most_ret|]. apply at_most_bind; [apply GetGroupIDs_calls|].
    intros [gs|e]; [|apply at_most_ret].
    unfold up_to_date, replace_key, recordEvent, recordEventType, delete_tolerant, patch, patch_observed.
    count_calls fail.
Qed.

Lemma ClusterProxy_bounded ApiKey ManagementURL ns name :
  bounded_by KClusterProxy ns name (fun _ => 6) (ClusterProxyCtl.Reconcile ApiKey ManagementURL ns name).
Proof.
  apply (bounded_read KClusterProxy); [intros e; apply at_most_ret|intros cp]. unfold patch_observed.
  count_calls fail.
Qed.

Lemma resolvePeerGroup_bounded ClientImage ManagementURL nr :
  at_most 6 (resolvePeerGroup ClientImage ManagementURL nr).
Proof.
  unfold resolvePeerGroup. destruct (peers_Group _) as [g|].
  - apply (at_most_mono (1 + 0)); [lia|]. apply at_most_bind; [apply (GetGroupIDs_calls [g])|].
    intros [[|id ids]|e]; apply at_most_ret.
  - unfold ensureDeployedPeers, ensureDaemonSet. count_calls fail.
Qed.

Lemma NetworkRouter_bounded ClientImage ManagementURL ns name :
  bounded_by KNetworkRouter ns name (fun _ => 12) (Router.Reconcile ClientImage ManagementURL ns name).
Proof.
  apply (bounded_read KNetworkRouter ns name (fun _ => 11)); [intros e; apply at_most_ret|intros nr].
  destruct (deleting _); [unfold Router.reconcileDelete, delete_tolerant, patch; count_calls fail|].
  apply at_most_call. intros [e|]; [apply at_most_ret|]. unfold sync. 
  apply (at_most_bind 1 9); [auto with go_hints|]. intros [id|e]; [|unfold dependency, patch; count_calls fail].
  apply (at_most_bind 6 3); [apply resolvePeerGroup_bounded|].
  intros [gid|e]; [|unfold dependency, patch; count_calls fail].
  unfold upsertRouter, verifyNetbirdID, get_err, patch_observed. count_calls fail.
Qed.

(** *** The cluster: at most one record per family *)

Lemma first_per_family_length svc : length (first_per_family [] (lbIngressAddresses svc)) <= 2.
Proof.
  destruct (first_per_family_ok svc) as [Hnd Hok]. rewrite <- (length_map fa_family).
  assert (map fa_family (first_per_family [] (lbIngressAddresses svc)) ⊆+ [IPv4Protocol; IPv6Protocol]) as Hsub;
    [|by apply submseteq_length in Hsub].
  apply NoDup_submseteq; [exact Hnd|]. intros f (fa & -> & Hfa)%list_elem_of_fmap.
  destruct (Hok fa Hfa) as [[ip Hip] ->]. unfold ipFamilyOf. rewrite Hip. destruct (net.To4 ip); set_solver.
Qed.

Lemma publish_addresses_bounded rpc ownerRef zoneRef addrs published :
  at_most (length addrs) (publish_addresses rpc ownerRef zoneRef addrs published).
Proof.
  revert published. induction addrs as [|fa addrs IH]; intros published; cbn [publish_addresses length];
    [apply at_most_ret|].
  destruct (dnsRecordTypeFor _) as [ty ok]. destruct (_ || _); [eapply at_most_mono; [|apply IH]; lia|].
  apply at_most_call. intros [e|]; [apply at_most_ret|apply IH].
Qed.

Lemma unpublish_bounded rpc types published : at_most (length types) (unpublish rpc types published).
Proof.
  induction types as [|ty types IH]; cbn [unpublish length]; [apply at_most_ret|].
  case_bool_decide; [eapply at_most_mono; [|apply IH]; lia|].
  apply at_most_call. intros [e|]; [destruct (kerrors_IsNotFound e); [apply IH|apply at_most_ret]|apply IH].
Qed.

Lemma applyRecords_bounded rpc ownerRef zoneRef addrs : length addrs <= 2 ->
  at_most 5 (applyRecords rpc ownerRef zoneRef addrs).
Proof.
  intros Hl. apply (at_most_bind 2 3); [eapply at_most_mono; [exact Hl|apply publish_addresses_bounded]|].
  intros [published|e]; [|apply at_most_ret].
  apply (at_most_bind 2 1); [apply (unpublish_bounded _ [_; _])|]. intros [e|]; count_calls fail.
Qed.

Lemma ensureDomain_calls rpc : at_most 9 (ensureDomain rpc).
Proof.
  unfold ensureDomain, anotherClusterMatches, create_domain, delete_tolerant.
  apply at_most_call. intros [domains|e]; [|apply at_most_ret].
  cbn beta iota. case_scrut; [|count_calls fail].
  destruct (_ || _); [apply at_most_ret|]. apply at_most_call. intros [items|e]; [|apply at_most_ret]. cbn.
  destruct (anotherLiveMatches _ _ _ _); [apply at_most_ret|]. after 5. count_calls fail.
Qed.

Lemma registerDomain_calls rpc : at_most 12 (registerDomain rpc).
Proof.
  apply (at_most_bind 9 3); [apply ensureDomain_calls|]. intros found.
  unfold notReady, patch, patch_observed. count_calls fail.
Qed.

Lemma deploy_calls ManagementURL rpc ownerRef : at_most 26 (deploy ManagementURL rpc ownerRef).
Proof.
  apply (at_most_bind 1 25); [unfold ensureZone; count_calls fail|]. intros [zoneRef|e]; [|apply at_most_ret].
  apply at_most_call. intros [e|]; [apply at_most_ret|]. apply at_most_call. intros [e|]; [apply at_most_ret|].
  apply at_most_call. intros svc. cbn [bind].
  assert (length (match svc with Ok svc => first_per_family [] (lbIngressAddresses svc) | Err _ => [] end) <= 2) as Hl.
  { destruct svc; [apply first_per_family_length|cbn; lia]. }
  destruct (match svc with Ok _ => _ | Err _ => _ end) as [|fa addrs]; [unfold notReady, patch; count_calls fail|].
  apply (at_most_bind 5 17); [by apply applyRecords_bounded|]. intros [e|]; [apply at_most_ret|].
  apply (at_most_bind 5 12); [auto with go_hints|].
  intros [c|e]; [apply registerDomain_calls|unfold notReady, patch; count_calls fail].
Qed.

Lemma RpCluster_bounded ManagementURL ns name :
  bounded_by KReverseProxyCluster ns name (fun _ => 31) (RpCluster.Reconcile ManagementURL ns name).
Proof.
  apply (bounded_read KReverseProxyCluster ns name (fun _ => 30)); [intros e; apply at_most_ret|intros rpc].
  destruct (deleting _).
  - unfold RpCluster.reconcileDelete, releaseDomain, releaseCluster, anotherClusterMatches, delete_tolerant, patch.
    count_calls fail.
  - apply at_most_call. intros [e|]; [apply at_most_ret|].
    destruct (ControllerReference _ _) as [owner|e]; [|apply at_most_ret].
    apply (at_most_bind 3 26); [unfold mintToken, patch; count_calls fail|].
    intros [rpc'|e]; [apply deploy_calls|apply at_most_ret].
Qed.
End controllers.

(** ** Loops over what was listed

    A prune deletes some of the children it listed, and the hostnames of a
    route may be those of its Gateway's listeners: such loops are bounded by
    what the reconcile has read. *)
Definition read_size (e : event) : nat :=
  match e with
  | Entry (KList k _ _) (Ok items) => length items
  | Entry (KGet KGateway _ _) (Ok gw) => length (gw_Listeners gw)
  | _ => 0
  end.

Definition read_sizes (t : history) : nat := sum_list_with read_size t.

(** At most [n] calls, and one for each thing read. *)
Fixpoint within {A} (n : nat) (p : M A) {struct p} : Prop :=
  match p with
  | Ret _ => True
  | Call c kont => match n with O => False | S n' => forall r, within (n' + read_size (Entry c r)) (kont r) end
  end.
Arguments within : simpl never.

Lemma within_call {A} n c (kont : resp c -> M A) :
  (forall r, within (n + read_size (Entry c r)) (kont r)) -> within (S n) (Call c kont).
Proof. exact (fun H => H). Qed.

Lemma within_mono {A} n m (p : M A) : n <= m -> within n p -> within m p.
Proof.
  revert n m. induction p as [a|c kont IH]; intros n m Hle; [by intros _|].
  destruct n as [|n], m as [|m]; try (intros []; fail); [lia|]. intros Hk r.
  apply (IH r (n + read_size (Entry c r))); [lia|apply Hk].
Qed.

Lemma within_bind {A B} n m (p : M A) (f : A -> M B) :
  within n p -> (forall a, within m (f a)) -> within (n + m) (bind p f).
Proof.
  revert n. induction p as [a|c kont IH]; intros n; cbn [bind].
  - intros _ Hf. eapply within_mono; [|apply Hf]. lia.
  - destruct n as [|n]; [intros []|]. intros Hk Hf. change (S n + m) with (S (n + m)). apply within_call. intros r.
    apply (within_mono (n + read_size (Entry c r) + m)); [lia|]. apply IH; [apply Hk|done].
Qed.

Lemma at_most_within {A} n (p : M A) : at_most n p -> within n p.
Proof.
  revert n. induction p as [a|c kont IH]; intros n; [done|]. destruct n as [|n]; [intros []|].
  intros Hk. apply within_call. intros r. eapply within_mono; [|by apply IH, Hk]. lia.
Qed.

Lemma read_sizes_cons e t : read_sizes (e :: t) = read_size e + read_sizes t.
Proof. done. Qed.

Lemma within_wp {A} n (p : M A) : within n p -> wp p (fun t _ => length t <= n + read_sizes t).
Proof.
  revert n. induction p as [a|c kont IH]; intros n; cbn [wp]; [intros _; apply Nat.le_0_l|].
  destruct n as [|n]; [intros []|]. intros Hk r. eapply wp_mono; [apply (IH r (n + read_size (Entry c r))), Hk|].
  intros t a Hl. cbn beta in Hl. rewrite read_sizes_cons. cbn [length]. lia.
Qed.

(** The reconcile of the object read makes at most so many calls, and one for
    each thing it reads. *)
Definition bounded_by_reads (k : kind) (ns name : string) (limit : obj k -> nat) (p : M outcome) : Prop :=
  wp p (fun t _ => length t = 1 \/
    exists o : obj k, Entry (KGet k ns name) (Ok o) ∈ t /\ length t <= limit o + read_sizes t).

Lemma within_read k ns name (limit : obj k -> nat) (kont : result error (obj k) -> M outcome) :
  (forall e, at_most 0 (kont (Err e))) -> (forall o, within (limit o) (kont (Ok o))) ->
  bounded_by_reads k ns name (fun o => S (limit o)) (Call (KGet k ns name) kont).
Proof.
  intros He Ho. unfold bounded_by_reads. cbn [wp]. intros [o|e].
  - eapply wp_mono; [apply within_wp, Ho|]. intros t a Hl. cbn beta in Hl. right. exists o. split; [left|].
    rewrite read_sizes_cons. cbn [length]. lia.
  - eapply wp_mono; [apply at_most_wp, He|]. intros t a Hl. left. cbn in *. lia.
Qed.

Ltac count_within tac :=
  repeat first
    [ progress cbn -[Nat.add Nat.mul read_size within]
    | match goal with
      | |- within _ (Ret _) => exact I
      | |- within _ (ask _) => unfold ask, perform
      | |- within _ (Call _ _) => apply within_call; intros ?
      end
    | tac
    | case_scrut
    | done ].

Section translators.
Context `{ErrorClass} `{K8sLib}.

Lemma delete_undesired_calls {k} (meta : obj k -> ObjectMeta) desired items :
  at_most (length items) (delete_undesired k meta desired items).
Proof.
  induction items as [|o items IH]; [done|]. cbn [delete_undesired length]. destruct (bool_decide _).
  - eapply at_most_mono; [|exact IH]. lia.
  - apply at_most_call. intros [e|]; [|exact IH]. cbn. by destruct (kerrors_IsNotFound e).
Qed.

Lemma list_prune_within {k} ns labels (meta : obj k -> ObjectMeta) desired n (f : option error -> M (option error)) :
  (forall err, within n (f err)) ->
  within (S n) (let! listed := ask (KList k ns labels) in
    match listed with
    | Err e => Ret (Some e)
    | Ok items => let! err := delete_undesired k meta desired items in f err
    end).
Proof.
  intros Hf. apply within_call. intros [items|e]; [|done]. cbn [read_size].
  rewrite Nat.add_comm. apply within_bind; [apply at_most_within, delete_undesired_calls|done].
Qed.

Lemma lb_prune_within svc desired : within 2 (LoadBalancer.prune svc desired).
Proof.
  unfold LoadBalancer.prune. apply list_prune_within. intros [e|]; [done|].
  apply within_call. intros [items|e]; [|done]. cbn [read_size Nat.add].
  apply at_most_within, delete_undesired_calls.
Qed.

(** *** LoadBalancer *)
Lemma advertise_calls svc network zone ownerRef gs ingress desired :
  at_most (2 * length ingress) (advertise svc network zone ownerRef gs ingress desired).
Proof.
  revert desired. induction ingress as [|fa ingress IH]; intros desired; [done|]. cbn [advertise].
  destruct (dnsRecordTypeFor _) as [ty ok]. destruct (negb ok).
  - eapply at_most_mono; [|apply IH]. cbn. lia.
  - replace (2 * length (fa :: ingress)) with (S (S (2 * length ingress))) by (cbn; lia).
    apply at_most_call. intros [e|]; [done|]. apply at_most_call. intros [e|]; [done|]. apply IH.
Qed.

Lemma ingress_length svc : length (lbIngressAddresses svc) <= length (svc_Ingress svc).
Proof.
  unfold lbIngressAddresses. induction (svc_Ingress svc) as [|ip ips IH]; cbn; [lia|]. repeat case_match; cbn; lia.
Qed.

Definition lb_calls (svc : Service) : nat := 6 + 2 * length (svc_Ingress svc).

Lemma LoadBalancer_bounded r ns name :
  bounded_by_reads KService ns name (fun svc => S (lb_calls svc)) (LoadBalancer.Reconcile r ns name).
Proof.
  apply within_read; [done|]. intros svc. unfold lb_calls. apply within_call. intros [nsObj|e]; [|done].
  cbn [read_size]. cbv zeta. destruct (negb _).
  { eapply within_mono; [|apply (within_bind 2 0); [apply lb_prune_within|done]]. lia. }
  pose proof (ingress_length svc) as Hlen. destruct (lbIngressAddresses svc) as [|fa ingress] eqn:Hing; [done|].
  apply (within_mono (1 + (1 + (2 * length (fa :: ingress) + (1 + (2 + 0)))))); [cbn [length] in *; lia|].
  assert (forall e, at_most 1 (dependencyRequeue r e)) as Hdep.
  { intros e. unfold dependencyRequeue, recordEvent, recordEventType. destruct (lb_Recorder r); count_calls fail. }
  apply within_bind; [apply at_most_within; unfold resolveNetwork; count_calls fail|].
  intros [network|e]; [|eapply within_mono; [|apply at_most_within, Hdep]; lia].
  apply within_bind; [apply at_most_within; unfold LoadBalancer.ensureZone; count_calls fail|].
  intros [zone|e]; [|eapply within_mono; [|apply at_most_within, Hdep]; lia].
  destruct (ControllerReference _ _) as [ownerRef|e]; [|done].
  apply within_bind; [apply at_most_within, advertise_calls|]. intros [desired|e]; [|done].
  apply within_bind; [|intros u; apply within_bind; [apply lb_prune_within|done]].
  apply at_most_within. unfold recordNormalEvent, recordEventType. destruct (lb_Recorder r); count_calls fail.
Qed.

(** *** The Gateway API controllers *)
Lemma GatewayClass_bounded managed name : at_most 2 (GatewayClassReconciler.Reconcile managed name).
Proof. unfold GatewayClassReconciler.Reconcile, GatewayClassReconciler.ensure. count_calls fail. Qed.

Lemma listener_loop_calls gw cfg programmed routes ls :
  at_most (length ls) (GatewayReconciler.listener_loop gw cfg programmed routes ls).
Proof.
  induction ls as [|l ls IH]; [done|]. cbn [GatewayReconciler.listener_loop length]. destruct (negb _).
  - rewrite <- (Nat.add_0_r (S _)). apply at_most_bind; [|done]. eapply at_most_mono; [|exact IH]. lia.
  - apply (at_most_bind 1).
    + destruct (GatewayReconciler.certificate_name l); [|done]. unfold GatewayReconciler.secretExists. count_calls fail.
    + intros ok. rewrite <- (Nat.add_0_r (length ls)). by apply at_most_bind.
Qed.

Lemma Gateway_bounded ns name :
  bounded_by_reads KGateway ns name (fun gw => S (6 + length (gw_Listeners gw))) (GatewayReconciler.Reconcile ns name).
Proof.
  apply within_read; [done|]. intros gw.
  apply (within_mono (1 + (1 + (1 + (1 + (1 + length (gw_Listeners gw) + 1)))))); [lia|].
  apply within_call. intros [gc|e]; [|done]. cbn [read_size Nat.add]. destruct (negb _); [done|].
  assert (forall reason msg, at_most 1 (GatewayReconciler.fail gw reason msg)) as Hfail.
  { intros. unfold GatewayReconciler.fail. count_calls fail. }
  rewrite Nat.add_0_r. apply (within_bind 1).
  { apply at_most_within. unfold GatewayReconciler.resolveGatewayParams. count_calls fail. }
  intros [params|e]; [|eapply within_mono; [|apply at_most_within, Hfail]; lia].
  destruct (gatewayProxyConfig gw) as [cfg|]; [|eapply within_mono; [|apply at_most_within, Hfail]; lia].
  destruct (ControllerReference _ _) as [ownerRef|e]; [|done].
  apply within_call. intros [e|]; [done|]. cbn [read_size]. rewrite Nat.add_0_r.
  apply within_call. intros [rpc|e]; [|done]. cbn [read_size]. rewrite Nat.add_0_r.
  rewrite <- (Nat.add_0_r (S _)). apply within_bind; [|done].
  apply (within_bind (S (length (gw_Listeners gw))) 1); [|intros ls; by apply within_call].
  apply within_call. intros listed. eapply within_mono; [|apply at_most_within, listener_loop_calls]. lia.
Qed.

Lemma admittedHostnames_length gw route cfg :
  length (admittedHostnames gw route cfg) <= length (route_Hostnames route) + length (gw_Listeners gw).
Proof.
  assert (forall f seen hs, length (admit_loop f seen hs) <= length hs) as Hadmit.
  { intros f seen hs. revert seen. induction hs as [|h hs IH]; intros seen; cbn; [lia|].
    destruct (_ && _); cbn; [specialize (IH (h :: seen))|specialize (IH seen)]; lia. }
  assert (forall seen ls, length (inherit_loop gw route cfg seen ls) <= length ls) as Hinherit.
  { intros seen ls. revert seen. induction ls as [|l ls IH]; intros seen; cbn; [lia|].
    destruct (_ || _); [specialize (IH seen); lia|].
    destruct (_ && _); cbn; [specialize (IH (listener_hostname l :: seen))|specialize (IH seen)]; lia. }
  unfold admittedHostnames. destruct (route_Hostnames route) as [|h hs]; [apply Hinherit|].
  etrans; [apply Hadmit|]. lia.
Qed.

Lemma route_prune_within route desired : within 1 (HTTPRouteReconciler.prune route desired).
Proof.
  apply within_call. intros [items|e]; [|done]. cbn [read_size Nat.add]. apply at_most_within, delete_undesired_calls.
Qed.

Lemma apply_services_calls route cfg ownerRef bs hs :
  at_most (length hs) (HTTPRouteReconciler.apply_services route cfg ownerRef bs hs).
Proof. induction hs as [|h hs IH]; [done|]. apply at_most_call. by intros [e|]. Qed.

Lemma set_condition_calls route parent st reason msg :
  at_most 1 (HTTPRouteReconciler.setRouteCondition route parent st reason msg).
Proof. unfold HTTPRouteReconciler.setRouteCondition. count_calls fail. Qed.

(** The tail of the reconcile, once the Gateway is known. *)
Definition route_tail (route : HTTPRoute) (attached : result error (option (Gateway * ParentReference))) : nat :=
  2 + match attached with
      | Ok (Some (gw, _)) => length (route_Hostnames route) + length (gw_Listeners gw)
      | _ => 0
      end.

(** The walk over the parents pays for the listeners of the Gateway it
    returns. *)
Lemma resolveGateway_within {B} route (f : _ -> M B) :
  (forall attached, within (route_tail route attached) (f attached)) ->
  within (2 * length (route_ParentRefs route) + (2 + length (route_Hostnames route)))
    (bind (HTTPRouteReconciler.resolveGateway route) f).
Proof.
  intros Hf. unfold HTTPRouteReconciler.resolveGateway.
  assert (forall e, within (2 + length (route_Hostnames route)) (f (Err e))) as Herr.
  { intros e. eapply within_mono; [|apply Hf]. cbn. lia. }
  induction (route_ParentRefs route) as [|p ps IH].
  - eapply within_mono; [|apply Hf]. cbn. lia.
  - set (n := 2 * length ps + (2 + length (route_Hostnames route))) in *.
    replace (2 * length (p :: ps) + _) with (S (S n)) by (subst n; cbn [length]; lia).
    apply within_call. intros [gw|e]; cbn [read_size].
    2: { apply (within_mono n); [lia|]. destruct (kerrors_IsNotFound e) eqn:E; cbn [bind];
           [exact IH|eapply within_mono; [|apply Herr]; subst n; lia]. }
    change (S n + length (gw_Listeners gw)) with (S (n + length (gw_Listeners gw))).
    apply within_call. intros [gc|e]; cbn [read_size].
    2: { apply (within_mono n); [lia|]. destruct (kerrors_IsNotFound e) eqn:E; cbn [bind];
           [exact IH|eapply within_mono; [|apply Herr]; subst n; lia]. }
    destruct (negb _); cbn [bind]; [apply (within_mono n); [lia|exact IH]|].
    eapply within_mono; [|apply Hf]. subst n. unfold route_tail. lia.
Qed.

Lemma HTTPRoute_bounded ns name :
  bounded_by_reads KHTTPRoute ns name
    (fun route => S (2 * length (route_ParentRefs route) + (2 + length (route_Hostnames route))))
    (HTTPRouteReconciler.Reconcile ns name).
Proof.
  apply within_read; [done|]. intros route. apply resolveGateway_within.
  intros [[[gw parent]|]|e]; [| |done]; unfold route_tail.
  2: { apply (within_bind 1); [apply route_prune_within|done]. }
  destruct (gatewayProxyConfig gw) as [cfg|].
  2: { eapply within_mono; [|apply (within_bind 1 0); [apply route_prune_within|done]]. lia. }
  destruct (ControllerReference _ _) as [ownerRef|e]; [|done].
  destruct (routeBackends route) as [bs|msg].
  - pose proof (admittedHostnames_length gw route cfg) as Hlen. cbv zeta.
    destruct (HTTPRouteReconciler.route_verdict _ _ _) as [[status reason] msg].
    apply (within_mono (length (admittedHostnames gw route cfg) + (1 + (1 + 0)))); [lia|].
    apply within_bind; [apply at_most_within, apply_services_calls|]. intros [e|]; [done|].
    apply within_bind; [apply route_prune_within|]. intros [e|]; [done|].
    apply within_bind; [apply at_most_within, set_condition_calls|]. by intros [e|].
  - apply (within_mono (1 + (1 + 0))); [lia|].
    apply within_bind; [apply route_prune_within|]. intros [e|]; [done|].
    apply within_bind; [apply at_most_within, set_condition_calls|done].
Qed.
End translators.

(** C11: every reconcile of every controller ends, whatever the servers answer,
    after a number of calls its resource determines; where a loop runs over
    children it lists or over the listeners of a Gateway it reads, there is one
    more call at most for each of these. *)
Theorem reconcilers_terminate `{ErrorClass} `{SortSlice} `{K8sLib} mode_text rec ClientImage ManagementURL ApiKey lb
    ManagedClassName ns name :
  bounded_by KNetwork ns name (fun _ => 6) (Mirror.Reconcile NewNetworkReconciler rec ns name) /\
  bounded_by KNetworkResource ns name (fun nr => 7 + length (nres_Groups (NetworkResource_Spec nr)))
    (Mirror.Reconcile NewNetworkResourceReconciler rec ns name) /\
  bounded_by KDNSZone ns name (fun z => 14 + length (zone_DistributionGroups (DNSZone_Spec z)))
    (Mirror.Reconcile NewDNSZoneReconciler rec ns name) /\
  bounded_by KDNSRecord ns name (fun _ => 9) (Mirror.Reconcile NewDNSRecordReconciler rec ns name) /\
  bounded_by KReverseProxyService ns name (fun rps => 11 + 2 * length (rps_Backends (ReverseProxyService_Spec rps)) +
      length (rps_AccessGroups (ReverseProxyService_Spec rps)))
    (Mirror.Reconcile (NewReverseProxyServiceReconciler mode_text) rec ns name) /\
  bounded_by KGroup ns name (fun _ => 6) (GroupCtl.Reconcile rec ns name) /\
  bounded_by KSetupKey ns name (fun sk => 9 + length (sk_AutoGroups (SetupKey_Spec sk)))
    (SetupKeyCtl.Reconcile rec ns name) /\
  bounded_by KNetworkRouter ns name (fun _ => 12) (Router.Reconcile ClientImage ManagementURL ns name) /\
  bounded_by KClusterProxy ns name (fun _ => 6) (ClusterProxyCtl.Reconcile ApiKey ManagementURL ns name) /\
  bounded_by KReverseProxyCluster ns name (fun _ => 31) (RpCluster.Reconcile ManagementURL ns name) /\
  bounded_by_reads KService ns name (fun svc => 7 + 2 * length (svc_Ingress svc)) (LoadBalancer.Reconcile lb ns name) /\
  wp (GatewayClassReconciler.Reconcile ManagedClassName name) (fun t _ => length t <= 2) /\
  bounded_by_reads KGateway ns name (fun gw => 7 + length (gw_Listeners gw)) (GatewayReconciler.Reconcile ns name) /\
  bounded_by_reads KHTTPRoute ns name
    (fun route => 3 + 2 * length (route_ParentRefs route) + length (route_Hostnames route))
    (HTTPRouteReconciler.Reconcile ns name).
Proof.
  assert (forall k (f g : obj k -> nat) p, (forall o, f o <= g o) -> bounded_by k ns name f p -> bounded_by k ns name g p)
    as Hmono.
  { intros k f g p Hle Hp. eapply wp_mono; [exact Hp|]. intros t _ [?|(o & ? & ?)]; [by left|right].
    exists o. split; [done|]. specialize (Hle o). lia. }
  repeat split_and.
  1-5: eapply Hmono; [|apply Mirror_bounded; [apply _|done]]; intros o;
    unfold nres_calls, zone_calls, rps_calls; cbn zeta; lia.
  - apply Group_bounded.
  - eapply Hmono; [|apply SetupKey_bounded]. intros sk. unfold key_calls. lia.
  - apply NetworkRouter_bounded.
  - apply ClusterProxy_bounded.
  - apply RpCluster_bounded.
  - apply LoadBalancer_bounded.
  - apply at_most_wp, GatewayClass_bounded.
  - apply Gateway_bounded.
  - eapply wp_mono; [apply HTTPRoute_bounded|]. intros t a [?|(route & ? & Hl)]; [by left|right].
    exists route. split; [done|]. lia.
Qed.
