(* ===== verification/Identity.v ===== *)
(** * What a reconcile never changes

    A reconcile writes back a custom resource to store its finalizer and its
    status, and updates the status of a Gateway API object.  Every object it
    sends is the one it read up to these two: the spec, the name, the labels and
    the other metadata are what the user wrote. *)

From stdpp Require Import base gmap list strings.
From Stdlib Require Import ZArith Lia Eqdep.
From S2P Require Import Prelude Sort GoStrings GoErr Prog ApiTypes K8sTypes ApplyConf Env NetbirdUtil Reconcile Mirror NetworkMirror ServiceAddr DNSMirror Rps Gateway GatewayCtl LoadBalancer RpCluster GroupCtl SetupKeyCtl Router ClusterProxyCtl.

Open Scope prog_scope.

(** ** Programs whose calls and result are right *)
Fixpoint safe {A} (P : call -> Prop) (p : M A) (Q : A -> Prop) : Prop :=
  match p with
  | Ret a => Q a
  | Call c kont => P c /\ forall r, safe P (kont r) Q
  end.
Arguments safe : simpl never.

Lemma safe_ret {A} P (a : A) (Q : A -> Prop) : Q a -> safe P (Ret a) Q.
Proof. done. Qed.

Lemma safe_call {A} (P : call -> Prop) c (kont : resp c -> M A) Q :
  P c -> (forall r, safe P (kont r) Q) -> safe P (Call c kont) Q.
Proof. done. Qed.

Lemma safe_mono {A} P (p : M A) (Q Q' : A -> Prop) : (forall a, Q a -> Q' a) -> safe P p Q -> safe P p Q'.
Proof.
  intros HQ. induction p as [a|c kont IH]; [apply HQ|]. intros [Hc Hk]. split; [done|]. intros r. by apply IH.
Qed.

Lemma safe_bind {A B} P (p : M A) (f : A -> M B) Q :
  safe P p (fun a => safe P (f a) Q) -> safe P (bind p f) Q.
Proof.
  induction p as [a|c kont IH]; [done|]. intros [Hc Hk]. split; [done|]. intros r. by apply IH.
Qed.

Lemma safe_calls {A} P (p : M A) : calls_in P p -> safe P p (fun _ => True).
Proof. induction p as [a|c kont IH]; [done|]. intros [Hc Hk]. split; [done|]. intros r. by apply IH. Qed.

(** A callee known by its calls only, and one known by its result too. *)
Lemma safe_calls_bind {A B} P (p : M A) (f : A -> M B) Q :
  calls_in P p -> (forall a, safe P (f a) Q) -> safe P (bind p f) Q.
Proof. intros Hp Hf. apply safe_bind. eapply safe_mono; [|by apply safe_calls]. auto. Qed.

Lemma safe_bind_with {A B} P (p : M A) (f : A -> M B) (R : A -> Prop) Q :
  safe P p R -> (forall a, R a -> safe P (f a) Q) -> safe P (bind p f) Q.
Proof. intros Hp Hf. apply safe_bind. eapply safe_mono; [|exact Hp]. auto. Qed.

Lemma safe_wp {A} P (p : M A) Q :
  safe P p Q -> wp p (fun t a => (forall c r, Entry c r ∈ t -> P c) /\ Q a).
Proof.
  induction p as [a|c kont IH]; cbn.
  - intros HQ. split; [by intros ? ? ?%not_elem_of_nil|done].
  - intros [Hc Hk] r. eapply wp_mono; [by apply IH|]. intros t a [Ht HQ]. split; [|done].
    intros c' r' [?|?]%elem_of_cons; [by simplify_eq|eauto].
Qed.

(** ** The part of a resource that is the user's *)
Class Specified (k : kind) `{MirrorObject k} := {
  same_spec : obj k -> obj k -> Prop;
  same_spec_equiv :: Equivalence same_spec;
  spec_set_meta : forall o m, same_spec o (SetMeta o m);
  spec_set_conditions : forall o c, same_spec o (SetConditions o c)
}.

Definition without_finalizers (m : ObjectMeta) : ObjectMeta := with_finalizers m [].

Section identity.
Context {k : kind} `{MirrorObject k} `{!Specified k}.

Definition identity (o o' : obj k) : Prop :=
  same_spec o o' /\ without_finalizers (GetMeta o) = without_finalizers (GetMeta o').

#[export] Instance identity_equiv : Equivalence identity.
Proof.
  split.
  - by intros o.
  - intros o o' [Hs Hm]. by split.
  - intros o1 o2 o3 [Hs Hm] [Hs' Hm']. split; [by etrans|congruence].
Qed.

(** A call patches nothing but [o0], up to finalizers and status. *)
Definition keeps (o0 : obj k) (c : call) : Prop := forall o b, c = KPatch k o b -> identity o0 o.

Lemma keeps_patch o0 o b : identity o0 o -> keeps o0 (KPatch k o b).
Proof. intros Ho o' b' Heq. injection Heq as Hobj _. by apply inj_pair2 in Hobj as <-. Qed.

Lemma keeps_other o0 c : not_patch k c -> keeps o0 c.
Proof. by intros Hc o b ->. Qed.

Lemma identity_add_finalizer `{!MirrorObjectLaws k} `{K8sLib} (o : obj k) f : identity o (add_finalizer o f).
Proof. split; [apply spec_set_meta|]. unfold add_finalizer. by rewrite get_set_meta. Qed.

Lemma identity_remove_finalizer `{!MirrorObjectLaws k} `{K8sLib} (o : obj k) f : identity o (remove_finalizer o f).
Proof. split; [apply spec_set_meta|]. unfold remove_finalizer. by rewrite get_set_meta. Qed.

Lemma identity_set_conditions `{!MirrorObjectLaws k} (o : obj k) c : identity o (SetConditions o c).
Proof. split; [apply spec_set_conditions|]. by rewrite meta_set_conditions. Qed.
End identity.

(** ** Automation *)
Ltac kept :=
  first
    [ split; reflexivity
    | match goal with H : identity ?o ?o1 |- identity ?o ?o2 =>
        transitivity o1; [exact H|split; reflexivity] end ].

Ltac safe_run tac :=
  repeat first
    [ progress cbn
    | match goal with
      | |- True => exact I
      | |- safe _ (Ret _) _ => apply safe_ret
      | |- safe _ (ask _) _ => unfold ask, perform
      | |- safe _ (Call _ _) _ => apply safe_call; [first [by apply keeps_other | apply keeps_patch; kept]|intros ?]
      | |- identity _ _ => kept
      end
    | tac
    | case_scrut
    | done ].

(** A callee that patches nothing of the kind. *)
Ltac callee_quiet := idtac;
  match goal with
  | |- safe _ (bind _ _) _ => apply safe_calls_bind
  | |- safe _ (bind_outcome _ _) _ => apply safe_calls_bind
  | |- safe _ (then_outcome _ _) _ => apply safe_calls_bind
  | |- safe _ (bind_result _ _) _ => apply safe_calls_bind
  | |- safe _ (then_result _ _) _ => apply safe_calls_bind
  end;
  [solve [eapply calls_in_mono; [apply keeps_other|auto with go_hints]]|intros ?].

(** ** The mirrors *)

Class Keeping {k} `{MirrorObject k} `{!Specified k} (m : mirror k) :=
  keeping_apply : forall o, wp (m_apply m o) (fun _ r => identity o r.1).

(** What a reconcile sends is what it read. *)
Definition sends_back (k : kind) `{MirrorObject k} `{!Specified k} (ns name : string) (t : history) : Prop :=
  forall (o : obj k) b r, Entry (KPatch k o b) r ∈ t ->
    exists o0 : obj k, Entry (KGet k ns name) (Ok o0) ∈ t /\ identity o0 o.

Section mirrors.
Context `{ErrorClass} `{K8sLib} {k : kind} `{MirrorObjectLaws k} `{!Specified k}.

Lemma Reconcile_sends_back m `{!MirrorBehaviour m} `{!Keeping m} rec ns name :
  wp (Mirror.Reconcile m rec ns name) (fun t _ => sends_back k ns name t).
Proof.
  apply wp_runs. intros t out Hr o b r Hin. revert Hin.
  destruct (Mirror.Reconcile_inv _ _ _ _ _ _ Hr) as [(e & -> & _)|[(o0 & t' & -> & _ & Hdel)|[(o0 & o1 & e & -> & -> & _)|
    (o0 & o1 & ta & o2 & err & tl & -> & _ & Ha & -> & Htl)]]].
  - set_solver.
  - intros [?|Hin]%elem_of_cons; [done|]. exists o0. split; [left|].
    apply reconcileDelete_inv in Hdel as (td & derr & tl & Hdel & -> & Htl).
    apply elem_of_app in Hin as [Hin|Hin]; [by apply (wp_elim _ _ _ _ (del_no_patch o0) Hdel) in Hin|].
    destruct Htl as [(_ & perr & -> & _)|(e & _ & _ & Htl)].
    + apply list_elem_of_singleton, patch_inj in Hin as [-> _]. apply identity_remove_finalizer.
    + destruct (IsConflict e), rec; destruct Htl as [-> _]; set_solver.
  - intros [?|[Heq|?%not_elem_of_nil]%elem_of_cons]%elem_of_cons; [done| |done].
    apply patch_inj in Heq as [-> _]. exists o0. split; [left|]. apply identity_add_finalizer.
  - pose proof (wp_elim _ _ _ _ (keeping_apply _) Ha) as Hid. cbn in Hid.
    assert (identity o0 o2) as Ho2 by (etrans; [apply identity_add_finalizer|exact Hid]).
    intros [?|[Heq|[Hin|Hin]%elem_of_app]%elem_of_cons]%elem_of_cons; [done|..];
      exists o0; (split; [left|]).
    + apply patch_inj in Heq as [-> _]. apply identity_add_finalizer.
    + by apply (wp_elim _ _ _ _ (apply_no_patch _) Ha) in Hin.
    + etrans; [exact Ho2|]. destruct err as [e|].
      * destruct (errors_Is e _); [destruct Htl as (? & -> & _)|destruct Htl as [-> _]]; [|set_solver].
        apply list_elem_of_singleton, patch_inj in Hin as [-> _]. apply identity_set_conditions.
      * destruct Htl as (? & -> & _). apply list_elem_of_singleton, patch_inj in Hin as [-> _].
        apply identity_set_conditions.
Qed.

(** A reconciler that starts by reading, and is safe for the object read. *)
Lemma safe_sends_back ns name (kont : result error (obj k) -> M outcome) :
  (forall e, calls_in (not_patch k) (kont (Err e))) ->
  (forall o0, safe (keeps o0) (kont (Ok o0)) (fun _ => True)) ->
  wp (Call (KGet k ns name) kont) (fun t _ => sends_back k ns name t).
Proof.
  intros He Ho. cbn. intros [o0|e].
  - eapply wp_mono; [apply safe_wp, Ho|]. cbn. intros t out [Ht _] o b r [?|Hin]%elem_of_cons; [done|].
    exists o0. split; [left|]. by eapply Ht.
  - eapply wp_mono; [apply calls_in_wp, He|]. cbn. intros t out Ht o b r [?|Hin]%elem_of_cons; [done|].
    by destruct (Ht _ _ Hin).
Qed.
End mirrors.

(** ** The kinds *)

#[export] Program Instance Network_specified : Specified KNetwork := {|
  same_spec := (fun a b => Network_Spec a = Network_Spec b)
|}.
Next Obligation. split; congruence. Qed.
Solve All Obligations with done.

#[export] Program Instance NetworkResource_specified : Specified KNetworkResource := {|
  same_spec := (fun a b => NetworkResource_Spec a = NetworkResource_Spec b)
|}.
Next Obligation. split; congruence. Qed.
Solve All Obligations with done.

#[export] Program Instance DNSZone_specified : Specified KDNSZone := {|
  same_spec := (fun a b => DNSZone_Spec a = DNSZone_Spec b)
|}.
Next Obligation. split; congruence. Qed.
Solve All Obligations with done.

#[export] Program Instance DNSRecord_specified : Specified KDNSRecord := {|
  same_spec := (fun a b => DNSRecord_Spec a = DNSRecord_Spec b)
|}.
Next Obligation. split; congruence. Qed.
Solve All Obligations with done.

#[export] Program Instance Group_specified : Specified KGroup := {|
  same_spec := (fun a b => Group_Spec a = Group_Spec b)
|}.
Next Obligation. split; congruence. Qed.
Solve All Obligations with done.

#[export] Program Instance SetupKey_specified : Specified KSetupKey := {|
  same_spec := (fun a b => SetupKey_Spec a = SetupKey_Spec b)
|}.
Next Obligation. split; congruence. Qed.
Solve All Obligations with done.

#[export] Program Instance NetworkRouter_specified : Specified KNetworkRouter := {|
  same_spec := (fun a b => NetworkRouter_Spec a = NetworkRouter_Spec b)
|}.
Next Obligation. split; congruence. Qed.
Solve All Obligations with done.

#[export] Program Instance ClusterProxy_specified : Specified KClusterProxy := {|
  same_spec := (fun a b => ClusterProxy_Spec a = ClusterProxy_Spec b)
|}.
Next Obligation. split; congruence. Qed.
Solve All Obligations with done.

#[export] Program Instance ReverseProxyService_specified : Specified KReverseProxyService := {|
  same_spec := (fun a b => ReverseProxyService_Spec a = ReverseProxyService_Spec b)
|}.
Next Obligation. split; congruence. Qed.
Solve All Obligations with done.

#[export] Program Instance ReverseProxyCluster_specified : Specified KReverseProxyCluster := {|
  same_spec := (fun a b => ReverseProxyCluster_Spec a = ReverseProxyCluster_Spec b)
|}.
Next Obligation. split; congruence. Qed.
Solve All Obligations with done.

#[export] Instance Network_keeping `{ErrorClass} : Keeping NewNetworkReconciler.
Proof. intros net. cbn [m_apply NewNetworkReconciler]. unfold applyNetwork. behaviour_meta. Qed.

#[export] Instance NetworkResource_keeping `{ErrorClass} : Keeping NewNetworkResourceReconciler.
Proof. intros nr. cbn [m_apply NewNetworkResourceReconciler]. unfold applyNetworkResource. behaviour_meta. Qed.

#[export] Instance DNSZone_keeping `{ErrorClass} : Keeping NewDNSZoneReconciler.
Proof. intros z. cbn [m_apply NewDNSZoneReconciler]. unfold applyDNSZone, upsertZone. behaviour_meta. Qed.

#[export] Instance DNSRecord_keeping `{ErrorClass} : Keeping NewDNSRecordReconciler.
Proof. intros r. cbn [m_apply NewDNSRecordReconciler]. unfold applyDNSRecord, upsertRecord. behaviour_meta. Qed.

#[export] Instance Rps_keeping `{ErrorClass} `{SortSlice} mode_text :
  Keeping (NewReverseProxyServiceReconciler mode_text).
Proof.
  intros rps. cbn [m_apply NewReverseProxyServiceReconciler]. unfold applyReverseProxyService. behaviour_meta.
Qed.

Section controllers.
Context `{ErrorClass} `{K8sLib}.

Lemma Group_sends_back rec ns name :
  wp (GroupCtl.Reconcile rec ns name) (fun t _ => sends_back KGroup ns name t).
Proof.
  apply (safe_sends_back (k := KGroup)); [done|]. intros g.
  unfold GroupCtl.reconcileDelete, ensure_group, create_group, recordEvent, recordEventType, patch, patch_observed.
  safe_run fail.
Qed.

Lemma SetupKey_sends_back rec ns name :
  wp (SetupKeyCtl.Reconcile rec ns name) (fun t _ => sends_back KSetupKey ns name t).
Proof.
  apply (safe_sends_back (k := KSetupKey)); [done|]. intros sk.
  unfold SetupKeyCtl.reconcileDelete, up_to_date, replace_key, recordEvent, recordEventType, delete_tolerant, patch,
    patch_observed.
  safe_run callee_quiet.
Qed.

Lemma ClusterProxy_sends_back ApiKey ManagementURL ns name :
  wp (ClusterProxyCtl.Reconcile ApiKey ManagementURL ns name) (fun t _ => sends_back KClusterProxy ns name t).
Proof.
  apply (safe_sends_back (k := KClusterProxy)); [done|]. intros cp.
  unfold patch_observed. safe_run fail.
Qed.

Lemma resolvePeerGroup_not_patch ClientImage ManagementURL nr :
  calls_in (not_patch KNetworkRouter) (resolvePeerGroup ClientImage ManagementURL nr).
Proof. eapply calls_in_mono; [|apply resolvePeerGroup_calls]. by intros c [_ ?]. Qed.

Lemma NetworkRouter_sends_back ClientImage ManagementURL ns name :
  wp (Router.Reconcile ClientImage ManagementURL ns name) (fun t _ => sends_back KNetworkRouter ns name t).
Proof.
  apply (safe_sends_back (k := KNetworkRouter)); [done|]. intros nr.
  pose proof (resolvePeerGroup_not_patch ClientImage ManagementURL).
  unfold Router.reconcileDelete, sync, resolveNetworkID, upsertRouter, verifyNetbirdID, get_err, dependency, delete_tolerant, patch,
    patch_observed.
  safe_run callee_quiet.
Qed.

(** The cluster's steps are handed the object as far as it was changed. *)
Section cluster.
Context (ManagementURL : string) (o0 : obj KReverseProxyCluster).
Abbreviation is_same rpc := (identity (k := KReverseProxyCluster) o0 rpc).

Lemma mintToken_safe rpc ownerRef : is_same rpc ->
  safe (keeps o0) (mintToken rpc ownerRef) (fun r => match r with Ok rpc' => is_same rpc' | Err _ => True end).
Proof. intros Hr. unfold mintToken, patch. safe_run fail. Qed.

Lemma notReady_safe rpc msg : is_same rpc -> safe (keeps o0) (notReady rpc msg) (fun _ => True).
Proof. intros Hr. unfold notReady, patch. safe_run fail. Qed.

Lemma registerDomain_safe rpc : is_same rpc -> safe (keeps o0) (registerDomain rpc) (fun _ => True).
Proof.
  intros Hr. unfold registerDomain.
  apply safe_calls_bind; [eapply calls_in_mono; [apply keeps_other|apply ensureDomain_not_patch]|].
  intros [id|e]; [|destruct (errors_Is e _); [by apply notReady_safe|done]].
  unfold notReady, patch, patch_observed. safe_run fail.
Qed.

Lemma enroll_safe rpc : is_same rpc -> safe (keeps o0) (enroll rpc) (fun _ => True).
Proof.
  intros Hr. unfold enroll.
  apply safe_calls_bind; [eapply calls_in_mono; [apply keeps_other|auto with go_hints]|].
  intros [c|e]; [apply registerDomain_safe; kept|].
  destruct (errors_Is e _); [|done]. apply notReady_safe. kept.
Qed.

Lemma setup_keeps c : setup_call c -> keeps o0 c.
Proof. intros Hc. apply keeps_other. by destruct c. Qed.

Lemma deploy_safe rpc ownerRef : is_same rpc -> safe (keeps o0) (deploy ManagementURL rpc ownerRef) (fun _ => True).
Proof.
  intros Hr. unfold deploy.
  apply safe_calls_bind; [eapply calls_in_mono; [apply setup_keeps|unfold ensureZone; calls_run fail]|].
  intros [zoneRef|e]; [|done].
  apply safe_calls_bind; [eapply calls_in_mono; [apply setup_keeps|unfold applyDeployment; calls_run fail]|].
  intros [e|]; [done|].
  apply safe_calls_bind; [eapply calls_in_mono; [apply setup_keeps|unfold applyService; calls_run fail]|].
  intros [e|]; [done|].
  apply safe_calls_bind; [eapply calls_in_mono; [apply setup_keeps|unfold serviceAddresses; calls_run fail]|].
  intros [|fa addrs]; [apply notReady_safe; kept|].
  apply safe_calls_bind; [eapply calls_in_mono; [|apply applyRecords_calls]|].
  { intros c Hc. apply keeps_other. by destruct c. }
  intros [e|]; [done|]. apply enroll_safe. kept.
Qed.

Lemma reconcileDelete_safe : safe (keeps o0) (RpCluster.reconcileDelete o0) (fun _ => True).
Proof.
  unfold RpCluster.reconcileDelete, releaseDomain, releaseCluster, anotherClusterMatches, delete_tolerant, patch.
  safe_run fail.
Qed.
End cluster.

Lemma RpCluster_sends_back ManagementURL ns name :
  wp (RpCluster.Reconcile ManagementURL ns name) (fun t _ => sends_back KReverseProxyCluster ns name t).
Proof.
  apply (safe_sends_back (k := KReverseProxyCluster)); [done|]. intros o0.
  destruct (deleting _); [apply reconcileDelete_safe|].
  apply safe_call; [apply keeps_patch; kept|]. intros [e|]; [done|].
  destruct (ControllerReference _ _) as [ownerRef|e]; [|done].
  eapply (safe_bind_with _ _ _ (fun r => match r with Ok rpc' => identity (k := KReverseProxyCluster) o0 rpc' | Err _ => True end)).
  - apply mintToken_safe. kept.
  - intros [rpc|e] Hr; [by apply deploy_safe|done].
Qed.
End controllers.

(** ** The Gateway API translators

    They patch nothing, and of the Gateway API objects write the status only. *)

(** Objects the call updates are [o0] in what is not theirs. *)
Definition only_status {k} (same : obj k -> obj k -> Prop) (o0 : obj k) (c : call) : Prop :=
  match c with
  | KPatch _ _ _ => False
  | KStatusUpdate _ _ => exists o, c = KStatusUpdate k o /\ same o0 o
  | _ => True
  end.

Definition no_status (c : call) : Prop :=
  match c with KPatch _ _ _ | KStatusUpdate _ _ => False | _ => True end.

Lemma no_status_only {k} same (o0 : obj k) c : no_status c -> only_status same o0 c.
Proof. by destruct c. Qed.

(** Every status update of the run is of the object it read. *)
Definition reports (k : kind) (same : obj k -> obj k -> Prop) (ns name : string) (t : history) : Prop :=
  forall c r, Entry c r ∈ t -> match c with
  | KPatch _ _ _ => False
  | KStatusUpdate _ _ => exists o0 o : obj k, c = KStatusUpdate k o /\ Entry (KGet k ns name) (Ok o0) ∈ t /\ same o0 o
  | _ => True
  end.

Lemma reports_read k same ns name (kont : result error (obj k) -> M outcome) :
  (forall e, calls_in no_status (kont (Err e))) -> (forall o0, calls_in (only_status same o0) (kont (Ok o0))) ->
  wp (Call (KGet k ns name) kont) (fun t _ => reports k same ns name t).
Proof.
  intros He Ho. cbn [wp]. intros [o0|e].
  - eapply wp_mono; [apply calls_in_wp, Ho|]. intros t out Ht c r [Heq|Hin]%elem_of_cons.
    { by assert (c = KGet k ns name) as -> by exact (f_equal entry_call Heq). }
    specialize (Ht _ _ Hin). destruct c; try done. destruct Ht as (o' & -> & Hs).
    exists o0, o'. split; [done|]. split; [left|done].
  - eapply wp_mono; [apply calls_in_wp, He|]. intros t out Ht c r [Heq|Hin]%elem_of_cons.
    { by assert (c = KGet k ns name) as -> by exact (f_equal entry_call Heq). }
    specialize (Ht _ _ Hin). by destruct c.
Qed.

Definition same_class (gc gc' : GatewayClass) : Prop :=
  GatewayClass_Meta gc' = GatewayClass_Meta gc /\ gc_ControllerName gc' = gc_ControllerName gc.

Definition same_gateway (gw gw' : Gateway) : Prop :=
  Gateway_Meta gw' = Gateway_Meta gw /\ gw_GatewayClassName gw' = gw_GatewayClassName gw /\
  gw_Listeners gw' = gw_Listeners gw /\ gw_Infrastructure gw' = gw_Infrastructure gw.

(** What other controllers say of the route stays, too. *)
Definition others_status (route : HTTPRoute) : list RouteParentStatus :=
  List.filter (fun rp => negb (String.eqb (rp_ControllerName rp) gatewayController)) (route_Parents route).
Definition same_route (route route' : HTTPRoute) : Prop :=
  HTTPRoute_Meta route' = HTTPRoute_Meta route /\ route_ParentRefs route' = route_ParentRefs route /\
  route_Hostnames route' = route_Hostnames route /\ route_Rules route' = route_Rules route /\
  others_status route' = others_status route.

Section translators.
Context `{ErrorClass} `{K8sLib}.

Lemma set_parent_others parents parent cond :
  let others := List.filter (fun rp => negb (String.eqb (rp_ControllerName rp) gatewayController)) in
  others (HTTPRouteReconciler.set_parent_condition parents parent cond) = others parents.
Proof.
  induction parents as [|rp parents IH]; cbn; [done|].
  destruct (String.eqb (rp_ControllerName rp) gatewayController) eqn:E; cbn; rewrite E; cbn; [done|].
  by rewrite IH.
Qed.

Lemma delete_undesired_no_status {k} (meta : obj k -> ObjectMeta) desired items :
  calls_in no_status (delete_undesired k meta desired items).
Proof.
  induction items as [|o items IH]; [done|]. cbn. destruct (bool_decide _); [done|]. split; [done|].
  intros [e|]; [|done]. by destruct (kerrors_IsNotFound e).
Qed.

Lemma listener_loop_no_status gw cfg programmed routes ls :
  calls_in no_status (GatewayReconciler.listener_loop gw cfg programmed routes ls).
Proof.
  induction ls as [|l ls IH]; [done|]. cbn [GatewayReconciler.listener_loop].
  unfold GatewayReconciler.secretExists. calls_run ltac:(apply IH).
Qed.

Lemma resolveGateway_no_status route ps : calls_in no_status (HTTPRouteReconciler.resolveGateway_loop route ps).
Proof.
  induction ps as [|p ps IH]; [done|]. cbn [HTTPRouteReconciler.resolveGateway_loop]. calls_run ltac:(apply IH).
Qed.

Lemma apply_services_no_status route cfg owner bs hs :
  calls_in no_status (HTTPRouteReconciler.apply_services route cfg owner bs hs).
Proof. induction hs as [|h hs IH]; [done|]. split; [done|]. by intros [e|]. Qed.

Lemma advertise_no_status svc network zone owner gs ingress desired :
  calls_in no_status (advertise svc network zone owner gs ingress desired).
Proof.
  revert desired. induction ingress as [|fa ingress IH]; intros desired; [done|]. cbn [advertise].
  destruct (dnsRecordTypeFor _) as [ty ok]. destruct (negb ok); [done|].
  split; [done|]. intros [e|]; [done|]. split; [done|]. intros [e|]; [done|apply IH].
Qed.

Ltac status_run callees :=
  calls_run ltac:(first
    [ callees
    | match goal with
      | |- calls_in (only_status _ _) _ => first
          [ apply calls_in_bind
          | eapply calls_in_mono; [apply no_status_only|callees] ]
      | |- calls_in _ (bind_outcome _ _) => apply calls_in_bind
      | |- calls_in _ (then_outcome _ _) => apply calls_in_bind
      | |- calls_in _ (bind_result _ _) => apply calls_in_bind
      | |- calls_in _ (then_result _ _) => apply calls_in_bind
      end ]).

Lemma GatewayClass_reports managed name :
  wp (GatewayClassReconciler.Reconcile managed name) (fun t _ => reports KGatewayClass same_class "" name t).
Proof.
  unfold GatewayClassReconciler.Reconcile, GatewayClassReconciler.ensure. apply reports_read.
  - intros e. calls_run fail.
  - intros gc. cbn. destruct (negb _); [done|]. split; [|by intros [e|]]. eexists. by split.
Qed.

Lemma Gateway_reports ns name :
  wp (GatewayReconciler.Reconcile ns name) (fun t _ => reports KGateway same_gateway ns name t).
Proof.
  apply reports_read; [by intros e|]. intros gw.
  unfold GatewayReconciler.fail, GatewayReconciler.resolveGatewayParams, GatewayReconciler.syncStatus,
    GatewayReconciler.listenerStatuses.
  status_run ltac:(first [apply listener_loop_no_status | by eexists]).
Qed.
Lemma HTTPRoute_reports ns name :
  wp (HTTPRouteReconciler.Reconcile ns name) (fun t _ => reports KHTTPRoute same_route ns name t).
Proof.
  apply reports_read; [by intros e|]. intros route.
  unfold HTTPRouteReconciler.prune, HTTPRouteReconciler.setRouteCondition, HTTPRouteReconciler.resolveGateway.
  status_run ltac:(first
    [ apply resolveGateway_no_status | apply apply_services_no_status | apply delete_undesired_no_status
    | eexists; split; [reflexivity|]; repeat (split; [reflexivity|]); apply set_parent_others ]).
Qed.

Lemma LoadBalancer_quiet r ns name : calls_in no_status (LoadBalancer.Reconcile r ns name).
Proof.
  unfold LoadBalancer.Reconcile, resolveNetwork, LoadBalancer.ensureZone, LoadBalancer.prune, dependencyRequeue,
    recordEvent, recordNormalEvent, recordEventType.
  status_run ltac:(first [apply advertise_no_status | apply delete_undesired_no_status]).
Qed.
End translators.
