(* ===== verification/Ownership.v ===== *)
(** * Whose NetBird object it is

    A logic for the ids a reconcile may use: it starts with the ids its custom
    resource recorded earlier, gains the ids NetBird answers to its creates and
    the one recorded in the object it reads, and updates, deletes and records
    no other.  [System.v] runs such programs against each other. *)

From stdpp Require Import base gmap list strings.
From Stdlib Require Import ZArith Lia Eqdep.
From S2P Require Import Prelude GoStrings GoErr Prog ApiTypes K8sTypes ApplyConf Env NetbirdUtil Reconcile Mirror.

Open Scope prog_scope.

(** The id of an item; a cluster is addressed by its address. *)
Definition item_id (c : coll) : item c -> string :=
  match c with
  | CGroups => api.g_Id
  | CSetupKeys => api.k_Id
  | CNetworks => api.n_Id
  | CResources _ => api.r_Id
  | CRouters _ => api.rt_Id
  | CZones => api.z_Id
  | CRecords _ => api.d_Id
  | CServices => api.sv_Id
  | CTokens => api.pt_Id
  | CDomains => api.dm_Id
  | CClusters => api.pc_Address
  end.

(** Namespace and name of a custom resource. *)
Abbreviation key := (string * string)%type.

Definition meta_key (m : ObjectMeta) : key := (meta_Namespace m, meta_Name m).

(** A kind that records the id of one object of a family of collections. *)
Class Recorder (k : kind) `{MirrorObject k} := {
  family : coll -> bool;
  recorded : obj k -> string;
  recorded_meta : forall o m, recorded (SetMeta o m) = recorded o;
  recorded_conditions : forall o c, recorded (SetConditions o c) = recorded o
}.

(** ** A logic for the ids a program may use *)
Section logic.
Context {k : kind} `{MirrorObject k} `{!Recorder k}.
Implicit Types (own : string -> Prop) (me : key).

(** What the servers document: an object read has the name it was asked for,
    and an update answers with the object it was sent to. *)
Definition documented (e : event) : Prop :=
  (forall ns name (o : obj k), e = Entry (KGet k ns name) (Ok o) -> meta_key (GetMeta o) = (ns, name)) /\
  (forall c id q x, e = Entry (NBUpdate c id q) (Ok x) -> family c = true -> item_id c x = id).

(** The ids an answer gives to the reconcile of [me]. *)
Definition gained me (e : event) (id : string) : Prop :=
  (exists o : obj k, e = Entry (KGet k (fst me) (snd me)) (Ok o) /\ recorded o = id /\ id <> ""%string) \/
  (exists c q x, family c = true /\ e = Entry (NBCreate c q) (Ok x) /\ item_id c x = id).

Definition holds own (o : obj k) : Prop := recorded o = ""%string \/ own (recorded o).

(** Only ids of one's own are updated, deleted or recorded. *)
Definition call_ok me own (c : call) : Prop :=
  (forall c' id q, c = NBUpdate c' id q -> family c' = true -> own id) /\
  (forall c' id, c = NBDelete c' id -> family c' = true -> own id) /\
  (forall (o : obj k) b, c = KPatch k o b -> meta_key (GetMeta o) = me /\ holds own o).

(** The reconcile of [me], owning [own], keeps to its own ids and ends with
    [Q]. *)
Fixpoint owns {A} me own (p : M A) (Q : (string -> Prop) -> A -> Prop) : Prop :=
  match p with
  | Ret a => Q own a
  | Call c kont => call_ok me own c /\
      forall r, documented (Entry c r) -> owns me (fun id => own id \/ gained me (Entry c r) id) (kont r) Q
  end.

Lemma owns_mono {A} me own own' (p : M A) (Q Q' : (string -> Prop) -> A -> Prop) :
  (forall id, own id -> own' id) ->
  (forall o o' a, (forall id, own id -> o id) -> (forall id, o id -> o' id) -> Q o a -> Q' o' a) ->
  owns me own p Q -> owns me own' p Q'.
Proof.
  revert own own'. induction p as [a|c kont IH]; cbn; intros own own' Hown HQ.
  - apply HQ; auto.
  - intros [(H1 & H2 & H3) Hk]. split.
    + split; [|split]; [eauto..|]. intros o b Hc. destruct (H3 o b Hc) as [? [?|?]]; split; try done; [by left|right; auto].
    + intros r Hr. eapply IH; [| |by apply Hk].
      * intros id [?|?]; [left|right]; auto.
      * intros o o' a Ho. apply HQ. auto.
Qed.

Lemma owns_weaken {A} me own (p : M A) (Q Q' : (string -> Prop) -> A -> Prop) :
  (forall o a, (forall id, own id -> o id) -> Q o a -> Q' o a) ->
  owns me own p Q -> owns me own p Q'.
Proof.
  revert own. induction p as [a|c kont IH]; cbn; intros own HQ; [by apply HQ|].
  intros [Hc Hk]. split; [done|]. intros r Hr. eapply IH; [|by apply Hk]. auto.
Qed.

Lemma owns_bind {A B} me own (p : M A) (f : A -> M B) Q :
  owns me own p (fun own' a => owns me own' (f a) Q) -> owns me own (bind p f) Q.
Proof.
  revert own. induction p as [a|c kont IH]; cbn; intros own; [done|].
  intros [Hc Hk]. split; [done|]. intros r Hr. by apply IH, Hk.
Qed.

(** Calls that are none of the ones that matter. *)
Definition neutral_call (c : call) : Prop :=
  match c with
  | NBUpdate c' _ _ | NBDelete c' _ => family c' = false
  | KPatch k' _ _ => k' <> k
  | _ => True
  end.

Lemma owns_neutral {A} me own (p : M A) : calls_in neutral_call p -> owns me own p (fun _ _ => True).
Proof.
  revert own. induction p as [a|c kont IH]; cbn; intros own; [done|]. intros [Hc Hk]. split; [|auto].
  split; [|split]; intros; subst; cbn in Hc; congruence.
Qed.

(** The ids held at the start are still held at the end. *)
Lemma owns_keep {A} me own (p : M A) Q :
  owns me own p Q -> owns me own p (fun own' a => (forall id, own id -> own' id) /\ Q own' a).
Proof. apply owns_weaken. auto. Qed.

Lemma owns_neutral_bind {A B} me own (p : M A) (f : A -> M B) Q :
  calls_in neutral_call p ->
  (forall own' a, (forall id, own id -> own' id) -> owns me own' (f a) Q) -> owns me own (bind p f) Q.
Proof.
  intros Hp Hf. apply owns_bind. eapply owns_weaken; [|apply owns_keep, owns_neutral, Hp].
  intros o a _ [Ho _]. by apply Hf.
Qed.

Lemma owns_bind_outcome {A} me own (p : M (result error A)) (f : A -> M outcome) Q :
  owns me own p (fun own' r => match r with Ok a => owns me own' (f a) Q | Err e => Q own' (fail_with e) end) ->
  owns me own (bind_outcome p f) Q.
Proof. intros Hp. apply owns_bind. eapply owns_weaken; [|exact Hp]. by intros o [a|e]. Qed.

(** ** Rules for the calls *)

Lemma patch_call_inj (o o' : obj k) b b' : KPatch k o b = KPatch k o' b' -> o = o' /\ b = b'.
Proof. intros Heq. injection Heq as Ho Hb. by apply inj_pair2 in Ho. Qed.

Lemma call_ok_neutral me own c : neutral_call c -> call_ok me own c.
Proof. intros Hc. split; [|split]; intros; subst; cbn in Hc; congruence. Qed.

Lemma call_ok_update me own c id q : own id -> call_ok me own (NBUpdate c id q).
Proof. intros Hid. split; [|split]; intros; simplify_eq; done. Qed.

Lemma call_ok_delete me own c id : own id -> call_ok me own (NBDelete c id).
Proof. intros Hid. split; [|split]; intros; simplify_eq; done. Qed.

Lemma call_ok_patch me own (o : obj k) b :
  meta_key (GetMeta o) = me -> holds own o -> call_ok me own (KPatch k o b).
Proof.
  intros Hme Ho. split; [done|split; [done|]]. by intros o' b' [<- <-]%patch_call_inj.
Qed.

(** The ids owned afterwards, abstractly. *)
Lemma owns_call {A} me own c (kont : resp c -> M A) Q :
  call_ok me own c ->
  (forall r own', documented (Entry c r) -> (forall id, own id -> own' id) ->
     (forall id, gained me (Entry c r) id -> own' id) -> owns me own' (kont r) Q) ->
  owns me own (Call c kont) Q.
Proof. intros Hc Hk. split; [done|]. intros r Hr. apply Hk; auto. Qed.

Lemma gained_read ns name (o : obj k) :
  recorded o <> ""%string -> gained (ns, name) (Entry (KGet k ns name) (Ok o)) (recorded o).
Proof. left. by exists o. Qed.

Lemma gained_created me c q x : family c = true -> gained me (Entry (NBCreate c q) (Ok x)) (item_id c x).
Proof. right. by exists c, q, x. Qed.

Lemma documented_read ns name (o : obj k) :
  documented (Entry (KGet k ns name) (Ok o)) -> meta_key (GetMeta o) = (ns, name).
Proof. intros [Hd _]. by apply Hd. Qed.

Lemma documented_update c id q x :
  documented (Entry (NBUpdate c id q) (Ok x)) -> family c = true -> item_id c x = id.
Proof. intros [_ Hd]. by apply (Hd c id q). Qed.

Lemma holds_mono own own' (o : obj k) : (forall id, own id -> own' id) -> holds own o -> holds own' o.
Proof. intros Ho [?|?]; [by left|right; auto]. Qed.
End logic.

(** ** The mirror reconciler *)

(** A mirror that keeps to the recorded id: its upsert is handed a resource
    that records an id of its own and leaves one that does, and its delete
    takes away the recorded one. *)
Class Tracked {k} `{MirrorObject k} `{!Recorder k} (m : mirror k) := {
  tracked_apply : forall me own o, meta_key (GetMeta o) = me -> holds own o ->
    owns me own (m_apply m o) (fun own' r => meta_key (GetMeta r.1) = me /\ holds own' r.1);
  tracked_del : forall me own o, holds own o -> owns me own (m_del m o) (fun _ _ => True)
}.

Section mirrors.
Context `{ErrorClass} `{K8sLib} {k : kind} `{MirrorObjectLaws k} `{!Recorder k}.

Lemma holds_set_meta own (o : obj k) m : holds own (SetMeta o m) <-> holds own o.
Proof. unfold holds. by rewrite recorded_meta. Qed.

Lemma holds_set_conditions own (o : obj k) c : holds own (SetConditions o c) <-> holds own o.
Proof. unfold holds. by rewrite recorded_conditions. Qed.

Lemma key_add_finalizer (o : obj k) f : meta_key (GetMeta (add_finalizer o f)) = meta_key (GetMeta o).
Proof. unfold add_finalizer. by rewrite get_set_meta. Qed.

Lemma key_remove_finalizer (o : obj k) f : meta_key (GetMeta (remove_finalizer o f)) = meta_key (GetMeta o).
Proof. unfold remove_finalizer. by rewrite get_set_meta. Qed.

Lemma key_set_conditions (o : obj k) c : meta_key (GetMeta (SetConditions o c)) = meta_key (GetMeta o).
Proof. by rewrite meta_set_conditions. Qed.

Lemma owns_patch me own (o : obj k) b (q : M outcome) :
  meta_key (GetMeta o) = me -> holds own o ->
  (forall own', (forall id, own id -> own' id) -> owns me own' q (fun _ _ => True)) ->
  owns me own (then_outcome (ask (KPatch k o b)) q) (fun _ _ => True).
Proof.
  intros Hme Ho Hq. apply owns_call; [by apply call_ok_patch|]. intros [e|] own' _ Hown _; cbn; auto.
Qed.

(** The object a reconcile starts from. *)
Lemma owns_read {A} ns name own (kont : result error (obj k) -> M A) Q :
  (forall e own', owns (ns, name) own' (kont (Err e)) Q) ->
  (forall o own', meta_key (GetMeta o) = (ns, name) -> holds own' o -> owns (ns, name) own' (kont (Ok o)) Q) ->
  owns (ns, name) own (Call (KGet k ns name) kont) Q.
Proof.
  intros He Ho. apply owns_call; [by apply call_ok_neutral|]. intros [o|e] own' Hd _ Hg; [|apply He].
  apply Ho; [by apply documented_read|]. destruct (decide (recorded o = ""%string)); [by left|].
  right. by apply Hg, gained_read.
Qed.

Lemma reconcileDelete_owns me own m `{!Tracked m} rec o :
  meta_key (GetMeta o) = me -> holds own o -> owns me own (reconcileDelete m rec o) (fun _ _ => True).
Proof.
  intros Hme Ho. apply owns_bind. eapply owns_weaken; [|apply owns_keep, tracked_del, Ho].
  intros own' r _ [Hown _].
  assert (forall own'', (forall id, own id -> own'' id) -> owns me own'' (
    do^ patch (remove_finalizer o (Finalizer (m_finalizer m))) in Ret (no_requeue, None)) (fun _ _ => True)).
  { intros own'' Hown''. apply owns_patch; [by rewrite key_remove_finalizer| |done].
    apply holds_set_meta. by eapply holds_mono. }
  destruct r as [e|]; [|auto]. destruct (netbird_IsNotFound e); [auto|]. destruct (IsConflict e); [|done].
  apply owns_neutral_bind; [|done]. unfold recordEvent, recordEventType. by destruct rec.
Qed.

Lemma Reconcile_owns own m `{!Tracked m} rec ns name :
  owns (ns, name) own (Reconcile m rec ns name) (fun _ _ => True).
Proof.
  apply owns_read; [done|]. intros o own1 Hkey Ho.
  destruct (deleting _); [by apply reconcileDelete_owns|].
  apply owns_patch; [by rewrite key_add_finalizer|by apply holds_set_meta|]. intros own2 Hown2.
  apply owns_bind. eapply owns_weaken; [|apply tracked_apply].
  - intros own3 [o3 err] Hown3 [Hk3 Ho3]. cbn in *. destruct err as [e|].
    + destruct (errors_Is e _); [|done].
      apply owns_patch; [by unfold mark_not_ready; rewrite key_set_conditions|by apply holds_set_conditions|done].
    + apply owns_patch; [by unfold mark_ready; rewrite key_set_conditions|by apply holds_set_conditions|done].
  - by rewrite key_add_finalizer.
  - apply holds_set_meta. by eapply holds_mono.
Qed.
End mirrors.

(** ** Automation *)
Arguments owns : simpl never.
Arguments holds : simpl never.
Arguments gained : simpl never.

Lemma owns_ret {k} `{MirrorObject k} `{!Recorder k} {A} me own (a : A) (Q : (string -> Prop) -> A -> Prop) :
  Q own a -> owns me own (Ret a) Q.
Proof. done. Qed.

Lemma holds_own {k} `{MirrorObject k} `{!Recorder k} own (o : obj k) :
  holds own o -> recorded o <> ""%string -> own (recorded o).
Proof. by intros [?|?]. Qed.

Lemma own_holds {k} `{MirrorObject k} `{!Recorder k} (own : string -> Prop) (o : obj k) :
  own (recorded o) -> holds own o.
Proof. by right. Qed.

(** An id is owned: it was before, it is the one recorded, or it was just
    answered. *)
Ltac owned :=
  match goal with
  | H : ?own ?id |- ?own ?id => exact H
  | H : forall id, gained _ (Entry _ (Ok ?x)) id -> ?own id |- ?own _ => apply H, gained_created; done
  | H : documented (Entry (NBUpdate ?c ?i _) (Ok ?x)) |- ?own _ =>
      let E := fresh in pose proof (documented_update _ _ _ _ H eq_refl) as E; cbn in E; rewrite E; clear H E; owned
  | H : holds ?own ?o |- ?own _ => let E := fresh in pose proof (holds_own _ _ H) as E; cbn in E; apply E; clear E; by bool_prop
  | H : forall id, ?own0 id -> ?own id |- ?own _ => apply H; clear H; owned
  end.

(** The resource records nothing, what it recorded before, or an id owned. *)
Ltac held :=
  first
    [ left; reflexivity
    | right; cbn; owned
    | match goal with
      | H : holds ?own0 ?o |- holds ?own ?o' =>
          eapply holds_mono; [|exact H]; intros ? ?; owned
      end ].

(** A callee that only reads. *)
Lemma owns_reads_bind {k} `{MirrorObject k} `{!Recorder k} {A B} me own (p : M A) (f : A -> M B) Q :
  calls_in is_read p ->
  (forall own' a, (forall id, own id -> own' id) -> owns me own' (f a) Q) -> owns me own (bind p f) Q.
Proof.
  intros Hp Hf. apply owns_neutral_bind; [|done]. eapply calls_in_mono; [|exact Hp]. by intros [].
Qed.

Lemma owns_reads_bind_outcome {k} `{MirrorObject k} `{!Recorder k} {A} me own
    (p : M (result error A)) (f : A -> M outcome) Q :
  calls_in is_read p -> (forall own' e, Q own' (fail_with e)) ->
  (forall own' a, (forall id, own id -> own' id) -> owns me own' (f a) Q) -> owns me own (bind_outcome p f) Q.
Proof. intros Hp He Hf. apply owns_reads_bind; [done|]. intros own' [a|e] Hown; [by apply Hf|apply He]. Qed.

Ltac callee_reads := idtac;
  match goal with
  | |- owns _ _ (bind_outcome _ _) _ =>
      apply owns_reads_bind_outcome; [solve [auto with go_hints]|done|intros]
  | |- owns _ _ (bind _ _) _ =>
      apply owns_reads_bind; [solve [auto with go_hints]|let r := fresh "r" in intros ? r ?]
  end.

(** Follow the calls of a program; [tac] handles the callees. *)
Ltac owns_run tac :=
  repeat first
    [ progress cbn
    | match goal with
      | |- True => exact I
      | |- owns _ _ (Ret _) _ => apply owns_ret
      | |- owns _ _ (ask _) _ => unfold ask, perform
      | |- owns _ _ (Call _ _) _ =>
          apply owns_call;
          [first [by apply call_ok_neutral | apply call_ok_update; owned | apply call_ok_delete; owned | apply call_ok_patch]
          |let r := fresh "r" in intros r ? ? ? ?]
      | |- _ /\ _ => split
      end
    | tac
    | match goal with |- holds _ _ => held end
    | case_scrut
    | done ].
