(* ===== verification/Mock.v ===== *)
(** * The in-memory NetBird API

    [internal/netbirdmock/netbirdmock.go]: the server the operator's tests run
    against.  One generic CRUD handler over a map per resource, the conversion
    of a request to an item per resource, and the seeded reverse-proxy
    clusters.  HTTP and JSON are not modelled: a handler is given the decoded
    path values and body and answers with a decoded body or an error, which is
    what the REST client makes of the reply. *)

From stdpp Require Import base gmap list strings pretty.
From Stdlib Require Import ZArith Lia Ascii.
From S2P Require Import Prelude GoStrings GoErr NetIP Prog ApiTypes K8sTypes ApplyConf Env NetbirdUtil Reconcile Mirror NetworkMirror Ownership.

Open Scope Z_scope.
Open Scope prog_scope.

(** ** Addresses *)

(** [net.ParseCIDR], the address of it: an address without a zone, a slash,
    and a decimal number of at most as many bits as the address has. *)
Definition addr_bits (s : string) : Z :=
  match net.addr_form_of s with net.Dotted => 32 | _ => 128 end.

Definition ParseCIDR (s : string) : option net.IP :=
  match strings.Cut s "/" with
  | (addr, mask, true) =>
      match net.ParseIP addr, strconv.digits mask with
      | Some ip, Some n => if n <=? addr_bits addr then Some ip else None
      | _, _ => None
      end
  | _ => None
  end.

Definition TrimSuffix (s suf : string) : string :=
  if strings.HasSuffix s suf
  then strings.take_bytes (String.length s - String.length suf) s else s.

Definition NetworkResourceTypeHost : string := "host".
Definition NetworkResourceTypeDomain : string := "domain".

Definition unbracket (host : string) : string := TrimSuffix (strings.TrimPrefix host "[") "]".

Definition resourceTypeForAddress (address : string) : string :=
  let host := match ParseCIDR address with Some ip => net.IP_String ip | None => address end in
  match net.ParseIP (unbracket host) with
  | Some _ => NetworkResourceTypeHost
  | None => NetworkResourceTypeDomain
  end.

(** ** The generic handler *)

(** What the client makes of a reply: a decoded body, or the [ErrorResponse]
    written by [util.WriteErrorResponse]. *)
Definition http_error {T} (code : Z) (msg : string) : result error T := Err (ErrAPI code msg).
Definition not_found {T} : result error T := http_error 404 "Not Found".

Section handler.
(** The order in which Go iterates over a map. *)
Context (iterate : forall T, gmap string T -> list T).
(** The numbers [rand.Int64] draws, and how many were drawn. *)
Context (rand_Int64 : nat -> Z).
Context {T U : Type} (zero : T) (convert : string -> U -> T -> nat -> T * nat).
Implicit Types (store : gmap string T) (drawn : nat).

(** A body that could not be read or decoded is an [Err] with its message. *)
Abbreviation body := (result string U).

Definition list_items store : result error (list T) := Ok (iterate T store).

Definition get_item store (id : string) : result error T :=
  match store !! id with
  | Some item => Ok item
  | None => not_found
  end.

Definition post_item store drawn (req : body) : result error T * (gmap string T * nat) :=
  match req with
  | Err msg => (http_error 400 msg, (store, drawn))
  | Ok req =>
      let id := "id-" +:+ strconv.Itoa (rand_Int64 drawn) in
      let '(item, drawn) := convert id req zero (S drawn) in
      (Ok item, (<[id := item]> store, drawn))
  end.

Definition put_item store drawn (id : string) (req : body) : result error T * (gmap string T * nat) :=
  match store !! id with
  | None => (not_found, (store, drawn))
  | Some old =>
      match req with
      | Err msg => (http_error 400 msg, (store, drawn))
      | Ok req =>
          let '(item, drawn) := convert id req old drawn in
          (Ok item, (<[id := item]> store, drawn))
      end
  end.

Definition delete_item store (id : string) : option error * gmap string T :=
  match store !! id with
  | None => (Some (ErrAPI 404 "Not Found"), store)
  | Some _ => (None, delete id store)
  end.
End handler.

(** ** The resources *)

(** What the handler decodes the body to. *)
Definition mock_req (c : coll) : Type :=
  match c with
  | CSetupKeys => api.SetupKeyRequest
  | CClusters => unit
  | c => create_req c
  end.

Definition convert_service (id : string) (input : api.ServiceRequest) (output : api.Service) : api.Service :=
  let old := api.sv_Request output in
  api.mkService id
    (api.mkServiceRequest (api.s_Domain input) (api.s_Enabled input)
       (match api.s_Mode input with Some m => Some m | None => api.s_Mode old end)
       (api.s_Name input)
       (match api.s_Targets input with Some ts => Some ts | None => api.s_Targets old end)
       (api.s_PassHostHeader input) (api.s_RewriteRedirects input) (api.s_Private input)
       (api.s_AccessGroups input) (api.s_ListenPort input) (api.s_AccessRestrictions input)).

Definition convert_token (id : string) (input : api.ProxyTokenRequest) (_ : api.ProxyTokenCreated) :
    api.ProxyTokenCreated :=
  api.mkProxyTokenCreated id (api.ptq_Name input) ("plain-" +:+ id).

Definition convert_domain (id : string) (input : api.ReverseProxyDomainRequest) (_ : api.ReverseProxyDomain) :
    api.ReverseProxyDomain :=
  api.mkReverseProxyDomain id (api.dmq_Domain input) (Some (api.dmq_TargetCluster input)) true.

Definition convert_group (id : string) (input : api.GroupRequest) (output : api.Group) : api.Group :=
  api.mkGroup id (api.grq_Name input) (api.g_Peers output) (api.g_Resources output).

Definition convert_network (id : string) (input : api.NetworkRequest) (_ : api.Network) : api.Network :=
  api.mkNetwork id (api.nrq_Name input) (api.nrq_Description input).

Definition convert_router (id : string) (input : api.NetworkRouterRequest) (_ : api.NetworkRouter) :
    api.NetworkRouter :=
  api.mkNetworkRouter id (api.rtq_Enabled input) (api.rtq_Masquerade input) (api.rtq_Metric input)
    (api.rtq_PeerGroups input).

Definition convert_resource (id : string) (input : api.NetworkResourceRequest) (_ : api.NetworkResource) :
    api.NetworkResource :=
  api.mkNetworkResource id (api.rrq_Address input) (api.rrq_Description input) (api.rrq_Enabled input)
    (resourceTypeForAddress (api.rrq_Address input)).

Definition convert_zone (id : string) (input : api.ZoneRequest) (output : api.Zone) : api.Zone :=
  api.mkZone id (api.zrq_Name input) (api.zrq_Domain input) (api.zrq_DistributionGroups input)
    (api.zrq_EnableSearchDomain input)
    (match api.zrq_Enabled input with Some b => b | None => api.z_Enabled output end).

Definition convert_record (id : string) (input : api.DNSRecordRequest) (_ : api.DNSRecord) : api.DNSRecord :=
  api.mkDNSRecord id (api.drq_Name input) (api.drq_Ttl input) (api.drq_Type input) (api.drq_Content input).

Section server.
Context (iterate : forall T, gmap string T -> list T).
Context (rand_Int64 : nat -> Z).

(** The one resource whose conversion draws a number: the key's plain text,
    made once. *)
Definition convert_key (id : string) (input : api.SetupKeyRequest) (output : api.SetupKey) (drawn : nat) :
    api.SetupKey * nat :=
  if String.eqb (api.k_Key output) ""
  then (api.mkSetupKey id (strconv.Itoa (rand_Int64 drawn)) (api.k_State output) (api.skr_AutoGroups input), S drawn)
  else (api.mkSetupKey id (api.k_Key output) (api.k_State output) (api.skr_AutoGroups input), drawn).

Definition pure {T U} (f : string -> U -> T -> T) (id : string) (input : U) (output : T) (drawn : nat) : T * nat :=
  (f id input output, drawn).

Definition convert_of (c : coll) : string -> mock_req c -> item c -> nat -> item c * nat :=
  match c with
  | CGroups => pure convert_group
  | CSetupKeys => convert_key
  | CNetworks => pure convert_network
  | CResources _ => pure convert_resource
  | CRouters _ => pure convert_router
  | CZones => pure convert_zone
  | CRecords _ => pure convert_record
  | CServices => pure convert_service
  | CTokens => pure convert_token
  | CDomains => pure convert_domain
  | CClusters => pure (fun _ _ pc => pc)
  end.

(** The zero value of an item ([var zero T]). *)
Definition zero_service_request : api.ServiceRequest :=
  api.mkServiceRequest "" false None "" None None None None None None None.

Definition zero_of (c : coll) : item c :=
  match c with
  | CGroups => api.mkGroup "" "" [] []
  | CSetupKeys => api.mkSetupKey "" "" "" []
  | CNetworks => api.mkNetwork "" "" None
  | CResources _ => api.mkNetworkResource "" "" None false ""
  | CRouters _ => api.mkNetworkRouter "" false false 0 None
  | CZones => api.mkZone "" "" "" [] false false
  | CRecords _ => api.mkDNSRecord "" "" 0 "" ""
  | CServices => api.mkService "" zero_service_request
  | CTokens => api.mkProxyTokenCreated "" "" ""
  | CDomains => api.mkReverseProxyDomain "" "" None false
  | CClusters => api.mkProxyCluster "" "" false 0
  end.

(** [store] of each [addHandler] - one for all parents of a nested resource -
    and the seeded clusters of [Controls]. *)
Record server := mkServer {
  groups : gmap string api.Group;
  setup_keys : gmap string api.SetupKey;
  networks : gmap string api.Network;
  resources : gmap string api.NetworkResource;
  routers : gmap string api.NetworkRouter;
  zones : gmap string api.Zone;
  records : gmap string api.DNSRecord;
  services : gmap string api.Service;
  tokens : gmap string api.ProxyTokenCreated;
  domains : gmap string api.ReverseProxyDomain;
  clusters : list api.ProxyCluster;
  drawn : nat
}.

Definition Client : server := mkServer ∅ ∅ ∅ ∅ ∅ ∅ ∅ ∅ ∅ ∅ [] 0.

Definition store_of (c : coll) : server -> gmap string (item c) :=
  match c with
  | CGroups => groups
  | CSetupKeys => setup_keys
  | CNetworks => networks
  | CResources _ => resources
  | CRouters _ => routers
  | CZones => zones
  | CRecords _ => records
  | CServices => services
  | CTokens => tokens
  | CDomains => domains
  | CClusters => fun _ => ∅
  end.

Definition with_store (c : coll) : server -> gmap string (item c) -> nat -> server :=
  match c with
  | CGroups => fun '(mkServer a1 a2 a3 a4 a5 a6 a7 a8 a9 a10 cl _) m => mkServer m a2 a3 a4 a5 a6 a7 a8 a9 a10 cl
  | CSetupKeys => fun '(mkServer a1 a2 a3 a4 a5 a6 a7 a8 a9 a10 cl _) m => mkServer a1 m a3 a4 a5 a6 a7 a8 a9 a10 cl
  | CNetworks => fun '(mkServer a1 a2 a3 a4 a5 a6 a7 a8 a9 a10 cl _) m => mkServer a1 a2 m a4 a5 a6 a7 a8 a9 a10 cl
  | CResources _ => fun '(mkServer a1 a2 a3 a4 a5 a6 a7 a8 a9 a10 cl _) m => mkServer a1 a2 a3 m a5 a6 a7 a8 a9 a10 cl
  | CRouters _ => fun '(mkServer a1 a2 a3 a4 a5 a6 a7 a8 a9 a10 cl _) m => mkServer a1 a2 a3 a4 m a6 a7 a8 a9 a10 cl
  | CZones => fun '(mkServer a1 a2 a3 a4 a5 a6 a7 a8 a9 a10 cl _) m => mkServer a1 a2 a3 a4 a5 m a7 a8 a9 a10 cl
  | CRecords _ => fun '(mkServer a1 a2 a3 a4 a5 a6 a7 a8 a9 a10 cl _) m => mkServer a1 a2 a3 a4 a5 a6 m a8 a9 a10 cl
  | CServices => fun '(mkServer a1 a2 a3 a4 a5 a6 a7 a8 a9 a10 cl _) m => mkServer a1 a2 a3 a4 a5 a6 a7 m a9 a10 cl
  | CTokens => fun '(mkServer a1 a2 a3 a4 a5 a6 a7 a8 a9 a10 cl _) m => mkServer a1 a2 a3 a4 a5 a6 a7 a8 m a10 cl
  | CDomains => fun '(mkServer a1 a2 a3 a4 a5 a6 a7 a8 a9 a10 cl _) m => mkServer a1 a2 a3 a4 a5 a6 a7 a8 a9 m cl
  | CClusters => fun '(mkServer a1 a2 a3 a4 a5 a6 a7 a8 a9 a10 cl _) _ => mkServer a1 a2 a3 a4 a5 a6 a7 a8 a9 a10 cl
  end.

Definition with_clusters (s : server) (cl : list api.ProxyCluster) : server :=
  let '(mkServer a1 a2 a3 a4 a5 a6 a7 a8 a9 a10 _ n) := s in mkServer a1 a2 a3 a4 a5 a6 a7 a8 a9 a10 cl n.

(** ** Controls *)

Definition AddProxyCluster (s : server) (id address : string) : server :=
  with_clusters s (clusters s ++ [api.mkProxyCluster id address true 1]).

Definition RemoveProxyCluster (s : server) (address : string) : bool * server :=
  let kept := List.filter (fun pc => negb (String.eqb (api.pc_Address pc) address)) (clusters s) in
  ((length kept <? length (clusters s))%nat, with_clusters s kept).

(** ** The server *)

(** The body the client sends, as the handler decodes it: of a setup key only
    the groups, since the request type of its handler has no other field the
    operator sets. *)
Definition create_body (c : coll) : create_req c -> mock_req c :=
  match c with
  | CSetupKeys => fun rq => api.mkSetupKeyRequest (api.csk_AutoGroups rq)
  | CClusters => fun _ => tt
  | _ => fun rq => rq
  end.

Definition update_body (c : coll) : update_req c -> mock_req c :=
  match c with
  | CTokens | CDomains => fun rq : Empty_set => match rq with end
  | CClusters => fun _ => tt
  | _ => fun rq => rq
  end.

Definition Post (c : coll) (s : server) (rq : mock_req c) : result error (item c) * server :=
  let '(r, (m, n)) := post_item rand_Int64 (zero_of c) (convert_of c) (store_of c s) (drawn s) (Ok rq) in
  (r, with_store c s m n).

Definition Put (c : coll) (s : server) (id : string) (rq : mock_req c) : result error (item c) * server :=
  let '(r, (m, n)) := put_item (convert_of c) (store_of c s) (drawn s) id (Ok rq) in
  (r, with_store c s m n).

Definition Delete (c : coll) (s : server) (id : string) : option error * server :=
  match c with
  | CClusters =>
      let '(found, s') := RemoveProxyCluster s id in
      if found then (None, s') else (Some (ErrAPI 404 "Not Found"), s)
  | c =>
      let '(r, m) := delete_item (store_of c s) id in
      (r, with_store c s m (drawn s))
  end.

Definition List_ (c : coll) (s : server) : result error (list (item c)) :=
  match c with
  | CClusters => Ok (clusters s)
  | c => list_items iterate (store_of c s)
  end.

(** The requests the mock has a handler for; a cluster is neither read by id
    nor created nor updated. *)
Definition serve (c : call) (s : server) : option (resp c * server) :=
  match c with
  | NBGet CClusters _ | NBCreate CClusters _ | NBUpdate CClusters _ _ => None
  | NBGet c id => Some (get_item (store_of c s) id, s)
  | NBList c => Some (List_ c s, s)
  | NBCreate c rq => Some (Post c s (create_body c rq))
  | NBUpdate c id rq => Some (Put c s id (update_body c rq))
  | NBDelete c id => Some (Delete c s id)
  | NBValidateDomain _ => Some (None, s)
  | _ => None
  end.
End server.

(** ** Resource types *)

Lemma HasPrefix_has_byte a s : strings.HasPrefix s (String a EmptyString) = true -> has_byte a s = true.
Proof.
  intros (r & ->)%HasPrefix_spec. cbn. by rewrite Ascii.eqb_refl.
Qed.

Lemma has_byte_app a s t : has_byte a (s +:+ t) = has_byte a s || has_byte a t.
Proof. induction s as [|b s IH]; [done|]. cbn. by rewrite IH, orb_assoc. Qed.

Lemma HasSuffix_has_byte a s : strings.HasSuffix s (String a EmptyString) = true -> has_byte a s = true.
Proof.
  intros (r & ->)%HasSuffix_spec. rewrite has_byte_app. cbn. by rewrite Ascii.eqb_refl, orb_true_r.
Qed.

(** A printed address has no brackets to take off. *)
Lemma unbracket_IP ip : is_IP ip -> unbracket (net.IP_String ip) = net.IP_String ip.
Proof.
  intros Hip. pose proof (no_zone_IP_String ip Hip) as Hz. unfold unbracket, TrimSuffix.
  rewrite TrimPrefix_not.
  - destruct (strings.HasSuffix _ _) eqn:E; [|done]. apply HasSuffix_has_byte in E.
    by rewrite (no_zone_has _ "]") in E.
  - apply not_true_iff_false. intros E%HasPrefix_has_byte. by rewrite (no_zone_has _ "[") in E.
Qed.

Lemma ParseCIDR_IP a ip : ParseCIDR a = Some ip -> is_IP ip.
Proof.
  unfold ParseCIDR. destruct (strings.Cut a "/") as [[addr mask] []]; [|done].
  destruct (net.ParseIP addr) as [ip'|] eqn:E; [|done]. destruct (strconv.digits mask); [|done].
  destruct (_ <=? _); [|done]. intros [= ->]. by apply ParseIP_IP in E.
Qed.

(** A resource is a host exactly when its address is an IP, in brackets or
    not, or an IP with a prefix of any length - whatever the comment of the
    function says of single-host prefixes. *)
Theorem resourceTypeForAddress_spec a :
  (resourceTypeForAddress a = NetworkResourceTypeHost <->
     is_Some (ParseCIDR a) \/ is_Some (net.ParseIP (unbracket a)) /\ ParseCIDR a = None) /\
  (resourceTypeForAddress a = NetworkResourceTypeHost \/ resourceTypeForAddress a = NetworkResourceTypeDomain) /\
  resourceTypeForAddress "10.0.0.0/8" = NetworkResourceTypeHost.
Proof.
  split; [|split; [unfold resourceTypeForAddress; destruct (net.ParseIP _); auto|reflexivity]].
  unfold resourceTypeForAddress. destruct (ParseCIDR a) as [ip|] eqn:E.
  - apply ParseCIDR_IP in E. rewrite unbracket_IP, ParseIP_String by done. split; [eauto|done].
  - destruct (net.ParseIP (unbracket a)); split; try done; [eauto|]. by intros [[? ?]|[[? ?] _]].
Qed.

(** ** The stores *)
Section laws.
Context (iterate : forall T, gmap string T -> list T).
Context (rand_Int64 : nat -> Z).

(** Which handler serves a collection: a nested one serves every parent. *)
Definition handler_of (c : coll) : coll :=
  match c with
  | CResources _ => CResources ""
  | CRouters _ => CRouters ""
  | CRecords _ => CRecords ""
  | c => c
  end.

Lemma store_with_store c s m n : c <> CClusters -> store_of c (with_store c s m n) = m.
Proof. by destruct c, s. Qed.

Lemma store_with_other c c' s m n :
  handler_of c' <> handler_of c -> store_of c' (with_store c s m n) = store_of c' s.
Proof. by destruct s, c, c'. Qed.

Lemma drawn_with_store c s m n : c <> CClusters -> drawn (with_store c s m n) = n.
Proof. by destruct c, s. Qed.

Lemma clusters_with_store c s m n : clusters (with_store c s m n) = clusters s.
Proof. by destruct c, s. Qed.

Lemma with_store_same c s : c <> CClusters -> with_store c s (store_of c s) (drawn s) = s.
Proof. by destruct c, s. Qed.

(** Other collections keep their store; the clusters and the count of draws
    are not looked at. *)
Definition others_kept (c : coll) (s s' : server) : Prop :=
  clusters s' = clusters s /\ forall c', handler_of c' <> handler_of c -> store_of c' s' = store_of c' s.

Lemma others_with_store c s m n : others_kept c s (with_store c s m n).
Proof. split; [apply clusters_with_store|]. intros. by apply store_with_other. Qed.

Lemma others_trans c s1 s2 s3 : others_kept c s1 s2 -> others_kept c s2 s3 -> others_kept c s1 s3.
Proof. intros [Hc1 Hs1] [Hc2 Hs2]. split; [congruence|]. intros c' Hc. rewrite (Hs2 c' Hc). by apply Hs1. Qed.

(** *** The contract of a collection of objects with unique ids *)

Definition gone {T} (o : option T) (e : error) : Prop := o = None /\ errors_As_API e = Some 404.

Definition contract (c : call) (s s' : server) : resp c -> Prop :=
  match c with
  | NBGet c id => fun r => s' = s /\
      match r with Ok x => store_of c s !! id = Some x | Err e => gone (store_of c s !! id) e end
  | NBList c => fun r => s' = s /\ exists l, r = Ok l /\ l ≡ₚ (map_to_list (store_of c s)).*2
  | NBCreate c _ => fun r => others_kept c s s' /\ exists x, r = Ok x /\
      (forall c', store_of c' s !! item_id c x = None) /\ store_of c s' = <[item_id c x := x]> (store_of c s)
  | NBUpdate c id _ => fun r => others_kept c s s' /\
      match r with
      | Ok x => item_id c x = id /\ is_Some (store_of c s !! id) /\ store_of c s' = <[id := x]> (store_of c s)
      | Err e => s' = s /\ gone (store_of c s !! id) e
      end
  | NBDelete c id => fun r => others_kept c s s' /\
      match r with
      | None => is_Some (store_of c s !! id) /\ store_of c s' = delete id (store_of c s)
      | Some e => s' = s /\ gone (store_of c s !! id) e
      end
  | _ => fun _ => False
  end.

(** A request about a collection of such objects. *)
Definition about_items (c : call) : Prop :=
  match c with
  | NBGet c _ | NBList c | NBCreate c _ | NBUpdate c _ _ | NBDelete c _ => c <> CClusters
  | _ => False
  end.

Definition mock_id (i : nat) : string := "id-" +:+ strconv.Itoa (rand_Int64 i).

(** Every item is stored under its own id, and every id was drawn. *)
Record wf (s : server) : Prop := {
  wf_id : forall c id x, store_of c s !! id = Some x -> item_id c x = id;
  wf_drawn : forall c id x, store_of c s !! id = Some x -> exists i, (i < drawn s)%nat /\ id = mock_id i
}.

Lemma Client_wf : wf Client.
Proof. by constructor; intros []. Qed.

Lemma convert_spec c id rq old n : c <> CClusters ->
  item_id c (convert_of rand_Int64 c id rq old n).1 = id /\ (n <= (convert_of rand_Int64 c id rq old n).2)%nat.
Proof.
  destruct c; intros Hc; try done; cbn; try (split; [done|lia]).
  unfold convert_key. destruct (String.eqb _ _); cbn; split; [done|lia|done|lia].
Qed.

(** A store changed at ids that were drawn, to items that carry them. *)
Lemma wf_with_store c s m n :
  c <> CClusters -> wf s -> (drawn s <= n)%nat ->
  (forall id x, m !! id = Some x -> store_of c s !! id = Some x \/
     item_id c x = id /\ exists i, (i < n)%nat /\ id = mock_id i) ->
  wf (with_store c s m n).
Proof.
  intros Hne Hwf Hn Hm.
  assert (forall c' id x, store_of c' s !! id = Some x ->
    item_id c' x = id /\ exists i, (i < n)%nat /\ id = mock_id i) as Hold.
  { intros c' id x Hx. split; [by eapply wf_id|]. destruct (wf_drawn _ Hwf _ _ _ Hx) as (i & ? & ?). exists i. split; [lia|done]. }
  assert (forall c' id x, store_of c' (with_store c s m n) !! id = Some x ->
    item_id c' x = id /\ exists i, (i < n)%nat /\ id = mock_id i) as Hnew.
  { intros c' id x. destruct (decide (handler_of c' = handler_of c)) as [E|E].
    - pose proof (Hold c) as Hc. clear Hold Hwf. destruct c, c'; try discriminate E; destruct s; try done;
        intros [Hx|?]%Hm; first [done|exact (Hc _ _ Hx)].
    - rewrite store_with_other by done. apply Hold. }
  constructor; intros c' id x Hx; apply Hnew in Hx as [? ?]; [done|]. by rewrite drawn_with_store.
Qed.

(** The next number was not drawn before. *)
Definition new_draw (s : server) : Prop := forall i, (i < drawn s)%nat -> rand_Int64 i <> rand_Int64 (drawn s).

Lemma mock_id_fresh c s :
  new_draw s -> wf s -> store_of c s !! mock_id (drawn s) = None.
Proof.
  intros Hnew Hwf. destruct (store_of c s !! _) as [x|] eqn:E; [|done].
  apply (wf_drawn _ Hwf) in E as (i & Hi & Hid). apply append_inj_r in Hid.
  apply (inj pretty) in Hid. by destruct (Hnew i Hi).
Qed.

(** C14: while the random numbers drawn differ, the mock is a map from fresh ids
    to items for each of its resources: a create stores a new item under an id
    no resource has used, an update changes exactly the item named - keeping
    its id - and a delete removes exactly it, each answers not-found, and
    changes nothing, exactly when there is no such item, a list shows every
    item once, and no request touches another resource. *)
Theorem mock_contract c r s s' :
  new_draw s ->
  (forall T m, iterate T m ≡ₚ (map_to_list m).*2) ->
  about_items c -> wf s -> serve iterate rand_Int64 c s = Some (r, s') ->
  wf s' /\ contract c s s' r.
Proof.
  intros Hnew Hiter Hc Hwf Hs.
  destruct c as [| | | | | |c id|c|c rq|c id rq|c id| | | | | |]; cbn in Hc; try done.
  - assert (Some (get_item (store_of c s) id, s) = Some (r, s')) as [= <- <-] by (destruct c; done).
    split; [done|]. split; [done|]. unfold get_item. destruct (_ !! _) eqn:E; done.
  - assert (Some (list_items iterate (store_of c s), s) = Some (r, s')) as [= <- <-] by (destruct c; done).
    split; [done|]. split; [done|]. eexists. split; [reflexivity|]. apply Hiter.
  - assert (Some (Post rand_Int64 c s (create_body c rq)) = Some (r, s')) as [= Heq] by (destruct c; done).
    unfold Post, post_item in Heq. fold (mock_id (drawn s)) in Heq.
    pose proof (convert_spec c (mock_id (drawn s)) (create_body c rq) (zero_of c) (S (drawn s)) Hc) as [Hid Hn].
    destruct (convert_of rand_Int64 c _ _ _ _) as [x n] eqn:E. cbn in Hid, Hn. simplify_eq/=. split.
    + apply wf_with_store; [done|done|lia|]. intros id y [[<- <-]|[_ ?]]%lookup_insert_Some; [right|by left].
      split; [done|]. exists (drawn s). split; [lia|done].
    + split; [apply others_with_store|]. exists x. split; [done|]. rewrite Hid. split.
      * intros c'. by apply mock_id_fresh.
      * by rewrite store_with_store.
  - assert (Some (Put rand_Int64 c s id (update_body c rq)) = Some (r, s')) as [= Heq] by (destruct c; done).
    unfold Put, put_item in Heq. destruct (store_of c s !! id) as [old|] eqn:Hold.
    + pose proof (convert_spec c id (update_body c rq) old (drawn s) Hc) as [Hid Hn].
      destruct (convert_of rand_Int64 c _ _ _ _) as [x n] eqn:E. cbn in Hid, Hn. simplify_eq/=. split.
      * apply wf_with_store; [done|done|lia|]. intros i y [[<- <-]|[_ ?]]%lookup_insert_Some; [right|by left].
        split; [done|]. destruct (wf_drawn _ Hwf _ _ _ Hold) as (j & ? & ?). exists j. split; [lia|done].
      * split; [apply others_with_store|]. split; [done|]. rewrite Hold. split; [done|]. by rewrite store_with_store.
    + rewrite with_store_same in Heq by done. simplify_eq/=. by rewrite Hold.
  - assert (Some (let '(r, m) := delete_item (store_of c s) id in (r, with_store c s m (drawn s))) = Some (r, s'))
      as [= Heq] by (destruct c; done).
    unfold delete_item in Heq. destruct (store_of c s !! id) as [old|] eqn:Hold; simplify_eq/=.
    + split; [apply wf_with_store; [done|done|lia|]|].
      * intros i y [_ ?]%lookup_delete_Some. by left.
      * split; [apply others_with_store|]. rewrite Hold. split; [done|]. by rewrite store_with_store.
    + rewrite with_store_same by done. by rewrite Hold.
Qed.
End laws.

(** ** Seeded clusters *)

(** A removal takes off exactly the clusters of the address, and tells whether
    there was one; the delete handler answers not-found otherwise. *)
Lemma RemoveProxyCluster_spec s address :
  ((RemoveProxyCluster s address).1 = true <-> exists pc, pc ∈ clusters s /\ api.pc_Address pc = address) /\
  (forall pc, pc ∈ clusters (RemoveProxyCluster s address).2 <->
     pc ∈ clusters s /\ api.pc_Address pc <> address).
Proof.
  unfold RemoveProxyCluster. cbn [fst snd]. set (keep := fun pc => negb (String.eqb (api.pc_Address pc) address)).
  assert (forall pc, keep pc = true <-> api.pc_Address pc <> address) as Hkeep.
  { intros pc. unfold keep. destruct (String.eqb_spec (api.pc_Address pc) address); naive_solver. }
  split.
  - rewrite Nat.ltb_lt. induction (clusters s) as [|pc l IH]; cbn.
    + split; [lia|]. intros (pc & ?%not_elem_of_nil & _). done.
    + pose proof (List.filter_length_le keep l) as Hle. destruct (keep pc) eqn:E; cbn.
      * apply Hkeep in E. rewrite <- Nat.succ_lt_mono, IH. set_solver.
      * assert (api.pc_Address pc = address) by (destruct (decide (api.pc_Address pc = address)) as [|Hn]; [done|];
          apply Hkeep in Hn; congruence).
        split; [|lia]. intros _. exists pc. split; [left|done].
  - intros pc. destruct s as [? ? ? ? ? ? ? ? ? ? cl ?]. cbn.
    rewrite !list_elem_of_In, List.filter_In, Hkeep. done.
Qed.

(** ** Concrete servers *)
Module MockRun.
Definition iterate0 (T : Type) (m : gmap string T) : list T := (map_to_list m).*2.
Definition rand0 (i : nat) : Z := Z.of_nat i.

Lemma mock_contract_witness :
  let rq := api.mkNetworkRequest "corp" None in
  exists r s', serve iterate0 rand0 (NBCreate CNetworks rq) Client = Some (r, s') /\ wf rand0 s' /\
    r = Ok (api.mkNetwork "id-0" "corp" None).
Proof.
  cbn zeta. eexists _, _. split; [reflexivity|]. split; [|reflexivity].
  eapply (mock_contract iterate0 rand0 (NBCreate CNetworks (api.mkNetworkRequest "corp" None)) _ Client).
  - unfold new_draw, rand0. cbn. lia.
  - done.
  - done.
  - apply Client_wf.
  - reflexivity.
Defined.

End MockRun.
