(* ===== verification/DeepCopy.v ===== *)
(** * Deep copies

    Go values with their memory, for [zz_generated.deepcopy.go]: a struct value
    holds the addresses of what its pointers, slices and maps refer to, and
    copying a struct copies these addresses.  The statements the generator
    emits for a field are the combinators of [Statements]; a [DeepCopyInto] is
    a list of them over [*out = *in] ([struct_copy]).

    [copies ty f]: on a value of type [ty], [f] does not fail, yields the same
    value, changes nothing in the memory there was, and keeps the copy in
    memory of its own.  The theorems about single statements and about
    [struct_copies] are here; the functions are in [DeepCopyApi.v].

    Everywhere else in this development a custom resource is a value, so that a
    reconciler which changes its copy does not change the original: this is
    what the functions have to provide. *)

From stdpp Require Import base gmap list strings.
From Stdlib Require Import ZArith.
From S2P Require Import Prelude.

(** ** Memory *)

Definition address := positive.

Inductive base := BString (s : string) | BInt (z : Z) | BBool (b : bool).

(** [GZero] is memory that was allocated and not yet written. *)
Inductive gval :=
| GBase (b : base)
| GStruct (fs : gmap string gval)
| GPtr (p : option address)
| GSlice (p : option address)
| GMapRef (p : option address)
| GZero.

Inductive cell :=
| CValue (v : gval)
| CArray (vs : list gval)
| CMap (kvs : gmap string gval).

Abbreviation memory := (gmap address cell).

(** A statement changes the memory and may panic. *)
Definition go (A : Type) : Type := memory -> option (A * memory).

#[export] Instance go_ret : MRet go := fun A a h => Some (a, h).
#[export] Instance go_bind : MBind go := fun A B f m h => '(a, h) ← m h; f a h.

Definition panics {A} : go A := fun _ => None.
(** [new] and [make]. *)
Definition new (c : cell) : go address := fun h => let l := fresh (dom h) in Some (l, <[l := c]> h).
Definition load (l : address) : go cell := fun h => c ← h !! l; Some (c, h).
Definition store (l : address) (c : cell) : go unit := fun h => _ ← h !! l; Some (tt, <[l := c]> h).

Definition load_value (l : address) : go gval :=
  c ← load l; match c with CValue v => mret v | _ => panics end.
Definition load_array (l : address) : go (list gval) :=
  c ← load l; match c with CArray vs => mret vs | _ => panics end.
Definition load_map (l : address) : go (gmap string gval) :=
  c ← load l; match c with CMap kvs => mret kvs | _ => panics end.

(** ** The statements of the generator *)

Module Statements.

(** [if in.F != nil { *out = make([]T, len( *in)); copy( *out, *in) }]. *)
Definition copy_slice (v : gval) : go gval :=
  match v with
  | GSlice None => mret v
  | GSlice (Some l) =>
      vs ← load_array l;
      out ← new (CArray (replicate (length vs) GZero));
      _ ← store out (CArray vs);
      mret (GSlice (Some out))
  | _ => panics
  end.

(** [for i := range *in { ( *in)[i].DeepCopyInto(&( *out)[i]) }]. *)
Fixpoint copy_items (f : gval -> go gval) (out : address) (i : nat) (vs : list gval) : go unit :=
  match vs with
  | [] => mret tt
  | v :: vs =>
      v' ← f v;
      outs ← load_array out;
      _ ← store out (CArray (<[i := v']> outs));
      copy_items f out (S i) vs
  end.
(** [if in.F != nil { *out = make([]T, len( *in)); for i := ... }]. *)
Definition deep_slice (f : gval -> go gval) (v : gval) : go gval :=
  match v with
  | GSlice None => mret v
  | GSlice (Some l) =>
      vs ← load_array l;
      out ← new (CArray (replicate (length vs) GZero));
      _ ← copy_items f out 0 vs;
      mret (GSlice (Some out))
  | _ => panics
  end.

(** [if in.F != nil { *out = new(T); **out = **in }]. *)
Definition copy_pointer (v : gval) : go gval :=
  match v with
  | GPtr None => mret v
  | GPtr (Some l) =>
      out ← new (CValue GZero);
      w ← load_value l;
      _ ← store out (CValue w);
      mret (GPtr (Some out))
  | _ => panics
  end.

(** [if in.F != nil { *out = new(T); ( *in).DeepCopyInto( *out) }]. *)
Definition deep_pointer (f : gval -> go gval) (v : gval) : go gval :=
  match v with
  | GPtr None => mret v
  | GPtr (Some l) =>
      out ← new (CValue GZero);
      w ← load_value l;
      w' ← f w;
      _ ← store out (CValue w');
      mret (GPtr (Some out))
  | _ => panics
  end.

(** [for key, val := range *in { ( *out)[key] = val }]. *)
Fixpoint copy_entries (out : address) (kvs : list (string * gval)) : go unit :=
  match kvs with
  | [] => mret tt
  | (key, val) :: kvs =>
      m ← load_map out;
      _ ← store out (CMap (<[key := val]> m));
      copy_entries out kvs
  end.
(** [if in.F != nil { *out = make(map[string]T, len( *in)); for key, val := ... }]. *)
Definition copy_map (v : gval) : go gval :=
  match v with
  | GMapRef None => mret v
  | GMapRef (Some l) =>
      m ← load_map l;
      out ← new (CMap ∅);
      _ ← copy_entries out (map_to_list m);
      mret (GMapRef (Some out))
  | _ => panics
  end.

(** [out.F = in.F]. *)
Definition assign (v : gval) : go gval := mret v.

(** The statements after [*out = *in]: each writes the field of [out] with
    what it makes of the field of [in]. *)
Fixpoint run_fields (in_ out : gmap string gval) (fields : list (string * (gval -> go gval))) :
    go (gmap string gval) :=
  match fields with
  | [] => mret out
  | (name, f) :: fields =>
      match in_ !! name with
      | None => panics
      | Some v => v' ← f v; run_fields in_ (<[name := v']> out) fields
      end
  end.
Definition struct_copy (fields : list (string * (gval -> go gval))) (v : gval) : go gval :=
  match v with
  | GStruct in_ => out ← run_fields in_ in_ fields; mret (GStruct out)
  | _ => panics
  end.

(** [DeepCopy]: [nil] for [nil], or a new value that [DeepCopyInto] fills. *)
Definition DeepCopy (into : gval -> go gval) (in_ : gval) : go gval := deep_pointer into in_.

(** [DeepCopyObject]: an interface is [nil] or a value with its type. *)
Definition DeepCopyObject (name : string) (into : gval -> go gval) (in_ : gval) : go (option (string * gval)) :=
  c ← DeepCopy into in_;
  mret (match c with GPtr (Some l) => Some (name, c) | _ => None end).

End Statements.

(** ** Types, and the values they have *)

(** [TExt]: a library's type with a [DeepCopyInto] of its own; [TFlat]: one
    that the code copies by assignment. *)
Inductive gtype :=
| TBase
| TStruct (fs : list (string * gtype))
| TPtr (t : gtype)
| TSlice (t : gtype)
| TMap (t : gtype)
| TExt (name : string)
| TFlat (name : string).

(** A value without its addresses. *)
Inductive tree :=
| LBase (b : base)
| LNil
| LRef (t : tree)
| LList (ts : list tree)
| LMap (kts : gmap string tree)
| LStruct (fs : list (string * tree))
| LExt (x : string).

(** The libraries' types: which values they have, and their copy functions. *)
Class Library := {
  ext_denotes : string -> (address -> Prop) -> memory -> gval -> tree -> Prop;
  flat_denotes : string -> gval -> tree -> Prop;
  ext_DeepCopyInto : string -> gval -> go gval
}.

(** Assignment copies a value of this type as a whole. *)
Fixpoint flat (ty : gtype) : bool :=
  match ty with
  | TBase | TFlat _ => true
  | TStruct fs => forallb (fun '(_, ty) => flat ty) fs
  | _ => false
  end.

Section denotes.
Context `{Library}.

(** In memory [h], [v] is the value [t] of type [ty], and the memory it uses
    is at addresses of [P]. *)
Fixpoint denotes (P : address -> Prop) (h : memory) (ty : gtype) (v : gval) (t : tree) {struct ty} : Prop :=
  match ty with
  | TBase => exists b, v = GBase b /\ t = LBase b
  | TStruct fs => exists m ts, v = GStruct m /\ t = LStruct ts /\
      (fix fields fs ts := match fs, ts with
       | [], [] => True
       | (n, ty) :: fs, (n', t) :: ts => n = n' /\ (exists w, m !! n = Some w /\ denotes P h ty w t) /\ fields fs ts
       | _, _ => False
       end) fs ts
  | TPtr ty => v = GPtr None /\ t = LNil \/
      exists l w t', v = GPtr (Some l) /\ t = LRef t' /\ P l /\ h !! l = Some (CValue w) /\ denotes P h ty w t'
  | TSlice ty => v = GSlice None /\ t = LNil \/
      exists l vs ts, v = GSlice (Some l) /\ t = LList ts /\ P l /\ h !! l = Some (CArray vs) /\
        Forall2 (denotes P h ty) vs ts
  | TMap ty => v = GMapRef None /\ t = LNil \/
      exists l m ts, v = GMapRef (Some l) /\ t = LMap ts /\ P l /\ h !! l = Some (CMap m) /\
        map_Forall2 (fun _ => denotes P h ty) m ts
  | TExt n => ext_denotes n P h v t
  | TFlat n => flat_denotes n v t
  end.

(** [f] is a deep copy of the values of [ty]. *)
Definition copies (ty : gtype) (f : gval -> go gval) : Prop :=
  forall P h v t, denotes P h ty v t ->
    exists v' h', f v h = Some (v', h') /\ h ⊆ h' /\ denotes (fun l => l ∉ dom h) h' ty v' t.

End denotes.

(** [h'] holds what [h] holds at the addresses of [P]. *)
Definition kept_at (P : address -> Prop) (h h' : memory) : Prop :=
  forall l c, P l -> h !! l = Some c -> h' !! l = Some c.

(** A library's value stays the same while its memory does, and the copy
    functions of the libraries are deep copies. *)
Class LibraryLaws `{Library} : Prop := {
  ext_local : forall n (P Q : address -> Prop) h h' v t,
    (forall l, P l -> Q l) -> kept_at P h h' -> ext_denotes n P h v t -> ext_denotes n Q h' v t;
  ext_copies : forall n, copies (TExt n) (ext_DeepCopyInto n)
}.

(** ** Values *)

(** Induction on types, through the fields of a struct. *)
Lemma gtype_ind' (R : gtype -> Prop) :
  R TBase -> (forall fs, Forall (fun '(_, ty) => R ty) fs -> R (TStruct fs)) ->
  (forall ty, R ty -> R (TPtr ty)) -> (forall ty, R ty -> R (TSlice ty)) -> (forall ty, R ty -> R (TMap ty)) ->
  (forall n, R (TExt n)) -> (forall n, R (TFlat n)) -> forall ty, R ty.
Proof.
  intros Hb Hs Hp Hl Hm He Hf. fix IH 1.
  intros [|fs|ty|ty|ty|n|n]; [exact Hb| |apply Hp, IH|apply Hl, IH|apply Hm, IH|apply He|apply Hf].
  apply Hs. induction fs as [|[n ty] fs IHfs]; constructor; [apply IH|exact IHfs].
Qed.

Section values.
Context `{LibraryLaws}.
Implicit Types (P Q : address -> Prop) (h : memory) (ty : gtype) (v : gval) (t : tree).

Definition field_denotes P h (m : gmap string gval) (f : string * gtype) (t : string * tree) : Prop :=
  f.1 = t.1 /\ exists w, m !! f.1 = Some w /\ denotes P h f.2 w t.2.

Lemma denotes_struct P h fs v t :
  denotes P h (TStruct fs) v t <->
  exists m ts, v = GStruct m /\ t = LStruct ts /\ Forall2 (field_denotes P h m) fs ts.
Proof.
  cbn [denotes]. split; intros (m & ts & -> & -> & Hf); exists m, ts; (split; [done|]); (split; [done|]).
  - revert ts Hf. induction fs as [|[n ty] fs IH]; intros [|[n' t] ts]; try done.
    intros (-> & Hw & Hf). constructor; [by split|]. by apply IH.
  - induction Hf as [|[n ty] [n' t] fs ts [Hn Hw] Hf IH]; [done|]. cbn in Hn. subst n'. by split.
Qed.

Lemma denotes_local P Q h h' ty v t :
  (forall l, P l -> Q l) -> kept_at P h h' -> denotes P h ty v t -> denotes Q h' ty v t.
Proof.
  intros HPQ Hk. revert v t. induction ty as [|fs IH|ty IH|ty IH|ty IH|n|n] using gtype_ind'; intros v t.
  - done.
  - rewrite !denotes_struct. intros (m & ts & -> & -> & Hf). exists m, ts. split; [done|]. split; [done|].
    rewrite Forall_forall in IH. induction Hf as [|f t fs ts (Hn & w & Hw & Hd) Hf IHf]; constructor.
    + split; [done|]. exists w. split; [done|]. destruct f as [n ty]. apply (IH (n, ty)); [by left|done].
    + apply IHf. intros x Hx. apply IH. by right.
  - intros [?|(l & w & t' & -> & -> & Hl & Hh & Hd)]; [by left|right]. exists l, w, t'. eauto 10.
  - intros [?|(l & vs & ts & -> & -> & Hl & Hh & Hd)]; [by left|right]. exists l, vs, ts.
    repeat (split; [by eauto|]). eapply Forall2_impl; [exact Hd|eauto].
  - intros [?|(l & m & ts & -> & -> & Hl & Hh & Hd)]; [by left|right]. exists l, m, ts.
    repeat (split; [by eauto|]). eapply map_Forall2_impl; [exact Hd|eauto].
  - by apply ext_local.
  - done.
Qed.

Lemma denotes_flat P Q h h' ty v t : flat ty = true -> denotes P h ty v t -> denotes Q h' ty v t.
Proof.
  revert v t. induction ty as [|fs IH|ty IH|ty IH|ty IH|n|n] using gtype_ind'; intros v t Hflat; try done.
  rewrite !denotes_struct. intros (m & ts & -> & -> & Hf). exists m, ts. split; [done|]. split; [done|].
  cbn [flat] in Hflat. rewrite forallb_forall in Hflat. setoid_rewrite <- list_elem_of_In in Hflat.
  rewrite Forall_forall in IH.
  induction Hf as [|f t fs ts (Hn & w & Hw & Hd) Hf IHf]; constructor.
  - split; [done|]. exists w. split; [done|]. destruct f as [n ty].
    apply (IH (n, ty)); [by left|by apply (Hflat (n, ty)); left|done].
  - apply IHf; intros x Hx; [apply IH|apply Hflat]; by right.
Qed.

Lemma kept_subseteq P h h' : h ⊆ h' -> kept_at P h h'.
Proof. intros Hs l c _ Hc. by eapply lookup_weaken. Qed.
Lemma kept_insert P h l c : ~ P l -> kept_at P h (<[l := c]> h).
Proof. intros Hl l' c' Hl' Hh. rewrite lookup_insert_ne; [done|]. by intros ->. Qed.

(** What is known of a value that was copied, in any later memory. *)
Lemma denotes_subseteq P h h' ty v t : h ⊆ h' -> denotes P h ty v t -> denotes P h' ty v t.
Proof. intros Hs. apply denotes_local; [done|]. by apply kept_subseteq. Qed.
End values.

(** ** Runs of statements *)

Lemma go_bind_eq {A B} (m : go A) (f : A -> go B) h a h1 : m h = Some (a, h1) -> (m ≫= f) h = f a h1.
Proof. intros Hm. unfold mbind, go_bind. by rewrite Hm. Qed.
Lemma load_value_eq l w h : h !! l = Some (CValue w) -> load_value l h = Some (w, h).
Proof. intros Hl. unfold load_value, load, mbind, go_bind. cbn. by rewrite Hl. Qed.
Lemma load_array_eq l vs h : h !! l = Some (CArray vs) -> load_array l h = Some (vs, h).
Proof. intros Hl. unfold load_array, load, mbind, go_bind. cbn. by rewrite Hl. Qed.
Lemma load_map_eq l m h : h !! l = Some (CMap m) -> load_map l h = Some (m, h).
Proof. intros Hl. unfold load_map, load, mbind, go_bind. cbn. by rewrite Hl. Qed.
Lemma store_eq l c c' h : h !! l = Some c -> store l c' h = Some (tt, <[l := c']> h).
Proof. intros Hl. unfold store. by rewrite Hl. Qed.
Lemma new_eq c h : new c h = Some (fresh (dom h), <[fresh (dom h) := c]> h).
Proof. done. Qed.
Lemma fresh_none (h : memory) : h !! fresh (dom h) = None.
Proof. apply not_elem_of_dom, is_fresh. Qed.
Lemma fresh_subseteq (h : memory) c : h ⊆ <[fresh (dom h) := c]> h.
Proof. apply insert_subseteq, fresh_none. Qed.

Section statements.
Context `{LibraryLaws}.
Import Statements.

(** What an allocation is filled with: memory [h1] is [h] with a cell at [out]
    that holds [c], and what was made in between. *)
Record filled (h h1 : memory) (out : address) (c : cell) : Prop := {
  filled_new : out ∉ dom h;
  filled_cell : h1 !! out = Some c;
  filled_old : h ⊆ h1
}.

Lemma filled_alloc h c : filled h (<[fresh (dom h) := c]> h) (fresh (dom h)) c.
Proof. constructor; [apply is_fresh|apply lookup_insert_eq|apply fresh_subseteq]. Qed.

Lemma filled_store h h1 out c c' : filled h h1 out c -> filled h (<[out := c']> h1) out c'.
Proof.
  intros [Hn Hc Ho]. constructor; [done|apply lookup_insert_eq|].
  apply map_subseteq_spec. intros l x Hl. rewrite lookup_insert_ne; [by eapply lookup_weaken|].
  intros ->. by apply elem_of_dom_2 in Hl.
Qed.

Lemma filled_later h h1 h2 out c : filled h h1 out c -> h1 ⊆ h2 -> filled h h2 out c.
Proof. intros [Hn Hc Ho] Hs. constructor; [done|by eapply lookup_weaken|by etrans]. Qed.

Lemma assign_copies ty : flat ty = true -> copies ty assign.
Proof. intros Hf P h v t Hd. exists v, h. split; [done|]. split; [done|]. by eapply denotes_flat. Qed.

Lemma copy_pointer_copies ty : flat ty = true -> copies (TPtr ty) copy_pointer.
Proof.
  intros Hf P h v t [(-> & ->)|(l & w & t' & -> & -> & Hl & Hh & Hd)].
  { exists (GPtr None), h. split; [done|]. split; [done|]. by left. }
  pose proof (filled_alloc h (CValue GZero)) as Hfill. set (out := fresh (dom h)) in *.
  pose proof (filled_store _ _ _ _ (CValue w) Hfill) as Hfill'.
  exists (GPtr (Some out)). eexists. split.
  - unfold copy_pointer. rewrite (go_bind_eq _ _ _ _ _ (new_eq _ h)).
    rewrite (go_bind_eq _ _ _ _ _ (load_value_eq l w _ (lookup_weaken _ _ _ _ Hh (filled_old _ _ _ _ Hfill)))).
    by rewrite (go_bind_eq _ _ _ _ _ (store_eq _ _ _ _ (filled_cell _ _ _ _ Hfill))).
  - split; [apply Hfill'|]. right. exists out, w, t'. repeat (split; [by try apply Hfill'|]).
    by eapply denotes_flat.
Qed.
Lemma deep_pointer_copies ty f : copies ty f -> copies (TPtr ty) (deep_pointer f).
Proof.
  intros Hf P h v t [(-> & ->)|(l & w & t' & -> & -> & Hl & Hh & Hd)].
  { exists (GPtr None), h. split; [done|]. split; [done|]. by left. }
  pose proof (filled_alloc h (CValue GZero)) as Hfill. set (out := fresh (dom h)) in *. set (h1 := <[out := _]> h) in *.
  destruct (Hf P h1 w t') as (w' & h2 & Hrun & Hs & Hd').
  { by eapply denotes_subseteq; [apply Hfill|]. }
  pose proof (filled_later _ _ _ _ _ Hfill Hs) as Hfill2.
  pose proof (filled_store _ _ _ _ (CValue w') Hfill2) as Hfill3.
  exists (GPtr (Some out)), (<[out := CValue w']> h2). split.
  - unfold deep_pointer. rewrite (go_bind_eq _ _ _ _ _ (new_eq _ h)).
    rewrite (go_bind_eq _ _ _ _ _ (load_value_eq l w _ (lookup_weaken _ _ _ _ Hh (filled_old _ _ _ _ Hfill)))).
    rewrite (go_bind_eq _ _ _ _ _ Hrun).
    by rewrite (go_bind_eq _ _ _ _ _ (store_eq _ _ _ _ (filled_cell _ _ _ _ Hfill2))).
  - split; [apply Hfill3|]. right. exists out, w', t'. repeat (split; [by try apply Hfill3|]).
    eapply denotes_local; [..|exact Hd'].
    + intros l' Hl'. pose proof (subseteq_dom _ _ (filled_old _ _ _ _ Hfill)). set_solver.
    + apply kept_insert. intros Hn. apply Hn, elem_of_dom. eexists. apply Hfill.
Qed.

Lemma copy_slice_copies ty : flat ty = true -> copies (TSlice ty) copy_slice.
Proof.
  intros Hf P h v t [(-> & ->)|(l & vs & ts & -> & -> & Hl & Hh & Hd)].
  { exists (GSlice None), h. split; [done|]. split; [done|]. by left. }
  pose proof (filled_alloc h (CArray (replicate (length vs) GZero))) as Hfill. set (out := fresh (dom h)) in *.
  pose proof (filled_store _ _ _ _ (CArray vs) Hfill) as Hfill'.
  exists (GSlice (Some out)). eexists. split.
  - unfold copy_slice. rewrite (go_bind_eq _ _ _ _ _ (load_array_eq l vs h Hh)).
    rewrite (go_bind_eq _ _ _ _ _ (new_eq _ h)).
    by rewrite (go_bind_eq _ _ _ _ _ (store_eq _ _ _ _ (filled_cell _ _ _ _ Hfill))).
  - split; [apply Hfill'|]. right. exists out, vs, ts. repeat (split; [by try apply Hfill'|]).
    eapply Forall2_impl; [exact Hd|]. intros. by eapply denotes_flat.
Qed.

(** The loop over the items: item [i] and what follows it are copied, all into
    memory that was not there, and nothing but the array is written. *)
Lemma copy_items_run ty f P h out vs ts : copies ty f -> Forall2 (denotes P h ty) vs ts ->
  forall i outs hk, filled h hk out (CArray outs) -> length outs = (i + length vs)%nat ->
  exists h' vs', copy_items f out i vs hk = Some (tt, h') /\
    filled h h' out (CArray (take i outs ++ vs')) /\
    Forall2 (denotes (fun l => l ∉ dom h /\ l <> out) h' ty) vs' ts /\ kept_at (fun l => l <> out) hk h'.
Proof.
  intros Hf Hvs. induction Hvs as [|v t vs ts Hd Hvs IH]; intros i outs hk Hfill Hlen.
  { exists hk, []. cbn in Hlen. rewrite app_nil_r, take_ge by lia. split; [done|]. split; [done|].
    split; [constructor|by intros l c]. }
  destruct (Hf P hk v t) as (v' & h2 & Hrun & Hs & Hd').
  { by eapply denotes_subseteq; [apply Hfill|]. }
  pose proof (filled_later _ _ _ _ _ Hfill Hs) as Hfill2.
  pose proof (filled_store _ _ _ _ (CArray (<[i := v']> outs)) Hfill2) as Hfill3.
  destruct (IH (S i) _ _ Hfill3) as (h' & vs' & Hrest & Hfill' & Hds & Hk).
  { rewrite length_insert. cbn in Hlen. lia. }
  assert (kept_at (fun l => l <> out) h2 h') as Hk2.
  { intros l c Hl Hc. apply Hk; [done|]. by rewrite lookup_insert_ne by done. }
  exists h', (v' :: vs'). split; [|split; [|split]].
  - cbn [copy_items]. rewrite (go_bind_eq _ _ _ _ _ Hrun).
    rewrite (go_bind_eq _ _ _ _ _ (load_array_eq out outs h2 (filled_cell _ _ _ _ Hfill2))).
    by rewrite (go_bind_eq _ _ _ _ _ (store_eq _ _ _ _ (filled_cell _ _ _ _ Hfill2))).
  - erewrite take_S_r in Hfill' by (apply list_lookup_insert_eq; cbn in Hlen; lia).
    rewrite take_insert_ge in Hfill' by lia. by rewrite <- app_assoc in Hfill'.
  - constructor; [|done]. eapply denotes_local; [..|exact Hd'].
    + intros l Hl. pose proof (subseteq_dom _ _ (filled_old _ _ _ _ Hfill)). split; [set_solver|].
      intros ->. apply Hl, elem_of_dom. eexists. apply Hfill.
    + intros l c Hl. apply Hk2. intros ->. apply Hl, elem_of_dom. eexists. apply Hfill.
  - intros l c Hl Hc. apply Hk2; [done|]. by eapply lookup_weaken.
Qed.

Lemma deep_slice_copies ty f : copies ty f -> copies (TSlice ty) (deep_slice f).
Proof.
  intros Hf P h v t [(-> & ->)|(l & vs & ts & -> & -> & Hl & Hh & Hd)].
  { exists (GSlice None), h. split; [done|]. split; [done|]. by left. }
  pose proof (filled_alloc h (CArray (replicate (length vs) GZero))) as Hfill. set (out := fresh (dom h)) in *.
  destruct (copy_items_run ty f P h out vs ts Hf Hd 0 _ _ Hfill) as (h' & vs' & Hrun & Hfill' & Hd' & _).
  { by rewrite length_replicate. }
  exists (GSlice (Some out)), h'. split.
  - unfold deep_slice. rewrite (go_bind_eq _ _ _ _ _ (load_array_eq l vs h Hh)).
    rewrite (go_bind_eq _ _ _ _ _ (new_eq _ h)). by rewrite (go_bind_eq _ _ _ _ _ Hrun).
  - split; [apply Hfill'|]. right. exists out, vs', ts. repeat (split; [by try apply Hfill'|]).
    eapply Forall2_impl; [exact Hd'|]. intros x y Hx. eapply denotes_local; [|by apply kept_subseteq|exact Hx].
    by intros l' [? _].
Qed.

Lemma copy_entries_run h out kvs m hk :
  filled h hk out (CMap m) -> NoDup kvs.*1 -> Forall (fun k => m !! k = None) kvs.*1 ->
  exists h', copy_entries out kvs hk = Some (tt, h') /\ filled h h' out (CMap (list_to_map kvs ∪ m)).
Proof.
  revert m hk. induction kvs as [|[k x] kvs IH]; intros m hk Hfill Hnd Hm.
  { exists hk. split; [done|]. by rewrite list_to_map_nil, (left_id_L ∅ (∪)). }
  apply NoDup_cons in Hnd as [Hk Hnd]. apply Forall_cons in Hm as [Hkm Hm].
  destruct (IH (<[k := x]> m) _ (filled_store _ _ _ _ _ Hfill) Hnd) as (h' & Hrun & Hfill').
  { rewrite Forall_forall in Hm |- *. intros k' Hk'. cbn in *. rewrite lookup_insert_ne; [by apply Hm|].
    by intros ->. }
  exists h'. split.
  - cbn [copy_entries]. rewrite (go_bind_eq _ _ _ _ _ (load_map_eq out m hk (filled_cell _ _ _ _ Hfill))).
    by rewrite (go_bind_eq _ _ _ _ _ (store_eq _ _ _ _ (filled_cell _ _ _ _ Hfill))).
  - rewrite list_to_map_cons, <- insert_union_l.
    rewrite <- insert_union_r in Hfill' by (by apply not_elem_of_list_to_map_1). done.
Qed.

Lemma copy_map_copies ty : flat ty = true -> copies (TMap ty) copy_map.
Proof.
  intros Hf P h v t [(-> & ->)|(l & m & ts & -> & -> & Hl & Hh & Hd)].
  { exists (GMapRef None), h. split; [done|]. split; [done|]. by left. }
  pose proof (filled_alloc h (CMap ∅)) as Hfill. set (out := fresh (dom h)) in *.
  destruct (copy_entries_run h out (map_to_list m) ∅ _ Hfill (NoDup_fst_map_to_list m)) as (h' & Hrun & Hfill').
  { apply Forall_forall. intros k _. apply lookup_empty. }
  rewrite (right_id_L ∅ (∪)), list_to_map_to_list in Hfill'.
  exists (GMapRef (Some out)), h'. split.
  - unfold copy_map. rewrite (go_bind_eq _ _ _ _ _ (load_map_eq l m h Hh)).
    rewrite (go_bind_eq _ _ _ _ _ (new_eq _ h)). by rewrite (go_bind_eq _ _ _ _ _ Hrun).
  - split; [apply Hfill'|]. right. exists out, m, ts. repeat (split; [by try apply Hfill'|]).
    eapply map_Forall2_impl; [exact Hd|]. intros k x y Hx. by apply (denotes_flat P _ h).
Qed.

(** The statement for a field. *)
Fixpoint statement_of (fields : list (string * (gval -> go gval))) (n : string) : option (gval -> go gval) :=
  match fields with
  | [] => None
  | (n', f) :: fields => if String.eqb n' n then Some f else statement_of fields n
  end.

Lemma elem_of_fst {A} (l : list (string * A)) n x : (n, x) ∈ l -> n ∈ l.*1.
Proof. intros Hin. apply list_elem_of_fmap. by exists (n, x). Qed.

Lemma statement_of_Some fields n f : statement_of fields n = Some f -> (n, f) ∈ fields.
Proof.
  induction fields as [|[n' f'] fields IH]; cbn; [done|].
  destruct (String.eqb_spec n' n) as [->|]; [intros [= ->]; by left|right; by apply IH].
Qed.

Lemma statement_of_elem fields n f : NoDup fields.*1 -> (n, f) ∈ fields -> statement_of fields n = Some f.
Proof.
  induction fields as [|[n' f'] fields IH]; intros Hnd Hin; [by apply not_elem_of_nil in Hin|].
  apply NoDup_cons in Hnd as [Hn' Hnd]. cbn. apply elem_of_cons in Hin as [[= -> ->]|Hin].
  - by rewrite String.eqb_refl.
  - destruct (String.eqb_spec n' n) as [->|]; [|by apply IH]. by destruct Hn'; eapply elem_of_fst.
Qed.

Lemma statement_of_None fields n : statement_of fields n = None -> n ∉ fields.*1.
Proof.
  induction fields as [|[n' f] fields IH]; cbn; [intros _; apply not_elem_of_nil|].
  destruct (String.eqb_spec n' n); [done|]. intros Hs. apply not_elem_of_cons. split; [congruence|by apply IH].
Qed.

(** A field can be copied. *)
Definition copyable P h (in_ : gval) (f : gval -> go gval) : Prop :=
  exists ty t, denotes P h ty in_ t /\ copies ty f.
(** [out] is what a copy of [in_] is, whatever it denotes. *)
Definition copied P h h' (in_ out : gval) (f : gval -> go gval) : Prop :=
  forall ty t, denotes P h ty in_ t -> copies ty f -> denotes (fun l => l ∉ dom h) h' ty out t.

Lemma copyable_run P h hk in_ f : copyable P h in_ f -> h ⊆ hk ->
  exists out h', f in_ hk = Some (out, h') /\ hk ⊆ h' /\ copied P h h' in_ out f.
Proof.
  intros (ty & t & Hd & Hf) Hs.
  destruct (Hf P hk in_ t) as (out & h' & Hrun & Hs' & _); [by eapply denotes_subseteq|].
  exists out, h'. split; [done|]. split; [done|]. intros ty' t' Hd' Hf'.
  destruct (Hf' P hk in_ t') as (out2 & h2 & Hrun2 & _ & Hd2); [by eapply denotes_subseteq|].
  rewrite Hrun in Hrun2. injection Hrun2 as <- <-. eapply denotes_local; [|by apply (kept_subseteq _ h')|exact Hd2].
  intros l Hl. pose proof (subseteq_dom _ _ Hs). set_solver.
Qed.

Lemma run_fields_run P h in_ fields : NoDup fields.*1 ->
  Forall (fun '(n, f) => exists v, in_ !! n = Some v /\ copyable P h v f) fields ->
  forall out hk, h ⊆ hk -> exists out' h',
    run_fields in_ out fields hk = Some (out', h') /\ hk ⊆ h' /\
    (forall n, n ∉ fields.*1 -> out' !! n = out !! n) /\
    (forall n f, (n, f) ∈ fields -> exists v v', in_ !! n = Some v /\ out' !! n = Some v' /\ copied P h h' v v' f).
Proof.
  intros Hnd Hall. induction fields as [|[n f] fields IH]; intros out hk Hs.
  { exists out, hk. split; [done|]. split; [done|]. split; [done|]. by intros n f Hin%not_elem_of_nil. }
  apply NoDup_cons in Hnd as [Hn Hnd]. apply Forall_cons in Hall as [(v & Hv & Hc) Hall].
  destruct (copyable_run P h hk v f Hc Hs) as (v' & h2 & Hrun & Hs2 & Hcopied).
  destruct (IH Hnd Hall (<[n := v']> out) h2) as (out' & h' & Hrest & Hs' & Hother & Hdone); [by etrans|].
  exists out', h'. split; [|split; [by etrans|split]].
  - cbn [run_fields]. rewrite Hv. by rewrite (go_bind_eq _ _ _ _ _ Hrun).
  - intros n' Hn'. cbn in Hn'. apply not_elem_of_cons in Hn' as [Hne Hn']. rewrite Hother by done.
    by apply lookup_insert_ne.
  - intros n' f' [[= -> ->]|Hin]%elem_of_cons; [|by apply Hdone].
    exists v, v'. split; [done|]. split; [rewrite Hother by done; by apply lookup_insert_eq|].
    intros ty t Hd Hf. eapply denotes_subseteq; [exact Hs'|by apply Hcopied].
Qed.

(** A struct is copied deeply when every field that assignment does not copy
    as a whole has a statement that does. *)
Lemma struct_copies fs fields :
  bool_decide (NoDup fields.*1) = true ->
  forallb (fun n => existsb (String.eqb n) fs.*1) fields.*1 = true ->
  Forall (fun f => match statement_of fields f.1 with Some g => copies f.2 g | None => flat f.2 = true end) fs ->
  copies (TStruct fs) (struct_copy fields).
Proof.
  intros Hnd%bool_decide_eq_true Hsub Hfs P h v t Hd.
  apply denotes_struct in Hd as (m & ts & -> & -> & Hd). rewrite Forall_forall in Hfs.
  assert (Forall (fun '(n, f) => exists v, m !! n = Some v /\ copyable P h v f) fields) as Hall.
  { apply Forall_forall. intros [n f] Hin. rewrite forallb_forall in Hsub.
    assert (n ∈ fields.*1) as Hn by (by eapply elem_of_fst).
    apply list_elem_of_In, Hsub, existsb_exists in Hn as (n' & Hn' & ->%String.eqb_eq).
    apply list_elem_of_In, list_elem_of_fmap in Hn' as ([n ty] & -> & Hf). cbn in *.
    pose proof Hf as [i Hi]%list_elem_of_lookup.
    destruct (Forall2_lookup_l _ _ _ _ _ Hd Hi) as (t & _ & _ & w & Hw & Hdw).
    exists w. split; [done|]. exists ty, t.2. split; [done|]. specialize (Hfs _ Hf). cbn in Hfs.
    by rewrite (statement_of_elem _ _ _ Hnd Hin) in Hfs. }
  destruct (run_fields_run P h m fields Hnd Hall m h) as (out & h' & Hrun & Hs & Hother & Hdone); [done|].
  exists (GStruct out), h'. split; [unfold struct_copy; by rewrite (go_bind_eq _ _ _ _ _ Hrun)|].
  split; [done|]. apply denotes_struct. exists out, ts. split; [done|]. split; [done|].
  clear Hall Hrun Hsub. induction Hd as [|f t fs ts (Hn & w & Hw & Hdw) Hd IH]; constructor.
  - split; [done|]. specialize (Hfs f ltac:(by left)). destruct (statement_of fields f.1) as [g|] eqn:Hg.
    + destruct (Hdone _ _ (statement_of_Some _ _ _ Hg)) as (v & v' & Hv & Hv' & Hc).
      rewrite Hw in Hv. injection Hv as <-. exists v'. split; [done|]. by apply Hc.
    + rewrite Hother by (by apply statement_of_None). exists w. split; [done|]. by eapply denotes_flat.
  - apply IH. intros x Hx. apply Hfs. by right.
Qed.
End statements.
