(* ===== verification/DeepCopyApi.v ===== *)
(** * The deep copies of the custom resources

    [api/v1alpha1/zz_generated.deepcopy.go], function by function: the fields
    of each type as its declaration gives them, and for each field the
    statement the generator emitted, if any.  [API_DeepCopy]: each function is
    a deep copy of its type - no field was forgotten, and none that holds an
    address is copied by assignment. *)

From stdpp Require Import base gmap list strings.
From Stdlib Require Import ZArith.
From S2P Require Import Prelude DeepCopy.

Import Statements.

(** ** The types *)

Definition go_AccessRestrictions : gtype := TStruct [
  ("AllowedCidrs", (TSlice TBase));
  ("BlockedCidrs", (TSlice TBase));
  ("AllowedCountries", (TSlice TBase));
  ("BlockedCountries", (TSlice TBase))].
Definition go_GroupReference : gtype := TStruct [
  ("Name", (TPtr TBase));
  ("ID", (TPtr TBase));
  ("LocalRef", (TPtr (TFlat "LocalObjectReference")))].
Definition go_ClusterProxySpec : gtype := TStruct [
  ("ClusterName", TBase);
  ("APIServer", TBase);
  ("ServiceAccountName", TBase);
  ("Groups", (TSlice go_GroupReference));
  ("Replicas", (TPtr TBase))].
Definition go_ClusterProxyStatus : gtype := TStruct [
  ("ObservedGeneration", TBase);
  ("Conditions", (TSlice (TExt "Condition")))].
Definition go_ClusterProxy : gtype := TStruct [
  ("TypeMeta", (TFlat "TypeMeta"));
  ("ObjectMeta", (TExt "ObjectMeta"));
  ("Spec", go_ClusterProxySpec);
  ("Status", go_ClusterProxyStatus)].
Definition go_ClusterProxyList : gtype := TStruct [
  ("TypeMeta", (TFlat "TypeMeta"));
  ("ListMeta", (TExt "ListMeta"));
  ("Items", (TSlice go_ClusterProxy))].
Definition go_ContainerOverride : gtype := TStruct [
  ("Image", TBase);
  ("Env", (TSlice (TExt "EnvVar")));
  ("SecurityContext", (TPtr (TExt "SecurityContext")));
  ("StartupProbe", (TPtr (TExt "Probe")));
  ("LivenessProbe", (TPtr (TExt "Probe")));
  ("ReadinessProbe", (TPtr (TExt "Probe")))].
Definition go_CrossNamespaceReference : gtype := TStruct [
  ("Name", TBase);
  ("Namespace", TBase)].
Definition go_DNSRecordSpec : gtype := TStruct [
  ("ZoneRef", go_CrossNamespaceReference);
  ("Name", TBase);
  ("Type", TBase);
  ("Content", TBase);
  ("TTL", TBase)].
Definition go_DNSRecordStatus : gtype := TStruct [
  ("ObservedGeneration", TBase);
  ("Conditions", (TSlice (TExt "Condition")));
  ("ZoneID", TBase);
  ("RecordID", TBase)].
Definition go_DNSRecord : gtype := TStruct [
  ("TypeMeta", (TFlat "TypeMeta"));
  ("ObjectMeta", (TExt "ObjectMeta"));
  ("Spec", go_DNSRecordSpec);
  ("Status", go_DNSRecordStatus)].
Definition go_DNSRecordList : gtype := TStruct [
  ("TypeMeta", (TFlat "TypeMeta"));
  ("ListMeta", (TExt "ListMeta"));
  ("Items", (TSlice go_DNSRecord))].
Definition go_DNSZoneSpec : gtype := TStruct [
  ("Name", TBase);
  ("Domain", TBase);
  ("DistributionGroups", (TSlice go_GroupReference));
  ("EnableSearchDomain", (TPtr TBase));
  ("Enabled", TBase)].
Definition go_DNSZoneStatus : gtype := TStruct [
  ("ObservedGeneration", TBase);
  ("Conditions", (TSlice (TExt "Condition")));
  ("ZoneID", TBase)].
Definition go_DNSZone : gtype := TStruct [
  ("TypeMeta", (TFlat "TypeMeta"));
  ("ObjectMeta", (TExt "ObjectMeta"));
  ("Spec", go_DNSZoneSpec);
  ("Status", go_DNSZoneStatus)].
Definition go_DNSZoneList : gtype := TStruct [
  ("TypeMeta", (TFlat "TypeMeta"));
  ("ListMeta", (TExt "ListMeta"));
  ("Items", (TSlice go_DNSZone))].
Definition go_GroupSpec : gtype := TStruct [
  ("Name", TBase)].
Definition go_GroupStatus : gtype := TStruct [
  ("ObservedGeneration", TBase);
  ("Conditions", (TSlice (TExt "Condition")));
  ("GroupID", TBase)].
Definition go_Group : gtype := TStruct [
  ("TypeMeta", (TFlat "TypeMeta"));
  ("ObjectMeta", (TExt "ObjectMeta"));
  ("Spec", go_GroupSpec);
  ("Status", go_GroupStatus)].
Definition go_GroupList : gtype := TStruct [
  ("TypeMeta", (TFlat "TypeMeta"));
  ("ListMeta", (TExt "ListMeta"));
  ("Items", (TSlice go_Group))].
Definition go_NetworkSpec : gtype := TStruct [
  ("Name", TBase);
  ("Description", TBase)].
Definition go_NetworkStatus : gtype := TStruct [
  ("ObservedGeneration", TBase);
  ("Conditions", (TSlice (TExt "Condition")));
  ("NetworkID", TBase)].
Definition go_Network : gtype := TStruct [
  ("TypeMeta", (TFlat "TypeMeta"));
  ("ObjectMeta", (TExt "ObjectMeta"));
  ("Spec", go_NetworkSpec);
  ("Status", go_NetworkStatus)].
Definition go_NetworkList : gtype := TStruct [
  ("TypeMeta", (TFlat "TypeMeta"));
  ("ListMeta", (TExt "ListMeta"));
  ("Items", (TSlice go_Network))].
Definition go_NetworkResourceSpec : gtype := TStruct [
  ("NetworkRef", go_CrossNamespaceReference);
  ("Name", TBase);
  ("Address", TBase);
  ("Description", TBase);
  ("Groups", (TSlice go_GroupReference));
  ("Enabled", TBase)].
Definition go_NetworkResourceStatus : gtype := TStruct [
  ("ObservedGeneration", TBase);
  ("Conditions", (TSlice (TExt "Condition")));
  ("NetworkID", TBase);
  ("ResourceID", TBase)].
Definition go_NetworkResource : gtype := TStruct [
  ("TypeMeta", (TFlat "TypeMeta"));
  ("ObjectMeta", (TExt "ObjectMeta"));
  ("Spec", go_NetworkResourceSpec);
  ("Status", go_NetworkResourceStatus)].
Definition go_NetworkResourceList : gtype := TStruct [
  ("TypeMeta", (TFlat "TypeMeta"));
  ("ListMeta", (TExt "ListMeta"));
  ("Items", (TSlice go_NetworkResource))].
Definition go_RouterDeploy : gtype := TStruct [
  ("NodeSelector", (TMap TBase));
  ("Image", TBase);
  ("LogLevel", TBase)].
Definition go_NetworkRouterPeers : gtype := TStruct [
  ("Group", (TPtr go_GroupReference));
  ("Deploy", (TPtr go_RouterDeploy))].
Definition go_NetworkRouterSpec : gtype := TStruct [
  ("NetworkRef", go_CrossNamespaceReference);
  ("Peers", go_NetworkRouterPeers);
  ("Masquerade", TBase);
  ("Metric", TBase);
  ("Enabled", TBase)].
Definition go_NetworkRouterStatus : gtype := TStruct [
  ("ObservedGeneration", TBase);
  ("Conditions", (TSlice (TExt "Condition")));
  ("NetworkID", TBase);
  ("RouterID", TBase);
  ("GroupID", TBase)].
Definition go_NetworkRouter : gtype := TStruct [
  ("TypeMeta", (TFlat "TypeMeta"));
  ("ObjectMeta", (TExt "ObjectMeta"));
  ("Spec", go_NetworkRouterSpec);
  ("Status", go_NetworkRouterStatus)].
Definition go_NetworkRouterList : gtype := TStruct [
  ("TypeMeta", (TFlat "TypeMeta"));
  ("ListMeta", (TExt "ListMeta"));
  ("Items", (TSlice go_NetworkRouter))].
Definition go_ReverseProxyBackend : gtype := TStruct [
  ("ServiceRef", (TFlat "LocalObjectReference"));
  ("Port", TBase);
  ("Path", TBase)].
Definition go_ReverseProxyClusterSpec : gtype := TStruct [
  ("ClusterAddress", TBase);
  ("Domain", TBase);
  ("ZoneRef", (TPtr go_CrossNamespaceReference));
  ("CertSecretName", TBase);
  ("Groups", (TSlice go_GroupReference));
  ("Private", TBase);
  ("Replicas", (TPtr TBase));
  ("Image", TBase);
  ("LogLevel", TBase);
  ("ServiceAnnotations", (TMap TBase))].
Definition go_ReverseProxyClusterStatus : gtype := TStruct [
  ("ObservedGeneration", TBase);
  ("Conditions", (TSlice (TExt "Condition")));
  ("ClusterAddress", TBase);
  ("TokenID", TBase);
  ("DomainID", TBase);
  ("LoadBalancerIP", TBase);
  ("Online", TBase);
  ("ConnectedProxies", TBase)].
Definition go_ReverseProxyCluster : gtype := TStruct [
  ("TypeMeta", (TFlat "TypeMeta"));
  ("ObjectMeta", (TExt "ObjectMeta"));
  ("Spec", go_ReverseProxyClusterSpec);
  ("Status", go_ReverseProxyClusterStatus)].
Definition go_ReverseProxyClusterList : gtype := TStruct [
  ("TypeMeta", (TFlat "TypeMeta"));
  ("ListMeta", (TExt "ListMeta"));
  ("Items", (TSlice go_ReverseProxyCluster))].
Definition go_ReverseProxyClusterParametersSpec : gtype := TStruct [
  ("Image", TBase);
  ("Replicas", (TPtr TBase));
  ("LogLevel", TBase);
  ("Groups", (TSlice go_GroupReference));
  ("Private", TBase);
  ("ServiceAnnotations", (TMap TBase))].
Definition go_ReverseProxyClusterParameters : gtype := TStruct [
  ("TypeMeta", (TFlat "TypeMeta"));
  ("ObjectMeta", (TExt "ObjectMeta"));
  ("Spec", go_ReverseProxyClusterParametersSpec)].
Definition go_ReverseProxyClusterParametersList : gtype := TStruct [
  ("TypeMeta", (TFlat "TypeMeta"));
  ("ListMeta", (TExt "ListMeta"));
  ("Items", (TSlice go_ReverseProxyClusterParameters))].
Definition go_ReverseProxyServiceSpec : gtype := TStruct [
  ("Backends", (TSlice go_ReverseProxyBackend));
  ("Mode", TBase);
  ("ListenPort", (TPtr TBase));
  ("ProxyProtocol", (TPtr TBase));
  ("ProxyCluster", TBase);
  ("Domain", TBase);
  ("Private", (TPtr TBase));
  ("AccessGroups", (TSlice go_GroupReference));
  ("CrowdsecMode", (TPtr TBase));
  ("AccessRestrictions", (TPtr go_AccessRestrictions));
  ("PassHostHeader", (TPtr TBase));
  ("RewriteRedirects", (TPtr TBase))].
Definition go_ReverseProxyServiceStatus : gtype := TStruct [
  ("ObservedGeneration", TBase);
  ("Conditions", (TSlice (TExt "Condition")));
  ("ServiceID", TBase);
  ("ServiceDomain", TBase)].
Definition go_ReverseProxyService : gtype := TStruct [
  ("TypeMeta", (TFlat "TypeMeta"));
  ("ObjectMeta", (TExt "ObjectMeta"));
  ("Spec", go_ReverseProxyServiceSpec);
  ("Status", go_ReverseProxyServiceStatus)].
Definition go_ReverseProxyServiceList : gtype := TStruct [
  ("TypeMeta", (TFlat "TypeMeta"));
  ("ListMeta", (TExt "ListMeta"));
  ("Items", (TSlice go_ReverseProxyService))].
Definition go_SetupKeySpec : gtype := TStruct [
  ("Name", TBase);
  ("Ephemeral", TBase);
  ("AllowExtraDnsLabels", TBase);
  ("Duration", (TPtr (TFlat "Duration")));
  ("AutoGroups", (TSlice go_GroupReference))].
Definition go_SetupKeyStatus : gtype := TStruct [
  ("ObservedGeneration", TBase);
  ("Conditions", (TSlice (TExt "Condition")));
  ("SetupKeyID", TBase)].
Definition go_SetupKey : gtype := TStruct [
  ("TypeMeta", (TFlat "TypeMeta"));
  ("ObjectMeta", (TExt "ObjectMeta"));
  ("Spec", go_SetupKeySpec);
  ("Status", go_SetupKeyStatus)].
Definition go_SetupKeyList : gtype := TStruct [
  ("TypeMeta", (TFlat "TypeMeta"));
  ("ListMeta", (TExt "ListMeta"));
  ("Items", (TSlice go_SetupKey))].
Definition go_SidecarProfileSpec : gtype := TStruct [
  ("SetupKeyRef", (TFlat "LocalObjectReference"));
  ("PodSelector", (TPtr (TExt "LabelSelector")));
  ("InjectionMode", TBase);
  ("ExtraDNSLabels", (TSlice TBase));
  ("ContainerOverride", (TPtr go_ContainerOverride))].
Definition go_SidecarProfileStatus : gtype := TStruct [
  ("ObservedGeneration", TBase);
  ("Conditions", (TSlice (TExt "Condition")))].
Definition go_SidecarProfile : gtype := TStruct [
  ("TypeMeta", (TFlat "TypeMeta"));
  ("ObjectMeta", (TExt "ObjectMeta"));
  ("Spec", go_SidecarProfileSpec);
  ("Status", go_SidecarProfileStatus)].
Definition go_SidecarProfileList : gtype := TStruct [
  ("TypeMeta", (TFlat "TypeMeta"));
  ("ListMeta", (TExt "ListMeta"));
  ("Items", (TSlice go_SidecarProfile))].

(** ** The functions *)

Section functions.
Context `{Library}.

Definition AccessRestrictions_DeepCopyInto : gval -> go gval := struct_copy [
  ("AllowedCidrs", copy_slice);
  ("BlockedCidrs", copy_slice);
  ("AllowedCountries", copy_slice);
  ("BlockedCountries", copy_slice)].
Definition AccessRestrictions_DeepCopy : gval -> go gval := DeepCopy AccessRestrictions_DeepCopyInto.

Definition GroupReference_DeepCopyInto : gval -> go gval := struct_copy [
  ("Name", copy_pointer);
  ("ID", copy_pointer);
  ("LocalRef", copy_pointer)].
Definition GroupReference_DeepCopy : gval -> go gval := DeepCopy GroupReference_DeepCopyInto.

Definition ClusterProxySpec_DeepCopyInto : gval -> go gval := struct_copy [
  ("Groups", deep_slice GroupReference_DeepCopyInto);
  ("Replicas", copy_pointer)].
Definition ClusterProxySpec_DeepCopy : gval -> go gval := DeepCopy ClusterProxySpec_DeepCopyInto.

Definition ClusterProxyStatus_DeepCopyInto : gval -> go gval := struct_copy [
  ("Conditions", deep_slice (ext_DeepCopyInto "Condition"))].
Definition ClusterProxyStatus_DeepCopy : gval -> go gval := DeepCopy ClusterProxyStatus_DeepCopyInto.

Definition ClusterProxy_DeepCopyInto : gval -> go gval := struct_copy [
  ("TypeMeta", assign);
  ("ObjectMeta", ext_DeepCopyInto "ObjectMeta");
  ("Spec", ClusterProxySpec_DeepCopyInto);
  ("Status", ClusterProxyStatus_DeepCopyInto)].
Definition ClusterProxy_DeepCopy : gval -> go gval := DeepCopy ClusterProxy_DeepCopyInto.
Definition ClusterProxy_DeepCopyObject : gval -> go (option (string * gval)) :=
  DeepCopyObject "ClusterProxy" ClusterProxy_DeepCopyInto.

Definition ClusterProxyList_DeepCopyInto : gval -> go gval := struct_copy [
  ("TypeMeta", assign);
  ("ListMeta", ext_DeepCopyInto "ListMeta");
  ("Items", deep_slice ClusterProxy_DeepCopyInto)].
Definition ClusterProxyList_DeepCopy : gval -> go gval := DeepCopy ClusterProxyList_DeepCopyInto.
Definition ClusterProxyList_DeepCopyObject : gval -> go (option (string * gval)) :=
  DeepCopyObject "ClusterProxyList" ClusterProxyList_DeepCopyInto.

Definition ContainerOverride_DeepCopyInto : gval -> go gval := struct_copy [
  ("Env", deep_slice (ext_DeepCopyInto "EnvVar"));
  ("SecurityContext", deep_pointer (ext_DeepCopyInto "SecurityContext"));
  ("StartupProbe", deep_pointer (ext_DeepCopyInto "Probe"));
  ("LivenessProbe", deep_pointer (ext_DeepCopyInto "Probe"));
  ("ReadinessProbe", deep_pointer (ext_DeepCopyInto "Probe"))].
Definition ContainerOverride_DeepCopy : gval -> go gval := DeepCopy ContainerOverride_DeepCopyInto.

Definition CrossNamespaceReference_DeepCopyInto : gval -> go gval := struct_copy [].
Definition CrossNamespaceReference_DeepCopy : gval -> go gval := DeepCopy CrossNamespaceReference_DeepCopyInto.

Definition DNSRecordSpec_DeepCopyInto : gval -> go gval := struct_copy [
  ("ZoneRef", assign)].
Definition DNSRecordSpec_DeepCopy : gval -> go gval := DeepCopy DNSRecordSpec_DeepCopyInto.

Definition DNSRecordStatus_DeepCopyInto : gval -> go gval := struct_copy [
  ("Conditions", deep_slice (ext_DeepCopyInto "Condition"))].
Definition DNSRecordStatus_DeepCopy : gval -> go gval := DeepCopy DNSRecordStatus_DeepCopyInto.

Definition DNSRecord_DeepCopyInto : gval -> go gval := struct_copy [
  ("TypeMeta", assign);
  ("ObjectMeta", ext_DeepCopyInto "ObjectMeta");
  ("Spec", assign);
  ("Status", DNSRecordStatus_DeepCopyInto)].
Definition DNSRecord_DeepCopy : gval -> go gval := DeepCopy DNSRecord_DeepCopyInto.
Definition DNSRecord_DeepCopyObject : gval -> go (option (string * gval)) :=
  DeepCopyObject "DNSRecord" DNSRecord_DeepCopyInto.

Definition DNSRecordList_DeepCopyInto : gval -> go gval := struct_copy [
  ("TypeMeta", assign);
  ("ListMeta", ext_DeepCopyInto "ListMeta");
  ("Items", deep_slice DNSRecord_DeepCopyInto)].
Definition DNSRecordList_DeepCopy : gval -> go gval := DeepCopy DNSRecordList_DeepCopyInto.
Definition DNSRecordList_DeepCopyObject : gval -> go (option (string * gval)) :=
  DeepCopyObject "DNSRecordList" DNSRecordList_DeepCopyInto.

Definition DNSZoneSpec_DeepCopyInto : gval -> go gval := struct_copy [
  ("DistributionGroups", deep_slice GroupReference_DeepCopyInto);
  ("EnableSearchDomain", copy_pointer)].
Definition DNSZoneSpec_DeepCopy : gval -> go gval := DeepCopy DNSZoneSpec_DeepCopyInto.

Definition DNSZoneStatus_DeepCopyInto : gval -> go gval := struct_copy [
  ("Conditions", deep_slice (ext_DeepCopyInto "Condition"))].
Definition DNSZoneStatus_DeepCopy : gval -> go gval := DeepCopy DNSZoneStatus_DeepCopyInto.

Definition DNSZone_DeepCopyInto : gval -> go gval := struct_copy [
  ("TypeMeta", assign);
  ("ObjectMeta", ext_DeepCopyInto "ObjectMeta");
  ("Spec", DNSZoneSpec_DeepCopyInto);
  ("Status", DNSZoneStatus_DeepCopyInto)].
Definition DNSZone_DeepCopy : gval -> go gval := DeepCopy DNSZone_DeepCopyInto.
Definition DNSZone_DeepCopyObject : gval -> go (option (string * gval)) :=
  DeepCopyObject "DNSZone" DNSZone_DeepCopyInto.

Definition DNSZoneList_DeepCopyInto : gval -> go gval := struct_copy [
  ("TypeMeta", assign);
  ("ListMeta", ext_DeepCopyInto "ListMeta");
  ("Items", deep_slice DNSZone_DeepCopyInto)].
Definition DNSZoneList_DeepCopy : gval -> go gval := DeepCopy DNSZoneList_DeepCopyInto.
Definition DNSZoneList_DeepCopyObject : gval -> go (option (string * gval)) :=
  DeepCopyObject "DNSZoneList" DNSZoneList_DeepCopyInto.

Definition GroupSpec_DeepCopyInto : gval -> go gval := struct_copy [].
Definition GroupSpec_DeepCopy : gval -> go gval := DeepCopy GroupSpec_DeepCopyInto.

Definition GroupStatus_DeepCopyInto : gval -> go gval := struct_copy [
  ("Conditions", deep_slice (ext_DeepCopyInto "Condition"))].
Definition GroupStatus_DeepCopy : gval -> go gval := DeepCopy GroupStatus_DeepCopyInto.

Definition Group_DeepCopyInto : gval -> go gval := struct_copy [
  ("TypeMeta", assign);
  ("ObjectMeta", ext_DeepCopyInto "ObjectMeta");
  ("Spec", assign);
  ("Status", GroupStatus_DeepCopyInto)].
Definition Group_DeepCopy : gval -> go gval := DeepCopy Group_DeepCopyInto.
Definition Group_DeepCopyObject : gval -> go (option (string * gval)) :=
  DeepCopyObject "Group" Group_DeepCopyInto.

Definition GroupList_DeepCopyInto : gval -> go gval := struct_copy [
  ("TypeMeta", assign);
  ("ListMeta", ext_DeepCopyInto "ListMeta");
  ("Items", deep_slice Group_DeepCopyInto)].
Definition GroupList_DeepCopy : gval -> go gval := DeepCopy GroupList_DeepCopyInto.
Definition GroupList_DeepCopyObject : gval -> go (option (string * gval)) :=
  DeepCopyObject "GroupList" GroupList_DeepCopyInto.

Definition NetworkSpec_DeepCopyInto : gval -> go gval := struct_copy [].
Definition NetworkSpec_DeepCopy : gval -> go gval := DeepCopy NetworkSpec_DeepCopyInto.

Definition NetworkStatus_DeepCopyInto : gval -> go gval := struct_copy [
  ("Conditions", deep_slice (ext_DeepCopyInto "Condition"))].
Definition NetworkStatus_DeepCopy : gval -> go gval := DeepCopy NetworkStatus_DeepCopyInto.

Definition Network_DeepCopyInto : gval -> go gval := struct_copy [
  ("TypeMeta", assign);
  ("ObjectMeta", ext_DeepCopyInto "ObjectMeta");
  ("Spec", assign);
  ("Status", NetworkStatus_DeepCopyInto)].
Definition Network_DeepCopy : gval -> go gval := DeepCopy Network_DeepCopyInto.
Definition Network_DeepCopyObject : gval -> go (option (string * gval)) :=
  DeepCopyObject "Network" Network_DeepCopyInto.

Definition NetworkList_DeepCopyInto : gval -> go gval := struct_copy [
  ("TypeMeta", assign);
  ("ListMeta", ext_DeepCopyInto "ListMeta");
  ("Items", deep_slice Network_DeepCopyInto)].
Definition NetworkList_DeepCopy : gval -> go gval := DeepCopy NetworkList_DeepCopyInto.
Definition NetworkList_DeepCopyObject : gval -> go (option (string * gval)) :=
  DeepCopyObject "NetworkList" NetworkList_DeepCopyInto.

Definition NetworkResourceSpec_DeepCopyInto : gval -> go gval := struct_copy [
  ("NetworkRef", assign);
  ("Groups", deep_slice GroupReference_DeepCopyInto)].
Definition NetworkResourceSpec_DeepCopy : gval -> go gval := DeepCopy NetworkResourceSpec_DeepCopyInto.

Definition NetworkResourceStatus_DeepCopyInto : gval -> go gval := struct_copy [
  ("Conditions", deep_slice (ext_DeepCopyInto "Condition"))].
Definition NetworkResourceStatus_DeepCopy : gval -> go gval := DeepCopy NetworkResourceStatus_DeepCopyInto.

Definition NetworkResource_DeepCopyInto : gval -> go gval := struct_copy [
  ("TypeMeta", assign);
  ("ObjectMeta", ext_DeepCopyInto "ObjectMeta");
  ("Spec", NetworkResourceSpec_DeepCopyInto);
  ("Status", NetworkResourceStatus_DeepCopyInto)].
Definition NetworkResource_DeepCopy : gval -> go gval := DeepCopy NetworkResource_DeepCopyInto.
Definition NetworkResource_DeepCopyObject : gval -> go (option (string * gval)) :=
  DeepCopyObject "NetworkResource" NetworkResource_DeepCopyInto.

Definition NetworkResourceList_DeepCopyInto : gval -> go gval := struct_copy [
  ("TypeMeta", assign);
  ("ListMeta", ext_DeepCopyInto "ListMeta");
  ("Items", deep_slice NetworkResource_DeepCopyInto)].
Definition NetworkResourceList_DeepCopy : gval -> go gval := DeepCopy NetworkResourceList_DeepCopyInto.
Definition NetworkResourceList_DeepCopyObject : gval -> go (option (string * gval)) :=
  DeepCopyObject "NetworkResourceList" NetworkResourceList_DeepCopyInto.

Definition RouterDeploy_DeepCopyInto : gval -> go gval := struct_copy [
  ("NodeSelector", copy_map)].
Definition RouterDeploy_DeepCopy : gval -> go gval := DeepCopy RouterDeploy_DeepCopyInto.

Definition NetworkRouterPeers_DeepCopyInto : gval -> go gval := struct_copy [
  ("Group", deep_pointer GroupReference_DeepCopyInto);
  ("Deploy", deep_pointer RouterDeploy_DeepCopyInto)].
Definition NetworkRouterPeers_DeepCopy : gval -> go gval := DeepCopy NetworkRouterPeers_DeepCopyInto.

Definition NetworkRouterSpec_DeepCopyInto : gval -> go gval := struct_copy [
  ("NetworkRef", assign);
  ("Peers", NetworkRouterPeers_DeepCopyInto)].
Definition NetworkRouterSpec_DeepCopy : gval -> go gval := DeepCopy NetworkRouterSpec_DeepCopyInto.

Definition NetworkRouterStatus_DeepCopyInto : gval -> go gval := struct_copy [
  ("Conditions", deep_slice (ext_DeepCopyInto "Condition"))].
Definition NetworkRouterStatus_DeepCopy : gval -> go gval := DeepCopy NetworkRouterStatus_DeepCopyInto.

Definition NetworkRouter_DeepCopyInto : gval -> go gval := struct_copy [
  ("TypeMeta", assign);
  ("ObjectMeta", ext_DeepCopyInto "ObjectMeta");
  ("Spec", NetworkRouterSpec_DeepCopyInto);
  ("Status", NetworkRouterStatus_DeepCopyInto)].
Definition NetworkRouter_DeepCopy : gval -> go gval := DeepCopy NetworkRouter_DeepCopyInto.
Definition NetworkRouter_DeepCopyObject : gval -> go (option (string * gval)) :=
  DeepCopyObject "NetworkRouter" NetworkRouter_DeepCopyInto.

Definition NetworkRouterList_DeepCopyInto : gval -> go gval := struct_copy [
  ("TypeMeta", assign);
  ("ListMeta", ext_DeepCopyInto "ListMeta");
  ("Items", deep_slice NetworkRouter_DeepCopyInto)].
Definition NetworkRouterList_DeepCopy : gval -> go gval := DeepCopy NetworkRouterList_DeepCopyInto.
Definition NetworkRouterList_DeepCopyObject : gval -> go (option (string * gval)) :=
  DeepCopyObject "NetworkRouterList" NetworkRouterList_DeepCopyInto.

Definition ReverseProxyBackend_DeepCopyInto : gval -> go gval := struct_copy [
  ("ServiceRef", assign)].
Definition ReverseProxyBackend_DeepCopy : gval -> go gval := DeepCopy ReverseProxyBackend_DeepCopyInto.

Definition ReverseProxyClusterSpec_DeepCopyInto : gval -> go gval := struct_copy [
  ("ZoneRef", copy_pointer);
  ("Groups", deep_slice GroupReference_DeepCopyInto);
  ("Replicas", copy_pointer);
  ("ServiceAnnotations", copy_map)].
Definition ReverseProxyClusterSpec_DeepCopy : gval -> go gval := DeepCopy ReverseProxyClusterSpec_DeepCopyInto.

Definition ReverseProxyClusterStatus_DeepCopyInto : gval -> go gval := struct_copy [
  ("Conditions", deep_slice (ext_DeepCopyInto "Condition"))].
Definition ReverseProxyClusterStatus_DeepCopy : gval -> go gval := DeepCopy ReverseProxyClusterStatus_DeepCopyInto.

Definition ReverseProxyCluster_DeepCopyInto : gval -> go gval := struct_copy [
  ("TypeMeta", assign);
  ("ObjectMeta", ext_DeepCopyInto "ObjectMeta");
  ("Spec", ReverseProxyClusterSpec_DeepCopyInto);
  ("Status", ReverseProxyClusterStatus_DeepCopyInto)].
Definition ReverseProxyCluster_DeepCopy : gval -> go gval := DeepCopy ReverseProxyCluster_DeepCopyInto.
Definition ReverseProxyCluster_DeepCopyObject : gval -> go (option (string * gval)) :=
  DeepCopyObject "ReverseProxyCluster" ReverseProxyCluster_DeepCopyInto.

Definition ReverseProxyClusterList_DeepCopyInto : gval -> go gval := struct_copy [
  ("TypeMeta", assign);
  ("ListMeta", ext_DeepCopyInto "ListMeta");
  ("Items", deep_slice ReverseProxyCluster_DeepCopyInto)].
Definition ReverseProxyClusterList_DeepCopy : gval -> go gval := DeepCopy ReverseProxyClusterList_DeepCopyInto.
Definition ReverseProxyClusterList_DeepCopyObject : gval -> go (option (string * gval)) :=
  DeepCopyObject "ReverseProxyClusterList" ReverseProxyClusterList_DeepCopyInto.

Definition ReverseProxyClusterParametersSpec_DeepCopyInto : gval -> go gval := struct_copy [
  ("Replicas", copy_pointer);
  ("Groups", deep_slice GroupReference_DeepCopyInto);
  ("ServiceAnnotations", copy_map)].
Definition ReverseProxyClusterParametersSpec_DeepCopy : gval -> go gval := DeepCopy ReverseProxyClusterParametersSpec_DeepCopyInto.

Definition ReverseProxyClusterParameters_DeepCopyInto : gval -> go gval := struct_copy [
  ("TypeMeta", assign);
  ("ObjectMeta", ext_DeepCopyInto "ObjectMeta");
  ("Spec", ReverseProxyClusterParametersSpec_DeepCopyInto)].
Definition ReverseProxyClusterParameters_DeepCopy : gval -> go gval := DeepCopy ReverseProxyClusterParameters_DeepCopyInto.
Definition ReverseProxyClusterParameters_DeepCopyObject : gval -> go (option (string * gval)) :=
  DeepCopyObject "ReverseProxyClusterParameters" ReverseProxyClusterParameters_DeepCopyInto.

Definition ReverseProxyClusterParametersList_DeepCopyInto : gval -> go gval := struct_copy [
  ("TypeMeta", assign);
  ("ListMeta", ext_DeepCopyInto "ListMeta");
  ("Items", deep_slice ReverseProxyClusterParameters_DeepCopyInto)].
Definition ReverseProxyClusterParametersList_DeepCopy : gval -> go gval := DeepCopy ReverseProxyClusterParametersList_DeepCopyInto.
Definition ReverseProxyClusterParametersList_DeepCopyObject : gval -> go (option (string * gval)) :=
  DeepCopyObject "ReverseProxyClusterParametersList" ReverseProxyClusterParametersList_DeepCopyInto.

Definition ReverseProxyServiceSpec_DeepCopyInto : gval -> go gval := struct_copy [
  ("Backends", copy_slice);
  ("ListenPort", copy_pointer);
  ("ProxyProtocol", copy_pointer);
  ("Private", copy_pointer);
  ("AccessGroups", deep_slice GroupReference_DeepCopyInto);
  ("CrowdsecMode", copy_pointer);
  ("AccessRestrictions", deep_pointer AccessRestrictions_DeepCopyInto);
  ("PassHostHeader", copy_pointer);
  ("RewriteRedirects", copy_pointer)].
Definition ReverseProxyServiceSpec_DeepCopy : gval -> go gval := DeepCopy ReverseProxyServiceSpec_DeepCopyInto.

Definition ReverseProxyServiceStatus_DeepCopyInto : gval -> go gval := struct_copy [
  ("Conditions", deep_slice (ext_DeepCopyInto "Condition"))].
Definition ReverseProxyServiceStatus_DeepCopy : gval -> go gval := DeepCopy ReverseProxyServiceStatus_DeepCopyInto.

Definition ReverseProxyService_DeepCopyInto : gval -> go gval := struct_copy [
  ("TypeMeta", assign);
  ("ObjectMeta", ext_DeepCopyInto "ObjectMeta");
  ("Spec", ReverseProxyServiceSpec_DeepCopyInto);
  ("Status", ReverseProxyServiceStatus_DeepCopyInto)].
Definition ReverseProxyService_DeepCopy : gval -> go gval := DeepCopy ReverseProxyService_DeepCopyInto.
Definition ReverseProxyService_DeepCopyObject : gval -> go (option (string * gval)) :=
  DeepCopyObject "ReverseProxyService" ReverseProxyService_DeepCopyInto.

Definition ReverseProxyServiceList_DeepCopyInto : gval -> go gval := struct_copy [
  ("TypeMeta", assign);
  ("ListMeta", ext_DeepCopyInto "ListMeta");
  ("Items", deep_slice ReverseProxyService_DeepCopyInto)].
Definition ReverseProxyServiceList_DeepCopy : gval -> go gval := DeepCopy ReverseProxyServiceList_DeepCopyInto.
Definition ReverseProxyServiceList_DeepCopyObject : gval -> go (option (string * gval)) :=
  DeepCopyObject "ReverseProxyServiceList" ReverseProxyServiceList_DeepCopyInto.

Definition SetupKeySpec_DeepCopyInto : gval -> go gval := struct_copy [
  ("Duration", copy_pointer);
  ("AutoGroups", deep_slice GroupReference_DeepCopyInto)].
Definition SetupKeySpec_DeepCopy : gval -> go gval := DeepCopy SetupKeySpec_DeepCopyInto.

Definition SetupKeyStatus_DeepCopyInto : gval -> go gval := struct_copy [
  ("Conditions", deep_slice (ext_DeepCopyInto "Condition"))].
Definition SetupKeyStatus_DeepCopy : gval -> go gval := DeepCopy SetupKeyStatus_DeepCopyInto.

Definition SetupKey_DeepCopyInto : gval -> go gval := struct_copy [
  ("TypeMeta", assign);
  ("ObjectMeta", ext_DeepCopyInto "ObjectMeta");
  ("Spec", SetupKeySpec_DeepCopyInto);
  ("Status", SetupKeyStatus_DeepCopyInto)].
Definition SetupKey_DeepCopy : gval -> go gval := DeepCopy SetupKey_DeepCopyInto.
Definition SetupKey_DeepCopyObject : gval -> go (option (string * gval)) :=
  DeepCopyObject "SetupKey" SetupKey_DeepCopyInto.

Definition SetupKeyList_DeepCopyInto : gval -> go gval := struct_copy [
  ("TypeMeta", assign);
  ("ListMeta", ext_DeepCopyInto "ListMeta");
  ("Items", deep_slice SetupKey_DeepCopyInto)].
Definition SetupKeyList_DeepCopy : gval -> go gval := DeepCopy SetupKeyList_DeepCopyInto.
Definition SetupKeyList_DeepCopyObject : gval -> go (option (string * gval)) :=
  DeepCopyObject "SetupKeyList" SetupKeyList_DeepCopyInto.

Definition SidecarProfileSpec_DeepCopyInto : gval -> go gval := struct_copy [
  ("SetupKeyRef", assign);
  ("PodSelector", deep_pointer (ext_DeepCopyInto "LabelSelector"));
  ("ExtraDNSLabels", copy_slice);
  ("ContainerOverride", deep_pointer ContainerOverride_DeepCopyInto)].
Definition SidecarProfileSpec_DeepCopy : gval -> go gval := DeepCopy SidecarProfileSpec_DeepCopyInto.

Definition SidecarProfileStatus_DeepCopyInto : gval -> go gval := struct_copy [
  ("Conditions", deep_slice (ext_DeepCopyInto "Condition"))].
Definition SidecarProfileStatus_DeepCopy : gval -> go gval := DeepCopy SidecarProfileStatus_DeepCopyInto.

Definition SidecarProfile_DeepCopyInto : gval -> go gval := struct_copy [
  ("TypeMeta", assign);
  ("ObjectMeta", ext_DeepCopyInto "ObjectMeta");
  ("Spec", SidecarProfileSpec_DeepCopyInto);
  ("Status", SidecarProfileStatus_DeepCopyInto)].
Definition SidecarProfile_DeepCopy : gval -> go gval := DeepCopy SidecarProfile_DeepCopyInto.
Definition SidecarProfile_DeepCopyObject : gval -> go (option (string * gval)) :=
  DeepCopyObject "SidecarProfile" SidecarProfile_DeepCopyInto.

Definition SidecarProfileList_DeepCopyInto : gval -> go gval := struct_copy [
  ("TypeMeta", assign);
  ("ListMeta", ext_DeepCopyInto "ListMeta");
  ("Items", deep_slice SidecarProfile_DeepCopyInto)].
Definition SidecarProfileList_DeepCopy : gval -> go gval := DeepCopy SidecarProfileList_DeepCopyInto.
Definition SidecarProfileList_DeepCopyObject : gval -> go (option (string * gval)) :=
  DeepCopyObject "SidecarProfileList" SidecarProfileList_DeepCopyInto.

(** Every type with its functions. *)
Definition api_copies : list (gtype * (gval -> go gval) * (gval -> go gval)) := [
  (go_AccessRestrictions, AccessRestrictions_DeepCopyInto, AccessRestrictions_DeepCopy);
  (go_GroupReference, GroupReference_DeepCopyInto, GroupReference_DeepCopy);
  (go_ClusterProxySpec, ClusterProxySpec_DeepCopyInto, ClusterProxySpec_DeepCopy);
  (go_ClusterProxyStatus, ClusterProxyStatus_DeepCopyInto, ClusterProxyStatus_DeepCopy);
  (go_ClusterProxy, ClusterProxy_DeepCopyInto, ClusterProxy_DeepCopy);
  (go_ClusterProxyList, ClusterProxyList_DeepCopyInto, ClusterProxyList_DeepCopy);
  (go_ContainerOverride, ContainerOverride_DeepCopyInto, ContainerOverride_DeepCopy);
  (go_CrossNamespaceReference, CrossNamespaceReference_DeepCopyInto, CrossNamespaceReference_DeepCopy);
  (go_DNSRecordSpec, DNSRecordSpec_DeepCopyInto, DNSRecordSpec_DeepCopy);
  (go_DNSRecordStatus, DNSRecordStatus_DeepCopyInto, DNSRecordStatus_DeepCopy);
  (go_DNSRecord, DNSRecord_DeepCopyInto, DNSRecord_DeepCopy);
  (go_DNSRecordList, DNSRecordList_DeepCopyInto, DNSRecordList_DeepCopy);
  (go_DNSZoneSpec, DNSZoneSpec_DeepCopyInto, DNSZoneSpec_DeepCopy);
  (go_DNSZoneStatus, DNSZoneStatus_DeepCopyInto, DNSZoneStatus_DeepCopy);
  (go_DNSZone, DNSZone_DeepCopyInto, DNSZone_DeepCopy);
  (go_DNSZoneList, DNSZoneList_DeepCopyInto, DNSZoneList_DeepCopy);
  (go_GroupSpec, GroupSpec_DeepCopyInto, GroupSpec_DeepCopy);
  (go_GroupStatus, GroupStatus_DeepCopyInto, GroupStatus_DeepCopy);
  (go_Group, Group_DeepCopyInto, Group_DeepCopy);
  (go_GroupList, GroupList_DeepCopyInto, GroupList_DeepCopy);
  (go_NetworkSpec, NetworkSpec_DeepCopyInto, NetworkSpec_DeepCopy);
  (go_NetworkStatus, NetworkStatus_DeepCopyInto, NetworkStatus_DeepCopy);
  (go_Network, Network_DeepCopyInto, Network_DeepCopy);
  (go_NetworkList, NetworkList_DeepCopyInto, NetworkList_DeepCopy);
  (go_NetworkResourceSpec, NetworkResourceSpec_DeepCopyInto, NetworkResourceSpec_DeepCopy);
  (go_NetworkResourceStatus, NetworkResourceStatus_DeepCopyInto, NetworkResourceStatus_DeepCopy);
  (go_NetworkResource, NetworkResource_DeepCopyInto, NetworkResource_DeepCopy);
  (go_NetworkResourceList, NetworkResourceList_DeepCopyInto, NetworkResourceList_DeepCopy);
  (go_RouterDeploy, RouterDeploy_DeepCopyInto, RouterDeploy_DeepCopy);
  (go_NetworkRouterPeers, NetworkRouterPeers_DeepCopyInto, NetworkRouterPeers_DeepCopy);
  (go_NetworkRouterSpec, NetworkRouterSpec_DeepCopyInto, NetworkRouterSpec_DeepCopy);
  (go_NetworkRouterStatus, NetworkRouterStatus_DeepCopyInto, NetworkRouterStatus_DeepCopy);
  (go_NetworkRouter, NetworkRouter_DeepCopyInto, NetworkRouter_DeepCopy);
  (go_NetworkRouterList, NetworkRouterList_DeepCopyInto, NetworkRouterList_DeepCopy);
  (go_ReverseProxyBackend, ReverseProxyBackend_DeepCopyInto, ReverseProxyBackend_DeepCopy);
  (go_ReverseProxyClusterSpec, ReverseProxyClusterSpec_DeepCopyInto, ReverseProxyClusterSpec_DeepCopy);
  (go_ReverseProxyClusterStatus, ReverseProxyClusterStatus_DeepCopyInto, ReverseProxyClusterStatus_DeepCopy);
  (go_ReverseProxyCluster, ReverseProxyCluster_DeepCopyInto, ReverseProxyCluster_DeepCopy);
  (go_ReverseProxyClusterList, ReverseProxyClusterList_DeepCopyInto, ReverseProxyClusterList_DeepCopy);
  (go_ReverseProxyClusterParametersSpec, ReverseProxyClusterParametersSpec_DeepCopyInto, ReverseProxyClusterParametersSpec_DeepCopy);
  (go_ReverseProxyClusterParameters, ReverseProxyClusterParameters_DeepCopyInto, ReverseProxyClusterParameters_DeepCopy);
  (go_ReverseProxyClusterParametersList, ReverseProxyClusterParametersList_DeepCopyInto, ReverseProxyClusterParametersList_DeepCopy);
  (go_ReverseProxyServiceSpec, ReverseProxyServiceSpec_DeepCopyInto, ReverseProxyServiceSpec_DeepCopy);
  (go_ReverseProxyServiceStatus, ReverseProxyServiceStatus_DeepCopyInto, ReverseProxyServiceStatus_DeepCopy);
  (go_ReverseProxyService, ReverseProxyService_DeepCopyInto, ReverseProxyService_DeepCopy);
  (go_ReverseProxyServiceList, ReverseProxyServiceList_DeepCopyInto, ReverseProxyServiceList_DeepCopy);
  (go_SetupKeySpec, SetupKeySpec_DeepCopyInto, SetupKeySpec_DeepCopy);
  (go_SetupKeyStatus, SetupKeyStatus_DeepCopyInto, SetupKeyStatus_DeepCopy);
  (go_SetupKey, SetupKey_DeepCopyInto, SetupKey_DeepCopy);
  (go_SetupKeyList, SetupKeyList_DeepCopyInto, SetupKeyList_DeepCopy);
  (go_SidecarProfileSpec, SidecarProfileSpec_DeepCopyInto, SidecarProfileSpec_DeepCopy);
  (go_SidecarProfileStatus, SidecarProfileStatus_DeepCopyInto, SidecarProfileStatus_DeepCopy);
  (go_SidecarProfile, SidecarProfile_DeepCopyInto, SidecarProfile_DeepCopy);
  (go_SidecarProfileList, SidecarProfileList_DeepCopyInto, SidecarProfileList_DeepCopy)].
Definition api_objects : list (string * gtype * (gval -> go (option (string * gval)))) := [
  ("ClusterProxy", go_ClusterProxy, ClusterProxy_DeepCopyObject);
  ("ClusterProxyList", go_ClusterProxyList, ClusterProxyList_DeepCopyObject);
  ("DNSRecord", go_DNSRecord, DNSRecord_DeepCopyObject);
  ("DNSRecordList", go_DNSRecordList, DNSRecordList_DeepCopyObject);
  ("DNSZone", go_DNSZone, DNSZone_DeepCopyObject);
  ("DNSZoneList", go_DNSZoneList, DNSZoneList_DeepCopyObject);
  ("Group", go_Group, Group_DeepCopyObject);
  ("GroupList", go_GroupList, GroupList_DeepCopyObject);
  ("Network", go_Network, Network_DeepCopyObject);
  ("NetworkList", go_NetworkList, NetworkList_DeepCopyObject);
  ("NetworkResource", go_NetworkResource, NetworkResource_DeepCopyObject);
  ("NetworkResourceList", go_NetworkResourceList, NetworkResourceList_DeepCopyObject);
  ("NetworkRouter", go_NetworkRouter, NetworkRouter_DeepCopyObject);
  ("NetworkRouterList", go_NetworkRouterList, NetworkRouterList_DeepCopyObject);
  ("ReverseProxyCluster", go_ReverseProxyCluster, ReverseProxyCluster_DeepCopyObject);
  ("ReverseProxyClusterList", go_ReverseProxyClusterList, ReverseProxyClusterList_DeepCopyObject);
  ("ReverseProxyClusterParameters", go_ReverseProxyClusterParameters, ReverseProxyClusterParameters_DeepCopyObject);
  ("ReverseProxyClusterParametersList", go_ReverseProxyClusterParametersList, ReverseProxyClusterParametersList_DeepCopyObject);
  ("ReverseProxyService", go_ReverseProxyService, ReverseProxyService_DeepCopyObject);
  ("ReverseProxyServiceList", go_ReverseProxyServiceList, ReverseProxyServiceList_DeepCopyObject);
  ("SetupKey", go_SetupKey, SetupKey_DeepCopyObject);
  ("SetupKeyList", go_SetupKeyList, SetupKeyList_DeepCopyObject);
  ("SidecarProfile", go_SidecarProfile, SidecarProfile_DeepCopyObject);
  ("SidecarProfileList", go_SidecarProfileList, SidecarProfileList_DeepCopyObject)].
End functions.

(** ** Each is a deep copy *)

Section copies.
Context `{LibraryLaws}.

Class Copied (ty : gtype) (f : gval -> go gval) : Prop := copied_ok : copies ty f.

#[local] Instance assign_copied ty : flat ty = true -> Copied ty assign := assign_copies ty.
#[local] Instance copy_pointer_copied ty : flat ty = true -> Copied (TPtr ty) copy_pointer := copy_pointer_copies ty.
#[local] Instance copy_slice_copied ty : flat ty = true -> Copied (TSlice ty) copy_slice := copy_slice_copies ty.
#[local] Instance copy_map_copied ty : flat ty = true -> Copied (TMap ty) copy_map := copy_map_copies ty.
#[local] Instance deep_pointer_copied ty f : Copied ty f -> Copied (TPtr ty) (deep_pointer f) := deep_pointer_copies ty f.
#[local] Instance deep_slice_copied ty f : Copied ty f -> Copied (TSlice ty) (deep_slice f) := deep_slice_copies ty f.
#[local] Instance ext_copied n : Copied (TExt n) (ext_DeepCopyInto n) := ext_copies n.
#[local] Hint Extern 0 (flat _ = true) => reflexivity : typeclass_instances.

#[local] Hint Opaque
    go_AccessRestrictions AccessRestrictions_DeepCopyInto
    go_GroupReference GroupReference_DeepCopyInto
    go_ClusterProxySpec ClusterProxySpec_DeepCopyInto
    go_ClusterProxyStatus ClusterProxyStatus_DeepCopyInto
    go_ClusterProxy ClusterProxy_DeepCopyInto
    go_ClusterProxyList ClusterProxyList_DeepCopyInto
    go_ContainerOverride ContainerOverride_DeepCopyInto
    go_CrossNamespaceReference CrossNamespaceReference_DeepCopyInto
    go_DNSRecordSpec DNSRecordSpec_DeepCopyInto
    go_DNSRecordStatus DNSRecordStatus_DeepCopyInto
    go_DNSRecord DNSRecord_DeepCopyInto
    go_DNSRecordList DNSRecordList_DeepCopyInto
    go_DNSZoneSpec DNSZoneSpec_DeepCopyInto
    go_DNSZoneStatus DNSZoneStatus_DeepCopyInto
    go_DNSZone DNSZone_DeepCopyInto
    go_DNSZoneList DNSZoneList_DeepCopyInto
    go_GroupSpec GroupSpec_DeepCopyInto
    go_GroupStatus GroupStatus_DeepCopyInto
    go_Group Group_DeepCopyInto
    go_GroupList GroupList_DeepCopyInto
    go_NetworkSpec NetworkSpec_DeepCopyInto
    go_NetworkStatus NetworkStatus_DeepCopyInto
    go_Network Network_DeepCopyInto
    go_NetworkList NetworkList_DeepCopyInto
    go_NetworkResourceSpec NetworkResourceSpec_DeepCopyInto
    go_NetworkResourceStatus NetworkResourceStatus_DeepCopyInto
    go_NetworkResource NetworkResource_DeepCopyInto
    go_NetworkResourceList NetworkResourceList_DeepCopyInto
    go_RouterDeploy RouterDeploy_DeepCopyInto
    go_NetworkRouterPeers NetworkRouterPeers_DeepCopyInto
    go_NetworkRouterSpec NetworkRouterSpec_DeepCopyInto
    go_NetworkRouterStatus NetworkRouterStatus_DeepCopyInto
    go_NetworkRouter NetworkRouter_DeepCopyInto
    go_NetworkRouterList NetworkRouterList_DeepCopyInto
    go_ReverseProxyBackend ReverseProxyBackend_DeepCopyInto
    go_ReverseProxyClusterSpec ReverseProxyClusterSpec_DeepCopyInto
    go_ReverseProxyClusterStatus ReverseProxyClusterStatus_DeepCopyInto
    go_ReverseProxyCluster ReverseProxyCluster_DeepCopyInto
    go_ReverseProxyClusterList ReverseProxyClusterList_DeepCopyInto
    go_ReverseProxyClusterParametersSpec ReverseProxyClusterParametersSpec_DeepCopyInto
    go_ReverseProxyClusterParameters ReverseProxyClusterParameters_DeepCopyInto
    go_ReverseProxyClusterParametersList ReverseProxyClusterParametersList_DeepCopyInto
    go_ReverseProxyServiceSpec ReverseProxyServiceSpec_DeepCopyInto
    go_ReverseProxyServiceStatus ReverseProxyServiceStatus_DeepCopyInto
    go_ReverseProxyService ReverseProxyService_DeepCopyInto
    go_ReverseProxyServiceList ReverseProxyServiceList_DeepCopyInto
    go_SetupKeySpec SetupKeySpec_DeepCopyInto
    go_SetupKeyStatus SetupKeyStatus_DeepCopyInto
    go_SetupKey SetupKey_DeepCopyInto
    go_SetupKeyList SetupKeyList_DeepCopyInto
    go_SidecarProfileSpec SidecarProfileSpec_DeepCopyInto
    go_SidecarProfileStatus SidecarProfileStatus_DeepCopyInto
    go_SidecarProfile SidecarProfile_DeepCopyInto
    go_SidecarProfileList SidecarProfileList_DeepCopyInto : typeclass_instances.

Ltac struct_copied :=
  apply struct_copies; [reflexivity|reflexivity|repeat (apply Forall_cons_2; [first [reflexivity | apply copied_ok]|])];
  apply Forall_nil; exact I.

#[local] Instance AccessRestrictions_copied : Copied go_AccessRestrictions AccessRestrictions_DeepCopyInto.
Proof. struct_copied. Qed.
#[local] Instance GroupReference_copied : Copied go_GroupReference GroupReference_DeepCopyInto.
Proof. struct_copied. Qed.
#[local] Instance ClusterProxySpec_copied : Copied go_ClusterProxySpec ClusterProxySpec_DeepCopyInto.
Proof. struct_copied. Qed.
#[local] Instance ClusterProxyStatus_copied : Copied go_ClusterProxyStatus ClusterProxyStatus_DeepCopyInto.
Proof. struct_copied. Qed.
#[local] Instance ClusterProxy_copied : Copied go_ClusterProxy ClusterProxy_DeepCopyInto.
Proof. struct_copied. Qed.
#[local] Instance ClusterProxyList_copied : Copied go_ClusterProxyList ClusterProxyList_DeepCopyInto.
Proof. struct_copied. Qed.
#[local] Instance ContainerOverride_copied : Copied go_ContainerOverride ContainerOverride_DeepCopyInto.
Proof. struct_copied. Qed.
#[local] Instance CrossNamespaceReference_copied : Copied go_CrossNamespaceReference CrossNamespaceReference_DeepCopyInto.
Proof. struct_copied. Qed.
#[local] Instance DNSRecordSpec_copied : Copied go_DNSRecordSpec DNSRecordSpec_DeepCopyInto.
Proof. struct_copied. Qed.
#[local] Instance DNSRecordStatus_copied : Copied go_DNSRecordStatus DNSRecordStatus_DeepCopyInto.
Proof. struct_copied. Qed.
#[local] Instance DNSRecord_copied : Copied go_DNSRecord DNSRecord_DeepCopyInto.
Proof. struct_copied. Qed.
#[local] Instance DNSRecordList_copied : Copied go_DNSRecordList DNSRecordList_DeepCopyInto.
Proof. struct_copied. Qed.
#[local] Instance DNSZoneSpec_copied : Copied go_DNSZoneSpec DNSZoneSpec_DeepCopyInto.
Proof. struct_copied. Qed.
#[local] Instance DNSZoneStatus_copied : Copied go_DNSZoneStatus DNSZoneStatus_DeepCopyInto.
Proof. struct_copied. Qed.
#[local] Instance DNSZone_copied : Copied go_DNSZone DNSZone_DeepCopyInto.
Proof. struct_copied. Qed.
#[local] Instance DNSZoneList_copied : Copied go_DNSZoneList DNSZoneList_DeepCopyInto.
Proof. struct_copied. Qed.
#[local] Instance GroupSpec_copied : Copied go_GroupSpec GroupSpec_DeepCopyInto.
Proof. struct_copied. Qed.
#[local] Instance GroupStatus_copied : Copied go_GroupStatus GroupStatus_DeepCopyInto.
Proof. struct_copied. Qed.
#[local] Instance Group_copied : Copied go_Group Group_DeepCopyInto.
Proof. struct_copied. Qed.
#[local] Instance GroupList_copied : Copied go_GroupList GroupList_DeepCopyInto.
Proof. struct_copied. Qed.
#[local] Instance NetworkSpec_copied : Copied go_NetworkSpec NetworkSpec_DeepCopyInto.
Proof. struct_copied. Qed.
#[local] Instance NetworkStatus_copied : Copied go_NetworkStatus NetworkStatus_DeepCopyInto.
Proof. struct_copied. Qed.
#[local] Instance Network_copied : Copied go_Network Network_DeepCopyInto.
Proof. struct_copied. Qed.
#[local] Instance NetworkList_copied : Copied go_NetworkList NetworkList_DeepCopyInto.
Proof. struct_copied. Qed.
#[local] Instance NetworkResourceSpec_copied : Copied go_NetworkResourceSpec NetworkResourceSpec_DeepCopyInto.
Proof. struct_copied. Qed.
#[local] Instance NetworkResourceStatus_copied : Copied go_NetworkResourceStatus NetworkResourceStatus_DeepCopyInto.
Proof. struct_copied. Qed.
#[local] Instance NetworkResource_copied : Copied go_NetworkResource NetworkResource_DeepCopyInto.
Proof. struct_copied. Qed.
#[local] Instance NetworkResourceList_copied : Copied go_NetworkResourceList NetworkResourceList_DeepCopyInto.
Proof. struct_copied. Qed.
#[local] Instance RouterDeploy_copied : Copied go_RouterDeploy RouterDeploy_DeepCopyInto.
Proof. struct_copied. Qed.
#[local] Instance NetworkRouterPeers_copied : Copied go_NetworkRouterPeers NetworkRouterPeers_DeepCopyInto.
Proof. struct_copied. Qed.
#[local] Instance NetworkRouterSpec_copied : Copied go_NetworkRouterSpec NetworkRouterSpec_DeepCopyInto.
Proof. struct_copied. Qed.
#[local] Instance NetworkRouterStatus_copied : Copied go_NetworkRouterStatus NetworkRouterStatus_DeepCopyInto.
Proof. struct_copied. Qed.
#[local] Instance NetworkRouter_copied : Copied go_NetworkRouter NetworkRouter_DeepCopyInto.
Proof. struct_copied. Qed.
#[local] Instance NetworkRouterList_copied : Copied go_NetworkRouterList NetworkRouterList_DeepCopyInto.
Proof. struct_copied. Qed.
#[local] Instance ReverseProxyBackend_copied : Copied go_ReverseProxyBackend ReverseProxyBackend_DeepCopyInto.
Proof. struct_copied. Qed.
#[local] Instance ReverseProxyClusterSpec_copied : Copied go_ReverseProxyClusterSpec ReverseProxyClusterSpec_DeepCopyInto.
Proof. struct_copied. Qed.
#[local] Instance ReverseProxyClusterStatus_copied : Copied go_ReverseProxyClusterStatus ReverseProxyClusterStatus_DeepCopyInto.
Proof. struct_copied. Qed.
#[local] Instance ReverseProxyCluster_copied : Copied go_ReverseProxyCluster ReverseProxyCluster_DeepCopyInto.
Proof. struct_copied. Qed.
#[local] Instance ReverseProxyClusterList_copied : Copied go_ReverseProxyClusterList ReverseProxyClusterList_DeepCopyInto.
Proof. struct_copied. Qed.
#[local] Instance ReverseProxyClusterParametersSpec_copied : Copied go_ReverseProxyClusterParametersSpec ReverseProxyClusterParametersSpec_DeepCopyInto.
Proof. struct_copied. Qed.
#[local] Instance ReverseProxyClusterParameters_copied : Copied go_ReverseProxyClusterParameters ReverseProxyClusterParameters_DeepCopyInto.
Proof. struct_copied. Qed.
#[local] Instance ReverseProxyClusterParametersList_copied : Copied go_ReverseProxyClusterParametersList ReverseProxyClusterParametersList_DeepCopyInto.
Proof. struct_copied. Qed.
#[local] Instance ReverseProxyServiceSpec_copied : Copied go_ReverseProxyServiceSpec ReverseProxyServiceSpec_DeepCopyInto.
Proof. struct_copied. Qed.
#[local] Instance ReverseProxyServiceStatus_copied : Copied go_ReverseProxyServiceStatus ReverseProxyServiceStatus_DeepCopyInto.
Proof. struct_copied. Qed.
#[local] Instance ReverseProxyService_copied : Copied go_ReverseProxyService ReverseProxyService_DeepCopyInto.
Proof. struct_copied. Qed.
#[local] Instance ReverseProxyServiceList_copied : Copied go_ReverseProxyServiceList ReverseProxyServiceList_DeepCopyInto.
Proof. struct_copied. Qed.
#[local] Instance SetupKeySpec_copied : Copied go_SetupKeySpec SetupKeySpec_DeepCopyInto.
Proof. struct_copied. Qed.
#[local] Instance SetupKeyStatus_copied : Copied go_SetupKeyStatus SetupKeyStatus_DeepCopyInto.
Proof. struct_copied. Qed.
#[local] Instance SetupKey_copied : Copied go_SetupKey SetupKey_DeepCopyInto.
Proof. struct_copied. Qed.
#[local] Instance SetupKeyList_copied : Copied go_SetupKeyList SetupKeyList_DeepCopyInto.
Proof. struct_copied. Qed.
#[local] Instance SidecarProfileSpec_copied : Copied go_SidecarProfileSpec SidecarProfileSpec_DeepCopyInto.
Proof. struct_copied. Qed.
#[local] Instance SidecarProfileStatus_copied : Copied go_SidecarProfileStatus SidecarProfileStatus_DeepCopyInto.
Proof. struct_copied. Qed.
#[local] Instance SidecarProfile_copied : Copied go_SidecarProfile SidecarProfile_DeepCopyInto.
Proof. struct_copied. Qed.
#[local] Instance SidecarProfileList_copied : Copied go_SidecarProfileList SidecarProfileList_DeepCopyInto.
Proof. struct_copied. Qed.

(** [f] makes a value of its own: what is done to the memory that was there
    does not change the copy, and what is done to any other memory - all that
    can be reached from the copy - does not change the original. *)
Definition independent (ty : gtype) (f : gval -> go gval) : Prop :=
  forall P h v t, denotes P h ty v t -> exists v' h',
    f v h = Some (v', h') /\ denotes (fun l => l ∉ dom h) h' ty v' t /\
    (forall h2, (forall l, l ∈ dom h -> h2 !! l = h' !! l) -> denotes P h2 ty v t) /\
    (forall h2, (forall l, l ∉ dom h -> h2 !! l = h' !! l) -> denotes (fun l => l ∉ dom h) h2 ty v' t).

Lemma copies_independent ty f : copies ty f -> independent ty f.
Proof.
  intros Hf P h v t Hd. destruct (Hf P h v t Hd) as (v' & h' & Hrun & Hs & Hd').
  exists v', h'. split; [done|]. split; [done|]. split.
  - intros h2 Hh. refine (denotes_local _ _ _ _ _ _ _ (fun l Hl => Hl) _ Hd). intros l c _ Hl.
    rewrite Hh by (by eapply elem_of_dom_2). by eapply lookup_weaken.
  - intros h2 Hh. refine (denotes_local _ _ _ _ _ _ _ (fun l Hl => Hl) _ Hd'). intros l c Hl Hc. by rewrite (Hh l Hl).
Qed.

(** [DeepCopyObject]: no object for [nil], and else a copy with its type. *)
Definition copies_object (name : string) (ty : gtype) (f : gval -> go (option (string * gval))) : Prop :=
  (forall h, f (GPtr None) h = Some (None, h)) /\
  forall P h l t, denotes P h (TPtr ty) (GPtr (Some l)) t -> exists l' h',
    f (GPtr (Some l)) h = Some (Some (name, GPtr (Some l')), h') /\ h ⊆ h' /\
    denotes (fun l => l ∉ dom h) h' (TPtr ty) (GPtr (Some l')) t.

Lemma DeepCopyObject_copies name ty into : copies ty into -> copies_object name ty (DeepCopyObject name into).
Proof.
  intros Hf. split; [done|]. intros P h l t Hd.
  destruct (deep_pointer_copies ty into Hf P h _ t Hd) as (v' & h' & Hrun & Hs & Hd').
  destruct Hd as [[[=] _]|(? & ? & t' & _ & -> & _)]. destruct Hd' as [[_ [=]]|(l' & w & t2 & -> & -> & Hd')].
  exists l', h'. split; [unfold DeepCopyObject, DeepCopy; by rewrite (go_bind_eq _ _ _ _ _ Hrun)|].
  split; [done|]. right. by exists l', w, t2.
Qed.

Lemma copied_both ty into : Copied ty into -> independent ty into /\ independent (TPtr ty) (DeepCopy into).
Proof. intros Hf. split; apply copies_independent; [done|]. by apply deep_pointer_copies. Qed.

(** C39: every [DeepCopyInto], [DeepCopy] and [DeepCopyObject] of the API types
    is a deep copy: it yields the value it is given, in memory of its own, so
    that writing to the copy does not change the original, nor writing to the
    original the copy; [nil] is copied to [nil]. *)
Theorem API_DeepCopy :
  Forall (fun '(ty, into, copy) => independent ty into /\ independent (TPtr ty) copy) api_copies /\
  Forall (fun '(name, ty, object) => copies_object name ty object) api_objects.
Proof.
  split; unfold api_copies, api_objects; (repeat (apply Forall_cons_2; [
    match goal with
    | |- independent ?ty ?into /\ _ => exact (copied_both ty into _)
    | |- copies_object ?name ?ty ?object => let f := eval red in object in
        match f with DeepCopyObject _ ?into => exact (DeepCopyObject_copies name ty into copied_ok) end
    end|])); apply Forall_nil; exact I.
Qed.
End copies.

(** ** A run

    A library whose values are strings, some of them behind a pointer. *)
Module DeepCopyRun.
Import Statements.

#[export] Instance strings : Library := {
  ext_denotes _ P h v t := exists l s, v = GPtr (Some l) /\ P l /\ h !! l = Some (CValue (GBase (BString s))) /\ t = LExt s;
  flat_denotes _ v t := exists s, v = GBase (BString s) /\ t = LExt s;
  ext_DeepCopyInto _ := copy_pointer
}.

#[export] Instance strings_laws : LibraryLaws.
Proof.
  constructor.
  - intros n P Q h h' v t HPQ Hk (l & s & -> & Hl & Hh & ->). exists l, s. split; [done|].
    split; [by apply HPQ|]. split; [by apply Hk|done].
  - intros n P h v t (l & s & -> & Hl & Hh & ->).
    pose proof (filled_alloc h (CValue GZero)) as Hfill.
    pose proof (filled_store _ _ _ _ (CValue (GBase (BString s))) Hfill) as Hfill'.
    eexists _, _. split; [|split; [apply Hfill'|exists (fresh (dom h)), s; repeat split; apply Hfill']].
    cbn [ext_DeepCopyInto strings copy_pointer]. rewrite (go_bind_eq _ _ _ _ _ (new_eq _ h)).
    rewrite (go_bind_eq _ _ _ _ _ (load_value_eq l _ _ (lookup_weaken _ _ _ _ Hh (filled_old _ _ _ _ Hfill)))).
    by rewrite (go_bind_eq _ _ _ _ _ (store_eq _ _ _ _ (filled_cell _ _ _ _ Hfill))).
Qed.

(** A group reference by name, at address 2, whose name is at address 1. *)
Definition reference : memory :=
  {[ 1%positive := CValue (GBase (BString "all"));
     2%positive := CValue (GStruct {["Name" := GPtr (Some 1%positive); "ID" := GPtr None; "LocalRef" := GPtr None]}) ]}.
Definition reference_tree : tree :=
  LStruct [("Name", LRef (LBase (BString "all"))); ("ID", LNil); ("LocalRef", LNil)].

Lemma reference_denotes :
  denotes (fun l => l = 1%positive \/ l = 2%positive) reference (TPtr go_GroupReference) (GPtr (Some 2%positive))
    (LRef reference_tree).
Proof.
  right. eexists _, _, _. split; [done|]. split; [done|]. split; [by right|]. split; [reflexivity|].
  eexists _, _. split; [done|]. split; [reflexivity|]. split; [done|]. split.
  { eexists. split; [reflexivity|]. right. eexists _, _, _. repeat (split; [by eauto|]). by eexists. }
  split; [done|]. split; [eexists; split; [reflexivity|by left]|].
  split; [done|]. split; [eexists; split; [reflexivity|by left]|done].
Qed.

(** Its copy is at address 3, and the name of the copy at address 4. *)
Lemma reference_copied :
  (v ← GroupReference_DeepCopy (GPtr (Some 2%positive)); mret v) reference =
  Some (GPtr (Some 3%positive),
    <[3%positive := CValue (GStruct {["Name" := GPtr (Some 4%positive); "ID" := GPtr None; "LocalRef" := GPtr None]})]>
    (<[4%positive := CValue (GBase (BString "all"))]> reference)).
Proof. vm_compute. reflexivity. Qed.

Lemma API_DeepCopy_witness :
  exists v' h', GroupReference_DeepCopy (GPtr (Some 2%positive)) reference = Some (v', h') /\
    denotes (fun l => l ∉ dom reference) h' (TPtr go_GroupReference) v' (LRef reference_tree).
Proof.
  pose proof (proj1 API_DeepCopy) as Hall. rewrite Forall_forall in Hall.
  destruct (Hall (go_GroupReference, GroupReference_DeepCopyInto, GroupReference_DeepCopy)) as [_ Hcopy].
  { unfold api_copies. repeat (first [by left | right]). }
  destruct (Hcopy _ _ _ _ reference_denotes) as (v' & h' & Hrun & Hd & _). by exists v', h'.
Defined.
End DeepCopyRun.
