(* ===== verification/Converge.v ===== *)
(** * Reconciles against the NetBird mock

    The mirror reconcilers, and the one of groups, run against the in-memory
    API of [Mock.v] and a Kubernetes API server that stores the resource: from
    any state of the two one reconcile reaches the declared state, and further
    ones keep it.
    [Converging] states what the upsert of a kind does against the mock; the
    kinds discharge it, the theorem about the reconciler uses only it. *)

From stdpp Require Import base gmap list strings pretty.
From Stdlib Require Import ZArith Lia.
From S2P Require Import Prelude Sort GoStrings GoErr Prog GroupCtl ApiTypes K8sTypes ApplyConf Env NetbirdUtil Reconcile Mirror NetworkMirror ServiceAddr DNSMirror Rps Ownership Identity Mock.

Open Scope Z_scope.
Open Scope prog_scope.

Lemma exec_call {W A} (h : forall c, W -> resp c * W) c (kont : resp c -> M A) w r w' :
  h c w = (r, w') -> exec h (Call c kont) w = exec h (kont r) w'.
Proof. cbn. by intros ->. Qed.

(** ** The two servers *)
Section converge.
Context (iterate : forall T, gmap string T -> list T).
Context (rand_Int64 : nat -> Z).

(** The Kubernetes API server, and whatever else answers calls: any state and
    answers such that the resource the reconcile is about is served and
    stored. *)
Context {W : Type} (kube : forall c, W -> resp c * W).

Definition answer (c : call) (w : W * server) : resp c * (W * server) :=
  match serve iterate rand_Int64 c w.2 with
  | Some (r, s) => (r, (w.1, s))
  | None => let '(r, k) := kube c w.1 in (r, (k, w.2))
  end.

Lemma answer_kube c w : serve iterate rand_Int64 c w.2 = None ->
  answer c w = ((kube c w.1).1, ((kube c w.1).2, w.2)).
Proof. intros Hc. unfold answer. rewrite Hc. by destruct (kube c w.1). Qed.

Lemma answer_serve c w r s : serve iterate rand_Int64 c w.2 = Some (r, s) -> answer c w = (r, (w.1, s)).
Proof. intros Hc. unfold answer. by rewrite Hc. Qed.

(** *** What single requests do *)
Section requests.
Context `{ErrorClassLaws}.
Implicit Types (c : coll) (w : W * server) (s : server).

(** The recorded id, if its object is there. *)
Definition found c s (id : string) : string :=
  match store_of c s !! id with Some _ => id | None => ""%string end.

Lemma answer_get_item c id w : c <> CClusters -> answer (NBGet c id) w = (get_item (store_of c w.2) id, w).
Proof. by destruct c, w. Qed.

Lemma answer_list c w : c <> CClusters -> answer (NBList c) w = (Ok (iterate _ (store_of c w.2)), w).
Proof. by destruct c, w. Qed.

Lemma answer_create c rq w : c <> CClusters ->
  answer (NBCreate c rq) w =
    (let '(r, s) := Post rand_Int64 c w.2 (create_body c rq) in (r, (w.1, s))).
Proof. by destruct c. Qed.

Lemma answer_update c id rq w : c <> CClusters ->
  answer (NBUpdate c id rq) w =
    (let '(r, s) := Put rand_Int64 c w.2 id (update_body c rq) in (r, (w.1, s))).
Proof. by destruct c. Qed.

Lemma Put_found c s id rq old : store_of c s !! id = Some old ->
  Put rand_Int64 c s id rq =
    (let '(x, n) := convert_of rand_Int64 c id rq old (drawn s) in
     (Ok x, with_store c s (<[id := x]> (store_of c s)) n)).
Proof. intros Hold. unfold Put, put_item. rewrite Hold. by destruct (convert_of _ _ _ _ _ _). Qed.

Lemma Put_missing c s id rq : c <> CClusters -> store_of c s !! id = None ->
  Put rand_Int64 c s id rq = (not_found, s).
Proof. intros Hc Hold. unfold Put, put_item. rewrite Hold. by rewrite with_store_same. Qed.

Lemma not_found_api {T} : @not_found T = Err (ErrAPI 404 "Not Found").
Proof. done. Qed.

Lemma mock_not_found : netbird_IsNotFound (ErrAPI 404 "Not Found") = true.
Proof. by rewrite (netbird_not_found_api _ 404). Qed.

Lemma verify_exec c id w : c <> CClusters ->
  exec answer (verifyNetbirdID id (get_err c)) w = (Ok (found c w.2 id), w).
Proof.
  intros Hc. unfold verifyNetbirdID, found. destruct (String.eqb_spec id "") as [->|Hid].
  - cbn. by destruct (_ !! _).
  - unfold get_err. cbn [bind ask perform]. rewrite (exec_call _ _ _ _ _ _ (answer_get_item c id w Hc)).
    unfold get_item. destruct (store_of c w.2 !! id) as [x|]; cbn; [done|]. by rewrite mock_not_found.
Qed.

Lemma found_cases c s id :
  (found c s id = "" /\ ~ (id <> "" /\ is_Some (store_of c s !! id)))%string \/
  (exists old, found c s id = id /\ id <> ""%string /\ store_of c s !! id = Some old).
Proof.
  unfold found. destruct (decide (id = ""%string)) as [->|Hid].
  - left. split; [by destruct (_ !! _)|]. by intros [].
  - destruct (_ !! _) as [old|]; [right; by exists old|]. left. split; [done|]. by intros [_ []].
Qed.

(** A request, and the program that continues on its answer. *)
Lemma exec_create {A} c rq (f : _ -> M A) w x n : c <> CClusters ->
  convert_of rand_Int64 c (mock_id rand_Int64 (drawn w.2)) (create_body c rq) (zero_of c) (S (drawn w.2)) = (x, n) ->
  exec answer (bind (ask (NBCreate c rq)) f) w =
    exec answer (f (Ok x))
      (w.1, with_store c w.2 (<[mock_id rand_Int64 (drawn w.2) := x]> (store_of c w.2)) n).
Proof.
  intros Hc Hx. unfold ask, perform. cbn [bind]. erewrite exec_call; [reflexivity|].
  rewrite answer_create by done. unfold Post, post_item. fold (mock_id rand_Int64 (drawn w.2)). by rewrite Hx.
Qed.

Lemma exec_update {A} c id rq (f : _ -> M A) w old x n : c <> CClusters ->
  store_of c w.2 !! id = Some old ->
  convert_of rand_Int64 c id (update_body c rq) old (drawn w.2) = (x, n) ->
  exec answer (bind (ask (NBUpdate c id rq)) f) w =
    exec answer (f (Ok x)) (w.1, with_store c w.2 (<[id := x]> (store_of c w.2)) n).
Proof.
  intros Hc Hold Hx. unfold ask, perform. cbn [bind]. erewrite exec_call; [reflexivity|].
  rewrite answer_update by done. rewrite (Put_found _ _ _ _ _ Hold). by rewrite Hx.
Qed.

Lemma exec_update_missing {A} c id rq (f : _ -> M A) w : c <> CClusters ->
  store_of c w.2 !! id = None ->
  exec answer (bind (ask (NBUpdate c id rq)) f) w = exec answer (f (Err (ErrAPI 404 "Not Found"))) w.
Proof.
  intros Hc Hold. unfold ask, perform. cbn [bind]. erewrite exec_call; [reflexivity|].
  rewrite answer_update by done. rewrite Put_missing by done. by destruct w.
Qed.

Lemma mock_id_set i : mock_id rand_Int64 i <> ""%string.
Proof. done. Qed.

(** Storing one item. *)
Lemma stored_item c s id x n : c <> CClusters ->
  let s' := with_store c s (<[id := x]> (store_of c s)) n in
  store_of c s' !! id = Some x /\ others_kept c s s' /\
  forall i, i <> id -> store_of c s' !! i = store_of c s !! i.
Proof.
  intros Hc. cbn zeta. rewrite store_with_store by done. split; [by rewrite lookup_insert_eq|].
  split; [apply others_with_store|]. intros i Hi. by rewrite lookup_insert_ne by congruence.
Qed.

(** Storing the item that is there. *)
Lemma stored_same c s id x : c <> CClusters -> store_of c s !! id = Some x ->
  with_store c s (<[id := x]> (store_of c s)) (drawn s) = s.
Proof. intros Hc Hx. rewrite insert_id by done. by apply with_store_same. Qed.
End requests.

(** *** Reads that neither a patch of [k] nor requests to [c] disturb *)
Definition elsewhere (k : kind) (c : coll) (q : call) : Prop :=
  match q with
  | KGet k' _ _ | KList k' _ _ => k' <> k
  | NBGet c' _ | NBList c' => handler_of c' <> handler_of c /\ c' <> CClusters
  | NBGroupByName _ => True
  | _ => False
  end.

Definition disturbing (k : kind) (q : call) : Prop :=
  match q with KPatch k' _ _ => k' = k | Now | CacheRead _ | CacheWrite _ _ => True | _ => False end.

(** Reads do not change the cluster; a patch, the clock and the caches do not
    change what is read of other objects. *)
Record undisturbed (k : kind) (c : coll) : Prop := {
  read_pure : forall q w, elsewhere k c q -> (kube q w).2 = w;
  read_same : forall q q' w, elsewhere k c q -> disturbing k q' -> (kube q (kube q' w).2).1 = (kube q w).1
}.

Section reads.
Context {k : kind} {c : coll} (Hkube : undisturbed k c).

Lemma elsewhere_cases q w : elsewhere k c q ->
  (forall s, serve iterate rand_Int64 q s = None) /\ answer q w = ((kube q w.1).1, w) \/
  (exists c' (f : gmap string (item c') -> resp q), handler_of c' <> handler_of c /\
     forall w, answer q w = (f (store_of c' w.2), w)).
Proof.
  intros Hq. pose proof (read_pure _ _ Hkube q w.1 Hq) as Hp.
  destruct q as [| | | | | |c' id|c'| | | | | | | | |]; try done; cbn in Hq.
  1,2,5: left; split; [done|]; rewrite answer_kube by done; rewrite Hp; by destruct w.
  all: destruct Hq as [Hc Hcl]; right; exists c'.
  - exists (fun st => get_item st id). split; [done|]. intros w'. by apply answer_get_item.
  - exists (fun st => Ok (iterate _ st)). split; [done|]. intros w'. by apply answer_list.
Qed.

Lemma elsewhere_pure q w : elsewhere k c q -> (answer q w).2 = w.
Proof. intros [[_ ->]|(c' & f & _ & Hf)]%(elsewhere_cases q w); [done|]. by rewrite Hf. Qed.

Lemma exec_reads {A} (p : M A) w : calls_in (elsewhere k c) p -> exec answer p w = ((exec answer p w).1, w).
Proof.
  induction p as [a|q kont IH]; cbn; [done|]. intros [Hq Hk]. pose proof (elsewhere_pure q w Hq) as Hw.
  destruct (answer q w) as [r w']. cbn in Hw. subst w'. by apply IH.
Qed.

(** The answers to such reads are the same in two states. *)
Definition same_reads w w' : Prop := forall q, elsewhere k c q -> (answer q w').1 = (answer q w).1.

Lemma exec_same_reads {A} (p : M A) w w' :
  calls_in (elsewhere k c) p -> same_reads w w' -> (exec answer p w').1 = (exec answer p w).1.
Proof.
  intros Hp Hs. induction p as [a|q kont IH]; cbn; [done|]. destruct Hp as [Hq Hk].
  pose proof (Hs q Hq) as Hr. pose proof (elsewhere_pure q w Hq) as Hw. pose proof (elsewhere_pure q w' Hq) as Hw'.
  destruct (answer q w), (answer q w'). cbn in *. subst. by apply IH.
Qed.

Lemma same_reads_disturbed q' w : disturbing k q' -> same_reads w (answer q' w).2.
Proof.
  intros Hd q Hq. pose proof (read_same _ _ Hkube q q' w.1 Hq Hd) as Hr.
  rewrite (answer_kube q') by (by destruct q'). cbn [snd].
  destruct (elsewhere_cases q w Hq) as [[Hnone ->]|(c' & f & _ & Hf)].
  - by rewrite answer_kube.
  - by rewrite !Hf.
Qed.

Lemma same_reads_stored w s : others_kept c w.2 s -> same_reads w (w.1, s).
Proof.
  intros [_ Hs] q Hq. destruct (elsewhere_cases q w Hq) as [[Hnone Hw]|(c' & f & Hc & Hf)].
  - by rewrite !answer_kube.
  - rewrite !Hf. cbn. by rewrite Hs.
Qed.

Lemma reads_keep {A} (p : M A) w w' a :
  calls_in (elsewhere k c) p -> same_reads w w' -> (exec answer p w).1 = a -> (exec answer p w').1 = a.
Proof. intros Hp Hs <-. by apply exec_same_reads. Qed.

Lemma exec_read {A} (p : M A) w a :
  calls_in (elsewhere k c) p -> (exec answer p w).1 = a -> exec answer p w = (a, w).
Proof. intros Hp <-. by apply exec_reads. Qed.

Lemma same_reads_trans w1 w2 w3 : same_reads w1 w2 -> same_reads w2 w3 -> same_reads w1 w3.
Proof. intros H12 H23 q Hq. by rewrite H23, H12. Qed.
End reads.

(** Where the lookups of references read. *)
Lemma GetGroupIDs_elsewhere k c refs ns : k <> KGroup -> handler_of c <> CGroups ->
  calls_in (elsewhere k c) (GetGroupIDs refs ns).
Proof.
  intros Hk Hc. induction refs as [|ref refs IH]; [done|]. cbn [GetGroupIDs].
  apply calls_in_bind; [|intros [ids|e]; [|done]; apply calls_in_bind; [done|by intros []]].
  unfold group_ids_of. destruct (gr_Name ref), (gr_ID ref), (gr_LocalRef ref); cbn;
    (split; [naive_solver|]) || done; intros [g|e]; cbn; by try case_match.
Qed.

Lemma resolveNetworkID_elsewhere `{ErrorClass} k c ref : k <> KNetwork ->
  calls_in (elsewhere k c) (resolveNetworkID ref).
Proof. intros Hk. split; [naive_solver|done]. Qed.

Lemma resolveZoneID_elsewhere `{ErrorClass} k c ref : k <> KDNSZone ->
  calls_in (elsewhere k c) (resolveZoneID ref).
Proof. intros Hk. split; [naive_solver|done]. Qed.

Section kind.
Context {k : kind} `{MirrorObject k} `{!Specified k}.
(** The resource in the API server. *)
Context (cr : W -> obj k) (ns name : string).

(** What a kind mirrors: the part of a resource its mirror is determined by
    (at least the spec and the recorded id), the collection of the mirror, the
    recorded id, and the item that is declared. *)
Record target := mkTarget {
  same_core : obj k -> obj k -> Prop;
  t_coll : coll;
  t_id : obj k -> string;
  t_declared : obj k -> item t_coll -> Prop
}.

(** A patch stores the resource it is given as far as the operator reads it
    back, and leaves its deletion alone. *)
Record stores_cr (T : target) : Prop := {
  kube_get : forall w, kube (KGet k ns name) w = (Ok (cr w), w);
  kube_patch : forall w o b, (kube (KPatch k o b) w).1 = None /\
    let o' := cr (kube (KPatch k o b) w).2 in
    same_core T o o' /\ deleting (GetMeta o') = deleting (GetMeta o) /\ (is_ready o -> is_ready o')
}.

(** The declared object exists, under the recorded id. *)
Definition settled (T : target) (o : obj k) (s : server) : Prop :=
  t_id T o <> ""%string /\ exists x, store_of (t_coll T) s !! t_id T o = Some x /\ t_declared T o x.

Class Core (T : target) := {
  core_equiv :: Equivalence (same_core T);
  core_spec : forall o o', same_core T o o' -> same_spec o o';
  core_finalizers : forall o l, same_core T o (SetMeta o (with_finalizers (GetMeta o) l));
  core_conditions : forall o c, same_core T o (SetConditions o c);
  core_id :: Proper (same_core T ==> eq) (t_id T);
  core_declared :: Proper (same_core T ==> eq ==> iff) (t_declared T)
}.

#[export] Instance settled_core `{Core T} : Proper (same_core T ==> eq ==> iff) (settled T).
Proof. intros o o' Ho s ? <-. unfold settled. rewrite Ho. by setoid_rewrite Ho. Qed.

(** What the upsert does where the references of the resource resolve
    ([good]), which patches of the resource do not change. *)
Class Converging (m : mirror k) (T : target) (good : obj k -> W * server -> Prop) := {
  good_core :: Proper (same_core T ==> eq ==> iff) good;
  good_patch : forall o o' b w, good o w -> good o (answer (KPatch k o' b) w).2;
  apply_converges : forall o w, good o w -> exists o' w',
    exec answer (m_apply m o) w = ((o', None), w') /\
    same_spec o o' /\ GetMeta o' = GetMeta o /\ good o' w' /\ settled T o' w'.2 /\
    others_kept (t_coll T) w.2 w'.2 /\
    (forall id, id <> t_id T o' -> store_of (t_coll T) w'.2 !! id = store_of (t_coll T) w.2 !! id) /\
    (settled T o w.2 -> same_core T o o' /\ w'.2 = w.2)
}.

(** An upsert that stores one item under the id it records. *)
Lemma upserted (T : target) (good : obj k -> W * server -> Prop) (o o' : obj k) (w : W * server) w1 id x n :
  let s' := with_store (t_coll T) w.2 (<[id := x]> (store_of (t_coll T) w.2)) n in
  t_coll T <> CClusters -> same_spec o o' -> GetMeta o' = GetMeta o -> good o' (w1, s') ->
  t_id T o' = id -> id <> ""%string -> t_declared T o' x ->
  (settled T o w.2 -> same_core T o o' /\ s' = w.2) ->
  same_spec o o' /\ GetMeta o' = GetMeta o /\ good o' (w1, s') /\ settled T o' s' /\
  others_kept (t_coll T) w.2 s' /\
  (forall i, i <> t_id T o' -> store_of (t_coll T) s' !! i = store_of (t_coll T) w.2 !! i) /\
  (settled T o w.2 -> same_core T o o' /\ s' = w.2).
Proof.
  intros s' Hc Hs Hm Hg <- Hne Hx Hset. destruct (stored_item (t_coll T) w.2 (t_id T o') x n Hc) as (Hin & Ho & Hi).
  do 3 (split; [done|]). split; [|by repeat (split; [done|])]. split; [done|]. exists x. by split.
Qed.

(** A reconciler that treats a live resource as a mirror with the upsert of [m]
    does, as long as the upsert succeeds. *)
Definition acts_as `{K8sLib} `{ErrorClass} (R : M outcome) (m : mirror k) : Prop := forall w o w1 w2 o2 w3,
  let o1 := add_finalizer o (Finalizer (m_finalizer m)) in
  answer (KGet k ns name) w = (Ok o, w1) -> deleting (GetMeta o) = false ->
  answer (KPatch k o1 false) w1 = (None, w2) -> exec answer (m_apply m o1) w2 = ((o2, None), w3) ->
  exec answer R w = exec answer (Reconcile m false ns name) w.

Lemma mirror_acts `{K8sLib} `{ErrorClass} (m : mirror k) : acts_as (Reconcile m false ns name) m.
Proof. done. Qed.

Definition once (R : M outcome) (w : W * server) : W * server := (exec answer R w).2.

Section reconcile.
Context `{!MirrorObjectLaws k} `{K8sLibLaws} `{ErrorClassLaws}.
Context (R : M outcome) (m : mirror k) (T : target) (good : obj k -> W * server -> Prop).
Context `{!Core T} `{!Converging m T good} (Hacts : acts_as R m).

Lemma answer_get w : stores_cr T -> answer (KGet k ns name) w = (Ok (cr w.1), w).
Proof. intros [Hget _]. unfold answer. cbn. rewrite Hget. by destruct w. Qed.

Lemma answer_patch w (o : obj k) b : stores_cr T ->
  exists w', answer (KPatch k o b) w = (None, (w', w.2)) /\ same_core T o (cr w') /\
    deleting (GetMeta (cr w')) = deleting (GetMeta o) /\ (is_ready o -> is_ready (cr w')).
Proof.
  intros [_ Hpatch]. destruct (Hpatch w.1 o b) as [Hok Hcr]. exists (kube (KPatch k o b) w.1).2.
  split; [|exact Hcr]. unfold answer. cbn. destruct (kube _ _) as [r w']. cbn in *. by subst r.
Qed.

(** The state after a reconcile, and what it kept of the state before. *)
Record reached (w w' : W * server) : Prop := {
  reached_settled : settled T (cr w'.1) w'.2;
  reached_ready : is_ready (cr w'.1);
  reached_alive : deleting (GetMeta (cr w'.1)) = false;
  reached_good : good (cr w'.1) w';
  reached_spec : same_spec (cr w.1) (cr w'.1);
  reached_frame : others_kept (t_coll T) w.2 w'.2 /\
    forall id, id <> t_id T (cr w'.1) -> store_of (t_coll T) w'.2 !! id = store_of (t_coll T) w.2 !! id;
  reached_stable : settled T (cr w.1) w.2 -> same_core T (cr w.1) (cr w'.1) /\ w'.2 = w.2
}.

Lemma Reconcile_reaches w :
  stores_cr T -> good (cr w.1) w -> deleting (GetMeta (cr w.1)) = false ->
  (exec answer R w).1 = (requeue_after resyncInterval, None) /\ reached w (once R w).
Proof.
  intros Hst Hg Hd. unfold once. set (o1 := add_finalizer (cr w.1) (Finalizer (m_finalizer m))).
  assert (same_core T (cr w.1) o1) as Ho1 by apply core_finalizers.
  destruct (answer_patch w o1 false Hst) as (k1 & Hp1 & _).
  pose proof (good_patch (m := m) (T := T) (cr w.1) o1 false w Hg) as Hg1. rewrite Hp1 in Hg1. cbn in Hg1.
  rewrite Ho1 in Hg1.
  destruct (apply_converges o1 (k1, w.2) Hg1) as (o2 & w2 & Hrun & Hspec & Hmeta & Hg2 & Hset & Hoth & Hids & Hstab).
  rewrite (Hacts w (cr w.1) w _ _ _ (answer_get w Hst) Hd Hp1 Hrun). unfold Reconcile, patch. cbn [bind ask perform].
  rewrite (exec_call _ _ _ _ _ _ (answer_get w Hst)), Hd. fold o1. cbn [then_outcome bind ask perform].
  rewrite (exec_call _ _ _ _ _ _ Hp1), exec_bind, Hrun.
  unfold patch_observed. cbn [then_outcome bind ask perform].
  set (o3 := mark_ready o2).
  assert (same_core T o2 o3) as Ho3 by apply core_conditions.
  destruct (answer_patch w2 o3 true Hst) as (k3 & Hp3 & Hcore & Hdel & Hrdy).
  pose proof (good_patch (m := m) (T := T) o2 o3 true w2 Hg2) as Hg3. rewrite Hp3 in Hg3. cbn in Hg3.
  rewrite (exec_call _ _ _ _ _ _ Hp3). cbn [exec fst snd]. split; [done|].
  assert (same_core T o2 (cr k3)) as Ho2 by (etrans; eassumption).
  constructor; cbn [fst snd].
  - by rewrite <- Ho2.
  - apply Hrdy, mark_ready_ready.
  - rewrite Hdel. unfold o3, mark_ready. rewrite meta_set_conditions, Hmeta.
    unfold o1, add_finalizer. by rewrite get_set_meta.
  - by rewrite <- Ho2.
  - etrans; [apply core_spec, Ho1|]. etrans; [apply Hspec|]. apply core_spec, Ho2.
  - split; [exact Hoth|]. intros id. rewrite <- Ho2. apply Hids.
  - rewrite Ho1. intros Hs. destruct (Hstab Hs) as [Hc Hw]. split; [|exact Hw].
    by rewrite <- Ho2, <- Hc.
Qed.

Lemma mirror_settles n w :
  stores_cr T -> good (cr w.1) w -> deleting (GetMeta (cr w.1)) = false ->
  let w1 := once R w in
  let w2 := Nat.iter n (once R) w1 in
  reached w w1 /\ reached w1 w2 /\ same_core T (cr w1.1) (cr w2.1) /\ w2.2 = w1.2.
Proof.
  intros Hst Hg Hd. cbn zeta. destruct (Reconcile_reaches w Hst Hg Hd) as [_ Hr1]. split; [done|].
  assert (reached (once R w) (once R w)) as Hrefl by (destruct Hr1; by constructor).
  induction n as [|n (Hr2 & Hc & Hs)]; [done|].
  set (w1 := once R w) in *. set (w2 := Nat.iter n (once R) w1) in *.
  change (Nat.iter (S n) (once R) w1) with (once R w2).
  destruct (Reconcile_reaches w2 Hst) as [_ Hr3]; [apply Hr2..|].
  destruct (reached_stable _ _ Hr3) as [Hc' Hs']; [apply Hr2|].
  assert (same_core T (cr w1.1) (cr (once R w2).1)) as Hc2 by (by etrans).
  split; [|by split; [|congruence]].
  destruct Hr3 as [? ? ? ? Hsp _ _]. constructor; try done.
  - etrans; [apply Hr2|exact Hsp].
  - rewrite Hs', Hs. by repeat split.
  - intros _. split; [done|congruence].
Qed.
End reconcile.
End kind.

(** ** The kinds *)

(** All of [Core] of a target whose core is a conjunction of equalities, but
    that its core determines the declared item. *)
Ltac core_laws :=
  constructor; cbn;
  [split; red; naive_solver congruence|naive_solver|done|done|intros ? ?; naive_solver|].

(** The last request of an upsert. *)
Tactic Notation "sends" uconstr(lemma) := cbn [negb String.eqb]; etransitivity; [eapply lemma; first [done|eassumption|reflexivity]|reflexivity].

(** *** Networks *)
Definition network_item (net : Network) (id : string) : api.Network :=
  api.mkNetwork id (net_Name (Network_Spec net)) (if_set (net_Description (Network_Spec net))).

Definition network_target : target (k := KNetwork) :=
  mkTarget (k := KNetwork)
    (fun a b => Network_Spec a = Network_Spec b /\
       net_NetworkID (Network_Status a) = net_NetworkID (Network_Status b))
    CNetworks (fun o => net_NetworkID (Network_Status o))
    (fun o x => x = network_item o (net_NetworkID (Network_Status o))).

#[export] Instance network_core : Core network_target.
Proof.
  core_laws. intros a b [Hs Hi] x ? <-. unfold network_item. by rewrite Hs, Hi.
Qed.

Section kinds.
Context `{ErrorClassLaws} `{K8sLibLaws}.

#[export] Instance network_converging :
  Converging NewNetworkReconciler network_target (fun _ _ => True).
Proof.
  constructor; [solve_proper|done|]. intros o w _. cbn [m_apply NewNetworkReconciler].
  unfold applyNetwork. rewrite exec_bind, verify_exec by done.
  destruct (found_cases CNetworks w.2 (net_NetworkID (Network_Status o))) as [[-> Hnone]|(old & -> & Hne & Hold)].
  - eexists _, _. split; [sends exec_create|]. eapply (upserted network_target (fun _ _ => True) _ _ w w.1); try done.
    intros (Hne & x & Hx & _). destruct Hnone. split; [done|]. by exists x.
  - rewrite (proj2 (String.eqb_neq _ _) Hne).
    eexists _, _. split; [sends exec_update|]. eapply (upserted network_target (fun _ _ => True) _ _ w w.1); try done.
    intros (_ & x & Hx & ->). split; [done|]. cbn in Hx. by apply stored_same.
Qed.
End kinds.

(** *** Groups: not a mirror, but reconciled as one; its members are NetBird's *)
Definition group_target : target (k := KGroup) :=
  mkTarget (k := KGroup)
    (fun a b => Group_Spec a = Group_Spec b /\ group_GroupID (Group_Status a) = group_GroupID (Group_Status b))
    CGroups (fun o => group_GroupID (Group_Status o))
    (fun o x => api.g_Id x = group_GroupID (Group_Status o) /\ api.g_Name x = group_Name (Group_Spec o)).

#[export] Instance group_core : Core group_target.
Proof.
  core_laws. intros a b [Hs Hi] x ? <-. by rewrite Hs, Hi.
Qed.

Section groups.
Context `{ErrorClassLaws} `{K8sLibLaws}.

Definition group_upsert (g : Group) : M (Group * option error) :=
  let! r := ensure_group g in
  Ret (match r with Ok id => (set_group_id g id, None) | Err e => (g, Some e) end).
Definition group_release (g : Group) : M (option error) :=
  let id := group_GroupID (Group_Status g) in
  if String.eqb id "" then Ret None else ask (NBDelete CGroups id).
Definition group_mirror : mirror KGroup := mkMirror (k := KGroup) "group" "group" group_upsert group_release "".

Lemma group_acts recorder ns name : acts_as ns name (GroupCtl.Reconcile recorder ns name) group_mirror.
Proof.
  intros w o w1 w2 o2 w3. cbn zeta. intros Hg Hd Hp Hrun. unfold Reconcile, GroupCtl.Reconcile, patch.
  assert (deleting (Group_Meta o) = false) as Hd' by exact Hd.
  set (o1 := add_finalizer (k := KGroup) o group_finalizer). change (add_finalizer o _) with o1 in Hp, Hrun.
  cbn [bind ask perform]. rewrite !(exec_call _ _ _ _ _ _ Hg), Hd, Hd'. change (add_finalizer o _) with o1.
  cbn [then_outcome bind ask perform]. rewrite !(exec_call _ _ _ _ _ _ Hp). unfold bind_outcome. rewrite !exec_bind.
  cbn [m_apply group_mirror] in Hrun |- *. unfold group_upsert in Hrun |- *. rewrite exec_bind in Hrun. rewrite exec_bind.
  destruct (exec answer (ensure_group o1) w2) as [[id|e] w']; [done|discriminate Hrun].
Qed.

(** A group is made without members, and renamed with those it has. *)
Lemma create_group_exec o w :
  let id := mock_id rand_Int64 (drawn w.2) in
  exec answer (create_group o) w =
    (Ok id, (w.1, with_store CGroups w.2 (<[id := api.mkGroup id (group_Name (Group_Spec o)) [] []]> (groups w.2)) (S (drawn w.2)))).
Proof. etransitivity; [eapply (exec_create CGroups); done|]. done. Qed.

Definition renamed (o : Group) (old : api.Group) : api.Group :=
  api.mkGroup (group_GroupID (Group_Status o)) (group_Name (Group_Spec o)) (api.g_Peers old) (api.g_Resources old).

Lemma ensure_group_exec o w :
  let id := group_GroupID (Group_Status o) in
  exec answer (ensure_group o) w =
    match groups w.2 !! id with
    | Some old => if String.eqb id "" then exec answer (create_group o) w
        else (Ok id, (w.1, with_store CGroups w.2 (<[id := renamed o old]> (groups w.2)) (drawn w.2)))
    | None => exec answer (create_group o) w
    end.
Proof.
  cbn zeta. unfold ensure_group. set (id := group_GroupID _).
  destruct (String.eqb_spec id "") as [_|Hne]; [by destruct (_ !! _)|].
  unfold ask at 1, perform at 1. cbn [bind].
  rewrite (exec_call _ _ _ _ _ _ (answer_get_item CGroups id w ltac:(done))).
  change (get_item (store_of CGroups w.2) id) with
    (match groups w.2 !! id with Some x => Ok x | None => not_found end : result error api.Group).
  destruct (groups w.2 !! id) as [old|] eqn:Hold; cbv beta iota.
  - etransitivity; [eapply (exec_update CGroups); done|]. done.
  - rewrite not_found_api. cbv beta iota. by rewrite mock_not_found.
Qed.

#[export] Instance group_converging : Converging group_mirror group_target (fun _ _ => True).
Proof.
  constructor; [solve_proper|done|]. intros o w _. cbn [m_apply group_mirror]. unfold group_upsert.
  rewrite exec_bind, ensure_group_exec. set (id := group_GroupID (Group_Status o)).
  assert (groups w.2 !! id = None \/ id = ""%string -> ~ settled group_target o w.2) as Hnot.
  { intros [Hno|Hno] (Hne & x & Hx & _); [discriminate (eq_trans (eq_sym Hno) Hx)|done]. }
  destruct (groups w.2 !! id) as [old|] eqn:Hold; [destruct (String.eqb_spec id "") as [Hid|Hne]|].
  2: { eexists _, _. split; [reflexivity|]. eapply (upserted group_target (fun _ _ => True) _ _ w w.1); try done.
       intros (_ & x & Hx & Hxi & Hxn). split; [done|]. injection (eq_trans (eq_sym Hold) Hx) as ->.
       apply (stored_same CGroups); [done|]. cbn in Hxi, Hxn. etransitivity; [exact Hx|]. unfold renamed. rewrite <- Hxi, <- Hxn. by destruct x. }
  all: rewrite create_group_exec; eexists _, _; (split; [reflexivity|]);
    eapply (upserted group_target (fun _ _ => True) _ _ w w.1); try done; intros Hset; destruct Hnot; auto.
Qed.
End groups.

(** *** Network resources *)
Section resources.
Context (network : string) (gs : list string).

Definition resource_item (nr : NetworkResource) (id : string) : api.NetworkResource :=
  let spec := NetworkResource_Spec nr in
  api.mkNetworkResource id (nres_Address spec) (if_set (nres_Description spec)) (nres_Enabled spec)
    (resourceTypeForAddress (nres_Address spec)).

Definition resource_target : target (k := KNetworkResource) :=
  mkTarget (k := KNetworkResource)
    (fun a b => NetworkResource_Spec a = NetworkResource_Spec b /\
       meta_Namespace (NetworkResource_Meta a) = meta_Namespace (NetworkResource_Meta b) /\
       nres_NetworkID (NetworkResource_Status a) = nres_NetworkID (NetworkResource_Status b) /\
       nres_ResourceID (NetworkResource_Status a) = nres_ResourceID (NetworkResource_Status b))
    (CResources network) (fun o => nres_ResourceID (NetworkResource_Status o))
    (fun o x => nres_NetworkID (NetworkResource_Status o) = network /\
       x = resource_item o (nres_ResourceID (NetworkResource_Status o))).

#[export] Instance resource_core : Core resource_target.
Proof.
  core_laws. intros a b (Hs & _ & Hn & Hi) x ? <-. unfold resource_item. by rewrite Hs, Hn, Hi.
Qed.

(** The references resolve: the network has the id, the groups theirs. *)
Definition resource_refs `{ErrorClass} (o : obj KNetworkResource) (w : W * server) : Prop :=
  (exec answer (resolveNetworkID (nres_NetworkRef (NetworkResource_Spec o))) w).1 = Ok network /\
  (exec answer (GetGroupIDs (nres_Groups (NetworkResource_Spec o))
     (meta_Namespace (NetworkResource_Meta o))) w).1 = Ok gs.

Context `{ErrorClassLaws} `{K8sLibLaws}.
Context (Hkube : undisturbed KNetworkResource (CResources network)).

Lemma resource_refs_keep o w w' :
  same_reads (k := KNetworkResource) (c := CResources network) w w' -> resource_refs o w -> resource_refs o w'.
Proof.
  intros Hs [Hn Hg]. split; eapply reads_keep; try exact Hs; try eassumption.
  - by apply resolveNetworkID_elsewhere.
  - by apply GetGroupIDs_elsewhere.
Qed.

#[export] Instance resource_converging :
  Converging NewNetworkResourceReconciler resource_target resource_refs.
Proof.
  constructor.
  - intros a b (Hs & Hm & _) w ? <-. unfold resource_refs. by rewrite Hs, Hm.
  - intros o o' b w. by apply resource_refs_keep, same_reads_disturbed.
  - intros o w Hrefs. pose proof Hrefs as [Hn Hg]. cbn [m_apply NewNetworkResourceReconciler].
    unfold applyNetworkResource. rewrite exec_bind.
    rewrite (exec_read Hkube _ _ _ (resolveNetworkID_elsewhere KNetworkResource (CResources network) _ ltac:(done)) Hn).
    cbv beta iota zeta.
    change (NetworkResource_Spec (rehome_resource o network)) with (NetworkResource_Spec o).
    change (NetworkResource_Meta (rehome_resource o network)) with (NetworkResource_Meta o).
    rewrite exec_bind, (exec_read Hkube _ _ _ (GetGroupIDs_elsewhere KNetworkResource (CResources network) _ _ ltac:(done) ltac:(done)) Hg).
    rewrite exec_bind, verify_exec by done.
    assert (settled resource_target o w.2 ->
      nres_ResourceID (NetworkResource_Status (rehome_resource o network)) =
      nres_ResourceID (NetworkResource_Status o)) as Hsame.
    { intros (_ & x & _ & Hid & _). cbn. cbn in Hid. rewrite Hid, String.eqb_refl. by rewrite andb_false_r. }
    assert (forall s, others_kept (CResources network) w.2 s -> resource_refs o (w.1, s)) as Hkeep.
    { intros s Hs. eapply resource_refs_keep; [by apply same_reads_stored|done]. }
    destruct (found_cases (CResources network) w.2
      (nres_ResourceID (NetworkResource_Status (rehome_resource o network)))) as [[-> Hnone]|(old & -> & Hne & Hold)].
    + eexists _, _. split; [sends exec_create|].
      eapply (upserted resource_target resource_refs _ _ w w.1); try done.
      * apply Hkeep, others_with_store.
      * intros Hset. destruct Hnone. rewrite (Hsame Hset). destruct Hset as (? & x & ? & _). split; [done|]. by exists x.
    + rewrite (proj2 (String.eqb_neq _ _) Hne).
      eexists _, _. split; [sends exec_update|].
      eapply (upserted resource_target resource_refs _ _ w w.1); try done.
      * apply Hkeep, others_with_store.
      * intros Hset. pose proof (Hsame Hset) as Hid. destruct Hset as (_ & x & Hx & Hnet & ->). rewrite Hid.
        split; [done|]. by apply stored_same.
Qed.
End resources.

(** *** DNS zones: whatever the list cache holds *)
Section zones.
Context (gs : list string).

Definition zone_item (z : DNSZone) (id : string) : api.Zone :=
  let spec := DNSZone_Spec z in
  api.mkZone id (zone_Name spec) (zone_Domain spec) gs
    (match zone_EnableSearchDomain spec with Some b => b | None => false end) (zone_Enabled spec).

Definition zone_target : target (k := KDNSZone) :=
  mkTarget (k := KDNSZone)
    (fun a b => DNSZone_Spec a = DNSZone_Spec b /\
       meta_Namespace (DNSZone_Meta a) = meta_Namespace (DNSZone_Meta b) /\
       zone_ZoneID (DNSZone_Status a) = zone_ZoneID (DNSZone_Status b))
    CZones (fun o => zone_ZoneID (DNSZone_Status o))
    (fun o x => x = zone_item o (zone_ZoneID (DNSZone_Status o))).

#[export] Instance zone_core : Core zone_target.
Proof.
  core_laws. intros a b (Hs & _ & Hi) x ? <-. unfold zone_item. by rewrite Hs, Hi.
Qed.

Definition zone_refs (o : obj KDNSZone) (w : W * server) : Prop :=
  (exec answer (GetGroupIDs (zone_DistributionGroups (DNSZone_Spec o))
     (meta_Namespace (DNSZone_Meta o))) w).1 = Ok gs.

Context `{ErrorClassLaws} `{K8sLibLaws}.
Context (Hkube : undisturbed KDNSZone CZones).
Abbreviation zone_reads := (same_reads (k := KDNSZone) (c := CZones)).

Lemma zone_refs_keep o w w' : zone_reads w w' -> zone_refs o w -> zone_refs o w'.
Proof. intros Hs Hg. eapply reads_keep; try exact Hs; try eassumption. by apply GetGroupIDs_elsewhere. Qed.

(** A lookup through the cache: the clock, the cache, and the list of zones,
    which the mock answers. *)
Fixpoint looks_up {A} (p : M A) (Q : A -> Prop) : Prop :=
  match p with
  | Ret a => Q a
  | Call (NBList CZones) f => forall zs, looks_up (f (Ok zs)) Q
  | Call q f => disturbing KDNSZone q /\ forall r, looks_up (f r) Q
  end.

Lemma looks_up_exec {A} (p : M A) Q w : looks_up p Q -> exists a w1,
  exec answer p w = (a, (w1, w.2)) /\ zone_reads w (w1, w.2) /\ Q a.
Proof.
  revert w. induction p as [a|q f IH]; intros w Hp; [exists a, w.1; by destruct w|].
  assert (q = NBList CZones \/ disturbing KDNSZone q /\ forall r, looks_up (f r) Q) as [->|[Hq Hf]].
  { destruct q as [| | | | | | |[]| | | | | | | | |]; cbn in Hp; auto. }
  - cbn [exec]. rewrite answer_list by done. apply IH, Hp.
  - pose proof (same_reads_disturbed Hkube q w Hq) as Hs.
    assert (answer q w = ((kube q w.1).1, ((kube q w.1).2, w.2))) as Ha by (apply answer_kube; by destruct q).
    rewrite Ha in Hs. rewrite (exec_call _ _ _ _ _ _ Ha).
    destruct (IH _ ((kube q w.1).2, w.2) (Hf (kube q w.1).1)) as (a & w1 & He & Hr & HQ). exists a, w1.
    split; [exact He|]. split; [by eapply same_reads_trans|done].
Qed.

(** The lookup by name finds some zone or reports that there is none. *)
Lemma GetDNSZoneByName_looks_up n :
  looks_up (GetDNSZoneByName n) (fun r => r = Err (zone_not_found n) \/ exists z, r = Ok z).
Proof.
  unfold GetDNSZoneByName, lookup, refresh, list_, fetchLocked. cbn. split; [done|]. intros now. split; [done|].
  intros cache. destruct (lc_ok cache && _); cbn.
  - destruct (find_first _ (lc_items cache)); cbn; [split; [done|]; eauto|].
    intros zs. destruct (find_first _ zs); cbn; (split; [done|]; eauto).
  - intros zs. destruct (find_first _ zs); cbn; [split; [done|]; eauto|].
    intros zs'. destruct (find_first _ zs'); cbn; (split; [done|]; eauto).
Qed.

(** The tail of the upsert: an id that is not there any more is as good as
    none. *)
Lemma upsertZone_exec o id w : zone_refs o w ->
  (settled zone_target o w.2 -> id = zone_ZoneID (DNSZone_Status o)) ->
  exists o' w', exec answer (upsertZone o id (zone_request o gs)) w = ((o', None), w') /\
    same_spec o o' /\ GetMeta (k := KDNSZone) o' = GetMeta (k := KDNSZone) o /\ zone_refs o' w' /\
    settled zone_target o' w'.2 /\ others_kept CZones w.2 w'.2 /\
    (forall i, i <> t_id zone_target o' -> store_of CZones w'.2 !! i = store_of CZones w.2 !! i) /\
    (settled zone_target o w.2 -> same_core zone_target o o' /\ w'.2 = w.2).
Proof.
  intros Hrefs Hid. unfold upsertZone.
  assert (forall s, others_kept CZones w.2 s -> zone_refs o (w.1, s)) as Hkeep.
  { intros s Hs. eapply zone_refs_keep; [by apply same_reads_stored|done]. }
  assert (store_of CZones w.2 !! id = None \/ id = ""%string -> ~ settled zone_target o w.2) as Hgone.
  { intros Hno Hset. rewrite (Hid Hset) in Hno. destruct Hset as (Hne & x & Hx & _), Hno as [Hno|Hno]; [|done].
    discriminate (eq_trans (eq_sym Hno) Hx). }
  destruct (String.eqb_spec id "") as [->|Hne]; cbn [negb];
    [|destruct (store_of CZones w.2 !! id) as [old|] eqn:Hold].
  - eexists _, _. split; [sends exec_create|].
    eapply (upserted zone_target zone_refs _ _ w w.1); try done; [apply Hkeep, others_with_store|].
    intros Hset. destruct (Hgone (or_intror eq_refl) Hset).
  - eexists _, _. split; [sends exec_update|].
    eapply (upserted zone_target zone_refs _ _ w w.1); try done; [apply Hkeep, others_with_store|].
    intros Hset. pose proof (Hid Hset) as ->. destruct Hset as (_ & x & Hx & ->). split; [done|]. by apply stored_same.
  - eexists _, _. split.
    { etransitivity; [by eapply exec_update_missing|]. cbv beta iota. rewrite mock_not_found. sends exec_create. }
    eapply (upserted zone_target zone_refs _ _ w w.1); try done; [apply Hkeep, others_with_store|].
    intros Hset. destruct (Hgone (or_introl eq_refl) Hset).
Qed.

#[export] Instance zone_converging : Converging NewDNSZoneReconciler zone_target zone_refs.
Proof.
  constructor.
  - intros a b (Hs & Hm & _) w ? <-. unfold zone_refs. by rewrite Hs, Hm.
  - intros o o' b w. by apply zone_refs_keep, same_reads_disturbed.
  - intros o w Hrefs. cbn [m_apply NewDNSZoneReconciler]. unfold applyDNSZone. rewrite exec_bind.
    rewrite (exec_read Hkube _ _ _ (GetGroupIDs_elsewhere KDNSZone CZones _ _ ltac:(done) ltac:(done)) Hrefs).
    cbv beta iota zeta. rewrite exec_bind, verify_exec by done.
    destruct (found_cases CZones w.2 (zone_ZoneID (DNSZone_Status o))) as [[-> Hnone]|(old & -> & Hne & Hold)].
    + cbn [String.eqb]. rewrite exec_bind.
      destruct (looks_up_exec _ _ w (GetDNSZoneByName_looks_up (zone_Name (DNSZone_Spec o)))) as (r & w1 & -> & Hs & Hr).
      assert (~ settled zone_target o w.2) as Hnot.
      { intros (Hne & x & Hx & _). destruct Hnone. split; [done|by exists x]. }
      destruct Hr as [->|[z ->]]; cbv beta iota;
        [change (errors_Is (zone_not_found _) ErrZoneNotFound) with true; cbv iota|];
        apply (upsertZone_exec o _ (w1, w.2)); try done; by eapply zone_refs_keep.
    + rewrite (proj2 (String.eqb_neq _ _) Hne). by apply upsertZone_exec.
Qed.
End zones.

(** *** DNS records *)
Section records.
Context (zone : string).

Definition record_item (r : DNSRecord) (id : string) : api.DNSRecord :=
  let spec := DNSRecord_Spec r in
  api.mkDNSRecord id (rec_Name spec) (rec_TTL spec) (rec_Type spec) (rec_Content spec).

Definition record_target : target (k := KDNSRecord) :=
  mkTarget (k := KDNSRecord)
    (fun a b => DNSRecord_Spec a = DNSRecord_Spec b /\
       rec_ZoneID (DNSRecord_Status a) = rec_ZoneID (DNSRecord_Status b) /\
       rec_RecordID (DNSRecord_Status a) = rec_RecordID (DNSRecord_Status b))
    (CRecords zone) (fun o => rec_RecordID (DNSRecord_Status o))
    (fun o x => rec_ZoneID (DNSRecord_Status o) = zone /\ x = record_item o (rec_RecordID (DNSRecord_Status o))).

#[export] Instance record_core : Core record_target.
Proof.
  core_laws. intros a b (Hs & Hz & Hi) x ? <-. unfold record_item. by rewrite Hs, Hz, Hi.
Qed.

Definition record_refs `{ErrorClass} (o : obj KDNSRecord) (w : W * server) : Prop :=
  (exec answer (resolveZoneID (rec_ZoneRef (DNSRecord_Spec o))) w).1 = Ok zone.

Context `{ErrorClassLaws} `{K8sLibLaws}.
Context (Hkube : undisturbed KDNSRecord (CRecords zone)).

Lemma record_refs_keep o w w' :
  same_reads (k := KDNSRecord) (c := CRecords zone) w w' -> record_refs o w -> record_refs o w'.
Proof. intros Hs Hz. eapply reads_keep; try exact Hs; try eassumption. by apply resolveZoneID_elsewhere. Qed.

Lemma upsertRecord_exec o id w : record_refs o w ->
  (settled record_target o w.2 -> id = rec_RecordID (DNSRecord_Status o)) ->
  exists o' w', exec answer (upsertRecord o zone id (record_request o)) w = ((o', None), w') /\
    same_spec o o' /\ GetMeta (k := KDNSRecord) o' = GetMeta (k := KDNSRecord) o /\ record_refs o' w' /\
    settled record_target o' w'.2 /\ others_kept (CRecords zone) w.2 w'.2 /\
    (forall i, i <> t_id record_target o' ->
       store_of (CRecords zone) w'.2 !! i = store_of (CRecords zone) w.2 !! i) /\
    (settled record_target o w.2 -> same_core record_target o o' /\ w'.2 = w.2).
Proof.
  intros Hrefs Hid. unfold upsertRecord.
  assert (forall s, others_kept (CRecords zone) w.2 s -> record_refs o (w.1, s)) as Hkeep.
  { intros s Hs. eapply record_refs_keep; [by apply same_reads_stored|done]. }
  assert (store_of (CRecords zone) w.2 !! id = None \/ id = ""%string -> ~ settled record_target o w.2) as Hgone.
  { intros Hno Hset. rewrite (Hid Hset) in Hno. destruct Hset as (Hne & x & Hx & _), Hno as [Hno|Hno]; [|done].
    discriminate (eq_trans (eq_sym Hno) Hx). }
  destruct (String.eqb_spec id "") as [->|Hne]; cbn [negb];
    [|destruct (store_of (CRecords zone) w.2 !! id) as [old|] eqn:Hold].
  - eexists _, _. split; [sends exec_create|].
    eapply (upserted record_target record_refs _ _ w w.1); try done; [apply Hkeep, others_with_store|].
    intros Hset. destruct (Hgone (or_intror eq_refl) Hset).
  - eexists _, _. split; [sends exec_update|].
    eapply (upserted record_target record_refs _ _ w w.1); try done; [apply Hkeep, others_with_store|].
    intros Hset. pose proof (Hid Hset) as ->. destruct Hset as (_ & x & Hx & Hz & ->).
    split; [done|]. by apply stored_same.
  - eexists _, _. split.
    { etransitivity; [by eapply exec_update_missing|]. cbv beta iota. rewrite mock_not_found. sends exec_create. }
    eapply (upserted record_target record_refs _ _ w w.1); try done; [apply Hkeep, others_with_store|].
    intros Hset. destruct (Hgone (or_introl eq_refl) Hset).
Qed.

#[export] Instance record_converging : Converging NewDNSRecordReconciler record_target record_refs.
Proof.
  constructor.
  - intros a b (Hs & _) w ? <-. unfold record_refs. by rewrite Hs.
  - intros o o' b w. by apply record_refs_keep, same_reads_disturbed.
  - intros o w Hrefs. cbn [m_apply NewDNSRecordReconciler]. unfold applyDNSRecord. rewrite exec_bind.
    rewrite (exec_read Hkube _ _ _ (resolveZoneID_elsewhere KDNSRecord (CRecords zone) _ ltac:(done)) Hrefs).
    cbv beta iota zeta. rewrite exec_bind, verify_exec by done.
    assert (settled record_target o w.2 -> rehome_record o zone = set_rec_ids o zone (rec_RecordID (DNSRecord_Status o))
      /\ rec_ZoneID (DNSRecord_Status o) = zone) as Hsame.
    { intros (_ & x & _ & Hid & _). cbn in Hid. split; [|done]. unfold rehome_record.
      by rewrite Hid, String.eqb_refl, andb_false_r. }
    destruct (found_cases (CRecords zone) w.2 (rec_RecordID (DNSRecord_Status (rehome_record o zone))))
      as [[-> Hnone]|(old & -> & Hne & Hold)].
    + assert (~ settled record_target o w.2) as Hnot.
      { intros Hset. destruct Hnone. rewrite (proj1 (Hsame Hset)). destruct Hset as (? & x & ? & _).
        split; [done|by exists x]. }
      cbn [String.eqb]. unfold ask, perform. cbn [bind].
      rewrite (exec_call _ _ _ _ _ _ (answer_list (CRecords zone) w ltac:(done))). cbv beta iota.
      by apply (upsertRecord_exec o).
    + rewrite (proj2 (String.eqb_neq _ _) Hne). apply (upsertRecord_exec o); [done|].
      intros Hset. by rewrite (proj1 (Hsame Hset)).
Qed.
End records.

(** *** Reverse-proxy services *)
Section services.
Context `{ErrorClassLaws} `{K8sLibLaws} `{SortSlice} (mode_text : api.ServiceRequestMode -> string).
(** Where the cluster, the backends and the groups of a resource are found,
    they render to one request. *)
Context (req : api.ServiceRequest) (rendered : obj KReverseProxyService -> W * server -> Prop).

(** The mock keeps the mode and the targets a request leaves out. *)
Definition service_target : target (k := KReverseProxyService) :=
  mkTarget (k := KReverseProxyService)
    (fun a b => ReverseProxyService_Spec a = ReverseProxyService_Spec b /\
       meta_Name (ReverseProxyService_Meta a) = meta_Name (ReverseProxyService_Meta b) /\
       meta_Namespace (ReverseProxyService_Meta a) = meta_Namespace (ReverseProxyService_Meta b) /\
       rps_ServiceDomain (ReverseProxyService_Status a) = rps_ServiceDomain (ReverseProxyService_Status b) /\
       rps_ServiceID (ReverseProxyService_Status a) = rps_ServiceID (ReverseProxyService_Status b))
    CServices (fun o => rps_ServiceID (ReverseProxyService_Status o))
    (fun o x => rps_ServiceDomain (ReverseProxyService_Status o) = api.s_Domain req /\
       exists old, x = convert_service (rps_ServiceID (ReverseProxyService_Status o)) req old).

Record renders : Prop := {
  rendered_core :: Proper (same_core service_target ==> eq ==> iff) rendered;
  rendered_patch : forall o o' b w, rendered o w ->
    rendered o (answer (KPatch KReverseProxyService o' b) w).2;
  rendered_stored : forall o o' w s, rendered o w -> others_kept CServices w.2 s -> same_spec o o' ->
    GetMeta (k := KReverseProxyService) o' = GetMeta (k := KReverseProxyService) o -> rendered o' (w.1, s);
  rendered_request : forall o w, rendered o w ->
    exists w1, exec answer (renderService mode_text o) w = (Ok req, (w1, w.2)) /\ rendered o (w1, w.2)
}.

#[export] Instance service_core : Core service_target.
Proof.
  clear rendered. core_laws. intros a b (Hs & _ & _ & Hd & Hi) x ? <-. by rewrite Hd, Hi.
Qed.

Lemma convert_service_idem id rq old : convert_service id rq (convert_service id rq old) = convert_service id rq old.
Proof. unfold convert_service. cbn. destruct (api.s_Mode rq), (api.s_Targets rq); done. Qed.

Lemma service_converging : renders ->
  Converging (NewReverseProxyServiceReconciler mode_text) service_target rendered.
Proof.
  intros Hr. constructor.
  - apply (rendered_core Hr).
  - apply (rendered_patch Hr).
  - intros o w Hrefs. cbn [m_apply NewReverseProxyServiceReconciler]. unfold applyReverseProxyService. rewrite exec_bind.
    destruct (rendered_request Hr o w Hrefs) as (w1 & -> & Hrefs1). cbv beta iota zeta.
    change (others_kept (t_coll service_target) w.2) with (others_kept CServices (w1, w.2).2).
    assert (forall o' s, others_kept CServices w.2 s -> same_spec o o' ->
      GetMeta (k := KReverseProxyService) o' = GetMeta (k := KReverseProxyService) o -> rendered o' (w1, s)) as Hkeep.
    { intros o' s. by apply (rendered_stored Hr o o' (w1, w.2)). }
    set (id := rps_ServiceID (ReverseProxyService_Status o)).
    destruct (String.eqb_spec id "") as [Hid|Hne]; cbn [negb];
      [|destruct (store_of CServices w.2 !! id) as [old|] eqn:Hold].
    + eexists _, _. split; [sends exec_create|].
      eapply (upserted service_target rendered _ _ (w1, w.2) w1); try done; [apply Hkeep; [apply others_with_store|done..]|split; [done|by eexists]|].
      by intros [Hne _].
    + eexists _, _. split; [sends (exec_update CServices _ _ _ (w1, w.2))|].
      eapply (upserted service_target rendered _ _ (w1, w.2) w1); try done; [apply Hkeep; [apply others_with_store|done..]|split; [done|by eexists]|].
      intros (_ & x & Hx & Hd & [old' ->]). cbn in Hd. split; [cbn; by rewrite Hd|].
      injection (eq_trans (eq_sym Hold) Hx) as ->. cbn [convert_of pure fst snd]. rewrite convert_service_idem.
      by apply stored_same.
    + eexists _, _. split.
      { etransitivity; [by eapply exec_update_missing|]. cbv beta iota. rewrite mock_not_found. sends exec_create. }
      eapply (upserted service_target rendered _ _ (w1, w.2) w1); try done; [apply Hkeep; [apply others_with_store|done..]|split; [done|by eexists]|].
      intros (_ & x & Hx & _). discriminate (eq_trans (eq_sym Hold) Hx).
Qed.
End services.
End converge.

(** *** Networks, in full *)
Corollary Network_converges `{ErrorClassLaws} `{K8sLibLaws} iterate rand_Int64 {W} (kube : forall c, W -> resp c * W)
    (cr : W -> Network) ns name n w :
  stores_cr (k := KNetwork) kube cr ns name network_target -> deleting (Network_Meta (cr w.1)) = false ->
  let w1 := once iterate rand_Int64 kube (Reconcile NewNetworkReconciler false ns name) w in
  let w2 := Nat.iter n (once iterate rand_Int64 kube (Reconcile NewNetworkReconciler false ns name)) w1 in
  let id := net_NetworkID (Network_Status (cr w1.1)) in
  id <> ""%string /\ networks w1.2 !! id = Some (network_item (cr w.1) id) /\
  (forall i, i <> id -> networks w1.2 !! i = networks w.2 !! i) /\
  net_NetworkID (Network_Status (cr w2.1)) = id /\ w2.2 = w1.2.
Proof.
  intros Hst Hd. cbn zeta.
  destruct (mirror_settles iterate rand_Int64 kube (k := KNetwork) cr ns name _ NewNetworkReconciler network_target
    (fun _ _ => True) (mirror_acts _ _ _ _ _ _) n w Hst I Hd) as ([(Hne & x & Hx & ->) _ _ _ Hs [_ Hi] _] & _ & [_ Hc] & Hw).
  cbn in *. split; [done|]. split; [by rewrite Hx; unfold network_item; rewrite Hs|]. by split.
Qed.

(** ** Concrete servers *)
Module ConvergeRun.
Import MockRun.

(** Two DNSZone resources, [a] and [b], and the list cache. *)
Record cluster := mkCluster { zone_a : DNSZone; zone_b : DNSZone; cache : listCache api.Zone }.

Definition named (name : string) (w : cluster) : DNSZone := if String.eqb name "a" then zone_a w else zone_b w.

Definition kube (c : call) (w : cluster) : resp c * cluster :=
  match c with
  | KGet KDNSZone _ name => (Ok (named name w), w)
  | KPatch KDNSZone o _ =>
      (None, if String.eqb (meta_Name (DNSZone_Meta o)) "a"
             then mkCluster o (zone_b w) (cache w) else mkCluster (zone_a w) o (cache w))
  | CacheRead ZoneCache => (cache w, w)
  | CacheWrite ZoneCache v => (tt, mkCluster (zone_a w) (zone_b w) v)
  | c => (no_answer c, w)
  end.

Definition zone_cr (name : string) : DNSZone :=
  mkDNSZone (mkMeta name "default" ("uid-" +:+ name) ∅ ∅ [] None 1)
    (mkDNSZoneSpec "corp.example" "corp.example" [] None true) (mkDNSZoneStatus 0 [] "").

Definition item0 (id : string) : api.Zone := api.mkZone id "corp.example" "corp.example" [] false true.

Definition reconcile_zone (name : string) : cluster * server -> cluster * server :=
  once iterate0 rand0 kube (Reconcile NewDNSZoneReconciler false "default" name).

(** An API server that holds one DNSZone, and a cache that still lists a zone
    of its name that is gone. *)
Definition one_zone (c : call) (w : DNSZone * listCache api.Zone) : resp c * (DNSZone * listCache api.Zone) :=
  match c with
  | KGet KDNSZone _ _ => (Ok w.1, w)
  | KPatch KDNSZone o _ => (None, (o, w.2))
  | CacheRead ZoneCache => (w.2, w)
  | CacheWrite ZoneCache v => (tt, (w.1, v))
  | c => (no_answer c, w)
  end.

Lemma one_zone_undisturbed : undisturbed one_zone KDNSZone CZones.
Proof.
  constructor.
  - intros [[]| | | | | |[]|[]| | | | | | |[]|[]|] w Hq; cbn in *; try done; by destruct Hq.
  - intros [[]| | | | | |[]|[]| | | | | | |[]|[]|] q w Hq Hd; cbn in *; try done.
Qed.

Lemma one_zone_converges :
  let w := ((zone_cr "a", mkListCache [item0 "gone"] true 1), Client) in
  let w1 := once iterate0 rand0 one_zone (Reconcile NewDNSZoneReconciler false "default" "a") w in
  reached (k := KDNSZone) fst (zone_target []) (zone_refs iterate0 rand0 one_zone []) w w1 /\
  zones w1.2 = {[ "id-0" := item0 "id-0" ]}.
Proof.
  cbn zeta. split; [|reflexivity].
  pose proof (zone_converging iterate0 rand0 one_zone [] one_zone_undisturbed).
  refine (proj1 (mirror_settles iterate0 rand0 one_zone (k := KDNSZone) fst "default" "a"
    _ NewDNSZoneReconciler (zone_target []) (zone_refs iterate0 rand0 one_zone []) (mirror_acts _ _ _ _ _ _) 0 _ _ _ _)); [|reflexivity..].
  constructor; [done|]. intros [z l] o b. by repeat split.
Qed.

(** A zone is gone from NetBird, but still in the list cache: two resources
    that declare it each find it there, are told it is gone, and create one. *)
Lemma stale_cache_duplicates :
  let w := (mkCluster (zone_cr "a") (zone_cr "b") (mkListCache [item0 "gone"] true 1), Client) in
  zones (reconcile_zone "b" (reconcile_zone "a" w)).2 = {[ "id-0" := item0 "id-0"; "id-1" := item0 "id-1" ]} /\
  (* with nothing in the cache they share one *)
  let w := (mkCluster (zone_cr "a") (zone_cr "b") (mkListCache [] true 1), Client) in
  zones (reconcile_zone "b" (reconcile_zone "a" w)).2 = {[ "id-0" := item0 "id-0" ]}.
Proof. split; vm_compute; reflexivity. Qed.
End ConvergeRun.
