(* ===== verification/Lifecycle.v ===== *)
(** * The deletion of a resource

    What a reconcile of a deleted resource does against the mock, and the whole
    life of a resource: created, reconciled any number of times, deleted. *)

From stdpp Require Import base gmap list strings pretty.
From Stdlib Require Import ZArith.
From S2P Require Import Prelude Sort GoStrings GoErr Prog GroupCtl ApiTypes K8sTypes ApplyConf Env NetbirdUtil Reconcile Mirror NetworkMirror ServiceAddr DNSMirror Rps Ownership Identity Mock Converge.

Open Scope Z_scope.
Open Scope prog_scope.

(** The object with an id is gone, every other one as it was. *)
Record removed (c : coll) (id : string) (s s' : server) : Prop := {
  removed_id : id <> ""%string -> store_of c s' !! id = None;
  removed_ids : forall i, i <> id -> store_of c s' !! i = store_of c s !! i;
  removed_others : others_kept c s s'
}.

(** What a delete answers when there is nothing left to delete. *)
Definition deleted `{ErrorClass} (e : option error) : Prop :=
  match e with None => True | Some e => netbird_IsNotFound e = true end.

Section lifecycle.
Context (iterate : forall T, gmap string T -> list T) (rand_Int64 : nat -> Z).
Context {W : Type} (kube : forall c, W -> resp c * W).
Context `{ErrorClassLaws} `{K8sLibLaws}.

Abbreviation answer := (answer iterate rand_Int64 kube).

Lemma exec_after {A B} (p : M A) (f : A -> M B) w a w' :
  exec answer p w = (a, w') -> exec answer (bind p f) w = exec answer (f a) w'.
Proof. intros Hp. by rewrite exec_bind, Hp. Qed.

Lemma delete_exec c id (w : W * server) : c <> CClusters -> exists e s',
  exec answer (ask (NBDelete c id)) w = (e, (w.1, s')) /\ deleted e /\ removed c id w.2 s'.
Proof.
  intros Hc. cbn [ask perform exec].
  assert (answer (NBDelete c id) w =
    (let '(r, m) := delete_item (store_of c w.2) id in (r, (w.1, with_store c w.2 m (drawn w.2))))) as ->.
  { unfold Converge.answer. cbn. destruct c; try done; cbn; by destruct (delete_item _ _). }
  unfold delete_item. destruct (store_of c w.2 !! id) as [x|] eqn:Hx.
  - eexists None, _. split; [reflexivity|]. split; [done|]. constructor.
    + intros _. rewrite store_with_store by done. apply lookup_delete_eq.
    + intros i Hi. rewrite store_with_store by done. by apply lookup_delete_ne.
    + apply others_with_store.
  - eexists (Some _), _. split; [reflexivity|]. split; [apply mock_not_found|].
    rewrite with_store_same by done. by constructor.
Qed.

Lemma removed_none c s : removed c "" s s.
Proof. by constructor. Qed.

Section kind.
Context {k : kind} `{MirrorObject k} `{!Specified k}.
Context (cr : W -> obj k) (ns name : string).

(** The recorded id, if any, is one of the target's collection. *)
Definition recorded (T : target (k := k)) (o : obj k) : Prop := t_id T o = ""%string \/ exists x, t_declared T o x.

(** What the delete of a mirror does where no other resource shares the object
    ([sole]). *)
Class Releasing (m : mirror k) (T : target (k := k)) (sole : obj k -> W * server -> Prop) :=
  del_releases : forall o w, recorded T o -> sole o w -> exists e w',
    exec answer (m_del m o) w = (e, w') /\ deleted e /\ removed (t_coll T) (t_id T o) w.2 w'.2.

(** A reconciler that treats a deleted resource as a mirror with the delete of
    [m] does, as long as the delete succeeds. *)
Definition releases_as (R : M outcome) (m : mirror k) : Prop := forall w o w1 e w2,
  answer (KGet k ns name) w = (Ok o, w1) -> deleting (GetMeta o) = true ->
  exec answer (m_del m o) w1 = (e, w2) -> deleted e ->
  exec answer R w = exec answer (Mirror.Reconcile m false ns name) w.

Lemma mirror_releases (m : mirror k) : releases_as (Mirror.Reconcile m false ns name) m.
Proof. done. Qed.

Section reconcile.
Context `{!MirrorObjectLaws k}.
Context (R : M outcome) (m : mirror k) (T : target (k := k)) (good sole : obj k -> W * server -> Prop).
Context `{!Core T} `{!Converging iterate rand_Int64 kube m T good} `{!Releasing m T sole}.
Context (Hacts : acts_as iterate rand_Int64 kube ns name R m) (Hrel : releases_as R m).

(** The last call of a run that takes the finalizer off. *)
Definition finished (w w' : W * server) : Prop :=
  exec answer R w = ((no_requeue, None),
    (answer (KPatch k (remove_finalizer (cr w.1) (Finalizer (m_finalizer m))) false) w').2).

Lemma Reconcile_releases w :
  stores_cr kube cr ns name T -> deleting (GetMeta (cr w.1)) = true -> recorded T (cr w.1) -> sole (cr w.1) w ->
  exists w', finished w w' /\ removed (t_coll T) (t_id T (cr w.1)) w.2 w'.2.
Proof.
  intros Hst Hd Hrec Hsole. pose proof (answer_get iterate rand_Int64 kube cr ns name T w Hst) as Hget.
  destruct (del_releases (cr w.1) w Hrec Hsole) as (e & w' & Hrun & He & Hrem). exists w'. split; [|done].
  unfold finished. rewrite (Hrel w (cr w.1) w e w' Hget Hd Hrun He).
  unfold Mirror.Reconcile. cbn [bind ask perform]. rewrite (exec_call _ _ _ _ _ _ Hget), Hd.
  unfold Mirror.reconcileDelete. rewrite exec_bind, Hrun. cbv beta iota zeta. unfold patch.
  set (o' := remove_finalizer _ _).
  destruct (answer_patch iterate rand_Int64 kube cr ns name T w' o' false Hst) as (k1 & Hp & _).
  assert (exec answer (do^ ask (KPatch k o' false) in Ret (no_requeue, None)) w' = ((no_requeue, None), (answer (KPatch k o' false) w').2)) as Hfin.
  { cbn [then_outcome bind ask perform]. by rewrite (exec_call _ _ _ _ _ _ Hp), Hp. }
  destruct e as [e|]; [|exact Hfin]. cbn in He. by rewrite He.
Qed.

(** What is left of a deleted resource that was reconciled any number of times. *)
Lemma mirror_leaves_nothing n w wd :
  stores_cr kube cr ns name T -> good (cr w.1) w -> deleting (GetMeta (cr w.1)) = false ->
  let w1 := once iterate rand_Int64 kube R w in
  let w2 := Nat.iter n (once iterate rand_Int64 kube R) w1 in
  wd.2 = w2.2 -> same_core T (cr w2.1) (cr wd.1) -> deleting (GetMeta (cr wd.1)) = true -> sole (cr wd.1) wd ->
  t_id T (cr w1.1) <> ""%string /\
  exists w', finished wd w' /\ removed (t_coll T) (t_id T (cr w1.1)) w.2 w'.2.
Proof.
  intros Hst Hg Hlive. cbn zeta. intros Hserver Hcore Hdel Hsole.
  destruct (mirror_settles iterate rand_Int64 kube cr ns name R m T good Hacts n w Hst Hg Hlive) as (Hr1 & _ & Hc & Hw).
  destruct (reached_settled _ _ _ _ _ Hr1) as (Hne & x & _ & Hx). split; [done|].
  assert (same_core T (cr (once iterate rand_Int64 kube R w).1) (cr wd.1)) as Hc' by (by etrans).
  destruct (Reconcile_releases wd Hst Hdel) as (w' & Hfin & Hrem); [|done|].
  { right. exists x. by rewrite <- Hc'. }
  exists w'. split; [done|]. rewrite <- Hc', Hserver, Hw in Hrem.
  destruct (reached_frame _ _ _ _ _ Hr1) as [Hoth Hids], Hrem as [Hid Hids' Hoth'].
  constructor; [done| |].
  - intros i Hi. by rewrite Hids', Hids.
  - destruct Hoth as [? Hs], Hoth' as [? Hs']. split; [congruence|]. intros c' Hc'2. by rewrite Hs', Hs.
Qed.
End reconcile.
End kind.

(** ** The kinds *)

(** A delete of the recorded id. *)
Lemma plain_delete c id (w : W * server) : c <> CClusters -> exists e w',
  exec answer (if String.eqb id "" then Ret None else ask (NBDelete c id)) w = (e, w') /\ deleted e /\ removed c id w.2 w'.2.
Proof.
  intros Hc. destruct (String.eqb_spec id "") as [->|_].
  - exists None, w. split; [done|]. split; [done|]. apply removed_none.
  - destruct (delete_exec c id w Hc) as (e & s' & Hrun & He & Hrem). by exists e, (w.1, s').
Qed.

#[export] Instance network_releasing : Releasing NewNetworkReconciler network_target (fun _ _ => True).
Proof. intros o w _ _. by apply (plain_delete CNetworks). Qed.

#[export] Instance service_releasing `{SortSlice} mode_text req :
  Releasing (NewReverseProxyServiceReconciler mode_text) (service_target req) (fun _ _ => True).
Proof. intros o w _ _. by apply (plain_delete CServices). Qed.

#[export] Instance resource_releasing network :
  Releasing NewNetworkResourceReconciler (resource_target network) (fun _ _ => network <> ""%string).
Proof.
  intros o w Hrec Hn. cbn [m_del NewNetworkResourceReconciler]. unfold deleteNetworkResource.
  destruct (plain_delete (CResources network) (nres_ResourceID (NetworkResource_Status o)) w) as (e & w' & Hrun & Hrest); [done|].
  exists e, w'. split; [|exact Hrest]. rewrite <- Hrun. destruct Hrec as [Hid|(x & Hnet & _)]; cbn in *.
  - by rewrite Hid.
  - rewrite Hnet. destruct (String.eqb_spec network ""); [done|]. by destruct (String.eqb _ _).
Qed.

#[export] Instance record_releasing zone : Releasing NewDNSRecordReconciler (record_target zone) (fun _ _ => zone <> ""%string).
Proof.
  intros o w Hrec Hn. cbn [m_del NewDNSRecordReconciler]. unfold deleteDNSRecord.
  destruct (plain_delete (CRecords zone) (rec_RecordID (DNSRecord_Status o)) w) as (e & w' & Hrun & Hrest); [done|].
  exists e, w'. split; [|exact Hrest]. rewrite <- Hrun. destruct Hrec as [Hid|(x & Hz & _)]; cbn in *.
  - by rewrite Hid.
  - rewrite Hz. destruct (String.eqb_spec zone ""); [done|]. by destruct (String.eqb _ _).
Qed.

(** No other live resource has the zone: none declares its name in NetBird or
    records its id. *)
Definition sole_owner (o : DNSZone) (w : W * server) : Prop := forall z,
  zones w.2 !! zone_ZoneID (DNSZone_Status o) = Some z -> exists items,
    (kube (KList KDNSZone None None) w.1).1 = Ok items /\
    anotherLiveMatches DNSZone_Meta (DNSZone_Meta o) items (sharesZone o (api.z_Name z)) = false.

#[export] Instance zone_releasing gs : Releasing NewDNSZoneReconciler (zone_target gs) sole_owner.
Proof.
  intros o w _ Hsole. cbn [m_del NewDNSZoneReconciler t_coll t_id zone_target]. unfold deleteDNSZone.
  set (id := zone_ZoneID (DNSZone_Status o)).
  destruct (String.eqb_spec id "") as [->|Hne]; [exists None, w; split; [done|]; split; [done|]; apply removed_none|].
  cbn [bind ask perform]. rewrite (exec_call _ _ _ _ _ _ (answer_get_item iterate rand_Int64 kube CZones id w ltac:(done))).
  change (get_item (store_of CZones w.2) id) with
    (match zones w.2 !! id with Some x => Ok x | None => not_found end : result error api.Zone).
  destruct (zones w.2 !! id) as [z|] eqn:Hz.
  - destruct (Hsole z Hz) as (items & Hitems & Hothers). unfold dnsZoneSharedByOther, ask, perform. cbn [bind bind_result].
    assert (answer (KList KDNSZone None None) w = (Ok items, ((kube (KList KDNSZone None None) w.1).2, w.2))) as Hl.
    { rewrite answer_kube by done. by rewrite Hitems. }
    rewrite (exec_call _ _ _ _ _ _ Hl). cbn [bind]. rewrite Hothers.
    destruct (delete_exec CZones id ((kube (KList KDNSZone None None) w.1).2, w.2)) as (e & s' & Hrun & Hrest); [done|].
    by exists e, (((kube (KList KDNSZone None None) w.1).2), s').
  - rewrite not_found_api. cbn. rewrite mock_not_found. exists None, w. split; [done|]. split; [done|].
    constructor; [intros _; exact Hz|done|done].
Qed.

#[export] Instance group_releasing : Releasing group_mirror group_target (fun _ _ => True).
Proof. intros o w _ _. by apply (plain_delete CGroups). Qed.

Lemma group_releases recorder ns name : releases_as ns name (GroupCtl.Reconcile recorder ns name) group_mirror.
Proof.
  intros w o w1 e w2 Hg Hd Hrun He. unfold GroupCtl.Reconcile, Mirror.Reconcile.
  assert (deleting (Group_Meta o) = true) as Hd' by exact Hd.
  cbn [bind ask perform]. rewrite !(exec_call _ _ _ _ _ _ Hg), Hd, Hd'.
  unfold GroupCtl.reconcileDelete, Mirror.reconcileDelete. cbn [m_del group_mirror] in Hrun |- *.
  rewrite exec_bind. unfold group_release in Hrun |- *.
  destruct (String.eqb_spec (group_GroupID (Group_Status o)) "") as [_|_]; [done|].
  cbv iota in Hrun |- *. rewrite Hrun. etransitivity; [exact (exec_after _ _ _ _ _ Hrun)|].
  destruct e as [e|]; [|done]. cbn in He. by rewrite He.
Qed.
End lifecycle.

(** ** Concrete servers *)
Module LifecycleRun.
Import MockRun.

(** An API server that holds one Group. *)
Definition one_group (c : call) (g : Group) : resp c * Group :=
  match c with
  | KGet KGroup _ _ => (Ok g, g)
  | KPatch KGroup g' _ => (None, g')
  | c => (no_answer c, g)
  end.

Definition group_cr (name id : string) (deleted : option Z) : Group :=
  mkGroup (mkMeta name "default" "uid" ∅ ∅ [] deleted 1) (mkGroupSpec name) (mkGroupStatus 0 [] id).

(** Someone else's group; the recorded one is gone. *)
Definition others : server :=
  with_store CGroups Client {[ "g-1"%string := api.mkGroup "g-1" "theirs" [api.mkPeerMinimum "peer" "laptop"] [] ]} 0.

Definition reconcile_group : Group * server -> Group * server :=
  once iterate0 rand0 one_group (GroupCtl.Reconcile false "default" "ours").

Lemma one_group_leaves_nothing :
  let w := (group_cr "ours" "g-0" None, others) in
  let w1 := reconcile_group w in
  let w2 := reconcile_group w1 in
  let wd := (group_cr "ours" (group_GroupID (Group_Status w2.1)) (Some 0), w2.2) in
  groups w1.2 = {[ "g-1" := api.mkGroup "g-1" "theirs" [api.mkPeerMinimum "peer" "laptop"] []; "id-0" := api.mkGroup "id-0" "ours" [] [] ]} /\
  groups (reconcile_group wd).2 = groups w.2 /\
  exists w', finished iterate0 rand0 one_group (k := KGroup) id (GroupCtl.Reconcile false "default" "ours") group_mirror wd w' /\
    removed CGroups "id-0" w.2 w'.2.
Proof.
  cbn zeta. split; [vm_compute; reflexivity|]. split; [vm_compute; reflexivity|].
  refine (proj2 (mirror_leaves_nothing iterate0 rand0 one_group (k := KGroup) id "default" "ours"
    (GroupCtl.Reconcile false "default" "ours") group_mirror group_target (fun _ _ => True) (fun _ _ => True)
    (group_acts _ _ _ _ _ _) (group_releases _ _ _ _ _ _) 1 (group_cr "ours" "g-0" None, others) _ _ _ _ _ _ _ _));
    [|done..|split; vm_compute; reflexivity|done|done].
  constructor; [done|]. intros g o b. by repeat split.
Qed.

(** An API server that once refuses to store the status of a Network. *)
Definition flaky_network (c : call) (w : Network * bool) : resp c * (Network * bool) :=
  match c with
  | KGet KNetwork _ _ => (Ok w.1, w)
  | KPatch KNetwork o status =>
      if w.2 && status then (Some (ErrText "conflict"), (w.1, false)) else (None, (o, w.2))
  | c => (no_answer c, w)
  end.

(** The id of a network that was made is only in the status: when that is not
    stored, the next reconcile makes another network, and the first is never
    deleted. *)
Lemma lost_status_duplicates :
  let net := mkNetwork (mkMeta "corp" "default" "uid" ∅ ∅ [] None 1) (mkNetworkSpec "corp" "") (mkNetworkStatus 0 [] "") in
  let reconcile := once iterate0 rand0 flaky_network (Mirror.Reconcile NewNetworkReconciler false "default" "corp") in
  let w := Nat.iter 3 reconcile ((net, true), Client) in
  networks w.2 = {[ "id-0" := api.mkNetwork "id-0" "corp" None; "id-1" := api.mkNetwork "id-1" "corp" None ]} /\
  net_NetworkID (Network_Status w.1.1) = "id-1"%string.
Proof. split; vm_compute; reflexivity. Qed.
End LifecycleRun.
