(* ===== verification/Settle.v ===== *)
(** * Reverse-proxy services and routers against the mock

    The two upserts that read most of the cluster first.  A ReverseProxyService
    converges where its references are found, whatever the cluster cache holds;
    a NetworkRouter is reconciled as a mirror is ([router_acts]) once its peer
    group is known, and is released by the same theorems. *)

From stdpp Require Import base gmap list strings pretty.
From Stdlib Require Import ZArith.
From S2P Require Import Prelude Sort GoStrings GoErr Prog Router ApiTypes K8sTypes ApplyConf Env NetbirdUtil Reconcile Mirror NetworkMirror ServiceAddr DNSMirror Rps Ownership Identity Mock Converge Lifecycle.

Open Scope Z_scope.
Open Scope prog_scope.

(** ** The request of a service *)
Section render.
Context `{ErrorClass} `{K8sLib} `{SortSlice} (mode_text : api.ServiceRequestMode -> string).

(** The rest of a rendering whose cluster is found. *)
Definition render_for (cluster : api.ProxyCluster) (rps : ReverseProxyService) : M (result error api.ServiceRequest) :=
  let spec := ReverseProxyService_Spec rps in
  let '(mode, proto) := serviceMode (rps_Mode spec) in
  if negb (isHTTP mode) && (1 <? length (rps_Backends spec))%nat then
    Ret (Err (ErrText ("mode " +:+ mode_text mode
      +:+ " supports exactly one backend (NetBird relays L4 connections to a single target)")))
  else
    let? rendered := render_targets rps cluster mode proto (rps_Backends spec) [] "" in
    let '(targets, portLabel) := rendered in
    let domain := serviceDomainFor mode spec portLabel in
    let? groups :=
      if isHTTP mode && is_private spec then
        GetGroupIDs (rps_AccessGroups spec) (meta_Namespace (ReverseProxyService_Meta rps))
      else Ret (Ok []) in
    Ret (Ok (service_request rps mode domain (sortServiceTargets targets) groups)).

Lemma renderService_for rps :
  renderService mode_text rps =
    bind (GetProxyClusterByAddress (rps_ProxyCluster (ReverseProxyService_Spec rps))) (fun found =>
      match found with
      | Err e => Ret (Err (if errors_Is e ErrProxyClusterNotFound
          then dependency_not_ready ("proxy cluster " +:+ rps_ProxyCluster (ReverseProxyService_Spec rps) +:+ " not found")
          else e))
      | Ok cluster => render_for cluster rps
      end).
Proof. reflexivity. Qed.

Lemma exec_bind_result {W A B} (h : forall c, W -> resp c * W) (p p' : M (result error A))
    (f f' : A -> M (result error B)) w :
  exec h p w = exec h p' w -> (forall a w, exec h (f a) w = exec h (f' a) w) ->
  exec h (bind_result p f) w = exec h (bind_result p' f') w.
Proof.
  intros Hp Hf. unfold bind_result. rewrite !exec_bind, Hp. destruct (exec h p' w) as [[a|e] w']; [apply Hf|done].
Qed.

(** Of the cluster only the address counts, of the resource only the spec and
    the name. *)
Definition same_service (a b : ReverseProxyService) : Prop :=
  ReverseProxyService_Spec a = ReverseProxyService_Spec b /\
  meta_Name (ReverseProxyService_Meta a) = meta_Name (ReverseProxyService_Meta b) /\
  meta_Namespace (ReverseProxyService_Meta a) = meta_Namespace (ReverseProxyService_Meta b).

Lemma render_targets_same {W} (h : forall c, W -> resp c * W) a b c c' mode proto backends targets label w :
  same_service a b -> api.pc_Address c = api.pc_Address c' ->
  exec h (render_targets a c mode proto backends targets label) w =
  exec h (render_targets b c' mode proto backends targets label) w.
Proof.
  intros (Hs & Hn & Hns) Hc. revert targets label w. induction backends as [|be backends IH]; intros targets label w; [done|].
  cbn [render_targets]. rewrite Hns. destruct (isHTTP mode); cbn [negb]; (apply exec_bind_result; [done|]);
    intros [[host port] name] w'; [rewrite Hc|rewrite Hs]; apply IH.
Qed.

Lemma render_for_same {W} (h : forall c, W -> resp c * W) a b c c' w :
  same_service a b -> api.pc_Address c = api.pc_Address c' ->
  exec h (render_for c a) w = exec h (render_for c' b) w.
Proof.
  intros Hab Hc. pose proof Hab as (Hs & Hn & Hns). unfold render_for, service_request. rewrite Hs, Hn, Hns.
  destruct (serviceMode _) as [mode proto]. destruct (_ && _); [done|].
  apply exec_bind_result; [by apply render_targets_same|done].
Qed.

Lemma render_targets_elsewhere rps c mode proto backends targets label :
  calls_in (elsewhere KReverseProxyService CServices) (render_targets rps c mode proto backends targets label).
Proof.
  revert targets label. induction backends as [|b backends IH]; intros targets label; [done|].
  cbn [render_targets]. unfold resolveBackend, resolveL4Backend, backendFQDN, get_backend, no_ports.
  calls_run ltac:(apply IH).
Qed.

Lemma render_for_elsewhere c rps : calls_in (elsewhere KReverseProxyService CServices) (render_for c rps).
Proof.
  unfold render_for. destruct (serviceMode _) as [mode proto]. destruct (_ && _); [done|].
  apply calls_in_bind; [apply render_targets_elsewhere|]. intros [[targets label]|e]; [|done].
  apply calls_in_bind; [|by intros [?|?]]. destruct (_ && _); [|done]. by apply GetGroupIDs_elsewhere.
Qed.
End render.

Section settle.
Context (iterate : forall T, gmap string T -> list T) (rand_Int64 : nat -> Z).
Context {W : Type} (kube : forall c, W -> resp c * W).
Context `{ErrorClassLaws} `{K8sLibLaws}.

Abbreviation answer := (answer iterate rand_Int64 kube).

(** ** Reverse-proxy services *)
Section services.
Context `{SortSlice} (mode_text : api.ServiceRequestMode -> string) (req : api.ServiceRequest).
Context (Hkube : undisturbed kube KReverseProxyService CServices).

Abbreviation service_reads := (same_reads iterate rand_Int64 kube (k := KReverseProxyService) (c := CServices)).

Lemma lookup_cluster now match_ cache x (w : W * server) :
  x ∈ clusters w.2 -> match_ x = true -> exists cache' y,
    exec answer (lookup now (ask (NBList CClusters)) match_ cache) w = ((cache', Ok (Some y)), w) /\ match_ y = true.
Proof.
  intros Hx Hm. destruct (find_first_is_Some match_ (clusters w.2) x Hx Hm) as [y Hy].
  destruct (find_first_Some _ _ _ Hy) as [_ Hmy].
  assert (forall c : listCache api.ProxyCluster, exec answer (fetchLocked now (ask (NBList CClusters)) c) w =
    ((mkListCache (clusters w.2) true (now + listCacheTTL), Ok (clusters w.2)), w)) as Hfetch.
  { intros c. unfold fetchLocked. rewrite exec_bind. cbn. by destruct w. }
  unfold lookup, list_, refresh. rewrite exec_bind. destruct (lc_ok cache && _).
  - cbn [exec]. destruct (find_first match_ (lc_items cache)) as [z|] eqn:Hz.
    + destruct (find_first_Some _ _ _ Hz) as [_ Hmz]. by exists cache, z.
    + rewrite exec_bind, Hfetch. cbn [exec]. rewrite Hy. by eexists _, y.
  - rewrite Hfetch. cbv beta iota. rewrite Hy. by eexists _, y.
Qed.

(** A call to the clock or the caches. *)
Lemma exec_disturbing q (w : W * server) :
  disturbing KReverseProxyService q -> exists r k1, service_reads w (k1, w.2) /\
    forall A (f : resp q -> M A), exec answer (Call q f) w = exec answer (f r) (k1, w.2).
Proof.
  intros Hq. assert (answer q w = ((kube q w.1).1, ((kube q w.1).2, w.2))) as Ha by (apply answer_kube; by destruct q).
  exists (kube q w.1).1, (kube q w.1).2. split; [|intros; by apply exec_call].
  pose proof (same_reads_disturbed iterate rand_Int64 kube Hkube q w Hq) as Hs. by rewrite Ha in Hs.
Qed.

Definition known_cluster (address : string) (s : server) : Prop :=
  exists c, c ∈ clusters s /\ api.pc_Address c = address.

Lemma find_cluster address w : known_cluster address w.2 -> exists c k1,
  exec answer (GetProxyClusterByAddress address) w = (Ok c, (k1, w.2)) /\
  api.pc_Address c = address /\ service_reads w (k1, w.2).
Proof.
  intros (x & Hx & Haddr). unfold GetProxyClusterByAddress, ask at 1 2, perform. cbn [bind].
  destruct (exec_disturbing Now w) as (now & k1 & Hs1 & He1); [done|]. setoid_rewrite He1.
  destruct (exec_disturbing (CacheRead ClusterCache) (k1, w.2)) as (cache & k2 & Hs2 & He2); [done|].
  setoid_rewrite He2. cbn [snd].
  destruct (lookup_cluster now (fun c => String.eqb (api.pc_Address c) address) cache x (k2, w.2)) as (cache' & y & He & Hy);
    [done|by apply String.eqb_eq|].
  setoid_rewrite exec_bind. rewrite He. unfold ask, perform. cbn [bind].
  destruct (exec_disturbing (CacheWrite ClusterCache cache') (k2, w.2)) as (u & k3 & Hs3 & He3); [done|].
  setoid_rewrite He3. exists y, k3. split; [done|]. split; [by apply String.eqb_eq|].
  eapply same_reads_trans; [exact Hs1|]. eapply same_reads_trans; [exact Hs2|exact Hs3].
Qed.

(** The cluster is registered, and everything else the request is made of is
    found. *)
Definition rendered (o : obj KReverseProxyService) (w : W * server) : Prop :=
  let address := rps_ProxyCluster (ReverseProxyService_Spec o) in
  known_cluster address w.2 /\
  (exec answer (render_for mode_text (api.mkProxyCluster "" address true 0) o) w).1 = Ok req.

Lemma rendered_keep o w w' : clusters w'.2 = clusters w.2 -> service_reads w w' -> rendered o w -> rendered o w'.
Proof.
  intros Hc Hs [Hk Hr]. split; [unfold known_cluster; by rewrite Hc|].
  eapply reads_keep; [exact Hkube|apply render_for_elsewhere|exact Hs|exact Hr].
Qed.

Lemma rendered_same a b w : same_service a b -> rendered a w -> rendered b w.
Proof.
  intros Hab [Hk Hr]. pose proof Hab as (Hs & _). unfold rendered. rewrite <- Hs. split; [done|].
  by rewrite <- (render_for_same _ _ a b _ _ w Hab eq_refl).
Qed.

Lemma service_renders : renders iterate rand_Int64 kube mode_text req rendered.
Proof.
  constructor.
  - intros a b (Hs & Hn & Hns & _) w ? <-. split; apply rendered_same; by repeat split.
  - intros o o' b w. apply rendered_keep; [|by apply same_reads_disturbed].
    by rewrite answer_kube by done.
  - intros o o' w s Hr Hs Hspec Hm. cbn in Hspec, Hm.
    eapply (rendered_same o o'); [unfold same_service; rewrite Hspec, Hm; done|].
    eapply rendered_keep; [|by apply same_reads_stored|exact Hr]. apply Hs.
  - intros o w Hr. pose proof Hr as [Hk Hreq]. destruct (find_cluster _ w Hk) as (c & k1 & Hf & Hc & Hs).
    exists k1. split; [|by apply (rendered_keep o w)]. rewrite renderService_for, exec_bind, Hf. cbv beta iota.
    rewrite (render_for_same _ _ o o c (api.mkProxyCluster "" (rps_ProxyCluster (ReverseProxyService_Spec o)) true 0)) by done.
    apply (exec_read iterate rand_Int64 kube Hkube); [apply render_for_elsewhere|].
    eapply reads_keep; [exact Hkube|apply render_for_elsewhere|exact Hs|exact Hreq].
Qed.

#[export] Instance service_settles :
  Converging iterate rand_Int64 kube (NewReverseProxyServiceReconciler mode_text) (service_target req) rendered.
Proof. exact (service_converging _ _ _ _ _ _ service_renders). Qed.
End services.

(** ** Routers *)
Section routers.
Context (ClientImage ManagementURL network gid : string).
Context (Hkube : undisturbed kube KNetworkRouter (CRouters network)).

Abbreviation router_reads := (same_reads iterate rand_Int64 kube (k := KNetworkRouter) (c := CRouters network)).
Abbreviation peerGroup := (resolvePeerGroup ClientImage ManagementURL).

(** What the peers of a router depend on. *)
Definition same_router (a b : NetworkRouter) : Prop :=
  NetworkRouter_Spec a = NetworkRouter_Spec b /\
  meta_Name (NetworkRouter_Meta a) = meta_Name (NetworkRouter_Meta b) /\
  meta_Namespace (NetworkRouter_Meta a) = meta_Namespace (NetworkRouter_Meta b) /\
  meta_UID (NetworkRouter_Meta a) = meta_UID (NetworkRouter_Meta b).

Definition router_item (o : NetworkRouter) (id : string) : api.NetworkRouter :=
  let spec := NetworkRouter_Spec o in
  api.mkNetworkRouter id (router_Enabled spec) (router_Masquerade spec) (router_Metric spec) (Some [gid]).

Definition router_target : target (k := KNetworkRouter) :=
  mkTarget (k := KNetworkRouter)
    (fun a b => same_router a b /\
       router_NetworkID (NetworkRouter_Status a) = router_NetworkID (NetworkRouter_Status b) /\
       router_GroupID (NetworkRouter_Status a) = router_GroupID (NetworkRouter_Status b) /\
       router_RouterID (NetworkRouter_Status a) = router_RouterID (NetworkRouter_Status b))
    (CRouters network) (fun o => router_RouterID (NetworkRouter_Status o))
    (fun o x => router_NetworkID (NetworkRouter_Status o) = network /\ router_GroupID (NetworkRouter_Status o) = gid /\
       x = router_item o (router_RouterID (NetworkRouter_Status o))).

#[export] Instance router_core : Core router_target.
Proof.
  constructor; cbn.
  - split; red; unfold same_router; naive_solver congruence.
  - unfold same_router. naive_solver.
  - by repeat split.
  - by repeat split.
  - intros a b (_ & _ & _ & Hi). exact Hi.
  - intros a b ((Hs & _) & Hn & Hg & Hi) x ? <-. unfold router_item. by rewrite Hs, Hn, Hg, Hi.
Qed.

(** Where the peer group is known, whichever way. *)
Record provides (peers : NetworkRouter -> W * server -> Prop) : Prop := {
  provides_same : forall a b w, same_router a b -> peers a w -> peers b w;
  provides_patch : forall o o' b w, peers o w -> peers o (answer (KPatch KNetworkRouter o' b) w).2;
  provides_stored : forall o w s, peers o w -> others_kept (CRouters network) w.2 s -> peers o (w.1, s);
  provides_group : forall o w, peers o w -> exists k1,
    exec answer (peerGroup o) w = (Ok gid, (k1, w.2)) /\ peers o (k1, w.2) /\ router_reads w (k1, w.2)
}.

Definition router_upsert (nr : NetworkRouter) : M (NetworkRouter * option error) :=
  let! found := resolveNetworkID (router_NetworkRef (NetworkRouter_Spec nr)) in
  match found with
  | Err e => Ret (nr, Some e)
  | Ok networkID =>
      let nr := set_network nr networkID in
      let! group := peerGroup nr in
      match group with
      | Err e => Ret (nr, Some e)
      | Ok groupID =>
          let nr := set_group nr groupID in
          let! r := upsertRouter networkID (router_RouterID (NetworkRouter_Status nr)) groupID (NetworkRouter_Spec nr) in
          Ret (match r with Ok id => (set_router nr id, None) | Err e => (nr, Some e) end)
      end
  end.
Definition router_release (nr : NetworkRouter) : M (option error) :=
  let st := NetworkRouter_Status nr in
  if negb (String.eqb (router_NetworkID st) "") && negb (String.eqb (router_RouterID st) "")
  then ask (NBDelete (CRouters (router_NetworkID st)) (router_RouterID st)) else Ret None.
Definition router_mirror : mirror KNetworkRouter :=
  mkMirror (k := KNetworkRouter) "router" "networkrouter" router_upsert router_release "".

Lemma router_acts ns name :
  acts_as iterate rand_Int64 kube ns name (Router.Reconcile ClientImage ManagementURL ns name) router_mirror.
Proof.
  intros w o w1 w2 o2 w3. cbn zeta. intros Hg Hd Hp Hrun. unfold Mirror.Reconcile, Router.Reconcile, patch.
  assert (deleting (NetworkRouter_Meta o) = false) as Hd' by exact Hd.
  set (o1 := add_finalizer (k := KNetworkRouter) o router_finalizer). change (add_finalizer o _) with o1 in Hp, Hrun.
  cbn [bind ask perform]. rewrite !(exec_call _ _ _ _ _ _ Hg), Hd, Hd'. change (add_finalizer o _) with o1.
  cbn [then_outcome bind ask perform]. rewrite !(exec_call _ _ _ _ _ _ Hp).
  etransitivity; [|symmetry; exact (exec_after iterate rand_Int64 kube _ _ _ _ _ Hrun)].
  cbn [m_apply router_mirror] in Hrun.
  unfold router_upsert in Hrun. unfold sync. rewrite exec_bind in Hrun. rewrite exec_bind.
  destruct (exec answer (resolveNetworkID _) w2) as [[networkID|e] w4]; [|discriminate Hrun].
  cbv zeta in Hrun |- *. rewrite exec_bind in Hrun. rewrite exec_bind.
  destruct (exec answer (peerGroup _) w4) as [[groupID|e] w5]; [|discriminate Hrun].
  unfold bind_outcome. rewrite exec_bind in Hrun. rewrite exec_bind.
  destruct (exec answer (upsertRouter _ _ _ _) w5) as [[id|e] w6]; [|discriminate Hrun].
  cbn [exec] in Hrun. by injection Hrun as <- <-.
Qed.

(** The network and the peer group are known. *)
Definition router_refs (peers : NetworkRouter -> W * server -> Prop) (o : obj KNetworkRouter) (w : W * server) : Prop :=
  (exec answer (resolveNetworkID (router_NetworkRef (NetworkRouter_Spec o))) w).1 = Ok network /\ peers o w.

Lemma router_reads_network ref w w' : router_reads w w' ->
  (exec answer (resolveNetworkID ref) w).1 = Ok network -> (exec answer (resolveNetworkID ref) w').1 = Ok network.
Proof. intros Hs. eapply reads_keep; [exact Hkube|by apply resolveNetworkID_elsewhere|exact Hs]. Qed.

Lemma upsertRouter_exec id spec (w : W * server) : exists id' x n,
  exec answer (upsertRouter network id gid spec) w =
    (Ok id', (w.1, with_store (CRouters network) w.2 (<[id' := x]> (store_of (CRouters network) w.2)) n)) /\
  id' <> ""%string /\
  x = api.mkNetworkRouter id' (router_Enabled spec) (router_Masquerade spec) (router_Metric spec) (Some [gid]) /\
  (id <> ""%string -> is_Some (store_of (CRouters network) w.2 !! id) -> id' = id /\ n = drawn w.2).
Proof.
  unfold upsertRouter, bind_result. rewrite exec_bind, verify_exec by done. cbv beta iota.
  destruct (found_cases (CRouters network) w.2 id) as [[-> Hnone]|(old & -> & Hne & Hold)].
  - cbn [String.eqb negb]. do 3 eexists. split; [etransitivity; [eapply exec_create; [done|reflexivity]|reflexivity]|].
    split; [apply mock_id_set|]. split; [reflexivity|]. intros Hne Hs. by destruct Hnone.
  - rewrite (proj2 (String.eqb_neq _ _) Hne). cbn [negb]. do 3 eexists.
    split; [etransitivity; [eapply exec_update; [done|exact Hold|reflexivity]|reflexivity]|]. by repeat split.
Qed.

#[export] Instance router_settles peers (Hpeers : provides peers) :
  Converging iterate rand_Int64 kube router_mirror router_target (router_refs peers).
Proof.
  constructor.
  - intros a b (Hab & _) w ? <-. pose proof Hab as (Hs & Hn & Hns & Hu). unfold router_refs. rewrite Hs.
    split; intros [Hr Hp]; (split; [done|]); eapply (provides_same _ Hpeers); try exact Hp; by repeat split.
  - intros o o' b w [Hr Hp]. split; [|by apply (provides_patch _ Hpeers)].
    eapply router_reads_network; [by apply same_reads_disturbed|done].
  - intros o w [Hr Hp]. cbn [m_apply router_mirror]. unfold router_upsert. rewrite exec_bind.
    rewrite (exec_read iterate rand_Int64 kube Hkube _ _ _ (resolveNetworkID_elsewhere KNetworkRouter (CRouters network) _ ltac:(done)) Hr).
    cbv beta iota zeta. set (o1 := set_network o network).
    assert (peers o1 w) as Hp1 by (eapply (provides_same _ Hpeers); [|exact Hp]; by repeat split).
    destruct (provides_group _ Hpeers o1 w Hp1) as (k1 & Hg & Hp2 & Hs). rewrite exec_bind, Hg. cbv beta iota zeta.
    set (o2 := set_group o1 gid). rewrite exec_bind.
    destruct (upsertRouter_exec (router_RouterID (NetworkRouter_Status o2)) (NetworkRouter_Spec o2) (k1, w.2))
      as (id' & x & n & He & Hne & Hx & Hsame). rewrite He.
    eexists _, _. split; [reflexivity|].
    eapply (upserted router_target (router_refs peers) _ (set_router o2 id') w k1 id' x n); try done.
    + split.
      * eapply router_reads_network; [|exact Hr]. eapply same_reads_trans; [exact Hs|].
        apply (same_reads_stored iterate rand_Int64 kube Hkube (k1, w.2)), others_with_store.
      * eapply (provides_same _ Hpeers o1); [by repeat split|].
        apply (provides_stored _ Hpeers o1 (k1, w.2)); [done|apply others_with_store].
    + intros (Hid & y & Hy & Hnet & Hgid & ->). cbn in Hid, Hy, Hnet, Hgid.
      assert (router_RouterID (NetworkRouter_Status o2) = router_RouterID (NetworkRouter_Status o)) as Hsid.
      { cbn. rewrite Hnet, String.eqb_refl. by rewrite andb_false_r. }
      rewrite Hsid in Hsame. destruct (Hsame Hid) as [-> ->]; [by eexists|].
      split; [cbn; by repeat split|]. rewrite Hx. by apply (stored_same (CRouters network)).
Qed.

#[export] Instance router_releasing : Releasing iterate rand_Int64 kube router_mirror router_target (fun _ _ => network <> ""%string).
Proof.
  intros o w Hrec Hn. cbn [m_del router_mirror]. unfold router_release.
  destruct (plain_delete iterate rand_Int64 kube (CRouters network) (router_RouterID (NetworkRouter_Status o)) w)
    as (e & w' & Hrun & Hrest); [done|].
  exists e, w'. split; [|exact Hrest]. rewrite <- Hrun. destruct Hrec as [Hid|(x & Hnet & _)]; cbn in *.
  - by rewrite Hid, andb_false_r.
  - rewrite Hnet. destruct (String.eqb_spec network ""); [done|]. by destruct (String.eqb _ _).
Qed.

Lemma delete_tolerant_run c id (w w' : W * server) e :
  exec answer (ask (NBDelete c id)) w = (e, w') -> deleted e -> exec answer (delete_tolerant c id) w = (None, w').
Proof.
  intros Hrun He. etransitivity; [exact (exec_after iterate rand_Int64 kube _ _ _ _ _ Hrun)|].
  destruct e as [e|]; cbn in *; [by rewrite He|done].
Qed.

Lemma router_releases ns name :
  releases_as iterate rand_Int64 kube ns name (Router.Reconcile ClientImage ManagementURL ns name) router_mirror.
Proof.
  intros w o w1 e w2 Hg Hd Hrun He. unfold Router.Reconcile, Mirror.Reconcile.
  assert (deleting (NetworkRouter_Meta o) = true) as Hd' by exact Hd.
  cbn [bind ask perform]. rewrite !(exec_call _ _ _ _ _ _ Hg), Hd, Hd'.
  unfold Router.reconcileDelete, Mirror.reconcileDelete, then_outcome at 1. cbn [m_del router_mirror] in Hrun |- *.
  rewrite (exec_bind _ (router_release o)), Hrun. unfold router_release in Hrun.
  destruct (_ && _); [|by injection Hrun as <- <-].
  rewrite exec_bind, (delete_tolerant_run _ _ _ _ _ Hrun He). destruct e as [e|]; cbn in He; [|done].
  by rewrite He.
Qed.

(** *** An existing group *)
Definition group_known (o : NetworkRouter) (w : W * server) : Prop :=
  peers_Group (router_Peers (NetworkRouter_Spec o)) <> None /\ (exec answer (peerGroup o) w).1 = Ok gid.

Lemma peerGroup_elsewhere o : peers_Group (router_Peers (NetworkRouter_Spec o)) <> None ->
  calls_in (elsewhere KNetworkRouter (CRouters network)) (peerGroup o).
Proof.
  intros Hg. unfold resolvePeerGroup. destruct (peers_Group _) as [g|]; [|done].
  apply calls_in_bind; [by apply GetGroupIDs_elsewhere|]. by intros [?|?].
Qed.

Lemma peerGroup_same a b : same_router a b -> peerGroup a = peerGroup b.
Proof.
  intros (Hs & Hn & Hns & Hu). unfold resolvePeerGroup, ensureDeployedPeers, ensureDaemonSet, ControllerReference,
    router_daemonset, router_key_ac, router_group_ac, router_child, router_group_name, router_labels, router_pod,
    router_container, router_image, router_log_level.
  by rewrite Hs, Hn, Hns, Hu.
Qed.

Lemma group_provides : provides group_known.
Proof.
  assert (forall o w w', router_reads w w' -> group_known o w -> group_known o w') as Hkeep.
  { intros o w w' Hs [Hg Hr]. split; [done|]. eapply reads_keep; [exact Hkube|by apply peerGroup_elsewhere|exact Hs|exact Hr]. }
  constructor.
  - intros a b w Hab [Hg Hr]. split; [by rewrite <- (proj1 Hab)|]. by rewrite <- (peerGroup_same a b Hab).
  - intros o o' b w. by apply Hkeep, same_reads_disturbed.
  - intros o w s Hp Hs. eapply Hkeep; [by apply same_reads_stored|done].
  - intros o w Hp. pose proof Hp as [Hg Hr]. exists w.1. split; [|split; [by destruct w|by destruct w]].
    rewrite <- surjective_pairing. apply (exec_read iterate rand_Int64 kube Hkube); [by apply peerGroup_elsewhere|done].
Qed.

(** *** Peers the operator deploys *)
Definition served (k1 : W) (q : call) (r : resp q) : Prop := kube q k1 = (r, k1).

(** Group, setup key and DaemonSet are applied - applying them again changes
    nothing -, both resources have their NetBird ids and every pod is ready. *)
Definition children_ready (o : NetworkRouter) (w : W * server) : Prop :=
  let ns := meta_Namespace (NetworkRouter_Meta o) in
  let name := router_child o in
  peers_Group (router_Peers (NetworkRouter_Spec o)) = None /\ exists owner group key ds,
    ControllerReference KNetworkRouter (NetworkRouter_Meta o) = Ok owner /\
    served w.1 (KApply (router_group_ac o owner)) None /\
    served w.1 (KGet KGroup ns name) (Ok group) /\ group_GroupID (Group_Status group) = gid /\
    served w.1 (KApply (router_key_ac o owner)) None /\
    served w.1 (KGet KSetupKey ns name) (Ok key) /\ sk_SetupKeyID (SetupKey_Status key) <> ""%string /\
    served w.1 (KApply (router_daemonset ClientImage ManagementURL o owner key)) None /\
    served w.1 (KGet KDaemonSet ns name) (Ok ds) /\
    ds_DesiredNumberScheduled ds <> 0 /\ ds_NumberReady ds = ds_DesiredNumberScheduled ds.

(** A patch of a router leaves its children alone. *)
Definition steady : Prop := forall q (r : resp q) o b k1,
  match q with KApply _ | KGet KGroup _ _ | KGet KSetupKey _ _ | KGet KDaemonSet _ _ => True | _ => False end ->
  served k1 q r -> served (kube (KPatch KNetworkRouter o b) k1).2 q r.

Lemma exec_served {A} q (r : resp q) (f : resp q -> M A) w :
  served w.1 q r -> serve iterate rand_Int64 q w.2 = None -> exec answer (Call q f) w = exec answer (f r) w.
Proof.
  intros Hr Hq. apply exec_call. rewrite answer_kube by done. rewrite Hr. by destruct w.
Qed.

Lemma children_same a b w : same_router a b -> children_ready a w -> children_ready b w.
Proof.
  intros (Hs & Hn & Hns & Hu). unfold children_ready, ControllerReference, router_daemonset, router_key_ac, router_group_ac,
    router_child, router_group_name, router_labels, router_pod, router_container, router_image, router_log_level.
  by rewrite Hs, Hn, Hns, Hu.
Qed.

Lemma children_provide : gid <> ""%string -> steady -> provides children_ready.
Proof.
  intros Hgid Hsteady. constructor.
  - intros a b w. apply children_same.
  - intros o o' b w (Hnone & owner & group & key & ds & Ho & H3 & H4 & Hg & H5 & H6 & Hk & H7 & H8 & Hd & Hr).
    rewrite answer_kube by done. split; [done|]. exists owner, group, key, ds. cbn [fst].
    split_and!; try assumption; first
      [ refine (Hsteady (KApply _) _ _ _ _ I _); assumption | refine (Hsteady (KGet KGroup _ _) _ _ _ _ I _); assumption
      | refine (Hsteady (KGet KSetupKey _ _) _ _ _ _ I _); assumption
      | refine (Hsteady (KGet KDaemonSet _ _) _ _ _ _ I _); assumption ].
  - intros o w s (Hnone & Hc) _. by split.
  - intros o w Hp. exists w.1. split; [|by destruct w]. rewrite <- surjective_pairing.
    destruct Hp as (Hnone & owner & group & key & ds & Ho & H3 & H4 & Hg & H5 & H6 & Hk & H7 & H8 & Hd & Hr).
    unfold resolvePeerGroup, ensureDeployedPeers, ensureDaemonSet. rewrite Hnone, Ho.
    unfold then_result, ask, perform. cbn [bind].
    rewrite (exec_served _ _ _ w H3 eq_refl), (exec_served _ _ _ w H4 eq_refl). rewrite Hg.
    destruct (String.eqb_spec gid ""); [done|].
    rewrite (exec_served _ _ _ w H5 eq_refl), (exec_served _ _ _ w H6 eq_refl).
    destruct (String.eqb_spec (sk_SetupKeyID (SetupKey_Status key)) ""); [done|].
    rewrite (exec_served _ _ _ w H7 eq_refl), (exec_served _ _ _ w H8 eq_refl).
    rewrite Hr, Z.eqb_refl. by destruct (Z.eqb_spec (ds_DesiredNumberScheduled ds) 0).
Qed.
End routers.
End settle.

(** ** Concrete servers *)
Module SettleRun.
Import MockRun.

Definition meta (name : string) : ObjectMeta := mkMeta name "default" ("uid-" +:+ name) ∅ ∅ [] None 1.

(** A router with deployed peers whose children are there. *)
Definition router_cr : NetworkRouter :=
  mkNetworkRouter (meta "edge")
    (mkNetworkRouterSpec (mkRef "corp" "default") (mkNetworkRouterPeers None None) true 9999 true)
    (mkNetworkRouterStatus 0 [] "" "" "").

Definition one_router (c : call) (nr : NetworkRouter) : resp c * NetworkRouter :=
  match c with
  | KGet KNetworkRouter _ _ => (Ok nr, nr)
  | KPatch KNetworkRouter nr' _ => (None, nr')
  | KGet KNetwork _ name => (Ok (mkNetwork (meta name) (mkNetworkSpec name "") (mkNetworkStatus 0 [] "n-1")), nr)
  | KGet KGroup _ name => (Ok (mkGroup (meta name) (mkGroupSpec name) (mkGroupStatus 0 [] "g-1")), nr)
  | KGet KSetupKey _ name => (Ok (mkSetupKey (meta name) (mkSetupKeySpec name true false None []) (mkSetupKeyStatus 0 [] "k-1")), nr)
  | KGet KDaemonSet _ name => (Ok (mkDaemonSet (meta name) 2 2), nr)
  | c => (no_answer c, nr)
  end.

Definition reconcile_router : NetworkRouter * server -> NetworkRouter * server :=
  once iterate0 rand0 one_router (Router.Reconcile "client" "https://api.netbird.io" "default" "edge").

Lemma one_router_undisturbed : undisturbed one_router KNetworkRouter (CRouters "n-1").
Proof.
  constructor.
  - intros [[]| | | | | |[]|[]| | | | | | |[]|[]|] w Hq; cbn in *; try done; by destruct Hq.
  - intros [[]| | | | | |[]|[]| | | | | | |[]|[]|] q w Hq Hd; cbn in *; try done.
Qed.

Lemma one_router_steady : steady one_router.
Proof. by intros [[]| | | | | |[]|[]| | | | | | |[]|[]|] r0 nr0 b0 k1 Hq Hr; cbn in *; try done; inversion Hr; subst. Qed.

Lemma one_router_stores : stores_cr (k := KNetworkRouter) one_router id "default" "edge" (router_target "n-1" "g-1").
Proof. by constructor. Qed.

(** The children of the router are there and ready. *)
Lemma one_router_refs :
  router_refs iterate0 rand0 one_router "n-1" (children_ready one_router "client" "https://api.netbird.io" "g-1")
    router_cr (router_cr, Client).
Proof. split; [reflexivity|]. split; [done|]. do 4 eexists. split_and!; reflexivity || done. Qed.
End SettleRun.
