(* ===== verification/Convergence.v ===== *)
(** * Convergence and clean-up, kind by kind

    The whole life of every resource that has one object in NetBird, against the
    in-memory API: the theorems of [Converge.v], [Lifecycle.v] and [Settle.v]
    for each of the seven controllers' own upsert and delete. *)

From stdpp Require Import base gmap list strings pretty.
From Stdlib Require Import ZArith.
From S2P Require Import Prelude Sort GoStrings GoErr Prog GroupCtl Router ApiTypes K8sTypes ApplyConf Env NetbirdUtil Reconcile Mirror NetworkMirror ServiceAddr DNSMirror Rps Ownership Identity Mock Converge Lifecycle Settle.

Open Scope Z_scope.
Open Scope prog_scope.

Section kinds.
Context (iterate : forall T, gmap string T -> list T) (rand_Int64 : nat -> Z).
Context {W : Type} (kube : forall c, W -> resp c * W).
Context `{ErrorClass} `{K8sLib} (ns name : string).

Abbreviation answer := (answer iterate rand_Int64 kube).
Abbreviation once := (once iterate rand_Int64 kube).

Section kind.
Context {k : kind} `{MirrorObject k} `{!Specified k}.
Context (cr : W -> obj k) (R : M outcome) (T : target (k := k)) (good : obj k -> W * server -> Prop).

(** From any state: one reconcile reaches the declared object, all others keep
    it. *)
Definition kind_converges : Prop := forall n w,
  stores_cr kube cr ns name T -> good (cr w.1) w -> deleting (GetMeta (cr w.1)) = false ->
  let w1 := once R w in
  let w2 := Nat.iter n (once R) w1 in
  (exec answer R w).1 = (requeue_after resyncInterval, None) /\
  reached cr T good w w1 /\ reached cr T good w1 w2 /\ same_core T (cr w1.1) (cr w2.1) /\ w2.2 = w1.2.

(** Reconciled, and deleted where no other resource shares its object: the last
    reconcile takes the finalizer off and leaves every other object as it was
    before the first. *)
Definition kind_leaves_nothing (finalizer : string) (sole : obj k -> W * server -> Prop) : Prop := forall n w wd,
  stores_cr kube cr ns name T -> good (cr w.1) w -> deleting (GetMeta (cr w.1)) = false ->
  let w1 := once R w in
  let w2 := Nat.iter n (once R) w1 in
  wd.2 = w2.2 -> same_core T (cr w2.1) (cr wd.1) -> deleting (GetMeta (cr wd.1)) = true -> sole (cr wd.1) wd ->
  t_id T (cr w1.1) <> ""%string /\
  exists w', exec answer R wd =
      ((no_requeue, None), (answer (KPatch k (remove_finalizer (cr wd.1) (Finalizer finalizer)) false) w').2) /\
    removed (t_coll T) (t_id T (cr w1.1)) w.2 w'.2.

Context `{!MirrorObjectLaws k} `{!K8sLibLaws} (m : mirror k) `{!Core T} `{!Converging iterate rand_Int64 kube m T good}.
Context (Hacts : acts_as iterate rand_Int64 kube ns name R m).

Lemma acting_converges : kind_converges.
Proof.
  intros n w Hst Hg Hd. split; [by eapply Reconcile_reaches|]. by apply (mirror_settles iterate rand_Int64 kube cr ns name R m).
Qed.

Lemma acting_leaves_nothing sole :
  Releasing iterate rand_Int64 kube m T sole -> releases_as iterate rand_Int64 kube ns name R m ->
  kind_leaves_nothing (m_finalizer m) sole.
Proof. intros Hs Hrel n w wd. by apply (mirror_leaves_nothing iterate rand_Int64 kube cr ns name R m T good sole). Qed.
End kind.
End kinds.

Section theorems.
Context `{ErrorClassLaws} `{K8sLibLaws} `{SortSlice}.
Context (iterate : forall T, gmap string T -> list T) (rand_Int64 : nat -> Z) {W : Type}.
Context (kube : forall c, W -> resp c * W) (ns name : string).

Abbreviation converges k := (kind_converges iterate rand_Int64 kube ns name (k := k)).
Abbreviation leaves_nothing k := (kind_leaves_nothing iterate rand_Int64 kube ns name (k := k)).

(** C12: seven controllers converge against the in-memory API. Whatever the
    status of the resource and whatever NetBird holds, one reconcile ends without
    error, with the declared object - name, address, domain, groups, content, TTL
    or settings of the spec - present under the recorded id, the resource ready
    and its spec as it was, and every other object of NetBird untouched; every
    further reconcile keeps it so, under the same id and with no change to
    NetBird. Where a resource refers to others, these are found: the network or
    zone with its id, the groups, the backends of a service, and the peers of a
    router - an existing group, or deployed peers that are ready. *)
Theorem reconcilers_converge :
  (forall cr, converges KNetwork cr (Mirror.Reconcile NewNetworkReconciler false ns name)
     network_target (fun _ _ => True)) /\
  (forall cr network gs, undisturbed kube KNetworkResource (CResources network) ->
     converges KNetworkResource cr (Mirror.Reconcile NewNetworkResourceReconciler false ns name)
       (resource_target network) (resource_refs iterate rand_Int64 kube network gs)) /\
  (forall cr gs, undisturbed kube KDNSZone CZones ->
     converges KDNSZone cr (Mirror.Reconcile NewDNSZoneReconciler false ns name)
       (zone_target gs) (zone_refs iterate rand_Int64 kube gs)) /\
  (forall cr zone, undisturbed kube KDNSRecord (CRecords zone) ->
     converges KDNSRecord cr (Mirror.Reconcile NewDNSRecordReconciler false ns name)
       (record_target zone) (record_refs iterate rand_Int64 kube zone)) /\
  (forall cr mode_text req, undisturbed kube KReverseProxyService CServices ->
     converges KReverseProxyService cr (Mirror.Reconcile (NewReverseProxyServiceReconciler mode_text) false ns name)
       (service_target req) (rendered iterate rand_Int64 kube mode_text req)) /\
  (forall cr recorder, converges KGroup cr (GroupCtl.Reconcile recorder ns name) group_target (fun _ _ => True)) /\
  (forall cr ClientImage ManagementURL network gid, undisturbed kube KNetworkRouter (CRouters network) ->
     let R := Router.Reconcile ClientImage ManagementURL ns name in
     converges KNetworkRouter cr R (router_target network gid)
       (router_refs iterate rand_Int64 kube network
          (group_known iterate rand_Int64 kube ClientImage ManagementURL gid)) /\
     (gid <> ""%string -> steady kube ->
      converges KNetworkRouter cr R (router_target network gid)
        (router_refs iterate rand_Int64 kube network (children_ready kube ClientImage ManagementURL gid)))).
Proof.
  split_and!.
  - intros cr. apply (acting_converges _ _ _ _ _ _ _ _ _ NewNetworkReconciler), mirror_acts.
  - intros cr network gs Hk. pose proof (resource_converging iterate rand_Int64 kube network gs Hk).
    apply (acting_converges _ _ _ _ _ _ _ _ _ NewNetworkResourceReconciler), mirror_acts.
  - intros cr gs Hk. pose proof (zone_converging iterate rand_Int64 kube gs Hk).
    apply (acting_converges _ _ _ _ _ _ _ _ _ NewDNSZoneReconciler), mirror_acts.
  - intros cr zone Hk. pose proof (record_converging iterate rand_Int64 kube zone Hk).
    apply (acting_converges _ _ _ _ _ _ _ _ _ NewDNSRecordReconciler), mirror_acts.
  - intros cr mode_text req Hk. pose proof (service_settles iterate rand_Int64 kube mode_text req Hk).
    apply (acting_converges _ _ _ _ _ _ _ _ _ (NewReverseProxyServiceReconciler mode_text)), mirror_acts.
  - intros cr recorder. apply (acting_converges _ _ _ _ _ _ _ _ _ group_mirror), group_acts.
  - intros cr image url network gid Hk. cbn zeta. split.
    + pose proof (router_settles iterate rand_Int64 kube image url network gid Hk _ (group_provides _ _ _ _ _ _ _ Hk)).
      apply (acting_converges _ _ _ _ _ _ _ _ _ (router_mirror image url)), router_acts.
    + intros Hgid Hst. pose proof (router_settles iterate rand_Int64 kube image url network gid Hk _
        (children_provide _ _ _ _ _ _ _ Hgid Hst)).
      apply (acting_converges _ _ _ _ _ _ _ _ _ (router_mirror image url)), router_acts.
Qed.

(** C13: nothing is left of a deleted resource of these seven controllers.
    Reconciled any number of times and then deleted, from any state of NetBird,
    its last reconcile ends without error and with its finalizer taken off, its
    object gone, and every other object of NetBird as it was before the first -
    for a DNSZone, where no other live resource declares or records the zone. *)
Theorem reconcilers_leave_nothing :
  (forall cr, leaves_nothing KNetwork cr (Mirror.Reconcile NewNetworkReconciler false ns name)
     network_target (fun _ _ => True) "network" (fun _ _ => True)) /\
  (forall cr network gs, undisturbed kube KNetworkResource (CResources network) ->
     leaves_nothing KNetworkResource cr (Mirror.Reconcile NewNetworkResourceReconciler false ns name)
       (resource_target network) (resource_refs iterate rand_Int64 kube network gs)
       "networkresource" (fun _ _ => network <> ""%string)) /\
  (forall cr gs, undisturbed kube KDNSZone CZones ->
     leaves_nothing KDNSZone cr (Mirror.Reconcile NewDNSZoneReconciler false ns name)
       (zone_target gs) (zone_refs iterate rand_Int64 kube gs) "dnszone" (sole_owner kube)) /\
  (forall cr zone, undisturbed kube KDNSRecord (CRecords zone) ->
     leaves_nothing KDNSRecord cr (Mirror.Reconcile NewDNSRecordReconciler false ns name)
       (record_target zone) (record_refs iterate rand_Int64 kube zone) "dnsrecord" (fun _ _ => zone <> ""%string)) /\
  (forall cr mode_text req, undisturbed kube KReverseProxyService CServices ->
     leaves_nothing KReverseProxyService cr (Mirror.Reconcile (NewReverseProxyServiceReconciler mode_text) false ns name)
       (service_target req) (rendered iterate rand_Int64 kube mode_text req) "reverseproxyservice" (fun _ _ => True)) /\
  (forall cr recorder, leaves_nothing KGroup cr (GroupCtl.Reconcile recorder ns name)
     group_target (fun _ _ => True) "group" (fun _ _ => True)) /\
  (forall cr ClientImage ManagementURL network gid, undisturbed kube KNetworkRouter (CRouters network) ->
     let R := Router.Reconcile ClientImage ManagementURL ns name in
     leaves_nothing KNetworkRouter cr R (router_target network gid)
       (router_refs iterate rand_Int64 kube network
          (group_known iterate rand_Int64 kube ClientImage ManagementURL gid))
       "networkrouter" (fun _ _ => network <> ""%string) /\
     (gid <> ""%string -> steady kube ->
      leaves_nothing KNetworkRouter cr R (router_target network gid)
        (router_refs iterate rand_Int64 kube network (children_ready kube ClientImage ManagementURL gid))
        "networkrouter" (fun _ _ => network <> ""%string))).
Proof.
  split_and!.
  - intros cr. apply (acting_leaves_nothing _ _ _ _ _ _ _ _ _ NewNetworkReconciler);
      [apply mirror_acts|apply _|apply mirror_releases].
  - intros cr network gs Hk. pose proof (resource_converging iterate rand_Int64 kube network gs Hk).
    apply (acting_leaves_nothing _ _ _ _ _ _ _ _ _ NewNetworkResourceReconciler);
      [apply mirror_acts|apply _|apply mirror_releases].
  - intros cr gs Hk. pose proof (zone_converging iterate rand_Int64 kube gs Hk).
    apply (acting_leaves_nothing _ _ _ _ _ _ _ _ _ NewDNSZoneReconciler);
      [apply mirror_acts|apply _|apply mirror_releases].
  - intros cr zone Hk. pose proof (record_converging iterate rand_Int64 kube zone Hk).
    apply (acting_leaves_nothing _ _ _ _ _ _ _ _ _ NewDNSRecordReconciler);
      [apply mirror_acts|apply _|apply mirror_releases].
  - intros cr mode_text req Hk. pose proof (service_settles iterate rand_Int64 kube mode_text req Hk).
    apply (acting_leaves_nothing _ _ _ _ _ _ _ _ _ (NewReverseProxyServiceReconciler mode_text));
      [apply mirror_acts|apply _|apply mirror_releases].
  - intros cr recorder. apply (acting_leaves_nothing _ _ _ _ _ _ _ _ _ group_mirror);
      [apply group_acts|apply _|apply group_releases].
  - intros cr image url network gid Hk. cbn zeta. split.
    + pose proof (router_settles iterate rand_Int64 kube image url network gid Hk _ (group_provides _ _ _ _ _ _ _ Hk)).
      apply (acting_leaves_nothing _ _ _ _ _ _ _ _ _ (router_mirror image url));
        [apply router_acts|by apply router_releasing|apply router_releases].
    + intros Hgid Hst. pose proof (router_settles iterate rand_Int64 kube image url network gid Hk _
        (children_provide _ _ _ _ _ _ _ Hgid Hst)).
      apply (acting_leaves_nothing _ _ _ _ _ _ _ _ _ (router_mirror image url));
        [apply router_acts|by apply router_releasing|apply router_releases].
Qed.
End theorems.

(** ** Concrete servers *)
Module ConvergenceRun.
Import MockRun ConvergeRun LifecycleRun SettleRun.

(** A zone of the name is in the list cache but gone from NetBird; a router
    whose peers are deployed. *)
Lemma reconcilers_converge_witness :
  let w := ((zone_cr "a", mkListCache [item0 "gone"] true 1), Client) in
  let w1 := once iterate0 rand0 one_zone (Mirror.Reconcile NewDNSZoneReconciler false "default" "a") w in
  let r := (router_cr, Client) in
  let r1 := reconcile_router r in
  (reached (k := KDNSZone) fst (zone_target []) (zone_refs iterate0 rand0 one_zone []) w w1 /\
   zones w1.2 = {[ "id-0" := item0 "id-0" ]}) /\
  (reached (k := KNetworkRouter) id (router_target "n-1" "g-1")
     (router_refs iterate0 rand0 one_router "n-1" (children_ready one_router "client" "https://api.netbird.io" "g-1")) r r1 /\
   store_of (CRouters "n-1") r1.2 = {[ "id-0"%string := api.mkNetworkRouter "id-0" true true 9999 (Some ["g-1"%string]) ]} /\
   (Nat.iter 3 reconcile_router r1).2 = r1.2).
Proof.
  cbn zeta. split; (split; [|first [reflexivity|split; [vm_compute; reflexivity|]]]).
  - destruct (reconcilers_converge iterate0 rand0 one_zone "default" "a") as (_ & _ & Hz & _).
    refine (proj1 (proj2 (Hz fst [] one_zone_undisturbed 0%nat _ _ _ _))); [|reflexivity..].
    constructor; [done|]. intros [z l] o b. by repeat split.
  - destruct (reconcilers_converge iterate0 rand0 one_router "default" "edge") as (_ & _ & _ & _ & _ & _ & Hr).
    refine (proj1 (proj2 (proj2 (Hr id "client" "https://api.netbird.io" "n-1" "g-1" one_router_undisturbed)
      ltac:(done) one_router_steady 0%nat _ one_router_stores one_router_refs eq_refl))).
  - destruct (reconcilers_converge iterate0 rand0 one_router "default" "edge") as (_ & _ & _ & _ & _ & _ & Hr).
    exact (proj2 (proj2 (proj2 (proj2 (proj2 (Hr id "client" "https://api.netbird.io" "n-1" "g-1" one_router_undisturbed)
      ltac:(done) one_router_steady 3%nat _ one_router_stores one_router_refs eq_refl))))).
Defined.

(** A Group among someone else's, recorded under an id that is gone. *)
Lemma reconcilers_leave_nothing_witness :
  let w := (group_cr "ours" "g-0" None, others) in
  let w1 := reconcile_group w in
  let w2 := reconcile_group w1 in
  let wd := (group_cr "ours" (group_GroupID (Group_Status w2.1)) (Some 0), w2.2) in
  groups w1.2 = {[ "g-1" := api.mkGroup "g-1" "theirs" [api.mkPeerMinimum "peer" "laptop"] [];
                   "id-0" := api.mkGroup "id-0" "ours" [] [] ]} /\
  groups (reconcile_group wd).2 = groups w.2 /\ exists w' : Group * server, removed CGroups "id-0" w.2 w'.2.
Proof.
  cbn zeta. split; [vm_compute; reflexivity|]. split; [vm_compute; reflexivity|].
  destruct (reconcilers_leave_nothing iterate0 rand0 one_group "default" "ours") as (_ & _ & _ & _ & _ & Hg & _).
  destruct (Hg id false 1%nat (group_cr "ours" "g-0" None, others)
    (group_cr "ours" (group_GroupID (Group_Status (reconcile_group (reconcile_group (group_cr "ours" "g-0" None, others))).1)) (Some 0),
     (reconcile_group (reconcile_group (group_cr "ours" "g-0" None, others))).2)) as (_ & w' & _ & Hrem);
    [|done..|split; vm_compute; reflexivity|done|done|by exists w'].
  constructor; [done|]. intros g o b. by repeat split.
Defined.
End ConvergenceRun.
