(* ===== verification/KeySettle.v ===== *)
(** * Setup keys against the mock

    The mock reports no state for a key ([netbirdmock.go] never sets one), so a
    reconcile never finds the recorded key usable and replaces it: these
    theorems say that it leaves no key behind, however often it does. *)

From stdpp Require Import base gmap list strings pretty.
From Stdlib Require Import ZArith Lia.
From S2P Require Import Prelude Sort GoStrings GoErr Prog SetupKeyCtl ApiTypes K8sTypes ApplyConf Env NetbirdUtil Reconcile Mirror Ownership Identity Mock Converge Lifecycle.

Open Scope Z_scope.
Open Scope prog_scope.

Abbreviation key_id o := (sk_SetupKeyID (SetupKey_Status o)).
Abbreviation keys s := (store_of CSetupKeys s).

Section keys.
Context (iterate : forall T, gmap string T -> list T) (rand_Int64 : nat -> Z).
Context {W : Type} (kube : forall c, W -> resp c * W).
Context `{ErrorClassLaws} `{K8sLibLaws}.
Context (cr : W -> SetupKey) (ns name : string) (recorder : bool) (gs : list string) (gvk : string * string).

Abbreviation answer := (answer iterate rand_Int64 kube).
Abbreviation mock_id := (mock_id rand_Int64).
Abbreviation key_reads := (same_reads iterate rand_Int64 kube (k := KSetupKey) (c := CSetupKeys)).

Definition same_key (a b : SetupKey) : Prop :=
  SetupKey_Spec a = SetupKey_Spec b /\ meta_Namespace (SetupKey_Meta a) = meta_Namespace (SetupKey_Meta b) /\
  key_id a = key_id b.

(** The API server holds the resource and accepts the Secret, which no other
    resource is read from. *)
Record serves_key : Prop := {
  key_kube : undisturbed kube KSetupKey CSetupKeys;
  key_get : forall w, kube (KGet KSetupKey ns name) w = (Ok (cr w), w);
  key_patch : forall w o b, (kube (KPatch KSetupKey o b) w).1 = None /\
    let o' := cr (kube (KPatch KSetupKey o b) w).2 in
    same_key o o' /\ deleting (SetupKey_Meta o') = deleting (SetupKey_Meta o) /\
    (is_ready (k := KSetupKey) o -> is_ready (k := KSetupKey) o');
  key_apply : forall w ac, (kube (KApply ac) w).1 = None /\ cr (kube (KApply ac) w).2 = cr w /\
    forall q, elsewhere KSetupKey CSetupKeys q -> (kube q (kube (KApply ac) w).2).1 = (kube q w).1;
  key_owner : GVKForObject KSetupKey = Ok gvk
}.

(** The groups of the resource are there; no key reports a state; and the ids
    yet to be drawn are new. *)
Record ready_for_keys (w : W * server) : Prop := {
  keys_groups : (exec answer (GetGroupIDs (sk_AutoGroups (SetupKey_Spec (cr w.1)))
    (meta_Namespace (SetupKey_Meta (cr w.1)))) w).1 = Ok gs;
  keys_stateless : forall i x, keys w.2 !! i = Some x -> api.k_State x = ""%string;
  keys_named : keys w.2 !! ""%string = None;
  keys_fresh : forall i, (drawn w.2 <= i)%nat -> keys w.2 !! mock_id i = None /\ mock_id i <> key_id (cr w.1);
  keys_alive : deleting (SetupKey_Meta (cr w.1)) = false
}.

Context (Hkube : serves_key) (Hinj : forall i j, mock_id i = mock_id j -> i = j).

Lemma exec_key_patch o b (w : W * server) : exists k1,
  (forall A (f : _ -> M A), exec answer (Call (KPatch KSetupKey o b) f) w = exec answer (f None) (k1, w.2)) /\
  same_key o (cr k1) /\ deleting (SetupKey_Meta (cr k1)) = deleting (SetupKey_Meta o) /\
  (is_ready (k := KSetupKey) o -> is_ready (k := KSetupKey) (cr k1)) /\ key_reads w (k1, w.2).
Proof.
  destruct (key_patch Hkube w.1 o b) as [Hok Hcr]. exists (kube (KPatch KSetupKey o b) w.1).2.
  assert (answer (KPatch KSetupKey o b) w = (None, ((kube (KPatch KSetupKey o b) w.1).2, w.2))) as Ha
    by (rewrite answer_kube by done; by rewrite Hok).
  split; [intros; by apply exec_call|]. destruct Hcr as (? & ? & ?). split_and!; try done.
  pose proof (same_reads_disturbed iterate rand_Int64 kube (key_kube Hkube) (KPatch KSetupKey o b) w eq_refl) as Hs.
  by rewrite Ha in Hs.
Qed.

Lemma exec_key_apply ac (w : W * server) : exists k1,
  (forall A (f : _ -> M A), exec answer (Call (KApply ac) f) w = exec answer (f None) (k1, w.2)) /\ cr k1 = cr w.1 /\ key_reads w (k1, w.2).
Proof.
  destruct (key_apply Hkube w.1 ac) as (Hok & Hcr & Hq). exists (kube (KApply ac) w.1).2.
  split; [intros; apply exec_call; rewrite answer_kube by done; by rewrite Hok|]. split; [done|].
  intros q He. destruct (elsewhere_cases iterate rand_Int64 kube (key_kube Hkube) q w He) as [[Hnone Hw]|(c' & g & Hc & Hf)].
  - rewrite !answer_kube by done. by apply Hq.
  - by rewrite !Hf.
Qed.

(** No recorded key is found usable. *)
Lemma never_up_to_date o w : (forall i x, keys w.2 !! i = Some x -> api.k_State x = ""%string) ->
  exec answer (up_to_date recorder ns o gs) w = (Ok false, w).
Proof.
  intros Hst. unfold up_to_date. destruct (String.eqb _ _); [done|]. cbn [bind ask perform].
  rewrite (exec_call _ _ _ _ _ _ (answer_get_item iterate rand_Int64 kube CSetupKeys _ w ltac:(done))). unfold get_item.
  destruct (keys w.2 !! _) as [x|] eqn:Hx; cbv beta iota.
  - rewrite (Hst _ _ Hx). done.
  - rewrite not_found_api. cbv beta iota. by rewrite mock_not_found.
Qed.

Lemma delete_key_exec id (w : W * server) :
  exec answer (delete_tolerant CSetupKeys id) w =
    (None, (w.1, with_store CSetupKeys w.2 (delete id (keys w.2)) (drawn w.2))).
Proof.
  unfold delete_tolerant, ask, perform. cbn [bind].
  assert (answer (NBDelete CSetupKeys id) w =
    (let '(r, m) := delete_item (keys w.2) id in (r, (w.1, with_store CSetupKeys w.2 m (drawn w.2))))) as Ha.
  { unfold Converge.answer. cbn. by destruct (delete_item _ _). }
  unfold delete_item in Ha. destruct (keys w.2 !! id) as [x|] eqn:Hx.
  - rewrite (exec_call _ _ _ _ _ _ Ha). done.
  - rewrite (exec_call _ _ _ _ _ _ Ha). cbn [exec]. rewrite mock_not_found. by rewrite delete_id.
Qed.

(** What a replacement leaves: one key more, the old one gone. *)
Record replaced (w w' : W * server) : Prop := {
  replaced_id : key_id (cr w'.1) = mock_id (drawn w.2);
  replaced_keys : exists x, api.k_State x = ""%string /\
    keys w'.2 = <[mock_id (drawn w.2) := x]> (delete (key_id (cr w.1)) (keys w.2));
  replaced_drawn : drawn w'.2 = S (S (drawn w.2));
  replaced_others : others_kept CSetupKeys w.2 w'.2;
  replaced_same : SetupKey_Spec (cr w'.1) = SetupKey_Spec (cr w.1) /\
    meta_Namespace (SetupKey_Meta (cr w'.1)) = meta_Namespace (SetupKey_Meta (cr w.1));
  replaced_alive : deleting (SetupKey_Meta (cr w'.1)) = false;
  replaced_ready : is_ready (k := KSetupKey) (cr w'.1);
  replaced_reads : key_reads w w'
}.

Lemma Reconcile_replaces w : ready_for_keys w ->
  exists w', exec answer (SetupKeyCtl.Reconcile recorder ns name) w = ((requeue_after resyncInterval, None), w') /\ replaced w w'.
Proof.
  intros [Hgs Hst Hnamed Hfresh Hd]. unfold SetupKeyCtl.Reconcile. cbn [bind ask perform].
  assert (answer (KGet KSetupKey ns name) w = (Ok (cr w.1), w)) as Hget
    by (rewrite answer_kube by done; rewrite (key_get Hkube); by destruct w).
  rewrite (exec_call _ _ _ _ _ _ Hget). unfold ControllerReference. rewrite (key_owner Hkube). destruct gvk as [v kd].
  rewrite Hd. set (sk := add_finalizer (k := KSetupKey) (cr w.1) setupkey_finalizer).
  unfold patch. cbn [then_outcome bind ask perform].
  destruct (exec_key_patch sk false w) as (k1 & Hp1 & _ & _ & _ & Hr1). rewrite Hp1. cbv beta iota.
  unfold bind_outcome. rewrite exec_bind.
  change (SetupKey_Spec sk) with (SetupKey_Spec (cr w.1)).
  change (meta_Namespace (SetupKey_Meta sk)) with (meta_Namespace (SetupKey_Meta (cr w.1))).
  assert (calls_in (elsewhere KSetupKey CSetupKeys) (GetGroupIDs (sk_AutoGroups (SetupKey_Spec (cr w.1)))
    (meta_Namespace (SetupKey_Meta (cr w.1))))) as Hge by by apply GetGroupIDs_elsewhere.
  rewrite (exec_read iterate rand_Int64 kube (key_kube Hkube) _ (k1, w.2) (Ok gs) Hge); [|by eapply reads_keep; [apply key_kube, Hkube| | |]].
  cbv beta iota. rewrite exec_bind, never_up_to_date by done. cbv beta iota. unfold replace_key.
  change (key_id sk) with (key_id (cr w.1)). set (old := key_id (cr w.1)). set (new := mock_id (drawn w.2)).
  set (x := api.mkSetupKey new (strconv.Itoa (rand_Int64 (S (drawn w.2)))) "" gs).
  set (s1 := with_store CSetupKeys w.2 (<[new := x]> (keys w.2)) (S (S (drawn w.2)))).
  assert (forall A (f : _ -> M A), exec answer (bind (ask (NBCreate CSetupKeys (key_request sk gs))) f) (k1, w.2) =
    exec answer (f (Ok x)) (k1, s1)) as Hcreate.
  { intros A f. by rewrite (exec_create iterate rand_Int64 kube CSetupKeys _ f (k1, w.2) x (S (S (drawn w.2)))). }
  unfold bind_outcome. rewrite Hcreate. cbv beta iota zeta. change (api.k_Id x) with new. set (sk1 := set_key_id sk new).
  unfold patch, patch_observed. cbn [then_outcome bind ask perform].
  destruct (exec_key_patch sk1 false (k1, s1)) as (k2 & Hp2 & _ & _ & _ & Hr2). rewrite Hp2. cbv beta iota.
  match goal with |- context [KApply ?ac] => destruct (exec_key_apply ac (k2, s1)) as (k3 & Hp3 & _ & Hr3) end.
  rewrite Hp3. cbv beta iota. cbn [snd] in *.
  set (s2 := with_store CSetupKeys s1 (delete old (keys s1)) (drawn s1)).
  assert (exec answer (if String.eqb old "" then Ret None else delete_tolerant CSetupKeys old) (k3, s1) = (None, (k3, s2))) as Hdel.
  { destruct (String.eqb_spec old "") as [Ho|_]; [|apply delete_key_exec]. cbn [exec]. unfold s2. rewrite delete_id.
    - by rewrite with_store_same.
    - rewrite Ho. unfold s1. rewrite store_with_store by done. rewrite lookup_insert_ne by done. exact Hnamed. }
  unfold then_outcome at 1. rewrite exec_bind, Hdel. cbv beta iota.
  destruct (exec_key_patch (mark_ready (k := KSetupKey) sk1) true (k3, s2)) as (k4 & Hp4 & Hsame & Hdel4 & Hrdy & Hr4).
  rewrite Hp4. cbv beta iota. eexists. split; [reflexivity|].
  assert (others_kept CSetupKeys w.2 s1) as Ho1 by apply others_with_store.
  assert (others_kept CSetupKeys s1 s2) as Ho2 by apply others_with_store.
  destruct Hsame as (Hspec & Hns & Hid).
  constructor; cbn [fst snd].
  - by rewrite <- Hid.
  - exists x. split; [done|]. unfold s2, s1. rewrite !store_with_store by done.
    rewrite delete_insert_ne; [done|]. apply not_eq_sym, (Hfresh (drawn w.2)). lia.
  - unfold s2, s1. by rewrite !drawn_with_store.
  - by eapply others_trans.
  - by rewrite <- Hspec, <- Hns.
  - by rewrite Hdel4.
  - by apply Hrdy, mark_ready_ready.
  - eapply same_reads_trans; [apply Hr1|]. eapply same_reads_trans; [|eapply same_reads_trans; [apply Hr2|]].
    { by apply (same_reads_stored iterate rand_Int64 kube (key_kube Hkube) (k1, w.2)). }
    eapply same_reads_trans; [apply Hr3|]. eapply same_reads_trans; [|apply Hr4].
    by apply (same_reads_stored iterate rand_Int64 kube (key_kube Hkube) (k3, s1)).
Qed.

(** The group ids, the stored keys and the ids to come are as the next
    reconcile needs them. *)
Lemma replaced_ready_again w w' : ready_for_keys w -> replaced w w' -> ready_for_keys w'.
Proof.
  intros [Hgs Hst Hnamed Hfresh _] [Hid (x & Hx & Hkeys) Hdrawn _ [Hspec Hns] Halive _ Hreads]. constructor.
  - rewrite Hspec, Hns. eapply (reads_keep iterate rand_Int64 kube (key_kube Hkube)); [by apply GetGroupIDs_elsewhere|done|done].
  - intros i y. rewrite Hkeys, lookup_insert_Some, lookup_delete_Some. intros [[_ <-]|(_ & _ & Hy)]; [done|by eapply Hst].
  - rewrite Hkeys, lookup_insert_ne by apply mock_id_set. by rewrite lookup_delete_None; right.
  - rewrite Hdrawn, Hid. intros i Hi.
    assert (mock_id i <> mock_id (drawn w.2)) as Hne by (intros Heq; apply Hinj in Heq; lia).
    split; [|done]. rewrite Hkeys, lookup_insert_ne by done. rewrite lookup_delete_None. right. apply Hfresh. lia.
  - done.
Qed.

Abbreviation reconcile := (once iterate rand_Int64 kube (SetupKeyCtl.Reconcile recorder ns name)).

Lemma reconcile_replaces w : ready_for_keys w ->
  (exec answer (SetupKeyCtl.Reconcile recorder ns name) w).1 = (requeue_after resyncInterval, None) /\
  replaced w (reconcile w) /\ ready_for_keys (reconcile w).
Proof.
  intros Hr. destruct (Reconcile_replaces w Hr) as (w' & Hrun & Hrep). unfold once. rewrite Hrun.
  split_and!; [done|done|]. by eapply replaced_ready_again.
Qed.

(** The keys but the recorded one. *)
Definition other_keys (w : W * server) := delete (key_id (cr w.1)) (keys w.2).

Lemma replaced_other_keys w w' : ready_for_keys w -> replaced w w' ->
  other_keys w' = other_keys w /\ is_Some (keys w'.2 !! key_id (cr w'.1)).
Proof.
  intros [_ _ _ Hfresh _] [Hid (x & _ & Hkeys) _ _ _ _ _ _]. unfold other_keys. rewrite Hkeys, Hid.
  split; [|rewrite lookup_insert_eq; by eexists].
  rewrite delete_insert_eq. apply delete_id. rewrite lookup_delete_None. right. apply Hfresh. lia.
Qed.

(** What any number of reconciles keeps. *)
Lemma reconciles_keep n w : ready_for_keys w ->
  let wn := Nat.iter n reconcile w in
  ready_for_keys wn /\ other_keys wn = other_keys w /\ others_kept CSetupKeys w.2 wn.2.
Proof.
  intros Hr. cbn zeta. induction n as [|n (Hn & Ho & Hk)]; [done|]. cbn [Nat.iter nat_rect].
  destruct (reconcile_replaces _ Hn) as (_ & Hrep & Hn'). split; [exact Hn'|].
  split; [rewrite <- Ho; by apply replaced_other_keys|]. eapply others_trans; [exact Hk|]. apply Hrep.
Qed.

(** However often a SetupKey is reconciled, each reconcile ends without error
    and reports it ready; one key is there for it, the one it records, and the
    other keys and everything else in NetBird are as before the first. *)
Theorem keys_never_pile_up n w : ready_for_keys w ->
  let wn := Nat.iter (S n) reconcile w in
  (exec answer (SetupKeyCtl.Reconcile recorder ns name) (Nat.iter n reconcile w)).1 = (requeue_after resyncInterval, None) /\
  is_ready (k := KSetupKey) (cr wn.1) /\
  is_Some (keys wn.2 !! key_id (cr wn.1)) /\ other_keys wn = other_keys w /\ others_kept CSetupKeys w.2 wn.2.
Proof.
  intros Hr. cbn zeta.
  destruct (reconciles_keep n w Hr) as (Hn & _), (reconciles_keep (S n) w Hr) as (_ & Ho & Hk).
  destruct (reconcile_replaces _ Hn) as (Hres & Hrep & _). split_and!; try done.
  - apply Hrep.
  - exact (proj2 (replaced_other_keys _ _ Hn Hrep)).
Qed.

(** The delete of a SetupKey takes its recorded key away. *)
Lemma Reconcile_deletes_key w : deleting (SetupKey_Meta (cr w.1)) = true -> keys w.2 !! ""%string = None ->
  exists k', exec answer (SetupKeyCtl.Reconcile recorder ns name) w =
    ((no_requeue, None), (k', with_store CSetupKeys w.2 (other_keys w) (drawn w.2))).
Proof.
  intros Hd Hnamed. unfold SetupKeyCtl.Reconcile. cbn [bind ask perform].
  assert (answer (KGet KSetupKey ns name) w = (Ok (cr w.1), w)) as Hget
    by (rewrite answer_kube by done; rewrite (key_get Hkube); by destruct w).
  rewrite (exec_call _ _ _ _ _ _ Hget). unfold ControllerReference. rewrite (key_owner Hkube). destruct gvk as [v kd].
  rewrite Hd. unfold SetupKeyCtl.reconcileDelete, patch. unfold then_outcome at 1. rewrite exec_bind.
  assert (exec answer (if String.eqb (key_id (cr w.1)) "" then Ret None else delete_tolerant CSetupKeys (key_id (cr w.1))) w =
    (None, (w.1, with_store CSetupKeys w.2 (other_keys w) (drawn w.2)))) as Hdel.
  { unfold other_keys. destruct (String.eqb_spec (key_id (cr w.1)) "") as [->|_]; [|apply delete_key_exec]. cbn [exec].
    rewrite delete_id by done. rewrite with_store_same by done. by destruct w. }
  rewrite Hdel. cbv beta iota. cbn [then_outcome bind ask perform].
  match goal with |- context [KPatch KSetupKey ?o ?b] =>
    destruct (exec_key_patch o b (w.1, with_store CSetupKeys w.2 (other_keys w) (drawn w.2))) as (k1 & Hp & _) end.
  rewrite Hp. by exists k1.
Qed.

(** A SetupKey that was reconciled any number of times and then deleted leaves
    no key behind. *)
Theorem keys_all_deleted n w wd : ready_for_keys w ->
  let wn := Nat.iter n reconcile w in
  wd.2 = wn.2 -> key_id (cr wd.1) = key_id (cr wn.1) -> deleting (SetupKey_Meta (cr wd.1)) = true ->
  (exec answer (SetupKeyCtl.Reconcile recorder ns name) wd).1 = (no_requeue, None) /\
  keys (reconcile wd).2 = other_keys w /\ others_kept CSetupKeys w.2 (reconcile wd).2.
Proof.
  intros Hr. cbn zeta. intros Hs Hid Hd.
  destruct (reconciles_keep n w Hr) as (Hn & Ho & Hk).
  destruct (Reconcile_deletes_key wd Hd) as (k' & Hrun); [rewrite Hs; apply Hn|].
  unfold once. rewrite Hrun. cbn [fst snd]. split; [done|].
  assert (other_keys wd = other_keys w) as Hod by (rewrite <- Ho; unfold other_keys; by rewrite Hs, Hid).
  rewrite store_with_store by done. split; [exact Hod|]. eapply others_trans; [exact Hk|]. rewrite <- Hs.
  apply others_with_store.
Qed.
End keys.

(** ** A concrete server *)
Module KeySettleRun.
Import MockRun.

(** An API server that holds one SetupKey and stores its Secret. *)
Definition one_key (c : call) (w : SetupKey * list applyconf) : resp c * (SetupKey * list applyconf) :=
  match c with
  | KGet KSetupKey _ _ => (Ok w.1, w)
  | KPatch KSetupKey sk _ => (None, (sk, w.2))
  | KApply ac => (None, (w.1, ac :: w.2))
  | c => (no_answer c, w)
  end.

Definition key_cr (id : string) (deleted : option Z) : SetupKey :=
  mkSetupKey (mkMeta "edge" "default" "uid-edge" ∅ ∅ [] deleted 1)
    (mkSetupKeySpec "edge" true false None []) (mkSetupKeyStatus 0 [] id).

Definition reconcile_key : (SetupKey * list applyconf) * server -> (SetupKey * list applyconf) * server :=
  once iterate0 rand0 one_key (SetupKeyCtl.Reconcile false "default" "edge").

(** Someone else's key is in the account, and the recorded one was revoked. *)
Definition others : server :=
  with_store CSetupKeys Client {[ "k-1"%string := api.mkSetupKey "k-1" "theirs" "" [] ]} 0.

Lemma one_key_serves : serves_key one_key fst "default" "edge" ("netbird.io/v1alpha1"%string, "Object"%string).
Proof.
  constructor; [constructor|..]; try done.
  - intros [[]| | | | | |[]|[]| | | | | | |[]|[]|] w Hq; cbn in *; try done; by destruct Hq.
  - intros [[]| | | | | |[]|[]| | | | | | |[]|[]|] q w Hq Hd; cbn in *; try done.
  - intros w ac. split; [done|]. split; [done|]. intros q. destruct q as [[]| | | | | |[]|[]| | | | | | |[]|[]|]; cbn; intros Hq; try done; by destruct Hq.
Qed.

Lemma mock_id0_injective i j : mock_id rand0 i = mock_id rand0 j -> i = j.
Proof.
  unfold mock_id, rand0, strconv.Itoa. intros Heq%(inj (String.append "id-"))%(inj pretty). lia.
Qed.
(** Three reconciles make three keys and leave the last; the delete leaves
    none. *)
Lemma keys_all_deleted_run :
  let w := ((key_cr "k-0" None, []), others) in
  let w3 := Nat.iter 3 reconcile_key w in
  let wd := ((key_cr (key_id w3.1.1) (Some 0), w3.1.2), w3.2) in
  map_to_list (keys w3.2) = [("k-1", api.mkSetupKey "k-1" "theirs" "" []); ("id-4", api.mkSetupKey "id-4" "5" "" [])]%string /\
  keys (reconcile_key wd).2 = keys w.2.
Proof.
  cbn zeta. split; [vm_compute; reflexivity|].
  set (w := ((key_cr "k-0" None, []), others)).
  destruct (keys_all_deleted iterate0 rand0 one_key fst "default" "edge" false [] _ one_key_serves mock_id0_injective 3 w
    ((key_cr (key_id (Nat.iter 3 reconcile_key w).1.1) (Some 0), (Nat.iter 3 reconcile_key w).1.2), (Nat.iter 3 reconcile_key w).2))
    as (_ & Hk & _); [|done..|etransitivity; [exact Hk|vm_compute; reflexivity]].
  constructor; [done| |done| |done].
  - intros i x Hx. cbn in Hx. apply lookup_singleton_Some in Hx as [_ <-]. done.
  - intros i _. split; [|by intros ?]. cbn. by apply lookup_singleton_ne.
Qed.
End KeySettleRun.
