(* ===== verification/Exposure.v ===== *)
(** * From Kubernetes objects to NetBird

    The composition of a translating controller with the mirrors of its
    children: what the LoadBalancer controller applies is stored by the
    Kubernetes API server, reconciled by the mirror of its kind, and then
    found in NetBird. *)

From stdpp Require Import base gmap list strings.
From Stdlib Require Import ZArith Lia.
From S2P Require Import Prelude Sort GoStrings NetIP GoErr Prog ApiTypes K8sTypes ApplyConf Env NetbirdUtil Reconcile Mirror NetworkMirror ServiceAddr DNSMirror Rps Gateway GatewayCtl LoadBalancer RpCluster Ownership Identity Mock Converge Lifecycle Settle.

Open Scope Z_scope.
Open Scope prog_scope.

(** ** What a server-side apply documents

    A field that is set in the applied configuration has its value in the
    stored object. *)
Definition sets {A B} (applied : option A) (value : B) (f : A -> B) : Prop :=
  forall a, applied = Some a -> value = f a.

Definition stored_meta (m : ACMeta) (o : ObjectMeta) : Prop :=
  meta_Name o = acm_Name m /\ meta_Namespace o = acm_Namespace m.




(** ** What becomes of a stored object *)
Section becomes.
Context `{ErrorClassLaws} `{K8sLibLaws}.
Context (iterate : forall T, gmap string T -> list T) (rand_Int64 : nat -> Z).

(** One reconcile of any such live object, whatever else the two servers hold,
    puts an item with [P] into the mock, under the id it records. *)
Definition becomes {k} `{MirrorObject k} `{!Specified k} (m : mirror k) (T : target (k := k))
    (good : forall W (kube : forall c, W -> resp c * W), obj k -> W * server -> Prop)
    (stored : obj k -> Prop) (P : item (t_coll T) -> Prop) : Prop :=
  forall W (kube : forall c, W -> resp c * W) (cr : W -> obj k) ns name w,
  undisturbed kube k (t_coll T) -> stores_cr kube cr ns name T -> good W kube (cr w.1) w ->
  deleting (GetMeta (cr w.1)) = false -> stored (cr w.1) ->
  let w1 := once iterate rand_Int64 kube (Mirror.Reconcile m false ns name) w in
  is_ready (cr w1.1) /\ exists x, store_of (t_coll T) w1.2 !! t_id T (cr w1.1) = Some x /\ P x.

Lemma becomes_item {k} `{MirrorObjectLaws k} `{!Specified k} (m : mirror k) (T : target (k := k)) good stored P :
  Core T ->
  (forall W (kube : forall c, W -> resp c * W), undisturbed kube k (t_coll T) ->
     Converging iterate rand_Int64 kube m T (good W kube)) ->
  (forall o o' x, same_spec o o' -> stored o -> t_declared T o' x -> P x) ->
  becomes m T good stored P.
Proof.
  intros Hcore Hconv HP W kube cr ns name w Hk Hst Hg Hd Hs. cbn zeta. specialize (Hconv W kube Hk).
  destruct (mirror_settles iterate rand_Int64 kube cr ns name _ m T (good W kube) (mirror_acts _ _ _ _ _ _) 0 w Hst Hg Hd)
    as ([(_ & x & Hx & Hdecl) Hr _ _ Hspec _ _] & _).
  split; [done|]. exists x. split; [done|]. by eapply HP.
Qed.




(** ** A Service of type LoadBalancer *)



Lemma sets_id {A} (v w : A) : sets (Some v) w id -> w = v.
Proof. intros Hs. by apply Hs. Qed.



End becomes.

(** ** An HTTPRoute *)
Section routes.
Context (iterate : forall T, gmap string T -> list T) (rand_Int64 : nat -> Z).
Context `{ErrorClassLaws} `{K8sLibLaws} `{SortSliceLaws} (mode_text : api.ServiceRequestMode -> string).

Definition stored_backend (a : ACReverseProxyBackend.t) (b : ReverseProxyBackend) : Prop :=
  rpb_ServiceRef b = default ""%string (ACReverseProxyBackend.ServiceRef a) /\
  rpb_Port b = default 0 (ACReverseProxyBackend.Port a) /\
  rpb_Path b = default ""%string (ACReverseProxyBackend.Path a).

(** The stored object of an applied configuration that is its only writer; the
    CRD's default of an unset mode is http. *)
Definition stored_service (m : ACMeta) (spec : ACReverseProxyServiceSpec.t) (o : ReverseProxyService) : Prop :=
  let s := ReverseProxyService_Spec o in
  stored_meta m (ReverseProxyService_Meta o) /\
  Forall2 stored_backend (ACReverseProxyServiceSpec.Backends spec) (rps_Backends s) /\
  rps_Mode s = default ReverseProxyModeHTTP (ACReverseProxyServiceSpec.Mode spec) /\
  sets (ACReverseProxyServiceSpec.Domain spec) (rps_Domain s) id /\
  sets (ACReverseProxyServiceSpec.ProxyCluster spec) (rps_ProxyCluster s) id /\
  sets (ACReverseProxyServiceSpec.PassHostHeader spec) (rps_PassHostHeader s) Some /\
  rps_Private s = ACReverseProxyServiceSpec.Private spec.

(** Where the proxy reaches a backend: a Service of the namespace, as read; its
    name in the cluster, or the name it is advertised under in NetBird. *)
Definition reaches (ns : string) (b : ReverseProxyBackend) (host : string) (port : Z) (t : history) : Prop :=
  exists svc, Entry (KGet KService ns (rpb_ServiceRef b)) (Ok svc) ∈ t /\ svc_Ports svc <> [] /\
    port = sp_Port (backendPort svc (rpb_Port b)) /\
    if String.eqb (svc_Type svc) ServiceTypeLoadBalancer then
      exists rec recs, Entry (KList KDNSRecord (Some ns) (Some (lbServiceLabel, rpb_ServiceRef b))) (Ok (rec :: recs)) ∈ t /\
        host = rec_Name (DNSRecord_Spec rec)
    else host = rpb_ServiceRef b +:+ "." +:+ ns +:+ ".svc.cluster.local".

Definition backend_target (ns cluster : string) (t : history) (b : ReverseProxyBackend) (x : api.ServiceTarget) : Prop :=
  exists host port, reaches ns b host port t /\
    x = http_target api.ServiceTargetProtocolHttp cluster host port (rpb_Path b).

Lemma reaches_mono ns b host port t t' :
  (forall e, e ∈ t -> e ∈ t') -> reaches ns b host port t -> reaches ns b host port t'.
Proof.
  intros Ht (svc & Hs & Hp & Hport & Hh). exists svc. do 3 (split; [auto|]).
  destruct (String.eqb _ _); [|done]. destruct Hh as (rec & recs & ? & ?). exists rec, recs. auto.
Qed.

Lemma resolveBackend_reaches ns b :
  wp (resolveBackend ns (rpb_ServiceRef b) (rpb_Port b)) (fun t r =>
    match r with Ok (host, port, _) => reaches ns b host port t | Err _ => True end).
Proof.
  unfold resolveBackend, get_backend. cbn. intros [svc|e]; cbn; [|by destruct (kerrors_IsNotFound e)].
  destruct (svc_Ports svc) as [|p ps] eqn:Hp; [done|]. destruct (String.eqb (svc_Type svc) _) eqn:Hty.
  - cbn. intros [[|rec recs]|e]; cbn; [done| |done]. exists svc. split; [left|]. split; [congruence|]. split; [done|].
    rewrite Hty. exists rec, recs. split; [right; left|done].
  - cbn. exists svc. split; [left|]. split; [congruence|]. split; [done|]. by rewrite Hty.
Qed.

Lemma render_http rps cluster mode proto backends targets label :
  isHTTP mode = true -> proto = api.ServiceTargetProtocolHttp ->
  wp (render_targets rps cluster mode proto backends targets label) (fun t r =>
    match r with
    | Ok (ts, _) => exists new, ts = targets ++ new /\
        Forall2 (backend_target (meta_Namespace (ReverseProxyService_Meta rps)) (api.pc_Address cluster) t) backends new
    | Err _ => True
    end).
Proof.
  intros Hm ->. revert targets label. induction backends as [|b backends IH]; intros targets label.
  - cbn. exists []. by rewrite app_nil_r.
  - cbn [render_targets]. rewrite Hm. cbn [negb]. apply wp_bind_result.
    eapply wp_mono; [apply resolveBackend_reaches|]. intros t1 [[[host port] nm]|e] Hr; [|done].
    eapply wp_mono; [apply IH|]. intros t2 [[ts l]|e]; [|done]. intros (new & -> & Hf).
    eexists. rewrite <- app_assoc. split; [done|]. constructor.
    + exists host, port. split; [eapply reaches_mono; [|exact Hr]; set_solver|done].
    + eapply Forall2_impl; [exact Hf|]. intros b' x (h & p & Hre & ->). exists h, p.
      split; [eapply reaches_mono; [|exact Hre]; set_solver|done].
Qed.

(** The request that exposes a hostname through a cluster: plain http, with one
    target for each of the backends. *)
Definition http_request (hostname cluster ns : string) (bs : list ACReverseProxyBackend.t) (t : history)
    (req : api.ServiceRequest) : Prop :=
  api.s_Domain req = hostname /\ api.s_Enabled req = true /\ api.s_Mode req = Some api.ServiceRequestModeHttp /\
  api.s_PassHostHeader req = Some true /\ api.s_Private req = None /\ api.s_AccessGroups req = None /\
  api.s_ListenPort req = None /\
  exists ts backends xs, api.s_Targets req = Some ts /\ ts ≡ₚ xs /\ Forall2 stored_backend bs backends /\
    Forall2 (backend_target ns cluster t) backends xs.

Lemma route_child_renders route cfg ownerRef h bs o :
  stored_service (HTTPRouteReconciler.service_meta route ownerRef h) (HTTPRouteReconciler.service_spec cfg h bs) o ->
  wp (renderService mode_text o) (fun t r => forall req, r = Ok req ->
    http_request h (gp_clusterAddress cfg) (route_namespace route) bs t req).
Proof.
  intros ((_ & Hns) & Hbs & Hmode & Hdom & Hcl & Hpass & Hpriv). cbn in Hns, Hbs, Hmode, Hdom, Hcl, Hpass, Hpriv.
  apply sets_id in Hdom, Hcl. specialize (Hpass true eq_refl).
  unfold renderService. apply wp_bind. eapply wp_mono; [apply GetProxyClusterByAddress_spec|].
  intros tc [cluster|e] Hc; [|done]. rewrite Hmode. cbn -[render_targets]. apply wp_bind_result.
  eapply wp_mono; [by apply render_http|]. intros tt [[targets label]|e]; [|done].
  intros (new & -> & Hf). cbn in Hf. unfold is_private. rewrite Hpriv. cbn -[targetLess]. intros req [= <-].
  unfold http_request. cbn -[targetLess].
  split; [unfold serviceDomainFor; rewrite Hdom; by destruct (rps_ListenPort _)|]. do 2 (split; [done|]).
  split; [done|]. split; [done|]. do 2 (split; [done|]).
  eexists _, _, new. split; [done|]. split; [unfold sortServiceTargets; by rewrite sort_slice_perm|].
  split; [exact Hbs|]. rewrite Hns, Hc, Hcl in Hf. eapply Forall2_impl; [exact Hf|].
  intros b x (host & port & Hre & ->). exists host, port. split; [|done]. eapply reaches_mono; [|exact Hre]. set_solver.
Qed.

(** What NetBird then holds is the request. *)
Lemma service_becomes req m spec : api.s_Mode req <> None -> api.s_Targets req <> None ->
  becomes iterate rand_Int64 (NewReverseProxyServiceReconciler mode_text) (service_target req)
    (fun W kube => rendered iterate rand_Int64 kube mode_text req) (stored_service m spec)
    (fun x => api.sv_Request x = req).
Proof.
  intros Hmode Htargets. apply becomes_item; [apply _|apply _|by intros; apply service_settles|].
  intros o o' x _ _ [_ [old ->]]. by destruct req as [? ? [] ? [] ? ? ? ? ? ?].
Qed.

(** C17: an HTTPRoute is exposed in NetBird or not at all: everything a
    reconcile applies is a ReverseProxyService, owned by the route, for a
    hostname that a Gateway of the operator's class, named as a parent and with
    a proxy listener, admits for the route, and with the backends of a route
    that is translatable as a whole; and whatever request the mirror of that
    stored service renders is plain http for that hostname, through the cluster
    of that Gateway, with exactly one target for each backend, at the Service
    of the route's namespace it names; and one reconcile of the mirror, where
    that cluster and those backends are found, leaves that request in NetBird
    under the recorded id. *)
Theorem HTTPRoute_exposes ns name :
  wp (HTTPRouteReconciler.Reconcile ns name) (fun t _ => forall ac x, Entry (KApply ac) x ∈ t ->
    exists route gw p cfg ownerRef bs h m spec,
      Entry (KGet KHTTPRoute ns name) (Ok route) ∈ t /\ HTTPRouteProps.our_gateway route gw p t /\
      gatewayProxyConfig gw = Some cfg /\ routeBackends route = Ok bs /\ h ∈ admittedHostnames gw route cfg /\
      ControllerReference KHTTPRoute (HTTPRoute_Meta route) = Ok ownerRef /\
      ac = ApplyReverseProxyService m spec /\ acm_OwnerReferences m = [ownerRef] /\
      (forall o, stored_service m spec o ->
        wp (renderService mode_text o) (fun t' r => forall req, r = Ok req ->
          http_request h (gp_clusterAddress cfg) (route_namespace route) bs t' req)) /\
      forall req t', http_request h (gp_clusterAddress cfg) (route_namespace route) bs t' req ->
        becomes iterate rand_Int64 (NewReverseProxyServiceReconciler mode_text) (service_target req)
          (fun W kube => rendered iterate rand_Int64 kube mode_text req) (stored_service m spec)
          (fun x => api.sv_Request x = req)).
Proof.
  eapply wp_mono; [apply HTTPRouteProps.HTTPRoute_fail_closed|]. intros t out Ha ac x Hx.
  destruct (Ha ac x Hx) as (route & gw & p & cfg & ownerRef & bs & h & Hr & Hg & Hc & Ho & Hb & Hh & ->).
  exists route, gw, p, cfg, ownerRef, bs, h. do 2 eexists. do 6 (split; [eassumption|]). split; [done|]. split; [done|].
  split; [intros o; apply route_child_renders|].
  intros req t' (_ & _ & Hm & _ & _ & _ & _ & ts & _ & _ & Hts & _). apply service_becomes; congruence.
Qed.
End routes.

(** ** A Gateway *)

Definition stored_group (g : ACGroupReference.t) : GroupReference :=
  mkGroupRef (ACGroupReference.Name g) (ACGroupReference.ID g) (ACGroupReference.LocalRef g).
Definition stored_ref (r : ACCrossNamespaceReference.t) : CrossNamespaceReference :=
  mkRef (default ""%string (ACCrossNamespaceReference.Name r)) (default ""%string (ACCrossNamespaceReference.Namespace r)).

(** The stored spec of an applied configuration that is its only writer; the
    CRD's default of the replicas is one. *)
Definition stored_spec (a : ACReverseProxyClusterSpec.t) : ReverseProxyClusterSpec :=
  mkReverseProxyClusterSpec
    (default ""%string (ACReverseProxyClusterSpec.ClusterAddress a))
    (default ""%string (ACReverseProxyClusterSpec.Domain a))
    (stored_ref <$> ACReverseProxyClusterSpec.ZoneRef a)
    (default ""%string (ACReverseProxyClusterSpec.CertSecretName a))
    (map stored_group (ACReverseProxyClusterSpec.Groups a))
    (default false (ACReverseProxyClusterSpec.Private a))
    (Some (default 1 (ACReverseProxyClusterSpec.Replicas a)))
    (default ""%string (ACReverseProxyClusterSpec.Image a))
    (default ""%string (ACReverseProxyClusterSpec.LogLevel a))
    (ACReverseProxyClusterSpec.ServiceAnnotations a).

Definition stored_cluster (m : ACMeta) (a : ACReverseProxyClusterSpec.t) (o : ReverseProxyCluster) : Prop :=
  stored_meta m (ReverseProxyCluster_Meta o) /\ ReverseProxyCluster_Spec o = stored_spec a.

(** The cluster a Gateway asks for: the domain, the address and the certificate
    of its proxy listener, and what its parameters say. *)
Definition wanted (cfg : gatewayProxy) (params : ReverseProxyClusterParametersSpec) : ReverseProxyClusterSpec :=
  mkReverseProxyClusterSpec (gp_clusterAddress cfg) (gp_domain cfg) None (gp_certSecret cfg)
    (map stored_group (groupRefACs (params_Groups params))) (params_Private params)
    (Some (default 1 (params_Replicas params))) (params_Image params) (params_LogLevel params)
    (params_ServiceAnnotations params).

Lemma cluster_spec_wanted cfg params :
  stored_spec (GatewayReconciler.cluster_spec cfg params) = wanted cfg params.
Proof.
  unfold GatewayReconciler.cluster_spec, wanted.
  destruct (String.eqb_spec (gp_certSecret cfg) ""), (String.eqb_spec (params_Image params) ""),
    (String.eqb_spec (params_LogLevel params) ""), (params_Replicas params), (params_Groups params),
    (bool_decide_reflect (params_ServiceAnnotations params = ∅));
    unfold stored_spec; cbn; rewrite ?(right_id_L ∅ (∪)); congruence.
Qed.

(** The object of the cluster with this name. *)
Definition own_object (o : ReverseProxyCluster) (name : string) (m : ACMeta) : Prop :=
  acm_Name m = name /\ acm_Namespace m = rpc_ns o.

(** The zone of the cluster's records: the one its spec refers to, or its own. *)
Definition cluster_zone (o : ReverseProxyCluster) : CrossNamespaceReference :=
  match rpc_ZoneRef (ReverseProxyCluster_Spec o) with
  | Some ref => ref
  | None => mkRef (proxyResourceName o) (rpc_ns o)
  end.
Definition in_zone (ref : CrossNamespaceReference) (d : ACDNSRecordSpec.t) : Prop :=
  exists z, ACDNSRecordSpec.ZoneRef d = Some z /\
    ACCrossNamespaceReference.Name z = Some (ref_Name ref) /\
    ACCrossNamespaceReference.Namespace z = Some (ref_Namespace ref).

(** What a call does for the proxy cluster [o] while its Service has the
    addresses [addrs]: proxies that take their certificate from the secret and
    announce the address, behind a Service that selects them; a zone of the
    domain, unless one is referred to; in that zone the addresses of the Service
    under the cluster's address, and every name of the domain an alias of it;
    the record of a type only deleted while no address is of that type; and the
    domain registered for the cluster. Nothing else is written in the cluster
    but the token's Secret and the resource itself, its spec and metadata but
    for the finalizers as they were. *)
Definition serves (addrs : list familyAddress) (o : ReverseProxyCluster) (c : call) : Prop :=
  let spec := ReverseProxyCluster_Spec o in
  let labels := {[ "app.kubernetes.io/name"%string := "netbird-reverse-proxy"%string;
                   "app.kubernetes.io/instance"%string := rpc_name o ]} in
  match c with
  | KApply (ApplyDeployment m w) => exists proxy, own_object o (proxyResourceName o) m /\
      pod_Containers (wl_PodSpec w) = [proxy] /\ wl_Selector w = labels /\ wl_TemplateLabels w = labels /\
      wl_Replicas w = Some (default 1 (rpc_Replicas spec)) /\
      c_Image proxy = (if String.eqb (rpc_Image spec) "" then ReverseProxyImage else rpc_Image spec) /\
      mkEnv "NB_PROXY_DOMAIN" (EnvValue (rpc_ClusterAddress spec)) ∈ c_Env proxy /\
      mkEnv "NB_PROXY_PRIVATE" (EnvValue (strconv.FormatBool (rpc_Private spec))) ∈ c_Env proxy /\
      mkEnv "NB_PROXY_TOKEN" (EnvSecret (proxyResourceName o) "token") ∈ c_Env proxy /\
      pod_Volumes (wl_PodSpec w) =
        (if String.eqb (rpc_CertSecretName spec) "" then [] else [mkVolume "certs" (SecretVolume (rpc_CertSecretName spec))])
  | KApply (ApplyService m s) => own_object o (proxyResourceName o) m /\
      ss_Type s = ServiceTypeLoadBalancer /\ ss_Selector s = labels /\
      ss_Ports s = [("http"%string, 80, 8443); ("https"%string, 443, 8443)]
  | KApply (ApplyDNSZone m z) => own_object o (proxyResourceName o) m /\ rpc_ZoneRef spec = None /\
      ACDNSZoneSpec.Name z = Some (rpc_Domain spec) /\ ACDNSZoneSpec.Domain z = Some (rpc_Domain spec) /\
      ACDNSZoneSpec.Enabled z = Some true
  | KApply (ApplyDNSRecord m d) => in_zone (cluster_zone o) d /\ ACDNSRecordSpec.TTL d = Some 300 /\
      ((exists fa rt, fa ∈ addrs /\ dnsRecordTypeFor (fa_address fa) = (rt, true) /\
          own_object o (proxyAddressRecordName o rt) m /\ ACDNSRecordSpec.Type_ d = Some rt /\
          ACDNSRecordSpec.Name d = Some (rpc_ClusterAddress spec) /\
          ACDNSRecordSpec.Content d = Some (fa_address fa)) \/
       (own_object o (proxyResourceName o +:+ "-catchall") m /\
          ACDNSRecordSpec.Type_ d = Some "CNAME"%string /\
          ACDNSRecordSpec.Name d = Some ("*." +:+ rpc_Domain spec) /\
          ACDNSRecordSpec.Content d = Some (rpc_ClusterAddress spec)))
  | KApply (ApplySecret m data) => own_object o (proxyResourceName o) m /\ dom data = {[ "token"%string ]}
  | KApply _ => False
  | KDelete k ns name => exists ty, k = KDNSRecord /\ ns = rpc_ns o /\ name = proxyAddressRecordName o ty /\
      ty ∈ ["A"%string; "AAAA"%string] /\ addrs <> [] /\
      forall fa, fa ∈ addrs -> dnsRecordTypeFor (fa_address fa) <> (ty, true)
  | KPatch k _ _ => k = KReverseProxyCluster /\ keeps (k := KReverseProxyCluster) o c
  | KStatusUpdate _ _ => False
  | NBCreate CDomains req => req = api.mkReverseProxyDomainRequest (rpc_Domain spec) (rpc_ClusterAddress spec)
  | NBCreate CTokens req => req = api.mkProxyTokenRequest ("k8s-" +:+ rpc_ns o +:+ "-" +:+ rpc_name o)
  | NBCreate _ _ | NBUpdate _ _ _ => False
  | _ => True
  end.

(** The addresses of the cluster's Service, as read: the first of each family. *)
Definition service_addresses (o : ReverseProxyCluster) (addrs : list familyAddress) (t : history) : Prop :=
  exists svc, Entry (KGet KService (rpc_ns o) (proxyResourceName o)) (Ok svc) ∈ t /\
    addrs = first_per_family [] (lbIngressAddresses svc).

Lemma own_object_self o name refs : own_object o name (WithOwnerReferences refs (ObjectAC name (rpc_ns o))).
Proof. by split. Qed.

(** A program that is safe whatever the parameter. *)
Lemma safe_forall {A I} (P : I -> call -> Prop) (i0 : I) (p : M A) Q :
  (forall i, safe (P i) p Q) -> safe (fun c => forall i, P i c) p Q.
Proof.
  induction p as [a|c k IH]; intros Hp; [exact (Hp i0)|]. apply safe_call.
  - intros i. by destruct (Hp i).
  - intros r. apply IH. intros i. destruct (Hp i) as [_ Hk]. apply Hk.
Qed.

Section clusters.
Context `{ErrorClass} `{K8sLib} (ManagementURL : string) (o : ReverseProxyCluster).

(** A run that serves the cluster with the addresses read in it, or with none. *)
Definition serving_run (t : history) : Prop :=
  exists addrs, (addrs = [] \/ service_addresses o addrs t) /\ forall e, e ∈ t -> serves addrs o (entry_call e).

Lemma serving_run_none {A} (p : M A) Q : safe (serves [] o) p Q -> wp p (fun t _ => serving_run t).
Proof.
  intros Hp. eapply wp_mono; [by apply safe_wp|]. intros t a [Ht _]. exists []. split; [by left|].
  intros [c r] He. by apply (Ht c r).
Qed.

Lemma serving_run_bind {A B} (p : M A) (f : A -> M B) (Q : A -> Prop) :
  (forall addrs, safe (serves addrs o) p Q) -> (forall a, Q a -> wp (f a) (fun t _ => serving_run t)) ->
  wp (bind p f) (fun t _ => serving_run t).
Proof.
  intros Hp Hf. apply wp_bind. eapply wp_mono; [apply safe_wp, (safe_forall (fun addrs => serves addrs o) []), Hp|]. intros t a [Ht Ha].
  eapply wp_mono; [by apply Hf|]. intros t' b (addrs & Hread & Hs). exists addrs. split.
  - destruct Hread as [?|(svc & ? & ?)]; [by left|right; exists svc]. split; [set_solver|done].
  - intros [c r] [He|He]%elem_of_app; [exact (Ht c r He addrs)|by apply Hs].
Qed.

(** [o] up to its status and finalizers. *)
Abbreviation like := (identity (k := KReverseProxyCluster) o).

Lemma like_spec rpc : like rpc -> ReverseProxyCluster_Spec rpc = ReverseProxyCluster_Spec o.
Proof. by intros [Hs _]. Qed.
Lemma like_name rpc : like rpc -> rpc_name rpc = rpc_name o /\ rpc_ns rpc = rpc_ns o.
Proof.
  intros [_ Hm]. unfold rpc_name, rpc_ns. split; [by apply (f_equal meta_Name) in Hm|by apply (f_equal meta_Namespace) in Hm].
Qed.
Lemma serves_patch addrs rpc b : like rpc -> serves addrs o (KPatch KReverseProxyCluster rpc b).
Proof. intros Hr. split; [done|]. by apply keeps_patch. Qed.

Section addresses.
Context (addrs : list familyAddress).
Abbreviation serving := (serves addrs o).

Ltac serve_run := safe_run ltac:(first
  [ apply safe_bind
  | match goal with
    | |- safe _ (Call (KPatch _ _ _) _) _ => apply safe_call; [apply serves_patch; kept|intros ?]
    | |- safe _ (Call _ _) _ => apply safe_call; [cbn; try done|intros ?]
    end ]).

Lemma mintToken_serves rpc ownerRef : like rpc ->
  safe serving (mintToken rpc ownerRef) (fun r => match r with Ok rpc' => like rpc' | Err _ => True end).
Proof.
  intros Hr. destruct (like_name rpc Hr) as [Hn Hns]. unfold mintToken, patch, proxyResourceName.
  rewrite Hn, Hns. destruct (negb _); [done|].
  apply safe_call; [done|]. intros [resp|e]; [|done].
  apply safe_call; [split; [apply own_object_self|apply dom_singleton_L]|]. intros [e|]; [done|].
  apply safe_call; [apply serves_patch; kept|]. intros [e|]; [done|]. apply safe_ret. kept.
Qed.
Lemma notReady_serves rpc msg : like rpc -> safe serving (notReady rpc msg) (fun _ => True).
Proof.
  intros Hr. unfold notReady, patch. apply safe_call; [apply serves_patch; kept|]. by intros [e|].
Qed.

Lemma ensureDomain_serves rpc : like rpc -> safe serving (ensureDomain rpc) (fun _ => True).
Proof.
  intros [Hs _]. cbn in Hs. unfold ensureDomain, anotherClusterMatches, create_domain, delete_tolerant. rewrite <- Hs.
  apply safe_call; [done|]. intros [ds|e]; [|done]. cbn [bind_result].
  assert (safe serving (let? resp := ask (NBCreate CDomains (api.mkReverseProxyDomainRequest
      (rpc_Domain (ReverseProxyCluster_Spec o)) (rpc_ClusterAddress (ReverseProxyCluster_Spec o)))) in
    Ret (Ok (api.dm_Id resp))) (fun _ : result error string => True)) as Hc.
  { apply safe_call; [done|]. by intros [?|?]. }
  match goal with |- context [find_first ?f ds] => destruct (find_first f ds) as [d|] end; [|exact Hc].
  cbn zeta. destruct (_ || _); [done|].
  apply safe_call; [done|]. intros [items|e]; [|done]. cbn. destruct (anotherLiveMatches _ _ _ _); [done|].
  apply safe_calls_bind; [eapply calls_in_mono; [|apply GetProxyClusterByAddress_reads]|].
  { intros c Hc'. by destruct c. }
  intros [c|e]; [done|]. destruct (negb _); [done|].
  apply safe_call; [done|]. intros [e'|]; [cbn; destruct (netbird_IsNotFound e'); [exact Hc|done]|exact Hc].
Qed.

Lemma registerDomain_serves rpc : like rpc -> safe serving (registerDomain rpc) (fun _ => True).
Proof.
  intros Hr. unfold registerDomain. apply safe_bind. eapply safe_mono; [|by apply ensureDomain_serves].
  intros [id|e] _; [|destruct (errors_Is e _); [by apply notReady_serves|done]].
  unfold notReady, patch, patch_observed. serve_run.
Qed.

Lemma enroll_serves rpc : like rpc -> safe serving (enroll rpc) (fun _ => True).
Proof.
  intros Hr. unfold enroll.
  apply safe_calls_bind; [eapply calls_in_mono; [|apply GetProxyClusterByAddress_reads]|].
  { intros c Hc. by destruct c. }
  intros [c|e]; [apply registerDomain_serves; kept|].
  destruct (errors_Is e _); [apply notReady_serves; kept|done].
Qed.

(** A published type is the type of some address, and every address counts. *)
Lemma publish_serves rpc ownerRef l : like rpc -> (forall fa, fa ∈ l -> fa ∈ addrs) -> forall published,
  safe serving (publish_addresses rpc ownerRef (cluster_zone o) l published) (fun r =>
    match r with
    | Ok pub => (forall ty, ty ∈ published -> ty ∈ pub) /\
        forall fa ty, fa ∈ l -> dnsRecordTypeFor (fa_address fa) = (ty, true) -> ty ∈ pub
    | Err _ => True
    end).
Proof.
  intros Hr Hl. pose proof (like_spec _ Hr) as Hs. destruct (like_name _ Hr) as [Hn Hns].
  induction l as [|fa l IH]; intros published.
  { apply safe_ret. split; [done|]. by intros fa ty ?%not_elem_of_nil. }
  cbn [publish_addresses]. destruct (dnsRecordTypeFor (fa_address fa)) as [rt ok] eqn:Hrt.
  assert (forall pub0, (forall ty, ty ∈ published -> ty ∈ pub0) -> (ok = true -> rt ∈ pub0) ->
    safe serving (publish_addresses rpc ownerRef (cluster_zone o) l pub0) (fun r =>
      match r with
      | Ok pub => (forall ty, ty ∈ published -> ty ∈ pub) /\
          forall fa' ty, fa' ∈ fa :: l -> dnsRecordTypeFor (fa_address fa') = (ty, true) -> ty ∈ pub
      | Err _ => True
      end)) as Hgo.
  { intros pub0 Hp0 Hrt0. eapply safe_mono; [|apply IH; set_solver].
    intros [pub|e]; [|done]. intros [Hsub Hall]. split; [auto|].
    intros fa' ty [->|Hfa']%elem_of_cons Hty; [|by eapply Hall]. rewrite Hrt in Hty. injection Hty as -> ->. auto. }
  destruct ok; cbn [negb orb]; [|by apply Hgo].
  destruct (bool_decide_reflect (rt ∈ published)); [by apply Hgo|].
  apply safe_call; [|intros [e|]; [done|apply Hgo; set_solver]].
  cbn. unfold proxyAddressRecordName, proxyResourceName. rewrite Hs, Hn, Hns.
  split; [by eexists|]. split; [done|]. left. exists fa, rt. split; [apply Hl; left|]. by split_and!.
Qed.

Lemma unpublish_serves rpc pub types : like rpc -> addrs <> [] -> (forall ty, ty ∈ types -> ty ∈ ["A"%string; "AAAA"%string]) ->
  (forall fa ty, fa ∈ addrs -> dnsRecordTypeFor (fa_address fa) = (ty, true) -> ty ∈ pub) ->
  safe serving (unpublish rpc types pub) (fun _ => True).
Proof.
  intros Hr Hne Hty Hpub. destruct (like_name _ Hr) as [Hn Hns].
  induction types as [|ty types IH]; [done|]. cbn [unpublish].
  destruct (bool_decide_reflect (ty ∈ pub)); [apply IH; set_solver|].
  apply safe_call.
  - exists ty. unfold proxyAddressRecordName, proxyResourceName. rewrite Hn, Hns.
    do 3 (split; [done|]). split; [apply Hty; left|]. split; [done|]. intros fa Hfa Hrt. by eauto.
  - intros [e|]; [destruct (kerrors_IsNotFound e); [|done]|]; apply IH; set_solver.
Qed.

Lemma applyRecords_serves rpc ownerRef : like rpc -> addrs <> [] ->
  safe serving (applyRecords rpc ownerRef (cluster_zone o) addrs) (fun _ => True).
Proof.
  intros Hr Hne. pose proof (like_spec _ Hr) as Hs. destruct (like_name _ Hr) as [Hn Hns]. unfold applyRecords.
  apply safe_bind. eapply safe_mono; [|by apply publish_serves]. intros [pub|e]; [intros [_ Hpub]|done].
  apply safe_bind. eapply safe_mono; [|by apply unpublish_serves].
  intros [e|] _; [done|]. apply safe_call; [|done].
  cbn. unfold proxyResourceName. rewrite Hs, Hn, Hns. split; [by eexists|]. split; [done|]. by right.
Qed.

Lemma reconcileDelete_serves : safe serving (RpCluster.reconcileDelete o) (fun _ => True).
Proof.
  unfold RpCluster.reconcileDelete, releaseDomain, releaseCluster, anotherClusterMatches, delete_tolerant, patch.
  serve_run.
Qed.

Lemma ensureZone_serves rpc ownerRef : like rpc ->
  safe serving (ensureZone rpc ownerRef) (fun r => match r with Ok ref => ref = cluster_zone o | Err _ => True end).
Proof.
  intros Hr. destruct (like_name _ Hr) as [Hn Hns]. unfold ensureZone, cluster_zone, proxyResourceName.
  rewrite (like_spec _ Hr), Hn, Hns. destruct (rpc_ZoneRef (ReverseProxyCluster_Spec o)) eqn:Hz; [done|].
  apply safe_call; [by split|]. by intros [e|].
Qed.

Lemma applyDeployment_serves rpc ownerRef : like rpc ->
  safe serving (applyDeployment ManagementURL rpc ownerRef) (fun _ => True).
Proof.
  intros Hr. destruct (like_name _ Hr) as [Hn Hns]. apply safe_call; [|done].
  cbn. eexists. unfold proxySelectorLabels, proxyResourceName. rewrite Hn, Hns.
  split; [done|]. split; [reflexivity|]. cbn. unfold proxyResourceName. rewrite (like_spec _ Hr), Hn.
  repeat (split; [first [done|set_solver]|]). done.
Qed.

Lemma applyService_serves rpc ownerRef : like rpc -> safe serving (applyService rpc ownerRef) (fun _ => True).
Proof.
  intros Hr. destruct (like_name _ Hr) as [Hn Hns]. apply safe_call; [|done].
  cbn. unfold proxySelectorLabels, proxy_service_meta, proxyResourceName. rewrite Hn, Hns.
  split; [|done]. repeat case_scrut; by split.
Qed.
End addresses.

Lemma deploy_serves rpc ownerRef : like rpc -> wp (deploy ManagementURL rpc ownerRef) (fun t _ => serving_run t).
Proof.
  intros Hr. destruct (like_name _ Hr) as [Hn Hns]. unfold deploy.
  apply (serving_run_bind _ _ _ (fun addrs => ensureZone_serves addrs rpc ownerRef Hr)).
  intros [zoneRef|e]; [intros ->|by exists []; split; [left|intros e' ?%not_elem_of_nil]].
  apply (serving_run_bind _ _ _ (fun addrs => applyDeployment_serves addrs rpc ownerRef Hr)).
  intros [e|] _; [by exists []; split; [left|intros e' ?%not_elem_of_nil]|].
  apply (serving_run_bind _ _ _ (fun addrs => applyService_serves addrs rpc ownerRef Hr)).
  intros [e|] _; [by exists []; split; [left|intros e' ?%not_elem_of_nil]|].
  unfold serviceAddresses, ask, perform. cbn [bind wp]. intros got.
  set (addrs := match got with Err _ => [] | Ok svc => first_per_family [] (lbIngressAddresses svc) end).
  assert (forall p : M outcome, safe (serves addrs o) p (fun _ => True) ->
    wp p (fun t _ => serving_run (Entry (KGet KService (rpc_ns rpc) (proxyResourceName rpc)) got :: t))) as Hgo.
  { intros p Hp. eapply wp_mono; [by apply safe_wp|]. intros t out [Ht _]. exists addrs. split.
    - destruct got as [svc|e]; [right; exists svc; split; [|done]|by left].
      unfold proxyResourceName. rewrite Hn, Hns. left.
    - intros e [->|He]%elem_of_cons; [done|]. destruct e as [c r]. by apply (Ht c r). }
  apply Hgo. destruct addrs as [|fa l] eqn:Haddrs; [apply notReady_serves; kept|].
  apply safe_bind. eapply safe_mono; [|apply applyRecords_serves; [kept|done]].
  intros [e|] _; [done|]. apply enroll_serves. kept.
Qed.
End clusters.

(** What a reconcile does for the cluster it read. *)
Definition serves_what_it_reads (ManagementURL ns name : string) `{ErrorClass} `{K8sLib}
    (Q : ReverseProxyCluster -> history -> Prop) : Prop :=
  wp (RpCluster.Reconcile ManagementURL ns name) (fun t _ =>
    exists r t', t = Entry (KGet KReverseProxyCluster ns name) r :: t' /\
      match r with
      | Err _ => t' = []
      | Ok o => Q o t' /\ forall e, e ∈ t' -> nb_write e -> nb_write_ok o t e
      end).

Lemma cluster_serves `{ErrorClass} `{K8sLib} ManagementURL ns name :
  serves_what_it_reads ManagementURL ns name serving_run.
Proof.
  assert (wp (RpCluster.Reconcile ManagementURL ns name) (fun t _ =>
    exists r t', t = Entry (KGet KReverseProxyCluster ns name) r :: t' /\
      match r with Err _ => t' = [] | Ok o => serving_run o t' end)) as Hserve.
  2: { eapply wp_mono; [apply wp_and; [apply Reconcile_nb_writes|exact Hserve]|]. intros t out [(r & t' & -> & Hnb) (r' & t'' & Heq & Hs)]. entry_eq.
    exists r', t''. split; [done|]. by destruct r'. }
  unfold RpCluster.Reconcile, ask, perform. cbn [bind]. intros [o|e]; [|by exists (Err e), []].
  assert (forall p : M outcome, wp p (fun t _ => serving_run o t) ->
    wp p (fun t _ => exists r t', Entry (KGet KReverseProxyCluster ns name) (Ok o) :: t = Entry (KGet KReverseProxyCluster ns name) r :: t' /\
      match r with Err _ => t' = [] | Ok o => serving_run o t' end)) as Hgo.
  { intros p Hp. eapply wp_mono; [exact Hp|]. intros t out Ht. by exists (Ok o), t. }
  apply Hgo. destruct (deleting _); [apply (serving_run_none _ _ (fun _ => True)), reconcileDelete_serves|].
  set (o1 := add_finalizer (k := KReverseProxyCluster) o (Finalizer "reverseproxycluster")).
  assert (identity (k := KReverseProxyCluster) o o1) as Hl by apply (identity_add_finalizer (k := KReverseProxyCluster)).
  apply (serving_run_bind _ (patch (k := KReverseProxyCluster) o1) _ (fun _ => True)).
  { intros addrs. apply safe_call; [by apply serves_patch|done]. }
  intros [e|] _; [by exists []; split; [left|intros e' ?%not_elem_of_nil]|].
  destruct (ControllerReference KReverseProxyCluster _) as [ownerRef|e];
    [|by exists []; split; [left|intros e' ?%not_elem_of_nil]].
  apply (serving_run_bind _ _ _ _ (fun addrs => mintToken_serves o addrs o1 ownerRef Hl)).
  intros [rpc|e] Hr; [by apply deploy_serves|by exists []; split; [left|intros e' ?%not_elem_of_nil]].
Qed.

(** What an applied cluster does for the Gateway: once stored, it has the wanted
    spec, and its reconcile serves it and does nothing else. *)
Definition cluster_serving (m : ACMeta) (a : ACReverseProxyClusterSpec.t) (spec : ReverseProxyClusterSpec)
    `{ErrorClass} `{K8sLib} : Prop :=
  (forall o, stored_cluster m a o -> ReverseProxyCluster_Spec o = spec) /\
  forall ManagementURL,
  serves_what_it_reads ManagementURL (acm_Namespace m) (acm_Name m) serving_run.

Lemma gateway_cluster_serving `{ErrorClass} `{K8sLib} m cfg params :
  cluster_serving m (GatewayReconciler.cluster_spec cfg params) (wanted cfg params).
Proof.
  split; [|intros ManagementURL; apply cluster_serves].
  intros o [_ Hs]. by rewrite Hs, cluster_spec_wanted.
Qed.

(** C20: a Gateway is only translated when its class is the operator's, its
    parameters were read from its own namespace and it has a proxy listener,
    and then to the one cluster named after it, whose spec, once stored, has the
    domain, the address and the certificate of the listener and the rest of the
    parameters. Every reconcile of that cluster, from whatever the two servers
    answer, does only what the listener asks for: it applies proxies with the
    listener's certificate, the Service that selects them, their token's Secret,
    the zone of the listener's domain (unless one is referred to) and, in that
    zone and no other, an address record under the cluster's address for
    addresses of that Service read in the same run and the alias of every name
    in the domain; it deletes nothing in the cluster but address records, of a
    type the Service has no address of; it patches nothing but itself, spec and
    metadata but for the finalizers unchanged; and at NetBird it writes only its
    token, the registration of the domain under the cluster's address, and the
    deletions C22 allows. The Gateway's status is written as rejected when no
    cluster was applied, and otherwise as accepted, Programmed exactly when the
    cluster read back is ready. *)
Theorem Gateway_exposes `{ErrorClass} `{K8sLibLaws} ns name :
  wp (GatewayReconciler.Reconcile ns name) (fun t _ =>
    GatewayProps.writes_ok ns name t /\
    forall ac x, Entry (KApply ac) x ∈ t -> exists gw pref params cfg m a,
      Entry (KGet KGateway ns name) (Ok gw) ∈ t /\
      Entry (KGet KReverseProxyClusterParameters (meta_Namespace (Gateway_Meta gw)) pref) (Ok params) ∈ t /\
      gatewayProxyConfig gw = Some cfg /\ ac = ApplyReverseProxyCluster m a /\
      acm_Name m = proxyClusterNameForGateway gw /\ acm_Namespace m = meta_Namespace (Gateway_Meta gw) /\
      cluster_serving m a (wanted cfg (ReverseProxyClusterParameters_Spec params))).
Proof.
  eapply wp_mono; [apply GatewayProps.Gateway_translates|]. intros t out Hw. split; [exact Hw|].
  intros ac x Hx. destruct (proj1 Hw ac x Hx) as (gw & gc & pref & params & cfg & ownerRef & Hg & _ & _ & Hp & Hc & _ & ->).
  exists gw, pref, params, cfg. do 2 eexists. do 3 (split; [eassumption|]). split; [reflexivity|].
  do 2 (split; [done|]). apply gateway_cluster_serving.
Qed.

(** ** Concrete runs *)
Module ExposureRun.
Import MockRun.

Definition meta (ns name : string) : ObjectMeta := mkMeta name ns ("uid-" +:+ name) ∅ ∅ [] None 1.


Definition gateway : Gateway :=
  mkGateway (meta "infra" "gw") "netbird"
    [mkListener "https" (Some "*.apps.example.com") HTTPSProtocolType (Some (mkListenerTLS ["cert"]))
       (Some (mkAllowedRoutes (Some (mkRouteNamespaces (Some NamespacesFromAll)))))]
    (Some (mkGatewayInfrastructure (Some (mkParametersReference GroupVersion_Group paramsKind "proxies")))) [] [] [].
Definition params : ReverseProxyClusterParametersSpec :=
  mkReverseProxyClusterParametersSpec "" (Some 2) "" [] false ∅.
Definition route : HTTPRoute :=
  mkHTTPRoute (meta "shop" "web") [mkParentReference (Some "infra") "gw" None] ["web.apps.example.com"]
    [mkHTTPRouteRule [] [] [mkHTTPBackendRef None None "web" (Some 80) None []]] [].

Definition cluster (c : call) : resp c :=
  match c with
  | KGet KService ns name =>
      Ok (mkService (meta ns name) ServiceTypeLoadBalancer [mkServicePort "http" 80] ["192.0.2.7"])
  | KGet KNamespace _ name => Ok (mkNamespace (meta "" name))
  | KList KNetwork _ _ => Ok [mkNetwork (meta "netbird" "corp") (mkNetworkSpec "corp" "") (mkNetworkStatus 0 [] "n-1")]
  | KGet KGateway _ _ => Ok gateway
  | KGet KGatewayClass _ _ => Ok (mkGatewayClass (meta "" "netbird") gatewayController [])
  | KGet KHTTPRoute _ _ => Ok route
  | KGet KReverseProxyClusterParameters ns name => Ok (mkReverseProxyClusterParameters (meta ns name) params)
  | c => no_answer c
  end.


Lemma HTTPRoute_exposes_witness :
  let t := (follow cluster (HTTPRouteReconciler.Reconcile "shop" "web")).1 in
  exists m spec, Entry (KApply (ApplyReverseProxyService m spec)) None ∈ t /\
    exists route gw cfg bs h, gatewayProxyConfig gw = Some cfg /\ routeBackends route = Ok bs /\
    h ∈ admittedHostnames gw route cfg /\ forall o, stored_service m spec o ->
      wp (renderService (fun _ => "http"%string) o) (fun t' r => forall req, r = Ok req ->
        http_request h (gp_clusterAddress cfg) (route_namespace route) bs t' req).
Proof.
  cbn zeta. set (t := (follow _ _).1).
  assert (exists m spec, t !! 3%nat = Some (Entry (KApply (ApplyReverseProxyService m spec)) None)) as (m & spec & Hin).
  { do 2 eexists. reflexivity. }
  apply list_elem_of_lookup_2 in Hin. exists m, spec. split; [exact Hin|].
  destruct (wp_elim _ _ _ _ (HTTPRoute_exposes iterate0 rand0 (fun _ => "http"%string) "shop" "web")
    (follow_runs cluster (HTTPRouteReconciler.Reconcile "shop" "web")) _ _ Hin)
    as (r & gw & p & cfg & ownerRef & bs & h & m' & spec' & Hr & _ & Hc & Hb & Hh & _ & [= <- <-] & _ & Hall & _).
  exists r, gw, cfg, bs, h. by split_and!.
Defined.

(** The cluster the Gateway is translated to, as stored, and the proxies' Service
    with an address; NetBird has neither the cluster nor the domain. *)
Definition apps : gatewayProxy := mkGatewayProxy "apps.example.com" "gate.apps.example.com" "cert" "https".
Definition gateway_cluster : ReverseProxyCluster :=
  mkReverseProxyCluster (meta "infra" "gateway-gw") (wanted apps params) (mkReverseProxyClusterStatus 0 [] "" "" "" "" false 0).
Definition enrolled (c : call) : resp c :=
  match c with
  | KGet KReverseProxyCluster _ _ => Ok gateway_cluster
  | NBList CClusters => Ok [api.mkProxyCluster "pc-1" "gate.apps.example.com" true 1]
  | NBList CDomains => Ok []
  | NBCreate CDomains req => Ok (api.mkReverseProxyDomain "dm-1" (api.dmq_Domain req) (Some (api.dmq_TargetCluster req)) false)
  | NBCreate CTokens req => Ok (api.mkProxyTokenCreated "tok-1" (api.ptq_Name req) "secret")
  | c => cluster c
  end.

Lemma Gateway_exposes_witness :
  let t := (follow cluster (GatewayReconciler.Reconcile "infra" "gw")).1 in
  let t' := (follow enrolled (RpCluster.Reconcile "https://api.netbird.io" "infra" "gateway-gw")).1 in
  exists m a r, Entry (KApply (ApplyReverseProxyCluster m a)) r ∈ t /\ stored_cluster m a gateway_cluster /\
    ReverseProxyCluster_Spec gateway_cluster = wanted apps params /\
    (exists id, Entry (NBCreate CDomains (api.mkReverseProxyDomainRequest "apps.example.com" "gate.apps.example.com")) id ∈ t') /\
    (exists m' d, Entry (KApply (ApplyDNSRecord m' d)) None ∈ t' /\ ACDNSRecordSpec.Content d = Some "192.0.2.7"%string) /\
    exists addrs, (addrs = [] \/ service_addresses gateway_cluster addrs (drop 1 t')) /\
      forall e, e ∈ drop 1 t' -> serves addrs gateway_cluster (entry_call e).
Proof.
  cbn zeta. set (t := (follow cluster _).1). set (t' := (follow enrolled _).1).
  assert (exists m a, t !! 3%nat = Some (Entry (KApply (ApplyReverseProxyCluster m a)) None) /\
    stored_cluster m a gateway_cluster) as (m & a & Hin & Hst).
  { do 2 eexists. split; [reflexivity|]. split; [split; reflexivity|]. symmetry. exact (cluster_spec_wanted apps params). }
  apply list_elem_of_lookup_2 in Hin. exists m, a, None. split; [exact Hin|]. split; [exact Hst|].
  destruct (wp_elim _ _ _ _ (Gateway_exposes "infra" "gw")
    (follow_runs cluster (GatewayReconciler.Reconcile "infra" "gw"))) as [_ Hall].
  destruct (Hall _ _ Hin) as (gw & pref & ps & cfg & m' & a' & Hg & Hp & Hc & [= <- <-] & _ & _ & Hspec & Hs).
  apply follow_answers in Hg. injection Hg as ->. apply follow_answers in Hp. injection Hp as ->.
  injection Hc as <-. split; [exact (Hspec _ Hst)|]. split; [|split].
  - eexists. eapply (list_elem_of_lookup_2 _ 17). reflexivity.
  - do 2 eexists. split; [eapply (list_elem_of_lookup_2 _ 9)|]; reflexivity.
  - specialize (Hs "https://api.netbird.io"%string). pose proof Hst as [[Hn Hns] _]. rewrite <- Hn, <- Hns in Hs.
    destruct (wp_elim _ _ _ _ Hs (follow_runs enrolled (RpCluster.Reconcile "https://api.netbird.io" "infra" "gateway-gw"))) as (r & t2 & Heq & Ht).
    cbn [meta_Name meta_Namespace gateway_cluster meta ReverseProxyCluster_Meta] in Heq, Ht.
    assert (t2 = drop 1 t') as -> by (subst t'; by rewrite Heq).
    assert (r = Ok gateway_cluster) as ->.
    { refine (follow_answers enrolled (RpCluster.Reconcile "https://api.netbird.io" "infra" "gateway-gw")
        (Entry (KGet KReverseProxyCluster "infra" "gateway-gw") r) _). rewrite Heq. left. }
    destruct Ht as [(addrs & ? & ?) _]. by exists addrs.
Defined.
End ExposureRun.
