(* ===== verification/Operator.v ===== *)
(** * The process ([cmd/main.go]) and its watches

    Which controllers a configuration starts, what each watches
    ([SetupWithManager]), and the reconcile each runs: the composition of the
    components of this development.  Whether the manager accepts a
    registration, and the other steps of third-party libraries, are given. *)

From stdpp Require Import base gmap list strings.
From Stdlib Require Import ZArith Lia.
From S2P Require Import Prelude Sort GoStrings GoErr Prog ApiTypes K8sTypes ApplyConf Env NetbirdUtil Reconcile Mirror NetworkMirror ServiceAddr DNSMirror Rps Gateway GatewayCtl LoadBalancer RpCluster GroupCtl SetupKeyCtl Router ClusterProxyCtl Config.

Open Scope prog_scope.

(** ** Controllers and watches *)

(** The controllers, with the fields [main] sets. *)
Inductive controller :=
| SetupKeyController
| GroupController
| ClusterProxyController (ApiKey ManagementURL : string)
| NetworkController
| NetworkResourceController
| DNSZoneController
| DNSRecordController
| NetworkRouterController (ClientImage ManagementURL : string)
| LoadBalancerController (r : LoadBalancerReconciler)
| ReverseProxyServiceController
| ReverseProxyClusterController (ManagementURL : string)
| GatewayClassController (ManagedClassName : string)
| GatewayController
| HTTPRouteController.

(** The kinds a watch can be about: those with a reconciled or read object, and
    [appsv1.Deployment], which is only ever applied. *)
Inductive watched := Watched (k : kind) | WatchedDeployment.

#[export] Instance watched_eq_dec : EqDecision watched.
Proof. solve_decision. Defined.

(** [For], [Owns] and [Watches] of a controller builder; the mappings of the
    last are modelled with their controllers. *)
Record watches := mkWatches {
  w_For : watched;
  w_Owns : list watched;
  w_Watches : list watched
}.

Definition SetupKey_watches : watches := mkWatches (Watched KSetupKey) [Watched KSecret] [].
Definition Group_watches : watches := mkWatches (Watched KGroup) [] [].
Definition ClusterProxy_watches : watches :=
  mkWatches (Watched KClusterProxy) [Watched KSetupKey; WatchedDeployment] [].
Definition Mirror_watches (newObject : kind) : watches := mkWatches (Watched newObject) [] [].
Definition NetworkRouter_watches : watches :=
  mkWatches (Watched KNetworkRouter) [Watched KGroup; Watched KSetupKey; Watched KDaemonSet] [].
Definition LoadBalancer_watches : watches :=
  mkWatches (Watched KService) [Watched KNetworkResource; Watched KDNSRecord] [].
Definition ReverseProxyCluster_watches : watches :=
  mkWatches (Watched KReverseProxyCluster)
    [Watched KSecret; WatchedDeployment; Watched KService; Watched KDNSZone; Watched KDNSRecord] [].
Definition GatewayClass_watches : watches := mkWatches (Watched KGatewayClass) [] [].
Definition Gateway_watches : watches :=
  mkWatches (Watched KGateway) [Watched KReverseProxyCluster]
    [Watched KGatewayClass; Watched KReverseProxyClusterParameters].
Definition HTTPRoute_watches : watches :=
  mkWatches (Watched KHTTPRoute) [Watched KReverseProxyService] [Watched KGateway].

Definition SetupWithManager (c : controller) : watches :=
  match c with
  | SetupKeyController => SetupKey_watches
  | GroupController => Group_watches
  | ClusterProxyController _ _ => ClusterProxy_watches
  | NetworkController => Mirror_watches KNetwork
  | NetworkResourceController => Mirror_watches KNetworkResource
  | DNSZoneController => Mirror_watches KDNSZone
  | DNSRecordController => Mirror_watches KDNSRecord
  | NetworkRouterController _ _ => NetworkRouter_watches
  | LoadBalancerController _ => LoadBalancer_watches
  | ReverseProxyServiceController => Mirror_watches KReverseProxyService
  | ReverseProxyClusterController _ => ReverseProxyCluster_watches
  | GatewayClassController _ => GatewayClass_watches
  | GatewayController => Gateway_watches
  | HTTPRouteController => HTTPRoute_watches
  end.

(** ** Start-up *)

(** The options of the command line that reach a controller or the webhook. *)
Record flags := mkFlags {
  fl_runtimeNamespace : string;
  fl_managementURL : string;
  fl_netbirdClientImage : string;
  fl_netbirdAPIKey : string;
  fl_advertiseLBs : bool;
  fl_defaultResourceGroups : string;
  fl_lbNetwork : string;
  fl_lbDNSZone : string;
  fl_lbDNSZoneGroups : string;
  fl_webhookCertPath : string;
  fl_enableWebhooks : bool;
  fl_enableGatewayAPI : bool;
  fl_gatewayClassName : string;
  fl_logLevel : string;
  fl_logFormat : string
}.

Definition default_flags : flags :=
  mkFlags "" "https://api.netbird.io" "" "" true "" "" "" "" "" true false "netbird" "info" "json".

(** What [setupControllers] hands to the manager. *)
Inductive registration := Controller (c : controller) | GatewayClassSeeder (ManagedClassName : string).

(** One [if err := ...; err != nil { return }] after the other: what was
    registered, and the error with its prefix. *)
Fixpoint register_all (setup : registration -> option error) (steps : list (string * registration)) :
    list registration * option (string * error) :=
  match steps with
  | [] => ([], None)
  | (prefix, r) :: rest =>
      match setup r with
      | Some e => ([], Some (prefix, e))
      | None => let '(rs, err) := register_all setup rest in (r :: rs, err)
      end
  end.

Definition gateway_steps (gatewayClassName : string) : list (string * registration) :=
  [("setup GatewayClass controller: ", Controller (GatewayClassController gatewayClassName));
   ("register GatewayClass seeder: ", GatewayClassSeeder gatewayClassName);
   ("setup Gateway controller: ", Controller GatewayController);
   ("setup HTTPRoute controller: ", Controller HTTPRouteController)]%string.

Definition loadbalancer_of (runtimeNamespace : string) (advertiseLBs : bool)
    (defaultResourceGroups lbNetwork lbDNSZone lbDNSZoneGroups : string) : LoadBalancerReconciler :=
  mkLoadBalancerReconciler advertiseLBs runtimeNamespace lbNetwork lbDNSZone
    (splitGroups lbDNSZoneGroups) (splitGroups defaultResourceGroups) true.

Definition setupControllers (setup : registration -> option error)
    (netbirdAPIKey managementURL netbirdClientImage runtimeNamespace : string)
    (advertiseLBs enableGatewayAPI : bool)
    (gatewayClassName defaultResourceGroups lbNetwork lbDNSZone lbDNSZoneGroups : string) :
    list registration * option (string * error) :=
  if String.eqb netbirdAPIKey "" then ([], None)
  else
    register_all setup
      ([("setup SetupKey controller: ", Controller SetupKeyController);
        ("setup Group controller: ", Controller GroupController);
        ("setup ClusterProxy controller: ", Controller (ClusterProxyController netbirdAPIKey managementURL));
        ("setup Network controller: ", Controller NetworkController);
        ("setup NetworkResource controller: ", Controller NetworkResourceController);
        ("setup DNSZone controller: ", Controller DNSZoneController);
        ("setup DNSRecord controller: ", Controller DNSRecordController);
        ("setup NetworkRouter controller: ", Controller (NetworkRouterController netbirdClientImage managementURL));
        ("setup LoadBalancer controller: ", Controller (LoadBalancerController
           (loadbalancer_of runtimeNamespace advertiseLBs defaultResourceGroups lbNetwork lbDNSZone lbDNSZoneGroups)));
        ("setup ReverseProxyService controller: ", Controller ReverseProxyServiceController);
        ("setup ReverseProxyCluster controller: ", Controller (ReverseProxyClusterController managementURL))]%string
       ++ if enableGatewayAPI then gateway_steps gatewayClassName else []).

(** The namespace file of the pod: its content, absent, or unreadable. *)
Inductive file_read := Content (b : string) | NotExist | ReadError (text : string).

Definition getRuntimeNamespace (runtimeNamespace : string) (file : file_read) : result error string :=
  if negb (String.eqb runtimeNamespace "") then Ok runtimeNamespace
  else
    match file with
    | Content b => Ok b
    | NotExist => Err (ErrText "not running in-cluster, runtime namespace needs to be set")
    | ReadError text => Err (ErrText ("error reading namespace file: " +:+ text))
    end.

Definition NetbirdClientImage : string :=
  "ghcr.io/netbirdio/netbird:0.77.0@sha256:fcf1d37d1a9b8c65e2968193d8762896750cfb4e81b04862b1b464f4eede3b9e".

(** What the libraries make of the start-up steps. *)
Record libraries := mkLibraries {
  url_Parse : string -> option error;
  namespace_file : file_read;
  certwatcher_New : string -> option error;
  NewManager : option error;
  SetupPodWebhookWithManager : option error;
  manager_setup : registration -> option error;
  manager_Add_certWatcher : option error;
  AddHealthzCheck : option error;
  AddReadyzCheck : option error
}.

Inductive ready_check := Ping | WebhookStarted.

(** The process when the manager starts. *)
Record process := mkProcess {
  p_log : zapOptions;
  p_Namespace : string;
  p_certWatcher : bool;        (* also: a TLS option is passed *)
  p_webhook : option (string * string);   (* management URL and client image *)
  p_registered : list registration;
  p_ready : ready_check
}.

(** [os.Exit(1)] with the message logged. *)
Definition or_exit {A} (err : option error) (msg : string) (k : result string A) : result string A :=
  match err with Some _ => Err msg | None => k end.

Definition main (f : flags) (l : libraries) : result string process :=
  match Options (fl_logLevel f) (fl_logFormat f) with
  | Err _ => Err "invalid logger options"%string
  | Ok zapOpts =>
      or_exit (url_Parse l (fl_managementURL f)) "invalid management url" (
      match getRuntimeNamespace (fl_runtimeNamespace f) (namespace_file l) with
      | Err _ => Err "unable to get runtime namespace"%string
      | Ok runtimeNamespace =>
          let image := if String.eqb (fl_netbirdClientImage f) "" then NetbirdClientImage
                       else fl_netbirdClientImage f in
          let certs := negb (String.eqb (fl_webhookCertPath f) "") in
          or_exit (if certs then certwatcher_New l (fl_webhookCertPath f) else None)
            "Failed to initialize webhook certificate watcher" (
          or_exit (NewManager l) "unable to start manager" (
          or_exit (if fl_enableWebhooks f then SetupPodWebhookWithManager l else None)
            "unable to create webhook" (
          let '(registered, err) :=
            setupControllers (manager_setup l) (fl_netbirdAPIKey f) (fl_managementURL f) image
              runtimeNamespace (fl_advertiseLBs f) (fl_enableGatewayAPI f) (fl_gatewayClassName f)
              (fl_defaultResourceGroups f) (fl_lbNetwork f) (fl_lbDNSZone f) (fl_lbDNSZoneGroups f) in
          match err with
          | Some _ => Err "unable to set up controllers"%string
          | None =>
              or_exit (if certs then manager_Add_certWatcher l else None)
                "unable to add webhook certificate watcher to manager" (
              or_exit (AddHealthzCheck l) "unable to set up health check" (
              or_exit (AddReadyzCheck l) "unable to set up ready check" (
              Ok (mkProcess zapOpts runtimeNamespace certs
                    (if fl_enableWebhooks f then Some (fl_managementURL f, image) else None)
                    registered (if certs then WebhookStarted else Ping)))))
          end)))
      end)
  end.

(** ** The reconcile a controller runs *)
Section operator.
Context `{ErrorClass} `{K8sLib} `{SortSlice}.
Context (mode_text : api.ServiceRequestMode -> string).

(** Every controller is given an event recorder. *)
Definition reconcile_of (c : controller) (ns name : string) : M outcome :=
  match c with
  | SetupKeyController => SetupKeyCtl.Reconcile true ns name
  | GroupController => GroupCtl.Reconcile true ns name
  | ClusterProxyController key url => ClusterProxyCtl.Reconcile key url ns name
  | NetworkController => Mirror.Reconcile NewNetworkReconciler true ns name
  | NetworkResourceController => Mirror.Reconcile NewNetworkResourceReconciler true ns name
  | DNSZoneController => Mirror.Reconcile NewDNSZoneReconciler true ns name
  | DNSRecordController => Mirror.Reconcile NewDNSRecordReconciler true ns name
  | NetworkRouterController image url => Router.Reconcile image url ns name
  | LoadBalancerController r => LoadBalancer.Reconcile r ns name
  | ReverseProxyServiceController => Mirror.Reconcile (NewReverseProxyServiceReconciler mode_text) true ns name
  | ReverseProxyClusterController url => RpCluster.Reconcile url ns name
  | GatewayClassController managed => GatewayClassReconciler.Reconcile managed name
  | GatewayController => GatewayReconciler.Reconcile ns name
  | HTTPRouteController => HTTPRouteReconciler.Reconcile ns name
  end.
End operator.

(** ** Children and watches *)

Definition applied_kind (ac : applyconf) : watched :=
  match ac with
  | ApplyNetworkResource _ _ => Watched KNetworkResource
  | ApplyDNSRecord _ _ => Watched KDNSRecord
  | ApplyDNSZone _ _ => Watched KDNSZone
  | ApplyGroup _ _ => Watched KGroup
  | ApplySetupKey _ _ => Watched KSetupKey
  | ApplyReverseProxyService _ _ => Watched KReverseProxyService
  | ApplyReverseProxyCluster _ _ => Watched KReverseProxyCluster
  | ApplySecret _ _ => Watched KSecret
  | ApplyService _ _ => Watched KService
  | ApplyDeployment _ _ => WatchedDeployment
  | ApplyDaemonSet _ _ => Watched KDaemonSet
  | ApplyGatewayClass _ _ _ => Watched KGatewayClass
  end.

(** The object has an owner, so that its changes are the owner's. *)
Definition is_child (ac : applyconf) : Prop :=
  match ac with
  | ApplyNetworkResource m _ | ApplyDNSRecord m _ | ApplyDNSZone m _ | ApplyGroup m _
  | ApplySetupKey m _ | ApplyReverseProxyService m _ | ApplyReverseProxyCluster m _
  | ApplySecret m _ | ApplyService m _ | ApplyDeployment m _ | ApplyDaemonSet m _ =>
      acm_OwnerReferences m <> []
  | ApplyGatewayClass _ _ _ => False
  end.

Definition only_children (owns : list watched) (c : call) : Prop :=
  match c with KApply ac => is_child ac -> applied_kind ac ∈ owns | _ => True end.

Lemma read_only_children owns c : is_read c -> only_children owns c.
Proof. by destruct c. Qed.

Ltac watched := apply (bool_decide_unpack _); reflexivity.

Ltac callee_children := idtac;
  match goal with
  | |- calls_in _ _ => first
      [ apply calls_in_bind_result
      | match goal with
        | |- calls_in _ (bind_outcome _ _) => apply calls_in_bind
        | |- calls_in _ (then_outcome _ _) => apply calls_in_bind
        | |- calls_in _ (then_result _ _) => apply calls_in_bind
        end
      | eapply calls_in_mono; [apply read_only_children|solve [auto with go_hints]] ]
  | |- _ ∈ _ => watched
  end.
Ltac children_run := calls_run callee_children.

Section children.
Context `{ErrorClass} `{K8sLib}.

(** The mirrors apply nothing. *)
Lemma mirror_children {k} `{MirrorObject k} owns (m : mirror k) rec ns name :
  (forall o, calls_in (only_children owns) (m_apply m o)) -> (forall o, calls_in (only_children owns) (m_del m o)) ->
  calls_in (only_children owns) (Mirror.Reconcile m rec ns name).
Proof.
  intros Ha Hd. unfold Mirror.Reconcile, Mirror.reconcileDelete, recordEvent, recordEventType, patch, patch_observed.
  calls_run ltac:(first [apply Ha|apply Hd]).
Qed.

Lemma SetupKey_children rec ns name :
  calls_in (only_children (w_Owns SetupKey_watches)) (SetupKeyCtl.Reconcile rec ns name).
Proof.
  unfold SetupKeyCtl.Reconcile, SetupKeyCtl.reconcileDelete, up_to_date, replace_key, recordEvent, recordEventType,
    delete_tolerant, patch, patch_observed.
  children_run.
Qed.

Lemma Group_children rec ns name : calls_in (only_children []) (GroupCtl.Reconcile rec ns name).
Proof.
  unfold GroupCtl.Reconcile, GroupCtl.reconcileDelete, ensure_group, create_group, recordEvent, recordEventType,
    patch, patch_observed.
  children_run.
Qed.

(** The Secret is not watched. *)
Lemma ClusterProxy_children ApiKey ManagementURL ns name :
  calls_in (only_children (Watched KSecret :: w_Owns ClusterProxy_watches))
    (ClusterProxyCtl.Reconcile ApiKey ManagementURL ns name).
Proof. unfold ClusterProxyCtl.Reconcile, patch_observed. children_run. Qed.

Lemma resolvePeerGroup_children ClientImage ManagementURL nr :
  calls_in (only_children (w_Owns NetworkRouter_watches)) (resolvePeerGroup ClientImage ManagementURL nr).
Proof.
  unfold resolvePeerGroup. destruct (peers_Group _) as [g|].
  - apply calls_in_bind_result; [|done]. eapply calls_in_mono; [apply read_only_children|apply GetGroupIDs_reads].
  - unfold ensureDeployedPeers, ensureDaemonSet. children_run.
Qed.

Lemma NetworkRouter_children ClientImage ManagementURL ns name :
  calls_in (only_children (w_Owns NetworkRouter_watches)) (Router.Reconcile ClientImage ManagementURL ns name).
Proof.
  unfold Router.Reconcile, Router.reconcileDelete, sync, resolveNetworkID, upsertRouter, verifyNetbirdID, get_err,
    dependency, delete_tolerant, patch, patch_observed.
  calls_run ltac:(first [apply resolvePeerGroup_children|callee_children]).
Qed.

Lemma delete_undesired_children {k} owns (meta : obj k -> ObjectMeta) desired items :
  calls_in (only_children owns) (delete_undesired k meta desired items).
Proof.
  induction items as [|o items IH]; [done|]. cbn. destruct (bool_decide _); [done|]. split; [done|].
  intros [e|]; [|done]. destruct (kerrors_IsNotFound e); done.
Qed.

Lemma LoadBalancer_children r ns name :
  calls_in (only_children (w_Owns LoadBalancer_watches)) (LoadBalancer.Reconcile r ns name).
Proof.
  assert (forall svc network zone owner gs ingress desired,
    calls_in (only_children (w_Owns LoadBalancer_watches)) (advertise svc network zone owner gs ingress desired)) as Hadv.
  { intros svc network zone owner gs ingress. induction ingress as [|fa ingress IH]; intros desired; [done|].
    cbn [advertise]. destruct (dnsRecordTypeFor _) as [ty ok]. destruct (negb ok); [done|].
    split; [intros _; watched|]. intros [e|]; [done|]. split; [intros _; watched|]. intros [e|]; [done|]. apply IH. }
  unfold LoadBalancer.Reconcile, resolveNetwork, LoadBalancer.ensureZone, LoadBalancer.prune, dependencyRequeue,
    recordEvent, recordNormalEvent, recordEventType.
  calls_run ltac:(first [apply Hadv|apply delete_undesired_children|callee_children]).
Qed.

Lemma RpCluster_children ManagementURL ns name :
  calls_in (only_children (w_Owns ReverseProxyCluster_watches)) (RpCluster.Reconcile ManagementURL ns name).
Proof.
  assert (forall rpc owner zone addrs,
    calls_in (only_children (w_Owns ReverseProxyCluster_watches)) (applyRecords rpc owner zone addrs)) as Hrec.
  { intros rpc owner zone addrs. unfold applyRecords. apply calls_in_bind.
    - generalize (@nil string). induction addrs as [|fa addrs IH]; intros published; [done|]. cbn [publish_addresses].
      destruct (dnsRecordTypeFor _) as [ty ok]. destruct (_ || _); [done|]. split; [intros _; watched|].
      intros [e|]; [exact I|apply IH].
    - intros [published|e]; [|done]. apply calls_in_bind; [|intros [e|]; [done|]; split; [|done]; intros _; watched].
      induction [DNSRecordTypeA; DNSRecordTypeAAAA] as [|ty types IH]; [done|]. cbn [unpublish].
      case_bool_decide; [exact IH|]. split; [done|]. intros [e|]; [|exact IH]. cbn.
      destruct (kerrors_IsNotFound e); [exact IH|done]. }
  unfold RpCluster.Reconcile, RpCluster.reconcileDelete, releaseDomain, releaseCluster, mintToken, deploy, enroll,
    registerDomain, notReady, ensureDomain, create_domain, anotherClusterMatches, RpCluster.ensureZone,
    applyDeployment, applyService, serviceAddresses, delete_tolerant, patch, patch_observed.
  calls_run ltac:(first [apply Hrec|callee_children]).
Qed.

Lemma GatewayClass_children managed name :
  calls_in (only_children []) (GatewayClassReconciler.Reconcile managed name).
Proof. unfold GatewayClassReconciler.Reconcile, GatewayClassReconciler.ensure. children_run. Qed.

Lemma Gateway_children ns name :
  calls_in (only_children (w_Owns Gateway_watches)) (GatewayReconciler.Reconcile ns name).
Proof.
  assert (forall gw cfg programmed routes ls, calls_in (only_children (w_Owns Gateway_watches))
    (GatewayReconciler.listener_loop gw cfg programmed routes ls)) as Hl.
  { intros gw cfg programmed routes ls. induction ls as [|l ls IH]; [done|]. cbn [GatewayReconciler.listener_loop].
    unfold GatewayReconciler.secretExists. calls_run ltac:(apply IH). }
  unfold GatewayReconciler.Reconcile, GatewayReconciler.fail, GatewayReconciler.syncStatus,
    GatewayReconciler.listenerStatuses, GatewayReconciler.resolveGatewayParams.
  calls_run ltac:(first [apply Hl|callee_children]).
Qed.

Lemma HTTPRoute_children ns name :
  calls_in (only_children (w_Owns HTTPRoute_watches)) (HTTPRouteReconciler.Reconcile ns name).
Proof.
  assert (forall route ps, calls_in (only_children (w_Owns HTTPRoute_watches))
    (HTTPRouteReconciler.resolveGateway_loop route ps)) as Hg.
  { intros route ps. induction ps as [|p ps IH]; [done|]. cbn [HTTPRouteReconciler.resolveGateway_loop].
    calls_run ltac:(apply IH). }
  unfold HTTPRouteReconciler.Reconcile, HTTPRouteReconciler.resolveGateway, HTTPRouteReconciler.prune,
    HTTPRouteReconciler.setRouteCondition.
  assert (forall route cfg owner backends hs, calls_in (only_children (w_Owns HTTPRoute_watches))
    (HTTPRouteReconciler.apply_services route cfg owner backends hs)) as Hs.
  { intros route cfg owner backends hs. induction hs as [|h hs IH]; [done|]. split; [intros _; watched|].
    intros [e|]; [exact I|exact IH]. }
  calls_run ltac:(first [apply Hg|apply Hs|apply delete_undesired_children|callee_children]).
Qed.
End children.

(** C16: a change to a child brings its owner back: every object a controller
    applies with an owner reference is of a kind the controller's manager
    builder watches for its owner, so that its change or loss is reconciled -
    for every controller and run, with one exception: the Secret of a
    ClusterProxy is applied but not watched. *)
Theorem children_watched `{ErrorClass} `{K8sLib} `{SortSlice} mode_text c ns name :
  wp (reconcile_of mode_text c ns name) (fun t _ => forall ac r,
    Entry (KApply ac) r ∈ t -> is_child ac ->
    applied_kind ac ∈ w_Owns (SetupWithManager c) \/
    (exists key url, c = ClusterProxyController key url) /\ applied_kind ac = Watched KSecret).
Proof.
  assert (forall owns (p : M outcome), calls_in (only_children owns) p ->
    (forall w, w ∈ owns -> w ∈ w_Owns (SetupWithManager c) \/
       (exists key url, c = ClusterProxyController key url) /\ w = Watched KSecret) ->
    wp p (fun t _ => forall ac r, Entry (KApply ac) r ∈ t -> is_child ac ->
      applied_kind ac ∈ w_Owns (SetupWithManager c) \/
      (exists key url, c = ClusterProxyController key url) /\ applied_kind ac = Watched KSecret)) as Hp.
  { intros owns p Hc Hw. eapply wp_mono; [by apply calls_in_wp|]. intros t a Ht ac r Hin Hch.
    apply Hw. exact (Ht _ _ Hin Hch). }
  assert (forall w, w ∈ w_Owns (SetupWithManager c) -> w ∈ w_Owns (SetupWithManager c) \/
       (exists key url, c = ClusterProxyController key url) /\ w = Watched KSecret) as Hsame by auto.
  destruct c; cbn [reconcile_of].
  - eapply Hp; [apply SetupKey_children|exact Hsame].
  - eapply Hp; [apply Group_children|exact Hsame].
  - eapply Hp; [apply ClusterProxy_children|]. intros w [->|Hw]%elem_of_cons; [right; eauto|by left].
  - eapply Hp; [|exact Hsame]. apply mirror_children; intros o; cbn [m_apply m_del NewNetworkReconciler];
      unfold applyNetwork, deleteNetwork, verifyNetbirdID, get_err; children_run.
  - eapply Hp; [|exact Hsame]. apply mirror_children; intros o; cbn [m_apply m_del NewNetworkResourceReconciler];
      unfold applyNetworkResource, deleteNetworkResource, resolveNetworkID, verifyNetbirdID, get_err; children_run.
  - eapply Hp; [|exact Hsame]. apply mirror_children; intros o; cbn [m_apply m_del NewDNSZoneReconciler];
      unfold applyDNSZone, deleteDNSZone, dnsZoneSharedByOther, upsertZone, verifyNetbirdID, get_err; children_run.
  - eapply Hp; [|exact Hsame]. apply mirror_children; intros o; cbn [m_apply m_del NewDNSRecordReconciler];
      unfold applyDNSRecord, deleteDNSRecord, resolveZoneID, upsertRecord, verifyNetbirdID, get_err; children_run.
  - eapply Hp; [apply NetworkRouter_children|exact Hsame].
  - eapply Hp; [apply LoadBalancer_children|exact Hsame].
  - eapply Hp; [|exact Hsame]. apply mirror_children; intros o; cbn [m_apply m_del NewReverseProxyServiceReconciler];
      unfold applyReverseProxyService, deleteReverseProxyService.
    + apply calls_in_bind; [eapply calls_in_mono; [apply read_only_children|apply renderService_reads]|].
      intros [req|e]; children_run.
    + children_run.
  - eapply Hp; [apply RpCluster_children|exact Hsame].
  - eapply Hp; [apply GatewayClass_children|exact Hsame].
  - eapply Hp; [apply Gateway_children|exact Hsame].
  - eapply Hp; [apply HTTPRoute_children|exact Hsame].
Qed.

(** ** Start-up *)

Lemma register_all_spec setup steps rs err :
  register_all setup steps = (rs, err) ->
  match err with
  | None => rs = map snd steps /\ forall r, r ∈ rs -> setup r = None
  | Some (prefix, e) => exists before r after, steps = before ++ (prefix, r) :: after /\
      rs = map snd before /\ setup r = Some e
  end.
Proof.
  revert rs err. induction steps as [|[prefix r] steps IH]; intros rs err; cbn.
  - intros [= <- <-]. split; [done|]. by intros ? ?%not_elem_of_nil.
  - destruct (setup r) as [e|] eqn:Hr; [intros [= <- <-]; by exists [], r, steps|].
    destruct (register_all setup steps) as [rs' err'] eqn:E. intros [= <- <-]. specialize (IH _ _ eq_refl).
    destruct err' as [[p e]|].
    + destruct IH as (before & r' & after & -> & -> & ?). by exists ((prefix, r) :: before), r', after.
    + destruct IH as [-> Hall]. split; [done|]. intros r' [->|?]%elem_of_cons; auto.
Qed.

(** What a process runs: nothing without an API key; otherwise the eleven
    NetBird controllers, and the Gateway API ones with the seeder when they are
    enabled; the proxies of both kinds talk to the same management URL, and the
    client image is the built-in one unless the option names another. *)
Theorem main_registers f l p :
  main f l = Ok p ->
  let url := fl_managementURL f in
  let image := if String.eqb (fl_netbirdClientImage f) "" then NetbirdClientImage else fl_netbirdClientImage f in
  Options (fl_logLevel f) (fl_logFormat f) = Ok (p_log p) /\
  getRuntimeNamespace (fl_runtimeNamespace f) (namespace_file l) = Ok (p_Namespace p) /\
  p_webhook p = (if fl_enableWebhooks f then Some (url, image) else None) /\
  (p_ready p = WebhookStarted <-> fl_webhookCertPath f <> "") /\
  (forall c, Controller c ∈ p_registered p <-> fl_netbirdAPIKey f <> "" /\
     (c ∈ [SetupKeyController; GroupController; ClusterProxyController (fl_netbirdAPIKey f) url;
           NetworkController; NetworkResourceController; DNSZoneController; DNSRecordController;
           NetworkRouterController image url;
           LoadBalancerController (mkLoadBalancerReconciler (fl_advertiseLBs f) (p_Namespace p) (fl_lbNetwork f)
             (fl_lbDNSZone f) (splitGroups (fl_lbDNSZoneGroups f)) (splitGroups (fl_defaultResourceGroups f)) true);
           ReverseProxyServiceController; ReverseProxyClusterController url] \/
      fl_enableGatewayAPI f = true /\
      c ∈ [GatewayClassController (fl_gatewayClassName f); GatewayController; HTTPRouteController])).
Proof.
  unfold main. destruct (Options _ _) as [zo|]; [|done]. unfold or_exit.
  destruct (url_Parse _ _); [done|]. destruct (getRuntimeNamespace _ _) as [ns|]; [|done]. cbv zeta.
  destruct (if negb (String.eqb (fl_webhookCertPath f) "") then certwatcher_New _ _ else _); [done|].
  destruct (NewManager l); [done|]. destruct (if fl_enableWebhooks f then _ else _); [done|].
  destruct (setupControllers _ _ _ _ _ _ _ _ _ _ _ _) as [rs err] eqn:E. destruct err as [?|]; [done|].
  destruct (if negb (String.eqb (fl_webhookCertPath f) "") then _ else _); [done|].
  destruct (AddHealthzCheck l); [done|]. destruct (AddReadyzCheck l); [done|]. intros [= <-]. cbn.
  split; [done|]. split; [done|]. split; [done|]. split; [by destruct (String.eqb_spec (fl_webhookCertPath f) "")|].
  intros c. unfold setupControllers in E. destruct (String.eqb_spec (fl_netbirdAPIKey f) "") as [Hk|Hk].
  - injection E as <-. split; [by intros ?%not_elem_of_nil|by intros [? _]].
  - apply register_all_spec in E as [-> _]. rewrite map_app, elem_of_app.
    destruct (fl_enableGatewayAPI f); cbn; set_solver.
Qed.
