(* ===== verification/Mapping.v ===== *)
(** * Watch mappings

    The event handlers of [gateway_controller.go]: which resources a changed
    Gateway, GatewayClass or parameters object enqueues, and that these are the
    resources whose reconcile reads it. *)

From stdpp Require Import base gmap list strings.
From Stdlib Require Import ZArith Lia.
From S2P Require Import Prelude GoStrings GoErr Prog ApiTypes K8sTypes ApplyConf Env NetbirdUtil Reconcile Gateway GatewayCtl Operator.

Open Scope prog_scope.

Abbreviation request := (string * string)%type.










(** ** What a reconcile reads *)


Section reads.
Context `{ErrorClass} `{K8sLib}.












End reads.
