(* ===== verification/Writes.v ===== *)
(** * What a reconcile writes in the cluster

    Every write of every controller to the Kubernetes API server: which kinds it
    patches, updates, applies and deletes ([Footprint]), and that what it sends
    back of the resource it reconciles is what it read ([Identity.v]). *)

From stdpp Require Import base gmap list strings.
From Stdlib Require Import ZArith Lia Eqdep.
From S2P Require Import Prelude Sort GoStrings GoErr Prog ApiTypes K8sTypes ApplyConf Env NetbirdUtil Reconcile Mirror NetworkMirror ServiceAddr DNSMirror Rps Gateway GatewayCtl LoadBalancer RpCluster GroupCtl SetupKeyCtl Router ClusterProxyCtl Config Identity Operator.

Open Scope prog_scope.

(** ** The kinds a program writes *)

Record footprint := mkFootprint {
  f_patches : list kind;
  f_status : list kind;
  f_applies : list watched;
  f_deletes : list kind
}.

Definition inside (f : footprint) (c : call) : Prop :=
  match c with
  | KPatch k _ _ => k ∈ f_patches f
  | KStatusUpdate k _ => k ∈ f_status f
  | KApply ac => applied_kind ac ∈ f_applies f
  | KDelete k _ _ => k ∈ f_deletes f
  | _ => True
  end.

Lemma read_inside f c : is_read c -> inside f c.
Proof. by destruct c. Qed.

Ltac callee_inside := idtac;
  match goal with
  | |- calls_in _ _ => first
      [ apply calls_in_bind_result
      | match goal with
        | |- calls_in _ (bind_outcome _ _) => apply calls_in_bind
        | |- calls_in _ (then_outcome _ _) => apply calls_in_bind
        | |- calls_in _ (then_result _ _) => apply calls_in_bind
        end
      | eapply calls_in_mono; [apply read_inside|solve [auto with go_hints]] ]
  | |- _ ∈ _ => watched
  end.
Ltac inside_run := calls_run callee_inside.

(** A mirror patches its own resource. *)
Definition own (k : kind) : footprint := mkFootprint [k] [] [] [].

Definition SetupKey_writes : footprint := mkFootprint [KSetupKey] [] [Watched KSecret] [].
Definition NetworkRouter_writes : footprint :=
  mkFootprint [KNetworkRouter] [] [Watched KGroup; Watched KSetupKey; Watched KDaemonSet] [].
Definition ClusterProxy_writes : footprint :=
  mkFootprint [KClusterProxy] [] [Watched KSetupKey; Watched KSecret; WatchedDeployment] [].
Definition ReverseProxyCluster_writes : footprint :=
  mkFootprint [KReverseProxyCluster] []
    [Watched KSecret; Watched KDNSZone; WatchedDeployment; Watched KService; Watched KDNSRecord] [KDNSRecord].
Definition GatewayClass_writes : footprint := mkFootprint [] [KGatewayClass] [Watched KGatewayClass] [].
Definition Gateway_writes : footprint := mkFootprint [] [KGateway] [Watched KReverseProxyCluster] [].
Definition HTTPRoute_writes : footprint :=
  mkFootprint [] [KHTTPRoute] [Watched KReverseProxyService] [KReverseProxyService].
Definition LoadBalancer_writes : footprint :=
  mkFootprint [] [] [Watched KNetworkResource; Watched KDNSRecord; Watched KDNSZone] [KNetworkResource; KDNSRecord].

Section inside.
Context `{ErrorClass} `{K8sLib}.

Lemma mirror_inside {k} `{MirrorObject k} (m : mirror k) rec ns name :
  (forall o, calls_in (inside (own k)) (m_apply m o)) -> (forall o, calls_in (inside (own k)) (m_del m o)) ->
  calls_in (inside (own k)) (Mirror.Reconcile m rec ns name).
Proof.
  intros Ha Hd. unfold Mirror.Reconcile, Mirror.reconcileDelete, recordEvent, recordEventType, patch, patch_observed.
  calls_run ltac:(first [apply Ha|apply Hd|match goal with |- _ ∈ _ => left end]).
Qed.

Lemma SetupKey_inside rec ns name : calls_in (inside SetupKey_writes) (SetupKeyCtl.Reconcile rec ns name).
Proof.
  unfold SetupKeyCtl.Reconcile, SetupKeyCtl.reconcileDelete, up_to_date, replace_key, recordEvent, recordEventType,
    delete_tolerant, patch, patch_observed.
  inside_run.
Qed.

Lemma Group_inside rec ns name : calls_in (inside (own KGroup)) (GroupCtl.Reconcile rec ns name).
Proof.
  unfold GroupCtl.Reconcile, GroupCtl.reconcileDelete, ensure_group, create_group, recordEvent, recordEventType,
    patch, patch_observed.
  inside_run.
Qed.

Lemma ClusterProxy_inside ApiKey ManagementURL ns name :
  calls_in (inside ClusterProxy_writes) (ClusterProxyCtl.Reconcile ApiKey ManagementURL ns name).
Proof. unfold ClusterProxyCtl.Reconcile, patch_observed. inside_run. Qed.

Lemma resolvePeerGroup_inside ClientImage ManagementURL nr :
  calls_in (inside NetworkRouter_writes) (resolvePeerGroup ClientImage ManagementURL nr).
Proof.
  unfold resolvePeerGroup. destruct (peers_Group _) as [g|].
  - apply calls_in_bind_result; [|done]. eapply calls_in_mono; [apply read_inside|apply GetGroupIDs_reads].
  - unfold ensureDeployedPeers, ensureDaemonSet. inside_run.
Qed.

Lemma NetworkRouter_inside ClientImage ManagementURL ns name :
  calls_in (inside NetworkRouter_writes) (Router.Reconcile ClientImage ManagementURL ns name).
Proof.
  unfold Router.Reconcile, Router.reconcileDelete, sync, resolveNetworkID, upsertRouter, verifyNetbirdID, get_err,
    dependency, delete_tolerant, patch, patch_observed.
  calls_run ltac:(first [apply resolvePeerGroup_inside|callee_inside]).
Qed.

Lemma delete_undesired_inside {k} f (meta : obj k -> ObjectMeta) desired items :
  k ∈ f_deletes f -> calls_in (inside f) (delete_undesired k meta desired items).
Proof.
  intros Hk. induction items as [|o items IH]; [done|]. cbn. destruct (bool_decide _); [done|]. split; [done|].
  intros [e|]; [|done]. destruct (kerrors_IsNotFound e); done.
Qed.

Lemma advertise_inside svc network zone owner gs ingress desired :
  calls_in (inside LoadBalancer_writes) (advertise svc network zone owner gs ingress desired).
Proof.
  revert desired. induction ingress as [|fa ingress IH]; intros desired; [done|].
  cbn [advertise]. destruct (dnsRecordTypeFor _) as [ty ok]. destruct (negb ok); [done|].
  split; [cbn; watched|]. intros [e|]; [done|]. split; [cbn; watched|]. intros [e|]; [done|]. apply IH.
Qed.

Lemma LoadBalancer_inside r ns name : calls_in (inside LoadBalancer_writes) (LoadBalancer.Reconcile r ns name).
Proof.
  unfold LoadBalancer.Reconcile, resolveNetwork, LoadBalancer.ensureZone, LoadBalancer.prune, dependencyRequeue,
    recordEvent, recordNormalEvent, recordEventType.
  calls_run ltac:(first [apply advertise_inside|apply delete_undesired_inside; watched|callee_inside]).
Qed.

Lemma applyRecords_inside rpc owner zone addrs :
  calls_in (inside ReverseProxyCluster_writes) (applyRecords rpc owner zone addrs).
Proof.
  unfold applyRecords. apply calls_in_bind.
  - generalize (@nil string). induction addrs as [|fa addrs IH]; intros published; [done|]. cbn [publish_addresses].
    destruct (dnsRecordTypeFor _) as [ty ok]. destruct (_ || _); [done|]. split; [cbn; watched|].
    intros [e|]; [exact I|apply IH].
  - intros [published|e]; [|done]. apply calls_in_bind; [|intros [e|]; [done|]; split; [|done]; cbn; watched].
    induction [DNSRecordTypeA; DNSRecordTypeAAAA] as [|ty types IH]; [done|]. cbn [unpublish].
    case_bool_decide; [exact IH|]. split; [cbn; watched|]. intros [e|]; [|exact IH]. cbn.
    destruct (kerrors_IsNotFound e); [exact IH|done].
Qed.

Lemma RpCluster_inside ManagementURL ns name :
  calls_in (inside ReverseProxyCluster_writes) (RpCluster.Reconcile ManagementURL ns name).
Proof.
  unfold RpCluster.Reconcile, RpCluster.reconcileDelete, releaseDomain, releaseCluster, mintToken, deploy, enroll,
    registerDomain, notReady, ensureDomain, create_domain, anotherClusterMatches, RpCluster.ensureZone,
    applyDeployment, applyService, serviceAddresses, delete_tolerant, patch, patch_observed.
  calls_run ltac:(first [apply applyRecords_inside|callee_inside]).
Qed.

Lemma GatewayClass_inside managed name :
  calls_in (inside GatewayClass_writes) (GatewayClassReconciler.Reconcile managed name).
Proof. unfold GatewayClassReconciler.Reconcile, GatewayClassReconciler.ensure. inside_run. Qed.

Lemma Gateway_inside ns name : calls_in (inside Gateway_writes) (GatewayReconciler.Reconcile ns name).
Proof.
  assert (forall gw cfg programmed routes ls, calls_in (inside Gateway_writes)
    (GatewayReconciler.listener_loop gw cfg programmed routes ls)) as Hl.
  { intros gw cfg programmed routes ls. induction ls as [|l ls IH]; [done|]. cbn [GatewayReconciler.listener_loop].
    unfold GatewayReconciler.secretExists. calls_run ltac:(apply IH). }
  unfold GatewayReconciler.Reconcile, GatewayReconciler.fail, GatewayReconciler.syncStatus,
    GatewayReconciler.listenerStatuses, GatewayReconciler.resolveGatewayParams.
  calls_run ltac:(first [apply Hl|callee_inside]).
Qed.

Lemma HTTPRoute_inside ns name : calls_in (inside HTTPRoute_writes) (HTTPRouteReconciler.Reconcile ns name).
Proof.
  assert (forall route ps, calls_in (inside HTTPRoute_writes) (HTTPRouteReconciler.resolveGateway_loop route ps)) as Hg.
  { intros route ps. induction ps as [|p ps IH]; [done|]. cbn [HTTPRouteReconciler.resolveGateway_loop].
    calls_run ltac:(apply IH). }
  assert (forall route cfg owner backends hs, calls_in (inside HTTPRoute_writes)
    (HTTPRouteReconciler.apply_services route cfg owner backends hs)) as Hs.
  { intros route cfg owner backends hs. induction hs as [|h hs IH]; [done|]. split; [cbn; watched|].
    intros [e|]; [exact I|exact IH]. }
  unfold HTTPRouteReconciler.Reconcile, HTTPRouteReconciler.resolveGateway, HTTPRouteReconciler.prune,
    HTTPRouteReconciler.setRouteCondition.
  calls_run ltac:(first [apply Hg|apply Hs|apply delete_undesired_inside; watched|callee_inside]).
Qed.
End inside.

(** ** Every write, with what it sends *)

(** The run patches the resource it reconciles, as it read it up to finalizers
    and status, updates no status by other means, and applies and deletes
    objects of these kinds only. *)
Definition writes_back (k : kind) `{MirrorObject k} `{!Specified k} (applied : list watched) (deleted : list kind)
    (ns name : string) (t : history) : Prop :=
  forall c r, Entry c r ∈ t -> match c with
  | KPatch _ _ _ => exists (o0 o : obj k) b, c = KPatch k o b /\ Entry (KGet k ns name) (Ok o0) ∈ t /\ identity o0 o
  | KStatusUpdate _ _ => False
  | KApply ac => applied_kind ac ∈ applied
  | KDelete k' _ _ => k' ∈ deleted
  | _ => True
  end.

(** The run patches nothing, updates the status of the object it reconciles,
    which is otherwise the one it read, and applies and deletes objects of these
    kinds only. *)
Definition status_back (k : kind) (same : obj k -> obj k -> Prop) (applied : list watched) (deleted : list kind)
    (ns name : string) (t : history) : Prop :=
  forall c r, Entry c r ∈ t -> match c with
  | KPatch _ _ _ => False
  | KStatusUpdate _ _ => exists o0 o : obj k, c = KStatusUpdate k o /\ Entry (KGet k ns name) (Ok o0) ∈ t /\ same o0 o
  | KApply ac => applied_kind ac ∈ applied
  | KDelete k' _ _ => k' ∈ deleted
  | _ => True
  end.

Lemma writes_back_intro k `{MirrorObject k} `{!Specified k} applied deleted ns name (p : M outcome) :
  calls_in (inside (mkFootprint [k] [] applied deleted)) p -> wp p (fun t _ => sends_back k ns name t) ->
  wp p (fun t _ => writes_back k applied deleted ns name t).
Proof.
  intros Hc Hs. eapply wp_mono; [apply wp_and; [apply calls_in_wp, Hc|exact Hs]|].
  intros t out [Hin Hback] c r He. pose proof (Hin _ _ He) as Hf. destruct c; try exact Hf.
  - cbn in Hf. apply list_elem_of_singleton in Hf as ->. destruct (Hback _ _ _ He) as (o0 & ? & ?). by exists o0, o, observedGeneration.
  - cbn in Hf. by apply not_elem_of_nil in Hf.
Qed.

Lemma status_back_intro k same applied deleted ns name (p : M outcome) :
  calls_in (inside (mkFootprint [] [k] applied deleted)) p -> wp p (fun t _ => reports k same ns name t) ->
  wp p (fun t _ => status_back k same applied deleted ns name t).
Proof.
  intros Hc Hs. eapply wp_mono; [apply wp_and; [apply calls_in_wp, Hc|exact Hs]|].
  intros t out [Hin Hback] c r He. pose proof (Hin _ _ He) as Hf. pose proof (Hback _ _ He). destruct c; first [exact Hf|assumption].
Qed.

Section mirrors.
Context `{ErrorClass} `{K8sLib} {k : kind} `{MirrorObjectLaws k} `{!Specified k}.

Lemma mirror_writes_back m `{!MirrorBehaviour m} `{!Keeping m} rec ns name :
  (forall o, calls_in (inside (own k)) (m_apply m o)) -> (forall o, calls_in (inside (own k)) (m_del m o)) ->
  wp (Mirror.Reconcile m rec ns name) (fun t _ => writes_back k [] [] ns name t).
Proof. intros Ha Hd. apply writes_back_intro; [by apply mirror_inside|]. apply Reconcile_sends_back; apply _. Qed.
End mirrors.

(** C10: all that the controllers write in the cluster. The ten controllers of a
    custom resource patch that resource only, and in every object they send the
    spec and all metadata but the finalizers are those of the object read at the
    start. The controllers of GatewayClasses, Gateways and HTTPRoutes patch
    nothing; they update the status of the object they read, alone - and of a
    route's status leave the entries of other controllers. Beside that, each
    applies and deletes objects of the listed kinds only, none of them its own
    but the operator's GatewayClass. The LoadBalancer controller writes neither
    the Service it reads nor any other; of all controllers that of a
    ReverseProxyCluster alone applies a Service, and none deletes one. *)
Theorem reconcilers_keep_spec `{ErrorClass} `{SortSlice} `{K8sLib} mode_text rec ClientImage ManagementURL ApiKey lb
    ManagedClassName ns name :
  let keeps k `{Specified k} applied deleted (p : M outcome) := wp p (fun t _ => writes_back k applied deleted ns name t) in
  keeps KNetwork [] [] (Mirror.Reconcile NewNetworkReconciler rec ns name) /\
  keeps KNetworkResource [] [] (Mirror.Reconcile NewNetworkResourceReconciler rec ns name) /\
  keeps KDNSZone [] [] (Mirror.Reconcile NewDNSZoneReconciler rec ns name) /\
  keeps KDNSRecord [] [] (Mirror.Reconcile NewDNSRecordReconciler rec ns name) /\
  keeps KReverseProxyService [] [] (Mirror.Reconcile (NewReverseProxyServiceReconciler mode_text) rec ns name) /\
  keeps KGroup [] [] (GroupCtl.Reconcile rec ns name) /\
  keeps KSetupKey [Watched KSecret] [] (SetupKeyCtl.Reconcile rec ns name) /\
  keeps KNetworkRouter [Watched KGroup; Watched KSetupKey; Watched KDaemonSet] []
    (Router.Reconcile ClientImage ManagementURL ns name) /\
  keeps KClusterProxy [Watched KSetupKey; Watched KSecret; WatchedDeployment] []
    (ClusterProxyCtl.Reconcile ApiKey ManagementURL ns name) /\
  keeps KReverseProxyCluster
    [Watched KSecret; Watched KDNSZone; WatchedDeployment; Watched KService; Watched KDNSRecord] [KDNSRecord]
    (RpCluster.Reconcile ManagementURL ns name) /\
  wp (GatewayClassReconciler.Reconcile ManagedClassName name)
    (fun t _ => status_back KGatewayClass same_class [Watched KGatewayClass] [] "" name t) /\
  wp (GatewayReconciler.Reconcile ns name)
    (fun t _ => status_back KGateway same_gateway [Watched KReverseProxyCluster] [] ns name t) /\
  wp (HTTPRouteReconciler.Reconcile ns name)
    (fun t _ => status_back KHTTPRoute same_route [Watched KReverseProxyService] [KReverseProxyService] ns name t) /\
  wp (LoadBalancer.Reconcile lb ns name) (fun t _ => forall c r, Entry c r ∈ t -> match c with
    | KPatch _ _ _ | KStatusUpdate _ _ => False
    | KApply ac => applied_kind ac ∈ [Watched KNetworkResource; Watched KDNSRecord; Watched KDNSZone]
    | KDelete k _ _ => k ∈ [KNetworkResource; KDNSRecord]
    | _ => True
    end).
Proof.
  cbv zeta beta. repeat split_and.
  - apply mirror_writes_back; try apply _; intros o; cbn [m_apply m_del NewNetworkReconciler];
      unfold applyNetwork, deleteNetwork, verifyNetbirdID, get_err; inside_run.
  - apply mirror_writes_back; try apply _; intros o; cbn [m_apply m_del NewNetworkResourceReconciler];
      unfold applyNetworkResource, deleteNetworkResource, resolveNetworkID, verifyNetbirdID, get_err; inside_run.
  - apply mirror_writes_back; try apply _; intros o; cbn [m_apply m_del NewDNSZoneReconciler];
      unfold applyDNSZone, deleteDNSZone, dnsZoneSharedByOther, upsertZone, verifyNetbirdID, get_err; inside_run.
  - apply mirror_writes_back; try apply _; intros o; cbn [m_apply m_del NewDNSRecordReconciler];
      unfold applyDNSRecord, deleteDNSRecord, resolveZoneID, upsertRecord, verifyNetbirdID, get_err; inside_run.
  - apply mirror_writes_back; try apply _; intros o; cbn [m_apply m_del NewReverseProxyServiceReconciler];
      unfold applyReverseProxyService, deleteReverseProxyService; [|inside_run].
    apply calls_in_bind; [eapply calls_in_mono; [apply read_inside|apply renderService_reads]|].
    intros [req|e]; inside_run.
  - apply writes_back_intro; [apply Group_inside|apply Group_sends_back].
  - apply writes_back_intro; [apply SetupKey_inside|apply SetupKey_sends_back].
  - apply writes_back_intro; [apply NetworkRouter_inside|apply NetworkRouter_sends_back].
  - apply writes_back_intro; [apply ClusterProxy_inside|apply ClusterProxy_sends_back].
  - apply writes_back_intro; [apply RpCluster_inside|apply RpCluster_sends_back].
  - apply status_back_intro; [apply GatewayClass_inside|apply GatewayClass_reports].
  - apply status_back_intro; [apply Gateway_inside|apply Gateway_reports].
  - apply status_back_intro; [apply HTTPRoute_inside|apply HTTPRoute_reports].
  - eapply wp_mono; [apply calls_in_wp, LoadBalancer_inside|]. intros t out Ht c r Hin.
    specialize (Ht _ _ Hin). destruct c; try exact Ht; by apply not_elem_of_nil in Ht.
Qed.
