(* ===== verification/System.v ===== *)
(** * The operator as a whole: who owns what in NetBird

    Reconciles of many custom resources run concurrently and interleave, call
    by call, with users, other clients of NetBird, failures and restarts.  The
    system below is such an interleaving for one kind of custom resource and
    the NetBird collections it mirrors; the cache a reconcile reads from may be
    stale, and two reconciles of one resource may overlap.  Its invariant:
    every id a resource has ever recorded was handed out for that very
    resource, so that no reconcile updates or deletes an object that was
    created for another one. *)

From stdpp Require Import base gmap list strings.
From Stdlib Require Import ZArith Lia Eqdep.
From S2P Require Import Prelude Sort GoStrings GoErr Prog ApiTypes K8sTypes ApplyConf Env NetbirdUtil Reconcile Mirror NetworkMirror ServiceAddr Rps GroupCtl SetupKeyCtl Router Ownership.

Open Scope prog_scope.

(** ** The kinds that own what they mirror *)

#[export] Program Instance Network_recorder : Recorder KNetwork := {|
  family c := bool_decide (c = CNetworks);
  recorded := (fun n => net_NetworkID (Network_Status n) : string)
|}.
Solve All Obligations with done.

#[export] Program Instance NetworkResource_recorder : Recorder KNetworkResource := {|
  family c := match c with CResources _ => true | _ => false end;
  recorded := (fun n => nres_ResourceID (NetworkResource_Status n) : string)
|}.
Solve All Obligations with done.

#[export] Program Instance Rps_recorder : Recorder KReverseProxyService := {|
  family c := bool_decide (c = CServices);
  recorded := (fun n => rps_ServiceID (ReverseProxyService_Status n) : string)
|}.
Solve All Obligations with done.

#[export] Program Instance Group_recorder : Recorder KGroup := {|
  family c := bool_decide (c = CGroups);
  recorded := (fun n => group_GroupID (Group_Status n) : string)
|}.
Solve All Obligations with done.

#[export] Program Instance SetupKey_recorder : Recorder KSetupKey := {|
  family c := bool_decide (c = CSetupKeys);
  recorded := (fun n => sk_SetupKeyID (SetupKey_Status n) : string)
|}.
Solve All Obligations with done.

#[export] Program Instance NetworkRouter_recorder : Recorder KNetworkRouter := {|
  family c := match c with CRouters _ => true | _ => false end;
  recorded := (fun n => router_RouterID (NetworkRouter_Status n) : string)
|}.
Solve All Obligations with done.


#[export] Instance Network_tracked `{ErrorClass} : Tracked NewNetworkReconciler.
Proof.
  constructor; cbn [m_apply m_del NewNetworkReconciler]; intros.
  - unfold applyNetwork, verifyNetbirdID, get_err. owns_run fail. 
  - unfold deleteNetwork. owns_run fail.
Qed.

Lemma rehome_holds own (nr : obj KNetworkResource) network :
  holds own nr -> holds (k := KNetworkResource) own (rehome_resource nr network).
Proof. intros [Ho|Ho]; unfold holds; cbn in *; destruct (_ && _); auto. Qed.

#[export] Instance NetworkResource_tracked `{ErrorClass} : Tracked NewNetworkResourceReconciler.
Proof.
  constructor; cbn [m_apply m_del NewNetworkResourceReconciler]; intros.
  - unfold applyNetworkResource. apply owns_reads_bind; [unfold resolveNetworkID; calls_run fail|].
    intros own' [network|e] Hown; [|owns_run fail].
    assert (holds (k := KNetworkResource) own' (rehome_resource o network)) as Hr by (apply rehome_holds; held).
    assert (meta_key (GetMeta (k := KNetworkResource) (rehome_resource o network)) = me) as Hk by done.
    generalize dependent (rehome_resource o network). intros nr Hr Hk.
    unfold verifyNetbirdID, get_err. owns_run callee_reads.
  - unfold deleteNetworkResource. owns_run fail.
Qed.

#[export] Instance Rps_tracked `{ErrorClass} `{SortSlice} mode_text :
  Tracked (NewReverseProxyServiceReconciler mode_text).
Proof.
  constructor; cbn [m_apply m_del NewReverseProxyServiceReconciler]; intros.
  - unfold applyReverseProxyService.
    apply owns_reads_bind; [apply renderService_reads|]. intros own' [req|e] Hown; owns_run fail.
  - unfold deleteReverseProxyService. owns_run fail.
Qed.

Lemma Group_owns `{ErrorClass} `{K8sLib} recorder ns name own :
  owns (k := KGroup) (ns, name) own (GroupCtl.Reconcile recorder ns name) (fun _ _ => True).
Proof.
  apply (owns_read (k := KGroup)); [done|]. intros g own' Hk Hg.
  unfold GroupCtl.reconcileDelete, ensure_group, create_group, recordEvent, recordEventType, patch, patch_observed.
  owns_run fail.
Qed.

Lemma SetupKey_owns `{ErrorClass} `{K8sLib} recorder ns name own :
  owns (k := KSetupKey) (ns, name) own (SetupKeyCtl.Reconcile recorder ns name) (fun _ _ => True).
Proof.
  apply (owns_read (k := KSetupKey)); [done|]. intros sk own' Hk Hg.
  unfold SetupKeyCtl.reconcileDelete, up_to_date, replace_key, recordEvent, recordEventType, patch,
    patch_observed, delete_tolerant.
  owns_run callee_reads.
Qed.

Lemma set_network_holds own (nr : obj KNetworkRouter) network :
  holds own nr -> holds (k := KNetworkRouter) own (set_network nr network).
Proof. intros [Ho|Ho]; unfold holds; cbn in *; destruct (_ && _); auto. Qed.

(** The reconcile of a live router, once the network is known. *)
Lemma sync_owns `{ErrorClass} `{K8sLib} ClientImage ManagementURL me own nr :
  meta_key (GetMeta (k := KNetworkRouter) nr) = me -> holds (k := KNetworkRouter) own nr ->
  owns (k := KNetworkRouter) me own (sync ClientImage ManagementURL nr) (fun _ _ => True).
Proof.
  intros Hk Hn. unfold sync. apply owns_reads_bind; [unfold resolveNetworkID; calls_run fail|].
  intros own1 [network|e] Hown; [|unfold dependency, patch; owns_run fail].
  assert (holds (k := KNetworkRouter) own1 (set_network nr network)) as Hr by (apply set_network_holds; held).
  assert (meta_key (GetMeta (k := KNetworkRouter) (set_network nr network)) = me) as Hk' by done.
  generalize dependent (set_network nr network). clear nr Hk Hn. intros nr Hn Hk.
  apply owns_neutral_bind; [eapply calls_in_mono; [|apply resolvePeerGroup_calls]|].
  - intros c [Hw Hp]. destruct c; cbn in *; done.
  - intros own2 [gid|e] Hown2; unfold upsertRouter, verifyNetbirdID, get_err, dependency, patch, patch_observed;
      owns_run fail.
Qed.

Lemma NetworkRouter_owns `{ErrorClass} `{K8sLib} ClientImage ManagementURL ns name own :
  owns (k := KNetworkRouter) (ns, name) own (Router.Reconcile ClientImage ManagementURL ns name) (fun _ _ => True).
Proof.
  apply (owns_read (k := KNetworkRouter)); [done|]. intros nr own' Hk Hg.
  destruct (deleting _); [unfold Router.reconcileDelete, delete_tolerant, patch; owns_run fail|].
  apply (owns_patch (k := KNetworkRouter)); [done|held|]. intros own2 Hown. apply sync_owns; [done|].
  held.
Qed.

(** ** The system *)
Section system.
Context {k : kind} `{MirrorObject k} `{!Recorder k}.
Context (reconcile : string -> string -> M outcome).
Implicit Types (me : key) (o : obj k).

(** [owner] is a ghost: for whom NetBird made each id it ever answered, [None]
    for another client.  [versions] is every version of every resource the API
    server ever stored, [threads] the reconciles in flight, each with what it
    has left to do. *)
Record state := mkState {
  owner : gmap string (option key);
  versions : list (obj k);
  threads : list (key * M outcome)
}.

Definition initial : state := mkState ∅ [] [].

(** Any documented answer: a read may return any version, be it stale, and a
    new object gets a new id. *)
Definition allowed (st : state) (e : event) : Prop :=
  documented (k := k) e /\
  (forall ns name o, e = Entry (KGet k ns name) (Ok o) -> o ∈ versions st) /\
  (forall c q x, e = Entry (NBCreate c q) (Ok x) -> family c = true -> owner st !! item_id c x = None).

(** The ids after the answer. *)
Definition hand_out me (c : call) : resp c -> gmap string (option key) -> gmap string (option key) :=
  match c with
  | NBCreate c _ => fun r ids =>
      match r with
      | Ok x => if family c then <[item_id c x := Some me]> ids else ids
      | Err _ => ids
      end
  | _ => fun _ ids => ids
  end.

(** A patch changes the fields it touches of the version stored at that time;
    it may have done so even when it answers an error. *)
Definition patched (st : state) (c : call) o' : Prop :=
  exists o b, c = KPatch k o b /\ meta_key (GetMeta o') = meta_key (GetMeta o) /\
    (recorded o' = recorded o \/
     exists v, v ∈ versions st /\ meta_key (GetMeta v) = meta_key (GetMeta o) /\ recorded o' = recorded v).

Inductive step (st : state) : state -> Prop :=
| step_create o : recorded o = ""%string ->
    step st (mkState (owner st) (o :: versions st) (threads st))
| step_edit o o' : o ∈ versions st -> meta_key (GetMeta o') = meta_key (GetMeta o) -> recorded o' = recorded o ->
    step st (mkState (owner st) (o' :: versions st) (threads st))
| step_other id : owner st !! id = None ->
    step st (mkState (<[id := None]> (owner st)) (versions st) (threads st))
| step_start ns name :
    step st (mkState (owner st) (versions st) (((ns, name), reconcile ns name) :: threads st))
| step_call before me c kont after r stored :
    threads st = before ++ (me, Call c kont) :: after ->
    allowed st (Entry c r) ->
    (stored = [] \/ exists o', patched st c o' /\ stored = [o']) ->
    step st (mkState (hand_out me c r (owner st)) (stored ++ versions st) (before ++ (me, kont r) :: after))
| step_stop before me p after :
    threads st = before ++ (me, p) :: after ->
    step st (mkState (owner st) (versions st) (before ++ after)).

Definition reachable (st : state) : Prop := rtc step initial st.

Definition owns_id (st : state) me (id : string) : Prop := owner st !! id = Some (Some me).

(** No reconcile touches an object that was not made for its resource, and no
    two resources record one object. *)
Definition exclusive : Prop := forall st, reachable st ->
  (forall me c id q kont, (me, Call (NBUpdate c id q) kont) ∈ threads st -> family c = true -> owns_id st me id) /\
  (forall me c id kont, (me, Call (NBDelete c id) kont) ∈ threads st -> family c = true -> owns_id st me id) /\
  (forall o1 o2, o1 ∈ versions st -> o2 ∈ versions st -> recorded o1 <> ""%string -> recorded o1 = recorded o2 ->
     meta_key (GetMeta o1) = meta_key (GetMeta o2)).

(** ** Its invariant *)

Record invariant (st : state) : Prop := {
  inv_versions : forall o, o ∈ versions st -> holds (owns_id st (meta_key (GetMeta o))) o;
  inv_threads : forall me p, (me, p) ∈ threads st -> owns (k := k) me (owns_id st me) p (fun _ _ => True)
}.

Lemma hand_out_keeps st me c r me' id :
  allowed st (Entry c r) -> owner st !! id = Some (Some me') -> hand_out me c r (owner st) !! id = Some (Some me').
Proof.
  intros (_ & _ & Hfresh) Hid. destruct c as [| | | | | | | |c q| | | | | | | |]; cbn; try done.
  destruct r as [x|e]; [|done]. destruct (family c) eqn:Hc; [|done].
  rewrite lookup_insert_ne; [done|]. intros Heq. specialize (Hfresh _ _ _ eq_refl Hc). congruence.
Qed.

Lemma gained_owned st me c r id :
  invariant st -> allowed st (Entry c r) -> gained (k := k) me (Entry c r) id ->
  hand_out me c r (owner st) !! id = Some (Some me).
Proof.
  intros Hinv Hall [(o & He & <- & Hne)|(c' & q & x & Hc & He & <-)].
  - destruct (Hall) as (Hdoc & Hread & _).
    assert (meta_key (GetMeta o) = me) as Hk.
    { rewrite He in Hdoc. destruct me. by apply documented_read in Hdoc. }
    destruct (inv_versions _ Hinv o (Hread _ _ _ He)) as [?|Hown]; [done|].
    rewrite Hk in Hown. by eapply hand_out_keeps.
  - apply (f_equal entry_call) in He as Hcall. cbn in Hcall. subst c. apply Entry_inj in He as ->. cbn.
    rewrite Hc. by rewrite lookup_insert_eq.
Qed.

(** More ids handed out, and versions and threads that keep to them. *)
Lemma invariant_grow st st' :
  invariant st ->
  (forall me id, owns_id st me id -> owns_id st' me id) ->
  (forall o, o ∈ versions st' -> o ∈ versions st \/ holds (owns_id st' (meta_key (GetMeta o))) o) ->
  (forall me p, (me, p) ∈ threads st' -> (me, p) ∈ threads st \/
     owns (k := k) me (owns_id st' me) p (fun _ _ => True)) ->
  invariant st'.
Proof.
  intros Hinv Hgrow Hv Ht. constructor.
  - intros o [Ho|?]%Hv; [|done]. eapply holds_mono; [|by apply (inv_versions _ Hinv)]. auto.
  - intros me p [Hp|?]%Ht; [|done]. eapply owns_mono; [| |by apply (inv_threads _ Hinv)]; auto.
Qed.

Context (reconcile_owns : forall ns name own,
  owns (k := k) (ns, name) own (reconcile ns name) (fun _ _ => True)).

Lemma invariant_step st st' : invariant st -> step st st' -> invariant st'.
Proof.
  intros Hinv Hstep. destruct Hstep as [o Ho|o o' Ho Hk Hr|id Hid|ns name|
    before me c kont after r stored Hth Hall Hst|before me p after Hth].
  - apply (invariant_grow st); cbn; [done|done| |auto]. intros o' [->|?]%elem_of_cons; [right; by left|by left].
  - apply (invariant_grow st); cbn; [done|done| |auto]. intros o1 [->|?]%elem_of_cons; [right|by left].
    rewrite Hk. unfold holds. rewrite Hr. by apply (inv_versions _ Hinv).
  - apply (invariant_grow st); cbn; auto. intros me i Hi. unfold owns_id in *; cbn.
    rewrite lookup_insert_ne; [done|]. congruence.
  - apply (invariant_grow st); cbn; [done|done|auto|]. intros me p [[= -> ->]|?]%elem_of_cons; [right|by left].
    apply reconcile_owns.
  - assert ((me, Call c kont) ∈ threads st) as Hin by (rewrite Hth; set_solver).
    destruct (inv_threads _ Hinv _ _ Hin) as [(_ & _ & Hpatch) Hk].
    apply (invariant_grow st); cbn; [done|..].
    + intros me' id. by apply hand_out_keeps.
    + intros o [Hs|?]%elem_of_app; [right|by left].
      destruct Hst as [->|(o' & (o0 & b & Hc & Hm & Hrec) & ->)]; [by apply not_elem_of_nil in Hs|].
      apply list_elem_of_singleton in Hs as ->. rewrite Hm. destruct (Hpatch o0 b Hc) as [<- Hh].
      assert (holds (owns_id st (meta_key (GetMeta o0))) o') as Ho'.
      { unfold holds. destruct Hrec as [->|(v & Hv & <- & ->)]; [done|by apply (inv_versions _ Hinv)]. }
      eapply holds_mono; [|exact Ho']. intros id. by apply hand_out_keeps.
    + intros me' p Hp. rewrite elem_of_app, elem_of_cons in Hp. rewrite Hth, elem_of_app, elem_of_cons.
      destruct Hp as [?|[[= -> ->]|?]]; [by auto|right|by auto].
      eapply owns_mono; [| |apply Hk; by destruct Hall]; [|done].
      intros id [Hid|Hid]; [by apply hand_out_keeps|by eapply gained_owned].
  - apply (invariant_grow st); cbn; [done|done|auto|]. intros me' p' Hp. left. rewrite Hth. set_solver.
Qed.

Lemma reachable_invariant st : reachable st -> invariant st.
Proof.
  assert (invariant initial) as H0 by (constructor; cbn; set_solver).
  intros Hr. unfold reachable in Hr. remember initial as s0 eqn:E. clear E.
  induction Hr as [|s1 s2 s3 Hs _ IH]; [done|]. by apply IH, (invariant_step s1).
Qed.

(** Answers the servers may give. *)
Lemma allowed_read st ns name o :
  o ∈ versions st -> meta_key (GetMeta o) = (ns, name) -> allowed st (Entry (KGet k ns name) (Ok o)).
Proof.
  assert (forall ns' name' o', Entry (resp := resp) (KGet k ns name) (Ok o) = Entry (KGet k ns' name') (Ok o') ->
    ns = ns' /\ name = name' /\ o = o') as Hinj.
  { intros ns' name' o' Heq. pose proof (f_equal entry_call Heq) as Hc. cbn in Hc. injection Hc as -> ->.
    apply Entry_inj in Heq. by injection Heq. }
  intros Ho Hk. split; [split|split]; try by intros c ? x ?%(f_equal entry_call).
  - by intros ? ? ? (<- & <- & <-)%Hinj.
  - by intros c ? ? ? ?%(f_equal entry_call).
  - by intros ? ? ? (<- & <- & <-)%Hinj.
Qed.

Lemma allowed_create st c q x : owner st !! item_id c x = None -> allowed st (Entry (NBCreate c q) (Ok x)).
Proof.
  intros Hx. split; [split|split]; try by intros ? ? ? ?%(f_equal entry_call).
  - by intros ? ? ? ? ?%(f_equal entry_call).
  - intros c' q' x' Heq _. pose proof (f_equal entry_call Heq) as Hc. cbn in Hc. injection Hc as -> ?.
    apply inj_pair2 in H0 as ->. apply Entry_inj in Heq. by injection Heq as <-.
Qed.

Lemma allowed_any st c r : is_nb_write c = false -> (forall ns name, c <> KGet k ns name) -> allowed st (Entry c r).
Proof.
  intros Hc Hk. split; [split|split]; intros *; intros Heq%(f_equal entry_call); cbn in Heq; subst; try done;
    by destruct (Hk _ _ eq_refl).
Qed.

Lemma reconcile_exclusive : exclusive.
Proof.
  intros st Hinv%reachable_invariant. split; [|split].
  - intros me c id q kont Hin Hc. destruct (inv_threads _ Hinv _ _ Hin) as [(Hu & _) _]. by eapply Hu.
  - intros me c id kont Hin Hc. destruct (inv_threads _ Hinv _ _ Hin) as [(_ & Hd & _) _]. by eapply Hd.
  - intros o1 o2 H1 H2 Hne Heq. apply (inv_versions _ Hinv) in H1 as [?|H1], H2 as [?|H2]; congruence.
Qed.
End system.

(** C1: many reconciles, users, other clients of NetBird, stale reads, failed
    and repeated calls and restarts, in any interleaving: a reconcile of a
    Network, NetworkResource, NetworkRouter, Group, SetupKey or
    ReverseProxyService only ever updates or deletes NetBird objects that were
    created for its own resource, and two resources of a kind never record the
    same object. *)
Theorem reconcilers_exclusive `{ErrorClass} `{K8sLib} `{SortSlice} mode_text rec ClientImage ManagementURL :
  exclusive (k := KNetwork) (Mirror.Reconcile NewNetworkReconciler rec) /\
  exclusive (k := KNetworkResource) (Mirror.Reconcile NewNetworkResourceReconciler rec) /\
  exclusive (k := KNetworkRouter) (Router.Reconcile ClientImage ManagementURL) /\
  exclusive (k := KGroup) (GroupCtl.Reconcile rec) /\
  exclusive (k := KSetupKey) (SetupKeyCtl.Reconcile rec) /\
  exclusive (k := KReverseProxyService) (Mirror.Reconcile (NewReverseProxyServiceReconciler mode_text) rec).
Proof.
  repeat split_and; apply reconcile_exclusive; intros.
  1, 2, 6: apply Reconcile_owns; apply _.
  - apply NetworkRouter_owns.
  - apply Group_owns.
  - apply SetupKey_owns.
Qed.

(** ** A second reconcile updates what the first one created *)
Module SystemRun.
Import MirrorRuns.

Abbreviation net_step := (step (k := KNetwork) (Mirror.Reconcile NewNetworkReconciler false)).
Abbreviation net_state := (state (k := KNetwork)).
Definition me0 : key := ("default", "net")%string.
Definition created : api.Network := api.mkNetwork "n-1" "corp" None.

(** The only thread gets an answer. *)
Lemma only_thread (st : net_state) c kont r stored (st' : net_state) :
  threads st = [(me0, Call c kont)] -> allowed st (Entry c r) ->
  (stored = [] \/ exists o', patched st c o' /\ stored = [o']) ->
  rtc net_step (mkState (hand_out (k := KNetwork) me0 c r (owner st)) (stored ++ versions st) [(me0, kont r)]) st' ->
  rtc net_step st st'.
Proof.
  intros Hth Hall Hst Hr. eapply rtc_l; [|exact Hr].
  apply (step_call _ st [] me0 c kont [] r stored); done.
Qed.

Ltac persists o b := right; exists o; split; [|done]; exists o, b; auto.

Lemma update_reachable : exists (st : net_state) q kont,
  reachable (k := KNetwork) (Mirror.Reconcile NewNetworkReconciler false) st /\
  threads st = [(me0, Call (NBUpdate CNetworks "n-1" q) kont)] /\ owns_id st me0 "n-1".
Proof.
  do 3 eexists. split; [|split].
  - unfold reachable, initial. eapply rtc_l; [by apply (step_create (k := KNetwork) _ _ net0)|].
    eapply rtc_l; [apply (step_start (k := KNetwork) _ _ "default" "net")|]. cbn.
    eapply (only_thread _ (KGet KNetwork "default" "net") _ (Ok net0) []); [reflexivity| |by left|].
    { apply (allowed_read (k := KNetwork)); [set_solver|done]. }
    eapply (only_thread _ (KPatch KNetwork fin0 false) _ None [fin0]); [reflexivity|by apply allowed_any|persists fin0 false|].
    eapply (only_thread _ (NBCreate CNetworks (api.mkNetworkRequest "corp" None)) _ (Ok created) []);
      [reflexivity|by apply (allowed_create (k := KNetwork))|by left|].
    eapply (only_thread _ (KPatch KNetwork applied true) _ None [applied]); [reflexivity|by apply allowed_any|persists applied true|].
    cbn -[insert]. eapply rtc_l; [by eapply (step_stop (k := KNetwork) _ _ [] me0 _ [])|]. cbn -[insert].
    eapply rtc_l; [apply (step_start (k := KNetwork) _ _ "default" "net")|]. cbn -[insert].
    eapply (only_thread _ (KGet KNetwork "default" "net") _ (Ok applied) []); [reflexivity| |by left|].
    { apply (allowed_read (k := KNetwork)); [set_solver|done]. }
    eapply (only_thread _ (KPatch KNetwork applied false) _ None []); [reflexivity|by apply allowed_any|by left|].
    eapply (only_thread _ (NBGet CNetworks "n-1") _ (Ok created) []); [reflexivity|by apply allowed_any|by left|].
    apply rtc_refl.
  - reflexivity.
  - reflexivity.
Qed.
End SystemRun.
